(* ===== verification/_CoqProject ===== *)
-Q . S2P
Prelude.v
GoStrings.v
Regex.v
Kube.v
Api.v
Cluster.v
Vendor.v
Util.v
Resource.v
Creators.v
Scheme.v
MemServer.v
Config.v
Flags.v
Samples.v
Pod.v
Observability.v
AccessPolicy.v
Wonderwall.v
Identity.v
Platform.v
Vault.v
Aiven.v
Postgres.v
Google.v
SqlFlags.v
GoogleSql.v
Gcp.v
Ingress.v
Deployment.v
Scaling.v
Batch.v
Mounts.v
Updater.v
Readonly.v
Synchronizer.v
SynchronizerProps.v
Rollout.v
Cleanup.v
Generators.v
Controllers.v
Main.v
Delivery.v
SharedListers.v
Deepcomp.v
Goldenfile.v
Monitoring.v
