(* ===== verification/Prelude.v ===== *)
(** * Naiserator: a verification development (root file)

    Naiserator is a Kubernetes controller. It watches two custom resources,
    Application and Naisjob (together: workloads), and turns each of them into the
    resources that run it: a Deployment or CronJob, network policies, ingresses, secrets,
    identity-provider clients, databases. This development translates the Go code
    under [src/] and proves what makes it correct. Definitions keep the names of
    the Go functions; where two packages use one name, the package is a prefix
    ([ingress_Create], [login_Create]).

    ** How the program works, and where it is modelled

    [cmd/naiserator/main.go] reads the configuration and starts two controllers
    ([Main], which also has the webhook program of cmd/naiserator_webhook;
    configuration in [Config] and [Flags]). A controller turns the events of its
    watches into keys of workloads and reconciles each key ([Controllers]).

    - [Synchronizer] (pkg/synchronizer): [Reconcile] reads the workload, adds the
      finalizer or cleans up after a deletion, compares hash and image with the
      recorded ones ([Prepare]), has a generator make the operations, finds what the
      workload owns and no longer wants ([Unreferenced]), executes the commits in
      order and writes the status. The resource types searched are in [Scheme]
      (pkg/scheme). [SynchronizerProps] holds the theorems; [Rollout] those on what a
      whole rollout and reconciliation achieve, [Cleanup] the one on the deletion of a
      workload, [Delivery] the composition of all of it in the running program.
    - [Updater] (updater/updater.go): what one commit does to one object: create or
      update, recreate, create if absent, delete, annotate; the ownership test and the
      fields an update keeps; [FindAll]. [Readonly] (pkg/readonly) is the client that
      drops writes, used by [Prepare] and in dry-run mode. [SharedListers] runs any
      number of [FindAll]s concurrently over the list objects they share.
    - [Monitoring] (pkg/synchronizer/monitoring.go): the goroutines that wait for a
      rollout to complete, the map that names them and the lock that guards it.
    - [Generators] (pkg/generators): [Prepare] reads what the generation depends on
      from the cluster, [Generate] runs the resource creators over a fresh [Ast].
    - The creators (pkg/resourcecreator): [Resource] has the [Ast], the metadata
      and the shared names; [Pod], [Deployment], [Batch] and [Scaling] make what
      runs; [AccessPolicy], [Ingress] and [Identity] how it is reached and who it
      is; [Wonderwall] and [Identity] its logins; [Observability], [Platform] and
      [Vault] the platform's services; [Aiven], [Postgres], [Google], [GoogleSql],
      [SqlFlags] and [Gcp] its databases, queues and buckets. [Mounts] types the
      pods all of them contribute to. [Creators] states the contract between the
      creators and the generators.
    - [Util] (pkg/util), [GoStrings] and [Regex] (the parts of Go's strings, path,
      strconv, encoding and regexp packages the code uses).
    - [Deepcomp] and [Goldenfile] (pkg/test/deepcomp, pkg/test/goldenfile): the
      comparison of documents by which the creators' own tests state what they expect.

    ** How code is modelled

    A pure function is a function; one that returns an error is a function into [res]
    (this file), whose [Panic] errors are Go's run-time panics. Code that talks to the
    cluster is a [prog] (Cluster.v), a tree of client calls with a continuation for
    every answer; [run] executes it against an [ApiServer]. The server is an
    interface: its laws ([ApiServerLaws]) are the documented behaviour of the
    Kubernetes API (reads change nothing, failed writes change nothing, lists are
    sound and complete for their labels and namespace, a status update changes
    statuses only). What the server stores when it is sent an object is left to it, a
    relation ([persisted]): it fills in defaults and the fields it manages. A run
    describes the program's own calls in isolation: between them, and while the program
    sleeps ([server_isolated]), nobody else writes. [MemServer] is an executable server with optimistic locking,
    finalizers and injected failures that satisfies all of them; the witnesses run on
    it. Third-party functions (nais/liberator, apimachinery, net/url, mergo,
    hashstructure, viper, the random source) are the fields of interfaces in
    [Vendor], [Flags] and [Main], with the laws that theorems rely on in separate
    classes; [Samples] has concrete instances. Concurrency is a step relation over
    the critical sections of the code ([Monitoring]) or over single accesses
    ([SharedListers]). Go ints are [Z], with the conversions to int32 and int64 and
    the overflow of a retention period written out ([FromInt] truncates as Go's
    does). Network policies have the semantics of Kubernetes' documentation for
    connections with an address, a pod where there is one, a protocol and a port
    ([AccessPolicy]); which addresses a CIDR block has is a parameter ([CidrLib]). The iteration order of Go maps
    is a parameter, any enumeration of the entries.

    ** What is proved

    - The whole program: when a reconciliation ends in monitoring a workload, the
      objects generated from its stored manifest are in the cluster with the contents the
      generator gave them, and its leftovers are gone or wait for their finalizers
      ([program_delivers], which composes [Main], [Controllers], [Synchronizer],
      [Generators] and [Updater]).
    - Rollouts: execution refines its specification (in order, up to the first
      failure, retried exactly on conflicts); the commits delete exactly what the
      workload owns, is of a listed type and is wanted no more; what a generator once
      emitted is found later, except ConfigMaps and PodMonitors; a rollout changes
      nothing outside the workload's namespaces that it does not own; an object of
      another owner is never overwritten; a reconciliation that asks for nothing more
      settles the workload, so that the next one changes nothing; a deleted workload
      loses its finalizer only when its Google identities and its Image are gone;
      [Prepare] is read-only; a dry run changes statuses only.
    - Concurrency: in every interleaving at most one goroutine that is not cancelled
      monitors a workload; a check ends the monitoring of an application only after a
      complete rollout; discovery over shared list objects
      is safe, complete under a lock, and not complete without one.
    - Generation: every operation is on something the workload owns (or on its two
      Google identities or the shared pooler policy); pods are well typed and
      hardened; the options reflect the cluster; autoscaler, replica count and
      deployment agree.
    - Meaning of what is generated: network policies admit exactly what the access
      policy says, in both directions, for pods and addresses; ingress rules are those
      of the URLs, redirects are legal, HAProxy paths literal unless their capture
      groups are used; services reach the login proxy; credentials,
      certificates and secrets are the ones their users refer to; names are legal.
    - Tests: the golden-file comparison decides a reference relation on documents.
    - Behaviour that is not what the code means to do is stated too: an image lost
      after a conflict, redirects that replace each other, clashing job names, a lost
      discovery.

    ** Bounds

    [wait_deleted], the polling loop of [CreateOrRecreate], has fuel: 62 polls are
    enough, because the deadline is one minute and five nanoseconds away and every poll
    sleeps a second; [wait_deleted_terminates] proves it for every server. The
    monitoring loop of a goroutine is unbounded, as in the code, and is a relation.
    Loops over the digits of a number or the characters of a string have the size of
    their input as fuel. Everything else is structurally recursive.

    ** Not modelled

    - Metrics, log lines, timers: they influence nothing modelled. Registration with
      the controller manager, schemes, health checks, the webhooks of nais/liberator:
      library calls; their failures are parameters of [main_run] and [webhook_run].
    - viper's merge of files, environment and flags into the configuration, the
      builder and predicates of controller-runtime (a watch records that its updates
      are filtered), the parsing of URLs and quantities, float parsing.
    - The in-place side effect of mergo on the workload's own specification, which
      nothing reads afterwards; [DeepCopy]; the lock of [UpdateResource], whose
      atomicity the API server's resource versions give anyway; torn reads of
      concurrently written list objects, which Go leaves undefined.
    - The random source is one function of the length: two keys of one generation are
      equal in the model. The week used in the names of Aiven secrets is an argument,
      read once per generation.
    - The tests themselves and their fixtures, the reading of golden files, the text
      in which a list of differences is printed, charts and build files. *)

From stdpp Require Export base gmap strings list.

(** ** Results

    A Go function that returns [(T, error)] is a function into [res E T]. *)

Inductive res (E A : Type) : Type :=
| Ok (a : A)
| Err (e : E).

Arguments Ok {E A} a.
Arguments Err {E A} e.

Definition res_bind {E A B} (f : A → res E B) (r : res E A) : res E B :=
  match r with Ok a => f a | Err e => Err e end.

#[export] Instance res_ret {E} : MRet (res E) := fun A a => Ok a.
#[export] Instance res_mbind {E} : MBind (res E) := fun A B f r => res_bind f r.
#[export] Instance res_fmap {E} : FMap (res E) :=
  fun A B f r => match r with Ok a => Ok (f a) | Err e => Err e end.

Definition is_ok {E A} (r : res E A) : bool :=
  match r with Ok _ => true | Err _ => false end.

Definition map_err {E F A} (f : E → F) (r : res E A) : res F A :=
  match r with Ok a => Ok a | Err e => Err (f e) end.

(** [for _, x := range xs { acc, err = f(acc, x); if err != nil { return err } }] *)
Fixpoint res_foldl {E A B} (f : A → B → res E A) (acc : A) (xs : list B) : res E A :=
  match xs with
  | [] => Ok acc
  | x :: xs' => res_bind (fun acc' => res_foldl f acc' xs') (f acc x)
  end.

(** ** Automation *)

Create HintDb nais discriminated.
#[export] Hint Constants Transparent : nais.
#[export] Hint Variables Transparent : nais.

(** Split every [match]/[if] of the goal and of the hypotheses, closing what
    computes. *)
Ltac case_all :=
  repeat (case_match; simplify_eq/=; try done).

(** Case analysis on the boolean tests a goal mentions, reflected. *)
Ltac bool_case :=
  repeat match goal with
  | H : bool_decide _ = true |- _ => apply bool_decide_eq_true in H
  | H : bool_decide _ = false |- _ => apply bool_decide_eq_false in H
  | H : _ && _ = true |- _ => apply andb_true_iff in H as [? ?]
  | H : _ || _ = false |- _ => apply orb_false_iff in H as [? ?]
  | H : negb _ = true |- _ => apply negb_true_iff in H
  | H : negb _ = false |- _ => apply negb_false_iff in H
  end.

(** ** Generic lemmas *)

Section res_lemmas.
Context {E : Type}.

Lemma res_bind_ok_inv {A B} (f : A → res E B) (r : res E A) b :
  res_bind f r = Ok b ↔ ∃ a, r = Ok a ∧ f a = Ok b.
Proof. destruct r; simpl; naive_solver. Qed.

Lemma res_bind_err_inv {A B} (f : A → res E B) (r : res E A) e :
  res_bind f r = Err e ↔ r = Err e ∨ ∃ a, r = Ok a ∧ f a = Err e.
Proof. destruct r; simpl; naive_solver. Qed.

Lemma is_ok_elim {A} (r : res E A) : is_ok r = true → ∃ a, r = Ok a.
Proof. destruct r; naive_solver. Qed.

Lemma map_err_ok_inv {F A} (f : E → F) (r : res E A) a : map_err f r = Ok a ↔ r = Ok a.
Proof. destruct r; simpl; naive_solver. Qed.

Lemma res_bind_assoc {A B C} (f : A → res E B) (g : B → res E C) r :
  res_bind g (res_bind f r) = res_bind (fun a => res_bind g (f a)) r.
Proof. by destruct r. Qed.

(** An invariant kept by every iteration of an error-returning loop holds
    of the accumulator it returns. *)
Lemma res_foldl_inv {A B} (I : A → Prop) (f : A → B → res E A) acc xs acc' :
  I acc →
  (∀ a x a', x ∈ xs → I a → f a x = Ok a' → I a') →
  res_foldl f acc xs = Ok acc' → I acc'.
Proof.
  revert acc; induction xs as [|x xs IH]; simpl; intros acc HI Hstep Hf.
  - by simplify_eq.
  - apply res_bind_ok_inv in Hf as (a & Hfa & Hrest).
    eapply IH; [|intros ????; eapply Hstep; by constructor|done].
    eapply Hstep; [by left|done|done].
Qed.

(** Induction over the part of a list an error-returning loop has processed. *)
Lemma res_foldl_ind {A B} (I : list B → A → Prop) (f : A → B → res E A) acc xs acc' :
  I [] acc →
  (∀ done x a a', I done a → f a x = Ok a' → I (done ++ [x]) a') →
  res_foldl f acc xs = Ok acc' → I xs acc'.
Proof.
  intros H0 Hstep.
  assert (Hgo : ∀ xs done acc, I done acc → res_foldl f acc xs = Ok acc' → I (done ++ xs) acc').
  { clear xs acc H0. intros xs. induction xs as [|x xs IH]; simpl; intros done acc HI Hf.
    - rewrite app_nil_r. by simplify_eq.
    - apply res_bind_ok_inv in Hf as (a & Hfa & Hrest).
      replace (done ++ x :: xs) with ((done ++ [x]) ++ xs) by (by rewrite <-app_assoc).
      eauto. }
  intros Hf. by apply (Hgo xs [] acc).
Qed.
End res_lemmas.

#[export] Hint Resolve bool_decide_eq_true_2 : nais.

(** Go reads a missing key of a [map[string]string] as the empty string, and a
    nil map as an empty one. *)
Definition map_get (m : gmap string string) (k : string) : string :=
  default "" (m !! k).

Definition omap_get (m : option (gmap string string)) (k : string) : string :=
  map_get (default ∅ m) k.

(** [maps.Copy(dst, src)]: the entries of [src] win. *)
Definition maps_copy (dst src : gmap string string) : gmap string string := src ∪ dst.

Lemma filter_none {A} (P : A → Prop) `{∀ x, Decision (P x)} (l : list A) :
  (∀ x, x ∈ l → ¬ P x) → filter P l = [].
Proof.
  intros Hl. destruct (filter P l) as [|x l'] eqn:E; [done|].
  assert (Hx : x ∈ filter P l) by (rewrite E; left).
  apply list_elem_of_filter in Hx as [? ?]. by exfalso; eapply Hl.
Qed.

Section map_lemmas.
Implicit Types m dst src : gmap string string.

Lemma map_get_insert m k v : map_get (<[k := v]> m) k = v.
Proof. unfold map_get. by rewrite lookup_insert_eq. Qed.

Lemma map_get_insert_ne m k k' v : k ≠ k' → map_get (<[k := v]> m) k' = map_get m k'.
Proof. intros ?. unfold map_get. by rewrite lookup_insert_ne. Qed.

Lemma map_get_nonempty m k v : map_get m k = v → v ≠ "" → m !! k = Some v.
Proof. unfold map_get. destruct (m !! k); simpl; naive_solver. Qed.

Lemma lookup_maps_copy dst src k :
  maps_copy dst src !! k = match src !! k with Some v => Some v | None => dst !! k end.
Proof.
  unfold maps_copy. destruct (src !! k) as [v|] eqn:Hs.
  - by apply lookup_union_Some_l.
  - by apply lookup_union_r.
Qed.
End map_lemmas.
