(* ===== verification/GoStrings.v ===== *)
(** * Go's [strings] package, as far as naiserator uses it

    Go strings are byte sequences, [String.string] is a sequence of bytes: the
    functions below are the byte-level functions of the Go standard library.
    A slice expression that panics in Go is [None] here. *)

From S2P Require Import Prelude.
From Stdlib Require Export Ascii.

#[global] Arguments String.append !_ _ : simpl nomatch.

Abbreviation slen := String.length.

(** [s[i:j]], which panics unless [0 <= i <= j <= len(s)]. *)
Definition slice (s : string) (i j : Z) : option string :=
  if bool_decide (0 ≤ i ∧ i ≤ j ∧ j ≤ Z.of_nat (slen s))%Z
  then Some (String.substring (Z.to_nat i) (Z.to_nat (j - i)) s)
  else None.

Definition HasPrefix (s pre : string) : bool := String.prefix pre s.

Definition HasSuffix (s suf : string) : bool :=
  bool_decide (slen suf ≤ slen s)%nat &&
  bool_decide (String.substring (slen s - slen suf) (slen suf) s = suf).

(** [strings.CutPrefix(s, pre)]; [strings.TrimPrefix] is its first component. *)
Definition CutPrefix (s pre : string) : string * bool :=
  if HasPrefix s pre then (String.substring (slen pre) (slen s - slen pre) s, true) else (s, false).

(** [strings.TrimSuffix(s, suf)] *)
Definition TrimSuffix (s suf : string) : string :=
  if HasSuffix s suf then String.substring 0 (slen s - slen suf) s else s.

(** [strings.TrimRight(s, c)] for a cutset of one character. *)
Fixpoint TrimRight1 (s : string) (c : ascii) : string :=
  match s with
  | EmptyString => EmptyString
  | String a s' =>
      match TrimRight1 s' c with
      | EmptyString => if Ascii.eqb a c then EmptyString else String a EmptyString
      | r => String a r
      end
  end.

(** [strings.Contains(s, sub)] *)
Fixpoint Contains (s sub : string) : bool :=
  String.prefix sub s ||
  match s with EmptyString => false | String _ s' => Contains s' sub end.

(** [strings.SplitSeq(s, c)] and [strings.Split(s, c)] for a separator of one
    character: the pieces between separators, empty ones included. *)
Fixpoint Split1 (s : string) (c : ascii) : list string :=
  match s with
  | EmptyString => [EmptyString]
  | String a s' =>
      if Ascii.eqb a c then EmptyString :: Split1 s' c
      else match Split1 s' c with
           | w :: ws => String a w :: ws
           | [] => [String a EmptyString]
           end
  end.

(** [strings.Join(l, sep)] *)
Fixpoint Join (l : list string) (sep : string) : string :=
  match l with
  | [] => ""
  | [w] => w
  | w :: ws => w +:+ sep +:+ Join ws sep
  end.

(** The ASCII white space [strings.TrimSpace] removes. *)
Definition is_space (a : ascii) : bool :=
  let n := nat_of_ascii a in
  bool_decide (n ∈ [9; 10; 11; 12; 13; 32]).

Fixpoint trim_left_space (s : string) : string :=
  match s with
  | EmptyString => EmptyString
  | String a s' => if is_space a then trim_left_space s' else s
  end.

Fixpoint trim_right_space (s : string) : string :=
  match s with
  | EmptyString => EmptyString
  | String a s' =>
      match trim_right_space s' with
      | EmptyString => if is_space a then EmptyString else String a EmptyString
      | r => String a r
      end
  end.

(** [strings.TrimSpace] on a string whose white space is ASCII. *)
Definition TrimSpace (s : string) : string := trim_right_space (trim_left_space s).

(** [strings.Replace(s, old, new, 1)] for a non-empty [old]. *)
Fixpoint Replace1 (s old new : string) : string :=
  if String.prefix old s
  then new +:+ String.substring (slen old) (slen s - slen old) s
  else match s with
       | EmptyString => EmptyString
       | String a s' => String a (Replace1 s' old new)
       end.

(** [strings.ToLower] on ASCII. *)
Definition ascii_lower (a : ascii) : ascii :=
  let n := nat_of_ascii a in
  if bool_decide (65 ≤ n ≤ 90)%nat then ascii_of_nat (n + 32) else a.

Fixpoint ToLower (s : string) : string :=
  match s with EmptyString => EmptyString | String a s' => String (ascii_lower a) (ToLower s') end.

(** [strconv.Itoa] / [%d]. *)
Definition digit (n : Z) : ascii := ascii_of_nat (48 + Z.to_nat n).

Fixpoint utoa_go (fuel : nat) (n : Z) (acc : string) : string :=
  match fuel with
  | O => acc
  | S f =>
      let acc' := String (digit (n mod 10)) acc in
      if (n <? 10)%Z then acc' else utoa_go f (n / 10) acc'
  end.

(** A number has at most as many decimal as binary digits. *)
Definition utoa (n : Z) : string := utoa_go (S (Z.to_nat (Z.log2 n))) n "".

Definition Itoa (n : Z) : string :=
  if (n <? 0)%Z then String "-" (utoa (- n)) else utoa n.

(** [fmt.Sprintf("%t", b)] *)
Definition FormatBool (b : bool) : string := if b then "true" else "false".

(** The value of a decimal digit. *)
Definition digit_value (a : ascii) : option Z :=
  let n := nat_of_ascii a in
  if bool_decide (48 ≤ n ≤ 57)%nat then Some (Z.of_nat n - 48)%Z else None.

Fixpoint decimal_value (s : string) (acc : Z) : option Z :=
  match s with
  | EmptyString => Some acc
  | String a s' => match digit_value a with
                   | Some d => decimal_value s' (10 * acc + d)
                   | None => None
                   end
  end.

Definition parse_unsigned (s : string) : option Z :=
  match s with EmptyString => None | _ => decimal_value s 0 end.

(** [strconv.ParseInt(s, 10, bits)]; [strconv.Atoi] is the case of 64 bits. An
    optional sign, at least one digit, and a value of the given width. *)
Definition ParseInt10 (s : string) (bits : Z) : option Z :=
  let v := match s with
           | String "+" s' => parse_unsigned s'
           | String "-" s' => Z.opp <$> parse_unsigned s'
           | _ => parse_unsigned s
           end in
  match v with
  | Some n => if bool_decide (- 2 ^ (bits - 1) ≤ n < 2 ^ (bits - 1))%Z then Some n else None
  | None => None
  end.

Definition Atoi (s : string) : option Z := ParseInt10 s 64.

(** [strings.TrimLeft(s, c)] for a cutset of one character. *)
Fixpoint TrimLeft1 (s : string) (c : ascii) : string :=
  match s with
  | String a s' => if Ascii.eqb a c then TrimLeft1 s' c else s
  | EmptyString => EmptyString
  end.

Definition ascii_upper (a : ascii) : ascii :=
  let n := nat_of_ascii a in
  if ((97 <=? n) && (n <=? 122))%nat then ascii_of_nat (n - 32) else a.

(** [strings.ToUpper] on ASCII text. *)
Fixpoint ToUpper (s : string) : string :=
  match s with EmptyString => EmptyString | String a s' => String (ascii_upper a) (ToUpper s') end.

(** [strings.ReplaceAll(s, x, y)] for single characters [x], [y]: the characters of a class
    become [y]. *)
Fixpoint map_class (P : ascii → bool) (y : ascii) (s : string) : string :=
  match s with
  | EmptyString => EmptyString
  | String a s' => String (if P a then y else a) (map_class P y s')
  end.

Definition ReplaceAll1 (s : string) (x y : ascii) : string := map_class (Ascii.eqb x) y s.

(** [strings.TrimPrefix] *)
Definition TrimPrefix (s pre : string) : string := (CutPrefix s pre).1.

(** [fmt.Sprintf("%02d", n)] for [0 <= n]. *)
Definition format_02d (n : Z) : string := if (n <? 10)%Z then "0" +:+ Itoa n else Itoa n.

(** [fmt.Sprintf("%x", n)] for [0 <= n]. *)
Definition hex_digit (n : Z) : ascii :=
  ascii_of_nat (if (n <? 10)%Z then 48 + Z.to_nat n else 87 + Z.to_nat n).

Fixpoint hex_go (fuel : nat) (n : Z) (acc : string) : string :=
  match fuel with
  | O => acc
  | S f => let acc := String (hex_digit (n mod 16)) acc in
           if (n <? 16)%Z then acc else hex_go f (n / 16)%Z acc
  end.

Definition format_x (n : Z) : string := hex_go (S (Z.to_nat (Z.log2 n))) n "".

(** [base64.StdEncoding] and the unpadded [base64.URLEncoding], over the bytes
    of a string. *)
Definition base64_std : string := "ABCDEFGHIJKLMNOPQRSTUVWXYZabcdefghijklmnopqrstuvwxyz0123456789+/".
Definition base64_url : string := "ABCDEFGHIJKLMNOPQRSTUVWXYZabcdefghijklmnopqrstuvwxyz0123456789-_".

Definition base64_char (alphabet : string) (n : nat) : string :=
  String.substring (n mod 64) 1 alphabet.

Fixpoint EncodeBase64 (alphabet padding : string) (s : string) : string :=
  let c := base64_char alphabet in
  match s with
  | String a (String b (String d s')) =>
      let '(x, y, z) := (nat_of_ascii a, nat_of_ascii b, nat_of_ascii d) in
      c (x / 4) +:+ c (16 * x + y / 16) +:+ c (4 * y + z / 64) +:+ c z +:+
      EncodeBase64 alphabet padding s'
  | String a (String b EmptyString) =>
      let '(x, y) := (nat_of_ascii a, nat_of_ascii b) in
      c (x / 4) +:+ c (16 * x + y / 16) +:+ c (4 * y) +:+ padding
  | String a EmptyString =>
      let x := nat_of_ascii a in c (x / 4) +:+ c (16 * x) +:+ padding +:+ padding
  | EmptyString => EmptyString
  end%nat.

(** ** path and path/filepath *)

(** One element of the path in [path.Clean]; the stack holds the elements kept,
    last first. *)
Definition clean_step (rooted : bool) (stack : list string) (elem : string) : list string :=
  if bool_decide (elem = "") || bool_decide (elem = ".") then stack
  else if bool_decide (elem = "..") then
    match stack with
    | x :: rest => if bool_decide (x = "..") then elem :: stack else rest
    | [] => if rooted then [] else [elem]
    end
  else elem :: stack.

Definition Clean (path : string) : string :=
  if bool_decide (path = "") then "."
  else
    let rooted := HasPrefix path "/" in
    let kept := Join (rev (foldl (clean_step rooted) [] (Split1 path "/"))) "/" in
    if rooted then "/" +:+ kept else if bool_decide (kept = "") then "." else kept.

(** [path.Join]: empty elements are skipped, the result is cleaned. *)
Definition PathJoin (elems : list string) : string :=
  match filter (fun e => e ≠ "") elems with
  | [] => ""
  | elems => Clean (Join elems "/")
  end.

(** One step of [for _, r := range s]: the UTF-8 text of the rune (the
    replacement character for a byte that starts no valid sequence) and the rest
    of the string. *)
Definition in_bytes (lo hi : nat) (a : ascii) : bool :=
  (lo <=? nat_of_ascii a)%nat && (nat_of_ascii a <=? hi)%nat.

Definition continuation (a : ascii) : bool := in_bytes 128 191 a.

(** The number of bytes of the sequence a first byte starts and the range of its
    second byte. *)
Definition rune_class (a : ascii) : option (nat * nat * nat) :=
  if in_bytes 0 127 a then Some (1, 0, 0)%nat
  else if in_bytes 194 223 a then Some (2, 128, 191)%nat
  else if in_bytes 224 224 a then Some (3, 160, 191)%nat
  else if in_bytes 225 236 a || in_bytes 238 239 a then Some (3, 128, 191)%nat
  else if in_bytes 237 237 a then Some (3, 128, 159)%nat
  else if in_bytes 240 240 a then Some (4, 144, 191)%nat
  else if in_bytes 241 243 a then Some (4, 128, 191)%nat
  else if in_bytes 244 244 a then Some (4, 128, 143)%nat
  else None.

Definition rune_error : string :=
  String (ascii_of_nat 239) (String (ascii_of_nat 191) (String (ascii_of_nat 189) "")).

Definition next_rune (a : ascii) (s : string) : string * string :=
  match rune_class a, s with
  | Some (1, _, _), _ => (String a "", s)
  | Some (2, lo, hi), String b s' =>
      if in_bytes lo hi b then (String a (String b ""), s') else (rune_error, s)
  | Some (3, lo, hi), String b (String c s') =>
      if in_bytes lo hi b && continuation c then (String a (String b (String c "")), s')
      else (rune_error, s)
  | Some (4, lo, hi), String b (String c (String d s')) =>
      if in_bytes lo hi b && continuation c && continuation d
      then (String a (String b (String c (String d ""))), s') else (rune_error, s)
  | _, _ => (rune_error, s)
  end%nat.

(** The character set of a string. *)
Fixpoint all_chars (P : ascii → bool) (s : string) : bool :=
  match s with EmptyString => true | String a s' => P a && all_chars P s' end.

Example clean_1 : Clean "/a/./b//../c/" = "/a/c". Proof. reflexivity. Qed.
Example clean_2 : Clean "a/../../b" = "../b". Proof. reflexivity. Qed.
Example clean_3 : Clean "/.." = "/". Proof. reflexivity. Qed.
Example join_1 : PathJoin ["vault"; "/var/run"] = "vault/var/run". Proof. reflexivity. Qed.
Example base64_1 : EncodeBase64 base64_std "=" "Many h" = "TWFueSBo". Proof. reflexivity. Qed.
Example base64_2 : EncodeBase64 base64_std "=" "hell" = "aGVsbA==". Proof. reflexivity. Qed.
Example hex_1 : format_x 48879 = "beef". Proof. reflexivity. Qed.

(** ** Lemmas *)

Section length_lemmas.
Implicit Types s : string.

Lemma slen_app s1 s2 : slen (s1 +:+ s2) = (slen s1 + slen s2)%nat.
Proof. induction s1; simpl; congruence. Qed.

Lemma sapp_nil_r s : s +:+ "" = s.
Proof. induction s; simpl; congruence. Qed.

Lemma sapp_assoc s1 s2 s3 : (s1 +:+ s2) +:+ s3 = s1 +:+ s2 +:+ s3.
Proof. induction s1; simpl; congruence. Qed.

Lemma slen_zero s : slen s = 0%nat ↔ s = "".
Proof. by destruct s. Qed.

Lemma slen_substring s i n :
  (i + n ≤ slen s)%nat → slen (String.substring i n s) = n.
Proof.
  revert i n; induction s as [|a s IH]; intros [|i] [|n]; simpl; intros; try lia.
  - rewrite IH; simpl; lia.
  - rewrite IH; simpl; lia.
  - rewrite IH; simpl; lia.
Qed.

Lemma substring_full s : String.substring 0 (slen s) s = s.
Proof. induction s; simpl; congruence. Qed.

Lemma substring_app_l s1 s2 : String.substring 0 (slen s1) (s1 +:+ s2) = s1.
Proof. induction s1; simpl; [by destruct s2|congruence]. Qed.

Lemma substring_app_r s1 s2 :
  String.substring (slen s1) (slen s2) (s1 +:+ s2) = s2.
Proof. induction s1; simpl; [apply substring_full|done]. Qed.

Lemma substring_split s n :
  (n ≤ slen s)%nat →
  s = String.substring 0 n s +:+ String.substring n (slen s - n) s.
Proof.
  revert n; induction s as [|a s IH]; intros [|n]; simpl; intros; try done; try lia.
  - by rewrite substring_full.
  - f_equal. apply IH. lia.
Qed.

Lemma slen_ToLower s : slen (ToLower s) = slen s.
Proof. induction s; simpl; congruence. Qed.

Lemma sapp_inj_l s s1 s2 : s +:+ s1 = s +:+ s2 → s1 = s2.
Proof. induction s; simpl; naive_solver. Qed.

Lemma sapp_inj_len s1 s2 t1 t2 :
  slen s1 = slen t1 → s1 +:+ s2 = t1 +:+ t2 → s1 = t1 ∧ s2 = t2.
Proof.
  revert t1; induction s1 as [|a s1 IH]; intros [|b t1]; simpl; intros; try done.
  simplify_eq. edestruct IH; [|done|]; [lia|by subst].
Qed.
End length_lemmas.

Section slice_lemmas.
Implicit Types s : string.

Lemma slice_is_Some s i j :
  is_Some (slice s i j) ↔ (0 ≤ i ∧ i ≤ j ∧ j ≤ Z.of_nat (slen s))%Z.
Proof. unfold slice. case_bool_decide; split; naive_solver. Qed.

Lemma slice_prefix s j :
  (0 ≤ j ≤ Z.of_nat (slen s))%Z → slice s 0 j = Some (String.substring 0 (Z.to_nat j) s).
Proof.
  intros. unfold slice. rewrite bool_decide_eq_true_2 by lia.
  by rewrite Z.sub_0_r.
Qed.

Lemma slice_length s i j r : slice s i j = Some r → Z.of_nat (slen r) = (j - i)%Z.
Proof.
  unfold slice. case_bool_decide; intros; simplify_eq.
  rewrite slen_substring; lia.
Qed.
End slice_lemmas.

Section affix_lemmas.
Implicit Types s : string.

Lemma prefix_spec s pre : String.prefix pre s = true ↔ ∃ t, s = pre +:+ t.
Proof.
  revert s; induction pre as [|a pre IH]; intros s; simpl.
  - split; [eauto|by destruct s].
  - destruct s as [|b s]; [split; [done|intros [? ?]; done]|].
    cbn [String.prefix]. destruct (ascii_dec a b) as [->|Hne].
    + rewrite IH. split; intros [t Ht]; exists t; simplify_eq/=; done.
    + split; [done|]. intros [t Ht]; simplify_eq/=.
Qed.

Lemma HasPrefix_spec s pre : HasPrefix s pre = true ↔ ∃ t, s = pre +:+ t.
Proof. apply prefix_spec. Qed.

Lemma HasPrefix_app pre t : HasPrefix (pre +:+ t) pre = true.
Proof. apply HasPrefix_spec. eauto. Qed.

Lemma HasSuffix_spec s suf : HasSuffix s suf = true ↔ ∃ t, s = t +:+ suf.
Proof.
  unfold HasSuffix. rewrite andb_true_iff, !bool_decide_eq_true. split.
  - intros [Hle Hsub].
    exists (String.substring 0 (slen s - slen suf) s).
    rewrite (substring_split s (slen s - slen suf)) at 1 by lia.
    f_equal. rewrite <-Hsub at 3. f_equal. lia.
  - intros [t ->]. rewrite slen_app. split; [lia|].
    replace (slen t + slen suf - slen suf)%nat with (slen t) by lia.
    apply substring_app_r.
Qed.

Lemma HasSuffix_empty s : HasSuffix s "" = true.
Proof. apply HasSuffix_spec. exists s. by rewrite sapp_nil_r. Qed.

Lemma CutPrefix_app pre t : CutPrefix (pre +:+ t) pre = (t, true).
Proof.
  unfold CutPrefix. rewrite HasPrefix_app, slen_app.
  replace (slen pre + slen t - slen pre)%nat with (slen t) by lia.
  by rewrite substring_app_r.
Qed.
End affix_lemmas.

Section char_lemmas.
Implicit Types s : string.

Lemma all_chars_app P s1 s2 : all_chars P (s1 +:+ s2) = all_chars P s1 && all_chars P s2.
Proof. induction s1; simpl; [done|]. rewrite IHs1. by rewrite andb_assoc. Qed.

Lemma all_chars_impl (P Q : ascii → bool) s :
  (∀ a, P a = true → Q a = true) → all_chars P s = true → all_chars Q s = true.
Proof.
  intros HPQ. induction s; simpl; [done|].
  rewrite !andb_true_iff. naive_solver.
Qed.

Lemma all_chars_substring P s i n :
  all_chars P s = true → all_chars P (String.substring i n s) = true.
Proof.
  revert i n; induction s as [|a s IH]; intros [|i] [|n]; simpl; try done.
  all: rewrite andb_true_iff; intros [Ha Hs]; rewrite ?IH by done; rewrite ?Ha; done.
Qed.

(** [TrimRight] splits its argument into the result and a run of the cut
    character, and the result does not end in that character. *)
Lemma TrimRight1_split s c :
  ∃ n, s = TrimRight1 s c +:+ String.concat "" (replicate n (String c "")) .
Proof.
  induction s as [|a s [n IH]]; simpl; [by exists 0%nat|].
  destruct (TrimRight1 s c) as [|b r] eqn:Hr.
  - destruct (Ascii.eqb_spec a c) as [->|].
    + exists (S n). simpl in *. rewrite IH at 1. by destruct n.
    + exists n. simpl in *. by rewrite IH at 1.
  - exists n. simpl in *. by rewrite IH at 1.
Qed.

Lemma TrimRight1_no_suffix s c : HasSuffix (TrimRight1 s c) (String c "") = false.
Proof.
  destruct (HasSuffix _ _) eqn:Hs; [|done]. exfalso.
  apply HasSuffix_spec in Hs as [t Ht]. revert t Ht.
  induction s as [|a s IH]; simpl; intros t Ht; [by destruct t|].
  destruct (TrimRight1 s c) as [|b r] eqn:Hr.
  - destruct (Ascii.eqb_spec a c); [by destruct t|].
    destruct t as [|? [|]]; simplify_eq/=.
  - destruct t as [|x t]; simplify_eq/=. by apply (IH t).
Qed.

Lemma TrimRight1_idemp s c : TrimRight1 (TrimRight1 s c) c = TrimRight1 s c.
Proof.
  induction s as [|a s IH]; simpl; [done|].
  destruct (TrimRight1 s c) as [|b r] eqn:Hr.
  - destruct (Ascii.eqb a c) eqn:E; simpl; [done|by rewrite E].
  - cbn [TrimRight1] in IH |- *. by rewrite IH.
Qed.

Lemma all_chars_TrimRight1 P s c : all_chars P s = true → all_chars P (TrimRight1 s c) = true.
Proof.
  intros H. destruct (TrimRight1_split s c) as [n Hn].
  rewrite Hn, all_chars_app, andb_true_iff in H. tauto.
Qed.
End char_lemmas.

Section split_lemmas.
Implicit Types s t : string.

Lemma Split1_no_sep s c :
  all_chars (fun a => negb (Ascii.eqb a c)) s = true → Split1 s c = [s].
Proof.
  induction s as [|a s IH]; simpl; [done|]. intros [Ha Hs]%andb_true_iff.
  apply negb_true_iff in Ha. by rewrite Ha, IH.
Qed.

Lemma Split1_app s c t :
  all_chars (fun a => negb (Ascii.eqb a c)) s = true →
  Split1 (s +:+ String c t) c = s :: Split1 t c.
Proof.
  induction s as [|a s IH]; simpl; [by rewrite Ascii.eqb_refl|]. intros [Ha Hs]%andb_true_iff.
  apply negb_true_iff in Ha. by rewrite Ha, IH.
Qed.

(** Every piece of a split is free of the separator, and joining the pieces
    gives the string back. *)
Lemma Split1_pieces s c :
  ∃ w ws, Split1 s c = w :: ws ∧ all_chars (fun a => negb (Ascii.eqb a c)) w = true ∧
    ((ws = [] ∧ s = w) ∨ (∃ t, s = w +:+ String c t ∧ ws = Split1 t c)).
Proof.
  induction s as [|a s (w & ws & Hs & Hw & Hc)]; simpl; [by exists "", []; auto|].
  destruct (Ascii.eqb a c) eqn:E.
  - apply Ascii.eqb_eq in E as ->. exists "", (Split1 s c). eauto 6.
  - rewrite Hs. exists (String a w), ws. split_and!; [done|simpl; by rewrite E|].
    destruct Hc as [[-> ->]|(t & -> & ->)]; [auto|right; by exists t].
Qed.

Lemma Split1_app_sep s t c : Split1 (s +:+ String c t) c = Split1 s c ++ Split1 t c.
Proof.
  induction s as [|a s IH]; cbn [String.append Split1].
  - by rewrite Ascii.eqb_refl.
  - destruct (Ascii.eqb a c); [by rewrite IH|]. rewrite IH.
    destruct (Split1 s c) as [|w ws] eqn:E; [|done]. by destruct s; simpl in E; case_all.
Qed.

Lemma Split1_Forall s c :
  Forall (fun w => all_chars (fun a => negb (Ascii.eqb a c)) w = true) (Split1 s c).
Proof.
  induction s as [|a s IH]; simpl; [by repeat constructor|].
  destruct (Ascii.eqb a c) eqn:E; [by constructor|].
  destruct (Split1 s c) as [|w ws]; [constructor; [|done]; simpl; by rewrite E|].
  apply Forall_cons in IH as [Hw Hws]. constructor; [|done]. simpl. by rewrite E.
Qed.
End split_lemmas.

Section number_lemmas.
Local Open Scope Z_scope.

Lemma digit_value_digit n : 0 ≤ n < 10 → digit_value (digit n) = Some n.
Proof.
  intros. assert (n = 0 ∨ n = 1 ∨ n = 2 ∨ n = 3 ∨ n = 4 ∨ n = 5 ∨ n = 6 ∨ n = 7 ∨ n = 8 ∨ n = 9)
    as Hn by lia. by destruct_or! Hn; subst.
Qed.

Lemma utoa_go_value f n acc :
  0 ≤ n < 10 ^ Z.of_nat f → decimal_value (utoa_go f n acc) 0 = decimal_value acc n.
Proof.
  revert n acc. induction f as [|f IH]; intros n acc Hn.
  - simpl. f_equal. simpl in Hn. lia.
  - cbn [utoa_go]. destruct (Z.ltb_spec n 10).
    + cbn [decimal_value]. rewrite digit_value_digit by (rewrite Z.mod_small; lia).
      by rewrite Z.mod_small by lia.
    + assert (Hm := Z.mod_pos_bound n 10 ltac:(lia)). assert (Hd := Z.div_mod n 10 ltac:(lia)).
      rewrite IH.
      * cbn [decimal_value]. rewrite digit_value_digit by lia. f_equal. lia.
      * rewrite Nat2Z.inj_succ, Z.pow_succ_r in Hn by lia. split; [apply Z.div_pos; lia|].
        apply Z.div_lt_upper_bound; lia.
Qed.

Lemma utoa_value n : 0 ≤ n → decimal_value (utoa n) 0 = Some n.
Proof.
  intros Hn. unfold utoa. rewrite utoa_go_value; [done|]. split; [done|].
  rewrite Nat2Z.inj_succ, Z2Nat.id by apply Z.log2_nonneg.
  destruct (decide (n = 0)) as [->|]; [done|].
  apply Z.lt_le_trans with (2 ^ Z.succ (Z.log2 n)); [apply Z.log2_spec; lia|].
  apply Z.pow_le_mono_l. lia.
Qed.

Lemma Itoa_inj m n : 0 ≤ m → 0 ≤ n → Itoa m = Itoa n → m = n.
Proof.
  intros Hm Hn. unfold Itoa. destruct (Z.ltb_spec m 0), (Z.ltb_spec n 0); try lia.
  intros Heq. apply (f_equal (fun s => decimal_value s 0)) in Heq.
  rewrite !utoa_value in Heq by done. by simplify_eq.
Qed.
End number_lemmas.

Section rune_lemmas.
Lemma next_rune_ascii a s :
  (nat_of_ascii a < 128)%nat → next_rune a s = (String a "", s).
Proof.
  intros Ha. unfold next_rune, rune_class, in_bytes.
  rewrite (proj2 (Nat.leb_le 0 (nat_of_ascii a))) by lia.
  by rewrite (proj2 (Nat.leb_le (nat_of_ascii a) 127)) by lia.
Qed.

Lemma next_rune_rest a s : (slen (next_rune a s).2 ≤ slen s)%nat.
Proof. unfold next_rune. repeat (case_match; simpl; try lia). Qed.
End rune_lemmas.

#[export] Hint Rewrite slen_app slen_ToLower all_chars_app sapp_assoc : gostr.
#[export] Hint Resolve HasPrefix_app HasSuffix_empty : nais.

(** ** Base64 decoding *)

(** A decoder for the encodings above, the reference of their round trip: the
    characters before the padding are looked up in the alphabet, and four of them
    make three bytes. *)
Fixpoint index_of (a : ascii) (alphabet : string) : option nat :=
  match alphabet with
  | EmptyString => None
  | String b rest => if Ascii.eqb a b then Some 0 else S <$> index_of a rest
  end%nat.

Fixpoint sextets (alphabet s : string) : option (list nat) :=
  match s with
  | EmptyString => Some []
  | String a rest =>
      if Ascii.eqb a "=" then Some []
      else i ← index_of a alphabet; l ← sextets alphabet rest; Some (i :: l)
  end.

Fixpoint sextet_bytes (l : list nat) : option string :=
  match l with
  | [] => Some EmptyString
  | [w; x] => Some (String (ascii_of_nat (4 * w + x / 16)) EmptyString)
  | [w; x; y] =>
      Some (String (ascii_of_nat (4 * w + x / 16)) (String (ascii_of_nat (16 * (x mod 16) + y / 4)) EmptyString))
  | w :: x :: y :: z :: rest =>
      s ← sextet_bytes rest;
      Some (String (ascii_of_nat (4 * w + x / 16)) (String (ascii_of_nat (16 * (x mod 16) + y / 4))
             (String (ascii_of_nat (64 * (y mod 4) + z)) s)))
  | _ => None
  end%nat.

Definition DecodeBase64 (alphabet s : string) : option string :=
  l ← sextets alphabet s; sextet_bytes l.

Example decode_1 : DecodeBase64 base64_std "aGVsbA==" = Some "hell". Proof. reflexivity. Qed.

Section base64.
Context (alphabet : string) (Halpha : alphabet = base64_std ∨ alphabet = base64_url).
Local Open Scope nat_scope.

Lemma base64_char_index n :
  ∃ a, base64_char alphabet n = String a EmptyString ∧ Ascii.eqb a "=" = false ∧
       index_of a alphabet = Some (n mod 64).
Proof.
  unfold base64_char. assert (Hn : n mod 64 < 64) by (apply Nat.mod_upper_bound; lia).
  revert Hn. generalize (n mod 64). clear n. intros n Hn.
  assert (Hall : forallb (λ n, match String.substring n 1 alphabet with
    | String a EmptyString => negb (Ascii.eqb a "=") && bool_decide (index_of a alphabet = Some n)
    | _ => false end) (seq 0 64) = true) by (destruct Halpha as [-> | ->]; vm_compute; reflexivity).
  rewrite forallb_forall in Hall. specialize (Hall n ltac:(apply in_seq; lia)).
  destruct (String.substring n 1 alphabet) as [|a [|? ?]]; try done.
  apply andb_true_iff in Hall as [He Hi]. bool_case. eauto.
Qed.

Lemma sextets_char n s :
  sextets alphabet (base64_char alphabet n +:+ s) = cons (n mod 64) <$> sextets alphabet s.
Proof.
  destruct (base64_char_index n) as (a & -> & He & Hi). simpl. rewrite He, Hi. simpl.
  by destruct (sextets alphabet s).
Qed.

(** The three bytes of a group come back. *)
Lemma sextet_group x y z : x < 256 → y < 256 → z < 256 →
  4 * ((x / 4) mod 64) + ((16 * x + y / 16) mod 64) / 16 = x ∧
  16 * (((16 * x + y / 16) mod 64) mod 16) + ((4 * y + z / 64) mod 64) / 4 = y ∧
  64 * (((4 * y + z / 64) mod 64) mod 4) + z mod 64 = z.
Proof.
  intros Hx Hy Hz.
  assert (E1 : (16 * x + y / 16) mod 64 = 16 * (x mod 4) + y / 16).
  { pose proof (Nat.div_mod_eq x 4). pose proof (Nat.mod_upper_bound x 4). pose proof (Nat.Div0.div_lt_upper_bound y 16 16).
    symmetry. apply (Nat.mod_unique _ _ (x / 4)); lia. }
  assert (E2 : (4 * y + z / 64) mod 64 = 4 * (y mod 16) + z / 64).
  { pose proof (Nat.div_mod_eq y 16). pose proof (Nat.mod_upper_bound y 16). pose proof (Nat.Div0.div_lt_upper_bound z 64 4).
    symmetry. apply (Nat.mod_unique _ _ (y / 16)); lia. }
  rewrite E1, E2, (Nat.mod_small (x / 4)) by (apply Nat.Div0.div_lt_upper_bound; lia).
  pose proof (Nat.Div0.div_lt_upper_bound y 16 16). pose proof (Nat.Div0.div_lt_upper_bound z 64 4).
  rewrite !(Nat.add_comm (_ * (_ mod _))), !(Nat.mul_comm 16 (x mod 4)), !(Nat.mul_comm 4 (y mod 16)).
  rewrite !Nat.div_add, !Nat.Div0.mod_add, !(Nat.div_small (_ / _)), !(Nat.mod_small (_ / _)) by lia.
  pose proof (Nat.div_mod_eq x 4). pose proof (Nat.div_mod_eq y 16). pose proof (Nat.div_mod_eq z 64). lia.
Qed.

Lemma three_bytes_ind (P : string → Prop) :
  P "" → (∀ a, P (String a "")) → (∀ a b, P (String a (String b ""))) →
  (∀ a b d s, P s → P (String a (String b (String d s)))) → ∀ s, P s.
Proof.
  intros H0 H1 H2 H3. fix go 1. intros [|a [|b [|d s]]]; [apply H0|apply H1|apply H2|apply H3, go].
Qed.

Lemma nat_of_ascii_lt a : nat_of_ascii a < 256.
Proof. apply nat_ascii_bounded. Qed.

(** Decoding gives back the bytes that were encoded, padded or not. *)
Lemma DecodeBase64_Encode padding s :
  padding = "" ∨ padding = "=" → DecodeBase64 alphabet (EncodeBase64 alphabet padding s) = Some s.
Proof.
  intros Hpad. unfold DecodeBase64.
  assert (Hend : sextets alphabet padding = Some [] ∧ sextets alphabet (padding +:+ padding) = Some [])
    by (by destruct Hpad as [-> | ->]).
  destruct Hend as [Hend1 Hend2]. clear Hpad.
  induction s as [|a|a b|a b d s IH] using three_bytes_ind; [done| | |]; cbn [EncodeBase64]; rewrite !sextets_char.
  - rewrite Hend2. destruct (sextet_group (nat_of_ascii a) 0 0 (nat_of_ascii_lt a)) as (G1 & _ & _); [lia..|].
    rewrite Nat.add_0_r in G1. cbn [fmap option_fmap option_map mbind option_bind sextet_bytes].
    by rewrite G1, ascii_nat_embedding.
  - rewrite Hend1.
    destruct (sextet_group (nat_of_ascii a) (nat_of_ascii b) 0 (nat_of_ascii_lt a) (nat_of_ascii_lt b)) as (G1 & G2 & _);
      [lia|].
    rewrite Nat.add_0_r in G2. cbn [fmap option_fmap option_map mbind option_bind sextet_bytes].
    by rewrite G1, G2, !ascii_nat_embedding.
  - destruct (sextet_group (nat_of_ascii a) (nat_of_ascii b) (nat_of_ascii d)) as (G1 & G2 & G3);
      [apply nat_of_ascii_lt..|].
    destruct (sextets alphabet (EncodeBase64 alphabet padding s)) as [l|]; [|done].
    cbn [fmap option_fmap option_map mbind option_bind sextet_bytes] in *. rewrite IH.
    cbn [mbind option_bind]. by rewrite G1, G2, G3, !ascii_nat_embedding.
Qed.
End base64.
