(* ===== verification/Regex.v ===== *)
(** * Regular expressions

    Go's [regexp.MustCompile] patterns that naiserator uses are written here as
    syntax trees; [re_match] decides membership by Brzozowski derivatives and is
    proved equivalent to the usual inductive semantics. [search] is
    [MatchString] for a pattern without anchors. *)

From S2P Require Import Prelude GoStrings.
From Stdlib Require Import Ascii.

Inductive re : Type :=
| Emp
| Eps
| Chr (P : ascii → bool)
| Seq (r1 r2 : re)
| Alt (r1 r2 : re)
| Star (r : re).

Inductive lang : re → string → Prop :=
| lang_eps : lang Eps ""
| lang_chr P a : P a = true → lang (Chr P) (String a "")
| lang_seq r1 r2 s1 s2 : lang r1 s1 → lang r2 s2 → lang (Seq r1 r2) (s1 +:+ s2)
| lang_alt_l r1 r2 s : lang r1 s → lang (Alt r1 r2) s
| lang_alt_r r1 r2 s : lang r2 s → lang (Alt r1 r2) s
| lang_star_nil r : lang (Star r) ""
| lang_star_cons r s1 s2 : lang r s1 → lang (Star r) s2 → lang (Star r) (s1 +:+ s2).

Fixpoint nullable (r : re) : bool :=
  match r with
  | Emp | Chr _ => false
  | Eps | Star _ => true
  | Seq r1 r2 => nullable r1 && nullable r2
  | Alt r1 r2 => nullable r1 || nullable r2
  end.

Fixpoint deriv (a : ascii) (r : re) : re :=
  match r with
  | Emp | Eps => Emp
  | Chr P => if P a then Eps else Emp
  | Seq r1 r2 =>
      if nullable r1 then Alt (Seq (deriv a r1) r2) (deriv a r2) else Seq (deriv a r1) r2
  | Alt r1 r2 => Alt (deriv a r1) (deriv a r2)
  | Star r1 => Seq (deriv a r1) (Star r1)
  end.

(** The whole string is in the language: the pattern [^r$]. *)
Fixpoint re_match (r : re) (s : string) : bool :=
  match s with
  | EmptyString => nullable r
  | String a s' => re_match (deriv a r) s'
  end.

Definition any : re := Star (Chr (fun _ => true)).

(** [MatchString]: some substring is in the language. *)
Definition search (r : re) (s : string) : bool := re_match (Seq any (Seq r any)) s.

Fixpoint Lit (s : string) : re :=
  match s with
  | EmptyString => Eps
  | String a s' => Seq (Chr (Ascii.eqb a)) (Lit s')
  end.

Definition Opt (r : re) : re := Alt r Eps.
Definition Plus (r : re) : re := Seq r (Star r).

Definition in_range (lo hi : ascii) (a : ascii) : bool :=
  (nat_of_ascii lo <=? nat_of_ascii a)%nat && (nat_of_ascii a <=? nat_of_ascii hi)%nat.

Definition is_digit : ascii → bool := in_range "0" "9".
Definition is_lower : ascii → bool := in_range "a" "z".
Definition is_upper : ascii → bool := in_range "A" "Z".

(** Go's Perl class for word characters: digits, letters and the underscore. *)
Definition is_word (a : ascii) : bool :=
  is_digit a || is_lower a || is_upper a || Ascii.eqb a "_".

(** ** Correctness of the matcher *)

Section correctness.
Local Hint Constructors lang : core.

Lemma lang_seq_inv r1 r2 s :
  lang (Seq r1 r2) s ↔ ∃ s1 s2, s = s1 +:+ s2 ∧ lang r1 s1 ∧ lang r2 s2.
Proof.
  split.
  - inversion 1; eauto 6.
  - intros (? & ? & -> & ? & ?). eauto.
Qed.

Lemma lang_alt_inv r1 r2 s : lang (Alt r1 r2) s ↔ lang r1 s ∨ lang r2 s.
Proof. split; [inversion 1; auto|intros []; auto]. Qed.

Lemma nullable_spec r : nullable r = true ↔ lang r "".
Proof.
  induction r as [| |P|r1 IH1 r2 IH2|r1 IH1 r2 IH2|r IH]; simpl.
  - split; [done|inversion 1].
  - split; eauto.
  - split; [done|inversion 1].
  - rewrite andb_true_iff, IH1, IH2, lang_seq_inv. split.
    + intros []. exists "", "". eauto.
    + intros (s1 & s2 & Hs & ? & ?).
      destruct s1, s2; try done; eauto.
  - by rewrite orb_true_iff, IH1, IH2, lang_alt_inv.
  - split; eauto.
Qed.

(** A non-empty word of [Star r] starts with a non-empty word of [r]. *)
Lemma lang_star_cons_inv r a s :
  lang (Star r) (String a s) →
  ∃ s1 s2, s = s1 +:+ s2 ∧ lang r (String a s1) ∧ lang (Star r) s2.
Proof.
  intros H. remember (Star r) as rs eqn:Hr. remember (String a s) as w eqn:Hw.
  revert a s Hr Hw. induction H as [| | | | | |r' s1 s2 H1 _ H2 IH]; intros; simplify_eq.
  destruct s1 as [|b s1]; simpl in *; [by apply IH|].
  simplify_eq. eauto.
Qed.

Lemma deriv_spec r a s : lang (deriv a r) s ↔ lang r (String a s).
Proof.
  revert s; induction r as [| |P|r1 IH1 r2 IH2|r1 IH1 r2 IH2|r IH]; intros s; simpl.
  - split; inversion 1.
  - split; inversion 1.
  - destruct (P a) eqn:HP; split.
    + inversion 1; eauto.
    + inversion 1; eauto.
    + inversion 1.
    + inversion 1; congruence.
  - assert (Hd : lang (Seq (deriv a r1) r2) s ↔
                 ∃ s1 s2, s = s1 +:+ s2 ∧ lang r1 (String a s1) ∧ lang r2 s2).
    { rewrite lang_seq_inv. by setoid_rewrite IH1. }
    assert (Hc : lang (Seq r1 r2) (String a s) ↔
                 lang (Seq (deriv a r1) r2) s ∨ lang r1 "" ∧ lang r2 (String a s)).
    { rewrite Hd, lang_seq_inv. split.
      - intros ([|b s1] & s2 & Hs & ? & ?); simplify_eq/=; eauto 6.
      - intros [(s1 & s2 & -> & ? & ?)|[? ?]];
          [exists (String a s1), s2; auto|exists "", (String a s); auto]. }
    rewrite Hc, <-nullable_spec, <-IH2.
    destruct (nullable r1); rewrite ?lang_alt_inv; naive_solver.
  - by rewrite !lang_alt_inv, IH1, IH2.
  - rewrite lang_seq_inv. setoid_rewrite IH. split.
    + intros (s1 & s2 & -> & ? & ?).
      change (String a (s1 +:+ s2)) with (String a s1 +:+ s2). eauto.
    + intros H. apply lang_star_cons_inv in H. naive_solver.
Qed.

Lemma re_match_spec r s : re_match r s = true ↔ lang r s.
Proof.
  revert r; induction s as [|a s IH]; intros r; simpl.
  - apply nullable_spec.
  - by rewrite IH, deriv_spec.
Qed.

Lemma lang_chr_inv P s : lang (Chr P) s ↔ ∃ a, s = String a "" ∧ P a = true.
Proof. split; [inversion 1; eauto|intros (? & -> & ?); eauto]. Qed.

Lemma lang_eps_inv s : lang Eps s ↔ s = "".
Proof. split; [by inversion 1|intros ->; eauto]. Qed.

Lemma lang_opt_inv r s : lang (Opt r) s ↔ lang r s ∨ s = "".
Proof. unfold Opt. by rewrite lang_alt_inv, lang_eps_inv. Qed.

Lemma lang_lit t s : lang (Lit t) s ↔ s = t.
Proof.
  revert s; induction t as [|a t IH]; intros s; simpl.
  - apply lang_eps_inv.
  - rewrite lang_seq_inv. setoid_rewrite lang_chr_inv. setoid_rewrite IH. split.
    + intros (? & ? & -> & (b & -> & Hb) & ->). apply Ascii.eqb_eq in Hb. by subst.
    + intros ->. exists (String a ""), t.
      repeat split; eauto using Ascii.eqb_refl.
Qed.

Lemma lang_star_chr P s : lang (Star (Chr P)) s ↔ all_chars P s = true.
Proof.
  induction s as [|a s IH]; simpl.
  - split; eauto.
  - rewrite andb_true_iff, <-IH. split.
    + intros H. apply lang_star_cons_inv in H as (s1 & s2 & -> & H1 & ?).
      apply lang_chr_inv in H1 as (b & ? & ?). by simplify_eq/=.
    + intros [? ?]. change (String a s) with (String a "" +:+ s). eauto.
Qed.

Lemma lang_any s : lang any s.
Proof. apply lang_star_chr. induction s; simpl; auto. Qed.

Lemma search_spec r s :
  search r s = true ↔ ∃ s1 w s2, s = s1 +:+ w +:+ s2 ∧ lang r w.
Proof.
  unfold search. rewrite re_match_spec, lang_seq_inv. split.
  - intros (s1 & ? & -> & _ & H). apply lang_seq_inv in H as (w & s2 & -> & ? & _). eauto.
  - intros (s1 & w & s2 & -> & ?). exists s1, (w +:+ s2).
    repeat split; [apply lang_any|]. constructor; [done|apply lang_any].
Qed.

(** Searching for one character of a class is testing every character. *)
Lemma search_chr P s : search (Chr P) s = negb (all_chars (fun a => negb (P a)) s).
Proof.
  apply eq_true_iff_eq. rewrite search_spec. setoid_rewrite lang_chr_inv. split.
  - intros (s1 & ? & s2 & -> & a & -> & Ha).
    rewrite !all_chars_app. simpl. rewrite Ha. simpl. by rewrite andb_false_r.
  - induction s as [|a s IH]; simpl; [done|].
    destruct (P a) eqn:Ha; simpl.
    + intros _. exists "", (String a ""), s. eauto.
    + intros H. destruct (IH H) as (s1 & w & s2 & -> & b & -> & ?).
      exists (String a s1), (String b ""), s2. eauto.
Qed.
End correctness.
