(* ===== verification/Kube.v ===== *)
(** * Kubernetes object metadata and API errors

    The part of the Kubernetes data model every component shares: error values
    with the status reason the code branches on, object metadata, owner
    references. The records hold the fields the source reads or writes; nil-able
    Go maps and slices are [option]s where the source distinguishes nil. *)

From S2P Require Import Prelude GoStrings.

(** ** Errors *)

(** [metav1.StatusReason] of an API error. *)
Inductive StatusReason :=
| ReasonUnknown
| ReasonNotFound
| ReasonAlreadyExists
| ReasonConflict
| ReasonOther (s : string).

#[export] Instance StatusReason_eq_dec : EqDecision StatusReason.
Proof. solve_decision. Defined.

(** A Go [error]: its text, and the status reason [errors.As] finds in its
    chain. [err_sentinel] names the package-level error value it wraps. *)
Record error := mkError {
  err_msg : string;
  err_reason : StatusReason;
  err_sentinel : option string;
}.

#[export] Instance error_eq_dec : EqDecision error.
Proof. solve_decision. Defined.

(** [errors.New(msg)], [fmt.Errorf] without a wrapped error. *)
Definition Errorf (msg : string) : error :=
  {| err_msg := msg; err_reason := ReasonUnknown; err_sentinel := None |}.

(** [fmt.Errorf(pre + "%w", err)]: the chain is kept. *)
Definition Wrapf (pre : string) (e : error) : error :=
  {| err_msg := pre +:+ err_msg e; err_reason := err_reason e; err_sentinel := err_sentinel e |}.

(** [fmt.Errorf(pre + "%s", err)]: only the text is kept. *)
Definition Textf (pre : string) (e : error) : error := Errorf (pre +:+ err_msg e).

(** A run-time panic. controller-runtime recovers it in the reconciling goroutine
    and turns it into an error, so a panic ends a computation as an error does;
    it is marked so that theorems can tell the two apart. *)
Definition Panic (msg : string) : error :=
  {| err_msg := "panic: " +:+ msg +:+ " [recovered]"; err_reason := ReasonUnknown;
     err_sentinel := Some "panic" |}.

Definition is_panic {A} (r : res error A) : bool :=
  match r with Err e => bool_decide (err_sentinel e = Some "panic") | Ok _ => false end.

(** [k8s_errors.ReasonForError], [IsNotFound], [IsAlreadyExists], [IsConflict]. *)
Definition ReasonForError (e : error) : StatusReason := err_reason e.
Definition IsNotFound (e : error) : bool := bool_decide (err_reason e = ReasonNotFound).
Definition IsAlreadyExists (e : error) : bool := bool_decide (err_reason e = ReasonAlreadyExists).
Definition IsConflict (e : error) : bool := bool_decide (err_reason e = ReasonConflict).

Definition reason_string (r : StatusReason) : string :=
  match r with
  | ReasonUnknown => ""
  | ReasonNotFound => "NotFound"
  | ReasonAlreadyExists => "AlreadyExists"
  | ReasonConflict => "Conflict"
  | ReasonOther s => s
  end.

(** ** Metadata *)

Record OwnerReference := mkOwnerReference {
  or_APIVersion : string;
  or_Kind : string;
  or_Name : string;
  or_UID : string;
  or_Controller : option bool;
  or_BlockOwnerDeletion : option bool;
}.

#[export] Instance OwnerReference_eq_dec : EqDecision OwnerReference.
Proof. solve_decision. Defined.

Record ObjectMeta := mkObjectMeta {
  Name : string;
  GenerateName : string;
  Namespace : string;
  SelfLink : string;
  UID : string;
  ResourceVersion : string;
  Generation : Z;
  DeletionTimestamp : option Z;
  Labels : option (gmap string string);
  Annotations : option (gmap string string);
  OwnerReferences : option (list OwnerReference);
  Finalizers : list string;
}.

#[export] Instance ObjectMeta_eq_dec : EqDecision ObjectMeta.
Proof. solve_decision. Defined.

(** The zero [metav1.ObjectMeta]. *)
Definition emptyMeta : ObjectMeta :=
  {| Name := ""; GenerateName := ""; Namespace := ""; SelfLink := ""; UID := "";
     ResourceVersion := ""; Generation := 0; DeletionTimestamp := None; Labels := None;
     Annotations := None; OwnerReferences := None; Finalizers := [] |}.

(** Setters of [metav1.Object]. *)
Definition SetName (n : string) (m : ObjectMeta) : ObjectMeta :=
  {| Name := n; GenerateName := GenerateName m; Namespace := Namespace m;
     SelfLink := SelfLink m; UID := UID m; ResourceVersion := ResourceVersion m;
     Generation := Generation m; DeletionTimestamp := DeletionTimestamp m;
     Labels := Labels m; Annotations := Annotations m;
     OwnerReferences := OwnerReferences m; Finalizers := Finalizers m |}.

Definition SetNamespace (n : string) (m : ObjectMeta) : ObjectMeta :=
  {| Name := Name m; GenerateName := GenerateName m; Namespace := n;
     SelfLink := SelfLink m; UID := UID m; ResourceVersion := ResourceVersion m;
     Generation := Generation m; DeletionTimestamp := DeletionTimestamp m;
     Labels := Labels m; Annotations := Annotations m;
     OwnerReferences := OwnerReferences m; Finalizers := Finalizers m |}.

Definition SetGenerateName (n : string) (m : ObjectMeta) : ObjectMeta :=
  {| Name := Name m; GenerateName := n; Namespace := Namespace m;
     SelfLink := SelfLink m; UID := UID m; ResourceVersion := ResourceVersion m;
     Generation := Generation m; DeletionTimestamp := DeletionTimestamp m;
     Labels := Labels m; Annotations := Annotations m;
     OwnerReferences := OwnerReferences m; Finalizers := Finalizers m |}.

(** [SetResourceVersion], [SetUID] and [SetSelfLink] together. *)
Definition SetIdentity (rv uid selfLink : string) (m : ObjectMeta) : ObjectMeta :=
  {| Name := Name m; GenerateName := GenerateName m; Namespace := Namespace m;
     SelfLink := selfLink; UID := uid; ResourceVersion := rv;
     Generation := Generation m; DeletionTimestamp := DeletionTimestamp m;
     Labels := Labels m; Annotations := Annotations m;
     OwnerReferences := OwnerReferences m; Finalizers := Finalizers m |}.

Definition SetLabels (l : option (gmap string string)) (m : ObjectMeta) : ObjectMeta :=
  {| Name := Name m; GenerateName := GenerateName m; Namespace := Namespace m;
     SelfLink := SelfLink m; UID := UID m; ResourceVersion := ResourceVersion m;
     Generation := Generation m; DeletionTimestamp := DeletionTimestamp m;
     Labels := l; Annotations := Annotations m;
     OwnerReferences := OwnerReferences m; Finalizers := Finalizers m |}.

Definition SetAnnotations (a : option (gmap string string)) (m : ObjectMeta) : ObjectMeta :=
  {| Name := Name m; GenerateName := GenerateName m; Namespace := Namespace m;
     SelfLink := SelfLink m; UID := UID m; ResourceVersion := ResourceVersion m;
     Generation := Generation m; DeletionTimestamp := DeletionTimestamp m;
     Labels := Labels m; Annotations := a;
     OwnerReferences := OwnerReferences m; Finalizers := Finalizers m |}.

Definition SetOwnerReferences (o : option (list OwnerReference)) (m : ObjectMeta) : ObjectMeta :=
  {| Name := Name m; GenerateName := GenerateName m; Namespace := Namespace m;
     SelfLink := SelfLink m; UID := UID m; ResourceVersion := ResourceVersion m;
     Generation := Generation m; DeletionTimestamp := DeletionTimestamp m;
     Labels := Labels m; Annotations := Annotations m;
     OwnerReferences := o; Finalizers := Finalizers m |}.

Definition SetFinalizers (f : list string) (m : ObjectMeta) : ObjectMeta :=
  {| Name := Name m; GenerateName := GenerateName m; Namespace := Namespace m;
     SelfLink := SelfLink m; UID := UID m; ResourceVersion := ResourceVersion m;
     Generation := Generation m; DeletionTimestamp := DeletionTimestamp m;
     Labels := Labels m; Annotations := Annotations m;
     OwnerReferences := OwnerReferences m; Finalizers := f |}.

Definition GetAnnotation (m : ObjectMeta) (k : string) : string := omap_get (Annotations m) k.
Definition GetLabel (m : ObjectMeta) (k : string) : string := omap_get (Labels m) k.

(** A label selector's [key = value]: the label is there and has the value. *)
Definition HasLabel (m : ObjectMeta) (l : string * string) : Prop :=
  default ∅ (Labels m) !! l.1 = Some l.2.
#[export] Instance HasLabel_dec m l : Decision (HasLabel m l).
Proof. unfold HasLabel. apply _. Defined.

Definition ownerRefs (m : ObjectMeta) : list OwnerReference := default [] (OwnerReferences m).

(** The name and namespace of an object. *)
Definition meta_name_ns (m : ObjectMeta) : string * string := (Namespace m, Name m).

(** [controllerutil.ContainsFinalizer], [AddFinalizer] and [RemoveFinalizer] are
    controller-runtime code: an interface with its documented laws. *)
Class FinalizerLib := {
  ContainsFinalizer : ObjectMeta → string → bool;
  AddFinalizer : ObjectMeta → string → ObjectMeta;
  RemoveFinalizer : ObjectMeta → string → ObjectMeta;
}.

Class FinalizerLaws (F : FinalizerLib) : Prop := {
  ContainsFinalizer_add m f : ContainsFinalizer (AddFinalizer m f) f = true;
  ContainsFinalizer_remove m f : ContainsFinalizer (RemoveFinalizer m f) f = false;
  AddFinalizer_key m f : meta_name_ns (AddFinalizer m f) = meta_name_ns m;
}.

(** The finalizer list as the API defines it: an instance of the interface. *)
Definition list_finalizers : FinalizerLib := {|
  ContainsFinalizer m f := bool_decide (f ∈ Finalizers m);
  AddFinalizer m f :=
    if bool_decide (f ∈ Finalizers m) then m else SetFinalizers (Finalizers m ++ [f]) m;
  RemoveFinalizer m f := SetFinalizers (filter (fun g => g ≠ f) (Finalizers m)) m;
|}.

Record ObjectKey := mkKey { key_Namespace : string; key_Name : string }.

#[export] Instance ObjectKey_eq_dec : EqDecision ObjectKey.
Proof. solve_decision. Defined.
#[export] Instance ObjectKey_countable : Countable ObjectKey.
Proof.
  apply (inj_countable' (fun k => (key_Namespace k, key_Name k))
                        (fun p => mkKey p.1 p.2)). by intros [].
Defined.

(** [types.NamespacedName.String] *)
Definition key_String (k : ObjectKey) : string := key_Namespace k +:+ "/" +:+ key_Name k.

Definition meta_key (m : ObjectMeta) : ObjectKey := mkKey (Namespace m) (Name m).

Record GroupVersionKind := mkGVK { gvk_Group : string; gvk_Version : string; gvk_Kind : string }.

#[export] Instance GVK_eq_dec : EqDecision GroupVersionKind.
Proof. solve_decision. Defined.
#[export] Instance GVK_countable : Countable GroupVersionKind.
Proof.
  apply (inj_countable' (fun g => (gvk_Group g, gvk_Version g, gvk_Kind g))
                        (fun p => mkGVK p.1.1 p.1.2 p.2)). by intros [].
Defined.

(** [GroupVersion.String] *)
Definition apiVersion (g : GroupVersionKind) : string :=
  if bool_decide (gvk_Group g = "") then gvk_Version g else gvk_Group g +:+ "/" +:+ gvk_Version g.

(** ** Lemmas *)

Section error_lemmas.
Lemma IsNotFound_Wrapf pre e : IsNotFound (Wrapf pre e) = IsNotFound e.
Proof. done. Qed.
Lemma IsConflict_Wrapf pre e : IsConflict (Wrapf pre e) = IsConflict e.
Proof. done. Qed.
Lemma IsNotFound_Textf pre e : IsNotFound (Textf pre e) = false.
Proof. done. Qed.
Lemma IsConflict_Textf pre e : IsConflict (Textf pre e) = false.
Proof. done. Qed.
Lemma IsNotFound_true e : IsNotFound e = true ↔ err_reason e = ReasonNotFound.
Proof. apply bool_decide_eq_true. Qed.
Lemma IsConflict_true e : IsConflict e = true ↔ err_reason e = ReasonConflict.
Proof. apply bool_decide_eq_true. Qed.
End error_lemmas.

Lemma list_finalizers_laws : FinalizerLaws list_finalizers.
Proof.
  split; intros; simpl.
  - apply bool_decide_eq_true_2. case_bool_decide; simpl; set_solver.
  - apply bool_decide_eq_false_2. rewrite list_elem_of_filter. naive_solver.
  - by case_bool_decide.
Qed.

#[export] Hint Rewrite IsNotFound_Wrapf IsConflict_Wrapf IsNotFound_Textf IsConflict_Textf : kube.
