(* ===== verification/Api.v ===== *)
(** * Kubernetes and nais.io API types

    The data the generators read and produce. Each record holds the fields the
    source names; a resource kind whose contents no modelled component inspects
    is a [BOther]. A workload (Application or Naisjob) is seen through the
    getters of the Go [Source] interfaces: a field of [AppView] is the value the
    getter of the same name returns. *)

From S2P Require Import Prelude GoStrings Kube.

(** ** Core types *)

(** Conversion of a Go [int] to [int32]. *)
Definition int32 (n : Z) : Z := ((n + 2 ^ 31) mod 2 ^ 32 - 2 ^ 31)%Z.

Lemma int32_small n : (- 2 ^ 31 ≤ n < 2 ^ 31)%Z → int32 n = n.
Proof. intros. unfold int32. rewrite Z.mod_small; lia. Qed.

Lemma int32_range n : (- 2 ^ 31 ≤ int32 n < 2 ^ 31)%Z.
Proof. unfold int32. pose proof (Z.mod_pos_bound (n + 2 ^ 31) (2 ^ 32)). lia. Qed.

(** [intstr.FromInt] truncates its argument to the 32 bits of the field. *)
Inductive IntOrString := IntVal (n : Z) | FromString (s : string).

Definition FromInt (n : Z) : IntOrString := IntVal (int32 n).

Record LabelSelector := mkSelector { MatchLabels : gmap string string }.

(** A parsed quantity, named by the text it was read from. *)
Record Quantity := mkQuantity { quantity_text : string }.

Inductive EnvVarSource :=
| FieldRef (fieldPath : string)
| SecretKeyRef (secret key : string) (optional : bool).

Record EnvVar := mkEnvVar { ev_Name : string; ev_Value : string; ev_ValueFrom : option EnvVarSource }.
Definition env (n v : string) : EnvVar := mkEnvVar n v None.

Inductive EnvFromSource := EnvConfigMapRef (name : string) | EnvSecretRef (name : string).

Record KeyToPath := mkKeyToPath { ktp_Key : string; ktp_Path : string }.

Inductive VolumeSource :=
| VConfigMap (name : string)
| VSecret (name : string) (items : list KeyToPath) (mode : option Z)
| VPersistentVolumeClaim (claim : string) (readOnly : bool)
| VEmptyDir (medium : string)
| VServiceAccountToken (path audience : string) (expiration : Z).

Record Volume := mkVolume { vol_Name : string; vol_Source : VolumeSource }.

Record VolumeMount := mkVolumeMount {
  vm_Name : string; vm_ReadOnly : bool; vm_MountPath : string; vm_SubPath : string }.

Record ContainerPort := mkContainerPort { cp_Name : string; cp_Port : Z; cp_Protocol : string }.

Inductive HandlerAction :=
| HandlerExec (command : list string)
| HandlerHTTPGet (path : string) (port : IntOrString)
| HandlerSleep (seconds : Z).

Record Probe := mkProbe {
  pr_Handler : HandlerAction;
  pr_InitialDelaySeconds : Z; pr_PeriodSeconds : Z;
  pr_FailureThreshold : Z; pr_TimeoutSeconds : Z }.

Record SecurityContext := mkSecurityContext {
  sc_AllowPrivilegeEscalation : option bool;
  sc_Privileged : option bool;
  sc_ReadOnlyRootFilesystem : option bool;
  sc_RunAsNonRoot : option bool;
  sc_RunAsGroup : option Z;
  sc_RunAsUser : option Z;
  sc_CapabilitiesDrop : list string;
  sc_SeccompProfile : string }.

Record ResourceRequirements := mkResources {
  rr_Requests : gmap string Quantity; rr_Limits : gmap string Quantity }.

Record Container := mkContainer {
  c_Name : string;
  c_Image : string;
  c_Command : list string;
  c_Args : list string;
  c_Ports : list ContainerPort;
  c_Resources : ResourceRequirements;
  c_ImagePullPolicy : string;
  c_Lifecycle : option HandlerAction;
  c_Env : list EnvVar;
  c_EnvFrom : list EnvFromSource;
  c_VolumeMounts : list VolumeMount;
  c_LivenessProbe : option Probe;
  c_ReadinessProbe : option Probe;
  c_StartupProbe : option Probe;
  c_SecurityContext : option SecurityContext;
  c_RestartPolicy : option string }.

Record Toleration := mkToleration {
  tol_Key : string; tol_Operator : string; tol_Value : string; tol_Effect : string }.

(** Node selector terms as (key, operator, values); the pod anti-affinity as
    (weight, label key, operator, values, topology key). *)
Record Affinity := mkAffinity {
  aff_NodeSelectorTerms : option (list (string * string * list string));
  aff_PodAntiAffinity : list (Z * string * string * list string * string) }.

Record HostAlias := mkHostAlias { ha_Hostnames : list string; ha_IP : string }.

Record PodSpec := mkPodSpec {
  ps_InitContainers : list Container;
  ps_Containers : list Container;
  ps_ServiceAccountName : string;
  ps_RestartPolicy : string;
  ps_DNSPolicy : string;
  ps_Volumes : list Volume;
  ps_ImagePullSecrets : list string;
  ps_TerminationGracePeriodSeconds : option Z;
  ps_Affinity : option Affinity;
  ps_Tolerations : list Toleration;
  ps_FSGroup : option Z;
  ps_FSGroupChangePolicy : string;
  ps_SeccompProfile : string;
  ps_HostAliases : list HostAlias }.

Definition emptyPodSpec : PodSpec :=
  {| ps_InitContainers := []; ps_Containers := []; ps_ServiceAccountName := "";
     ps_RestartPolicy := ""; ps_DNSPolicy := ""; ps_Volumes := []; ps_ImagePullSecrets := [];
     ps_TerminationGracePeriodSeconds := None; ps_Affinity := None; ps_Tolerations := [];
     ps_FSGroup := None; ps_FSGroupChangePolicy := ""; ps_SeccompProfile := "";
     ps_HostAliases := [] |}.

Record PodTemplate := mkPodTemplate { pt_Meta : ObjectMeta; pt_Spec : PodSpec }.

(** ** Workload controllers *)

Inductive DeploymentStrategy :=
| RecreateStrategy
| RollingUpdateStrategy (maxUnavailable maxSurge : IntOrString).

Record DeploymentSpec := mkDeploymentSpec {
  ds_Replicas : option Z;
  ds_Selector : LabelSelector;
  ds_Strategy : DeploymentStrategy;
  ds_ProgressDeadlineSeconds : option Z;
  ds_RevisionHistoryLimit : option Z;
  ds_Template : PodTemplate }.

Record DeploymentStatus := mkDeploymentStatus {
  dst_UpdatedReplicas : Z; dst_Replicas : Z; dst_AvailableReplicas : Z; dst_ObservedGeneration : Z }.

Record JobSpec := mkJobSpec {
  js_ActiveDeadlineSeconds : option Z;
  js_BackoffLimit : option Z;
  js_Completions : option Z;
  js_CompletionMode : option string;
  js_Parallelism : option Z;
  js_Template : PodTemplate;
  js_TTLSecondsAfterFinished : option Z }.

Record CronJobSpec := mkCronJobSpec {
  cj_TimeZone : option string;
  cj_Schedule : string;
  cj_JobTemplateMeta : ObjectMeta;
  cj_JobTemplate : JobSpec;
  cj_Suspend : option bool;
  cj_SuccessfulJobsHistoryLimit : option Z;
  cj_FailedJobsHistoryLimit : option Z;
  cj_ConcurrencyPolicy : string }.

(** ** Services, ingresses, network policies *)

Record ServicePort := mkServicePort {
  sp_Name : string; sp_Protocol : string; sp_Port : Z; sp_TargetPort : IntOrString }.

Record ServiceSpec := mkServiceSpec {
  ss_ClusterIP : string;
  ss_Type : string;
  ss_Selector : gmap string string;
  ss_Ports : list ServicePort }.

Inductive PathType := PathExact | PathPrefix | PathImplementationSpecific.

Record IngressBackend := mkBackend { ib_Name : string; ib_Port : Z }.

Record HTTPIngressPath := mkIngressPath {
  hp_Path : string; hp_PathType : PathType; hp_Backend : IngressBackend }.

Record IngressRule := mkIngressRule { ir_Host : string; ir_Paths : list HTTPIngressPath }.

Record IngressSpec := mkIngressSpec { is_ClassName : string; is_Rules : list IngressRule }.

Record NetworkPolicyPeer := mkPeer {
  np_PodSelector : option LabelSelector;
  np_NamespaceSelector : option LabelSelector;
  np_IPBlock : option string }.

Record NetworkPolicyPort := mkNetpolPort {
  npp_Protocol : option string; npp_Port : option IntOrString }.

Record NetworkPolicyRule := mkNetpolRule {
  npr_Peers : list NetworkPolicyPeer; npr_Ports : list NetworkPolicyPort }.

Record NetworkPolicySpec := mkNetpolSpec {
  nps_PodSelector : LabelSelector;
  nps_PolicyTypes : list string;
  nps_Ingress : list NetworkPolicyRule;
  nps_Egress : list NetworkPolicyRule }.

Record FQDNEgressRule := mkFQDNRule { fr_Ports : list NetworkPolicyPort; fr_FQDNs : list string }.

Record FQDNNetworkPolicySpec := mkFQDNSpec {
  fs_PodSelector : LabelSelector; fs_PolicyTypes : list string; fs_Egress : list FQDNEgressRule }.

(** ** Autoscaling and disruption *)

Inductive MetricSpec :=
| CpuMetric (averageUtilization : Z)
| ExternalMetric (name : string) (selector : gmap string string) (averageValue : Z).

Record HPASpec := mkHPASpec {
  hpa_Target : string;
  hpa_Metrics : list MetricSpec;
  hpa_MinReplicas : option Z;
  hpa_MaxReplicas : Z;
  hpa_ScaleUpWindow : option Z }.

Record PDBSpec := mkPDBSpec {
  pdb_MaxUnavailable : option IntOrString;
  pdb_Selector : LabelSelector;
  pdb_UnhealthyPodEvictionPolicy : string }.

(** ** nais.io types *)

Record AccessPolicyRule := mkRule { apr_Application : string; apr_Namespace : string; apr_Cluster : string }.

(** An inbound rule: the rule and the permissions it grants. *)
Record AccessPolicyInboundRule := mkInboundRule {
  apir_Rule : AccessPolicyRule; apir_Permissions : option (list string * list string) }.

Record AccessPolicyExternalRule := mkExternalRule {
  ext_Host : string; ext_IPv4 : string; ext_Ports : option (list Z) }.

Record AccessPolicyOutbound := mkOutbound {
  out_Rules : list AccessPolicyRule; out_External : list AccessPolicyExternalRule }.

Record AccessPolicy := mkAccessPolicy {
  ap_Inbound : option (list AccessPolicyInboundRule); ap_Outbound : option AccessPolicyOutbound }.

Record KafkaScaling := mkKafkaScaling { ks_Topic : string; ks_ConsumerGroup : string; ks_Threshold : Z }.

Record ScalingStrategy := mkScalingStrategy {
  sst_Cpu : option Z; sst_Kafka : option KafkaScaling; sst_ScaleUpWindow : Z }.

Record Replicas := mkReplicas {
  rep_Min : Z; rep_Max : Z; rep_DisableAutoScaling : bool;
  rep_CpuThresholdPercentage : Z; rep_ScalingStrategy : option ScalingStrategy }.

Record NaisProbe := mkNaisProbe {
  nprobe_Path : string; nprobe_Port : Z; nprobe_InitialDelay : Z; nprobe_PeriodSeconds : Z;
  nprobe_FailureThreshold : Z; nprobe_Timeout : Z }.

Record PreStopHook := mkPreStopHook {
  psh_Exec : option (list string); psh_Http : option (string * option Z) }.

Record PrometheusConfig := mkPrometheus { pc_Enabled : bool; pc_Port : string; pc_Path : string }.

Record EnvFrom := mkEnvFrom { ef_ConfigMap : string; ef_Secret : string }.

Record FilesFrom := mkFilesFrom {
  ff_ConfigMap : string; ff_Secret : string; ff_PersistentVolumeClaim : string;
  ff_EmptyDir : option string; ff_MountPath : string }.

(** Resource requests or limits: (cpu, memory). *)
Record NaisResources := mkNaisResources {
  nr_Requests : option (string * string); nr_Limits : option (string * string) }.

Record NaisStrategy := mkNaisStrategy {
  nst_Type : string; nst_RollingUpdate : option (option IntOrString * option IntOrString) }.

Record Redirect := mkRedirect { rd_From : string; rd_To : string }.

Record NaisService := mkNaisService { ns_Port : Z; ns_Protocol : string }.

(** ** Logins and API clients *)

Record NaisWonderwall := mkWonderwall {
  ww_Enabled : bool; ww_AutoLogin : bool; ww_AutoLoginIgnorePaths : list string;
  ww_Resources : option NaisResources }.

Record AzureApplication := mkAzureApplication {
  aa_Enabled : bool; aa_ReplyURLs : list string; aa_Tenant : string;
  aa_Claims : option (list string); aa_SinglePageApplication : option bool;
  aa_AllowAllUsers : option bool }.

Record NaisAzure := mkAzure { az_Application : option AzureApplication; az_Sidecar : option NaisWonderwall }.

Record IDPortenSidecar := mkIDPortenSidecar {
  ids_Wonderwall : NaisWonderwall; ids_Level : string; ids_Locale : string }.

Record NaisIDPorten := mkIDPorten { idp_Enabled : bool; idp_Sidecar : option IDPortenSidecar }.

(** The login proxy: its provider, and whether and for which paths it is enforced. *)
Record LoginEnforce := mkLoginEnforce { le_Enabled : bool; le_ExcludePaths : list string }.
Record NaisLogin := mkLogin { login_Provider : string; login_Enforce : option LoginEnforce }.

Record NaisMaskinporten := mkMaskinporten {
  mp_Enabled : bool; mp_ConsumedScopes : list string; mp_ExposedScopes : list string }.

Record AuthView := mkAuthView {
  v_Azure : option NaisAzure; v_IDPorten : option NaisIDPorten; v_Login : option NaisLogin;
  v_Maskinporten : option NaisMaskinporten }.

(** ** Platform features *)

Record SecretPath := mkSecretPath { sp_MountPath : string; sp_KvPath : string; sp_Format : string }.
Record NaisVault := mkNaisVault { nv_Enabled : bool; nv_Paths : list SecretPath }.

Record AutoInstrumentation := mkAutoInstrumentation {
  ai_Enabled : bool; ai_Runtime : string; ai_Destinations : list string }.
Record NaisLogging := mkNaisLogging { nl_Enabled : bool; nl_Destinations : list string }.

(** Tracing is its [Enabled] field; destinations are their identifiers. *)
Record NaisObservability := mkNaisObservability {
  no_Tracing : option bool; no_AutoInstrumentation : option AutoInstrumentation;
  no_Logging : option NaisLogging }.

(** [v_Frontend] is the mount path of the generated configuration. *)
Record PlatformView := mkPlatformView {
  v_Vault : option NaisVault; v_SkipCABundle : bool; v_WebProxy : bool;
  v_Frontend : option (option string); v_Observability : option NaisObservability }.

(** ** Backing services *)

Record NaisKafka := mkNaisKafka { nk_Pool : string; nk_Streams : bool }.
Record AivenInstance := mkAivenInstance { an_Instance : string; an_Access : string }.

Record LifecycleCondition := mkLifecycleCondition {
  lc_Age : Z; lc_CreatedBefore : string; lc_DaysSinceCustomTime : Z; lc_NumNewerVersions : Z;
  lc_WithState : string }.

Record CloudStorageBucket := mkBucket {
  csb_Name : string; csb_CascadingDelete : bool; csb_RetentionPeriodDays : option Z;
  csb_LifecycleCondition : option LifecycleCondition; csb_PublicAccessPrevention : bool }.

Record CloudBigQueryDataset := mkBigQuery {
  cbq_Name : string; cbq_Description : string; cbq_Permission : string; cbq_CascadingDelete : bool }.

Record CloudIAMPermission := mkIAMPermission {
  cip_Role : string; cip_APIVersion : string; cip_Kind : string; cip_Name : string }.

Record CloudSqlDatabase := mkCloudSqlDatabase {
  csd_Name : string; csd_EnvVarPrefix : string; csd_Users : option (list string) }.

Record SqlInsights := mkSqlInsights {
  si_Enabled : option bool; si_QueryStringLength : Z; si_RecordApplicationTags : bool;
  si_RecordClientAddress : bool }.

Record CloudSqlInstance := mkCloudSqlInstance {
  csi_Type : string; csi_Name : string; csi_Tier : string; csi_DiskType : string;
  csi_DiskSize : Z; csi_DiskAutoresize : bool; csi_DiskAutoresizeLimit : Z;
  csi_HighAvailability : bool; csi_CascadingDelete : bool; csi_Collation : string;
  csi_Databases : list CloudSqlDatabase; csi_AutoBackupHour : option Z;
  csi_Insights : option SqlInsights; csi_Maintenance : option (Z * option Z);
  csi_PointInTimeRecovery : bool; csi_RetainedBackups : option Z;
  csi_TransactionLogRetentionDays : option Z; csi_Flags : list (string * string) }.

Record NaisGCP := mkNaisGCP {
  gcp_Buckets : list CloudStorageBucket; gcp_BigQueryDatasets : list CloudBigQueryDataset;
  gcp_Permissions : list CloudIAMPermission; gcp_SqlInstances : list CloudSqlInstance }.

Record BackingView := mkBackingView {
  v_Kafka : option NaisKafka; v_OpenSearch : option AivenInstance; v_Valkey : list AivenInstance;
  v_GCP : option NaisGCP; v_Postgres : option string }.

(** ** The workload *)

Record AppView := mkAppView {
  v_Image : string;
  v_Port : Z;
  v_Command : list string;
  v_Env : list EnvVar;
  v_EnvFrom : list EnvFrom;
  v_FilesFrom : list FilesFrom;
  v_Liveness : option NaisProbe;
  v_Readiness : option NaisProbe;
  v_Startup : option NaisProbe;
  v_PreStopHook : option PreStopHook;
  v_PreStopHookPath : string;
  v_Prometheus : PrometheusConfig;
  v_Resources : NaisResources;
  v_Replicas : Replicas;
  v_Strategy : NaisStrategy;
  v_TerminationGracePeriodSeconds : option Z;
  v_Ingress : list string;
  v_Redirects : list Redirect;
  v_Service : NaisService;
  v_AccessPolicy : option AccessPolicy;
  v_LeaderElection : bool;
  v_TokenX : option bool;
  v_Auth : AuthView;
  v_Platform : PlatformView;
  v_Backing : BackingView;
  v_RestartPolicy : string;
  v_Schedule : string;
  v_TimeZone : option string;
  v_ActiveDeadlineSeconds : option Z;
  v_BackoffLimit : option Z;
  v_Completions : option Z;
  v_CompletionMode : option string;
  v_Parallelism : option Z;
  v_TTLSecondsAfterFinished : option Z;
  v_SuccessfulJobsHistoryLimit : Z;
  v_FailedJobsHistoryLimit : option Z;
  v_ConcurrencyPolicy : string }.

(** ** Resources of other operators *)

Record AzureAdApplicationSpec := mkAzureSpec {
  azs_ReplyUrls : list string; azs_LogoutUrl : string;
  azs_PreAuthorizedApplications : list AccessPolicyInboundRule; azs_Tenant : string;
  azs_SecretName : string; azs_Claims : option (list string);
  azs_SinglePageApplication : option bool; azs_AllowAllUsers : option bool }.

(** Kafka is its pool and secret, OpenSearch and Valkey instance, access and secret. *)
Record AivenSpec := mkAivenSpec {
  avn_Kafka : option (string * string); avn_OpenSearch : option (string * string * string);
  avn_Valkey : list (string * string * string) }.

Record IAMResourceRef := mkIAMResourceRef {
  irr_ApiVersion : string; irr_Kind : string; irr_Name : option string; irr_External : option string }.

Record BigQuerySpec := mkBigQuerySpec {
  bqs_Name : string; bqs_Location : string; bqs_Description : string; bqs_CascadingDelete : bool;
  bqs_Access : list (string * string) }.

Record BucketSettings := mkBucketSettings {
  bks_Location : string; bks_UniformBucketLevelAccess : bool; bks_SoftDeleteSeconds : option Z;
  bks_RetentionPeriod : option Z; bks_LifecycleRules : list (string * LifecycleCondition);
  bks_PublicAccessPrevention : string }.

Record SqlBackupRetention := mkSqlBackupRetention {
  sbr_RetainedBackups : Z; sbr_TransactionLogRetentionDays : Z }.

Record SqlSettings := mkSqlSettings {
  sqs_DatabaseVersion : string; sqs_Region : string; sqs_AvailabilityType : string;
  sqs_BackupEnabled : bool; sqs_BackupStartTime : string; sqs_PointInTimeRecovery : bool;
  sqs_BackupRetention : option SqlBackupRetention; sqs_Edition : string; sqs_RequireSsl : bool;
  sqs_DiskAutoresize : bool; sqs_DiskAutoresizeLimit : Z; sqs_DiskSize : Z; sqs_DiskType : string;
  sqs_Tier : string; sqs_DatabaseFlags : list (string * string);
  sqs_Insights : bool * Z * bool * bool; sqs_Maintenance : option (Z * Z) }.

(** The status subresource of a workload. *)
Record Status := mkStatus {
  st_Conditions : list (string * string);
  st_Problems : list string;
  st_SynchronizationState : string;
  st_SynchronizationHash : string;
  st_SynchronizationTime : Z;
  st_CorrelationID : string;
  st_EffectiveImage : string }.

Definition emptyStatus : Status := mkStatus [] [] "" "" 0 "" "".

Definition SetConditions (c : list (string * string)) (s : Status) : Status :=
  mkStatus c (st_Problems s) (st_SynchronizationState s) (st_SynchronizationHash s)
    (st_SynchronizationTime s) (st_CorrelationID s) (st_EffectiveImage s).
Definition SetSynchronizationHash (h : string) (s : Status) : Status :=
  mkStatus (st_Conditions s) (st_Problems s) (st_SynchronizationState s) h
    (st_SynchronizationTime s) (st_CorrelationID s) (st_EffectiveImage s).
Definition SetSynchronizationTime (t : Z) (s : Status) : Status :=
  mkStatus (st_Conditions s) (st_Problems s) (st_SynchronizationState s)
    (st_SynchronizationHash s) t (st_CorrelationID s) (st_EffectiveImage s).
Definition SetCorrelationID (c : string) (s : Status) : Status :=
  mkStatus (st_Conditions s) (st_Problems s) (st_SynchronizationState s)
    (st_SynchronizationHash s) (st_SynchronizationTime s) c (st_EffectiveImage s).
Definition SetEffectiveImage (i : string) (s : Status) : Status :=
  mkStatus (st_Conditions s) (st_Problems s) (st_SynchronizationState s)
    (st_SynchronizationHash s) (st_SynchronizationTime s) (st_CorrelationID s) i.

Inductive WorkloadKind := KApplication | KNaisjob.

#[export] Instance WorkloadKind_eq_dec : EqDecision WorkloadKind.
Proof. solve_decision. Defined.

(** The events naiserator reports: reason, message, type, and the count and
    timestamps that are updated when the same message is reported again. *)
Record EventBody := mkEventBody {
  evt_Reason : string; evt_Message : string; evt_Type : string;
  evt_Count : Z; evt_LastTimestamp : Z;
  evt_InvolvedName : string; evt_InvolvedUID : string }.

(** ** Objects *)

Inductive Body :=
| BWorkload (k : WorkloadKind) (view : AppView) (status : Status)
| BDeployment (spec : DeploymentSpec) (status : DeploymentStatus)
| BCronJob (spec : CronJobSpec)
| BJob (spec : JobSpec)
| BService (spec : ServiceSpec)
| BServiceAccount
| BIngress (spec : IngressSpec)
| BNetworkPolicy (spec : NetworkPolicySpec)
| BFQDNNetworkPolicy (spec : FQDNNetworkPolicySpec)
| BHPA (spec : HPASpec)
| BPDB (spec : PDBSpec)
| BSecret (stringData : gmap string string) (type : string)
| BJwker (policy : AccessPolicy) (secretName : string)
| BEvent (e : EventBody)
| BNamespace
| BImage (image : string)
| BPostgres (engine : option string)
| BConfigMap (data : gmap string string)
| BRoleBinding (clusterRole : string) (subjects : list (string * string))
| BPodMonitor (port path app : string)
| BAzureAdApplication (spec : AzureAdApplicationSpec)
| BMaskinportenClient (consumed exposed : list string) (secretName : string)
| BAivenApplication (spec : AivenSpec)
| BStream (pool : string)
| BIAMServiceAccount (displayName : string)
| BIAMPolicy (serviceAccount : string) (role : string) (members : list string)
| BIAMPolicyMember (member role : string) (ref : IAMResourceRef)
| BBigQueryDataset (spec : BigQuerySpec)
| BSQLInstance (resourceID : string) (privateNetwork : option string) (settings : option SqlSettings)
| BSQLDatabase (resourceID : string) (instance : string)
| BSQLUser (resourceID : string) (instance : string) (passwordKey : string * string)
| BSQLSSLCert (resourceID : string) (commonName : string) (instance : string * string)
| BStorageBucket (resourceID : string) (settings : option BucketSettings)
| BStorageBucketAccessControl
| BOther (type : string) (payload : string).

(** The Go type of an object ([reflect.TypeOf]): what a typed client reads and
    writes. *)
Inductive GoType :=
| TApplication | TNaisjob | TDeployment | TCronJob | TJob | TService | TServiceAccount
| TIngress | TNetworkPolicy | TFQDNNetworkPolicy | THPA | TPDB | TSecret | TJwker
| TEvent | TNamespace | TImage | TPostgres | TConfigMap | TRoleBinding | TPodMonitor
| TAzureAdApplication | TMaskinportenClient | TAivenApplication | TStream
| TIAMServiceAccount | TIAMPolicy | TIAMPolicyMember | TBigQueryDataset
| TSQLInstance | TSQLDatabase | TSQLUser | TSQLSSLCert | TStorageBucket
| TStorageBucketAccessControl | TOther (s : string).

#[export] Instance GoType_eq_dec : EqDecision GoType.
Proof. solve_decision. Defined.

Record Object := mkObject { o_GVK : GroupVersionKind; o_Meta : ObjectMeta; o_Body : Body }.

Definition body_type (b : Body) : GoType :=
  match b with
  | BWorkload KApplication _ _ => TApplication
  | BWorkload KNaisjob _ _ => TNaisjob
  | BDeployment _ _ => TDeployment
  | BCronJob _ => TCronJob
  | BJob _ => TJob
  | BService _ => TService
  | BServiceAccount => TServiceAccount
  | BIngress _ => TIngress
  | BNetworkPolicy _ => TNetworkPolicy
  | BFQDNNetworkPolicy _ => TFQDNNetworkPolicy
  | BHPA _ => THPA
  | BPDB _ => TPDB
  | BSecret _ _ => TSecret
  | BJwker _ _ => TJwker
  | BEvent _ => TEvent
  | BNamespace => TNamespace
  | BImage _ => TImage
  | BPostgres _ => TPostgres
  | BConfigMap _ => TConfigMap
  | BRoleBinding _ _ => TRoleBinding
  | BPodMonitor _ _ _ => TPodMonitor
  | BAzureAdApplication _ => TAzureAdApplication
  | BMaskinportenClient _ _ _ => TMaskinportenClient
  | BAivenApplication _ => TAivenApplication
  | BStream _ => TStream
  | BIAMServiceAccount _ => TIAMServiceAccount
  | BIAMPolicy _ _ _ => TIAMPolicy
  | BIAMPolicyMember _ _ _ => TIAMPolicyMember
  | BBigQueryDataset _ => TBigQueryDataset
  | BSQLInstance _ _ _ => TSQLInstance
  | BSQLDatabase _ _ => TSQLDatabase
  | BSQLUser _ _ _ => TSQLUser
  | BSQLSSLCert _ _ _ => TSQLSSLCert
  | BStorageBucket _ _ => TStorageBucket
  | BStorageBucketAccessControl => TStorageBucketAccessControl
  | BOther t _ => TOther t
  end.

(** [fmt.Sprintf("%T", obj)] *)
Definition type_name (t : GoType) : string :=
  match t with
  | TApplication => "*nais_io_v1alpha1.Application"
  | TNaisjob => "*nais_io_v1.Naisjob"
  | TDeployment => "*v1.Deployment"
  | TCronJob => "*v1.CronJob"
  | TJob => "*v1.Job"
  | TService => "*v1.Service"
  | TServiceAccount => "*v1.ServiceAccount"
  | TIngress => "*v1.Ingress"
  | TNetworkPolicy => "*v1.NetworkPolicy"
  | TFQDNNetworkPolicy => "*v1alpha3.FQDNNetworkPolicy"
  | THPA => "*v2.HorizontalPodAutoscaler"
  | TPDB => "*v1.PodDisruptionBudget"
  | TSecret => "*v1.Secret"
  | TJwker => "*nais_io_v1.Jwker"
  | TEvent => "*v1.Event"
  | TNamespace => "*v1.Namespace"
  | TImage => "*nais_io_v1.Image"
  | TPostgres => "*datav1.Postgres"
  | TConfigMap => "*v1.ConfigMap"
  | TRoleBinding => "*v1.RoleBinding"
  | TPodMonitor => "*v1.PodMonitor"
  | TAzureAdApplication => "*nais_io_v1.AzureAdApplication"
  | TMaskinportenClient => "*nais_io_v1.MaskinportenClient"
  | TAivenApplication => "*aiven_nais_io_v1.AivenApplication"
  | TStream => "*kafka_nais_io_v1.Stream"
  | TIAMPolicyMember => "*v1beta1.IAMPolicyMember"
  | TBigQueryDataset => "*google_nais_io_v1.BigQueryDataset"
  | TIAMServiceAccount => "*v1beta1.IAMServiceAccount"
  | TIAMPolicy => "*v1beta1.IAMPolicy"
  | TSQLInstance => "*v1beta1.SQLInstance"
  | TSQLDatabase => "*v1beta1.SQLDatabase"
  | TSQLUser => "*v1beta1.SQLUser"
  | TSQLSSLCert => "*v1beta1.SQLSSLCert"
  | TStorageBucket => "*v1beta1.StorageBucket"
  | TStorageBucketAccessControl => "*v1beta1.StorageBucketAccessControl"
  | TOther s => s
  end.

Definition TypeOf (o : Object) : GoType := body_type (o_Body o).

Definition set_Meta (f : ObjectMeta → ObjectMeta) (o : Object) : Object :=
  mkObject (o_GVK o) (f (o_Meta o)) (o_Body o).
Definition set_Body (b : Body) (o : Object) : Object := mkObject (o_GVK o) (o_Meta o) b.

Definition object_key (o : Object) : ObjectKey := meta_key (o_Meta o).

(** A workload, as the [resource.Source] interface shows it. *)
Record Source := mkSource {
  src_GVK : GroupVersionKind;
  src_Meta : ObjectMeta;
  src_Kind : WorkloadKind;
  src_View : AppView;
  src_Status : Status }.

Definition source_object (s : Source) : Object :=
  mkObject (src_GVK s) (src_Meta s) (BWorkload (src_Kind s) (src_View s) (src_Status s)).

Definition object_source (o : Object) : option Source :=
  match o_Body o with
  | BWorkload k v st => Some (mkSource (o_GVK o) (o_Meta o) k v st)
  | _ => None
  end.

Definition GetName (s : Source) : string := Name (src_Meta s).
Definition GetNamespace (s : Source) : string := Namespace (src_Meta s).

Definition set_src_Meta (f : ObjectMeta → ObjectMeta) (s : Source) : Source :=
  mkSource (src_GVK s) (f (src_Meta s)) (src_Kind s) (src_View s) (src_Status s).
Definition set_src_Status (f : Status → Status) (s : Source) : Source :=
  mkSource (src_GVK s) (src_Meta s) (src_Kind s) (src_View s) (f (src_Status s)).

Definition GetImage (s : Source) : string := v_Image (src_View s).
Definition GetEffectiveImage (s : Source) : string := st_EffectiveImage (src_Status s).

(** ** Lemmas *)

Lemma object_source_object s : object_source (source_object s) = Some s.
Proof. by destruct s. Qed.

Lemma source_object_source o s : object_source o = Some s → source_object s = o.
Proof.
  destruct o as [g m b]. unfold object_source. destruct b; simpl; intros; by simplify_eq.
Qed.

Lemma TypeOf_set_Meta f o : TypeOf (set_Meta f o) = TypeOf o.
Proof. done. Qed.

#[export] Hint Rewrite TypeOf_set_Meta object_source_object : kube.
