(* ===== verification/Cluster.v ===== *)
(** * Client programs and API servers

    Code that talks to the cluster is a [prog]: a tree of client calls. A call
    returns what [client.Client] returns; what the server does with it is an
    [ApiServer], an interface whose laws are the documented behaviour of the
    Kubernetes API. [MemServer] is an in-memory server that satisfies them. *)

From S2P Require Import Prelude GoStrings Kube Api.

(** ** Calls *)

Record ListOptions := mkListOptions {
  lo_Labels : list (string * string);
  lo_Fields : list (string * string);
  lo_Namespace : string }.

Definition noOptions : ListOptions := mkListOptions [] [] "".

(** The calls of [client.Client], the clock, and the random source. [Get] and
    [ListObjs] name the Go type that is read; a successful write returns the
    object as the server persisted it (the client decodes it into its argument). *)
Inductive op : Type → Type :=
| Get (t : GoType) (k : ObjectKey) : op (res error Object)
| ListObjs (t : GoType) (o : ListOptions) : op (res error (list Object))
| Create (o : Object) : op (res error Object)
| Update (o : Object) : op (res error Object)
| Delete (o : Object) (propagation : option string) : op (res error unit)
| Patch (modified original : Object) : op (res error Object)
| UpdateStatus (o : Object) : op (res error Object)
| Now : op Z
| Sleep (d : Z) : op unit
| NewUUID : op (res error string).

Inductive prog (A : Type) : Type :=
| Ret (a : A)
| Vis {X : Type} (e : op X) (k : X → prog A).

Arguments Ret {A} a.
Arguments Vis {A X} e k.

Fixpoint prog_bind {A B} (f : A → prog B) (p : prog A) : prog B :=
  match p with
  | Ret a => f a
  | Vis e k => Vis e (fun x => prog_bind f (k x))
  end.

#[export] Instance prog_ret : MRet prog := fun A a => Ret a.
#[export] Instance prog_mbind : MBind prog := fun A B f p => prog_bind f p.

Definition call {X} (e : op X) : prog X := Vis e (fun x => Ret x).

(** [x, err := p; if err != nil { return err }; k] *)
Definition prog_try {E A B} (p : prog (res E A)) (k : A → prog (res E B)) : prog (res E B) :=
  prog_bind (fun r => match r with Ok a => k a | Err e => Ret (Err e) end) p.

(** Bind with the error passed through [f] ([fmt.Errorf("...: %w", err)]). *)
Definition prog_try_map {E F A B} (f : E → F) (p : prog (res E A))
    (k : A → prog (res F B)) : prog (res F B) :=
  prog_bind (fun r => match r with Ok a => k a | Err e => Ret (Err (f e)) end) p.

Notation "x '←!' p ; k" := (prog_try p (fun x => k))
  (at level 20, p at level 100, k at level 200) : stdpp_scope.
Notation "x '←!{' f '}' p ; k" := (prog_try_map f p (fun x => k))
  (at level 20, f at level 100, p at level 100, k at level 200) : stdpp_scope.

(** [for _, x := range xs { if err := f(x); err != nil { return err } }] *)
Fixpoint prog_iter {E A} (f : A → prog (res E unit)) (xs : list A) : prog (res E unit) :=
  match xs with
  | [] => Ret (Ok tt)
  | x :: xs' => prog_try (f x) (fun _ => prog_iter f xs')
  end.

(** ** Call classes *)

Definition is_write {X} (e : op X) : bool :=
  match e with
  | Create _ | Update _ | Delete _ _ | Patch _ _ | UpdateStatus _ => true
  | _ => false
  end.

Definition is_sleep {X} (e : op X) : bool :=
  match e with Sleep _ => true | _ => false end.

Definition is_status_write {X} (e : op X) : bool :=
  match e with UpdateStatus _ => true | _ => false end.

(** Every call a program can make, whatever the server answers, satisfies [P]. *)
Inductive all_ops (P : ∀ X, op X → Prop) {A} : prog A → Prop :=
| all_ops_ret a : all_ops P (Ret a)
| all_ops_vis {X} (e : op X) k : P X e → (∀ x, all_ops P (k x)) → all_ops P (Vis e k).

(** Every value a program can return, whatever the server answers, satisfies [Q]. *)
Inductive all_rets {A} (Q : A → Prop) : prog A → Prop :=
| all_rets_ret a : Q a → all_rets Q (Ret a)
| all_rets_vis {X} (e : op X) k : (∀ x, all_rets Q (k x)) → all_rets Q (Vis e k).

Definition read_only {A} : prog A → Prop := all_ops (fun X e => is_write e = false).

(** ** Servers *)

(** An object without what a status update may change: the status of a workload
    and the resource version. *)
Definition erase_status (o : Object) : Object :=
  mkObject (o_GVK o) (SetIdentity "" (UID (o_Meta o)) (SelfLink (o_Meta o)) (o_Meta o))
    (match o_Body o with BWorkload k v _ => BWorkload k v emptyStatus | b => b end).

(** [persisted sent x]: the server may store [x] when it is sent [sent]. Servers fill in
    defaults and the fields they manage themselves (resource versions, the address of a
    Service), and admission may change an object, so the two are related, not equal. *)
Class ApiServer (W : Type) := {
  handle : ∀ X, op X → W → X * W;
  stored : W → GoType → ObjectKey → option Object;
  persisted : Object → Object → Prop;
  clock : W → Z;
}.

Fixpoint run {W A} `{ApiServer W} (p : prog A) (w : W) : A * W :=
  match p with
  | Ret a => (a, w)
  | Vis e k => let '(x, w') := handle _ e w in run (k x) w'
  end.

(** The cluster has the object, and nobody is deleting it. *)
Definition alive {W} `{ApiServer W} (w : W) (t : GoType) (k : ObjectKey) : Prop :=
  ∃ o, stored w t k = Some o ∧ DeletionTimestamp (o_Meta o) = None.

(** What the components rely on: reads do not change the cluster and answer
    from it; a call that fails changes nothing; what is stored comes from what was sent;
    the clock moves forward. A run is described in isolation, as the effect of the
    program's own calls: nobody else writes between them, and [server_isolated] says that
    nobody does, not even to finish a deletion, while the program sleeps. *)
Class ApiServerLaws (W : Type) `{ApiServer W} := {
  server_query : ∀ X (e : op X) w, is_write e = false → is_sleep e = false →
    ∀ t k, stored (handle _ e w).2 t k = stored w t k;
  server_isolated : ∀ d w t k, stored (handle _ (Sleep d) w).2 t k = stored w t k;
  server_get_ok : ∀ t k w o, (handle _ (Get t k) w).1 = Ok o → stored w t k = Some o;
  server_get_notfound : ∀ t k w e,
    (handle _ (Get t k) w).1 = Err e → IsNotFound e = true → stored w t k = None;
  server_stored_type : ∀ w t k o, stored w t k = Some o → TypeOf o = t ∧ object_key o = k;
  server_list_type : ∀ t lo w l, (handle _ (ListObjs t lo) w).1 = Ok l →
    Forall (fun o => TypeOf o = t) l;
  server_list_stored : ∀ t lo w l, (handle _ (ListObjs t lo) w).1 = Ok l →
    Forall (fun o => stored w t (object_key o) = Some o) l;
  server_list_namespace : ∀ t lo w l, (handle _ (ListObjs t lo) w).1 = Ok l →
    lo_Namespace lo ≠ "" → Forall (fun o => Namespace (o_Meta o) = lo_Namespace lo) l;
  server_list_labels : ∀ t lo w l, (handle _ (ListObjs t lo) w).1 = Ok l →
    Forall (fun o => Forall (HasLabel (o_Meta o)) (lo_Labels lo)) l;
  server_list_complete : ∀ t lo w l k o, (handle _ (ListObjs t lo) w).1 = Ok l →
    lo_Fields lo = [] → lo_Namespace lo = "" ∨ key_Namespace k = lo_Namespace lo →
    stored w t k = Some o → Forall (HasLabel (o_Meta o)) (lo_Labels lo) → o ∈ l;
  server_create_err : ∀ o w e, (handle _ (Create o) w).1 = Err e →
    ∀ t k, stored (handle _ (Create o) w).2 t k = stored w t k;
  server_create_exists : ∀ o w e, (handle _ (Create o) w).1 = Err e →
    GenerateName (o_Meta o) = "" → IsAlreadyExists e = true → is_Some (stored w (TypeOf o) (object_key o));
  server_create_ok : ∀ o w o', (handle _ (Create o) w).1 = Ok o' →
    GenerateName (o_Meta o) = "" →
    stored w (TypeOf o) (object_key o) = None ∧
    stored (handle _ (Create o) w).2 (TypeOf o) (object_key o) = Some o' ∧ persisted o o';
  server_create_key : ∀ o w t k, GenerateName (o_Meta o) = "" →
    (t, k) ≠ (TypeOf o, object_key o) → stored (handle _ (Create o) w).2 t k = stored w t k;
  server_create_alive : ∀ o w o', (handle _ (Create o) w).1 = Ok o' → GenerateName (o_Meta o) = "" →
    DeletionTimestamp (o_Meta o) = None →
    alive (handle _ (Create o) w).2 (TypeOf o) (object_key o);
  server_update_alive : ∀ o w, DeletionTimestamp (o_Meta o) = None →
    alive w (TypeOf o) (object_key o) →
    alive (handle _ (Update o) w).2 (TypeOf o) (object_key o);
  server_patch_alive : ∀ m o w, DeletionTimestamp (o_Meta m) = None →
    alive w (TypeOf m) (object_key m) →
    alive (handle _ (Patch m o) w).2 (TypeOf m) (object_key m);
  server_delete_gone : ∀ o d w, (handle _ (Delete o d) w).1 = Ok tt →
    ∀ x, stored (handle _ (Delete o d) w).2 (TypeOf o) (object_key o) = Some x →
      Finalizers (o_Meta x) ≠ [];
  server_delete_notfound : ∀ o d w e, (handle _ (Delete o d) w).1 = Err e → IsNotFound e = true →
    stored (handle _ (Delete o d) w).2 (TypeOf o) (object_key o) = None;
  server_update_err : ∀ o w e, (handle _ (Update o) w).1 = Err e →
    ∀ t k, stored (handle _ (Update o) w).2 t k = stored w t k;
  server_update_ok : ∀ o w o', (handle _ (Update o) w).1 = Ok o' →
    is_Some (stored w (TypeOf o) (object_key o));
  server_update_persisted : ∀ o w o', (handle _ (Update o) w).1 = Ok o' →
    alive w (TypeOf o) (object_key o) →
    stored (handle _ (Update o) w).2 (TypeOf o) (object_key o) = Some o' ∧ persisted o o';
  server_write_other : ∀ o w t k, (t, k) ≠ (TypeOf o, object_key o) →
    stored (handle _ (Update o) w).2 t k = stored w t k ∧
    ∀ d, stored (handle _ (Delete o d) w).2 t k = stored w t k;
  server_create_other : ∀ o w t k, t ≠ TypeOf o ∨ key_Namespace k ≠ Namespace (o_Meta o) →
    stored (handle _ (Create o) w).2 t k = stored w t k;
  server_patch_other : ∀ m o w t k, (t, k) ≠ (TypeOf m, object_key m) →
    stored (handle _ (Patch m o) w).2 t k = stored w t k;
  server_delete_err : ∀ o d w e, (handle _ (Delete o d) w).1 = Err e →
    ∀ t k, stored (handle _ (Delete o d) w).2 t k = stored w t k;
  server_status_ok : ∀ s w o', (handle _ (UpdateStatus (source_object s)) w).1 = Ok o' →
    ∃ s', stored (handle _ (UpdateStatus (source_object s)) w).2
            (TypeOf (source_object s)) (object_key (source_object s)) = Some (source_object s') ∧
          src_Status s' = src_Status s;
  server_status_only : ∀ s w t k,
    erase_status <$> stored (handle _ (UpdateStatus (source_object s)) w).2 t k =
    erase_status <$> stored w t k;
  server_status_other : ∀ s w t k, (t, k) ≠ (TypeOf (source_object s), object_key (source_object s)) →
    stored (handle _ (UpdateStatus (source_object s)) w).2 t k = stored w t k;
  server_clock_mono : ∀ X (e : op X) w, (clock w ≤ clock (handle _ e w).2)%Z;
  server_now : ∀ w, (clock w ≤ (handle _ Now w).1 ≤ clock (handle _ Now w).2)%Z;
  server_sleep : ∀ d w, (clock w + d ≤ clock (handle _ (Sleep d) w).2)%Z;
}.

(** ** Lemmas on programs *)

Section prog_lemmas.
Context {W : Type} `{ApiServer W}.

Lemma run_bind {A B} (p : prog A) (f : A → prog B) (w : W) :
  run (prog_bind f p) w = let '(a, w') := run p w in run (f a) w'.
Proof.
  revert w; induction p as [a|X e k IH]; intros w; simpl; [done|].
  destruct (handle X e w) as [x w']. apply IH.
Qed.

Lemma run_mbind {A B} (p : prog A) (f : A → prog B) (w : W) :
  run (p ≫= f) w = let '(a, w') := run p w in run (f a) w'.
Proof. apply run_bind. Qed.

Lemma run_try {E A B} (p : prog (res E A)) (k : A → prog (res E B)) (w : W) :
  run (prog_try p k) w =
    match run p w with
    | (Ok a, w') => run (k a) w'
    | (Err e, w') => (Err e, w')
    end.
Proof. unfold prog_try. rewrite run_bind. by destruct (run p w) as [[]]. Qed.

Lemma run_try_map {E F A B} (f : E → F) (p : prog (res E A)) (k : A → prog (res F B)) (w : W) :
  run (prog_try_map f p k) w =
    match run p w with
    | (Ok a, w') => run (k a) w'
    | (Err e, w') => (Err (f e), w')
    end.
Proof. unfold prog_try_map. rewrite run_bind. by destruct (run p w) as [[]]. Qed.

Lemma run_call {X} (e : op X) (w : W) : run (call e) w = handle _ e w.
Proof. simpl. by destruct (handle X e w). Qed.
End prog_lemmas.

Section all_ops_lemmas.
Context (P : ∀ X, op X → Prop).

Lemma all_ops_bind {A B} (p : prog A) (f : A → prog B) :
  all_ops P p → (∀ a, all_ops P (f a)) → all_ops P (prog_bind f p).
Proof. intros Hp Hf; induction Hp; simpl; [done|]. by constructor. Qed.

Lemma all_ops_mbind {A B} (p : prog A) (f : A → prog B) :
  all_ops P p → (∀ a, all_ops P (f a)) → all_ops P (p ≫= f).
Proof. apply all_ops_bind. Qed.

Lemma all_ops_try {E A B} (p : prog (res E A)) (k : A → prog (res E B)) :
  all_ops P p → (∀ a, all_ops P (k a)) → all_ops P (prog_try p k).
Proof. intros. apply all_ops_bind; [done|]. intros []; [done|constructor]. Qed.

Lemma all_ops_try_map {E F A B} (f : E → F) (p : prog (res E A)) (k : A → prog (res F B)) :
  all_ops P p → (∀ a, all_ops P (k a)) → all_ops P (prog_try_map f p k).
Proof. intros. apply all_ops_bind; [done|]. intros []; [done|constructor]. Qed.

Lemma all_ops_call {X} (e : op X) : P X e → all_ops P (call e).
Proof. intros. constructor; [done|]. constructor. Qed.

Lemma all_ops_iter {E A} (f : A → prog (res E unit)) xs :
  (∀ x, x ∈ xs → all_ops P (f x)) → all_ops P (prog_iter f xs).
Proof.
  induction xs as [|x xs IH]; simpl; intros Hf; [constructor|].
  apply all_ops_try; [apply Hf; by left|]. intros _. apply IH.
  intros y Hy. apply Hf. by right.
Qed.

Lemma all_ops_inv {A} (p : prog A) :
  all_ops P p → match p with Ret _ => True | Vis e k => P _ e ∧ ∀ x, all_ops P (k x) end.
Proof. by intros []. Qed.

Lemma all_rets_inv {A} (Q : A → Prop) (p : prog A) :
  all_rets Q p → match p with Ret a => Q a | Vis e k => ∀ x, all_rets Q (k x) end.
Proof. by intros []. Qed.

(** A continuation that is only ever given values that satisfy [Q]. *)
Lemma all_ops_bind_rets {A B} (Q : A → Prop) (p : prog A) (f : A → prog B) :
  all_ops P p → all_rets Q p → (∀ a, Q a → all_ops P (f a)) → all_ops P (prog_bind f p).
Proof.
  intros Hp Hq Hf. induction p as [a|X e k IH]; simpl.
  - apply Hf. by apply all_rets_inv in Hq.
  - apply all_ops_inv in Hp as [He Hk]. apply all_rets_inv in Hq.
    by constructor; [|intros x; apply IH].
Qed.

Lemma all_rets_bind {A B} (Q : B → Prop) (p : prog A) (f : A → prog B) :
  (∀ a, all_rets Q (f a)) → all_rets Q (prog_bind f p).
Proof. intros Hf. induction p as [a|X e k IH]; simpl; [done|]. constructor. intros x. apply IH. Qed.

Lemma all_ops_impl (Q : ∀ X, op X → Prop) {A} (p : prog A) :
  (∀ X e, P X e → Q X e) → all_ops P p → all_ops Q p.
Proof. intros HPQ Hp; induction Hp; constructor; auto. Qed.
End all_ops_lemmas.

(** Nothing changes the cluster but writes. *)
Lemma server_read {W} `{ApiServerLaws W} X (e : op X) (w : W) :
  is_write e = false → ∀ t k, stored (handle _ e w).2 t k = stored w t k.
Proof.
  intros He. destruct (is_sleep e) eqn:Hs; [|by apply server_query].
  destruct e; try done. apply server_isolated.
Qed.

Lemma read_only_run {W A} `{ApiServerLaws W} (p : prog A) (w : W) :
  read_only p → ∀ t k, stored (run p w).2 t k = stored w t k.
Proof.
  intros Hp. revert w. induction Hp as [|X e k He _ IH]; intros w t ky; simpl; [done|].
  pose proof (server_read X e w He t ky) as Hs.
  destruct (handle X e w) as [x w'] eqn:Hh. simpl in *.
  by rewrite IH.
Qed.

(** Statuses are written of workloads only. *)
Definition status_of_workload {X} (e : op X) : Prop :=
  match e with UpdateStatus o => is_Some (object_source o) | _ => True end.

(** Nothing is written but the statuses of workloads. *)
Definition status_only {X} (e : op X) : Prop :=
  match e with UpdateStatus o => is_Some (object_source o) | _ => is_write e = false end.

Lemma status_only_run {W A} `{ApiServerLaws W} (p : prog A) (w : W) :
  all_ops (fun X e => status_only e) p →
  ∀ t k, erase_status <$> stored (run p w).2 t k = erase_status <$> stored w t k.
Proof.
  intros Hp. revert w. induction Hp as [|X e k He _ IH]; intros w t ky; simpl; [done|].
  assert (Hs : erase_status <$> stored (handle X e w).2 t ky = erase_status <$> stored w t ky).
  { destruct e; try by rewrite server_read. destruct He as [s Hs].
    rewrite <-(source_object_source _ _ Hs). apply server_status_only. }
  destruct (handle X e w) as [x w']. by rewrite IH.
Qed.

(** ** What a program leaves alone *)

(** The namespace a write goes to; status writes are of the workload itself. *)
Definition writes_in (ns : string) {X} (e : op X) : bool :=
  match e with
  | Create o | Update o | Delete o _ | Patch o _ => bool_decide (Namespace (o_Meta o) = ns)
  | UpdateStatus _ => false
  | _ => true
  end.

Section leaves.
Context {W : Type} `{ApiServerLaws W}.

(** Whatever the cluster, the program does not change the object at [t] and [k]. *)
Definition leaves (t : GoType) (k : ObjectKey) {A} (p : prog A) : Prop :=
  ∀ w, stored (run p w).2 t k = stored w t k.

Lemma leaves_call_other (ns : string) t k {X} (e : op X) w :
  writes_in ns e = true → key_Namespace k ≠ ns → stored (handle _ e w).2 t k = stored w t k.
Proof.
  intros He Hk. destruct e as [| |o|o|o d|m o|o| | |]; simpl in He; bool_case; subst; try done;
    try (by apply server_read).
  - apply server_create_other. by right.
  - by apply server_write_other; intros [= -> ->].
  - by apply server_write_other; intros [= -> ->].
  - by apply server_patch_other; intros [= -> ->].
Qed.

(** Writes in one namespace leave the others alone. *)
Lemma all_ops_leaves (ns : string) t k {A} (p : prog A) :
  all_ops (fun X e => writes_in ns e = true) p → key_Namespace k ≠ ns → leaves t k p.
Proof.
  intros Hp Hk w. revert w. induction Hp as [|X e c He _ IH]; intros w; simpl; [done|].
  pose proof (leaves_call_other ns t k e w He Hk) as Hs. destruct (handle X e w) as [x w']. by rewrite IH.
Qed.

Lemma leaves_bind t k {A B} (p : prog A) (f : A → prog B) :
  leaves t k p → (∀ a, leaves t k (f a)) → leaves t k (prog_bind f p).
Proof.
  intros Hp Hf w. rewrite run_bind. specialize (Hp w). destruct (run p w) as [a w1]. by rewrite Hf.
Qed.
End leaves.

#[export] Hint Resolve all_ops_bind all_ops_try all_ops_try_map all_ops_call all_ops_ret
  all_ops_vis all_ops_iter : nais.

(** Peels the structure of a program in an [all_ops] goal, leaving one goal per
    call that does not compute to a call the predicate accepts. *)
Ltac ops_step :=
  first
    [ progress intros
    | apply all_ops_ret
    | apply all_ops_try | apply all_ops_try_map
    | apply all_ops_mbind | apply all_ops_bind | apply all_ops_iter | apply all_ops_call
    | apply all_ops_vis
    | done
    | case_match ].

Ltac solve_ops := unfold read_only; repeat ops_step.

(** Runs a program up to its next call. *)
Ltac run_step :=
  repeat first [ rewrite run_mbind | rewrite run_try | rewrite run_try_map | rewrite run_call ].

(** Names the answer and the next world of the first call of the goal. *)
Tactic Notation "call_case" simple_intropattern(pat) :=
  match goal with
  | |- context [handle ?X ?e ?w] => destruct (handle X e w) as pat; cbn [fst snd] in *
  end.
