(* ===== verification/Vendor.v ===== *)
(** * Third-party code the source calls

    Functions of [nais/liberator], the Kubernetes libraries and [net/url] that
    are not in the repository. They are fields of interfaces, so that every
    theorem holds for all their implementations; the laws some theorems need are
    separate classes, stated from the documented behaviour, with a concrete
    instance in [Samples] of the files that use them. *)

From S2P Require Import Prelude GoStrings Kube Api.

Record ObjectReference := mkObjectReference { ref_Name : string; ref_UID : string }.

(** The parts of a parsed [url.URL] the source reads; [url_Rest] is everything
    else (user, query, fragment, the raw forms). *)
Record URL := mkURL { url_Scheme : string; url_Host : string; url_Path : string; url_Rest : string }.

Definition set_url_Path (p : string) (u : URL) : URL :=
  mkURL (url_Scheme u) (url_Host u) p (url_Rest u).

(** [url.Parse] and [URL.String]. *)
Class UrlLib := {
  url_Parse : string → res error URL;
  url_String : URL → string;
}.

(** [github.com/nais/liberator] *)
Class Liberator := {
  (* pkg/apis/nais.io: the status and the Source methods *)
  SetSynchronizationStateWithCondition : string → string → Status → Status;
  SetError : string → Status → Status;
  ClearProblems : Status → Status;
  ApplyDefaults : Source → res error Source;
  Hash : Source → Z → res error string;
  GetOwnerReference : Source → OwnerReference;
  GetObjectReference : Source → ObjectReference;
  CorrelationID : Source → string;
  DeploymentCorrelationIDAnnotation : string;
  MatchesCluster : AccessPolicyRule → string → bool;
  DefaultServicePort : Z;
  DefaultPortName : string;
  DefaultSecretMountPath : string;
  MediumTypeMemory : string;
  DeploymentStrategyRecreate : string;
  GetDefaultMountPath : string → string;
  GetDefaultPVCMountPath : string → string;
  (* pkg/namegen, pkg/stringutil *)
  ShortName : string → Z → res error string;
  LibStrTrimMiddle : string → Z → string;
  (* the random part of the name is the implementation's *)
  PrefixedRandShortName : string → string → Z → string;
  RandShortName : string → Z → string;
  SuffixedShortName : string → string → Z → res error string;
  (* pkg/keygen: random bytes, as a string *)
  Keygen : Z → res error string;
  DefaultJwkerMountPath : string;
  DefaultAzureratorMountPath : string;
  DefaultDigdiratorIDPortenMountPath : string;
  DefaultDigdiratorMaskinportenMountPath : string;
  DefaultKafkaratorMountPath : string;
  DefaultSqeletorMountPath : string;
  DefaultVaultMountPath : string;
  OpenSearchFullyQualifiedName : string → string → string;
  TopicPrefix : ObjectMeta → string;
  BigQueryPermission_GoogleType : string → string;
  CloudSqlInstanceDiskType_GoogleType : string → string;
  CloudSqlInstanceDiskTypeSSD : string;
  SQLInstanceEditionEnterprise : string;
  Insights_IsEnabled : option SqlInsights → bool;
  GCP_Instance : NaisGCP → option CloudSqlInstance;
  CloudSqlInstance_Database : CloudSqlInstance → option CloudSqlDatabase;
  PublicAccessPreventionInherited : string;
  PublicAccessPreventionEnforced : string;
  (* pkg/events *)
  events_FailedPrepare : string;
  events_FailedGenerate : string;
  events_FailedSynchronization : string;
  events_FailedStatusUpdate : string;
  events_Retrying : string;
  events_Synchronized : string;
  events_RolloutComplete : string;
}.

(** What the synchronizer relies on: a status update touches the state,
    conditions and problems and nothing else. *)
Class LiberatorStatusLaws (L : Liberator) : Prop := {
  SetState_state st msg s :
    st_SynchronizationState (SetSynchronizationStateWithCondition st msg s) = st;
  SetState_hash st msg s :
    st_SynchronizationHash (SetSynchronizationStateWithCondition st msg s) =
    st_SynchronizationHash s;
  SetState_image st msg s :
    st_EffectiveImage (SetSynchronizationStateWithCondition st msg s) = st_EffectiveImage s;
  SetError_hash m s : st_SynchronizationHash (SetError m s) = st_SynchronizationHash s;
  SetError_state m s : st_SynchronizationState (SetError m s) = st_SynchronizationState s;
  SetError_image m s : st_EffectiveImage (SetError m s) = st_EffectiveImage s;
  ClearProblems_hash s : st_SynchronizationHash (ClearProblems s) = st_SynchronizationHash s;
  ClearProblems_state s : st_SynchronizationState (ClearProblems s) = st_SynchronizationState s;
  ClearProblems_image s : st_EffectiveImage (ClearProblems s) = st_EffectiveImage s;
  ClearProblems_problems s : st_Problems (ClearProblems s) = [];
}.

(** An owner reference identifies the workload by its UID. *)
Class LiberatorOwnerLaws (L : Liberator) : Prop :=
  GetOwnerReference_UID : ∀ s, or_UID (GetOwnerReference s) = UID (src_Meta s).

(** [labels.NewRequirement], [fields.ParseSelector] and [resource.ParseQuantity]
    of apimachinery, and the registry of known types ([runtime.Scheme]). *)
Class ApiMachinery := {
  NewRequirement : string → string → res error (string * string);
  ParseSelector : string → res error (list (string * string));
  scheme_New : GroupVersionKind → res error GoType;
  GVKForObject : GoType → res error GroupVersionKind;
  ParseQuantity : string → res error Quantity;
}.

(** A requirement made with [selection.Equals] selects its key and value. *)
Class ApiMachineryLaws (AM : ApiMachinery) : Prop :=
  NewRequirement_ok : ∀ k v r, NewRequirement k v = Ok r → r = (k, v).

(** [resource.MustParse] panics on a text [resource.ParseQuantity] rejects. *)
Definition MustParse `{ApiMachinery} (s : string) : res error Quantity :=
  match ParseQuantity s with
  | Ok q => Ok q
  | Err e => Err (Panic ("cannot parse '" +:+ s +:+ "': " +:+ err_msg e))
  end.

(** [github.com/imdario/mergo]: [Merge(dst, src)], and
    [github.com/mitchellh/hashstructure]: [Hash]. *)
Class StructLib := {
  MergeResources : NaisResources → NaisResources → res error NaisResources;
  MergeSqlInstance : CloudSqlInstance → CloudSqlInstance → res error CloudSqlInstance;
  HashPermission : CloudIAMPermission → res error Z;
}.

(** The order in which [range] visits a Go map is not specified: it is a
    parameter, any enumeration of the entries. *)
Class MapRange := { map_range : ∀ {A}, gmap string A → list (string * A) }.

Class MapRangeLaws (R : MapRange) : Prop :=
  map_range_perm : ∀ A (m : gmap string A), map_range m ≡ₚ map_to_list m.
