(* ===== verification/Util.v ===== *)
(** * Utility functions

    Models [pkg/util]: trimming of long messages (strings.go, where a slice out
    of range is a panic) and passwords, the validation of ingress URLs and the paths
    appended to them (url.go), and [SetAnnotation] (objectmeta.go). The parser of
    URLs and the random source are parameters. *)

From S2P Require Import Prelude GoStrings Regex Kube Vendor.

(** ** strings.go *)

Definition strTrimMiddleTruncate : string := "---[truncated]---".
Definition strTrimRightTruncate : string := "...".

(** [s + t] of two slices, either of which may panic. *)
Definition cat (a b : option string) : option string :=
  s ← a; t ← b; Some (s +:+ t).

Definition StrTrimRight (s : string) (maxlen : Z) : option string :=
  let l := Z.of_nat (slen strTrimRightTruncate) in
  if (l <? maxlen)%Z then cat (slice s 0 (maxlen - l)) (Some strTrimRightTruncate)
  else slice s 0 maxlen.

Definition StrTrimMiddle (s : string) (maxlen : Z) : option string :=
  let len := Z.of_nat (slen s) in
  let l := Z.of_nat (slen strTrimMiddleTruncate) in
  if (len <=? maxlen)%Z then Some s
  else
    let newlen := (maxlen - l)%Z in
    if (newlen <? l)%Z then StrTrimRight s maxlen
    else
      let partlen := Z.quot newlen 2 in
      cat (cat (slice s 0 partlen) (Some strTrimMiddleTruncate)) (slice s (len - partlen) len).

(** ** url.go *)

Definition fqdn_char (a : ascii) : bool := is_lower a || is_digit a.
Definition fqdn_char_dash (a : ascii) : bool := Ascii.eqb a "-" || fqdn_char a.

(** [[a-z0-9]([-a-z0-9]*[a-z0-9])?] *)
Definition label_re : re :=
  Seq (Chr fqdn_char) (Opt (Seq (Star (Chr fqdn_char_dash)) (Chr fqdn_char))).

(** The pattern is anchored at both ends. *)
Definition kubernetesFQDNValidation : re :=
  Seq label_re (Star (Seq (Chr (Ascii.eqb ".")) label_re)).

Definition fqdn_pattern : string :=
  "^[a-z0-9]([-a-z0-9]*[a-z0-9])?(\.[a-z0-9]([-a-z0-9]*[a-z0-9])?)*$".

Definition ValidateUrl `{UrlLib} (u : URL) : res error unit :=
  if bool_decide (slen (url_Host u) = 0%nat)
  then Err (Errorf ("URL '" +:+ url_String u +:+ "' is missing a hostname"))
  else if bool_decide (url_Scheme u ≠ "https")
  then Err (Errorf ("URL '" +:+ url_String u +:+ "' does not start with 'https://'"))
  else if negb (re_match kubernetesFQDNValidation (url_Host u))
  then Err (Errorf ("URL '" +:+ url_String u +:+ "' does not match regular expression '" +:+
                    fqdn_pattern +:+ "'"))
  else Ok tt.

(** ** objectmeta.go *)

Definition SetAnnotation (key value : string) (m : ObjectMeta) : ObjectMeta :=
  SetAnnotations (Some (<[key := value]> (default ∅ (Annotations m)))) m.

(** The parse error is ignored and the nil URL dereferenced. *)
Definition AppendPathToIngress `{UrlLib} (ingress joinPath : string) : res error string :=
  match url_Parse ingress with
  | Err _ => Err (Panic "nil pointer dereference")
  | Ok u => Ok (url_String (set_url_Path (PathJoin [url_Path u; joinPath]) u))
  end.

Definition GeneratePassword `{Liberator} : res error string :=
  match Keygen 32 with
  | Err e => Err (Textf "unable to generate secret for sql user: " e)
  | Ok key => Ok (EncodeBase64 base64_url "" key)
  end.

(** ** Lemmas *)

(** A DNS label: letters, digits and dashes, no dash at either end. *)
Definition dns_label (s : string) : Prop :=
  all_chars fqdn_char_dash s = true ∧
  (∃ a t, s = String a t ∧ fqdn_char a = true) ∧ (∃ t a, s = t +:+ String a "" ∧ fqdn_char a = true).

Section fqdn_lemmas.
Implicit Types s : string.

Lemma fqdn_char_dash_1 a : fqdn_char a = true → fqdn_char_dash a = true.
Proof. unfold fqdn_char_dash. intros ->. by rewrite orb_true_r. Qed.

Lemma label_re_spec s : lang label_re s ↔ dns_label s.
Proof.
  unfold label_re, dns_label. rewrite lang_seq_inv. split.
  - intros (s1 & s2 & -> & H1 & H2). apply lang_chr_inv in H1 as (a & -> & Ha).
    apply lang_opt_inv in H2 as [H2| ->]; simpl; rewrite fqdn_char_dash_1 by done.
    + apply lang_seq_inv in H2 as (m & z & -> & Hm & Hz).
      apply lang_star_chr in Hm. apply lang_chr_inv in Hz as (b & -> & Hb).
      rewrite all_chars_app, Hm. simpl. rewrite fqdn_char_dash_1 by done.
      split_and!; [done|by eauto|]. exists (String a m), b. done.
    + split_and!; [done|by eauto|]. exists "", a. done.
  - intros (Hall & (a & t & -> & Ha) & (u & b & Hu & Hb)).
    exists (String a ""), t. split_and!; [done|by constructor|].
    apply lang_opt_inv. destruct u as [|c u]; simplify_eq/=; [by right|left].
    apply andb_true_iff in Hall as [_ Hall]. rewrite all_chars_app in Hall.
    apply andb_true_iff in Hall as [Hall _].
    constructor; [by apply lang_star_chr|by constructor].
Qed.

Lemma dns_label_no_dot s : dns_label s → all_chars (fun a => negb (Ascii.eqb a ".")) s = true.
Proof.
  intros [Hs _]. revert Hs. apply all_chars_impl. intros a. unfold fqdn_char_dash, fqdn_char.
  destruct (Ascii.eqb_spec a "."); [by subst|done].
Qed.

Lemma fqdn_re_spec s :
  lang kubernetesFQDNValidation s ↔ Forall dns_label (Split1 s ".").
Proof.
  assert (Hstar : ∀ r t, lang r t → r = Star (Seq (Chr (Ascii.eqb ".")) label_re) →
    ∀ l, dns_label l → Forall dns_label (Split1 (l +:+ t) ".")).
  { induction 1 as [| | | | |r|r s1 s2 H1 _ H2 IH]; intros Hr l Hl; simplify_eq.
    - rewrite sapp_nil_r, Split1_no_sep; [by constructor|by apply dns_label_no_dot].
    - apply lang_seq_inv in H1 as (d & l' & -> & Hd & Hl').
      apply lang_chr_inv in Hd as (a & -> & Ha). apply Ascii.eqb_eq in Ha as <-.
      cbn [String.append]. rewrite Split1_app by (by apply dns_label_no_dot).
      constructor; [done|]. apply IH; [done|]. by apply label_re_spec. }
  unfold kubernetesFQDNValidation. rewrite lang_seq_inv. split.
  - intros (l & t & -> & Hl & Ht). eapply Hstar; [done..|]. by apply label_re_spec.
  - remember (slen s) as n eqn:Hn. revert s Hn.
    induction (lt_wf n) as [n _ IH]. intros s -> Hall.
    destruct (Split1_pieces s ".") as (w & ws & Hs & Hw & Hc). rewrite Hs in Hall.
    inversion Hall as [|? ? Hlw Hws]; subst.
    destruct Hc as [[-> ->]|(t & -> & ->)].
    + exists w, "". rewrite sapp_nil_r. split_and!; [done|by apply label_re_spec|constructor].
    + destruct (IH (slen t)) with (s := t) as (l & r & -> & Hl & Hr); [|done..|].
      { rewrite slen_app. simpl. lia. }
      exists w, (String "." l +:+ r). split_and!; [done|by apply label_re_spec|].
      constructor; [|done]. change (String "." l) with (String "." "" +:+ l).
      constructor; [by constructor|done].
Qed.
End fqdn_lemmas.

Section trim_lemmas.
Local Open Scope Z_scope.

Lemma StrTrimRight_cases s maxlen :
  StrTrimRight s maxlen =
  if (3 <? maxlen) then
    (if decide (maxlen - 3 ≤ Z.of_nat (slen s))
     then Some (String.substring 0 (Z.to_nat (maxlen - 3)) s +:+ "...") else None)
  else (if decide (0 ≤ maxlen ≤ Z.of_nat (slen s))
        then Some (String.substring 0 (Z.to_nat maxlen) s) else None).
Proof.
  unfold StrTrimRight. change (Z.of_nat (slen strTrimRightTruncate)) with 3.
  destruct (Z.ltb_spec 3 maxlen); case_decide.
  - rewrite slice_prefix by lia. done.
  - destruct (slice _ _ _) eqn:E; [|done]. apply mk_is_Some, slice_is_Some in E. lia.
  - by apply slice_prefix.
  - destruct (slice _ _ _) eqn:E; [|done]. apply mk_is_Some, slice_is_Some in E. lia.
Qed.
End trim_lemmas.

(** ** Properties *)

(** C36. An ingress URL is accepted exactly when its scheme is https and its
    host is a dot-separated sequence of DNS labels. *)
Theorem ValidateUrl_spec `{UrlLib} u :
  ValidateUrl u = Ok tt ↔
  url_Scheme u = "https" ∧ Forall dns_label (Split1 (url_Host u) ".").
Proof.
  unfold ValidateUrl. rewrite <-fqdn_re_spec, <-re_match_spec.
  assert (Hempty : re_match kubernetesFQDNValidation "" = false) by (vm_compute; done).
  repeat case_match; bool_case; split; try done.
  - apply slen_zero in H0. rewrite H0, Hempty. naive_solver.
  - naive_solver.
  - naive_solver congruence.
  - split; [by destruct (decide (url_Scheme u = "https"))|done].
Qed.

(** Shortening a message never panics for a non-negative limit, never
    exceeds the limit, and leaves a message that fits alone. *)
Lemma StrTrimMiddle_spec s maxlen :
  (0 ≤ maxlen)%Z →
  ∃ r, StrTrimMiddle s maxlen = Some r ∧ (Z.of_nat (slen r) ≤ maxlen)%Z ∧
    ((Z.of_nat (slen s) ≤ maxlen)%Z → r = s).
Proof.
  intros Hm. unfold StrTrimMiddle. change (Z.of_nat (slen strTrimMiddleTruncate)) with 17%Z.
  destruct (Z.leb_spec (Z.of_nat (slen s)) maxlen); [by eauto|].
  destruct (Z.ltb_spec (maxlen - 17) 17).
  - rewrite StrTrimRight_cases. destruct (Z.ltb_spec 3 maxlen); rewrite decide_True by lia;
      eexists; (split; [done|split; [|lia]]).
    + rewrite slen_app, slen_substring by lia. simpl. lia.
    + rewrite slen_substring by lia. lia.
  - set (p := Z.quot (maxlen - 17) 2).
    assert (0 ≤ p ∧ 2 * p ≤ maxlen - 17)%Z as [Hp1 Hp2].
    { subst p. rewrite Z.quot_div_nonneg by lia. split; [apply Z.div_pos; lia|].
      apply Z.mul_div_le. lia. }
    destruct (slice s 0 p) as [a|] eqn:Ha.
    2: { exfalso. assert (is_Some (slice s 0 p)) as [? ?] by (apply slice_is_Some; lia). congruence. }
    destruct (slice s (Z.of_nat (slen s) - p) (Z.of_nat (slen s))) as [b|] eqn:Hb.
    2: { exfalso. assert (is_Some (slice s (Z.of_nat (slen s) - p) (Z.of_nat (slen s)))) as [? ?]
           by (apply slice_is_Some; lia). congruence. }
    apply slice_length in Ha, Hb. simpl. eexists. split; [done|]. split; [|lia].
    rewrite !slen_app. change (slen strTrimMiddleTruncate) with 17%nat. lia.
Qed.

Lemma StrTrimMiddle_spec_witness :
  ∃ r, StrTrimMiddle "longer than 17, exactly 26" 18 = Some r ∧ (Z.of_nat (slen r) ≤ 18)%Z.
Proof.
  destruct (StrTrimMiddle_spec "longer than 17, exactly 26" 18) as (r & Hr & Hl & _); [lia|].
  by exists r.
Defined.

(** The vectors of the unit tests. *)
Example trim_test_40 :
  StrTrimMiddle "This is an example of a string that will get truncated. The truncate length must be sufficiently long." 40
  = Some "This is an ---[truncated]---ently long.".
Proof. reflexivity. Qed.
Example trim_test_18 : StrTrimMiddle "longer than 17, exactly 26" 18 = Some "longer than 17,...".
Proof. reflexivity. Qed.
Example trim_test_1 : StrTrimMiddle "some string" 1 = Some "s".
Proof. reflexivity. Qed.

(** [StrTrimRight] alone panics on a string shorter than the limit allows. *)
Example StrTrimRight_panics : StrTrimRight "ab" 10 = None.
Proof. reflexivity. Qed.
