(* ===== verification/Resource.v ===== *)
(** * The resource package: object metadata, names, events, the AST

    Models [pkg/resourcecreator/resource] (source.go, ast.go, operation.go):
    the metadata every generated object gets, the 30-character name used in the
    shared service-account namespace with its CRC-32 and base-32 parts, events,
    and the [Ast] the generators append to. *)

From S2P Require Import Prelude GoStrings Kube Api Vendor.
From Stdlib Require Import Ascii ZArith.

(** ** CRC-32 and base-32 *)

(** One bit of the reflected CRC-32 (polynomial 0xEDB88320). *)
Definition crc_bit (c : Z) : Z :=
  if Z.odd c then Z.lxor (Z.shiftr c 1) 3988292384 else Z.shiftr c 1.

Definition crc_byte (c : Z) (a : ascii) : Z :=
  Nat.iter 8 crc_bit (Z.lxor c (Z.of_nat (nat_of_ascii a))).

Fixpoint crc_bytes (c : Z) (s : string) : Z :=
  match s with EmptyString => c | String a s' => crc_bytes (crc_byte c a) s' end.

(** [crc32.ChecksumIEEE] *)
Definition ChecksumIEEE (s : string) : Z := Z.lxor (crc_bytes 4294967295 s) 4294967295.

(** [binary.LittleEndian.PutUint32] *)
Definition PutUint32LE (n : Z) : list Z :=
  [Z.land n 255; Z.land (Z.shiftr n 8) 255; Z.land (Z.shiftr n 16) 255; Z.land (Z.shiftr n 24) 255].

Definition base32_alphabet : string := "ABCDEFGHIJKLMNOPQRSTUVWXYZ234567".

Definition base32_char (n : Z) : ascii :=
  default "A"%char (String.get (Z.to_nat n) base32_alphabet).

(** The bits of a byte list as one number. *)
Fixpoint bytes_bits (bs : list Z) : Z :=
  match bs with [] => 0 | b :: bs' => b * 256 ^ Z.of_nat (length bs') + bytes_bits bs' end.

Fixpoint base32_digits (n : nat) (bits : Z) : string :=
  match n with
  | O => EmptyString
  | S n' => String (base32_char (Z.land (Z.shiftr bits (5 * Z.of_nat n')) 31)) (base32_digits n' bits)
  end.

(** [base32.StdEncoding.WithPadding(NoPadding).EncodeToString] of four bytes:
    32 bits, padded with three zero bits to seven digits. *)
Definition EncodeBase32_4 (bs : list Z) : string := base32_digits 7 (Z.shiftl (bytes_bits bs) 3).

Section resource.
Context `{L : Liberator}.

(** ** source.go *)

Definition CreateObjectMeta (source : Source) : ObjectMeta :=
  let labels := maps_copy ∅ (default ∅ (Labels (src_Meta source))) in
  let labels := <["app" := GetName source]> labels in
  let labels := <["team" := GetNamespace source]> labels in
  {| Name := GetName source;
     GenerateName := "";
     Namespace := GetNamespace source;
     SelfLink := "";
     UID := "";
     ResourceVersion := "";
     Generation := 0;
     DeletionTimestamp := None;
     Labels := Some labels;
     Annotations := Some {[ DeploymentCorrelationIDAnnotation := CorrelationID source ]};
     OwnerReferences := Some [GetOwnerReference source];
     Finalizers := [] |}.

(** [s[:n]] when [len(s) > n], else [s]. *)
Definition truncate_to (n : nat) (s : string) : string :=
  if bool_decide (n < slen s)%nat then String.substring 0 n s else s.

Definition CreateAppNamespaceHash (source : Source) : string :=
  let name := truncate_to 11 (GetName source) in
  let namespace := truncate_to 10 (GetNamespace source) in
  let appNameSpace := name +:+ "-" +:+ namespace in
  let checksum := ChecksumIEEE (GetName source +:+ "-" +:+ GetNamespace source) in
  appNameSpace +:+ "-" +:+ ToLower (EncodeBase32_4 (PutUint32LE checksum)).

Definition CreateEvent (source : Source) (reason message typeStr : string) (now : Z) : Object :=
  let objectMeta := SetName "" (SetGenerateName "naiserator-event-" (CreateObjectMeta source)) in
  mkObject (mkGVK "" "" "") objectMeta
    (BEvent {| evt_Reason := reason;
               evt_Message := LibStrTrimMiddle message 1024;
               evt_Type := typeStr;
               evt_Count := 1;
               evt_LastTimestamp := now;
               evt_InvolvedName := ref_Name (GetObjectReference source);
               evt_InvolvedUID := ref_UID (GetObjectReference source) |}).
End resource.

(** ** operation.go, ast.go *)

Inductive OperationType :=
| OperationCreateOrUpdate
| OperationCreateOrRecreate
| OperationCreateIfNotExists
| OperationDeleteIfExists
| AnnotateIfExists
| OperationUnknown (s : string).

#[export] Instance OperationType_eq_dec : EqDecision OperationType.
Proof. solve_decision. Defined.

(** The string constants of the Go type [OperationType]. *)
Definition operation_string (t : OperationType) : string :=
  match t with
  | OperationCreateOrUpdate => "CreateOrUpdate"
  | OperationCreateOrRecreate => "CreateOrRecreate"
  | OperationCreateIfNotExists => "CreateIfNotExists"
  | OperationDeleteIfExists => "CreateDeleteIfExists"
  | AnnotateIfExists => "AnnotateIfExists"
  | OperationUnknown s => s
  end.

Record Operation := mkOperation { op_Resource : Object; op_Operation : OperationType }.

Definition Extract (r : list Operation) (operation : OperationType) : list Operation :=
  filter (fun rop => op_Operation rop = operation) r.

Record Ast := mkAst {
  ast_Operations : list Operation;
  ast_Annotations : gmap string string;
  ast_Containers : list Container;
  ast_Env : list EnvVar;
  ast_EnvFrom : list EnvFromSource;
  ast_InitContainers : list Container;
  ast_Labels : gmap string string;
  ast_Volumes : list Volume;
  ast_VolumeMounts : list VolumeMount }.

Definition NewAst : Ast := mkAst [] ∅ [] [] [] [] ∅ [] [].

Definition AppendOperation (t : OperationType) (o : Object) (a : Ast) : Ast :=
  mkAst (ast_Operations a ++ [mkOperation o t]) (ast_Annotations a) (ast_Containers a)
    (ast_Env a) (ast_EnvFrom a) (ast_InitContainers a) (ast_Labels a) (ast_Volumes a)
    (ast_VolumeMounts a).

Definition AppendEnv (vars : list EnvVar) (a : Ast) : Ast :=
  mkAst (ast_Operations a) (ast_Annotations a) (ast_Containers a)
    (ast_Env a ++ vars) (ast_EnvFrom a) (ast_InitContainers a) (ast_Labels a) (ast_Volumes a)
    (ast_VolumeMounts a).

Definition PrependEnv (vars : list EnvVar) (a : Ast) : Ast :=
  mkAst (ast_Operations a) (ast_Annotations a) (ast_Containers a)
    (vars ++ ast_Env a) (ast_EnvFrom a) (ast_InitContainers a) (ast_Labels a) (ast_Volumes a)
    (ast_VolumeMounts a).

(** [ast.EnvFrom = append(ast.EnvFrom, x...)] and the like on the other fields. *)
Definition AppendEnvFrom (x : list EnvFromSource) (a : Ast) : Ast :=
  mkAst (ast_Operations a) (ast_Annotations a) (ast_Containers a)
    (ast_Env a) (ast_EnvFrom a ++ x) (ast_InitContainers a) (ast_Labels a) (ast_Volumes a)
    (ast_VolumeMounts a).

Definition AppendVolumes (vs : list Volume) (ms : list VolumeMount) (a : Ast) : Ast :=
  mkAst (ast_Operations a) (ast_Annotations a) (ast_Containers a)
    (ast_Env a) (ast_EnvFrom a) (ast_InitContainers a) (ast_Labels a) (ast_Volumes a ++ vs)
    (ast_VolumeMounts a ++ ms).

Definition AppendContainers (cs : list Container) (a : Ast) : Ast :=
  mkAst (ast_Operations a) (ast_Annotations a) (ast_Containers a ++ cs)
    (ast_Env a) (ast_EnvFrom a) (ast_InitContainers a) (ast_Labels a) (ast_Volumes a)
    (ast_VolumeMounts a).

Definition AppendInitContainers (cs : list Container) (a : Ast) : Ast :=
  mkAst (ast_Operations a) (ast_Annotations a) (ast_Containers a)
    (ast_Env a) (ast_EnvFrom a) (ast_InitContainers a ++ cs) (ast_Labels a) (ast_Volumes a)
    (ast_VolumeMounts a).

Definition SetAstLabel (k v : string) (a : Ast) : Ast :=
  mkAst (ast_Operations a) (ast_Annotations a) (ast_Containers a)
    (ast_Env a) (ast_EnvFrom a) (ast_InitContainers a) (<[k := v]> (ast_Labels a)) (ast_Volumes a)
    (ast_VolumeMounts a).

(** [ast.Env = vars], [maps.Copy(ast.Labels, m)], [maps.Copy(ast.Annotations, m)] *)
Definition SetAstEnv (vars : list EnvVar) (a : Ast) : Ast :=
  mkAst (ast_Operations a) (ast_Annotations a) (ast_Containers a)
    vars (ast_EnvFrom a) (ast_InitContainers a) (ast_Labels a) (ast_Volumes a)
    (ast_VolumeMounts a).

Definition CopyAstLabels (m : gmap string string) (a : Ast) : Ast :=
  mkAst (ast_Operations a) (ast_Annotations a) (ast_Containers a)
    (ast_Env a) (ast_EnvFrom a) (ast_InitContainers a) (maps_copy (ast_Labels a) m) (ast_Volumes a)
    (ast_VolumeMounts a).

Definition CopyAstAnnotations (m : gmap string string) (a : Ast) : Ast :=
  mkAst (ast_Operations a) (maps_copy (ast_Annotations a) m) (ast_Containers a)
    (ast_Env a) (ast_EnvFrom a) (ast_InitContainers a) (ast_Labels a) (ast_Volumes a)
    (ast_VolumeMounts a).

Definition SetAstAnnotations (m : gmap string string) (a : Ast) : Ast :=
  mkAst (ast_Operations a) m (ast_Containers a)
    (ast_Env a) (ast_EnvFrom a) (ast_InitContainers a) (ast_Labels a) (ast_Volumes a)
    (ast_VolumeMounts a).

(** ** Lemmas *)

Section crc_bounds.
Local Open Scope Z_scope.

Lemma lt_pow2_land n c : 0 <= n → 0 <= c → Z.land c (Z.ones n) = c ↔ c < 2 ^ n.
Proof.
  intros. rewrite Z.land_ones by lia. split; intros.
  - rewrite <-H1. apply Z.mod_pos_bound. lia.
  - apply Z.mod_small. lia.
Qed.

Lemma lxor_bound n a b : 0 <= n → 0 <= a < 2 ^ n → 0 <= b < 2 ^ n → 0 <= Z.lxor a b < 2 ^ n.
Proof.
  intros Hn Ha Hb. assert (0 <= Z.lxor a b) by (apply Z.lxor_nonneg; lia).
  split; [done|]. apply lt_pow2_land; [done..|].
  apply Z.bits_inj'. intros i Hi. rewrite Z.land_spec, Z.lxor_spec.
  rewrite <-(proj2 (lt_pow2_land n a Hn (proj1 Ha)) (proj2 Ha)).
  rewrite <-(proj2 (lt_pow2_land n b Hn (proj1 Hb)) (proj2 Hb)).
  rewrite !Z.land_spec. by destruct (Z.testbit a i), (Z.testbit b i), (Z.testbit (Z.ones n) i).
Qed.

Lemma shiftr1_bound c : 0 <= c < 2 ^ 32 → 0 <= Z.shiftr c 1 < 2 ^ 32.
Proof.
  intros. rewrite Z.shiftr_div_pow2 by lia. split.
  - apply Z.div_pos; lia.
  - apply Z.div_lt_upper_bound; lia.
Qed.

Lemma crc_bit_bound c : 0 <= c < 2 ^ 32 → 0 <= crc_bit c < 2 ^ 32.
Proof.
  intros Hc. unfold crc_bit. pose proof (shiftr1_bound c Hc).
  case_match; [|done]. apply lxor_bound; [lia|done|lia].
Qed.

Lemma crc_byte_bound c a : 0 <= c < 2 ^ 32 → 0 <= crc_byte c a < 2 ^ 32.
Proof.
  intros Hc. unfold crc_byte.
  assert (0 <= Z.lxor c (Z.of_nat (nat_of_ascii a)) < 2 ^ 32).
  { apply lxor_bound; [lia|done|]. pose proof (nat_ascii_bounded a). lia. }
  generalize 8%nat as n. induction n as [|n IH]; simpl; [done|].
  by apply crc_bit_bound.
Qed.

Lemma ChecksumIEEE_bound s : 0 <= ChecksumIEEE s < 2 ^ 32.
Proof.
  unfold ChecksumIEEE. apply lxor_bound; [lia| |lia].
  assert (0 <= 4294967295 < 2 ^ 32) by lia.
  revert H. generalize 4294967295 as c.
  induction s as [|a s IH]; simpl; intros c Hc; [done|].
  by apply IH, crc_byte_bound.
Qed.
End crc_bounds.

(** The digits of the lower-case base-32 text. *)
Definition is_base32_lower (a : ascii) : bool :=
  bool_decide (97 ≤ nat_of_ascii a ≤ 122)%nat || bool_decide (50 ≤ nat_of_ascii a ≤ 55)%nat.

Section hash_lemmas.
Lemma slen_base32_digits n bits : slen (base32_digits n bits) = n.
Proof. induction n; simpl; congruence. Qed.

Lemma base32_char_lower n : is_base32_lower (ascii_lower (base32_char n)) = true.
Proof.
  unfold base32_char. generalize (Z.to_nat n) as i. intros i.
  do 32 (destruct i as [|i]; [vm_compute; done|]).
  replace (String.get (S _) base32_alphabet) with (@None ascii); [vm_compute; done|].
  symmetry. unfold base32_alphabet. simpl. by destruct i.
Qed.

Lemma base32_digits_lower n bits :
  all_chars is_base32_lower (ToLower (base32_digits n bits)) = true.
Proof.
  induction n as [|n IH]; [done|]. cbn [base32_digits ToLower all_chars].
  by rewrite base32_char_lower, IH.
Qed.

Lemma slen_truncate_to n s : slen (truncate_to n s) = Nat.min n (slen s).
Proof.
  unfold truncate_to. case_bool_decide; [|lia].
  rewrite slen_substring; lia.
Qed.

Lemma all_chars_truncate_to P n s :
  all_chars P s = true → all_chars P (truncate_to n s) = true.
Proof. unfold truncate_to. case_bool_decide; auto using all_chars_substring. Qed.
End hash_lemmas.

Section meta_lemmas.
Context `{L : Liberator}.
Implicit Types s : Source.

Lemma CreateObjectMeta_labels s :
  ∃ m, Labels (CreateObjectMeta s) = Some m ∧
    m !! "app" = Some (GetName s) ∧
    m !! "team" = Some (GetNamespace s) ∧
    ∀ k, k ≠ "app" → k ≠ "team" → m !! k = default ∅ (Labels (src_Meta s)) !! k.
Proof.
  eexists; split; [done|]. repeat split.
  - by rewrite lookup_insert_ne, lookup_insert_eq.
  - by rewrite lookup_insert_eq.
  - intros k ??. rewrite !lookup_insert_ne by done.
    rewrite lookup_maps_copy. by destruct (_ !! k).
Qed.
End meta_lemmas.

(** ** Properties *)

(** The characters of a DNS label and of a Google service account name. *)
Definition dns_char (a : ascii) : bool :=
  bool_decide (97 ≤ nat_of_ascii a ≤ 122)%nat || bool_decide (48 ≤ nat_of_ascii a ≤ 57)%nat ||
  Ascii.eqb a "-".

Definition is_letter (a : ascii) : bool := bool_decide (97 ≤ nat_of_ascii a ≤ 122)%nat.

(** A name Google Cloud accepts for a service account: 6 to 30 lower-case
    letters, digits and dashes, starting with a letter, not ending with a dash. *)
Definition service_account_name (s : string) : Prop :=
  (6 ≤ slen s ≤ 30)%nat ∧ all_chars dns_char s = true ∧
  (∃ a t, s = String a t ∧ is_letter a = true) ∧ HasSuffix s "-" = false.

Lemma base32_dns a : is_base32_lower a = true → dns_char a = true ∧ a ≠ "-"%char.
Proof.
  unfold is_base32_lower, dns_char. intros H. split.
  - apply orb_true_iff in H as [H|H]; [by rewrite H|].
    apply bool_decide_eq_true in H. rewrite (bool_decide_eq_true_2 (48 ≤ _ ≤ 57)%nat) by lia.
    by rewrite orb_true_r.
  - by intros ->.
Qed.

(** A non-empty text of base-32 digits keeps a name from ending in a dash. *)
Lemma no_dash_suffix s t :
  slen t ≠ 0%nat → all_chars is_base32_lower t = true → HasSuffix (s +:+ t) "-" = false.
Proof.
  intros Hn Ht. apply not_true_iff_false. intros [u Hu]%HasSuffix_spec.
  revert s u Hn Hu. induction t as [|a t IH]; intros s u Hn Hu; simpl in *; [done|].
  apply andb_true_iff in Ht as [Ha Ht]. apply base32_dns in Ha as [_ Ha].
  destruct t as [|b t].
  - assert (slen s = slen u) by (apply (f_equal slen) in Hu; rewrite !slen_app in Hu; simpl in Hu; lia).
    apply sapp_inj_len in Hu as [_ ?]; [congruence|done].
  - apply (IH Ht (s +:+ String a "") u); [done|]. by rewrite sapp_assoc.
Qed.

Section properties.
Context `{L : Liberator}.

(** C37. The shared-namespace name of a workload is a legal Google service
    account name, for every workload whose name and namespace are DNS names
    (and the name starts with a letter); it never exceeds 30 characters, and it
    consists of at most 11 characters of the name, at most 10 of the namespace
    and the seven-digit checksum. *)
Theorem CreateAppNamespaceHash_legal source :
  all_chars dns_char (GetName source) = true →
  all_chars dns_char (GetNamespace source) = true →
  (∃ a t, GetName source = String a t ∧ is_letter a = true) →
  service_account_name (CreateAppNamespaceHash source) ∧
  ∃ sum, slen sum = 7%nat ∧ CreateAppNamespaceHash source =
    String.substring 0 (Nat.min 11 (slen (GetName source))) (GetName source) +:+ "-" +:+
    String.substring 0 (Nat.min 10 (slen (GetNamespace source))) (GetNamespace source) +:+ "-" +:+ sum.
Proof.
  intros Hn Hns (a & t & Ha & Hl). unfold CreateAppNamespaceHash.
  unfold EncodeBase32_4. set (sum := ToLower _).
  assert (Hsum : slen sum = 7%nat) by (subst sum; by rewrite slen_ToLower, slen_base32_digits).
  assert (Hchars : all_chars is_base32_lower sum = true) by apply base32_digits_lower.
  clearbody sum.
  assert (Hlen : (1 ≤ slen (GetName source))%nat) by (rewrite Ha; simpl; lia).
  assert (Htr : ∀ n s, truncate_to n s = String.substring 0 (Nat.min n (slen s)) s).
  { intros n s. unfold truncate_to. case_bool_decide.
    - by rewrite Nat.min_l by lia.
    - by rewrite Nat.min_r, substring_full by lia. }
  split.
  - split_and!.
    + rewrite !slen_app, !slen_truncate_to, Hsum. change (slen "-") with 1%nat. lia.
    + rewrite !slen_app, !slen_truncate_to, Hsum. change (slen "-") with 1%nat. lia.
    + rewrite !all_chars_app, !all_chars_truncate_to by done. simpl.
      revert Hchars. apply all_chars_impl. intros c Hc. by apply base32_dns.
    + exists a. rewrite Ha. unfold truncate_to. case_bool_decide; simpl; by eexists.
    + rewrite <-!sapp_assoc. apply no_dash_suffix; [lia|done].
  - exists sum. split; [done|]. rewrite !Htr. by rewrite !sapp_assoc.
Qed.

(** Every generated object carries the app and team labels of the workload
    it belongs to, whatever labels the user set; all other labels are kept; and
    its only owner is the workload. *)
Lemma CreateObjectMeta_identity source :
  GetLabel (CreateObjectMeta source) "app" = GetName source ∧
  GetLabel (CreateObjectMeta source) "team" = GetNamespace source ∧
  (∀ k, k ≠ "app" → k ≠ "team" →
     GetLabel (CreateObjectMeta source) k = GetLabel (src_Meta source) k) ∧
  ownerRefs (CreateObjectMeta source) = [GetOwnerReference source] ∧
  object_key (mkObject (mkGVK "" "" "") (CreateObjectMeta source) BServiceAccount) =
    meta_key (src_Meta source).
Proof.
  destruct (CreateObjectMeta_labels source) as (m & Hm & Happ & Hteam & Hrest).
  unfold GetLabel, omap_get, map_get. rewrite Hm. simpl. rewrite Happ, Hteam.
  split_and!; [done..| |done|done]. intros k H1 H2. by rewrite Hrest.
Qed.
End properties.
