(* ===== verification/Creators.v ===== *)
(** * What resource creators do to the AST

    The creators of [pkg/resourcecreator] share the [Ast]: they append
    operations and change the pod-level fields. This file states what all of them
    promise to the generators: operations are only appended, and every object
    they add belongs to the workload and carries its label. *)

From S2P Require Import Prelude GoStrings Kube Api Vendor Resource.

(** [a'] has the operations of [a] followed by some that satisfy [P]. *)
Definition appends (P : Operation → Prop) (a a' : Ast) : Prop :=
  ∃ ops, ast_Operations a' = ast_Operations a ++ ops ∧ Forall P ops.

Section appends.
Context (P : Operation → Prop).
Implicit Types a b : Ast.

#[export] Instance appends_preorder : PreOrder (appends P).
Proof.
  split.
  - intros a. exists []. by rewrite app_nil_r.
  - intros a b c (o1 & H1 & F1) (o2 & H2 & F2). exists (o1 ++ o2).
    rewrite H2, H1, <-app_assoc. split; [done|]. by apply Forall_app.
Qed.

Lemma appends_refl a : appends P a a.
Proof. reflexivity. Qed.

(** A change of the pod-level fields. *)
Lemma appends_same a b c : appends P a b → ast_Operations c = ast_Operations b → appends P a c.
Proof. intros (ops & H & F) Hc. exists ops. by rewrite Hc. Qed.

Lemma appends_op a b t o :
  appends P a b → P (mkOperation o t) → appends P a (AppendOperation t o b).
Proof.
  intros (ops & H & F) Ho. exists (ops ++ [mkOperation o t]). simpl.
  rewrite H, <-app_assoc. split; [done|]. apply Forall_app. by split; [|constructor].
Qed.

Lemma appends_trans a b c : appends P a b → appends P b c → appends P a c.
Proof. by intros ->. Qed.

Lemma appends_elem a b op :
  appends P a b → op ∈ ast_Operations b → op ∈ ast_Operations a ∨ P op.
Proof.
  intros (ops & H & F) Hop. rewrite H in Hop. apply elem_of_app in Hop as [?|Hop]; [by left|right].
  rewrite Forall_forall in F. by apply F.
Qed.
End appends.

Lemma appends_weaken (P Q : Operation → Prop) a b :
  (∀ op, P op → Q op) → appends P a b → appends Q a b.
Proof. intros HPQ (ops & H & F). exists ops. split; [done|]. by eapply Forall_impl. Qed.

(** An error-returning loop over the AST. *)
Lemma appends_foldl {B} (P : Operation → Prop) (f : Ast → B → res error Ast) a xs a' :
  (∀ b x b', x ∈ xs → f b x = Ok b' → appends P b b') →
  res_foldl f a xs = Ok a' → appends P a a'.
Proof.
  intros Hf. apply (res_foldl_inv (appends P a)); [done|].
  intros b x b' Hx Hb Hb'. transitivity b; [done|]. by eapply Hf.
Qed.

(** Undo the changes of an AST one at a time, last first. *)
Ltac appends_step :=
  match goal with
  | |- appends _ ?a ?a => apply appends_refl
  | |- appends _ _ (AppendOperation _ _ _) => apply appends_op
  | |- appends _ _ (AppendVolumes _ _ ?b) => apply (appends_same _ _ b); [|reflexivity]
  | |- appends _ _ (_ _ ?b) => apply (appends_same _ _ b); [|reflexivity]
  end.

Ltac solve_appends := repeat appends_step; eauto with creators.

(** Follow the code of creators that returned: split their branches and results. *)
Ltac creator_cases :=
  repeat (match goal with
  | H : Ok _ = Ok _ |- _ => injection H as H; subst
  | H : Err _ = Ok _ |- _ => discriminate H
  | H : res_bind _ _ = Ok _ |- _ => apply res_bind_ok_inv in H as (? & ? & H)
  | H : mbind _ _ = Ok _ |- _ => apply res_bind_ok_inv in H as (? & ? & H)
  | H : map_err _ _ = Ok _ |- _ => apply map_err_ok_inv in H
  | H : (if ?b then _ else _) = Ok _ |- _ => destruct b eqn:?
  | H : (match ?x with _ => _ end) = Ok _ |- _ => destruct x eqn:?
  | H : (_, _) = (_, _) |- _ => injection H as H; subst
  end; cbn beta iota zeta in *).

(** The kinds of objects, as the scheme knows them: the group, version and kind an
    object carries and the Go type it stands for. *)
Definition kind_of (o : Object) : GroupVersionKind * GoType := (o_GVK o, TypeOf o).

(** The kinds of the objects a workload owns, and the two of them that only exist
    where the configuration asks for them. *)
Definition owned_kinds : list (GroupVersionKind * GoType) :=
  [ (mkGVK "apps" "v1" "Deployment", TDeployment); (mkGVK "batch" "v1" "CronJob", TCronJob);
    (mkGVK "" "v1" "Service", TService); (mkGVK "" "v1" "ServiceAccount", TServiceAccount);
    (mkGVK "networking.k8s.io" "v1" "Ingress", TIngress);
    (mkGVK "networking.k8s.io" "v1" "NetworkPolicy", TNetworkPolicy);
    (mkGVK "autoscaling" "v2" "HorizontalPodAutoscaler", THPA);
    (mkGVK "policy" "v1" "PodDisruptionBudget", TPDB);
    (mkGVK "" "v1" "Secret", TSecret); (mkGVK "nais.io" "v1" "Jwker", TJwker);
    (mkGVK "" "v1" "ConfigMap", TConfigMap);
    (mkGVK "rbac.authorization.k8s.io" "v1" "RoleBinding", TRoleBinding);
    (mkGVK "nais.io" "v1" "AzureAdApplication", TAzureAdApplication);
    (mkGVK "nais.io" "v1" "MaskinportenClient", TMaskinportenClient);
    (mkGVK "aiven.nais.io" "v1" "AivenApplication", TAivenApplication);
    (mkGVK "kafka.nais.io" "v1" "Stream", TStream);
    (mkGVK "iam.cnrm.cloud.google.com" "v1beta1" "IAMPolicyMember", TIAMPolicyMember);
    (mkGVK "google.nais.io" "v1" "BigQueryDataset", TBigQueryDataset);
    (mkGVK "sql.cnrm.cloud.google.com" "v1beta1" "SQLInstance", TSQLInstance);
    (mkGVK "sql.cnrm.cloud.google.com" "v1beta1" "SQLDatabase", TSQLDatabase);
    (mkGVK "sql.cnrm.cloud.google.com" "v1beta1" "SQLUser", TSQLUser);
    (mkGVK "sql.cnrm.cloud.google.com" "v1beta1" "SQLSSLCert", TSQLSSLCert);
    (mkGVK "storage.cnrm.cloud.google.com" "v1beta1" "StorageBucket", TStorageBucket) ].

Definition fqdn_kind : GroupVersionKind * GoType :=
  (mkGVK "networking.gke.io" "v1alpha3" "FQDNNetworkPolicy", TFQDNNetworkPolicy).
Definition monitor_kind : GroupVersionKind * GoType :=
  (mkGVK "monitoring.coreos.com" "v1" "PodMonitor", TPodMonitor).

Definition owned_types : list GoType := map snd (fqdn_kind :: monitor_kind :: owned_kinds).

(** Operations that see to an object; nothing a creator appends deletes one. *)
Definition applied : list OperationType :=
  [OperationCreateOrUpdate; OperationCreateOrRecreate; OperationCreateIfNotExists; AnnotateIfExists].

(** Metadata of an object that is named by its creator and not being deleted. *)
Definition plain_meta (m : ObjectMeta) : Prop := GenerateName m = "" ∧ DeletionTimestamp m = None.

Section owned.
Context `{L : Liberator}.

(** An object of the workload: in its namespace, owned by it, labelled with its
    name and of a known kind. Only such objects are found, and deleted when they are
    no longer wanted, by the synchronizer. *)
Definition owned_meta (source : Source) (m : ObjectMeta) : Prop :=
  Namespace m = GetNamespace source ∧ OwnerReferences m = Some [GetOwnerReference source] ∧
  HasLabel m ("app", GetName source) ∧ plain_meta m.

Definition owned (source : Source) (op : Operation) : Prop :=
  owned_meta source (o_Meta (op_Resource op)) ∧
  bool_decide (kind_of (op_Resource op) ∈ owned_kinds ∧ op_Operation op ∈ applied) = true.

(** The same of a kind the configuration has to ask for. *)
Definition owned_if (enabled : bool) (kind : GroupVersionKind * GoType) (source : Source) (op : Operation) : Prop :=
  owned_meta source (o_Meta (op_Resource op)) ∧
  kind_of (op_Resource op) = kind ∧ enabled = true ∧ op_Operation op ∈ applied.

Lemma app_label source : HasLabel (CreateObjectMeta source) ("app", GetName source).
Proof. unfold HasLabel. simpl. by rewrite lookup_insert_ne, lookup_insert_eq by done. Qed.

Lemma team_label source : HasLabel (CreateObjectMeta source) ("team", GetNamespace source).
Proof. unfold HasLabel. simpl. by rewrite lookup_insert_eq. Qed.

(** Metadata made by [CreateObjectMeta] that was only renamed or annotated. *)
Lemma owned_meta_created source m :
  Namespace m = GetNamespace source → OwnerReferences m = Some [GetOwnerReference source] →
  Labels m = Labels (CreateObjectMeta source) → plain_meta m → owned_meta source m.
Proof. intros Hn Ho Hl Hp. split_and!; [done..| |done]. unfold HasLabel. rewrite Hl. apply app_label. Qed.

Lemma owned_meta_labelled source k v m :
  k ≠ "app" → owned_meta source m →
  owned_meta source (SetLabels (Some (<[k := v]> (default ∅ (Labels m)))) m).
Proof.
  intros Hk (Hn & Ho & Hl & Hp). split_and!; [done..| |done]. unfold HasLabel in *. simpl in *.
  by rewrite lookup_insert_ne.
Qed.
End owned.

(** Objects made from such metadata, when the creator's code says so. *)
Ltac solve_owned_meta :=
  apply owned_meta_created; [reflexivity..|split; reflexivity].

Ltac solve_owned :=
  first [ split; [first [eassumption | solve_owned_meta] | vm_compute; reflexivity]
        | solve_owned_meta ].

#[export] Hint Extern 3 (owned _ _) => solve_owned : creators.
