(* ===== verification/Scheme.v ===== *)
(** * The types of resources that are cleaned up

    Models [pkg/scheme/listers.go]: the lists of resource types in which the
    synchronizer looks for what a workload no longer wants. A Go list type
    ([*DeploymentList]) is named by the type of its items. *)

From S2P Require Import Prelude Kube Api Vendor Creators.

Definition GenericListers : list GoType :=
  [ TDeployment; TCronJob; TJob; THPA; TSecret; TServiceAccount; TService; TPDB; TNetworkPolicy;
    TIngress; TRoleBinding; TOther "*v1.Role";
    TAzureAdApplication; TOther "*nais_io_v1.IDPortenClient"; TJwker; TMaskinportenClient;
    TAivenApplication; TStream ].

Definition GCPListers : list GoType :=
  [ TIAMPolicy; TIAMPolicyMember; TIAMServiceAccount; TSQLDatabase; TSQLInstance; TSQLUser;
    TSQLSSLCert; TStorageBucketAccessControl; TStorageBucket; TFQDNNetworkPolicy;
    TBigQueryDataset ].

Definition AivenListers : list GoType :=
  [ TOther "*aiven_io_v1alpha1.Valkey"; TOther "*aiven_io_v1alpha1.OpenSearch" ].

(** ** Lemmas *)

(** What is generated outside Google's cloud. *)
Definition gcp_only : list GoType :=
  [ TFQDNNetworkPolicy; TIAMPolicyMember; TBigQueryDataset; TSQLInstance; TSQLDatabase; TSQLUser;
    TSQLSSLCert; TStorageBucket ].

Definition unlisted : list GoType := [TConfigMap; TPodMonitor].

Lemma listers_cover : Forall (fun t => t ∈ GenericListers ++ GCPListers ↔ t ∉ unlisted) owned_types.
Proof. apply Forall_forall. intros t Ht. cbn in Ht. set_unfold in Ht. destruct_or! Ht; subst; vm_compute; set_solver. Qed.
