(* ===== verification/MemServer.v ===== *)
(** * An in-memory API server

    An executable instance of [ApiServer]: objects in a list, optimistic
    locking on the resource version, deletion that waits for finalizers, and a
    script of injected errors (one entry per call). It shows that the laws of
    [ApiServerLaws] can hold together, and the witnesses of the development run
    on it. *)

From S2P Require Import Prelude GoStrings Kube Api Cluster.

Record Mem := mkMem {
  mem_objs : list Object;
  mem_clock : Z;
  mem_rv : Z;
  mem_script : list (option error);
}.

Definition mem_of (objs : list Object) : Mem := mkMem objs 0 1 [].

Definition is_at (t : GoType) (k : ObjectKey) (o : Object) : Prop :=
  TypeOf o = t ∧ object_key o = k.

#[export] Instance is_at_dec t k o : Decision (is_at t k o) := _.

Definition mem_stored (m : Mem) (t : GoType) (k : ObjectKey) : option Object :=
  snd <$> list_find (is_at t k) (mem_objs m).

Definition set_objs (l : list Object) (m : Mem) : Mem :=
  mkMem l (mem_clock m) (mem_rv m + 1) (mem_script m).

Definition api_error (r : StatusReason) : error := mkError (reason_string r) r None.

Definition selects (lo : ListOptions) (t : GoType) (o : Object) : bool :=
  bool_decide (TypeOf o = t) &&
  (bool_decide (lo_Namespace lo = "") || bool_decide (Namespace (o_Meta o) = lo_Namespace lo)) &&
  bool_decide (Forall (HasLabel (o_Meta o)) (lo_Labels lo)) &&
  match o_Body o with
  | BEvent e =>
      forallb (fun '(k, v) =>
        if bool_decide (k = "involvedObject.name") then bool_decide (evt_InvolvedName e = v)
        else if bool_decide (k = "involvedObject.uid") then bool_decide (evt_InvolvedUID e = v)
        else true) (lo_Fields lo)
  | _ => true
  end.

(** The objects [mem_stored] finds, in order. *)
Fixpoint firsts (l : list Object) : list Object :=
  match l with
  | [] => []
  | o :: l' => o :: filter (fun x => ¬ is_at (TypeOf o) (object_key o) x) (firsts l')
  end.

Definition put (o : Object) (l : list Object) : list Object :=
  map (fun x => if decide (is_at (TypeOf o) (object_key o) x) then o else x) l.

Definition keep_status (stored new : Object) : Object :=
  match o_Body stored, o_Body new with
  | BWorkload _ _ st, BWorkload k v _ => set_Body (BWorkload k v st) new
  | _, _ => new
  end.

Definition take_status (stored new : Object) : Object :=
  match o_Body stored, o_Body new with
  | BWorkload k v _, BWorkload _ _ st => set_Body (BWorkload k v st) stored
  | _, _ => stored
  end.

Definition bump (rv : Z) (o : Object) : Object :=
  set_Meta (fun m => SetIdentity (Itoa rv) (UID m) (SelfLink m) m) o.

(** A stored object whose version the request does not contradict. *)
Definition fresh_for (stored new : Object) : bool :=
  bool_decide (ResourceVersion (o_Meta new) = "") ||
  bool_decide (ResourceVersion (o_Meta new) = ResourceVersion (o_Meta stored)).

Definition mem_create (o : Object) (m : Mem) : res error Object * Mem :=
  let o := if bool_decide (GenerateName (o_Meta o) = "") then o
           else set_Meta (SetName (GenerateName (o_Meta o) +:+ Itoa (mem_rv m))) o in
  match mem_stored m (TypeOf o) (object_key o) with
  | Some _ => (Err (api_error ReasonAlreadyExists), m)
  | None =>
      let o' := bump (mem_rv m) o in
      (Ok o', set_objs (mem_objs m ++ [o']) m)
  end.

Definition mem_write (f : Object → Object → Object) (o : Object) (m : Mem) : res error Object * Mem :=
  match mem_stored m (TypeOf o) (object_key o) with
  | None => (Err (api_error ReasonNotFound), m)
  | Some s =>
      if fresh_for s o then
        let o' := bump (mem_rv m) (f s o) in
        (Ok o', set_objs (put o' (mem_objs m)) m)
      else (Err (api_error ReasonConflict), m)
  end.

Definition mem_delete (o : Object) (m : Mem) : res error unit * Mem :=
  match mem_stored m (TypeOf o) (object_key o) with
  | None => (Err (api_error ReasonNotFound), m)
  | Some s =>
      match Finalizers (o_Meta s) with
      | [] => (Ok tt, set_objs (filter (fun x => ¬ is_at (TypeOf o) (object_key o) x) (mem_objs m)) m)
      | _ => (Ok tt, m)
      end
  end.

Definition mem_call {X} (e : op X) : Mem → X * Mem :=
  match e in op X return Mem → X * Mem with
  | Get t k => fun m =>
      (match mem_stored m t k with Some o => Ok o | None => Err (api_error ReasonNotFound) end, m)
  | ListObjs t lo => fun m => (Ok (filter (fun o => selects lo t o = true) (firsts (mem_objs m))), m)
  | Create o => mem_create o
  | Update o => mem_write keep_status o
  | Delete o _ => mem_delete o
  | Patch o _ => mem_write (fun _ o => o) o
  | UpdateStatus o => mem_write take_status o
  | Now => fun m => (mem_clock m, m)
  | Sleep d => fun m => (tt, mkMem (mem_objs m) (mem_clock m + Z.max 0 d) (mem_rv m) (mem_script m))
  | NewUUID => fun m => (Ok ("uuid-" +:+ Itoa (mem_rv m)), set_objs (mem_objs m) m)
  end.

(** What a failed call returns. *)
Definition fail_with {X} (e : op X) (err : error) : option X :=
  match e in op X return option X with
  | Get _ _ => Some (Err err)
  | ListObjs _ _ => Some (Err err)
  | Create _ => Some (Err err)
  | Update _ => Some (Err err)
  | Delete _ _ => Some (Err err)
  | Patch _ _ => Some (Err err)
  | UpdateStatus _ => Some (Err err)
  | Now | Sleep _ => None
  | NewUUID => Some (Err err)
  end.

(** An error the script may inject: one that says nothing about what is stored. *)
Definition injectable (e : error) : bool := negb (IsNotFound e) && negb (IsAlreadyExists e).

Definition mem_handle {X} (e : op X) (m : Mem) : X * Mem :=
  match mem_script m with
  | [] => mem_call e m
  | inj :: rest =>
      let m' := mkMem (mem_objs m) (mem_clock m) (mem_rv m) rest in
      match inj with
      | Some err =>
          if injectable err then
            match fail_with e err with Some x => (x, m') | None => mem_call e m' end
          else mem_call e m'
      | None => mem_call e m'
      end
  end.

(** This server stores what it is sent; only versions and statuses are its own. *)
Definition mem_persisted (sent x : Object) : Prop := erase_status x = erase_status sent.

#[export] Instance mem_server : ApiServer Mem :=
  {| handle := @mem_handle; stored := mem_stored; persisted := mem_persisted; clock := mem_clock |}.

(** ** The laws *)

Section lookup_lemmas.
Implicit Types l : list Object.

Lemma find_put_other t k o l :
  (t, k) ≠ (TypeOf o, object_key o) →
  snd <$> list_find (is_at t k) (put o l) = snd <$> list_find (is_at t k) l.
Proof.
  intros Hne. unfold put. induction l as [|x l IH]; simpl; [done|].
  destruct (decide (is_at (TypeOf o) (object_key o) x)) as [[Hx1 Hx2]|Hx].
  - rewrite decide_False by (intros [? ?]; congruence).
    rewrite (decide_False (P := is_at t k x)) by (intros [? ?]; congruence).
    rewrite <-!option_fmap_compose in *.
    by destruct (list_find _ (map _ l)) as [[]|], (list_find _ l) as [[]|].
  - destruct (decide (is_at t k x)); [done|].
    by destruct (list_find _ (map _ l)) as [[]|], (list_find _ l) as [[]|].
Qed.

Lemma firsts_find l o :
  o ∈ firsts l → snd <$> list_find (is_at (TypeOf o) (object_key o)) l = Some o.
Proof.
  induction l as [|x l IH]; simpl; [by intros ?%elem_of_nil|].
  intros [->|[Hne Ho]%list_elem_of_filter]%elem_of_cons.
  - by rewrite decide_True.
  - rewrite decide_False by (intros [Ht Hk]; apply Hne; by split).
    specialize (IH Ho). by destruct (list_find _ l) as [[]|].
Qed.

Lemma find_firsts t k o l : snd <$> list_find (is_at t k) l = Some o → o ∈ firsts l.
Proof.
  induction l as [|x l IH]; simpl; [done|].
  destruct (decide (is_at t k x)) as [Hx|Hx]; simpl; [intros [= ->]; by left|].
  destruct (list_find (is_at t k) l) as [[i y]|] eqn:Hf; simpl; [|done]. intros [= ->]. right.
  apply list_elem_of_filter. split; [|by apply IH].
  apply list_find_Some in Hf as (_ & [<- <-] & _). intros [Ht Hk]. by apply Hx.
Qed.

Lemma find_put_same t k o l x :
  snd <$> list_find (is_at t k) l = Some x → is_at t k o →
  snd <$> list_find (is_at t k) (put o l) = Some o.
Proof.
  intros Hx [Ho1 Ho2]. unfold put. induction l as [|y l IH]; simpl in *; [done|].
  destruct (decide (is_at (TypeOf o) (object_key o) y)) as [Hy|Hy].
  - by rewrite decide_True by done.
  - subst. rewrite decide_False in Hx |- * by done.
    destruct (list_find _ l) as [[]|]; [|done]. specialize (IH Hx).
    by destruct (list_find _ (map _ l)) as [[]|].
Qed.

Lemma find_filter_other t k o l :
  (t, k) ≠ (TypeOf o, object_key o) →
  snd <$> list_find (is_at t k) (filter (fun x => ¬ is_at (TypeOf o) (object_key o) x) l) =
  snd <$> list_find (is_at t k) l.
Proof.
  intros Hne. induction l as [|x l IH]; [done|]. rewrite filter_cons. simpl.
  destruct (decide (is_at t k x)) as [[Hx1 Hx2]|Hx].
  - rewrite decide_True by (intros [? ?]; congruence). simpl.
    by rewrite decide_True by done.
  - destruct (decide (¬ _)); simpl; [rewrite decide_False by done|];
      destruct (list_find _ (filter _ l)) as [[]|], (list_find _ l) as [[]|];
      simpl in *; congruence.
Qed.

Lemma find_filter_same t k l : snd <$> list_find (is_at t k) (filter (fun x => ¬ is_at t k x) l) = None.
Proof.
  induction l as [|x l IH]; [done|]. rewrite filter_cons. destruct (decide (¬ _)) as [Hx|Hx]; [|done]. simpl.
  rewrite decide_False by done. by destruct (list_find _ _) as [[]|].
Qed.

Lemma find_app_new t k o l :
  snd <$> list_find (is_at t k) l = None → is_at t k o →
  snd <$> list_find (is_at t k) (l ++ [o]) = Some o.
Proof.
  intros Hl Ho. destruct (list_find (is_at t k) l) as [[]|] eqn:Hf; [done|].
  rewrite list_find_app_r by done. simpl. by rewrite decide_True by done.
Qed.

Lemma find_app_other t k o l :
  ¬ is_at t k o → snd <$> list_find (is_at t k) (l ++ [o]) = snd <$> list_find (is_at t k) l.
Proof.
  intros Ho. induction l as [|x l IH]; simpl.
  - by rewrite decide_False.
  - destruct (decide (is_at t k x)); [done|].
    by destruct (list_find _ (l ++ [o])) as [[]|], (list_find _ l) as [[]|].
Qed.
End lookup_lemmas.

(** Changing the script does not change what is stored. *)
Lemma mem_handle_cases {X} (e : op X) m :
  ∃ rest, let m' := mkMem (mem_objs m) (mem_clock m) (mem_rv m) rest in
    mem_handle e m = mem_call e m' ∨
    ∃ err x, injectable err = true ∧ fail_with e err = Some x ∧ mem_handle e m = (x, m').
Proof.
  unfold mem_handle. destruct m as [objs c rv [|[err|] rest]]; simpl.
  - exists []. by left.
  - exists rest. destruct (injectable err) eqn:Hi; [|by left].
    destruct (fail_with e err) as [x|] eqn:Hf; [right; eauto|by left].
  - exists rest. by left.
Qed.

Ltac mem_cases e m :=
  let rest := fresh "rest" in let H := fresh "Hh" in
  destruct (mem_handle_cases e m) as (rest & [H|(? & ? & ? & ? & H)]);
  simplify_eq/=; rewrite ?H in *; clear H; simplify_eq/=;
  set (m' := mkMem (mem_objs m) (mem_clock m) (mem_rv m) rest) in *.

Lemma mem_write_cases f o m :
  (mem_stored m (TypeOf o) (object_key o) = None ∧
   mem_write f o m = (Err (api_error ReasonNotFound), m)) ∨
  ∃ s, mem_stored m (TypeOf o) (object_key o) = Some s ∧
    (mem_write f o m = (Err (api_error ReasonConflict), m) ∨
     mem_write f o m = (Ok (bump (mem_rv m) (f s o)),
                        set_objs (put (bump (mem_rv m) (f s o)) (mem_objs m)) m)).
Proof. unfold mem_write. destruct (mem_stored _ _ _); [|by left]. case_match; eauto. Qed.

Lemma keep_status_at s o : TypeOf s = TypeOf o →
  TypeOf (keep_status s o) = TypeOf o ∧ object_key (keep_status s o) = object_key o.
Proof. unfold keep_status, TypeOf. destruct o as [? ? []], s as [? ? []]; done. Qed.

Lemma mem_stored_type m t k s : mem_stored m t k = Some s → TypeOf s = t ∧ object_key s = k.
Proof.
  unfold mem_stored. destruct (list_find _ _) as [[i o]|] eqn:Hf; simpl; intros; simplify_eq.
  by apply list_find_Some in Hf as (? & [? ?] & _).
Qed.

Lemma mem_create_cases o m :
  GenerateName (o_Meta o) = "" →
  (is_Some (mem_stored m (TypeOf o) (object_key o)) ∧
   mem_create o m = (Err (api_error ReasonAlreadyExists), m)) ∨
  (mem_stored m (TypeOf o) (object_key o) = None ∧
   mem_create o m = (Ok (bump (mem_rv m) o), set_objs (mem_objs m ++ [bump (mem_rv m) o]) m)).
Proof.
  intros Hg. unfold mem_create. rewrite Hg. simpl.
  destruct (mem_stored m (TypeOf o) (object_key o)); [left; eauto|by right].
Qed.

Lemma mem_delete_stored o m t k :
  (t, k) ≠ (TypeOf o, object_key o) →
  mem_stored (mem_delete o m).2 t k = mem_stored m t k.
Proof.
  intros Hne. unfold mem_delete. case_match; [|done]. case_match; [|done].
  by apply find_filter_other.
Qed.

Lemma mem_write_stored f o m t k :
  (∀ s, TypeOf s = TypeOf o → object_key s = object_key o →
     TypeOf (f s o) = TypeOf o ∧ object_key (f s o) = object_key o) →
  (t, k) ≠ (TypeOf o, object_key o) →
  mem_stored (mem_write f o m).2 t k = mem_stored m t k.
Proof.
  intros Hf Hne.
  destruct (mem_write_cases f o m) as [[_ ->]|(s & Hs & [-> | ->])]; [done..|].
  apply mem_stored_type in Hs as [Ht Hk]. destruct (Hf s Ht Hk) as [Hft Hfk].
  apply find_put_other. change (TypeOf (bump _ ?o)) with (TypeOf o).
  change (object_key (bump _ ?o)) with (object_key o). congruence.
Qed.

Lemma mem_create_stored o m t k :
  t ≠ TypeOf o ∨ key_Namespace k ≠ Namespace (o_Meta o) → mem_stored (mem_create o m).2 t k = mem_stored m t k.
Proof.
  intros Hne. unfold mem_create. set (o1 := if bool_decide _ then o else _).
  assert (TypeOf o1 = TypeOf o ∧ Namespace (o_Meta o1) = Namespace (o_Meta o)) as [Ht Ho] by (unfold o1; by case_match).
  destruct (mem_stored m (TypeOf o1) (object_key o1)); [done|]. simpl. apply find_app_other.
  intros [Hty Hk]. destruct Hne as [Hne|Hne]; apply Hne; [by rewrite <-Hty, <-Ht|by rewrite <-Hk, <-Ho].
Qed.

Lemma mem_read_stored {X} (e : op X) m t k :
  is_write e = false → mem_stored (mem_call e m).2 t k = mem_stored m t k.
Proof. by destruct e. Qed.

Lemma mem_clock_mono {X} (e : op X) m : (mem_clock m ≤ mem_clock (mem_call e m).2)%Z.
Proof.
  destruct e; simpl; try lia.
  - unfold mem_create. by case_match.
  - destruct (mem_write_cases keep_status o m) as [[_ ->]|(? & _ & [-> | ->])]; simpl; lia.
  - unfold mem_delete. repeat case_match; simpl; lia.
  - destruct (mem_write_cases (fun _ o => o) modified m) as [[_ ->]|(? & _ & [-> | ->])]; simpl; lia.
  - destruct (mem_write_cases take_status o m) as [[_ ->]|(? & _ & [-> | ->])]; simpl; lia.
Qed.

Lemma erase_take_status rv x o : erase_status (bump rv (take_status x o)) = erase_status x.
Proof. unfold take_status. destruct x as [? ? []], o as [? ? []]; reflexivity. Qed.

Lemma take_status_same s x :
  TypeOf x = TypeOf s → object_key x = object_key s →
  TypeOf (take_status x s) = TypeOf s ∧ object_key (take_status x s) = object_key s.
Proof. unfold take_status, TypeOf, object_key. destruct x as [? ? []], s as [? ? []]; done. Qed.

Lemma take_status_at rv x o :
  TypeOf (bump rv (take_status x o)) = TypeOf x ∧ object_key (bump rv (take_status x o)) = object_key x.
Proof. unfold take_status. destruct x as [? ? []], o as [? ? []]; done. Qed.

Lemma mem_status_only o m t k :
  erase_status <$> mem_stored (mem_write take_status o m).2 t k = erase_status <$> mem_stored m t k.
Proof.
  destruct (mem_write_cases take_status o m) as [[_ ->]|(x & Hx & [-> | ->])]; [done..|]. simpl.
  pose proof (mem_stored_type _ _ _ _ Hx) as [Ht Hk].
  destruct (take_status_at (mem_rv m) x o) as [Ht' Hk']. rewrite Ht in Ht'. rewrite Hk in Hk'.
  destruct (decide ((t, k) = (TypeOf o, object_key o))) as [[= -> ->]|Hne].
  - rewrite Hx. unfold mem_stored in *. cbn [mem_objs set_objs].
    rewrite (find_put_same _ _ _ _ _ Hx) by done. simpl. f_equal. apply erase_take_status.
  - unfold mem_stored. cbn [mem_objs set_objs]. rewrite find_put_other; [done|]. congruence.
Qed.

(** What a list answers, and what an object it answers looks like. *)
Lemma mem_list_elem t lo m l :
  (mem_handle (ListObjs t lo) m).1 = Ok l →
  ∀ o, o ∈ l ↔ selects lo t o = true ∧ mem_stored m (TypeOf o) (object_key o) = Some o.
Proof.
  mem_cases (ListObjs t lo) m; [|done]. intros Hl o. simplify_eq. rewrite list_elem_of_filter.
  split; intros [? Ho]; (split; [done|]); [by apply firsts_find|by eapply find_firsts].
Qed.

Lemma selects_spec lo t o :
  selects lo t o = true →
  TypeOf o = t ∧ (lo_Namespace lo = "" ∨ Namespace (o_Meta o) = lo_Namespace lo) ∧
  Forall (HasLabel (o_Meta o)) (lo_Labels lo).
Proof.
  unfold selects. rewrite !andb_true_iff, orb_true_iff, !bool_decide_eq_true. tauto.
Qed.

Lemma selects_intro lo o :
  lo_Fields lo = [] → lo_Namespace lo = "" ∨ Namespace (o_Meta o) = lo_Namespace lo →
  Forall (HasLabel (o_Meta o)) (lo_Labels lo) → selects lo (TypeOf o) o = true.
Proof.
  intros Hf Hns Hlab. unfold selects. rewrite Hf, !andb_true_iff, orb_true_iff, !bool_decide_eq_true.
  split_and!; [done..|]. by destruct (o_Body o).
Qed.

Lemma mem_get_err t k m e :
  (mem_handle (Get t k) m).1 = Err e → IsNotFound e = true → mem_stored m t k = None.
Proof.
  mem_cases (Get t k) m.
  - unfold mem_stored; simpl. case_match; intros; by simplify_eq.
  - unfold injectable in *. bool_case. intros; simplify_eq. congruence.
Qed.

Lemma mem_create_exists o m e :
  (mem_handle (Create o) m).1 = Err e → GenerateName (o_Meta o) = "" → IsAlreadyExists e = true →
  is_Some (mem_stored m (TypeOf o) (object_key o)).
Proof.
  intros He Hg He'. revert He. mem_cases (Create o) m.
  - destruct (mem_create_cases o m' Hg) as [[? ->]|[? ->]]; simpl; intros; by simplify_eq.
  - unfold injectable in *. bool_case. intros; simplify_eq. congruence.
Qed.

Lemma mem_create_ok o m o' :
  (mem_handle (Create o) m).1 = Ok o' → GenerateName (o_Meta o) = "" →
  mem_stored m (TypeOf o) (object_key o) = None ∧
  mem_stored (mem_handle (Create o) m).2 (TypeOf o) (object_key o) = Some o' ∧ mem_persisted o o'.
Proof.
  intros Ho Hg. revert Ho. mem_cases (Create o) m; [|done].
  destruct (mem_create_cases o m' Hg) as [[? ->]|[? ->]]; simpl; intros; simplify_eq/=.
  split_and!; [done| |done]. by apply find_app_new.
Qed.

Lemma mem_status_stored s m o' :
  (mem_handle (UpdateStatus (source_object s)) m).1 = Ok o' →
  ∃ s', mem_stored (mem_handle (UpdateStatus (source_object s)) m).2
          (TypeOf (source_object s)) (object_key (source_object s)) = Some (source_object s') ∧
        src_Status s' = src_Status s.
Proof.
  mem_cases (UpdateStatus (source_object s)) m; [|done].
  destruct (mem_write_cases take_status (source_object s) m') as [[_ ->]|(y & Hs & [-> | ->])];
    [done..|]. intros _.
  pose proof (mem_stored_type _ _ _ _ Hs) as [Ht Hk].
  destruct y as [g md []]; unfold TypeOf in Ht; simpl in Ht; try (by destruct (src_Kind s)).
  exists (mkSource g (SetIdentity (Itoa (mem_rv m')) (UID md) (SelfLink md) md) k view (src_Status s)).
  split; [|done]. unfold mem_stored in Hs |- *. simpl in *.
  eapply find_put_same; [exact Hs|]. split; [done|]. rewrite <-Hk. done.
Qed.

Lemma mem_create_key o m t k :
  GenerateName (o_Meta o) = "" → (t, k) ≠ (TypeOf o, object_key o) →
  mem_stored (mem_create o m).2 t k = mem_stored m t k.
Proof.
  intros Hg Hne. destruct (mem_create_cases o m Hg) as [[_ ->]|[_ ->]]; [done|].
  apply find_app_other. intros [<- <-]. by apply Hne.
Qed.

(** A write of an object that is not being deleted to one that is not. *)
Lemma mem_write_alive f o m :
  DeletionTimestamp (o_Meta o) = None →
  (∀ s, TypeOf s = TypeOf o → TypeOf (f s o) = TypeOf o ∧ o_Meta (f s o) = o_Meta o) →
  alive m (TypeOf o) (object_key o) → alive (mem_write f o m).2 (TypeOf o) (object_key o).
Proof.
  intros Ho Hf Hal. destruct (mem_write_cases f o m) as [[_ ->]|(x & Hx & [-> | ->])]; [done..|].
  pose proof (mem_stored_type _ _ _ _ Hx) as [Ht _]. destruct (Hf x Ht) as [Hft Hfm].
  exists (bump (mem_rv m) (f x o)). split; [|by simpl; rewrite Hfm].
  eapply find_put_same; [exact Hx|]. split; [exact Hft|]. unfold object_key. simpl. by rewrite Hfm.
Qed.

Lemma erase_keep_status rv s o : erase_status (bump rv (keep_status s o)) = erase_status o.
Proof. unfold keep_status. destruct o as [? ? []], s as [? ? []]; reflexivity. Qed.

Lemma keep_status_meta s o : TypeOf s = TypeOf o →
  TypeOf (keep_status s o) = TypeOf o ∧ o_Meta (keep_status s o) = o_Meta o.
Proof. unfold keep_status, TypeOf. destruct o as [? ? []], s as [? ? []]; done. Qed.

Lemma mem_delete_gone o d m r m' :
  mem_handle (Delete o d) m = (r, m') →
  match r with
  | Ok _ => ∀ x, mem_stored m' (TypeOf o) (object_key o) = Some x → Finalizers (o_Meta x) ≠ []
  | Err e => IsNotFound e = true → mem_stored m' (TypeOf o) (object_key o) = None
  end.
Proof.
  destruct (mem_handle_cases (Delete o d) m) as (rest & [H|(err & x & Hi & Hx & H)]); rewrite H; clear H.
  - set (m1 := mkMem _ _ _ _). simpl. unfold mem_delete.
    destruct (mem_stored m1 _ _) as [s|] eqn:Hs; [|by intros [= <- <-]].
    destruct (Finalizers (o_Meta s)) eqn:Hf; intros [= <- <-]; intros x.
    + unfold mem_stored. cbn [mem_objs set_objs]. rewrite find_filter_same. done.
    + rewrite Hs. intros [= <-]. by rewrite Hf.
  - intros [= <- <-]. simpl in Hx. injection Hx as <-. unfold injectable in Hi. bool_case. congruence.
Qed.

#[export] Instance mem_laws : ApiServerLaws Mem.
Proof.
  split; simpl.
  - intros X e w He _ t k. mem_cases e w; [|done]. by apply (mem_read_stored e m').
  - intros d w t k. by mem_cases (Sleep d) w.
  - intros t k w o. mem_cases (Get t k) w; [|done].
    unfold mem_stored; simpl. case_match; intros; by simplify_eq.
  - apply mem_get_err.
  - apply mem_stored_type.
  - intros t lo w l Hl. apply Forall_forall. by intros o [[? _]%selects_spec _]%(mem_list_elem _ _ _ _ Hl).
  - intros t lo w l Hl. apply Forall_forall.
    by intros o [[<- _]%selects_spec ?]%(mem_list_elem _ _ _ _ Hl).
  - intros t lo w l Hl Hns. apply Forall_forall.
    intros o [(_ & [?|?] & _)%selects_spec _]%(mem_list_elem _ _ _ _ Hl); done.
  - intros t lo w l Hl. apply Forall_forall.
    by intros o [(_ & _ & ?)%selects_spec _]%(mem_list_elem _ _ _ _ Hl).
  - intros t lo w l k o Hl Hf Hns Ho Hlab. apply (mem_list_elem _ _ _ _ Hl).
    pose proof (mem_stored_type _ _ _ _ Ho) as [<- <-]. split; [by apply selects_intro|done].
  - intros o w e. mem_cases (Create o) w; [|done].
    unfold mem_create. case_match; intros; simplify_eq/=; done.
  - apply mem_create_exists.
  - apply mem_create_ok.
  - intros o w t k Hg Hne. mem_cases (Create o) w; [|done]. by apply (mem_create_key o m').
  - intros o w o' Ho Hg Hd. exists o'. destruct (mem_create_ok o w o' Ho Hg) as (_ & ? & _). split; [done|].
    revert Ho. mem_cases (Create o) w; [|done].
    destruct (mem_create_cases o m' Hg) as [[? ->]|[? ->]]; simpl; intros; by simplify_eq/=.
  - intros o w Hd Hal. mem_cases (Update o) w; [|done].
    by apply (mem_write_alive keep_status o m' Hd (fun s => keep_status_meta s o)).
  - intros m0 o w Hd Hal. mem_cases (Patch m0 o) w; [|done].
    by apply (mem_write_alive (fun _ o => o) m0 m').
  - intros o d w Ho. destruct (mem_handle (Delete o d) w) as [r m'] eqn:E. simpl in *. subst r.
    exact (mem_delete_gone o d w _ _ E).
  - intros o d w e Ho. destruct (mem_handle (Delete o d) w) as [r m'] eqn:E. simpl in *. subst r.
    exact (mem_delete_gone o d w _ _ E).
  - intros o w e. mem_cases (Update o) w; [|done].
    destruct (mem_write_cases keep_status o m') as [[_ ->]|(? & _ & [-> | ->])]; done.
  - intros o w o'. mem_cases (Update o) w; [|done].
    destruct (mem_write_cases keep_status o m') as [[_ ->]|(? & Hs & [-> | ->])]; [done..|].
    intros _. by exists x.
  - intros o w o'. mem_cases (Update o) w; [|done]. intros Ho _. revert Ho.
    destruct (mem_write_cases keep_status o m') as [[_ ->]|(y & Hs & [-> | ->])]; [done..|].
    intros [= <-]. split; [|apply erase_keep_status]. pose proof (mem_stored_type _ _ _ _ Hs) as [Ht _].
    eapply find_put_same; [exact Hs|]. by apply (keep_status_at y o).
  - intros o w t k Hne. split; [|intros d].
    + mem_cases (Update o) w; [|done].
      by rewrite (mem_write_stored keep_status o m' t k (fun s Ht _ => keep_status_at s o Ht) Hne).
    + mem_cases (Delete o d) w; [|done]. by apply (mem_delete_stored o m').
  - intros o w t k Hne. mem_cases (Create o) w; [|done]. by apply (mem_create_stored o m').
  - intros m0 o w t k Hne. mem_cases (Patch m0 o) w; [|done].
    by apply (mem_write_stored (fun _ o => o) m0 m').
  - intros o d w e. mem_cases (Delete o d) w; [|done].
    unfold mem_delete. repeat case_match; intros; by simplify_eq/=.
  - apply mem_status_stored.
  - intros s w t k. mem_cases (UpdateStatus (source_object s)) w; [|done].
    by apply (mem_status_only (source_object s) m').
  - intros s w t k Hne. mem_cases (UpdateStatus (source_object s)) w; [|done].
    apply (mem_write_stored take_status (source_object s) m'); [|done]. intros x. apply take_status_same.
  - intros X e w. mem_cases e w; [|done]. apply (mem_clock_mono e m').
  - intros w. mem_cases Now w. simpl. lia.
  - intros d w. mem_cases (Sleep d) w. simpl. lia.
Qed.
