(* ===== verification/Config.v ===== *)
(** * Configuration: the config and generators packages' data

    Models [pkg/naiserator/config] (the configuration structs, [Vault.Validate])
    and [pkg/generators/config.go] (the [Options] handed from [Prepare] to
    [Generate], with the ingress-class lookup), and the replica count of
    [pkg/generators/numreplicas.go]. Numbers are Go ints and int32s. *)

From S2P Require Import Prelude GoStrings Kube Api.

(** ** pkg/naiserator/config *)

Record SynchronizerConfig := mkSynchronizerConfig {
  SynchronizationTimeout : Z; RolloutTimeout : Z; RolloutCheckInterval : Z }.

Record Features := mkFeatures {
  AccessPolicyNotAllowedCIDRs : list string;
  Azurerator : bool; CNRM : bool; GARToleration : bool; GCP : bool; HAProxy : bool;
  IDPorten : bool; Jwker : bool; Kafkarator : bool; Maskinporten : bool; NAVCABundle : bool;
  NetworkPolicy : bool; PostgresOperator : bool; PrometheusOperator : bool;
  SQLInstanceInSharedVpc : bool; Texas : bool; Vault : bool; Webhook : bool; Wonderwall : bool }.

Record OtelCollector := mkOtelCollector {
  otc_Labels : list string; otc_Namespace : string; otc_Port : Z; otc_Protocol : string;
  otc_Service : string; otc_TLS : bool }.

Record Otel := mkOtel {
  otel_Enabled : bool; otel_Collector : OtelCollector;
  otel_AutoInstrumentationEnabled : bool; otel_AppConfig : string;
  otel_Destinations : list string }.

Record Observability := mkObservability { obs_LoggingDestinations : list string; obs_Otel : Otel }.

Record GatewayMapping := mkGateway { DomainSuffix : string; IngressClass : string }.

Record Proxy := mkProxy { proxy_Address : string; proxy_Exclude : list string }.

Record VaultConfig := mkVault {
  vault_Address : string; vault_InitContainerImage : string; vault_AuthPath : string;
  vault_KeyValuePath : string }.

Record ConfigHostAlias := mkConfigHostAlias { cha_Host : string; cha_Address : string }.

Record Config := mkConfig {
  AivenGeneration : Z; AivenProject : string; AivenRange : string; APIServerIP : string;
  Bind : string; ClusterName : string; DocURL : string; DryRun : bool; FQDNPolicyEnabled : bool;
  cfg_Features : Features; FrontendTelemetryURL : string;
  DomainIngressClassMapping : list GatewayMapping;
  GoogleCloudSQLProxyContainerImage : string; GoogleProjectID : string;
  HealthProbeBindAddress : string;
  HostAliases : list ConfigHostAlias; ImagePullSecrets : list string;
  FullSyncInterval : Z; Kubeconfig : string;
  LeaderElectionImage : string; LogFormat : string; LogLevel : string;
  MaxConcurrentReconciles : Z; NaisNamespace : string;
  cfg_Observability : Observability; cfg_Proxy : Proxy; RatelimitQPS : Z; RatelimitBurst : Z;
  cfg_Synchronizer : SynchronizerConfig; TexasImage : string; cfg_Vault : VaultConfig;
  WonderwallImage : string }.

(** [Vault.Validate]: the list of problems, empty when the configuration is valid. *)
Definition Vault_Validate (v : VaultConfig) : list error :=
  (if bool_decide (slen (vault_Address v) = 0%nat)
   then [Errorf "vault address not found in environment"] else []) ++
  (if bool_decide (slen (vault_InitContainerImage v) = 0%nat)
   then [Errorf "vault init container image not found in environment"] else []) ++
  (if bool_decide (slen (vault_AuthPath v) = 0%nat)
   then [Errorf "vault auth path not found in environment"] else []) ++
  (if bool_decide (slen (vault_KeyValuePath v) = 0%nat)
   then [Errorf "vault kv path not specified"] else []).

(** ** pkg/generators/config.go *)

Record SqlInstanceState := mkSqlInstanceState { sql_exists : bool; sql_hasPrivateIpInSharedVpc : bool }.

Record Options := mkOptions {
  opt_Config : Config;
  opt_GoogleTeamProjectID : string;
  opt_NumReplicas : Z;
  opt_Team : string;
  opt_SqlInstance : SqlInstanceState;
  opt_PostgresClusterEngine : string }.

Definition newOptions (c : Config) : Options :=
  mkOptions c "" 0 "" (mkSqlInstanceState false false) "".

(** The getters the resource creators see the options through. *)

Section getters.
Implicit Types o : Options.
Definition GetAccessPolicyNotAllowedCIDRs o := AccessPolicyNotAllowedCIDRs (cfg_Features (opt_Config o)).
Definition GetAivenGeneration o := AivenGeneration (opt_Config o).
Definition GetAivenProject o := AivenProject (opt_Config o).
Definition GetAivenRange o := AivenRange (opt_Config o).
Definition GetAPIServerIP o := APIServerIP (opt_Config o).
Definition GetClusterName o := ClusterName (opt_Config o).
Definition GetDocUrl o := DocURL (opt_Config o).
Definition GetFrontendTelemetryURL o := FrontendTelemetryURL (opt_Config o).
Definition IsFQDNPolicyEnabled o := FQDNPolicyEnabled (opt_Config o).
Definition GetGoogleCloudSQLProxyContainerImage o := GoogleCloudSQLProxyContainerImage (opt_Config o).
Definition GetGoogleProjectID o := GoogleProjectID (opt_Config o).
Definition GetGoogleTeamProjectID o := opt_GoogleTeamProjectID o.
Definition GetHostAliases o := HostAliases (opt_Config o).
Definition GetImagePullSecrets o := ImagePullSecrets (opt_Config o).
Definition GetLeaderElectionImage o := LeaderElectionImage (opt_Config o).
Definition GetNaisNamespace o := NaisNamespace (opt_Config o).
Definition GetNumReplicas o := opt_NumReplicas o.
Definition GetObservability o := cfg_Observability (opt_Config o).
Definition GetTeam o := opt_Team o.
Definition GetVaultOptions o := cfg_Vault (opt_Config o).
Definition GetWebProxyOptions o := cfg_Proxy (opt_Config o).
Definition GetWonderwallImage o := WonderwallImage (opt_Config o).
Definition IsAzureratorEnabled o := Azurerator (cfg_Features (opt_Config o)).
Definition IsCNRMEnabled o := CNRM (cfg_Features (opt_Config o)).
Definition IsGARTolerationEnabled o := GARToleration (cfg_Features (opt_Config o)).
Definition IsGCPEnabled o := GCP (cfg_Features (opt_Config o)).
Definition IsIDPortenEnabled o := IDPorten (cfg_Features (opt_Config o)).
Definition IsJwkerEnabled o := Jwker (cfg_Features (opt_Config o)).
Definition IsHAProxyEnabled o := HAProxy (cfg_Features (opt_Config o)).
Definition IsKafkaratorEnabled o := Kafkarator (cfg_Features (opt_Config o)).
Definition IsMaskinportenEnabled o := Maskinporten (cfg_Features (opt_Config o)).
Definition IsNAVCABundleEnabled o := NAVCABundle (cfg_Features (opt_Config o)).
Definition IsNetworkPolicyEnabled o := NetworkPolicy (cfg_Features (opt_Config o)).
Definition IsPrometheusOperatorEnabled o := PrometheusOperator (cfg_Features (opt_Config o)).
Definition IsTexasEnabled o := Texas (cfg_Features (opt_Config o)).
Definition IsVaultEnabled o := Vault (cfg_Features (opt_Config o)).
Definition IsWonderwallEnabled o := Wonderwall (cfg_Features (opt_Config o)).
Definition PostgresOperatorEnabled o := PostgresOperator (cfg_Features (opt_Config o)).
Definition ShouldCreateSqlInstanceInSharedVpc o := SQLInstanceInSharedVpc (cfg_Features (opt_Config o)).
Definition SqlInstanceExists o := sql_exists (opt_SqlInstance o).
Definition SqlInstanceHasPrivateIpInSharedVpc o := sql_hasPrivateIpInSharedVpc (opt_SqlInstance o).
Definition GetTexasImage o := TexasImage (opt_Config o).
Definition GetPostgresClusterEngine o := opt_PostgresClusterEngine o.
End getters.

(** The first loop of [GetIngressClasses]: the longest configured suffix of the
    domain seen so far. *)
Definition longer_suffix (domain : string) (acc : string) (value : GatewayMapping) : string :=
  if HasSuffix domain (DomainSuffix value) then
    if bool_decide (slen acc < slen (DomainSuffix value))%nat then DomainSuffix value else acc
  else acc.

Definition longestDomainSuffix (domain : string) (m : list GatewayMapping) : string :=
  foldl (longer_suffix domain) "" m.

(** [slices.Sort] on strings. *)
Fixpoint insert_sorted (s : string) (l : list string) : list string :=
  match l with
  | [] => [s]
  | t :: l' => if String.leb s t then s :: l else t :: insert_sorted s l'
  end.

Definition GetDomains (o : Options) : list string :=
  foldr insert_sorted [] (map DomainSuffix (DomainIngressClassMapping (opt_Config o))).

(** A Go-quoted ([%q]) string without characters that need escaping. *)
Definition quoted (s : string) : string :=
  String (ascii_of_nat 34) (s +:+ String (ascii_of_nat 34) "").

Definition GetIngressClasses (o : Options) (domain : string) : res error (list string) :=
  let m := DomainIngressClassMapping (opt_Config o) in
  let suffix := longestDomainSuffix domain m in
  let classes := map IngressClass (filter (fun v => DomainSuffix v = suffix) m) in
  match classes with
  | [] =>
      Err (Errorf ("the domain " +:+ quoted domain +:+ " cannot be used in cluster " +:+
                   quoted (ClusterName (opt_Config o)) +:+ "; use one of " +:+
                   Join (GetDomains o) ", "))
  | _ => Ok classes
  end.

(** ** pkg/generators/numreplicas.go *)

Definition numReplicas (deployment : option (option Z)) (minReplicas maxReplicas : Z) : Z :=
  if bool_decide (minReplicas = 0%Z) && bool_decide (maxReplicas = 0%Z) then 0%Z
  else if bool_decide (minReplicas = maxReplicas) then int32 minReplicas
  else match deployment with
       | Some (Some replicas) => Z.max (int32 minReplicas) replicas
       | _ => int32 minReplicas
       end.

(** ** Lemmas *)

Section ingress_class_lemmas.
Implicit Types (m : list GatewayMapping) (d : string).

Lemma longer_suffix_suffix d acc v :
  HasSuffix d acc = true → HasSuffix d (longer_suffix d acc v) = true.
Proof. unfold longer_suffix. case_all. Qed.

Lemma longest_suffix_of d m acc :
  HasSuffix d acc = true → HasSuffix d (foldl (longer_suffix d) acc m) = true.
Proof. revert acc; induction m; simpl; auto using longer_suffix_suffix. Qed.

Lemma longer_suffix_grows d acc v : (slen acc ≤ slen (longer_suffix d acc v))%nat.
Proof. unfold longer_suffix. repeat case_match; bool_case; lia. Qed.

Lemma foldl_grows d m acc : (slen acc ≤ slen (foldl (longer_suffix d) acc m))%nat.
Proof.
  revert acc; induction m as [|v m IH]; simpl; intros acc; [lia|].
  etrans; [apply longer_suffix_grows|apply IH].
Qed.

Lemma longest_suffix_max d m acc v :
  v ∈ m → HasSuffix d (DomainSuffix v) = true →
  (slen (DomainSuffix v) ≤ slen (foldl (longer_suffix d) acc m))%nat.
Proof.
  intros Hv Hs. revert acc. induction Hv as [v m|v u m _ IH]; intros acc; simpl; [|by apply IH].
  etrans; [|apply foldl_grows]. unfold longer_suffix. rewrite Hs. case_bool_decide; lia.
Qed.

Lemma longest_attained d m acc :
  foldl (longer_suffix d) acc m = acc ∨
  ∃ u, u ∈ m ∧ DomainSuffix u = foldl (longer_suffix d) acc m.
Proof.
  revert acc; induction m as [|v m IH]; intros acc; simpl; [by left|].
  destruct (IH (longer_suffix d acc v)) as [Heq|(u & ? & ?)].
  - rewrite Heq. unfold longer_suffix. repeat case_match; eauto.
    right. exists v. split; [by left|done].
  - right. exists u. split; [by right|done].
Qed.

(** Two suffixes of one string of the same length are equal. *)
Lemma suffix_same_length d a b :
  HasSuffix d a = true → HasSuffix d b = true → slen a = slen b → a = b.
Proof.
  rewrite !HasSuffix_spec. intros [t Ht] [u Hu] Hl. subst.
  assert (slen t = slen u) by (apply (f_equal slen) in Hu; rewrite !slen_app in Hu; lia).
  by eapply sapp_inj_len in Hu as [? ?].
Qed.
End ingress_class_lemmas.

(** ** Properties *)

(** GetIngressClasses picks the most specific domain: it returns a class
    exactly when some mapping with that class has a suffix of the domain (or the
    empty suffix) and no other configured suffix of the domain is longer; it
    fails exactly when there is no such mapping. *)
Lemma GetIngressClasses_longest o domain c :
  (∃ cs, GetIngressClasses o domain = Ok cs ∧ c ∈ cs) ↔
  ∃ v, v ∈ DomainIngressClassMapping (opt_Config o) ∧ IngressClass v = c ∧
    HasSuffix domain (DomainSuffix v) = true ∧
    ∀ u, u ∈ DomainIngressClassMapping (opt_Config o) → HasSuffix domain (DomainSuffix u) = true →
      (slen (DomainSuffix u) ≤ slen (DomainSuffix v))%nat.
Proof.
  unfold GetIngressClasses. set (m := DomainIngressClassMapping _).
  assert (Hin : c ∈ map IngressClass (filter (fun v => DomainSuffix v = longestDomainSuffix domain m) m)
    ↔ ∃ v, v ∈ m ∧ IngressClass v = c ∧ DomainSuffix v = longestDomainSuffix domain m).
  { rewrite list_elem_of_fmap. setoid_rewrite list_elem_of_filter. naive_solver. }
  assert (Hiff : ∀ v, v ∈ m → DomainSuffix v = longestDomainSuffix domain m ↔
    HasSuffix domain (DomainSuffix v) = true ∧
    ∀ u, u ∈ m → HasSuffix domain (DomainSuffix u) = true →
      (slen (DomainSuffix u) ≤ slen (DomainSuffix v))%nat).
  { pose proof (longest_suffix_of domain m "" (HasSuffix_empty domain)) as Hs.
    intros v Hv. split.
    - intros ->. split; [done|]. intros u ??. by apply longest_suffix_max.
    - intros [Hd Hmax]. apply suffix_same_length with domain; [done..|].
      apply Nat.le_antisymm; [by apply longest_suffix_max|].
      destruct (longest_attained domain m "") as [Heq|(u & Hu & Heq)].
      + unfold longestDomainSuffix. rewrite Heq. simpl. lia.
      + unfold longestDomainSuffix. rewrite <-Heq. apply Hmax; [done|]. by rewrite Heq. }
  split.
  - intros (cs & Hcs & Hc).
    assert (c ∈ map IngressClass (filter (fun v => DomainSuffix v = longestDomainSuffix domain m) m))
      as Hc' by (case_match; simplify_eq; done).
    apply Hin in Hc' as (v & Hv & ? & Hl). exists v. apply Hiff in Hl; naive_solver.
  - intros (v & Hv & Hc & Hd). assert (Hl : DomainSuffix v = longestDomainSuffix domain m)
      by (apply Hiff; naive_solver).
    assert (Hc' := proj2 Hin (ex_intro _ v (conj Hv (conj Hc Hl)))).
    case_match; [by apply elem_of_nil in Hc'|]. eauto.
Qed.

(** The replica count of an update never scales a running deployment down
    below its current size unless the workload disables autoscaling, never goes
    below the configured minimum, and is exactly the configured number when
    minimum and maximum agree. *)
Lemma numReplicas_spec deployment minReplicas maxReplicas :
  (0 ≤ minReplicas < 2 ^ 31)%Z → (0 ≤ maxReplicas < 2 ^ 31)%Z →
  (minReplicas ≤ numReplicas deployment minReplicas maxReplicas)%Z ∧
  (minReplicas = maxReplicas → numReplicas deployment minReplicas maxReplicas = minReplicas) ∧
  (minReplicas ≠ maxReplicas → ∀ current, deployment = Some (Some current) →
     (current ≤ numReplicas deployment minReplicas maxReplicas)%Z ∧
     ((minReplicas ≤ current)%Z → numReplicas deployment minReplicas maxReplicas = current)) ∧
  (minReplicas ≠ maxReplicas → (deployment = None ∨ deployment = Some None) →
     numReplicas deployment minReplicas maxReplicas = minReplicas).
Proof.
  intros Hmin Hmax. unfold numReplicas. rewrite (int32_small minReplicas) by lia.
  repeat case_match; bool_case; subst; split_and!; naive_solver lia.
Qed.

Lemma numReplicas_spec_witness : (7 ≤ numReplicas (Some (Some 7)) 2 4)%Z.
Proof.
  destruct (numReplicas_spec (Some (Some 7%Z)) 2 4) as (_ & _ & H & _); [lia..|].
  by destruct (H ltac:(lia) 7%Z eq_refl).
Defined.
