(* ===== verification/Flags.v ===== *)
(** * Settings: command-line flags and configuration keys

    Models the rest of [pkg/naiserator/config/config.go]: the fields of the
    configuration structs under the keys of their json tags, the command-line flags
    with their types and defaults, and [New]. viper, which reads files, environment
    and flags and decodes them into the structs, is a parameter of [New]. *)

From S2P Require Import Prelude GoStrings Kube Api Config.

(** ** Keys *)

Inductive FieldType := TBool | TString | TInt | TDuration | TStrings | TStructs.

#[export] Instance FieldType_eq_dec : EqDecision FieldType.
Proof. solve_decision. Defined.

(** The fields of a struct under the key of the struct. *)
Definition under (key : string) (fields : list (string * FieldType)) : list (string * FieldType) :=
  map (fun '(k, t) => (key +:+ "." +:+ k, t)) fields.

Definition Texas_keys := [("image", TString)].
Definition Log_keys := [("format", TString); ("level", TString)].
Definition Informer_keys := [("full-sync-interval", TDuration)].
Definition Synchronizer_keys :=
  [("synchronization-timeout", TDuration); ("rollout-timeout", TDuration);
   ("rollout-check-interval", TDuration)].
Definition Features_keys :=
  ("access-policy-not-allowed-cidrs", TStrings) ::
  map (fun k => (k, TBool))
    ["azurerator"; "cnrm"; "gar-toleration"; "gcp"; "haproxy"; "idporten"; "jwker"; "kafkarator";
     "maskinporten"; "nav-ca-bundle"; "network-policy"; "postgres-operator"; "prometheus-operator";
     "sql-instance-in-shared-vpc"; "texas"; "vault"; "webhook"; "wonderwall"].
Definition OtelCollector_keys :=
  [("labels", TStrings); ("namespace", TString); ("port", TInt); ("protocol", TString);
   ("service", TString); ("tls", TBool)].
Definition AutoInstrumentation_keys := [("enabled", TBool); ("app-config", TString)].
Definition Otel_keys :=
  ("enabled", TBool) :: under "collector" OtelCollector_keys ++
  under "auto-instrumentation" AutoInstrumentation_keys ++ [("destinations", TStrings)].
Definition Logging_keys := [("destinations", TStrings)].
Definition Observability_keys := under "logging" Logging_keys ++ under "otel" Otel_keys.
Definition Proxy_keys := [("address", TString); ("exclude", TStrings)].
Definition Vault_keys :=
  [("address", TString); ("init-container-image", TString); ("auth-path", TString);
   ("kv-path", TString)].
Definition Ratelimit_keys := [("qps", TInt); ("burst", TInt)].
Definition Wonderwall_keys := [("image", TString)].
Definition LeaderElection_keys := [("image", TString)].
Definition FQDNPolicy_keys := [("enabled", TBool)].
Definition Frontend_keys := [("telemetry-url", TString)].

Definition Config_keys : list (string * FieldType) :=
  [("aiven-generation", TInt); ("aiven-project", TString); ("aiven-range", TString);
   ("api-server-ip", TString); ("bind", TString); ("cluster-name", TString);
   ("doc-url", TString); ("dry-run", TBool)] ++
  under "fqdn-policy" FQDNPolicy_keys ++ under "features" Features_keys ++
  under "frontend" Frontend_keys ++
  [("domain-ingressclass-mapping", TStructs);
   ("google-cloud-sql-proxy-container-image", TString); ("google-project-id", TString);
   ("health-probe-bind-address", TString); ("host-aliases", TStructs);
   ("image-pull-secrets", TStrings)] ++
  under "informer" Informer_keys ++ [("kubeconfig", TString)] ++
  under "leader-election" LeaderElection_keys ++ under "log" Log_keys ++
  [("max-concurrent-reconciles", TInt); ("nais-namespace", TString)] ++
  under "observability" Observability_keys ++ under "proxy" Proxy_keys ++
  under "ratelimit" Ratelimit_keys ++ under "synchronizer" Synchronizer_keys ++
  under "texas" Texas_keys ++ under "vault" Vault_keys ++ under "wonderwall" Wonderwall_keys.

(** ** Flags *)

(** The settings that have a flag, in the order in which their keys are declared. *)
Inductive Setting :=
| SAivenGeneration | SAivenProject | SAivenRange | SAPIServerIP | SBind | SHealthProbeBindAddress
| SClusterName | SDryRun | SNaisNamespace | SFeaturesAccessPolicyNotAllowedCIDRs
| SFeaturesAzurerator | SFeaturesGCP | SFeaturesHAProxy | SFeaturesIDPorten | SFeaturesJwker
| SFeaturesCNRM | SFeaturesKafkarator | SFeaturesMaskinporten | SFeaturesNetworkPolicy
| SFeaturesPostgresOperator | SFeaturesPrometheusOperator | SFeaturesTexas | SFeaturesVault
| SFeaturesWebhook | SFeaturesWonderwall | SFQDNPolicyEnabled | SGoogleCloudSQLProxyContainerImage
| SGoogleProjectID | SImagePullSecrets | SInformerFullSynchronizationInterval | SKubeConfig
| SLeaderElectionImage | SMaxConcurrentReconciles | SObservabilityLoggingDestinations
| SObservabilityOtelCollectorLabels | SObservabilityOtelCollectorNamespace
| SObservabilityOtelCollectorPort | SObservabilityOtelCollectorProtocol
| SObservabilityOtelCollectorService | SObservabilityOtelCollectorTLS | SObservabilityOtelEnabled
| SObservabilityOtelDestinations | SObservabilityOtelAutoInstrumentationAppConfig
| SObservabilityOtelAutoInstrumentationEnabled | SProxyAddress | SProxyExclude | SRateLimitBurst
| SRateLimitQPS | SSynchronizerRolloutCheckInterval | SSynchronizerRolloutTimeout
| SSynchronizerSynchronizationTimeout | STexasImage | SVaultAddress | SVaultAuthPath
| SVaultInitContainerImage | SVaultKvPath | SWonderwallImage.

(** The key of a setting: the name of its flag and its place in a configuration file. *)
Definition key (s : Setting) : string :=
  match s with
  | SAivenGeneration => "aiven-generation"
  | SAivenProject => "aiven-project"
  | SAivenRange => "aiven-range"
  | SAPIServerIP => "api-server-ip"
  | SBind => "bind"
  | SHealthProbeBindAddress => "health-probe-bind-address"
  | SClusterName => "cluster-name"
  | SDryRun => "dry-run"
  | SNaisNamespace => "nais-namespace"
  | SFeaturesAccessPolicyNotAllowedCIDRs => "features.access-policy-not-allowed-cidrs"
  | SFeaturesAzurerator => "features.azurerator"
  | SFeaturesGCP => "features.gcp"
  | SFeaturesHAProxy => "features.haproxy"
  | SFeaturesIDPorten => "features.idporten"
  | SFeaturesJwker => "features.jwker"
  | SFeaturesCNRM => "features.cnrm"
  | SFeaturesKafkarator => "features.kafkarator"
  | SFeaturesMaskinporten => "features.maskinporten"
  | SFeaturesNetworkPolicy => "features.network-policy"
  | SFeaturesPostgresOperator => "features.postgres-operator"
  | SFeaturesPrometheusOperator => "features.prometheus-operator"
  | SFeaturesTexas => "features.texas"
  | SFeaturesVault => "features.vault"
  | SFeaturesWebhook => "features.webhook"
  | SFeaturesWonderwall => "features.wonderwall"
  | SFQDNPolicyEnabled => "fqdn-policy.enabled"
  | SGoogleCloudSQLProxyContainerImage => "google-cloud-sql-proxy-container-image"
  | SGoogleProjectID => "google-project-id"
  | SImagePullSecrets => "image-pull-secrets"
  | SInformerFullSynchronizationInterval => "informer.full-sync-interval"
  | SKubeConfig => "kubeconfig"
  | SLeaderElectionImage => "leader-election.image"
  | SMaxConcurrentReconciles => "max-concurrent-reconciles"
  | SObservabilityLoggingDestinations => "observability.logging.destinations"
  | SObservabilityOtelCollectorLabels => "observability.otel.collector.labels"
  | SObservabilityOtelCollectorNamespace => "observability.otel.collector.namespace"
  | SObservabilityOtelCollectorPort => "observability.otel.collector.port"
  | SObservabilityOtelCollectorProtocol => "observability.otel.collector.protocol"
  | SObservabilityOtelCollectorService => "observability.otel.collector.service"
  | SObservabilityOtelCollectorTLS => "observability.otel.collector.tls"
  | SObservabilityOtelEnabled => "observability.otel.enabled"
  | SObservabilityOtelDestinations => "observability.otel.destinations"
  | SObservabilityOtelAutoInstrumentationAppConfig => "observability.otel.auto-instrumentation.app-config"
  | SObservabilityOtelAutoInstrumentationEnabled => "observability.otel.auto-instrumentation.enabled"
  | SProxyAddress => "proxy.address"
  | SProxyExclude => "proxy.exclude"
  | SRateLimitBurst => "ratelimit.burst"
  | SRateLimitQPS => "ratelimit.qps"
  | SSynchronizerRolloutCheckInterval => "synchronizer.rollout-check-interval"
  | SSynchronizerRolloutTimeout => "synchronizer.rollout-timeout"
  | SSynchronizerSynchronizationTimeout => "synchronizer.synchronization-timeout"
  | STexasImage => "texas.image"
  | SVaultAddress => "vault.address"
  | SVaultAuthPath => "vault.auth-path"
  | SVaultInitContainerImage => "vault.init-container-image"
  | SVaultKvPath => "vault.kv-path"
  | SWonderwallImage => "wonderwall.image"
  end.

(** A flag with its default. [StringSlice] splits its argument at commas,
    [StringArray] does not; a duration is in nanoseconds. *)
Inductive Flag :=
| FlagBool (name : string) (default : bool)
| FlagString (name : string) (default : string)
| FlagInt (name : string) (default : Z)
| FlagStringSlice (name : string) (default : list string)
| FlagStringArray (name : string) (default : option (list string))
| FlagDuration (name : string) (default : Z).

Definition flag_name (f : Flag) : string :=
  match f with
  | FlagBool n _ | FlagString n _ | FlagInt n _ | FlagStringSlice n _ | FlagStringArray n _
  | FlagDuration n _ => n
  end.

Definition flag_type (f : Flag) : FieldType :=
  match f with
  | FlagBool _ _ => TBool
  | FlagString _ _ => TString
  | FlagInt _ _ => TInt
  | FlagStringSlice _ _ | FlagStringArray _ _ => TStrings
  | FlagDuration _ _ => TDuration
  end.

Definition second : Z := 1000000000.
Definition minute : Z := 60 * second.

Definition flags : list Flag :=
  [ FlagBool (key SDryRun) false;
    FlagString (key SKubeConfig) "";
    FlagString (key SBind) "127.0.0.1:8080";
    FlagString (key SHealthProbeBindAddress) "127.0.0.1:8085";
    FlagString (key SClusterName) "cluster-name-unconfigured";
    FlagInt (key SAivenGeneration) 0;
    FlagString (key SAivenProject) "aiven-project";
    FlagString (key SAivenRange) "aiven-range";
    FlagString (key SGoogleProjectID) "";
    FlagString (key SGoogleCloudSQLProxyContainerImage) "";
    FlagString (key SAPIServerIP) "";
    FlagString (key SNaisNamespace) "nais-system";
    FlagStringSlice (key SFeaturesAccessPolicyNotAllowedCIDRs) [""];
    FlagBool (key SFeaturesNetworkPolicy) false;
    FlagBool (key SFeaturesVault) false;
    FlagBool (key SFeaturesGCP) false;
    FlagBool (key SFeaturesHAProxy) false;
    FlagBool (key SFeaturesJwker) false;
    FlagBool (key SFeaturesCNRM) false;
    FlagBool (key SFeaturesAzurerator) false;
    FlagBool (key SFeaturesKafkarator) false;
    FlagBool (key SFeaturesIDPorten) false;
    FlagBool (key SFeaturesMaskinporten) false;
    FlagBool (key SFeaturesWebhook) false;
    FlagBool (key SFeaturesPrometheusOperator) false;
    FlagBool (key SFeaturesPostgresOperator) false;
    FlagBool (key SFeaturesTexas) false;
    FlagBool (key SFeaturesWonderwall) false;
    FlagBool (key SFQDNPolicyEnabled) false;
    FlagDuration (key SInformerFullSynchronizationInterval) (30 * minute);
    FlagString (key SLeaderElectionImage) "";
    FlagInt (key SMaxConcurrentReconciles) 1;
    FlagStringArray (key SObservabilityLoggingDestinations) (Some []);
    FlagBool (key SObservabilityOtelEnabled) false;
    FlagStringArray (key SObservabilityOtelDestinations) (Some []);
    FlagString (key SObservabilityOtelCollectorNamespace) "nais-system";
    FlagString (key SObservabilityOtelCollectorService) "opentelmetry-collector";
    FlagString (key SObservabilityOtelCollectorProtocol) "grpc";
    FlagBool (key SObservabilityOtelAutoInstrumentationEnabled) false;
    FlagString (key SObservabilityOtelAutoInstrumentationAppConfig) "nais-system/apps";
    FlagInt (key SObservabilityOtelCollectorPort) 4317;
    FlagBool (key SObservabilityOtelCollectorTLS) false;
    FlagStringArray (key SObservabilityOtelCollectorLabels) (Some []);
    FlagInt (key SRateLimitQPS) 20;
    FlagInt (key SRateLimitBurst) 200;
    FlagDuration (key SSynchronizerSynchronizationTimeout) (5 * second);
    FlagDuration (key SSynchronizerRolloutCheckInterval) (5 * second);
    FlagDuration (key SSynchronizerRolloutTimeout) (5 * minute);
    FlagString (key STexasImage) "";
    FlagString (key SProxyAddress) "";
    FlagStringSlice (key SProxyExclude) ["localhost"];
    FlagString (key SVaultAddress) "";
    FlagString (key SVaultInitContainerImage) "";
    FlagString (key SVaultAuthPath) "";
    FlagString (key SVaultKvPath) "";
    FlagString (key SWonderwallImage) "";
    FlagStringArray (key SImagePullSecrets) None ].

Definition flag_names : list string := map flag_name flags.

(** The environment variable of a key: the prefix, the replacer of [init], and the
    upper case viper documents for [AutomaticEnv]. *)
Definition env_key_replacer (key : string) : string := ReplaceAll1 (ReplaceAll1 key "-" "_") "." "_".
Definition env_variable (key : string) : string := "NAISERATOR_" +:+ ToUpper (env_key_replacer key).

(** ** New *)

(** What viper answers: the error of reading the configuration file, the error of
    binding the flags, and the decoded configuration. *)
Inductive ReadError := ConfigFileNotFoundError (e : error) | OtherReadError (e : error).

Class Viper := {
  ReadInConfig : option ReadError;
  BindPFlags : option error;
  Unmarshal : res error Config;
  (* the keys viper knows, and [%v] of the value of a key *)
  AllKeys : list string;
  viper_Get : string → string;
}.

(** The test for a missing file is a type assertion, which panics on any other error. *)
Definition New `{Viper} : res error Config :=
  match ReadInConfig with
  | Some (OtherReadError _) =>
      Err (Panic "interface conversion: error is not viper.ConfigFileNotFoundError")
  | Some (ConfigFileNotFoundError _) | None =>
      match BindPFlags with
      | Some e => Err e
      | None => Unmarshal
      end
  end.

(** Print out all configuration options except secret stuff: the lines that are logged. *)
Definition print_line `{Viper} (redacted : list string) (key : string) : string :=
  if bool_decide (key ∈ redacted) then key +:+ ": ***REDACTED***" else key +:+ ": " +:+ viper_Get key.

Definition Print `{Viper} (redacted : list string) : list string :=
  map (print_line redacted) (foldr insert_sorted [] AllKeys).

(** ** Properties *)

(** What is printed does not depend on the value of a redacted option. *)
Lemma Print_redacts (V V' : Viper) redacted :
  @AllKeys V = @AllKeys V' → (∀ k, k ∉ redacted → @viper_Get V k = @viper_Get V' k) →
  @Print V redacted = @Print V' redacted.
Proof.
  intros Hkeys Hget. unfold Print. rewrite Hkeys. apply map_ext. intros k. unfold print_line.
  case_bool_decide; [done|]. by rewrite Hget.
Qed.

(** The keys no flag sets; viper reads them from a file only. *)
Definition file_only : list string :=
  ["doc-url"; "features.gar-toleration"; "features.nav-ca-bundle";
   "features.sql-instance-in-shared-vpc"; "frontend.telemetry-url"; "domain-ingressclass-mapping";
   "host-aliases"; "log.format"; "log.level"].

(** The settings are well formed: every flag sets a field of the configuration
    and has the field's type, no two flags or fields have the same name, no two
    fields are read from the same environment variable, and the fields that no flag
    sets are the ones listed. *)
Lemma settings_well_formed :
  (∀ f, f ∈ flags → (flag_name f, flag_type f) ∈ Config_keys) ∧
  NoDup (map fst Config_keys) ∧ NoDup flag_names ∧
  NoDup (map (fun kt => env_variable kt.1) Config_keys) ∧
  (∀ k, k ∈ map fst Config_keys ↔ k ∈ flag_names ++ file_only).
Proof.
  assert (Hflags : Forall (fun f => (flag_name f, flag_type f) ∈ Config_keys) flags)
    by (eapply bool_decide_unpack; vm_compute; reflexivity).
  split; [by apply Forall_forall|].
  split_and!; try (eapply bool_decide_unpack; vm_compute; reflexivity).
  assert (Hkeys : Forall (fun k => k ∈ flag_names ++ file_only) (map fst Config_keys))
    by (eapply bool_decide_unpack; vm_compute; reflexivity).
  assert (Hback : Forall (fun k => k ∈ map fst Config_keys) (flag_names ++ file_only))
    by (eapply bool_decide_unpack; vm_compute; reflexivity).
  rewrite Forall_forall in Hkeys, Hback. split; auto.
Qed.

Example env_proxy_address : env_variable "proxy.address" = "NAISERATOR_PROXY_ADDRESS".
Proof. reflexivity. Qed.
