(* ===== verification/Samples.v ===== *)
(** * Concrete third-party code and objects for the witnesses

    One executable instance per interface of [Vendor], with the laws it
    satisfies, and small workloads. Theorems never use this file; their
    witnesses do. *)

From S2P Require Import Prelude GoStrings Kube Api Vendor Resource Config.

Definition kind_types : list (string * GoType) :=
  [ ("Application", TApplication); ("Naisjob", TNaisjob); ("Deployment", TDeployment); ("CronJob", TCronJob);
    ("Job", TJob); ("Service", TService); ("ServiceAccount", TServiceAccount); ("Ingress", TIngress);
    ("NetworkPolicy", TNetworkPolicy); ("FQDNNetworkPolicy", TFQDNNetworkPolicy);
    ("HorizontalPodAutoscaler", THPA); ("PodDisruptionBudget", TPDB); ("Secret", TSecret); ("Jwker", TJwker);
    ("ConfigMap", TConfigMap); ("RoleBinding", TRoleBinding); ("PodMonitor", TPodMonitor);
    ("AzureAdApplication", TAzureAdApplication); ("MaskinportenClient", TMaskinportenClient);
    ("AivenApplication", TAivenApplication); ("Stream", TStream); ("IAMServiceAccount", TIAMServiceAccount);
    ("IAMPolicy", TIAMPolicy); ("IAMPolicyMember", TIAMPolicyMember); ("BigQueryDataset", TBigQueryDataset);
    ("SQLInstance", TSQLInstance); ("SQLDatabase", TSQLDatabase); ("SQLUser", TSQLUser);
    ("SQLSSLCert", TSQLSSLCert); ("StorageBucket", TStorageBucket) ].

Definition kind_type (kind : string) : GoType :=
  match list_find (fun p => p.1 = kind) kind_types with
  | Some (_, (_, t)) => t
  | None => TOther kind
  end.

Definition sample_machinery : ApiMachinery := {|
  NewRequirement k v := Ok (k, v);
  ParseSelector s :=
    Ok (map (fun kv => match Split1 kv "="%char with [k; v] => (k, v) | _ => (kv, "") end)
          (Split1 s ","%char));
  scheme_New g := Ok (kind_type (gvk_Kind g));
  GVKForObject t :=
    match t with
    | TDeployment => Ok (mkGVK "apps" "v1" "DeploymentList")
    | TService => Ok (mkGVK "" "v1" "ServiceList")
    | TIngress => Ok (mkGVK "networking.k8s.io" "v1" "IngressList")
    | TOther s => Ok (mkGVK "" "v1" (s +:+ "List"))
    | _ => Err (Errorf "no kind registered")
    end;
  ParseQuantity s := if bool_decide (s = "") then Err (Errorf "quantities must match the regular expression")
                     else Ok (mkQuantity s);
|}.

#[export] Instance sample_machinery_laws : ApiMachineryLaws sample_machinery.
Proof. by intros k v r [= <-]. Qed.

(** URLs of the plain form [scheme://host/path]. *)
Definition sample_url_Parse (s : string) : res error URL :=
  match String.index 0 "://" s with
  | Some i =>
      let rest := String.substring (i + 3) (slen s - (i + 3)) s in
      let scheme := String.substring 0 i s in
      match String.index 0 "/" rest with
      | Some j => Ok (mkURL scheme (String.substring 0 j rest) (String.substring j (slen rest - j) rest) "")
      | None => Ok (mkURL scheme rest "" "")
      end
  | None => Ok (mkURL "" "" s "")
  end.

Definition sample_url : UrlLib := {|
  url_Parse := sample_url_Parse;
  url_String u := url_Scheme u +:+ "://" +:+ url_Host u +:+ url_Path u;
|}.

Definition correlation_key : string := "nais.io/deploymentCorrelationID".

Definition sample_liberator : Liberator := {|
  SetSynchronizationStateWithCondition st msg s :=
    mkStatus ((st, msg) :: st_Conditions s) (st_Problems s) st (st_SynchronizationHash s)
      (st_SynchronizationTime s) (st_CorrelationID s) (st_EffectiveImage s);
  SetError m s :=
    mkStatus (st_Conditions s) (m :: st_Problems s) (st_SynchronizationState s)
      (st_SynchronizationHash s) (st_SynchronizationTime s) (st_CorrelationID s)
      (st_EffectiveImage s);
  ClearProblems s :=
    mkStatus (st_Conditions s) [] (st_SynchronizationState s) (st_SynchronizationHash s)
      (st_SynchronizationTime s) (st_CorrelationID s) (st_EffectiveImage s);
  ApplyDefaults s := Ok s;
  Hash s gen := Ok (v_Image (src_View s) +:+ ":" +:+ Itoa (v_Port (src_View s)) +:+ ":" +:+ Itoa gen);
  GetOwnerReference s :=
    mkOwnerReference (apiVersion (src_GVK s)) (gvk_Kind (src_GVK s)) (GetName s)
      (UID (src_Meta s)) None None;
  GetObjectReference s := mkObjectReference (GetName s) (UID (src_Meta s));
  CorrelationID s := GetAnnotation (src_Meta s) correlation_key;
  DeploymentCorrelationIDAnnotation := correlation_key;
  MatchesCluster r c := bool_decide (apr_Cluster r = "") || bool_decide (apr_Cluster r = c);
  DefaultServicePort := 80;
  DefaultPortName := "http";
  DefaultSecretMountPath := "/var/run/secrets";
  MediumTypeMemory := "Memory";
  DeploymentStrategyRecreate := "Recreate";
  GetDefaultMountPath n := "/var/run/configmaps/" +:+ n;
  GetDefaultPVCMountPath n := "/var/run/pvc/" +:+ n;
  ShortName s n := Ok (String.substring 0 (Z.to_nat n) s);
  LibStrTrimMiddle s n := String.substring 0 (Z.to_nat n) s;
  PrefixedRandShortName pre n max := pre +:+ "-" +:+ n +:+ "-12345678";
  RandShortName s n := String.substring 0 (Z.to_nat n - 9) s +:+ "-12345678";
  SuffixedShortName s suf n := Ok (String.substring 0 (Z.to_nat n) s +:+ "-" +:+ suf);
  Keygen n := Ok "0123456789abcdef0123456789abcdef";
  DefaultJwkerMountPath := "/var/run/secrets/nais.io/jwker";
  DefaultAzureratorMountPath := "/var/run/secrets/nais.io/azure";
  DefaultDigdiratorIDPortenMountPath := "/var/run/secrets/nais.io/idporten";
  DefaultDigdiratorMaskinportenMountPath := "/var/run/secrets/nais.io/maskinporten";
  DefaultKafkaratorMountPath := "/var/run/secrets/nais.io/kafka";
  DefaultSqeletorMountPath := "/var/run/secrets/nais.io/sqlcertificate";
  DefaultVaultMountPath := "/var/run/secrets/nais.io/vault";
  OpenSearchFullyQualifiedName i ns := "opensearch-" +:+ ns +:+ "-" +:+ i;
  TopicPrefix m := Namespace m +:+ "." +:+ Name m;
  BigQueryPermission_GoogleType p := if bool_decide (p = "READWRITE") then "WRITER" else "READER";
  CloudSqlInstanceDiskType_GoogleType t := "PD_" +:+ t;
  CloudSqlInstanceDiskTypeSSD := "SSD";
  SQLInstanceEditionEnterprise := "ENTERPRISE";
  Insights_IsEnabled i := match i with Some (mkSqlInsights (Some b) _ _ _) => b | _ => true end;
  GCP_Instance g := head (gcp_SqlInstances g);
  CloudSqlInstance_Database i := head (csi_Databases i);
  PublicAccessPreventionInherited := "inherited";
  PublicAccessPreventionEnforced := "enforced";
  events_FailedPrepare := "FailedPrepare";
  events_FailedGenerate := "FailedGenerate";
  events_FailedSynchronization := "FailedSynchronization";
  events_FailedStatusUpdate := "FailedStatusUpdate";
  events_Retrying := "Retrying";
  events_Synchronized := "Synchronized";
  events_RolloutComplete := "RolloutComplete";
|}.

Lemma sample_liberator_laws : LiberatorStatusLaws sample_liberator.
Proof. by split. Qed.

#[export] Instance sample_owner_laws : LiberatorOwnerLaws sample_liberator.
Proof. done. Qed.

(** Defaults for the fields that are empty. *)
Definition sample_structs : StructLib := {|
  MergeResources dst src :=
    Ok (mkNaisResources (match nr_Requests dst with Some l => Some l | None => nr_Requests src end)
          (match nr_Limits dst with Some l => Some l | None => nr_Limits src end));
  MergeSqlInstance dst src :=
    Ok (mkCloudSqlInstance (csi_Type dst) (csi_Name dst) (csi_Tier dst)
          (if bool_decide (csi_DiskType dst = "") then csi_DiskType src else csi_DiskType dst)
          (if bool_decide (csi_DiskSize dst = 0%Z) then csi_DiskSize src else csi_DiskSize dst)
          (csi_DiskAutoresize dst) (csi_DiskAutoresizeLimit dst) (csi_HighAvailability dst)
          (csi_CascadingDelete dst)
          (if bool_decide (csi_Collation dst = "") then csi_Collation src else csi_Collation dst)
          (match csi_Databases dst with [] => csi_Databases src | l => l end)
          (csi_AutoBackupHour dst) (csi_Insights dst) (csi_Maintenance dst)
          (csi_PointInTimeRecovery dst) (csi_RetainedBackups dst)
          (csi_TransactionLogRetentionDays dst) (csi_Flags dst));
  HashPermission p := Ok (Z.of_nat (slen (cip_Role p +:+ cip_Name p)));
|}.

(** ** A workload *)

Definition no_auth : AuthView := mkAuthView None None None None.
Definition plain_platform : PlatformView := mkPlatformView (Some (mkNaisVault false [])) false false None None.
Definition no_backing : BackingView := mkBackingView None None [] None None.

(** A workload with the given image, port, Prometheus settings, replicas, URLs,
    redirects, logins, platform features and backing services. *)
Definition view_with (port : Z) (prometheus : PrometheusConfig) (replicas : Replicas) (image : string) (ingresses : list string) (redirects : list Redirect)
    (auth : AuthView) (platform : PlatformView) (backing : BackingView) : AppView :=
  {| v_Image := image; v_Port := port; v_Command := []; v_Env := []; v_EnvFrom := [];
     v_FilesFrom := []; v_Liveness := None; v_Readiness := None; v_Startup := None;
     v_PreStopHook := None; v_PreStopHookPath := "";
     v_Prometheus := prometheus;
     v_Resources := mkNaisResources (Some ("100m", "64Mi")) (Some ("", "128Mi"));
     v_Replicas := replicas;
     v_Strategy := mkNaisStrategy "RollingUpdate" None;
     v_TerminationGracePeriodSeconds := Some 30%Z;
     v_Ingress := ingresses; v_Redirects := redirects;
     v_Service := mkNaisService 80 "http";
     v_AccessPolicy := Some (mkAccessPolicy (Some []) (Some (mkOutbound [] [])));
     v_LeaderElection := false; v_TokenX := Some true; v_Auth := auth; v_Platform := platform;
     v_Backing := backing;
     v_RestartPolicy := "Never"; v_Schedule := ""; v_TimeZone := None;
     v_ActiveDeadlineSeconds := None; v_BackoffLimit := None; v_Completions := None;
     v_CompletionMode := None; v_Parallelism := None; v_TTLSecondsAfterFinished := None;
     v_SuccessfulJobsHistoryLimit := 3; v_FailedJobsHistoryLimit := None;
     v_ConcurrencyPolicy := "Allow" |}.

Definition sample_replicas : Replicas := mkReplicas 2 4 false 50 None.

Definition view_of : string → list string → list Redirect → AuthView → PlatformView → BackingView → AppView :=
  view_with 8080 (mkPrometheus false "" "/metrics") sample_replicas.

Definition sample_view : AppView :=
  view_of "repo/app:1" ["https://app.nais.io"] [] no_auth plain_platform no_backing.

Definition sample_meta (name ns uid : string) (fin : list string) : ObjectMeta :=
  {| Name := name; GenerateName := ""; Namespace := ns; SelfLink := ""; UID := uid;
     ResourceVersion := "1"; Generation := 1; DeletionTimestamp := None;
     Labels := Some {[ "team" := ns ]}; Annotations := None; OwnerReferences := None;
     Finalizers := fin |}.

Definition app_gvk : GroupVersionKind := mkGVK "nais.io" "v1alpha1" "Application".

Definition sample_app : Source :=
  mkSource app_gvk (sample_meta "myapp" "team-a" "uid-1" ["naiserator.nais.io/finalizer"])
    KApplication sample_view emptyStatus.

Definition sample_ns : Object :=
  mkObject (mkGVK "" "v1" "Namespace") (SetName "team-a" emptyMeta) BNamespace.

Definition sample_service (owners : option (list OwnerReference)) (ip : string) : Object :=
  mkObject (mkGVK "" "v1" "Service")
    (SetOwnerReferences owners (SetNamespace "team-a" (SetName "myapp" emptyMeta)))
    (BService (mkServiceSpec ip "ClusterIP" ∅ [])).

(** ** A configuration *)

Definition sample_features : Features :=
  mkFeatures ["10.0.0.0/8"] false true false true false false true false false false true false
    true false false false false false.

(** Everything the platform offers, switched on. *)
Definition full_features : Features :=
  mkFeatures ["10.0.0.0/8"] true true true true true true true true true true true true true true true
    true true true.

Definition config_of (features : Features) : Config :=
  {| AivenGeneration := 1; AivenProject := "aiven-dev"; AivenRange := "172.16.0.0/16";
     APIServerIP := "10.1.0.1"; Bind := ""; ClusterName := "dev"; DocURL := ""; DryRun := false;
     FQDNPolicyEnabled := true; cfg_Features := features; FrontendTelemetryURL := "";
     DomainIngressClassMapping := [mkGateway ".nais.io" "nais-ingress";
                                   mkGateway ".dev.nais.io" "dev-ingress";
                                   mkGateway ".nais.io" "nais-ingress-b"];
     GoogleCloudSQLProxyContainerImage := "cloudsql:1"; GoogleProjectID := "google";
     HealthProbeBindAddress := ""; FullSyncInterval := 0; Kubeconfig := ""; LogFormat := ""; LogLevel := "";
     RatelimitQPS := 20; RatelimitBurst := 200;
     HostAliases := [mkConfigHostAlias "db.local" "10.0.0.9"]; ImagePullSecrets := ["gpr"];
     LeaderElectionImage := "elector:1"; MaxConcurrentReconciles := 1; NaisNamespace := "nais-system";
     cfg_Observability := mkObservability ["loki"]
       (mkOtel false (mkOtelCollector [] "" 4317 "grpc" "" false) false "" []);
     cfg_Proxy := mkProxy "" []; cfg_Synchronizer := mkSynchronizerConfig 0 0 5;
     TexasImage := "texas:1"; cfg_Vault := mkVault "https://vault" "vks:1" "/auth" "/kv";
     WonderwallImage := "wonderwall:1" |}.

Definition sample_config : Config := config_of sample_features.
Definition full_config : Config := config_of full_features.

(** ** Names: the vectors of source_test.go *)

Definition named_app (name ns : string) : Source :=
  mkSource app_gvk (sample_meta name ns "uid-1" []) KApplication sample_view emptyStatus.

Example hash_test_1 :
  CreateAppNamespaceHash (named_app "reallylongapplicationname" "evenlongernamespacename") =
  "reallylonga-evenlonger-siqwsiq".
Proof. vm_compute. reflexivity. Qed.
Example hash_test_2 :
  CreateAppNamespaceHash (named_app "reallylongafoo" "evenlongerbar") = "reallylonga-evenlonger-piuqbfq".
Proof. vm_compute. reflexivity. Qed.
Example hash_test_3 : CreateAppNamespaceHash (named_app "short" "name") = "short-name-hqb7npi".
Proof. vm_compute. reflexivity. Qed.

Lemma CreateAppNamespaceHash_legal_witness : service_account_name "short-name-hqb7npi".
Proof.
  refine (proj1 (CreateAppNamespaceHash_legal (named_app "short" "name") _ _ _));
    [reflexivity|reflexivity|by do 2 eexists].
Defined.

(** The entries of a map in the order of [map_to_list]. *)
Definition sample_range : MapRange := {| map_range A m := map_to_list m |}.

Lemma sample_range_laws : MapRangeLaws sample_range.
Proof. by intros A m. Qed.
