(* ===== verification/Pod.v ===== *)
(** * Pods

    Models [pkg/resourcecreator/pod] (pod.go, helpers.go, toleration.go): the
    environment, the files, the container of a workload, its pod specification
    with the hardened security context, and the pod metadata. The [Ast] is
    passed and returned; a run-time panic of the code is a [Panic] error. *)

From S2P Require Import Prelude GoStrings Kube Api Vendor Config Resource Samples.

Section pod.
Context `{L : Liberator} `{AM : ApiMachinery}.
Implicit Types (ast : Ast) (cfg : Options).

(** ** helpers.go *)

Definition FromFilesSecretVolumeWithMode (volumeName secretName : string) (items : list KeyToPath)
    (mode : option Z) : Volume :=
  mkVolume volumeName (VSecret secretName items mode).

Definition FromFilesSecretVolume (volumeName secretName : string) (items : list KeyToPath) : Volume :=
  FromFilesSecretVolumeWithMode volumeName secretName items None.

Definition FromFilesVolumeMount (name mountPath defaultMountPath : string) (readOnly : bool)
    : VolumeMount :=
  mkVolumeMount name readOnly
    (if bool_decide (slen mountPath = 0%nat) then defaultMountPath else mountPath) "".

Definition EnvFromSecret (name : string) : EnvFromSource := EnvSecretRef name.

Definition WithAdditionalSecret (secretName mountPath : string) ast : Ast :=
  AppendVolumes [FromFilesSecretVolume secretName secretName []]
    [FromFilesVolumeMount secretName "" mountPath true] ast.

Definition WithAdditionalEnvFromSecret (secretName : string) ast : Ast :=
  AppendEnvFrom [EnvFromSecret secretName] ast.

(** One of the two halves of [ResourceLimits]: a (cpu, memory) pair. *)
Definition resource_list (r : option (string * string)) : res error (gmap string Quantity) :=
  match r with
  | None => Ok ∅
  | Some (cpu, memory) =>
      mem ← MustParse memory;
      if bool_decide (0 < slen cpu)%nat then
        c ← MustParse cpu; Ok (<["cpu" := c]> {[ "memory" := mem ]})
      else Ok {[ "memory" := mem ]}
  end.

Definition ResourceLimits (reqs : NaisResources) : res error ResourceRequirements :=
  limits ← resource_list (nr_Limits reqs);
  requests ← resource_list (nr_Requests reqs);
  Ok (mkResources requests limits).

Definition AppClientID (source : Source) (cluster : string) : string :=
  cluster +:+ ":" +:+ GetNamespace source +:+ ":" +:+ GetName source.

Definition FromFilesPVCVolume (volumeName pvcName : string) : Volume :=
  mkVolume volumeName (VPersistentVolumeClaim pvcName false).

Definition naisMediumToStorageMedium (medium : string) : string :=
  if bool_decide (medium = MediumTypeMemory) then "Memory" else "".

Definition FilesFromEmptyDir (volumeName medium : string) : Volume :=
  mkVolume volumeName (VEmptyDir (naisMediumToStorageMedium medium)).

(** ** toleration.go *)

Definition NaisGarTolerationKey : string := "nais.io/gar".
Definition NaisGarNodeSelectorKey : string := "nais.io/gar-node-pool".
Definition GarImagePrefix : string := "europe-north1-docker.pkg.dev/".

Definition SetupTolerations cfg (image : string) : list Toleration :=
  if IsGARTolerationEnabled cfg && HasPrefix image GarImagePrefix
  then [mkToleration NaisGarTolerationKey "Equal" "true" "NoSchedule"]
  else [].

Definition nodeSelectorTerm (key value : string) : string * string * list string :=
  (key, "In", [value]).

Definition appAffinity (appName : string) : list (Z * string * string * list string * string) :=
  [(10%Z, "app", "In", [appName], "kubernetes.io/hostname")].

(** No tolerations are a nil slice in Go. *)
Definition ConfigureAffinity (appName : string) (tolerations : list Toleration) : Affinity :=
  match tolerations with
  | [] => mkAffinity None (appAffinity appName)
  | _ =>
      mkAffinity
        (Some (map (fun t => nodeSelectorTerm NaisGarNodeSelectorKey (tol_Value t))
                 (filter (fun t => tol_Key t = NaisGarTolerationKey) tolerations)))
        (appAffinity appName)
  end.

(** ** Security context *)

Definition runAsUser (annotations : gmap string string) : Z :=
  match annotations !! "nais.io/run-as-user" with
  | None => 1069
  | Some val => match Atoi val with Some uid => uid | None => 1069 end
  end.

Definition runAsGroup (annotations : gmap string string) : Z :=
  match annotations !! "nais.io/run-as-group" with
  | None => runAsUser annotations
  | Some val => match Atoi val with Some uid => uid | None => runAsUser annotations end
  end.

Definition readOnlyFileSystem (annotations : gmap string string) : bool :=
  match annotations !! "nais.io/read-only-file-system" with
  | None => true
  | Some val => bool_decide (ToLower val ≠ "false")
  end.

Definition DefaultContainerSecurityContext : SecurityContext :=
  {| sc_AllowPrivilegeEscalation := Some false; sc_Privileged := Some false;
     sc_ReadOnlyRootFilesystem := Some true; sc_RunAsNonRoot := Some true;
     sc_RunAsGroup := Some 1069%Z; sc_RunAsUser := Some 1069%Z; sc_CapabilitiesDrop := ["ALL"];
     sc_SeccompProfile := "RuntimeDefault" |}.

Definition configureSecurityContext (annotations : gmap string string) : SecurityContext :=
  let ctx := DefaultContainerSecurityContext in
  {| sc_AllowPrivilegeEscalation := sc_AllowPrivilegeEscalation ctx;
     sc_Privileged := sc_Privileged ctx;
     sc_ReadOnlyRootFilesystem := Some (readOnlyFileSystem annotations);
     sc_RunAsNonRoot := sc_RunAsNonRoot ctx;
     sc_RunAsGroup := Some (runAsGroup annotations);
     sc_RunAsUser := Some (runAsUser annotations);
     sc_CapabilitiesDrop := sc_CapabilitiesDrop ctx;
     sc_SeccompProfile := sc_SeccompProfile ctx |}.

(** ** Environment and files *)

Definition fromEnvConfigmap (name : string) : EnvFromSource := EnvConfigMapRef name.

Fixpoint envFrom (naisEnvFrom : list EnvFrom) ast : Ast :=
  match naisEnvFrom with
  | [] => ast
  | e :: es =>
      envFrom es
        (if bool_decide (0 < slen (ef_ConfigMap e))%nat
         then AppendEnvFrom [fromEnvConfigmap (ef_ConfigMap e)] ast
         else if bool_decide (0 < slen (ef_Secret e))%nat
         then AppendEnvFrom [EnvFromSecret (ef_Secret e)] ast
         else ast)
  end.

Definition fromFilesConfigmapVolume (volumeName configMapName : string) : Volume :=
  mkVolume volumeName (VConfigMap configMapName).

(** The loop of [filesFrom] with its four counters. *)
Fixpoint files_loop (files : list FilesFrom) (configs secrets persistence emptyDirs : Z) ast : Ast :=
  match files with
  | [] => ast
  | f :: fs =>
      if bool_decide (0 < slen (ff_ConfigMap f))%nat then
        let name := "config-" +:+ Itoa (configs + 1) in
        files_loop fs (configs + 1) secrets persistence emptyDirs
          (AppendVolumes [fromFilesConfigmapVolume name (ff_ConfigMap f)]
             [FromFilesVolumeMount name (ff_MountPath f) (GetDefaultMountPath (ff_ConfigMap f)) true] ast)
      else if bool_decide (0 < slen (ff_Secret f))%nat then
        let name := "secret-" +:+ Itoa (secrets + 1) in
        files_loop fs configs (secrets + 1) persistence emptyDirs
          (AppendVolumes [FromFilesSecretVolume name (ff_Secret f) []]
             [FromFilesVolumeMount name (ff_MountPath f) DefaultSecretMountPath true] ast)
      else if bool_decide (0 < slen (ff_PersistentVolumeClaim f))%nat then
        let name := "pvc-" +:+ Itoa (persistence + 1) in
        files_loop fs configs secrets (persistence + 1) emptyDirs
          (AppendVolumes [FromFilesPVCVolume name (ff_PersistentVolumeClaim f)]
             [FromFilesVolumeMount name (ff_MountPath f)
                (GetDefaultPVCMountPath (ff_PersistentVolumeClaim f)) false] ast)
      else
        match ff_EmptyDir f with
        | Some medium =>
            if bool_decide (0 < slen (ff_MountPath f))%nat then
              let name := "emptydir-" +:+ Itoa (emptyDirs + 1) in
              files_loop fs configs secrets persistence (emptyDirs + 1)
                (AppendVolumes [FilesFromEmptyDir name medium]
                   [FromFilesVolumeMount name (ff_MountPath f) (ff_MountPath f) false] ast)
            else files_loop fs configs secrets persistence emptyDirs ast
        | None => files_loop fs configs secrets persistence emptyDirs ast
        end
  end%Z.

Definition filesFrom (naisFilesFrom : list FilesFrom) ast : Ast :=
  files_loop naisFilesFrom 0 0 0 0 ast.

Definition defaultEnvVars (source : Source) cfg (appImage : string) : list EnvVar :=
  let port := if bool_decide (v_Port (src_View source) = 0%Z) then "8080"
              else Itoa (v_Port (src_View source)) in
  let googleTeamProjectID := GetGoogleTeamProjectID cfg in
  [ env "NAIS_APP_NAME" (GetName source);
    env "NAIS_NAMESPACE" (GetNamespace source);
    env "NAIS_APP_IMAGE" appImage;
    env "NAIS_CLUSTER_NAME" (GetClusterName cfg);
    env "NAIS_CLIENT_ID" (AppClientID source (GetClusterName cfg));
    mkEnvVar "NAIS_POD_NAME" "" (Some (FieldRef "metadata.name"));
    env "LOG4J_FORMAT_MSG_NO_LOOKUPS" "true";
    env "PORT" port;
    env "BIND_ADDRESS" ("0.0.0.0:" +:+ port) ] ++
  (if bool_decide (0 < slen googleTeamProjectID)%nat
   then [ env "GOOGLE_CLOUD_PROJECT" googleTeamProjectID;
          env "GCP_TEAM_PROJECT_ID" googleTeamProjectID ]
   else []).

Definition CreateContainerEnvVars (app : Source) cfg ast : Ast :=
  AppendEnv (v_Env (src_View app)) (AppendEnv (defaultEnvVars app cfg (GetEffectiveImage app)) ast).

(** ** Probes and life cycle *)

Definition leadingSlash (s : string) : string := if HasPrefix s "/" then s else "/" +:+ s.

Definition probe (appPort : Z) (p : NaisProbe) : Probe :=
  let port := if bool_decide (nprobe_Port p = 0%Z) then appPort else nprobe_Port p in
  {| pr_Handler := HandlerHTTPGet (leadingSlash (nprobe_Path p)) (FromInt port);
     pr_InitialDelaySeconds := int32 (nprobe_InitialDelay p);
     pr_PeriodSeconds := int32 (nprobe_PeriodSeconds p);
     pr_FailureThreshold := int32 (nprobe_FailureThreshold p);
     pr_TimeoutSeconds := int32 (nprobe_Timeout p) |}.

(** The probe of a container, absent without a path. *)
Definition optional_probe (appPort : Z) (p : option NaisProbe) : option Probe :=
  match p with
  | Some p => if bool_decide (0 < slen (nprobe_Path p))%nat then Some (probe appPort p) else None
  | None => None
  end.

Definition defaultPreStopHook : HandlerAction := HandlerSleep 5.

Definition lifecycle (preStopHookPath : string) (preStopHook : option PreStopHook)
    : res error HandlerAction :=
  if bool_decide (0 < slen preStopHookPath)%nat && bool_decide (is_Some preStopHook)
  then Err (Errorf "can only use one of spec.preStopHookPath or spec.preStopHook")
  else if bool_decide (0 < slen preStopHookPath)%nat
  then Ok (HandlerHTTPGet (TrimLeft1 preStopHookPath "/") (FromString DefaultPortName))
  else match preStopHook with
       | None => Ok defaultPreStopHook
       | Some h =>
           match psh_Exec h, psh_Http h with
           | Some _, Some _ =>
               Err (Errorf "can only use one type of preStopHook, either exec or http")
           | Some command, None => Ok (HandlerExec command)
           | None, Some (path, None) => Ok (HandlerHTTPGet path (FromString DefaultPortName))
           | None, Some (path, Some port) => Ok (HandlerHTTPGet path (FromInt port))
           | None, None => Err (Panic "nil pointer dereference")
           end
       end.

(** ** Containers *)

(** The ports of the app container: the app port and, with the Prometheus
    operator, a metrics port of its own. *)
Definition app_ports (app : Source) cfg : res error (list ContainerPort) :=
  let v := src_View app in
  let ports := [mkContainerPort DefaultPortName (int32 (v_Port v)) "TCP"] in
  if IsPrometheusOperatorEnabled cfg && bool_decide (pc_Port (v_Prometheus v) ≠ "") then
    match ParseInt10 (pc_Port (v_Prometheus v)) 32 with
    | None => Err (Errorf "invalid port provided, unable to convert to int32")
    | Some promPort =>
        if bool_decide (promPort ≠ 0%Z) && bool_decide (promPort ≠ v_Port v)
        then Ok (ports ++ [mkContainerPort "metrics" promPort "TCP"])
        else Ok ports
    end
  else Ok ports.

Definition CreateAppContainer (app : Source) cfg ast : res error Ast :=
  let v := src_View app in
  let ast := envFrom (v_EnvFrom v) (filesFrom (v_FilesFrom v) ast) in
  hook ← lifecycle (v_PreStopHookPath v) (v_PreStopHook v);
  ports ← app_ports app cfg;
  resources ← ResourceLimits (v_Resources v);
  Ok (AppendContainers
        [{| c_Name := GetName app; c_Image := GetEffectiveImage app; c_Command := v_Command v;
            c_Args := []; c_Ports := ports; c_Resources := resources;
            c_ImagePullPolicy := "IfNotPresent"; c_Lifecycle := Some hook; c_Env := ast_Env ast;
            c_EnvFrom := ast_EnvFrom ast; c_VolumeMounts := ast_VolumeMounts ast;
            c_LivenessProbe := optional_probe (v_Port v) (v_Liveness v);
            c_ReadinessProbe := optional_probe (v_Port v) (v_Readiness v);
            c_StartupProbe := optional_probe (v_Port v) (v_Startup v);
            c_SecurityContext := None; c_RestartPolicy := None |}] ast).

Definition CreateNaisjobContainer (naisjob : Source) cfg ast : res error Ast :=
  let v := src_View naisjob in
  let ast := envFrom (v_EnvFrom v) (filesFrom (v_FilesFrom v) ast) in
  hook ← lifecycle "" (v_PreStopHook v);
  resources ← ResourceLimits (v_Resources v);
  Ok (AppendContainers
        [{| c_Name := GetName naisjob; c_Image := GetEffectiveImage naisjob; c_Command := v_Command v;
            c_Args := []; c_Ports := []; c_Resources := resources;
            c_ImagePullPolicy := "IfNotPresent"; c_Lifecycle := Some hook; c_Env := ast_Env ast;
            c_EnvFrom := ast_EnvFrom ast; c_VolumeMounts := ast_VolumeMounts ast;
            c_LivenessProbe := None; c_ReadinessProbe := None; c_StartupProbe := None;
            c_SecurityContext := None; c_RestartPolicy := None |}] ast).

(** ** Pod specification *)

Definition emptyContainer : Container :=
  {| c_Name := ""; c_Image := ""; c_Command := []; c_Args := []; c_Ports := [];
     c_Resources := mkResources ∅ ∅; c_ImagePullPolicy := ""; c_Lifecycle := None; c_Env := [];
     c_EnvFrom := []; c_VolumeMounts := []; c_LivenessProbe := None; c_ReadinessProbe := None;
     c_StartupProbe := None; c_SecurityContext := None; c_RestartPolicy := None |}.

(** The loop of [reorderContainers] from index [i] on; writing past the end of
    the new slice panics. *)
Fixpoint reorder_loop (appName : string) (containers : list Container) (i delta : nat)
    (reordered : list Container) : res error (list Container) :=
  match containers with
  | [] => Ok reordered
  | c :: cs =>
      if bool_decide (c_Name c = appName)
      then reorder_loop appName cs (S i) 0 (<[0%nat := c]> reordered)
      else if bool_decide (i + delta < length reordered)%nat
      then reorder_loop appName cs (S i) delta (<[(i + delta)%nat := c]> reordered)
      else Err (Panic "index out of range")
  end.

Definition reorderContainers (appName : string) (containers : list Container)
    : res error (list Container) :=
  reorder_loop appName containers 0 1 (replicate (length containers) emptyContainer).

Definition hostAliases cfg : list HostAlias :=
  map (fun a => mkHostAlias [cha_Host a] (cha_Address a)) (GetHostAliases cfg).

Definition imagePullSecrets cfg : list string := GetImagePullSecrets cfg.

Definition with_tmp_mount (c : Container) (annotations : gmap string string) : Container :=
  {| c_Name := c_Name c; c_Image := c_Image c; c_Command := c_Command c; c_Args := c_Args c;
     c_Ports := c_Ports c; c_Resources := c_Resources c; c_ImagePullPolicy := c_ImagePullPolicy c;
     c_Lifecycle := c_Lifecycle c; c_Env := c_Env c; c_EnvFrom := c_EnvFrom c;
     c_VolumeMounts := c_VolumeMounts c ++ [mkVolumeMount "writable-tmp" false "/tmp" ""];
     c_LivenessProbe := c_LivenessProbe c; c_ReadinessProbe := c_ReadinessProbe c;
     c_StartupProbe := c_StartupProbe c;
     c_SecurityContext := Some (configureSecurityContext annotations);
     c_RestartPolicy := c_RestartPolicy c |}.

Definition CreateSpec ast cfg (appName : string) (annotations : gmap string string)
    (restartPolicy : string) (terminationGracePeriodSeconds : option Z) : res error PodSpec :=
  match ast_Containers ast with
  | [] => Ok emptyPodSpec
  | _ =>
      containers ← reorderContainers appName (ast_Containers ast);
      match containers with
      | [] => Err (Panic "index out of range")
      | c0 :: cs =>
          let tolerations := SetupTolerations cfg (c_Image c0) in
          Ok {| ps_InitContainers := ast_InitContainers ast;
                ps_Containers := with_tmp_mount c0 annotations :: cs;
                ps_ServiceAccountName := appName;
                ps_RestartPolicy := restartPolicy;
                ps_DNSPolicy := "ClusterFirst";
                ps_Volumes := ast_Volumes ast ++ [mkVolume "writable-tmp" (VEmptyDir "")];
                ps_ImagePullSecrets := imagePullSecrets cfg;
                ps_TerminationGracePeriodSeconds := terminationGracePeriodSeconds;
                ps_Affinity := Some (ConfigureAffinity appName tolerations);
                ps_Tolerations := tolerations;
                ps_FSGroup := Some 1069%Z;
                ps_FSGroupChangePolicy := "OnRootMismatch";
                ps_SeccompProfile := "RuntimeDefault";
                ps_HostAliases := if bool_decide (0 < length (GetHostAliases cfg))%nat
                                  then hostAliases cfg else [] |}
      end
  end.

(** ** Pod metadata *)

(** The pod metadata shares its annotation map with the [Ast], so the entries
    added here are in both. *)
Definition CreateAppObjectMeta (app : Source) ast cfg : ObjectMeta * Ast :=
  let prom := v_Prometheus (src_View app) in
  let objectMeta := CreateObjectMeta app in
  let labels := maps_copy (default ∅ (Labels objectMeta)) (ast_Labels ast) in
  let port := if bool_decide (slen (pc_Port prom) = 0%nat) then Itoa (v_Port (src_View app))
              else pc_Port prom in
  let annotations := <["kubectl.kubernetes.io/default-container" := GetName app]>
                       (ast_Annotations ast) in
  let annotations :=
    if IsGCPEnabled cfg then <["cluster-autoscaler.kubernetes.io/safe-to-evict" := "true"]> annotations
    else annotations in
  let annotations :=
    if pc_Enabled prom then
      <["prometheus.io/path" := pc_Path prom]>
        (<["prometheus.io/port" := port]> (<["prometheus.io/scrape" := "true"]> annotations))
    else annotations in
  (SetAnnotations (Some annotations) (SetLabels (Some labels) objectMeta),
   SetAstAnnotations annotations ast).

Definition CreateNaisjobObjectMeta (naisjob : Source) ast cfg : ObjectMeta * Ast :=
  let objectMeta := CreateObjectMeta naisjob in
  let labels := maps_copy (default ∅ (Labels objectMeta)) (ast_Labels ast) in
  let annotations := <["kubectl.kubernetes.io/default-container" := GetName naisjob]>
                       (ast_Annotations ast) in
  (SetAnnotations (Some annotations)
     (SetLabels (Some (<["nais.io/naisjob" := "true"]> labels)) objectMeta),
   SetAstAnnotations annotations ast).
End pod.

(** ** Lemmas *)

Section reorder_lemmas.
Implicit Types (cs pre post : list Container).

(** Before the app container is seen every container moves one place up. *)
Lemma reorder_before appName pre rest i r :
  (∀ c, c ∈ pre → c_Name c ≠ appName) → (i + 1 + length pre ≤ length r)%nat →
  reorder_loop appName (pre ++ rest) i 1 r =
  reorder_loop appName rest (i + length pre) 1 (take (i + 1) r ++ pre ++ drop (i + 1 + length pre) r).
Proof.
  revert i r. induction pre as [|c pre IH]; intros i r Hpre Hlen; simpl in *.
  - by rewrite Nat.add_0_r, Nat.add_0_r, take_drop.
  - rewrite bool_decide_eq_false_2 by (apply Hpre; by left).
    rewrite bool_decide_eq_true_2 by lia.
    rewrite IH; [|set_solver|rewrite length_insert; lia].
    f_equal; [lia|]. rewrite (take_S_r _ (i + 1) c).
    2: { replace (i + 1)%nat with (S i) by lia. apply list_lookup_insert_eq. lia. }
    rewrite take_insert_ge, drop_insert_lt by lia.
    replace (S i + 1 + length pre)%nat with (i + 1 + S (length pre))%nat by lia.
    by rewrite <-app_assoc.
Qed.

(** After it every container keeps its place. *)
Lemma reorder_after appName post i r :
  (∀ c, c ∈ post → c_Name c ≠ appName) → (i + length post ≤ length r)%nat →
  reorder_loop appName post i 0 r = Ok (take i r ++ post ++ drop (i + length post) r).
Proof.
  revert i r. induction post as [|c post IH]; intros i r Hpost Hlen; simpl in *.
  - by rewrite Nat.add_0_r, take_drop.
  - rewrite bool_decide_eq_false_2 by (apply Hpost; by left).
    rewrite Nat.add_0_r, bool_decide_eq_true_2 by lia.
    rewrite IH; [|set_solver|rewrite length_insert; lia].
    f_equal. rewrite (take_S_r _ i c) by (apply list_lookup_insert_eq; lia).
    rewrite take_insert_ge, drop_insert_lt by lia.
    replace (S i + length post)%nat with (i + S (length post))%nat by lia.
    by rewrite <-app_assoc.
Qed.
Lemma reorder_unique appName pre app post :
  c_Name app = appName → (∀ c, c ∈ pre ++ post → c_Name c ≠ appName) →
  reorderContainers appName (pre ++ app :: post) = Ok (app :: pre ++ post).
Proof.
  intros Happ Hne. unfold reorderContainers.
  set (r := replicate _ _). assert (Hr : length r = S (length pre + length post)).
  { subst r. rewrite length_replicate, length_app. simpl. lia. }
  rewrite reorder_before by (set_solver || lia). cbn [reorder_loop].
  rewrite bool_decide_eq_true_2 by done. simpl.
  destruct r as [|x r]; [done|]. simpl in *.
  rewrite reorder_after; [|set_solver|simpl; rewrite length_app, length_drop; lia].
  simpl. do 2 f_equal. rewrite take_app_length. f_equal.
  rewrite drop_ge; [by rewrite app_nil_r|]. rewrite length_app, length_drop. lia.
Qed.
End reorder_lemmas.

Section files_lemmas.
Context `{L : Liberator}.

Lemma AppendVolumes_app vs ms vs' ms' ast :
  AppendVolumes vs' ms' (AppendVolumes vs ms ast) = AppendVolumes (vs ++ vs') (ms ++ ms') ast.
Proof. unfold AppendVolumes. simpl. by rewrite <-!app_assoc. Qed.

Lemma AppendVolumes_nil ast : AppendVolumes [] [] ast = ast.
Proof. destruct ast. unfold AppendVolumes. simpl. by rewrite !app_nil_r. Qed.

(** The names the loop of [filesFrom] gives to volumes from its counters on. *)
Definition file_name (c s p e : Z) (n : string) : Prop :=
  (∃ k, (c < k)%Z ∧ n = "config-" +:+ Itoa k) ∨ (∃ k, (s < k)%Z ∧ n = "secret-" +:+ Itoa k) ∨
  (∃ k, (p < k)%Z ∧ n = "pvc-" +:+ Itoa k) ∨ (∃ k, (e < k)%Z ∧ n = "emptydir-" +:+ Itoa k).

Lemma file_name_mono c s p e c' s' p' e' n :
  (c ≤ c')%Z → (s ≤ s')%Z → (p ≤ p')%Z → (e ≤ e')%Z → file_name c' s' p' e' n → file_name c s p e n.
Proof.
  intros ???? [(k & ? & ->)|[(k & ? & ->)|[(k & ? & ->)|(k & ? & ->)]]];
    [left|right; left|right; right; left|right; right; right]; exists k; (split; [lia|done]).
Qed.

(** A name that was just given is not given again. *)
Lemma file_name_fresh c s p e pre k :
  (0 ≤ c)%Z → (0 ≤ s)%Z → (0 ≤ p)%Z → (0 ≤ e)%Z → (0 ≤ k)%Z →
  (pre = "config-" ∧ (k ≤ c)%Z ∨ pre = "secret-" ∧ (k ≤ s)%Z ∨
   pre = "pvc-" ∧ (k ≤ p)%Z ∨ pre = "emptydir-" ∧ (k ≤ e)%Z) →
  ¬ file_name c s p e (pre +:+ Itoa k).
Proof.
  intros ????? Hpre [(j & ? & Hj)|[(j & ? & Hj)|[(j & ? & Hj)|(j & ? & Hj)]]];
    destruct_or! Hpre; destruct Hpre as [-> ?]; try discriminate Hj;
    apply sapp_inj_l, Itoa_inj in Hj; lia.
Qed.

Lemma files_loop_spec fs c s p e ast :
  (0 ≤ c)%Z → (0 ≤ s)%Z → (0 ≤ p)%Z → (0 ≤ e)%Z →
  ∃ vs ms, files_loop fs c s p e ast = AppendVolumes vs ms ast ∧
    map vol_Name vs = map vm_Name ms ∧ NoDup (map vol_Name vs) ∧
    Forall (file_name c s p e) (map vol_Name vs).
Proof.
  revert c s p e ast. induction fs as [|f fs IH]; intros c s p e ast ????.
  { exists [], []. rewrite AppendVolumes_nil. split_and!; [done|done|constructor|constructor]. }
  assert (Hgo : ∀ c' s' p' e' v m pre k,
    (c ≤ c')%Z → (s ≤ s')%Z → (p ≤ p')%Z → (e ≤ e')%Z → (0 ≤ k)%Z →
    vol_Name v = pre +:+ Itoa k → vm_Name m = pre +:+ Itoa k →
    file_name c s p e (pre +:+ Itoa k) → ¬ file_name c' s' p' e' (pre +:+ Itoa k) →
    ∃ vs ms, files_loop fs c' s' p' e' (AppendVolumes [v] [m] ast) = AppendVolumes vs ms ast ∧
      map vol_Name vs = map vm_Name ms ∧ NoDup (map vol_Name vs) ∧
      Forall (file_name c s p e) (map vol_Name vs)).
  { intros c' s' p' e' v m pre k ????? Hv Hm Hin Hnot.
    destruct (IH c' s' p' e' (AppendVolumes [v] [m] ast)) as (vs & ms & -> & Heq & Hnd & Hall);
      [lia..|]. exists (v :: vs), (m :: ms). rewrite AppendVolumes_app. simpl.
    split_and!; [done|congruence| |].
    - constructor; [|done]. rewrite Hv. intros Hv'.
      by apply Hnot, (proj1 (Forall_forall _ _) Hall).
    - constructor; [by rewrite Hv|]. eapply Forall_impl; [exact Hall|]. intros n.
      by apply file_name_mono. }
  cbn [files_loop]. repeat case_match; try (by apply IH).
  - eapply (Hgo (c + 1)%Z s p e _ _ "config-" (c + 1)%Z); [lia..|done|done| |].
    + left. exists (c + 1)%Z. split; [lia|done].
    + apply file_name_fresh; lia || (left; split; [done|lia]).
  - eapply (Hgo c (s + 1)%Z p e _ _ "secret-" (s + 1)%Z); [lia..|done|done| |].
    + right; left. exists (s + 1)%Z. split; [lia|done].
    + apply file_name_fresh; lia || (right; left; split; [done|lia]).
  - eapply (Hgo c s (p + 1)%Z e _ _ "pvc-" (p + 1)%Z); [lia..|done|done| |].
    + right; right; left. exists (p + 1)%Z. split; [lia|done].
    + apply file_name_fresh; lia || (right; right; left; split; [done|lia]).
  - eapply (Hgo c s p (e + 1)%Z _ _ "emptydir-" (e + 1)%Z); [lia..|done|done| |].
    + right; right; right. exists (e + 1)%Z. split; [lia|done].
    + apply file_name_fresh; lia || (right; right; right; split; [done|lia]).
Qed.
End files_lemmas.

(** ** Properties *)

(** The app container comes first: when exactly one container carries the
    app's name, reorderContainers moves it to the front and keeps the order of
    all the others; when there are containers but none carries the name, it
    panics. *)
Lemma reorderContainers_app_first appName :
  (∀ pre app post, c_Name app = appName → (∀ c, c ∈ pre ++ post → c_Name c ≠ appName) →
     reorderContainers appName (pre ++ app :: post) = Ok (app :: pre ++ post)) ∧
  (∀ cs, cs ≠ [] → (∀ c, c ∈ cs → c_Name c ≠ appName) → is_panic (reorderContainers appName cs) = true).
Proof.
  split; [intros; by apply reorder_unique|].
  intros cs Hcs Hne. unfold reorderContainers.
  destruct (exists_last Hcs) as (pre & c & ->).
  rewrite reorder_before by (set_solver || (rewrite length_replicate, length_app; simpl; lia)).
  cbn [reorder_loop]. rewrite bool_decide_eq_false_2 by (apply Hne; set_solver).
  rewrite bool_decide_eq_false_2; [done|].
  rewrite !length_app, length_take, length_drop, length_replicate.
  change (length [c]) with 1%nat. lia.
Qed.

(** Every mounted file source gets a volume of its own: filesFrom adds
    volumes and mounts pairwise, the mount naming its volume, and no two of the
    added volumes share a name. *)
Lemma filesFrom_mounts `{L : Liberator} fs ast :
  ∃ vs ms, filesFrom fs ast = AppendVolumes vs ms ast ∧
    map vol_Name vs = map vm_Name ms ∧ NoDup (map vol_Name vs).
Proof.
  destruct (files_loop_spec fs 0 0 0 0 ast) as (vs & ms & ? & ? & ? & _); [lia..|].
  by exists vs, ms.
Qed.

(** The container security rules of the platform. *)
Definition hardened (readOnly : bool) (sc : SecurityContext) : Prop :=
  sc_AllowPrivilegeEscalation sc = Some false ∧ sc_Privileged sc = Some false ∧
  sc_RunAsNonRoot sc = Some true ∧ sc_CapabilitiesDrop sc = ["ALL"] ∧
  sc_SeccompProfile sc = "RuntimeDefault" ∧ sc_ReadOnlyRootFilesystem sc = Some readOnly.

(** C17. Every generated pod is hardened: CreateSpec succeeds whenever exactly
    one container carries the app's name, puts that container first under the
    platform's security context (whose root file system is read-only unless an
    annotation says false), gives it a writable /tmp backed by a volume of the
    pod, and leaves the other containers as they are, in order. *)
Theorem CreateSpec_hardened ast cfg appName annotations restartPolicy grace pre app post :
  ast_Containers ast = pre ++ app :: post → c_Name app = appName →
  (∀ c, c ∈ pre ++ post → c_Name c ≠ appName) →
  ∃ spec c sc readOnly, CreateSpec ast cfg appName annotations restartPolicy grace = Ok spec ∧
    ps_Containers spec = c :: pre ++ post ∧
    c_Name c = appName ∧ c_Image c = c_Image app ∧ c_Env c = c_Env app ∧
    c_SecurityContext c = Some sc ∧
    hardened readOnly sc ∧
    (readOnly = false ↔ ∃ v, annotations !! "nais.io/read-only-file-system" = Some v ∧
                             ToLower v = "false") ∧
    (∃ m v, m ∈ c_VolumeMounts c ∧ v ∈ ps_Volumes spec ∧ vm_MountPath m = "/tmp" ∧
            vm_Name m = vol_Name v ∧ vol_Source v = VEmptyDir "") ∧
    ps_RestartPolicy spec = restartPolicy ∧ ps_ServiceAccountName spec = appName.
Proof.
  intros Hcs Happ Hne. unfold CreateSpec. rewrite Hcs.
  destruct (pre ++ app :: post) as [|c0 cs0] eqn:E; [by destruct pre|]. rewrite <-E.
  rewrite reorder_unique by done. simpl.
  do 3 eexists. exists (readOnlyFileSystem annotations). split_and!; [done..| | |done|done].
  - unfold readOnlyFileSystem. destruct (annotations !! _) as [v|]; [|naive_solver].
    rewrite bool_decide_eq_false. split; [intros ?%dec_stable; eauto|]. intros (? & ? & ?) ?.
    naive_solver.
  - do 2 eexists. simpl. split_and!; [apply elem_of_app; right; by left..|done|done|done].
Qed.

(** ** Witnesses and examples *)

Definition named_container (name : string) : Container :=
  with_tmp_mount
    {| c_Name := name; c_Image := "repo/" +:+ name; c_Command := []; c_Args := []; c_Ports := [];
       c_Resources := mkResources ∅ ∅; c_ImagePullPolicy := ""; c_Lifecycle := None; c_Env := [];
       c_EnvFrom := []; c_VolumeMounts := []; c_LivenessProbe := None; c_ReadinessProbe := None;
       c_StartupProbe := None; c_SecurityContext := None; c_RestartPolicy := None |} ∅.

Lemma CreateSpec_hardened_witness :
  ∃ spec, CreateSpec
      (AppendContainers [named_container "sidecar"; named_container "myapp"; named_container "extra"] NewAst)
      (newOptions sample_config) "myapp" ∅ "Always" None = Ok spec ∧
    map c_Name (ps_Containers spec) = ["myapp"; "sidecar"; "extra"].
Proof.
  destruct (CreateSpec_hardened
      (AppendContainers [named_container "sidecar"; named_container "myapp"; named_container "extra"] NewAst)
      (newOptions sample_config) "myapp" ∅ "Always" None
      [named_container "sidecar"] (named_container "myapp") [named_container "extra"])
    as (spec & c & sc & ro & Hspec & Hcs & Hname & _); [reflexivity|reflexivity| |].
  - intros c Hc. apply list_elem_of_In in Hc. destruct Hc as [<-|[<-|[]]]; discriminate.
  - exists spec. split; [exact Hspec|]. rewrite Hcs. simpl. by rewrite Hname.
Defined.

(** A pre-stop hook with neither an exec nor an http part is dereferenced. *)
Example empty_pre_stop_hook_panics :
  is_panic (lifecycle (L := sample_liberator) "" (Some (mkPreStopHook None None))) = true.
Proof. reflexivity. Qed.
