(* ===== verification/Observability.v ===== *)
(** * Observability: OpenTelemetry, log labels, frontend telemetry, pod monitors

    Models [pkg/resourcecreator/observability], [frontend] and [podmonitor]. *)

From S2P Require Import Prelude GoStrings Kube Api Vendor Config Resource Creators Samples Pod.

(** ** observability *)

Definition otelServiceName : string := "OTEL_SERVICE_NAME".
Definition otelResourceAttributes : string := "OTEL_RESOURCE_ATTRIBUTES".
Definition otelExporterEndpoint : string := "OTEL_EXPORTER_OTLP_ENDPOINT".
Definition otelExporterProtocol : string := "OTEL_EXPORTER_OTLP_PROTOCOL".
Definition otelExporterInsecure : string := "OTEL_EXPORTER_OTLP_INSECURE".

Definition logLabelDefault : string := "logs.nais.io/flow-default".
Definition logLabelPrefix : string := "logs.nais.io/flow-".

Definition otelEndpointFromConfig (collector : OtelCollector) : string :=
  (if otc_TLS collector then "https" else "http") +:+ "://" +:+ otc_Service collector +:+ "." +:+
  otc_Namespace collector +:+ ":" +:+ Itoa (otc_Port collector).

(** Attributes the user cannot set. *)
Definition reservedAttributes : list string := ["service.name"; "service.namespace"; "nais.backend"].

(** A [key=value] text with an unreserved key. *)
Definition user_attribute (kv : string) : bool :=
  match Split1 kv "=" with
  | [key; _] => negb (bool_decide (key ∈ reservedAttributes))
  | _ => false
  end.

(** The user-defined attributes of one environment variable. *)
Definition env_attributes (e : EnvVar) : list string :=
  if bool_decide (ev_Name e = otelResourceAttributes)
  then filter (fun kv => user_attribute kv = true) (Split1 (ev_Value e) ",") else [].

Definition otelAttributes (name namespace : string) (env : list EnvVar) (destinations : list string)
    : string :=
  let attributes := "service.name=" +:+ name +:+ ",service.namespace=" +:+ namespace in
  let attributes :=
    match destinations with
    | [] => attributes
    | _ => attributes +:+ ",nais.backend=" +:+ Join (foldr insert_sorted [] destinations) ";"
    end in
  foldl (fun attributes kv => attributes +:+ "," +:+ kv) attributes (mjoin (map env_attributes env)).

Definition otel_names : list string :=
  [otelServiceName; otelResourceAttributes; otelExporterEndpoint; otelExporterProtocol;
   otelExporterInsecure].

Definition otelFilterEnvVars (env : list EnvVar) : list EnvVar :=
  filter (fun e => ev_Name e ∉ otel_names) env.

Definition OtelEnvVars (name namespace : string) (vars : list EnvVar) (destinations : list string)
    (otel : Otel) : list EnvVar :=
  otelFilterEnvVars vars ++
  [ env otelServiceName name;
    env otelResourceAttributes (otelAttributes name namespace vars destinations);
    env otelExporterEndpoint (otelEndpointFromConfig (otel_Collector otel));
    env otelExporterProtocol (otc_Protocol (otel_Collector otel));
    env otelExporterInsecure (FormatBool (negb (otc_TLS (otel_Collector otel)))) ].

Definition otelAutoInstrumentationDestinations (auto : AutoInstrumentation) (otel : Otel)
    : res error (list string) :=
  match filter (fun id => id ∉ otel_Destinations otel) (ai_Destinations auto) with
  | [] => Ok (ai_Destinations auto)
  | id :: _ => Err (Errorf ("auto-instrumentation destination " +:+ quoted id +:+
                            " does not exist in cluster"))
  end.

Definition otelAutoInstrumentAnnotations (name : string) (auto : AutoInstrumentation) (otel : Otel)
    : gmap string string :=
  {[ "instrumentation.opentelemetry.io/inject-" +:+ ai_Runtime auto := otel_AppConfig otel;
     "instrumentation.opentelemetry.io/container-names" := name ]}.

Definition netpolLabelsFromCollectorConfig (collector : OtelCollector) : gmap string string :=
  foldl (fun m label => match Split1 label "=" with [k; v] => <[k := v]> m | _ => m end)
    ∅ (otc_Labels collector).

(** One destination of [logLabels]. *)
Definition add_log_label (known : list string) (labels : gmap string string) (id : string)
    : res error (gmap string string) :=
  if bool_decide (id ∉ known)
  then Err (Errorf ("logging destination " +:+ quoted id +:+ " does not exist in cluster"))
  else Ok (<[logLabelPrefix +:+ id := "true"]> labels).

Definition logLabels (logging : NaisLogging) (known : list string) : res error (gmap string string) :=
  if negb (nl_Enabled logging) then Ok {[ logLabelDefault := "false" ]}
  else match nl_Destinations logging with
       | [] => Ok ∅
       | destinations => res_foldl (add_log_label known) {[ logLabelDefault := "false" ]} destinations
       end.

Section observability.
Context `{L : Liberator}.
Implicit Types (source : Source) (cfg : Options).

Definition otelNetpol source (otel : Otel) : res error Object :=
  name ← ShortName (GetName source +:+ "-" +:+ "tracing") 63;
  Ok (mkObject (mkGVK "networking.k8s.io" "v1" "NetworkPolicy") (SetName name (CreateObjectMeta source))
        (BNetworkPolicy
          {| nps_PodSelector := mkSelector {[ "app" := GetName source ]};
             nps_PolicyTypes := ["Egress"];
             nps_Ingress := [];
             nps_Egress :=
               [mkNetpolRule
                  [mkPeer (Some (mkSelector (netpolLabelsFromCollectorConfig (otel_Collector otel))))
                     (Some (mkSelector {[ "kubernetes.io/metadata.name" :=
                                            otc_Namespace (otel_Collector otel) ]})) None]
                  [mkNetpolPort (Some "TCP") (Some (IntVal (int32 (otc_Port (otel_Collector otel)))))]] |})).

Definition tracing_enabled (obs : NaisObservability) : bool := bool_decide (no_Tracing obs = Some true).

Definition auto_enabled (obs : NaisObservability) : option AutoInstrumentation :=
  match no_AutoInstrumentation obs with
  | Some auto => if ai_Enabled auto then Some auto else None
  | None => None
  end.

(** The branch of [Create] for tracing and auto-instrumentation. *)
Definition otel_Create source (obs : NaisObservability) (otel : Otel) (ast : Ast) : res error Ast :=
  if negb (otel_Enabled otel) then Err (Errorf "opentelemetry is not supported for this cluster")
  else if negb (otel_AutoInstrumentationEnabled otel) && bool_decide (is_Some (auto_enabled obs))
  then Err (Errorf "auto-instrumentation is not supported for this cluster")
  else
    netpol ← otelNetpol source otel;
    '(destinations, ast) ←
      match auto_enabled obs with
      | Some auto =>
          destinations ← otelAutoInstrumentationDestinations auto otel;
          Ok (destinations,
              CopyAstAnnotations (otelAutoInstrumentAnnotations (GetName source) auto otel) ast)
      | None => Ok ([], ast)
      end;
    let ast := SetAstEnv (OtelEnvVars (GetName source) (GetNamespace source) (ast_Env ast)
                            destinations otel) ast in
    Ok (AppendOperation OperationCreateOrUpdate netpol ast).

Definition observability_Create source (ast : Ast) cfg : res error Ast :=
  match v_Observability (v_Platform (src_View source)) with
  | None => Ok ast
  | Some obs =>
      let c := GetObservability cfg in
      let auto := bool_decide (is_Some (auto_enabled obs)) in
      if auto && tracing_enabled obs
      then Err (Errorf "auto-instrumentation and tracing cannot be enabled at the same time")
      else
        ast ← (if tracing_enabled obs || auto then otel_Create source obs (obs_Otel c) ast else Ok ast);
        match no_Logging obs with
        | None => Ok ast
        | Some logging =>
            labels ← logLabels logging (obs_LoggingDestinations c);
            Ok (CopyAstLabels labels ast)
        end
  end.

(** ** frontend *)

Definition configFileName : string := "nais.js".
Definition frontend_volumeName : string := "frontend-config".

Definition nl : string := String (ascii_of_nat 10) "".
Definition tab : string := String (ascii_of_nat 9) "".

(** [fmt.Sprintf(naisJsTemplate, telemetryURL, name, version)] *)
Definition naisJsTemplate (telemetryURL name version : string) : string :=
  nl +:+ "export default {" +:+ nl +:+
  tab +:+ "telemetryCollectorURL: '" +:+ telemetryURL +:+ "'," +:+ nl +:+
  tab +:+ "app: {" +:+ nl +:+
  tab +:+ tab +:+ "name: '" +:+ name +:+ "'," +:+ nl +:+
  tab +:+ tab +:+ "version: '" +:+ version +:+ "'" +:+ nl +:+
  tab +:+ "}" +:+ nl +:+ "};" +:+ nl.

Definition naisJs source (telemetryURL : string) : string :=
  let tag := match Split1 (GetEffectiveImage source) ":" with [_; tag] => tag | _ => "" end in
  naisJsTemplate telemetryURL (GetName source) tag.

Definition naisJsConfigMap source (name contents : string) : Object :=
  mkObject (mkGVK "" "v1" "ConfigMap") (SetName name (CreateObjectMeta source))
    (BConfigMap {[ configFileName := contents ]}).

Definition frontend_volumeMount (mountPath : string) : VolumeMount :=
  mkVolumeMount frontend_volumeName true mountPath configFileName.

Definition frontend_volume (configMapName : string) : Volume :=
  mkVolume frontend_volumeName (VConfigMap configMapName).

Definition frontend_envVars (telemetryURL : string) : list EnvVar :=
  [env "NAIS_FRONTEND_TELEMETRY_COLLECTOR_URL" telemetryURL].

Definition frontend_Create source (ast : Ast) cfg : res error Ast :=
  match v_Frontend (v_Platform (src_View source)) with
  | Some (Some mountPath) =>
      let url := GetFrontendTelemetryURL cfg in
      configMapName ← ShortName (GetName source +:+ "-frontend-config-js") 63;
      let ast := AppendOperation OperationCreateOrUpdate
                   (naisJsConfigMap source configMapName (naisJs source url)) ast in
      let ast := PrependEnv (frontend_envVars url) ast in
      Ok (AppendVolumes [frontend_volume configMapName] [frontend_volumeMount mountPath] ast)
  | _ => Ok ast
  end.

(** ** podmonitor *)

(** The name of the container port the monitor scrapes. *)
Definition monitor_port source : string :=
  let v := src_View source in
  let promPort := pc_Port (v_Prometheus v) in
  if bool_decide (0 < slen promPort)%nat && bool_decide (promPort ≠ Itoa (v_Port v))
  then "metrics" else DefaultPortName.

Definition podmonitor_Create source (ast : Ast) cfg : Ast :=
  let prom := v_Prometheus (src_View source) in
  if negb (pc_Enabled prom) || negb (IsPrometheusOperatorEnabled cfg) then ast
  else
    AppendOperation OperationCreateOrUpdate
      (mkObject (mkGVK "monitoring.coreos.com" "v1" "PodMonitor") (CreateObjectMeta source)
         (BPodMonitor (monitor_port source) (pc_Path prom) (GetName source))) ast.
End observability.

(** ** Lemmas *)

Section split_lemmas.
Implicit Types s t : string.

Lemma all_chars_Join P l sep :
  Forall (fun w => all_chars P w = true) l → all_chars P sep = true → all_chars P (Join l sep) = true.
Proof.
  intros Hl Hsep. induction Hl as [|w l Hw Hl IH]; [done|]. simpl.
  destruct l; [done|]. by rewrite !all_chars_app, Hw, Hsep.
Qed.

Lemma insert_sorted_perm s l : insert_sorted s l ≡ₚ s :: l.
Proof.
  induction l as [|t l IH]; [done|]. simpl. destruct (String.leb s t); [done|].
  rewrite IH. constructor.
Qed.

Lemma sorted_perm l : foldr insert_sorted [] l ≡ₚ l.
Proof. induction l as [|s l IH]; [done|]. simpl. by rewrite insert_sorted_perm, IH. Qed.
End split_lemmas.

Definition no_comma (s : string) : Prop := all_chars (fun a => negb (Ascii.eqb a ",")) s = true.

(** The attributes the platform sets. *)
Definition platform_attributes (name namespace : string) (destinations : list string) : list string :=
  ["service.name=" +:+ name; "service.namespace=" +:+ namespace] ++
  match destinations with
  | [] => []
  | _ => ["nais.backend=" +:+ Join (foldr insert_sorted [] destinations) ";"]
  end.

Lemma split_attributes acc kvs :
  Forall no_comma kvs →
  Split1 (foldl (fun attributes kv => attributes +:+ "," +:+ kv) acc kvs) "," = Split1 acc "," ++ kvs.
Proof.
  intros Hk. revert acc. induction Hk as [|kv kvs Hkv _ IH]; intros acc; simpl.
  - by rewrite app_nil_r.
  - rewrite IH, Split1_app_sep, (Split1_no_sep kv), <-app_assoc; done.
Qed.

Lemma split_otelAttributes name namespace vars destinations :
  no_comma name → no_comma namespace → Forall no_comma destinations →
  Split1 (otelAttributes name namespace vars destinations) "," =
  platform_attributes name namespace destinations ++ mjoin (map env_attributes vars).
Proof.
  intros Hn Hns Hd. unfold otelAttributes, platform_attributes. rewrite split_attributes.
  - f_equal. change (",service.namespace=" +:+ namespace) with
      (String "," ("service.namespace=" +:+ namespace)).
    assert (Hb : no_comma (Join (foldr insert_sorted [] destinations) ";")).
    { apply all_chars_Join; [|done]. by rewrite sorted_perm. }
    destruct destinations as [|d ds].
    + change ("service.name=" +:+ name +:+ String "," ("service.namespace=" +:+ namespace)) with
        ("service.name=" +:+ (name +:+ String "," ("service.namespace=" +:+ namespace))).
      rewrite <-sapp_assoc, Split1_app_sep, !Split1_no_sep; [done| |].
      * unfold no_comma in *. rewrite all_chars_app, Hns. done.
      * unfold no_comma in *. rewrite all_chars_app, Hn. done.
    + revert Hb. generalize (Join (foldr insert_sorted [] (d :: ds)) ";") as backend. intros backend Hb.
      change (",nais.backend=" +:+ backend) with (String "," ("nais.backend=" +:+ backend)).
      rewrite Split1_app_sep.
      rewrite <-sapp_assoc, Split1_app_sep, !Split1_no_sep; [done| | |]; unfold no_comma in *;
        rewrite all_chars_app; by rewrite ?Hb, ?Hns, ?Hn.
  - apply Forall_join. rewrite Forall_map. apply Forall_forall. intros e _. unfold env_attributes.
    case_bool_decide; [|constructor]. apply Forall_forall. intros kv [_ Hkv]%list_elem_of_filter.
    pose proof (Split1_Forall (ev_Value e) ",") as Hp. rewrite Forall_forall in Hp. by apply Hp.
Qed.

Lemma user_attribute_spec kv :
  user_attribute kv = true ↔ ∃ k v, Split1 kv "=" = [k; v] ∧ k ∉ reservedAttributes.
Proof.
  unfold user_attribute. destruct (Split1 kv "=") as [|k [|v [|? ?]]]; try naive_solver.
  rewrite negb_true_iff, bool_decide_eq_false. naive_solver.
Qed.

(** The user's entries are those of the user's variables of that name. *)
Lemma user_attributes vars kv :
  kv ∈ mjoin (map env_attributes vars) ↔
  ∃ e k v, e ∈ vars ∧ ev_Name e = otelResourceAttributes ∧ kv ∈ Split1 (ev_Value e) "," ∧
    Split1 kv "=" = [k; v] ∧ k ∉ reservedAttributes.
Proof.
  rewrite list_elem_of_join. setoid_rewrite list_elem_of_fmap. unfold env_attributes. split.
  - intros (l & Hkv & e & -> & He). case_bool_decide; [|by apply elem_of_nil in Hkv].
    apply list_elem_of_filter in Hkv as [(k & v & ? & ?)%user_attribute_spec ?]. by exists e, k, v.
  - intros (e & k & v & He & Hn & Hkv & Hk). eexists. split; [|by exists e].
    rewrite bool_decide_eq_true_2 by done. apply list_elem_of_filter. split; [|done].
    apply user_attribute_spec. by exists k, v.
Qed.

(** ** Properties *)

(** C33. The platform owns the OpenTelemetry settings: whatever the workload's
    environment says, each of the five OTEL variables occurs exactly once, with
    the platform's value (the name of the workload; the URL, protocol and insecurity of
    the configured collector; the resource attributes); all other variables keep their
    values and order; and in the resource attributes the platform's entries come first,
    followed by the user's well-formed entries, none of which has a reserved key. Keys
    are compared as they are written: a reserved key with spaces around it is no
    reserved key. *)
Theorem OtelEnvVars_platform_wins name namespace vars destinations otel :
  no_comma name → no_comma namespace → Forall no_comma destinations →
  let result := OtelEnvVars name namespace vars destinations otel in
  let collector := otel_Collector otel in
  let occurrences n := filter (fun e => ev_Name e = n) result in
  occurrences "OTEL_SERVICE_NAME" = [env "OTEL_SERVICE_NAME" name] ∧
  occurrences "OTEL_EXPORTER_OTLP_ENDPOINT" =
    [env "OTEL_EXPORTER_OTLP_ENDPOINT" ((if otc_TLS collector then "https://" else "http://") +:+
       otc_Service collector +:+ "." +:+ otc_Namespace collector +:+ ":" +:+ Itoa (otc_Port collector))] ∧
  occurrences "OTEL_EXPORTER_OTLP_PROTOCOL" = [env "OTEL_EXPORTER_OTLP_PROTOCOL" (otc_Protocol collector)] ∧
  occurrences "OTEL_EXPORTER_OTLP_INSECURE" =
    [env "OTEL_EXPORTER_OTLP_INSECURE" (if otc_TLS collector then "false" else "true")] ∧
  (∃ attributes, occurrences "OTEL_RESOURCE_ATTRIBUTES" = [env "OTEL_RESOURCE_ATTRIBUTES" attributes] ∧
     ∃ user, Split1 attributes "," = platform_attributes name namespace destinations ++ user ∧
     ∀ kv, kv ∈ user ↔ ∃ e k v, e ∈ vars ∧ ev_Name e = "OTEL_RESOURCE_ATTRIBUTES" ∧ kv ∈ Split1 (ev_Value e) "," ∧
       Split1 kv "=" = [k; v] ∧ k ∉ ["service.name"; "service.namespace"; "nais.backend"]) ∧
  filter (fun e => ev_Name e ∉ otel_names) result = filter (fun e => ev_Name e ∉ otel_names) vars.
Proof.
  intros Hn Hns Hd. cbn zeta. unfold OtelEnvVars, otelFilterEnvVars.
  assert (Hother : ∀ n, n ∈ otel_names →
    filter (fun e => ev_Name e = n) (filter (fun e => ev_Name e ∉ otel_names) vars) = []).
  { intros n Hin. rewrite list_filter_filter. apply filter_none. intros e _ [<- ?]. done. }
  split_and!.
  - rewrite filter_app, Hother by (unfold otel_names; set_solver). reflexivity.
  - rewrite filter_app, Hother by (unfold otel_names; set_solver). unfold otelEndpointFromConfig.
    by destruct (otc_TLS _).
  - rewrite filter_app, Hother by (unfold otel_names; set_solver). reflexivity.
  - rewrite filter_app, Hother by (unfold otel_names; set_solver). by destruct (otc_TLS _).
  - eexists. split; [rewrite filter_app, Hother by (unfold otel_names; set_solver); reflexivity|].
    eexists. split; [by apply split_otelAttributes|]. apply user_attributes.
  - rewrite filter_app, list_filter_filter_r by done. apply app_nil_r.
Qed.

Section observability_properties.
Context `{L : Liberator}.

Lemma observability_appends source ast cfg ast' :
  observability_Create source ast cfg = Ok ast' → appends (owned source) ast ast'.
Proof.
  unfold observability_Create, otel_Create, otelNetpol. intros H.
  creator_cases; solve_appends.
Qed.

Lemma frontend_appends source ast cfg ast' :
  frontend_Create source ast cfg = Ok ast' → appends (owned source) ast ast'.
Proof. unfold frontend_Create, naisJsConfigMap. intros H. creator_cases; solve_appends. Qed.

Lemma podmonitor_appends source ast cfg :
  appends (owned_if (IsPrometheusOperatorEnabled cfg) monitor_kind source) ast (podmonitor_Create source ast cfg).
Proof.
  unfold podmonitor_Create. destruct (IsPrometheusOperatorEnabled cfg) eqn:Hf; rewrite ?orb_true_r; simpl; [|done].
  case_match; [done|]. apply appends_op; [done|].
  split_and!; [solve_owned_meta|done|done|by left].
Qed.

(** The port a PodMonitor scrapes is a port of the app container except
    when the Prometheus port is spelled differently from the app port but denotes
    it, or is zero: then the monitor names a port no container has. *)
Lemma monitored_port_exists app cfg ports :
  app_ports app cfg = Ok ports → IsPrometheusOperatorEnabled cfg = true → DefaultPortName ≠ "metrics" →
  let port := pc_Port (v_Prometheus (src_View app)) in
  monitor_port app ∈ map cp_Name ports ↔
  port = "" ∨ port = Itoa (v_Port (src_View app)) ∨
  ∃ n, ParseInt10 port 32 = Some n ∧ n ≠ 0%Z ∧ n ≠ v_Port (src_View app).
Proof.
  unfold app_ports, monitor_port. intros Hp Hen Hne. cbn zeta. rewrite Hen in Hp. cbn [andb] in Hp.
  set (port := pc_Port _) in *.
  assert (Hempty : slen port = 0%nat ↔ port = "") by apply slen_zero.
  destruct (decide (port = "")) as [->|Hport].
  { simpl in *. simplify_eq/=. split; [by left|by left]. }
  rewrite bool_decide_eq_true_2 in Hp by done. destruct (ParseInt10 port 32) as [n|]; [|done].
  rewrite (bool_decide_eq_true_2 (0 < _)%nat) by (destruct (slen port); [tauto|lia]). simpl.
  repeat case_bool_decide; simpl in Hp; simplify_eq/=; set_solver.
Qed.
End observability_properties.

(** ** Witnesses *)

Section witnesses.
Local Existing Instance sample_liberator.

Definition sample_otel : Otel :=
  mkOtel true (mkOtelCollector ["app=collector"] "otel" 4317 "grpc" "tempo" false) true "cfg" ["loki"].

Lemma OtelEnvVars_platform_wins_witness :
  filter (fun e => ev_Name e = otelServiceName)
    (OtelEnvVars "myapp" "team-a" [env "OTEL_SERVICE_NAME" "other"; env "A" "b";
        env "OTEL_RESOURCE_ATTRIBUTES" "service.name=other,team=x"] ["loki"] sample_otel) =
  [env "OTEL_SERVICE_NAME" "myapp"].
Proof.
  refine (proj1 (OtelEnvVars_platform_wins "myapp" "team-a" _ ["loki"] sample_otel _ _ _));
    [reflexivity|reflexivity|repeat constructor].
Defined.

(** The Prometheus port 08080 is the app's port 8080. *)
Definition zero_padded_app : Source :=
  mkSource app_gvk (sample_meta "myapp" "team-a" "uid-1" []) KApplication
    (view_with 8080 (mkPrometheus true "08080" "/metrics") sample_replicas "repo/app:1" [] []
       no_auth plain_platform no_backing) emptyStatus.

Lemma monitored_port_exists_witness :
  ∃ ports, app_ports zero_padded_app (newOptions sample_config) = Ok ports ∧
    ¬ monitor_port zero_padded_app ∈ map cp_Name ports.
Proof.
  eexists. split; [vm_compute; reflexivity|].
  intros H. apply (monitored_port_exists zero_padded_app (newOptions sample_config)) in H;
    [|vm_compute; reflexivity|reflexivity|discriminate].
  destruct H as [H|[H|(n & Hn & H0 & H1)]]; vm_compute in H || vm_compute in Hn; try discriminate.
  injection Hn as <-. apply H1. reflexivity.
Defined.
End witnesses.
