(* ===== verification/AccessPolicy.v ===== *)
(** * Access policies: network policies, FQDN policies, TokenX clients

    Models [pkg/resourcecreator/accesspolicy], [networkpolicy], [fqdnpolicy] and
    [jwker]. The meaning of a network policy (which pods may talk to a workload,
    and which it may talk to) follows the Kubernetes documentation; the theorems
    say that it is the meaning of the access policy the user wrote. *)

From S2P Require Import Prelude GoStrings Kube Api Vendor Config Resource Creators Samples Pod.

Section accesspolicy.
Context `{L : Liberator} `{U : UrlLib}.
Implicit Types cfg : Options.

(** ** accesspolicy *)

Definition ToAccessPolicyExternalRules (hosts : list string) : list AccessPolicyExternalRule :=
  map (fun host => mkExternalRule host "" None) hosts.

(** The loop of [MergeExternalRules] over the additional rules. *)
Fixpoint merge_loop (additional : list AccessPolicyExternalRule) (seen : gset string)
    (rules : list AccessPolicyExternalRule) : list AccessPolicyExternalRule :=
  match additional with
  | [] => rules
  | rule :: rest =>
      if bool_decide (slen (ext_Host rule) = 0%nat) then merge_loop rest seen rules
      else if bool_decide (ext_Host rule ∈ seen) then merge_loop rest seen rules
      else merge_loop rest ({[ ext_Host rule ]} ∪ seen) (rules ++ [rule])
  end.

(** [rules] are the external outbound rules of the application. *)
Definition MergeExternalRules (rules additional : list AccessPolicyExternalRule)
    : list AccessPolicyExternalRule :=
  match additional with
  | [] => rules
  | _ => merge_loop additional (list_to_set (map ext_Host rules)) rules
  end.

Definition ruleWithDefaults (rule : AccessPolicyRule) (namespaceName clusterName : string)
    : AccessPolicyRule :=
  mkRule (apr_Application rule)
    (if bool_decide (apr_Namespace rule = "") then namespaceName else apr_Namespace rule)
    (if bool_decide (apr_Cluster rule = "") then clusterName else apr_Cluster rule).

Definition RulesWithDefaults (rules : list AccessPolicyRule) (namespace clusterName : string)
    : list AccessPolicyRule :=
  map (fun r => ruleWithDefaults r namespace clusterName) rules.

Definition InboundRulesWithDefaults (rules : list AccessPolicyInboundRule)
    (namespace clusterName : string) : list AccessPolicyInboundRule :=
  map (fun r => mkInboundRule (ruleWithDefaults (apir_Rule r) namespace clusterName)
                  (apir_Permissions r)) rules.

(** The nil directions of a policy are dereferenced. *)
Definition WithDefaults (policy : AccessPolicy) (namespaceName clusterName : string)
    : res error AccessPolicy :=
  match ap_Inbound policy, ap_Outbound policy with
  | Some inbound, Some outbound =>
      Ok (mkAccessPolicy (Some (InboundRulesWithDefaults inbound namespaceName clusterName))
            (Some (mkOutbound (RulesWithDefaults (out_Rules outbound) namespaceName clusterName) [])))
  | _, _ => Err (Panic "nil pointer dereference")
  end.

(** ** networkpolicy *)

Definition labelSelector (label value : string) : LabelSelector := mkSelector {[ label := value ]}.
Definition anything : LabelSelector := mkSelector ∅.

Definition namespace_label : string := "kubernetes.io/metadata.name".

Definition ip_peer (cidr : string) : NetworkPolicyPeer := mkPeer None None (Some cidr).

Definition defaultEgressRules cfg : list NetworkPolicyRule :=
  [mkNetpolRule [mkPeer (Some (labelSelector "k8s-app" "kube-dns")) (Some anything) None] []] ++
  (if bool_decide (GetAivenRange cfg ≠ "")
   then [mkNetpolRule [ip_peer (GetAivenRange cfg)] []] else []).

Definition onlyIPv4IsSpecified (e : AccessPolicyExternalRule) : bool :=
  bool_decide (ext_IPv4 e ≠ "") && bool_decide (ext_Host e = "").

(** An outbound rule that results in a network policy. *)
Definition local_outbound cfg (r : AccessPolicyRule) : bool :=
  negb (bool_decide (apr_Application r = "") || bool_decide (apr_Application r = "*") ||
        negb (MatchesCluster r (GetClusterName cfg))).

Definition outbound_rule (r : AccessPolicyRule) : NetworkPolicyRule :=
  mkNetpolRule
    [mkPeer (Some (labelSelector "app" (apr_Application r)))
       (if bool_decide (apr_Namespace r ≠ "")
        then Some (labelSelector namespace_label (apr_Namespace r)) else None) None] [].

Definition external_rule (e : AccessPolicyExternalRule) : NetworkPolicyRule :=
  mkNetpolRule [ip_peer (ext_IPv4 e +:+ "/32")]
    (map (fun p => mkNetpolPort None (Some (IntVal (int32 p)))) (default [] (ext_Ports e))).

Definition egressRulesFromAccessPolicy (policy : option AccessPolicy) cfg : list NetworkPolicyRule :=
  match policy with
  | Some (mkAccessPolicy _ (Some outbound)) =>
      map outbound_rule (filter (fun r => local_outbound cfg r = true) (out_Rules outbound)) ++
      map external_rule (filter (fun e => onlyIPv4IsSpecified e = true) (out_External outbound))
  | _ => []
  end.

Definition egressRules (policy : option AccessPolicy) cfg (election : bool) : list NetworkPolicyRule :=
  defaultEgressRules cfg ++ egressRulesFromAccessPolicy policy cfg ++
  (if election then [mkNetpolRule [ip_peer (GetAPIServerIP cfg)] []] else []).

Definition nais_peer cfg (label value : string) : NetworkPolicyPeer :=
  mkPeer (Some (labelSelector label value))
    (Some (labelSelector namespace_label (GetNaisNamespace cfg))) None.

Definition defaultIngressRules cfg : list NetworkPolicyRule :=
  [mkNetpolRule [nais_peer cfg "app.kubernetes.io/name" "prometheus";
                 nais_peer cfg "app.kubernetes.io/name" "alloy"] []].

Definition ingress_class_rules cfg (ingress : string) : list NetworkPolicyRule :=
  match url_Parse ingress with
  | Err _ => []
  | Ok ur =>
      match GetIngressClasses cfg (url_Host ur) with
      | Err _ => []
      | Ok classes => map (fun c => mkNetpolRule [nais_peer cfg "nais.io/ingressClass" c] []) classes
      end
  end.

Definition ingressRulesFromIngress (ingress : list string) cfg : list NetworkPolicyRule :=
  mjoin (map (ingress_class_rules cfg) ingress).

Definition inbound_peer (rule : AccessPolicyRule) : NetworkPolicyPeer :=
  mkPeer
    (Some (if bool_decide (apr_Application rule = "*") then anything
           else labelSelector "app" (apr_Application rule)))
    (if bool_decide (apr_Namespace rule = "*") then Some anything
     else if bool_decide (apr_Namespace rule ≠ "")
     then Some (labelSelector namespace_label (apr_Namespace rule)) else None)
    None.

Definition ingressRulesFromAccessPolicy (policy : option AccessPolicy) cfg : list NetworkPolicyRule :=
  match policy with
  | Some (mkAccessPolicy (Some inbound) _) =>
      let peers := map inbound_peer
        (filter (fun r => MatchesCluster r (GetClusterName cfg) = true) (map apir_Rule inbound)) in
      match peers with [] => [] | _ => [mkNetpolRule peers []] end
  | _ => []
  end.

Definition ingressRules (ingress : list string) (policy : option AccessPolicy) cfg
    : list NetworkPolicyRule :=
  defaultIngressRules cfg ++ ingressRulesFromIngress ingress cfg ++
  ingressRulesFromAccessPolicy policy cfg.

Definition netpolSpec (name : string) cfg (policy : option AccessPolicy) (ingress : list string)
    (election : bool) : NetworkPolicySpec :=
  {| nps_PodSelector := labelSelector "app" name;
     nps_PolicyTypes := ["Ingress"; "Egress"];
     nps_Ingress := ingressRules ingress policy cfg;
     nps_Egress := egressRules policy cfg election |}.

Definition networkpolicy_Create (source : Source) (ast : Ast) cfg : Ast :=
  if negb (IsNetworkPolicyEnabled cfg) then ast
  else
    let v := src_View source in
    AppendOperation OperationCreateOrUpdate
      (mkObject (mkGVK "networking.k8s.io" "v1" "NetworkPolicy") (CreateObjectMeta source)
         (BNetworkPolicy (netpolSpec (GetName source) cfg (v_AccessPolicy v) (v_Ingress v)
                            (v_LeaderElection v)))) ast.

(** ** fqdnpolicy *)

Definition defaultNetworkPolicyPort : NetworkPolicyPort := mkNetpolPort (Some "TCP") (Some (FromInt 443)).

Definition networkPolicyPort (port : Z) : NetworkPolicyPort :=
  if bool_decide (port ≠ 0%Z) then mkNetpolPort (Some "TCP") (Some (FromInt port))
  else defaultNetworkPolicyPort.

Definition fqdn_host (host : string) : string := Replace1 (Replace1 host "https://" "") "http://" "".

Definition fqdn_rule (e : AccessPolicyExternalRule) : FQDNEgressRule :=
  mkFQDNRule
    (match ext_Ports e with
     | None => [defaultNetworkPolicyPort]
     | Some rules => map networkPolicyPort rules
     end)
    [fqdn_host (ext_Host e)].

Definition egressPolicy (outbound : AccessPolicyOutbound) : list FQDNEgressRule :=
  map fqdn_rule (filter (fun e => ext_IPv4 e = "") (out_External outbound)).

Definition fqdnPolicySpec (name : string) (outbound : AccessPolicyOutbound) : FQDNNetworkPolicySpec :=
  mkFQDNSpec (labelSelector "app" name) ["Egress"] (egressPolicy outbound).

Definition fqdnpolicy_Create (source : Source) (ast : Ast) cfg : Ast :=
  if negb (IsNetworkPolicyEnabled cfg && IsFQDNPolicyEnabled cfg) then ast
  else match v_AccessPolicy (src_View source) with
       | Some (mkAccessPolicy _ (Some outbound)) =>
           match out_External outbound with
           | [] => ast
           | _ =>
               AppendOperation OperationCreateOrUpdate
                 (mkObject (mkGVK "networking.gke.io" "v1alpha3" "FQDNNetworkPolicy")
                    (SetName (GetName source +:+ "-fqdn") (CreateObjectMeta source))
                    (BFQDNNetworkPolicy (fqdnPolicySpec (GetName source) outbound))) ast
           end
       | _ => ast
       end.

(** ** jwker *)

Definition jwker_secretName (name : string) : string := PrefixedRandShortName "tokenx" name 63.

(** The secret name of the created client, if any, for the creators after it. *)
Definition jwker_Create (source : Source) (ast : Ast) cfg : res error (option string * Ast) :=
  let v := src_View source in
  match v_TokenX v, v_AccessPolicy v with
  | Some true, Some policy =>
      if IsJwkerEnabled cfg then
        let ast := SetAstLabel "tokenx" "enabled" ast in
        policy ← WithDefaults policy (GetNamespace source) (GetClusterName cfg);
        let secretName := jwker_secretName (GetName source) in
        let ast := AppendOperation OperationCreateOrUpdate
          (mkObject (mkGVK "nais.io" "v1" "Jwker") (CreateObjectMeta source) (BJwker policy secretName))
          ast in
        Ok (Some secretName,
            WithAdditionalEnvFromSecret secretName
              (WithAdditionalSecret secretName DefaultJwkerMountPath ast))
      else Ok (None, ast)
  | _, _ => Ok (None, ast)
  end.
End accesspolicy.

Section policy_appends.
Context `{L : Liberator} `{U : UrlLib}.

Lemma networkpolicy_appends source ast cfg :
  appends (owned source) ast (networkpolicy_Create source ast cfg).
Proof. unfold networkpolicy_Create. case_match; solve_appends. Qed.

Lemma fqdnpolicy_appends source ast cfg :
  appends (owned_if (IsFQDNPolicyEnabled cfg) fqdn_kind source) ast (fqdnpolicy_Create source ast cfg).
Proof.
  unfold fqdnpolicy_Create. destruct (IsFQDNPolicyEnabled cfg) eqn:Hf; rewrite ?andb_false_r; simpl; [|done].
  repeat case_match; try done. apply appends_op; [done|].
  split_and!; [solve_owned_meta|done|done|by left].
Qed.

Lemma jwker_appends source ast cfg r ast' :
  jwker_Create source ast cfg = Ok (r, ast') → appends (owned source) ast ast'.
Proof.
  unfold jwker_Create, WithAdditionalEnvFromSecret, WithAdditionalSecret. intros H. creator_cases; solve_appends.
Qed.
End policy_appends.

(** ** What a network policy means *)

(** A pod as network policies see it: the name and labels of its namespace, and
    its own labels. *)
Record Pod := mkPod {
  pod_ns : string; pod_ns_labels : gmap string string; pod_labels : gmap string string }.

(** Kubernetes labels every namespace with its name. *)
Definition well_labelled (p : Pod) : Prop := pod_ns_labels p !! namespace_label = Some (pod_ns p).

(** A connection, seen from the pods a policy is for: the address of the other end and,
    if that is in the cluster, its pod; the protocol; the port, and the numbers of the
    named ports of the pod that is connected to. *)
Record Connection := mkConnection {
  con_IP : string; con_Pod : option Pod; con_Protocol : string; con_Port : Z;
  con_Named : gmap string Z }.

Definition con_labelled (c : Connection) : Prop := ∀ p, con_Pod c = Some p → well_labelled p.

(** Whether an address is in a block, which the network plugin decides. *)
Class CidrLib := cidr_Contains : string → string → bool.

Section meaning.
Context `{CidrLib}.

Definition selects (s : LabelSelector) (labels : gmap string string) : Prop := MatchLabels s ⊆ labels.

(** An address block stands for addresses. Without one, a namespace selector stands for
    the selected pods of the selected namespaces, and a pod selector alone for the selected
    pods of the policy's own namespace. *)
Definition peer_admits (own : string) (peer : NetworkPolicyPeer) (c : Connection) : Prop :=
  match np_IPBlock peer with
  | Some cidr => cidr_Contains cidr (con_IP c) = true
  | None =>
      ∃ p, con_Pod c = Some p ∧
        match np_PodSelector peer, np_NamespaceSelector peer with
        | Some s, Some n => selects s (pod_labels p) ∧ selects n (pod_ns_labels p)
        | Some s, None => selects s (pod_labels p) ∧ pod_ns p = own
        | None, Some n => selects n (pod_ns_labels p)
        | None, None => False
        end
  end.

(** The protocol is TCP unless it is given; without a port all of them are meant. *)
Definition port_admits (np : NetworkPolicyPort) (c : Connection) : Prop :=
  con_Protocol c = default "TCP" (npp_Protocol np) ∧
  match npp_Port np with
  | None => True
  | Some (IntVal n) => con_Port c = n
  | Some (FromString name) => con_Named c !! name = Some (con_Port c)
  end.

(** A rule without peers admits every other end, a rule without ports every port. *)
Definition rule_admits (own : string) (rule : NetworkPolicyRule) (c : Connection) : Prop :=
  (npr_Peers rule = [] ∨ ∃ peer, peer ∈ npr_Peers rule ∧ peer_admits own peer c) ∧
  (npr_Ports rule = [] ∨ ∃ np, np ∈ npr_Ports rule ∧ port_admits np c).

Definition some_admits (own : string) (rules : list NetworkPolicyRule) (c : Connection) : Prop :=
  ∃ rule, rule ∈ rules ∧ rule_admits own rule c.

(** A policy restricts the directions it is declared for, to what its rules admit. *)
Definition ingress_allowed (own : string) (spec : NetworkPolicySpec) (c : Connection) : Prop :=
  "Ingress" ∈ nps_PolicyTypes spec → some_admits own (nps_Ingress spec) c.

Definition egress_allowed (own : string) (spec : NetworkPolicySpec) (c : Connection) : Prop :=
  "Egress" ∈ nps_PolicyTypes spec → some_admits own (nps_Egress spec) c.

(** The pods a policy is for are those of the namespace it is in that its selector selects. *)
Definition policy_covers (own : string) (spec : NetworkPolicySpec) (p : Pod) : Prop :=
  pod_ns p = own ∧ selects (nps_PodSelector spec) (pod_labels p).
End meaning.

Section meaning_lemmas.
Context `{CidrLib} `{L : Liberator} `{U : UrlLib}.
Implicit Types c : Connection.

Lemma selects_label k v labels : selects (labelSelector k v) labels ↔ labels !! k = Some v.
Proof. apply map_singleton_subseteq_l. Qed.

Lemma selects_anything labels : selects anything labels.
Proof. apply map_empty_subseteq. Qed.

Lemma selects_namespace p ns :
  well_labelled p → selects (labelSelector namespace_label ns) (pod_ns_labels p) ↔ pod_ns p = ns.
Proof. intros Hp. rewrite selects_label, Hp. naive_solver. Qed.

Lemma some_admits_nil own c : some_admits own [] c ↔ False.
Proof. unfold some_admits. set_solver. Qed.

Lemma some_admits_cons own rule rules c :
  some_admits own (rule :: rules) c ↔ rule_admits own rule c ∨ some_admits own rules c.
Proof. unfold some_admits. setoid_rewrite elem_of_cons. naive_solver. Qed.

Lemma some_admits_app own rules rules' c :
  some_admits own (rules ++ rules') c ↔ some_admits own rules c ∨ some_admits own rules' c.
Proof. unfold some_admits. setoid_rewrite elem_of_app. naive_solver. Qed.

Lemma some_admits_map {A} own (f : A → NetworkPolicyRule) l c :
  some_admits own (map f l) c ↔ ∃ x, x ∈ l ∧ rule_admits own (f x) c.
Proof. unfold some_admits. setoid_rewrite list_elem_of_fmap. naive_solver. Qed.

Lemma rule_admits_peers own peers c :
  peers ≠ [] → rule_admits own (mkNetpolRule peers []) c ↔ ∃ peer, peer ∈ peers ∧ peer_admits own peer c.
Proof. intros ?. unfold rule_admits. simpl. naive_solver. Qed.

Lemma rule_admits_single own peer c : rule_admits own (mkNetpolRule [peer] []) c ↔ peer_admits own peer c.
Proof. rewrite rule_admits_peers by done. setoid_rewrite list_elem_of_singleton. naive_solver. Qed.

Lemma block_admits own cidr c : peer_admits own (ip_peer cidr) c ↔ cidr_Contains cidr (con_IP c) = true.
Proof. done. Qed.

(** A peer that selects pods by one label in a namespace. *)
Lemma labelled_peer_admits own s ns c :
  con_labelled c →
  peer_admits own (mkPeer (Some s) (Some (labelSelector namespace_label ns)) None) c ↔
  ∃ p, con_Pod c = Some p ∧ pod_ns p = ns ∧ selects s (pod_labels p).
Proof.
  intros Hc. unfold peer_admits. simpl. split; intros (p & Hp & H1 & H2); exists p; (split; [done|]);
    by (rewrite selects_namespace in * by (by apply Hc)).
Qed.

Lemma nais_peer_admits cfg own k v c :
  con_labelled c →
  peer_admits own (nais_peer cfg k v) c ↔
  ∃ p, con_Pod c = Some p ∧ pod_ns p = GetNaisNamespace cfg ∧ pod_labels p !! k = Some v.
Proof.
  intros Hc. unfold nais_peer. rewrite labelled_peer_admits by done. by setoid_rewrite selects_label.
Qed.

(** What an inbound rule grants, in terms of the rule. *)
Definition rule_matches (own : string) (r : AccessPolicyRule) (p : Pod) : Prop :=
  (apr_Application r = "*" ∨ pod_labels p !! "app" = Some (apr_Application r)) ∧
  (apr_Namespace r = "*" ∨ pod_ns p = (if bool_decide (apr_Namespace r = "") then own else apr_Namespace r)).

Lemma inbound_peer_admits own r c :
  con_labelled c → peer_admits own (inbound_peer r) c ↔ ∃ p, con_Pod c = Some p ∧ rule_matches own r p.
Proof.
  intros Hc. unfold peer_admits, inbound_peer. cbn [np_IPBlock np_PodSelector np_NamespaceSelector].
  split; intros (p & Hp & Hadm); exists p; (split; [done|]); specialize (Hc p Hp); revert Hadm;
    (match goal with |- ?P → ?Q => enough (P ↔ Q) by tauto end); unfold rule_matches; clear Hp;
    destruct (bool_decide (apr_Application r = "*")) eqn:Ha; bool_case;
    destruct (bool_decide (apr_Namespace r = "*")) eqn:Hn; bool_case;
    destruct (decide (apr_Namespace r = "")) as [He|He];
    rewrite ?He, ?(bool_decide_eq_true_2 (apr_Namespace r ≠ "")), ?bool_decide_eq_true_2,
      ?bool_decide_eq_false_2 by done; simpl;
    rewrite ?selects_label, ?selects_namespace by done;
    pose proof (selects_anything (pod_labels p)); pose proof (selects_anything (pod_ns_labels p));
    naive_solver congruence.
Qed.

(** The three sources of ingress rules. *)
Lemma default_ingress_iff cfg own c :
  con_labelled c →
  some_admits own (defaultIngressRules cfg) c ↔
  ∃ p, con_Pod c = Some p ∧ pod_ns p = GetNaisNamespace cfg ∧
    (pod_labels p !! "app.kubernetes.io/name" = Some "prometheus" ∨
     pod_labels p !! "app.kubernetes.io/name" = Some "alloy").
Proof.
  intros Hc. unfold defaultIngressRules. rewrite some_admits_cons, some_admits_nil, rule_admits_peers by done.
  setoid_rewrite elem_of_cons. setoid_rewrite list_elem_of_singleton. split.
  - intros [(peer & [->| ->] & Hadm)|[]]; apply nais_peer_admits in Hadm; naive_solver.
  - intros (p & Hp & Hns & [Hl|Hl]); left.
    + exists (nais_peer cfg "app.kubernetes.io/name" "prometheus"). split; [by left|].
      apply nais_peer_admits; [done|]. by exists p.
    + exists (nais_peer cfg "app.kubernetes.io/name" "alloy"). split; [by right|].
      apply nais_peer_admits; [done|]. by exists p.
Qed.

Lemma url_ingress_iff cfg own ingress c :
  con_labelled c →
  some_admits own (ingressRulesFromIngress ingress cfg) c ↔
  ∃ p i ur classes k, con_Pod c = Some p ∧ i ∈ ingress ∧ url_Parse i = Ok ur ∧
    GetIngressClasses cfg (url_Host ur) = Ok classes ∧ k ∈ classes ∧
    pod_ns p = GetNaisNamespace cfg ∧ pod_labels p !! "nais.io/ingressClass" = Some k.
Proof.
  intros Hc. unfold ingressRulesFromIngress. split.
  - intros (rule & Hin & Hadm). apply list_elem_of_join in Hin as (rs & Hr & Hi).
    apply list_elem_of_fmap in Hi as (i & -> & Hi). unfold ingress_class_rules in Hr.
    destruct (url_Parse i) as [ur|] eqn:Hu; [|by apply elem_of_nil in Hr].
    destruct (GetIngressClasses cfg _) as [classes|] eqn:Hcs; [|by apply elem_of_nil in Hr].
    apply list_elem_of_fmap in Hr as (k & -> & Hk).
    apply rule_admits_single, nais_peer_admits in Hadm as (p & Hp & Hns & Hl); [|done].
    by exists p, i, ur, classes, k.
  - intros (p & i & ur & classes & k & Hp & Hi & Hu & Hcs & Hk & Hns & Hl).
    exists (mkNetpolRule [nais_peer cfg "nais.io/ingressClass" k] []).
    rewrite rule_admits_single, nais_peer_admits by done. split; [|by exists p].
    apply list_elem_of_join. exists (ingress_class_rules cfg i). split.
    + unfold ingress_class_rules. rewrite Hu, Hcs. apply list_elem_of_fmap. eauto.
    + apply list_elem_of_fmap. eauto.
Qed.

Lemma policy_ingress_iff cfg own policy c :
  con_labelled c →
  some_admits own (ingressRulesFromAccessPolicy policy cfg) c ↔
  ∃ p pol inbound r, con_Pod c = Some p ∧ policy = Some pol ∧ ap_Inbound pol = Some inbound ∧ r ∈ inbound ∧
    MatchesCluster (apir_Rule r) (GetClusterName cfg) = true ∧ rule_matches own (apir_Rule r) p.
Proof.
  intros Hc. unfold ingressRulesFromAccessPolicy.
  destruct policy as [[[inbound|] out]|]; [|rewrite some_admits_nil; naive_solver..].
  set (peers := map inbound_peer _).
  assert (Hpeers : (∃ peer, peer ∈ peers ∧ peer_admits own peer c) ↔
    ∃ p r, con_Pod c = Some p ∧ r ∈ inbound ∧ MatchesCluster (apir_Rule r) (GetClusterName cfg) = true ∧
      rule_matches own (apir_Rule r) p).
  { subst peers. split.
    - intros (peer & (r & -> & Hr)%list_elem_of_fmap & (p & Hp & Ha)%inbound_peer_admits); [|done].
      apply list_elem_of_filter in Hr as [Hm (ir & -> & Hir)%list_elem_of_fmap]. by exists p, ir.
    - intros (p & r & Hp & Hr & Hm & Ha). exists (inbound_peer (apir_Rule r)).
      rewrite inbound_peer_admits by done. split; [|by exists p].
      apply list_elem_of_fmap. eexists. split; [done|]. apply list_elem_of_filter.
      split; [done|]. apply list_elem_of_fmap. eauto. }
  trans (∃ peer, peer ∈ peers ∧ peer_admits own peer c).
  - destruct peers as [|q qs]; [rewrite some_admits_nil; set_solver|].
    rewrite some_admits_cons, some_admits_nil, rule_admits_peers by done. tauto.
  - rewrite Hpeers. naive_solver.
Qed.

(** The three sources of egress rules. *)
Lemma default_egress_iff cfg own c :
  some_admits own (defaultEgressRules cfg) c ↔
  (∃ p, con_Pod c = Some p ∧ pod_labels p !! "k8s-app" = Some "kube-dns") ∨
  (GetAivenRange cfg ≠ "" ∧ cidr_Contains (GetAivenRange cfg) (con_IP c) = true).
Proof.
  unfold defaultEgressRules. rewrite some_admits_app, some_admits_cons, some_admits_nil, rule_admits_single.
  assert (Hdns : peer_admits own (mkPeer (Some (labelSelector "k8s-app" "kube-dns")) (Some anything) None) c ↔
    ∃ p, con_Pod c = Some p ∧ pod_labels p !! "k8s-app" = Some "kube-dns").
  { unfold peer_admits. simpl. setoid_rewrite selects_label. pose proof selects_anything. naive_solver. }
  rewrite Hdns. case_bool_decide; rewrite ?some_admits_cons, ?rule_admits_single, ?block_admits, !some_admits_nil; naive_solver.
Qed.

(** Where an outbound rule leads. *)
Definition outbound_matches (own : string) (r : AccessPolicyRule) (p : Pod) : Prop :=
  pod_labels p !! "app" = Some (apr_Application r) ∧
  pod_ns p = (if bool_decide (apr_Namespace r = "") then own else apr_Namespace r).

Lemma outbound_rule_admits own r c :
  con_labelled c → rule_admits own (outbound_rule r) c ↔ ∃ p, con_Pod c = Some p ∧ outbound_matches own r p.
Proof.
  intros Hc. unfold outbound_rule, outbound_matches. rewrite rule_admits_single.
  destruct (decide (apr_Namespace r = "")) as [He|He].
  - rewrite He. unfold peer_admits. simpl. by setoid_rewrite selects_label.
  - rewrite bool_decide_eq_true_2, bool_decide_eq_false_2 by done. rewrite labelled_peer_admits by done.
    setoid_rewrite selects_label. naive_solver.
Qed.

(** The address of an external rule, on its ports or on all of them. *)
Definition external_matches (e : AccessPolicyExternalRule) (c : Connection) : Prop :=
  cidr_Contains (ext_IPv4 e +:+ "/32") (con_IP c) = true ∧
  (default [] (ext_Ports e) = [] ∨
   con_Protocol c = "TCP" ∧ ∃ port, port ∈ default [] (ext_Ports e) ∧ con_Port c = int32 port).

Lemma external_rule_admits own e c : rule_admits own (external_rule e) c ↔ external_matches e c.
Proof.
  unfold rule_admits, external_rule, external_matches. simpl. setoid_rewrite list_elem_of_singleton.
  setoid_rewrite list_elem_of_fmap. unfold port_admits.
  destruct (default [] (ext_Ports e)) as [|z l]; simpl; naive_solver.
Qed.

Lemma policy_egress_iff cfg own policy c :
  con_labelled c →
  some_admits own (egressRulesFromAccessPolicy policy cfg) c ↔
  ∃ pol outbound, policy = Some pol ∧ ap_Outbound pol = Some outbound ∧
    ((∃ p r, con_Pod c = Some p ∧ r ∈ out_Rules outbound ∧ local_outbound cfg r = true ∧ outbound_matches own r p) ∨
     (∃ e, e ∈ out_External outbound ∧ ext_IPv4 e ≠ "" ∧ ext_Host e = "" ∧ external_matches e c)).
Proof.
  intros Hc. unfold egressRulesFromAccessPolicy.
  destruct policy as [[inb [outbound|]]|]; [|rewrite some_admits_nil; naive_solver..].
  rewrite some_admits_app, !some_admits_map. setoid_rewrite list_elem_of_filter.
  setoid_rewrite (outbound_rule_admits own); [|done]. setoid_rewrite external_rule_admits.
  unfold onlyIPv4IsSpecified. setoid_rewrite andb_true_iff. setoid_rewrite bool_decide_eq_true. naive_solver.
Qed.
End meaning_lemmas.

(** ** Properties *)

Section properties.
Context `{CidrLib} `{L : Liberator} `{U : UrlLib}.

(** C8. The generated network policy lets in exactly whom the user's access
    policy lets in, on every port: a pod may connect when it is the Prometheus or Alloy
    of the nais namespace, when it serves an ingress class of one of the workload's
    ingresses, or when it matches an inbound rule of this cluster; nobody else
    may, from inside the cluster or from outside (in particular, no policy admits
    everyone by accident). *)
Theorem netpol_ingress_iff name cfg policy ingress election own c :
  con_labelled c →
  ingress_allowed own (netpolSpec name cfg policy ingress election) c ↔
  ∃ p, con_Pod c = Some p ∧
   ((pod_ns p = GetNaisNamespace cfg ∧
     (pod_labels p !! "app.kubernetes.io/name" = Some "prometheus" ∨
      pod_labels p !! "app.kubernetes.io/name" = Some "alloy")) ∨
    (∃ i ur classes k, i ∈ ingress ∧ url_Parse i = Ok ur ∧
       GetIngressClasses cfg (url_Host ur) = Ok classes ∧ k ∈ classes ∧
       pod_ns p = GetNaisNamespace cfg ∧ pod_labels p !! "nais.io/ingressClass" = Some k) ∨
    (∃ pol inbound r, policy = Some pol ∧ ap_Inbound pol = Some inbound ∧ r ∈ inbound ∧
       MatchesCluster (apir_Rule r) (GetClusterName cfg) = true ∧ rule_matches own (apir_Rule r) p)).
Proof.
  intros Hc. unfold ingress_allowed, netpolSpec, ingressRules. cbn [nps_Ingress nps_PolicyTypes].
  rewrite !some_admits_app, default_ingress_iff, url_ingress_iff, policy_ingress_iff by done. split.
  - intros Hadm. specialize (Hadm ltac:(by left)). naive_solver.
  - naive_solver.
Qed.

(** C20. The generated network policy is for the pods of the workload and lets them out
    exactly where the platform and the user's access policy let them: to the pods that
    serve DNS; to the pods that match an outbound rule of this cluster that names an
    application; to the addresses of the Aiven range, if there is one; to the API server, if
    the workload elects a leader; and to the addresses of the external rules that give an
    address and no host, on the ports they give. No other pod or address can be reached. *)
Theorem netpol_egress_iff name cfg policy ingress election own c :
  con_labelled c →
  let spec := netpolSpec name cfg policy ingress election in
  (∀ p, policy_covers own spec p ↔ pod_ns p = own ∧ pod_labels p !! "app" = Some name) ∧
  (egress_allowed own spec c ↔
   (∃ p, con_Pod c = Some p ∧ pod_labels p !! "k8s-app" = Some "kube-dns") ∨
   (GetAivenRange cfg ≠ "" ∧ cidr_Contains (GetAivenRange cfg) (con_IP c) = true) ∨
   (election = true ∧ cidr_Contains (GetAPIServerIP cfg) (con_IP c) = true) ∨
   ∃ pol outbound, policy = Some pol ∧ ap_Outbound pol = Some outbound ∧
     ((∃ p r, con_Pod c = Some p ∧ r ∈ out_Rules outbound ∧ local_outbound cfg r = true ∧
         pod_labels p !! "app" = Some (apr_Application r) ∧
         pod_ns p = (if bool_decide (apr_Namespace r = "") then own else apr_Namespace r)) ∨
      (∃ e, e ∈ out_External outbound ∧ ext_IPv4 e ≠ "" ∧ ext_Host e = "" ∧
         cidr_Contains (ext_IPv4 e +:+ "/32") (con_IP c) = true ∧
         (default [] (ext_Ports e) = [] ∨
          con_Protocol c = "TCP" ∧ ∃ port, port ∈ default [] (ext_Ports e) ∧ con_Port c = int32 port)))).
Proof.
  intros Hc. cbn zeta. split; [intros p; unfold policy_covers; simpl; by rewrite selects_label|].
  unfold egress_allowed, netpolSpec, egressRules. cbn [nps_Egress nps_PolicyTypes].
  rewrite !some_admits_app, default_egress_iff, policy_egress_iff by done.
  assert (Helect : some_admits own (if election then [mkNetpolRule [ip_peer (GetAPIServerIP cfg)] []] else []) c ↔
    election = true ∧ cidr_Contains (GetAPIServerIP cfg) (con_IP c) = true).
  { destruct election; rewrite ?some_admits_cons, ?rule_admits_single, ?block_admits, some_admits_nil; naive_solver. }
  rewrite Helect. unfold outbound_matches, external_matches. split.
  - intros Hadm. specialize (Hadm ltac:(by right; left)). tauto.
  - tauto.
Qed.

(** An external rule is served by exactly one of the two policies: by the
    network policy when it gives only an address, by the FQDN policy when it
    gives no address; a rule that gives both an address and a host name is
    served by neither, so it opens nothing. *)
Lemma external_rule_policies cfg e :
  let outbound := mkOutbound [] [e] in
  let netpol := egressRulesFromAccessPolicy (Some (mkAccessPolicy None (Some outbound))) cfg in
  let fqdn := egressPolicy outbound in
  (ext_IPv4 e ≠ "" ∧ ext_Host e = "" → netpol = [external_rule e] ∧ fqdn = []) ∧
  (ext_IPv4 e = "" → netpol = [] ∧ fqdn = [fqdn_rule e]) ∧
  (ext_IPv4 e ≠ "" ∧ ext_Host e ≠ "" → netpol = [] ∧ fqdn = []).
Proof.
  cbn zeta. unfold egressRulesFromAccessPolicy, egressPolicy. cbn [out_Rules out_External].
  rewrite !filter_cons, !filter_nil. unfold onlyIPv4IsSpecified.
  split_and!; intros; repeat case_decide; bool_case; naive_solver.
Qed.

Lemma merge_loop_spec additional seen rules :
  ∃ new, merge_loop additional seen rules = rules ++ new ∧ new ⊆ additional ∧
    NoDup (map ext_Host new) ∧
    (∀ e, e ∈ new → ext_Host e ≠ "" ∧ ext_Host e ∉ seen) ∧
    (∀ e, e ∈ additional → ext_Host e ≠ "" → ext_Host e ∉ seen → ext_Host e ∈ map ext_Host new).
Proof.
  revert seen rules. induction additional as [|e es IH]; intros seen rules; simpl.
  { exists []. rewrite app_nil_r. split_and!; [done|set_solver|constructor|set_solver..]. }
  destruct (decide (ext_Host e = "")) as [He|He].
  { rewrite bool_decide_eq_true_2 by (by rewrite He).
    destruct (IH seen rules) as (new & -> & H1 & H2 & H3 & H4). exists new.
    split_and!; [done|set_solver|done|done|]. intros x [->|Hx]%elem_of_cons ??; naive_solver. }
  rewrite bool_decide_eq_false_2 by (by rewrite slen_zero).
  case_bool_decide as Hin.
  - destruct (IH seen rules) as (new & -> & H1 & H2 & H3 & H4). exists new.
    split_and!; [done|set_solver|done|done|]. intros x [->|Hx]%elem_of_cons ??; naive_solver.
  - destruct (IH ({[ext_Host e]} ∪ seen) (rules ++ [e])) as (new & -> & H1 & H2 & H3 & H4).
    exists (e :: new). rewrite <-app_assoc. split_and!; [done|set_solver| | |].
    + simpl. constructor; [|done]. intros (x & Hx & Hxn)%list_elem_of_fmap.
      apply H3 in Hxn as [_ Hxn]. set_solver.
    + intros x [->|Hx]%elem_of_cons; [done|]. apply H3 in Hx. set_solver.
    + simpl. intros x [->|Hx]%elem_of_cons Hne Hs; [by left|].
      destruct (decide (ext_Host x = ext_Host e)) as [->|]; [by left|right].
      apply H4; [done..|set_solver].
Qed.

(** Merging external rules keeps the user's rules first and untouched, adds
    only given rules, each for a host of its own that no user rule names, and
    leaves no given host out. *)
Lemma MergeExternalRules_spec rules additional :
  ∃ new, MergeExternalRules rules additional = rules ++ new ∧ new ⊆ additional ∧
    NoDup (map ext_Host new) ∧
    (∀ e, e ∈ new → ext_Host e ≠ "" ∧ ext_Host e ∉ map ext_Host rules) ∧
    (∀ e, e ∈ additional → ext_Host e ≠ "" →
       ext_Host e ∈ map ext_Host (MergeExternalRules rules additional)).
Proof.
  assert (Hm : MergeExternalRules rules additional =
    merge_loop additional (list_to_set (map ext_Host rules)) rules) by (by destruct additional).
  rewrite Hm. destruct (merge_loop_spec additional (list_to_set (map ext_Host rules)) rules)
    as (new & Heq & H1 & H2 & H3 & H4).
  exists new. rewrite Heq. split_and!; [done..| |].
  - intros e He. apply H3 in He. rewrite elem_of_list_to_set in He. done.
  - intros e He Hne. rewrite map_app, elem_of_app.
    destruct (decide (ext_Host e ∈ map ext_Host rules)); [by left|right].
    apply H4; [done..|]. by rewrite elem_of_list_to_set.
Qed.
End properties.

(** ** Witnesses *)

Section witnesses.
Local Existing Instances sample_liberator sample_url.

(** Blocks that name one address. *)
Definition sample_cidr : CidrLib := fun cidr ip => bool_decide (cidr = ip +:+ "/32").

Local Existing Instance sample_cidr.

Definition sample_policy : AccessPolicy :=
  mkAccessPolicy
    (Some [mkInboundRule (mkRule "friend" "" "") None; mkInboundRule (mkRule "*" "team-b" "dev") None])
    (Some (mkOutbound [mkRule "backend" "team-b" ""] [mkExternalRule "" "1.2.3.4" (Some [443%Z])])).

Definition pod_of (ns app : string) : Pod :=
  mkPod ns {[ namespace_label := ns ]} {[ "app" := app ]}.

Definition connection_with (p : Pod) : Connection := mkConnection "10.0.0.1" (Some p) "TCP" 8080 ∅.

(** A connection to an address outside the cluster. *)
Definition external_connection (ip : string) (port : Z) : Connection := mkConnection ip None "TCP" port ∅.

Lemma con_labelled_of ns app : con_labelled (connection_with (pod_of ns app)).
Proof. by intros p [= <-]. Qed.

Lemma con_labelled_external ip port : con_labelled (external_connection ip port).
Proof. by intros p [=]. Qed.

Lemma netpol_ingress_iff_witness :
  ingress_allowed "team-a" (netpolSpec "myapp" (newOptions sample_config) (Some sample_policy) [] false)
    (connection_with (pod_of "team-b" "anyone")).
Proof.
  apply netpol_ingress_iff; [apply con_labelled_of|]. exists (pod_of "team-b" "anyone"). split; [done|]. right; right.
  exists sample_policy. do 2 eexists. split; [reflexivity|]. split; [reflexivity|].
  split; [right; left|]. split; [reflexivity|]. split; [by left|by right].
Defined.

Lemma netpol_egress_iff_witness :
  egress_allowed "team-a" (netpolSpec "myapp" (newOptions sample_config) (Some sample_policy) [] false)
    (connection_with (pod_of "team-b" "backend")) ∧
  egress_allowed "team-a" (netpolSpec "myapp" (newOptions sample_config) (Some sample_policy) [] false)
    (external_connection "1.2.3.4" 443) ∧
  ¬ egress_allowed "team-a" (netpolSpec "myapp" (newOptions sample_config) (Some sample_policy) [] false)
    (external_connection "1.2.3.4" 80).
Proof.
  split_and!.
  - apply netpol_egress_iff; [apply con_labelled_of|]. do 3 right.
    exists sample_policy. eexists. split; [reflexivity|]. split; [reflexivity|]. left.
    do 2 eexists. split; [reflexivity|]. split; [left|]. split; [reflexivity|]. split; reflexivity.
  - apply netpol_egress_iff; [apply con_labelled_external|]. do 3 right.
    exists sample_policy. eexists. split; [reflexivity|]. split; [reflexivity|]. right.
    eexists. split; [left|]. split; [discriminate|]. split; [reflexivity|]. split; [reflexivity|].
    right. split; [reflexivity|]. exists 443%Z. split; [by left|reflexivity].
  - intros Hadm. apply (proj2 (netpol_egress_iff _ _ _ _ _ _ _ (con_labelled_external _ _))) in Hadm.
    destruct Hadm as [(p & Hp & _)|[(_ & Hr)|[(He & _)|(pol & out & [= <-] & [= <-] & Hout)]]]; [done| |done|].
    + vm_compute in Hr. discriminate.
    + destruct Hout as [(p & r & Hp & _)|(e & ->%list_elem_of_singleton & _ & _ & _ & [Hn|(_ & port & Hport & Heq)])];
        [done|done|]. apply list_elem_of_singleton in Hport as ->. vm_compute in Heq. discriminate.
Defined.
End witnesses.
