(* ===== verification/Wonderwall.v ===== *)
(** * Login: the wonderwall sidecar, Azure AD, ID-porten, the login proxy

    Models [pkg/resourcecreator/wonderwall], [azure], [idporten], [login] and
    [secret]. *)

From S2P Require Import Prelude GoStrings Kube Api Vendor Config Util Resource Creators Samples Pod Observability AccessPolicy.

(** ** secret *)

Definition OpaqueSecret (objectMeta : ObjectMeta) (secretName : string) (secrets : gmap string string)
    : Object :=
  mkObject (mkGVK "" "v1" "Secret") (SetName secretName objectMeta) (BSecret secrets "Opaque").

(** ** wonderwall *)

Definition wonderwall_Port : Z := 7564.
Definition wonderwall_MetricsPort : Z := 7565.
Definition wonderwall_ProbePort : Z := 7566.
Definition FrontChannelLogoutPath : string := "/oauth2/logout/frontchannel".

Record Configuration := mkConfiguration {
  ACRValues : string; AutoLogin : bool; AutoLoginIgnorePaths : list string;
  NeedsEncryptionSecret : bool; Provider : string; wcfg_Resources : option NaisResources;
  SecretNames : list string; UILocales : string }.

Section wonderwall.
Context `{L : Liberator} `{U : UrlLib} `{AM : ApiMachinery} `{SL : StructLib}.
Implicit Types (source : Source) (cfg : Options) (ast : Ast).

Definition azure_sidecar source : option NaisWonderwall :=
  match v_Azure (v_Auth (src_View source)) with
  | Some az => match az_Sidecar az with Some s => if ww_Enabled s then Some s else None | None => None end
  | None => None
  end.

Definition idporten_sidecar source : option IDPortenSidecar :=
  match v_IDPorten (v_Auth (src_View source)) with
  | Some idp =>
      match idp_Sidecar idp with
      | Some s => if ww_Enabled (ids_Wonderwall s) then Some s else None
      | None => None
      end
  | None => None
  end.

Definition azureEnabled source : bool := bool_decide (is_Some (azure_sidecar source)).
Definition idPortenEnabled source : bool := bool_decide (is_Some (idporten_sidecar source)).
Definition loginEnabled source : bool := bool_decide (is_Some (v_Login (v_Auth (src_View source)))).

Definition wonderwall_IsEnabled source cfg : bool :=
  IsWonderwallEnabled cfg && (idPortenEnabled source || azureEnabled source || loginEnabled source).

Definition wonderwall_validate source cfg (w : Configuration) : res error unit :=
  if negb (IsWonderwallEnabled cfg) then Err (Errorf "wonderwall is not enabled for this cluster")
  else if bool_decide (GetWonderwallImage cfg = "") then Err (Errorf "wonderwall image not configured")
  else if bool_decide (slen (Provider w) = 0%nat) then Err (Errorf "configuration has empty provider")
  else if bool_decide (length (SecretNames w) = 0%nat)
  then Err (Errorf "configuration has no secret names")
  else if bool_decide (length (v_Ingress (src_View source)) = 0%nat)
  then Err (Errorf "source has no ingresses")
  else if bool_decide ("" ∈ SecretNames w) then Err (Errorf "configuration contains empty secret names")
  else if idPortenEnabled source && azureEnabled source || idPortenEnabled source && loginEnabled source ||
          azureEnabled source && loginEnabled source
  then Err (Errorf "only one of Azure AD, ID-porten or login sidecars can be enabled")
  else
    let port := v_Port (src_View source) in
    if bool_decide (port ∈ [wonderwall_Port; wonderwall_MetricsPort; wonderwall_ProbePort])
    then Err (Errorf ("cannot use port '" +:+ Itoa port +:+ "'; conflicts with sidecar"))
    else Ok tt.

Definition defaultReqs : NaisResources :=
  mkNaisResources (Some ("20m", "32Mi")) (Some ("2", "256Mi")).

Definition resourceRequirements (w : Configuration) : res error NaisResources :=
  match wcfg_Resources w with
  | None => Ok defaultReqs
  | Some reqs => map_err (Wrapf "merging default resource requirements: ") (MergeResources reqs defaultReqs)
  end.

(** One path of [autoLoginIgnorePaths]; [seen] holds the paths already added. *)
Definition addPath (acc : list string) (p : string) : list string :=
  if bool_decide (slen p = 0%nat) then acc
  else let p := leadingSlash p in if bool_decide (p ∈ acc) then acc else acc ++ [p].

(** The paths in the order they are offered. *)
Definition ignore_candidates source (w : Configuration) : list string :=
  let v := src_View source in
  (if pc_Enabled (v_Prometheus v) then [pc_Path (v_Prometheus v)] else []) ++
  match v_Liveness v with Some p => [nprobe_Path p] | None => [] end ++
  match v_Readiness v with Some p => [nprobe_Path p] | None => [] end ++
  AutoLoginIgnorePaths w.

Definition autoLoginIgnorePaths source (w : Configuration) : string :=
  Join (foldl addPath [] (ignore_candidates source w)) ",".

Definition appendStringEnvVar (key value : string) (vars : list EnvVar) : list EnvVar :=
  if bool_decide (0 < slen value)%nat then vars ++ [env key value] else vars.

Definition appendBoolEnvVar (key : string) (value : bool) (vars : list EnvVar) : list EnvVar :=
  if value then vars ++ [env key "true"] else vars.

Definition ingressString (ingresses : list string) : string := Join ingresses ",".

Definition wonderwall_envVars source cfg (w : Configuration) : list EnvVar :=
  let result :=
    [ env "WONDERWALL_OPENID_PROVIDER" (Provider w);
      env "WONDERWALL_INGRESS" (ingressString (v_Ingress (src_View source)));
      mkEnvVar "WONDERWALL_UPSTREAM_IP" "" (Some (FieldRef "status.podIP"));
      env "WONDERWALL_UPSTREAM_PORT" (Itoa (v_Port (src_View source)));
      env "WONDERWALL_BIND_ADDRESS" ("0.0.0.0:" +:+ Itoa wonderwall_Port);
      env "WONDERWALL_METRICS_BIND_ADDRESS" ("0.0.0.0:" +:+ Itoa wonderwall_MetricsPort);
      env "WONDERWALL_PROBE_BIND_ADDRESS" ("0.0.0.0:" +:+ Itoa wonderwall_ProbePort) ] in
  let result := appendBoolEnvVar "WONDERWALL_AUTO_LOGIN" (AutoLogin w) result in
  let result := appendStringEnvVar "WONDERWALL_OPENID_ACR_VALUES" (ACRValues w) result in
  let result := appendStringEnvVar "WONDERWALL_OPENID_UI_LOCALES" (UILocales w) result in
  let result := if AutoLogin w
                then appendStringEnvVar "WONDERWALL_AUTO_LOGIN_IGNORE_PATHS" (autoLoginIgnorePaths source w) result
                else result in
  result ++
  OtelEnvVars "wonderwall" (GetNamespace source)
    [env "OTEL_RESOURCE_ATTRIBUTES" ("wonderwall.upstream.name=" +:+ GetName source)] []
    (obs_Otel (GetObservability cfg)).

(** The start-up probe of the sidecars. *)
Definition sidecar_probe (port : Z) : Probe := mkProbe (HandlerHTTPGet "/healthz" (FromInt port)) 0 0 0 0.

Definition sidecarContainer source cfg (w : Configuration) : res error Container :=
  resourceReqs ← resourceRequirements w;
  resources ← ResourceLimits resourceReqs;
  Ok {| c_Name := "wonderwall"; c_Image := GetWonderwallImage cfg; c_Command := []; c_Args := [];
        c_Ports := [mkContainerPort "wonderwall" wonderwall_Port "TCP";
                    mkContainerPort "ww-metrics" wonderwall_MetricsPort "TCP";
                    mkContainerPort "ww-probe" wonderwall_ProbePort "TCP"];
        c_Resources := resources; c_ImagePullPolicy := "IfNotPresent"; c_Lifecycle := None;
        c_Env := wonderwall_envVars source cfg w; c_EnvFrom := map EnvFromSecret (SecretNames w);
        c_VolumeMounts := []; c_LivenessProbe := None; c_ReadinessProbe := None;
        c_StartupProbe := Some (sidecar_probe wonderwall_ProbePort);
        c_SecurityContext := Some DefaultContainerSecurityContext;
        c_RestartPolicy := Some "Always" |}.

Definition with_env_from (e : EnvFromSource) (c : Container) : Container :=
  {| c_Name := c_Name c; c_Image := c_Image c; c_Command := c_Command c; c_Args := c_Args c;
     c_Ports := c_Ports c; c_Resources := c_Resources c; c_ImagePullPolicy := c_ImagePullPolicy c;
     c_Lifecycle := c_Lifecycle c; c_Env := c_Env c; c_EnvFrom := c_EnvFrom c ++ [e];
     c_VolumeMounts := c_VolumeMounts c; c_LivenessProbe := c_LivenessProbe c;
     c_ReadinessProbe := c_ReadinessProbe c; c_StartupProbe := c_StartupProbe c;
     c_SecurityContext := c_SecurityContext c; c_RestartPolicy := c_RestartPolicy c |}.

Definition makeEncryptionKeySecret source (w : Configuration) : res error Object :=
  secretName ← ShortName (Provider w +:+ "-wonderwall-" +:+ GetName source) 63;
  key ← map_err (Wrapf "generating secret key: ") (Keygen 32);
  Ok (OpaqueSecret (CreateObjectMeta source) secretName
        {[ "WONDERWALL_ENCRYPTION_KEY" := EncodeBase64 base64_std "=" key ]}).

Definition wonderwall_Create source ast cfg (w : Configuration) : res error Ast :=
  _ ← wonderwall_validate source cfg w;
  container ← map_err (Wrapf "creating wonderwall container spec: ") (sidecarContainer source cfg w);
  '(container, ast) ←
    (if NeedsEncryptionSecret w then
       secret ← makeEncryptionKeySecret source w;
       Ok (with_env_from (EnvFromSecret (Name (o_Meta secret))) container,
           AppendOperation OperationCreateIfNotExists secret ast)
     else Ok (container, ast));
  let ast := AppendInitContainers [container] ast in
  Ok (SetAstLabel "wonderwall" "enabled" (SetAstLabel "otel" "enabled" (SetAstLabel "aiven" "enabled" ast))).

(** ** login *)

Definition globalSecretName : string := "login-global-config".

Definition applicationSecretName source : res error string :=
  let name := "login-config-" +:+ GetName source in
  if bool_decide (253 < slen name)%nat
  then Err (Errorf ("application name too long: " +:+ GetName source)) else Ok name.

Definition login_Create source ast cfg : res error Ast :=
  match v_Login (v_Auth (src_View source)) with
  | None => Ok ast
  | Some login =>
      if negb (IsWonderwallEnabled cfg) then Err (Errorf "login proxy is not available in this cluster")
      else if bool_decide (length (v_Ingress (src_View source)) = 0%nat)
      then Err (Errorf "login proxy requires at least 1 ingress")
      else
        name ← applicationSecretName source;
        wonderwall_Create source ast cfg
          {| ACRValues := "";
             AutoLogin := match login_Enforce login with Some e => le_Enabled e | None => false end;
             AutoLoginIgnorePaths :=
               match login_Enforce login with Some e => le_ExcludePaths e | None => [] end;
             NeedsEncryptionSecret := true; Provider := login_Provider login; wcfg_Resources := None;
             SecretNames := [globalSecretName; name]; UILocales := "" |}
  end.

(** ** azure *)

Definition applicationDefaultCallbackPath : string := "/oauth2/callback".

Fixpoint callbackURLs (ingresses : list string) : res error (list string) :=
  match ingresses with
  | [] => Ok []
  | i :: rest =>
      url ← AppendPathToIngress i applicationDefaultCallbackPath;
      urls ← callbackURLs rest;
      Ok (url :: urls)
  end.

(** [week] is what [time.Now().ISOWeek()] returns while the resources are generated. *)
Definition azure_secretName (week : Z * Z) (name : string) : res error string :=
  SuffixedShortName ("azure-" +:+ name) (Itoa week.1 +:+ "-" +:+ Itoa week.2) 63.

Definition copyAzureAnnotations (src dst : gmap string string) : gmap string string :=
  filter (fun kv => HasPrefix kv.1 "azure.nais.io/" = true) src ∪ dst.

(** The nil policy or inbound part is dereferenced. *)
Definition inbound_rules source : res error (list AccessPolicyInboundRule) :=
  match v_AccessPolicy (src_View source) with
  | Some (mkAccessPolicy (Some rules) _) => Ok rules
  | _ => Err (Panic "nil pointer dereference")
  end.

Definition azure_application source (week : Z * Z) cfg : res error (ObjectMeta * AzureAdApplicationSpec) :=
  match v_Azure (v_Auth (src_View source)) with
  | Some (mkAzure (Some app) _) =>
      replyURLs ← (match aa_ReplyURLs app with
                   | [] => callbackURLs (v_Ingress (src_View source))
                   | urls => Ok urls
                   end);
      secretName ← azure_secretName week (GetName source);
      let objectMeta := CreateObjectMeta source in
      let objectMeta := SetAnnotations
        (Some (copyAzureAnnotations (default ∅ (Annotations (src_Meta source)))
                 (default ∅ (Annotations objectMeta)))) objectMeta in
      rules ← inbound_rules source;
      Ok (objectMeta,
          {| azs_ReplyUrls := replyURLs; azs_LogoutUrl := "";
             azs_PreAuthorizedApplications :=
               InboundRulesWithDefaults rules (Namespace objectMeta) (GetClusterName cfg);
             azs_Tenant := aa_Tenant app; azs_SecretName := secretName; azs_Claims := aa_Claims app;
             azs_SinglePageApplication := aa_SinglePageApplication app;
             azs_AllowAllUsers := aa_AllowAllUsers app |})
  | _ => Err (Panic "nil pointer dereference")
  end.

(** The reply URLs, logout URL and type of the application behind a sidecar. *)
Definition azure_sidecar_spec source (spec : AzureAdApplicationSpec) : res error AzureAdApplicationSpec :=
  match v_Ingress (src_View source) with
  | [] => Err (Errorf "must have at least 1 ingress to use Azure AD sidecar")
  | ingress :: _ =>
      urls ← callbackURLs (v_Ingress (src_View source));
      logout ← AppendPathToIngress ingress FrontChannelLogoutPath;
      Ok {| azs_ReplyUrls := azs_ReplyUrls spec ++ urls; azs_LogoutUrl := logout;
            azs_PreAuthorizedApplications := azs_PreAuthorizedApplications spec;
            azs_Tenant := azs_Tenant spec; azs_SecretName := azs_SecretName spec;
            azs_Claims := azs_Claims spec; azs_SinglePageApplication := Some false;
            azs_AllowAllUsers := azs_AllowAllUsers spec |}
  end.

Definition azure_wonderwall (s : NaisWonderwall) (secretName : string) : Configuration :=
  {| ACRValues := ""; AutoLogin := ww_AutoLogin s; AutoLoginIgnorePaths := ww_AutoLoginIgnorePaths s;
     NeedsEncryptionSecret := true; Provider := "azure"; wcfg_Resources := ww_Resources s;
     SecretNames := [secretName; "wonderwall-azure-config"]; UILocales := "" |}.

(** The secret name of the created application, if any. The source appends the
    application before [sidecar] changes it through the same pointer; the
    operation is the changed application either way. *)
Definition azure_Create source (week : Z * Z) ast cfg : res error (option string * Ast) :=
  match v_Azure (v_Auth (src_View source)) with
  | None => Ok (None, ast)
  | Some az =>
      let enabled := match az_Application az with Some app => aa_Enabled app | None => false end in
      if negb enabled && negb (azureEnabled source) then Ok (None, ast)
      else if negb (IsAzureratorEnabled cfg)
      then Err (Errorf "azure ad is not available in this cluster")
      else
        '(objectMeta, spec) ← azure_application source week cfg;
        let created spec ast :=
          let ast := AppendOperation OperationCreateOrUpdate
            (mkObject (mkGVK "nais.io" "v1" "AzureAdApplication") objectMeta (BAzureAdApplication spec))
            (SetAstLabel "azure" "enabled" ast) in
          WithAdditionalEnvFromSecret (azs_SecretName spec)
            (WithAdditionalSecret (azs_SecretName spec) DefaultAzureratorMountPath ast) in
        match azure_sidecar source with
        | None => Ok (Some (azs_SecretName spec), created spec ast)
        | Some s =>
            if negb (IsWonderwallEnabled cfg)
            then Err (Errorf "azure ad sidecar is not enabled for this cluster")
            else
              spec ← azure_sidecar_spec source spec;
              ast ← wonderwall_Create source (created spec ast) cfg
                      (azure_wonderwall s (azs_SecretName spec));
              Ok (Some (azs_SecretName spec), ast)
        end
  end.

(** ** idporten *)

Definition idportenSsoSecretName : string := "idporten-sso".

Definition idporten_Create source ast cfg : res error (option string * Ast) :=
  match v_IDPorten (v_Auth (src_View source)) with
  | None => Ok (None, ast)
  | Some idp =>
      if negb (idp_Enabled idp) then Ok (None, ast)
      else if negb (IsIDPortenEnabled cfg) then Err (Errorf "idporten is not available in this cluster")
      else match idporten_sidecar source with
           | None => Err (Errorf "idporten sidecar must be enabled when idporten is enabled")
           | Some s =>
               if negb (IsWonderwallEnabled cfg)
               then Err (Errorf "idporten sidecar is not enabled for this cluster")
               else if bool_decide (length (v_Ingress (src_View source)) = 0%nat)
               then Err (Errorf "idporten requires at least 1 ingress")
               else
                 let ast := SetAstLabel "idporten" "enabled" ast in
                 let ast := WithAdditionalSecret idportenSsoSecretName
                              DefaultDigdiratorIDPortenMountPath ast in
                 let ast := WithAdditionalEnvFromSecret idportenSsoSecretName ast in
                 let w := ids_Wonderwall s in
                 ast ← wonderwall_Create source ast cfg
                   {| ACRValues := ids_Level s; AutoLogin := ww_AutoLogin w;
                      AutoLoginIgnorePaths := ww_AutoLoginIgnorePaths w;
                      NeedsEncryptionSecret := false; Provider := "idporten";
                      wcfg_Resources := ww_Resources w;
                      SecretNames := [idportenSsoSecretName; "wonderwall-idporten-config"];
                      UILocales := ids_Locale s |};
                 Ok (Some idportenSsoSecretName, ast)
           end
  end.
End wonderwall.

(** ** Lemmas *)

(** The login sidecars of a pod. *)
Definition login_proxies (ast : Ast) : list Container :=
  filter (fun c => c_Name c = "wonderwall") (ast_InitContainers ast).

Section wonderwall_lemmas.
Context `{L : Liberator} `{U : UrlLib} `{AM : ApiMachinery} `{SL : StructLib}.
Implicit Types (source : Source) (cfg : Options) (ast : Ast).

Definition logins source : nat :=
  (if azureEnabled source then 1 else 0) + (if idPortenEnabled source then 1 else 0) +
  (if loginEnabled source then 1 else 0).

Lemma wonderwall_validate_ok source cfg w :
  wonderwall_validate source cfg w = Ok tt →
  IsWonderwallEnabled cfg = true ∧ (logins source ≤ 1)%nat ∧
  v_Port (src_View source) ∉ [wonderwall_Port; wonderwall_MetricsPort; wonderwall_ProbePort] ∧
  v_Ingress (src_View source) ≠ [].
Proof.
  unfold wonderwall_validate, logins. destruct (IsWonderwallEnabled cfg); [|done]. cbn [negb].
  do 3 (case_bool_decide; [done|]). case_bool_decide as Hi; [done|]. case_bool_decide; [done|].
  assert (v_Ingress (src_View source) ≠ []) by (by destruct (v_Ingress (src_View source))).
  destruct (azureEnabled source), (idPortenEnabled source), (loginEnabled source);
    cbn beta iota zeta delta [andb orb]; first [done | case_bool_decide; [done|]; intros _; by split_and!; [|lia|..]].
Qed.

(** What a login proxy needs: it listens on the port of the Service and passes
    requests on to the app's port, which is none of its own. *)
Definition proxies_app source (c : Container) : Prop :=
  c_Name c = "wonderwall" ∧ wonderwall_Port ∈ map cp_Port (c_Ports c) ∧
  env "WONDERWALL_UPSTREAM_PORT" (Itoa (v_Port (src_View source))) ∈ c_Env c ∧
  v_Port (src_View source) ∉ map cp_Port (c_Ports c).

Lemma sidecarContainer_proxies source cfg w c :
  v_Port (src_View source) ∉ [wonderwall_Port; wonderwall_MetricsPort; wonderwall_ProbePort] →
  sidecarContainer source cfg w = Ok c → proxies_app source c.
Proof.
  unfold sidecarContainer. intros Hp H. creator_cases. unfold proxies_app. cbn [c_Name c_Ports c_Env map cp_Port].
  split_and!; [done|by left| |done].
  unfold wonderwall_envVars, appendBoolEnvVar, appendStringEnvVar.
  apply elem_of_app. left. repeat case_match; repeat (apply elem_of_app; left); set_solver.
Qed.

Lemma wonderwall_Create_spec source ast cfg w ast' :
  wonderwall_Create source ast cfg w = Ok ast' →
  IsWonderwallEnabled cfg = true ∧ (logins source ≤ 1)%nat ∧ appends (owned source) ast ast' ∧
  ∃ c, ast_InitContainers ast' = ast_InitContainers ast ++ [c] ∧ proxies_app source c.
Proof.
  unfold wonderwall_Create. intros H. apply res_bind_ok_inv in H as ([] & Hv & H).
  apply wonderwall_validate_ok in Hv as (He & Hl & Hp & _).
  apply res_bind_ok_inv in H as (c & Hc & H).
  destruct (sidecarContainer source cfg w) as [c'|] eqn:Hs; [|done]. simpl in Hc. simplify_eq.
  apply sidecarContainer_proxies in Hs; [|done].
  apply res_bind_ok_inv in H as ([c' a] & Ha & H). simplify_eq/=. split_and!; [done..| |].
  - unfold makeEncryptionKeySecret, OpaqueSecret in Ha. creator_cases; solve_appends.
  - exists c'. unfold makeEncryptionKeySecret in Ha. destruct Hs as (?&?&?&?).
    destruct (NeedsEncryptionSecret w); creator_cases; split; try done; by split_and!.
Qed.

Lemma login_proxies_app ast ast' c source :
  ast_InitContainers ast' = ast_InitContainers ast ++ [c] → proxies_app source c →
  login_proxies ast' = login_proxies ast ++ [c].
Proof.
  intros H (Hc & _). unfold login_proxies. rewrite H, filter_app. f_equal.
  by rewrite filter_cons_True, filter_nil.
Qed.

(** What each creator of a login does to the pod. *)
Definition adds_login source cfg (b : bool) ast ast' : Prop :=
  appends (owned source) ast ast' ∧
  if b then IsWonderwallEnabled cfg = true ∧ (logins source ≤ 1)%nat ∧ ∃ c, login_proxies ast' = login_proxies ast ++ [c] ∧ proxies_app source c
  else login_proxies ast' = login_proxies ast.

Lemma adds_login_wonderwall source ast a cfg w ast' :
  wonderwall_Create source a cfg w = Ok ast' → appends (owned source) ast a →
  login_proxies a = login_proxies ast → adds_login source cfg true ast ast'.
Proof.
  intros (He & Hl & Happ & c & Hc & Hp)%wonderwall_Create_spec Ha Hsame.
  split; [by etransitivity|]. do 2 (split; [done|]). exists c. split; [|done].
  rewrite <-Hsame. by eapply login_proxies_app.
Qed.

Lemma login_Create_adds source ast cfg ast' :
  login_Create source ast cfg = Ok ast' → adds_login source cfg (loginEnabled source) ast ast'.
Proof.
  unfold login_Create, loginEnabled. destruct (v_Login _) as [login|]; [|intros [= <-]; by split].
  intros H. creator_cases. by eapply adds_login_wonderwall.
Qed.

Lemma azure_application_meta source week cfg m spec :
  azure_application source week cfg = Ok (m, spec) →
  owned_meta source m.
Proof. unfold azure_application. intros H. creator_cases; solve_owned. Qed.

Lemma azure_Create_adds source week ast cfg r ast' :
  azure_Create source week ast cfg = Ok (r, ast') → adds_login source cfg (azureEnabled source) ast ast'.
Proof.
  unfold azure_Create, azureEnabled. intros H.
  destruct (v_Azure (v_Auth (src_View source))) as [az|] eqn:Haz.
  2: { unfold azure_sidecar. rewrite Haz. simplify_eq. by split. }
  destruct (azure_sidecar source) as [s|] eqn:Hs; cbn [negb andb] in H.
  - rewrite andb_false_r in H. creator_cases.
    pose proof (azure_application_meta _ _ _ _ _ H0).
    eapply adds_login_wonderwall; [done| |done]. unfold WithAdditionalEnvFromSecret, WithAdditionalSecret.
    solve_appends.
  - creator_cases; [by split|]. pose proof (azure_application_meta _ _ _ _ _ H0).
    split; [|done]. unfold WithAdditionalEnvFromSecret, WithAdditionalSecret. solve_appends.
Qed.

Lemma idporten_Create_adds source ast cfg r ast' :
  idporten_Create source ast cfg = Ok (r, ast') →
  adds_login source cfg (match v_IDPorten (v_Auth (src_View source)) with
                     | Some idp => idp_Enabled idp | None => false end) ast ast' ∧
  ∀ idp, v_IDPorten (v_Auth (src_View source)) = Some idp → idp_Enabled idp = true →
    idPortenEnabled source = true.
Proof.
  unfold idporten_Create, idPortenEnabled. intros H.
  destruct (v_IDPorten _) as [idp|]; [|simplify_eq; by split].
  destruct (idp_Enabled idp) eqn:He; cbn [negb] in H; [|simplify_eq; split; [by split|congruence]].
  destruct (idporten_sidecar source) as [s|]; creator_cases. split; [|done].
  eapply adds_login_wonderwall; [done| |done].
  unfold WithAdditionalEnvFromSecret, WithAdditionalSecret. solve_appends.
Qed.

Lemma addPath_spec acc ps :
  NoDup acc → (∀ p, p ∈ acc → HasPrefix p "/" = true) →
  let r := foldl addPath acc ps in
  NoDup r ∧ (∀ p, p ∈ r → HasPrefix p "/" = true) ∧
  ∀ p, p ∈ r ↔ p ∈ acc ∨ ∃ q, q ∈ ps ∧ q ≠ "" ∧ p = leadingSlash q.
Proof.
  revert acc. induction ps as [|q ps IH]; intros acc Hnd Hsl; simpl.
  { split_and!; [done..|]. set_solver. }
  assert (Hq : HasPrefix (leadingSlash q) "/" = true) by (unfold leadingSlash; case_match; [done|apply HasPrefix_app]).
  assert (addPath acc q = acc ++ (if bool_decide (q = "") || bool_decide (leadingSlash q ∈ acc)
                                  then [] else [leadingSlash q])) as ->.
  { unfold addPath. rewrite (bool_decide_ext _ (q = "")) by apply slen_zero.
    repeat case_bool_decide; simpl; by rewrite ?app_nil_r. }
  destruct (bool_decide (q = "")) eqn:E1; [|destruct (bool_decide (leadingSlash q ∈ acc)) eqn:E2];
    bool_case; cbn [orb].
  - rewrite app_nil_r. destruct (IH acc) as (? & ? & Hr); [done..|]. split_and!; [done..|].
    intros p. rewrite Hr. set_solver.
  - rewrite app_nil_r. destruct (IH acc) as (? & ? & Hr); [done..|]. split_and!; [done..|].
    intros p. rewrite Hr. set_solver.
  - destruct (IH (acc ++ [leadingSlash q])) as (? & ? & Hr).
    + apply NoDup_app. split_and!; [done|set_solver|apply NoDup_singleton].
    + set_solver.
    + split_and!; [done..|]. intros p. rewrite Hr. set_solver.
Qed.
End wonderwall_lemmas.

(** ** Properties *)

Section properties.
Context `{L : Liberator} `{U : UrlLib} `{AM : ApiMachinery} `{SL : StructLib}.

(** The paths exempt from automatic login are those of the metrics, liveness
    and readiness endpoints and the ones the user lists: each occurs once, is
    rooted, and no other path is exempt. *)
Lemma autoLoginIgnorePaths_exact source w :
  ∃ paths, autoLoginIgnorePaths source w = Join paths "," ∧ NoDup paths ∧
    (∀ p, p ∈ paths → HasPrefix p "/" = true) ∧
    ∀ p, p ∈ paths ↔ ∃ q, q ∈ ignore_candidates source w ∧ q ≠ "" ∧ p = leadingSlash q.
Proof.
  destruct (addPath_spec [] (ignore_candidates source w)) as (H1 & H2 & H3);
    [constructor|set_solver|].
  eexists. split; [done|]. split_and!; [done..|]. intros p. rewrite H3. set_solver.
Qed.

(** C31. The session key survives its encoding: when a login needs an encryption
    secret, exactly one operation is added, which creates the secret (and never
    overwrites one that exists); its value decodes to the very bytes the key
    generator returned, and the login proxy reads its environment from it. *)
Theorem encryption_key_roundtrip source ast cfg w ast' :
  wonderwall_Create source ast cfg w = Ok ast' → NeedsEncryptionSecret w = true →
  ∃ key secretName encoded c,
    Keygen 32 = Ok key ∧
    ast_Operations ast' = ast_Operations ast ++
      [mkOperation (OpaqueSecret (CreateObjectMeta source) secretName
                      {[ "WONDERWALL_ENCRYPTION_KEY" := encoded ]}) OperationCreateIfNotExists] ∧
    DecodeBase64 base64_std encoded = Some key ∧
    ast_InitContainers ast' = ast_InitContainers ast ++ [c] ∧ EnvFromSecret secretName ∈ c_EnvFrom c.
Proof.
  unfold wonderwall_Create. intros H Hneed. rewrite Hneed in H. unfold makeEncryptionKeySecret in H.
  creator_cases. eexists _, _, _, _. split_and!; [eassumption|reflexivity| |reflexivity|].
  - apply DecodeBase64_Encode; [by left|by right].
  - apply elem_of_app. right. by left.
Qed.
End properties.

(** ** Witnesses *)

Section witnesses.
Local Existing Instances sample_liberator sample_url sample_machinery sample_structs.

Definition session_login : Configuration :=
  mkConfiguration "" true [] true "azuread" None ["azure-secret"] "".

Lemma session_login_ok :
  is_ok (wonderwall_Create sample_app NewAst (newOptions full_config) session_login) = true.
Proof. vm_compute. reflexivity. Qed.

Lemma encryption_key_roundtrip_witness :
  ∃ ast' encoded, wonderwall_Create sample_app NewAst (newOptions full_config) session_login = Ok ast' ∧
    DecodeBase64 base64_std encoded = Some "0123456789abcdef0123456789abcdef".
Proof.
  destruct (is_ok_elim _ session_login_ok) as [ast' H].
  destruct (encryption_key_roundtrip _ _ _ _ _ H eq_refl) as (key & n & encoded & c & Hk & _ & Hd & _).
  exists ast', encoded. split; [exact H|]. injection Hk as <-. exact Hd.
Defined.
End witnesses.
