(* ===== verification/Identity.v ===== *)
(** * Service, service account, Maskinporten, Texas

    Models [pkg/resourcecreator/service], [serviceaccount], [maskinporten] and
    [texas]: how a workload is reached, who it is to the platform, and the token
    sidecar for the clients the other creators made. *)

From S2P Require Import Prelude GoStrings Kube Api Vendor Config Util Resource Creators Samples Pod Observability Wonderwall.

Section identity.
Context `{L : Liberator} `{U : UrlLib} `{AM : ApiMachinery} `{SL : StructLib}.
Implicit Types (source : Source) (cfg : Options) (ast : Ast).

(** ** service *)

Definition service_targetPort source cfg : IntOrString :=
  if wonderwall_IsEnabled source cfg then FromInt wonderwall_Port else FromString DefaultPortName.

Definition service_Create source ast cfg : Ast :=
  let svc := v_Service (src_View source) in
  AppendOperation OperationCreateOrUpdate
    (mkObject (mkGVK "" "v1" "Service") (CreateObjectMeta source)
       (BService (mkServiceSpec "" "ClusterIP" {[ "app" := GetName source ]}
          [mkServicePort (ns_Protocol svc) "TCP" (ns_Port svc) (service_targetPort source cfg)]))) ast.

(** ** serviceaccount *)

Definition TokenVolumeName : string := "nais-token".
Definition TokenMountPath : string := "/var/run/secrets/nais.io/serviceaccount".
Definition TokenFileName : string := "token".
Definition TokenAudience : string := "nais".
Definition TokenExpirationSeconds : Z := 600.
Definition TokenPathEnvVar : string := "NAIS_SERVICE_ACCOUNT_TOKEN_PATH".

(** [google.GcpServiceAccountName] *)
Definition GcpServiceAccountName (appNamespaceHash projectId : string) : string :=
  appNamespaceHash +:+ "@" +:+ projectId +:+ ".iam.gserviceaccount.com".

Definition mountToken ast : Ast :=
  AppendEnv [env TokenPathEnvVar (TokenMountPath +:+ "/" +:+ TokenFileName)]
    (AppendVolumes
       [mkVolume TokenVolumeName (VServiceAccountToken TokenFileName TokenAudience TokenExpirationSeconds)]
       [mkVolumeMount TokenVolumeName true TokenMountPath ""] ast).

Definition serviceaccount_Create source ast cfg : Ast :=
  let objectMeta := CreateObjectMeta source in
  let objectMeta :=
    if IsGCPEnabled cfg
    then SetAnnotation "iam.gke.io/gcp-service-account"
           (GcpServiceAccountName (CreateAppNamespaceHash source) (GetGoogleProjectID cfg)) objectMeta
    else objectMeta in
  mountToken (AppendOperation OperationCreateIfNotExists
    (mkObject (mkGVK "" "v1" "ServiceAccount") objectMeta BServiceAccount) ast).

(** ** maskinporten *)

Definition maskinporten_secretName (name : string) : res error string :=
  ShortName ("maskinporten-" +:+ name) 63.

Definition maskinporten_client source (m : NaisMaskinporten) : res error (string * Object) :=
  name ← map_err (Wrapf "generate secret name: ") (maskinporten_secretName (GetName source));
  Ok (name, mkObject (mkGVK "nais.io" "v1" "MaskinportenClient") (CreateObjectMeta source)
              (BMaskinportenClient (mp_ConsumedScopes m) (mp_ExposedScopes m) name)).

(** The secret name of the created client, if any. *)
Definition maskinporten_Create source ast cfg : res error (option string * Ast) :=
  match v_Maskinporten (v_Auth (src_View source)) with
  | None => Ok (None, ast)
  | Some m =>
      if negb (mp_Enabled m) then Ok (None, ast)
      else if negb (IsMaskinportenEnabled cfg)
      then Err (Errorf "maskinporten is not available in this cluster")
      else
        let ast := SetAstLabel "maskinporten" "enabled" ast in
        '(name, client) ← maskinporten_client source m;
        let ast := AppendOperation OperationCreateOrUpdate client ast in
        Ok (Some name, WithAdditionalEnvFromSecret name
                         (WithAdditionalSecret name DefaultDigdiratorMaskinportenMountPath ast))
  end.

(** ** texas *)

Definition texas_Port : Z := 7164.
Definition texas_ProbePort : Z := 7165.

(** The secret names of the clients the other creators made. *)
Record Clients := mkClients {
  cl_Azure : option string; cl_IDPorten : option string; cl_Maskinporten : option string;
  cl_TokenX : option string }.

Definition Clients_list (c : Clients) : list (option string * string) :=
  [(cl_Azure c, "AZURE_ENABLED"); (cl_IDPorten c, "IDPORTEN_ENABLED");
   (cl_Maskinporten c, "MASKINPORTEN_ENABLED"); (cl_TokenX c, "TOKEN_X_ENABLED")].

Definition Clients_IsEmpty (c : Clients) : bool :=
  forallb (fun cl : option string * string => bool_decide (cl.1 = None)) (Clients_list c).

Definition Clients_EnvVars (c : Clients) : list EnvVar :=
  [ env "BIND_ADDRESS" ("127.0.0.1:" +:+ Itoa texas_Port);
    env "PROBE_BIND_ADDRESS" ("0.0.0.0:" +:+ Itoa texas_ProbePort);
    mkEnvVar "NAIS_POD_NAME" "" (Some (FieldRef "metadata.name")) ] ++
  omap (fun cl : option string * string => match cl.1 with Some _ => Some (env cl.2 "true") | None => None end)
    (Clients_list c).

Definition Clients_EnvFromSources (c : Clients) : list EnvFromSource :=
  omap (fun cl : option string * string => EnvFromSecret <$> cl.1) (Clients_list c).

(** applicationEnvVars are the environment variables exposed to the main
    application container. *)
Definition texas_applicationEnvVars : list EnvVar :=
  [ env "NAIS_TOKEN_ENDPOINT" ("http://127.0.0.1:" +:+ Itoa texas_Port +:+ "/api/v1/token");
    env "NAIS_TOKEN_EXCHANGE_ENDPOINT" ("http://127.0.0.1:" +:+ Itoa texas_Port +:+ "/api/v1/token/exchange");
    env "NAIS_TOKEN_INTROSPECTION_ENDPOINT" ("http://127.0.0.1:" +:+ Itoa texas_Port +:+ "/api/v1/introspect") ].

Definition texas_otelEnvVars source cfg : list EnvVar :=
  OtelEnvVars "texas" (GetNamespace source)
    [env "OTEL_RESOURCE_ATTRIBUTES"
       ("downstream.app.name=" +:+ GetName source +:+ ",downstream.app.namespace=" +:+ GetNamespace source +:+
        ",downstream.cluster.name=" +:+ GetClusterName cfg +:+ ",nais.pod.name=$(NAIS_POD_NAME)")]
    [] (obs_Otel (GetObservability cfg)).

(** Requests and limits given as quantities that must parse. *)
Definition quantities (cpu memory limit : string) : res error ResourceRequirements :=
  c ← MustParse cpu; m ← MustParse memory; l ← MustParse limit;
  Ok (mkResources {[ "cpu" := c; "memory" := m ]} {[ "memory" := l ]}).

Definition texas_container source cfg (clients : Clients) : res error Container :=
  resources ← quantities "10m" "32Mi" "256Mi";
  Ok {| c_Name := "texas"; c_Image := GetTexasImage cfg; c_Command := []; c_Args := [];
        c_Ports := [mkContainerPort "texas" texas_Port "TCP"; mkContainerPort "probe" texas_ProbePort "TCP"];
        c_Resources := resources; c_ImagePullPolicy := "IfNotPresent"; c_Lifecycle := None;
        c_Env := Clients_EnvVars clients ++ texas_otelEnvVars source cfg;
        c_EnvFrom := Clients_EnvFromSources clients;
        c_VolumeMounts := []; c_LivenessProbe := None; c_ReadinessProbe := None;
        c_StartupProbe := Some (sidecar_probe texas_ProbePort);
        c_SecurityContext := Some DefaultContainerSecurityContext; c_RestartPolicy := Some "Always" |}.

Definition texas_Create source ast cfg (clients : Clients) : res error Ast :=
  if negb (IsTexasEnabled cfg) || Clients_IsEmpty clients then Ok ast
  else if bool_decide (GetTexasImage cfg = "") then Err (Errorf "texas image not configured")
  else
    let port := v_Port (src_View source) in
    if bool_decide (port ∈ [texas_Port; texas_ProbePort])
    then Err (Errorf ("cannot use port '" +:+ Itoa port +:+ "'; conflicts with sidecar"))
    else
      container ← texas_container source cfg clients;
      Ok (SetAstLabel "otel" "enabled" (SetAstLabel "texas" "enabled"
            (AppendInitContainers [container] (AppendEnv texas_applicationEnvVars ast)))).
End identity.

(** ** Lemmas *)

Section identity_lemmas.
Context `{L : Liberator} `{U : UrlLib} `{AM : ApiMachinery} `{SL : StructLib}.
Implicit Types (source : Source) (cfg : Options) (ast : Ast).

Lemma service_appends source ast cfg : appends (owned source) ast (service_Create source ast cfg).
Proof. unfold service_Create. solve_appends. Qed.

Lemma serviceaccount_appends source ast cfg :
  appends (owned source) ast (serviceaccount_Create source ast cfg).
Proof.
  unfold serviceaccount_Create, mountToken. solve_appends. destruct (IsGCPEnabled cfg); solve_owned.
Qed.

Lemma maskinporten_appends source ast cfg r ast' :
  maskinporten_Create source ast cfg = Ok (r, ast') → appends (owned source) ast ast'.
Proof.
  unfold maskinporten_Create, maskinporten_client, WithAdditionalEnvFromSecret, WithAdditionalSecret.
  intros H. creator_cases; solve_appends.
Qed.

Lemma texas_appends source ast cfg clients ast' :
  texas_Create source ast cfg clients = Ok ast' → appends (owned source) ast ast'.
Proof. unfold texas_Create. intros H. creator_cases; solve_appends. Qed.
End identity_lemmas.

(** ** Properties *)

Section properties.
Context `{L : Liberator} `{U : UrlLib} `{AM : ApiMachinery} `{SL : StructLib}.


(** A workload that disables ID-porten and leaves its sidecar enabled is cut
    off: its Service targets the login proxy's port, and no creator adds a
    proxy. *)
Lemma service_without_login_proxy source week ast cfg r1 ast1 r2 ast2 ast3 idp :
  azure_Create source week ast cfg = Ok (r1, ast1) → idporten_Create source ast1 cfg = Ok (r2, ast2) →
  login_Create source ast2 cfg = Ok ast3 → login_proxies ast = [] →
  v_IDPorten (v_Auth (src_View source)) = Some idp → idp_Enabled idp = false →
  idPortenEnabled source = true → azureEnabled source = false → loginEnabled source = false →
  IsWonderwallEnabled cfg = true →
  service_targetPort source cfg = FromInt wonderwall_Port ∧ login_proxies ast3 = [].
Proof.
  intros [_ Ha]%azure_Create_adds [[_ Hi] _]%idporten_Create_adds [_ Hl]%login_Create_adds H0 Hidp He
    H1 H2 H3 Hw.
  rewrite Hidp, He in Hi. rewrite H2 in Ha. rewrite H3 in Hl. split; [|congruence].
  unfold service_targetPort, wonderwall_IsEnabled. by rewrite Hw, H1.
Qed.
End properties.

(** ** Witnesses *)

Section witnesses.
Local Existing Instances sample_liberator sample_url sample_machinery sample_structs.

Definition login_app (auth : AuthView) : Source :=
  mkSource app_gvk (src_Meta sample_app) KApplication
    (view_of "repo/app:1" ["https://app.nais.io"] [] auth plain_platform no_backing) emptyStatus.

Definition azure_app : Source :=
  login_app (mkAuthView
    (Some (mkAzure (Some (mkAzureApplication true [] "nav.no" None None None))
             (Some (mkWonderwall true true [] None)))) None None None).


Definition idporten_app : Source :=
  login_app (mkAuthView None
    (Some (mkIDPorten false (Some (mkIDPortenSidecar (mkWonderwall true true [] None) "Level4" "nb"))))
    None None).

Lemma service_without_login_proxy_witness :
  service_targetPort idporten_app (newOptions full_config) = FromInt wonderwall_Port ∧
  login_proxies NewAst = [].
Proof.
  eapply (service_without_login_proxy idporten_app (2024, 7)%Z NewAst (newOptions full_config));
    reflexivity.
Defined.
End witnesses.
