(* ===== verification/Platform.v ===== *)
(** * Platform features: leader election, certificate authorities, web proxy

    Models [pkg/resourcecreator/leaderelection], [certificateauthority] and
    [proxyopts], and [pkg/proxyopts]. *)

From S2P Require Import Prelude GoStrings Kube Api Vendor Config Resource Creators Samples Pod Wonderwall Identity.

(** ** leaderelection *)

Definition elector_Port : Z := 4040.
Definition elector_ProbePort : Z := 4041.

Section leaderelection.
Context `{L : Liberator} `{AM : ApiMachinery}.
Implicit Types (source : Source) (cfg : Options) (ast : Ast).

Definition elector_roleBinding (app role : ObjectMeta) : Object :=
  mkObject (mkGVK "rbac.authorization.k8s.io" "v1" "RoleBinding") role
    (BRoleBinding "elector" [(Name app, Namespace app)]).

Definition electorEnv : list EnvVar :=
  [ env "ELECTOR_PATH" "localhost:4040";
    env "ELECTOR_GET_URL" ("http://localhost:" +:+ Itoa elector_Port +:+ "/");
    env "ELECTOR_SSE_URL" ("http://localhost:" +:+ Itoa elector_Port +:+ "/sse") ].

Definition elector_container (name namespace image : string) : res error Container :=
  resources ← quantities "10m" "64Mi" "128Mi";
  Ok {| c_Name := "elector"; c_Image := image; c_Command := [];
        c_Args := ["--election=" +:+ name; "--election-namespace=" +:+ namespace;
                   "--http=localhost:" +:+ Itoa elector_Port;
                   "--probe-address=0.0.0.0:" +:+ Itoa elector_ProbePort];
        c_Ports := [mkContainerPort "" elector_Port "TCP"];
        c_Resources := resources; c_ImagePullPolicy := "IfNotPresent"; c_Lifecycle := None;
        c_Env := [env "ELECTOR_LOG_FORMAT" "json"]; c_EnvFrom := []; c_VolumeMounts := [];
        c_LivenessProbe := None; c_ReadinessProbe := None;
        c_StartupProbe := Some (sidecar_probe elector_ProbePort);
        c_SecurityContext := Some DefaultContainerSecurityContext; c_RestartPolicy := Some "Always" |}.

Definition leaderelection_Create source ast cfg : res error Ast :=
  let v := src_View source in
  if negb (v_LeaderElection v) then Ok ast
  else if bool_decide (GetLeaderElectionImage cfg = "")
  then Err (Errorf "leader election image not configured")
  else if bool_decide (v_Port v ∈ [elector_Port; elector_ProbePort])
  then Err (Errorf ("cannot use port '" +:+ Itoa (v_Port v) +:+
                    "'; conflicts with leader election sidecar"))
  else
    let meta := CreateObjectMeta source in
    name ← map_err (Wrapf "failed to build short name for role binding: ")
             (ShortName ("elector-" +:+ Name meta) 63);
    let ast := AppendOperation OperationCreateOrRecreate (elector_roleBinding meta (SetName name meta)) ast in
    container ← elector_container (GetName source) (GetNamespace source) (GetLeaderElectionImage cfg);
    Ok (PrependEnv electorEnv (AppendInitContainers [container] ast)).

Lemma leaderelection_appends source ast cfg ast' :
  leaderelection_Create source ast cfg = Ok ast' → appends (owned source) ast ast'.
Proof. unfold leaderelection_Create, elector_roleBinding. intros H. creator_cases; solve_appends. Qed.
End leaderelection.

(** ** certificateauthority *)

Definition CA_BUNDLE_PEM_CONFIGMAP_NAME : string := "ca-bundle-pem".
Definition CA_BUNDLE_PEM_SOURCE_FILENAME : string := "ca-bundle.pem".
Definition CA_BUNDLE_JKS_CONFIGMAP_NAME : string := "ca-bundle-jks".
Definition CA_BUNDLE_JKS_SOURCE_FILENAME : string := "ca-bundle.jks".
Definition NAV_TRUSTSTORE_PATH : string := "/etc/ssl/certs/java/cacerts".
Definition NAV_TRUSTSTORE_PASSWORD : string := "changeme".
Definition NODE_EXTRA_CA_CERT_PATH : string := "/etc/pki/tls/certs/ca-bundle.crt".

Definition certFiles : list string :=
  ["/etc/ssl/certs/ca-certificates.crt"; "/etc/pki/tls/certs/ca-bundle.crt"; "/etc/ssl/ca-bundle.pem";
   "/etc/pki/tls/cacert.pem"; "/etc/pki/ca-trust/extracted/pem/tls-ca-bundle.pem"].

Definition ca_envs : list EnvVar :=
  [ env "NAV_TRUSTSTORE_PATH" NAV_TRUSTSTORE_PATH; env "NAV_TRUSTSTORE_PASSWORD" NAV_TRUSTSTORE_PASSWORD;
    env "NODE_EXTRA_CA_CERTS" NODE_EXTRA_CA_CERT_PATH ].

Definition certificateAuthorityVolumeMounts : list VolumeMount :=
  mkVolumeMount CA_BUNDLE_JKS_CONFIGMAP_NAME true NAV_TRUSTSTORE_PATH CA_BUNDLE_JKS_SOURCE_FILENAME ::
  map (fun path => mkVolumeMount CA_BUNDLE_PEM_CONFIGMAP_NAME true path CA_BUNDLE_PEM_SOURCE_FILENAME)
    certFiles.

Definition certificateAuthorityVolume (configMapName : string) : Volume :=
  mkVolume configMapName (VConfigMap configMapName).

Definition certificateauthority_Create (source : Source) (ast : Ast) (cfg : Options) : Ast :=
  if negb (IsNAVCABundleEnabled cfg) || v_SkipCABundle (v_Platform (src_View source)) then ast
  else AppendVolumes [certificateAuthorityVolume CA_BUNDLE_JKS_CONFIGMAP_NAME;
                      certificateAuthorityVolume CA_BUNDLE_PEM_CONFIGMAP_NAME]
         certificateAuthorityVolumeMounts (PrependEnv ca_envs ast).

Lemma certificateauthority_appends (P : Operation → Prop) source ast cfg :
  appends P ast (certificateauthority_Create source ast cfg).
Proof. unfold certificateauthority_Create. case_match; solve_appends. Qed.

(** Every mount of the bundle names one of its volumes. *)
Example ca_mounts_have_volumes :
  forallb (fun m => bool_decide (vm_Name m ∈ [CA_BUNDLE_JKS_CONFIGMAP_NAME; CA_BUNDLE_PEM_CONFIGMAP_NAME]))
    certificateAuthorityVolumeMounts = true.
Proof. reflexivity. Qed.

(** ** pkg/proxyopts *)

Record javaOption := mkJavaOption { jo_Key : string; jo_Value : string }.

Definition javaOption_Format (o : javaOption) : string := "-D" +:+ jo_Key o +:+ "=" +:+ jo_Value o.
Definition javaOptions_Format (o : list javaOption) : string := Join (map javaOption_Format o) " ".

(** The position after the last occurrence of a character. *)
Fixpoint after_last (c : ascii) (s : string) : option string :=
  match s with
  | EmptyString => None
  | String a s' =>
      match after_last c s' with
      | Some t => Some t
      | None => if Ascii.eqb a c then Some s' else None
      end
  end.

(** [URL.Hostname] and [URL.Port]: the host without and with its port, a literal
    address without its brackets. *)
Definition splitHostPort (hostPort : string) : string * string :=
  let '(host, port) :=
    match after_last ":" hostPort with
    | Some t => if all_chars (fun a => (48 <=? nat_of_ascii a)%nat && (nat_of_ascii a <=? 57)%nat) t
                then (String.substring 0 (slen hostPort - slen t - 1) hostPort, t) else (hostPort, "")
    | None => (hostPort, "")
    end in
  (if HasPrefix host "[" && HasSuffix host "]" then String.substring 1 (slen host - 2) host else host, port).

Definition Hostname (u : URL) : string := (splitHostPort (url_Host u)).1.
Definition Port (u : URL) : string := (splitHostPort (url_Host u)).2.

Example host_port_1 : splitHostPort "proxy.local:8088" = ("proxy.local", "8088"). Proof. reflexivity. Qed.
Example host_port_2 : splitHostPort "[::1]:80" = ("::1", "80"). Proof. reflexivity. Qed.
Example host_port_3 : splitHostPort "proxy.local" = ("proxy.local", ""). Proof. reflexivity. Qed.

Definition httpOpts `{UrlLib} (proxyURL : string) : res error (list javaOption) :=
  if bool_decide (slen proxyURL = 0%nat) then Ok []
  else
    u ← url_Parse proxyURL;
    if bool_decide (slen (Hostname u) = 0%nat) || bool_decide (slen (Port u) = 0%nat)
    then Err (Errorf "if specifying a proxy URL, both hostname and port is required")
    else Ok [mkJavaOption "http.proxyHost" (Hostname u); mkJavaOption "https.proxyHost" (Hostname u);
             mkJavaOption "http.proxyPort" (Port u); mkJavaOption "https.proxyPort" (Port u)].

(** One host of [mangleWildcard]. *)
Definition mangle (host : string) : string := if HasPrefix host "." then "*" +:+ host else host.

Definition mangleWildcard (hosts : list string) : list string := map mangle hosts.

Definition noProxyOpts (noProxy : string) : list javaOption :=
  if bool_decide (slen noProxy = 0%nat) then []
  else [mkJavaOption "http.nonProxyHosts" (Join (mangleWildcard (Split1 noProxy ",")) "|")].

Definition JavaProxyOptions `{UrlLib} (proxyURL noProxy : string) : res error string :=
  match httpOpts proxyURL with
  | Err e => Err (Textf "error in parsing proxy URL: " e)
  | Ok flags => Ok (javaOptions_Format (flags ++ noProxyOpts noProxy))
  end.

(** ** resourcecreator/proxyopts *)

Definition appendDualCaseEnvVar (key value : string) (vars : list EnvVar) : list EnvVar :=
  vars ++ [env (ToUpper key) value; env (ToLower key) value].

Section proxyopts.
Context `{L : Liberator} `{U : UrlLib}.

Definition EnvironmentVariables (cfg : Options) : res error (list EnvVar) :=
  let options := GetWebProxyOptions cfg in
  let proxyURL := proxy_Address options in
  let noProxy := Join (proxy_Exclude options) "," in
  let vars := if bool_decide (0 < slen proxyURL)%nat
              then appendDualCaseEnvVar "HTTPS_PROXY" proxyURL (appendDualCaseEnvVar "HTTP_PROXY" proxyURL [])
              else [] in
  let vars := if bool_decide (0 < slen noProxy)%nat then appendDualCaseEnvVar "NO_PROXY" noProxy vars
              else vars in
  match JavaProxyOptions proxyURL noProxy with
  | Ok javaOpts =>
      Ok (if bool_decide (0 < slen javaOpts)%nat then vars ++ [env "JAVA_PROXY_OPTIONS" javaOpts] else vars)
  | Err e => Err (Wrapf "convert webproxy settings to Java format: " e)
  end.

Definition proxyopts_Create (source : Source) (ast : Ast) (cfg : Options) : res error Ast :=
  if negb (v_WebProxy (v_Platform (src_View source))) || IsGCPEnabled cfg then Ok ast
  else
    envs ← map_err (Wrapf "generate proxy environment variables: ") (EnvironmentVariables cfg);
    Ok (PrependEnv envs ast).

Lemma proxyopts_appends (P : Operation → Prop) source ast cfg ast' :
  proxyopts_Create source ast cfg = Ok ast' → appends P ast ast'.
Proof. unfold proxyopts_Create. intros H. creator_cases; solve_appends. Qed.
End proxyopts.

(** ** The vectors of proxyopts_test.go *)

Section vectors.
Local Existing Instance sample_url.

Example java_1 : JavaProxyOptions "http://foo.bar:1234" "host1,host2,.wildcard.local,.local,foo" =
  Ok "-Dhttp.proxyHost=foo.bar -Dhttps.proxyHost=foo.bar -Dhttp.proxyPort=1234 -Dhttps.proxyPort=1234 -Dhttp.nonProxyHosts=host1|host2|*.wildcard.local|*.local|foo".
Proof. vm_compute. reflexivity. Qed.
Example java_2 : JavaProxyOptions "" "" = Ok "". Proof. reflexivity. Qed.
Example java_3 : is_ok (JavaProxyOptions "http://proxy" "") = false. Proof. reflexivity. Qed.
End vectors.
