(* ===== verification/Vault.v ===== *)
(** * Vault secrets

    Models [pkg/resourcecreator/vault] (vault.go, vaultcontainer.go): the init
    container that fetches a workload's secrets and the mounts that carry them. *)

From S2P Require Import Prelude GoStrings Kube Api Vendor Config Resource Creators Samples Pod.

Section vault.
Context `{L : Liberator}.
Implicit Types (source : Source) (ast : Ast) (paths : list SecretPath).

Definition defaultVaultTokenFileName : string := PathJoin [DefaultVaultMountPath; "vault_token"].

(** The loop of [validateSecretPaths]: [m] maps the mount paths seen to their
    secrets. *)
Fixpoint validate_loop paths (m : gmap string string) : res error unit :=
  match paths with
  | [] => Ok tt
  | s :: rest =>
      match m !! sp_MountPath s with
      | Some old =>
          Err (Errorf ("illegal to mount multiple Vault secrets: " +:+ sp_KvPath s +:+ " and " +:+ old +:+
                       " to the same path: " +:+ sp_MountPath s))
      | None => validate_loop rest (<[sp_MountPath s := sp_KvPath s]> m)
      end
  end.

Definition validateSecretPaths paths : res error unit := validate_loop paths ∅.

(** Whether a path is mounted at the default mount path. *)
Definition at_default_mount (p : SecretPath) : bool :=
  bool_decide (Clean DefaultVaultMountPath = Clean (sp_MountPath p)).

Definition defaultPathExists paths (kvPath : string) : bool :=
  existsb (fun p => at_default_mount p || bool_decide (Clean kvPath = Clean (sp_KvPath p))) paths.

Definition createDefaultMount : VolumeMount :=
  mkVolumeMount "vault-volume" false DefaultVaultMountPath (PathJoin ["vault"; DefaultVaultMountPath]).

Definition createInitContainerMounts paths : list VolumeMount :=
  map (fun p => mkVolumeMount "vault-volume" false (sp_MountPath p) (PathJoin ["vault"; sp_MountPath p])) paths ++
  (if existsb at_default_mount paths then [] else [createDefaultMount]).

Definition defaultSecretPath source (kvPath : string) : SecretPath :=
  mkSecretPath DefaultVaultMountPath (kvPath +:+ "/" +:+ GetName source +:+ "/" +:+ GetNamespace source) "".

(** The argument that fetches one secret. *)
Definition secret_arg (p : SecretPath) : string :=
  let format := if bool_decide (0 < slen (sp_Format p))%nat then sp_Format p else "flatten" in
  let paramname := if bool_decide (format = "flatten") then "dir" else "file" in
  "-cn=secret:" +:+ sp_KvPath p +:+ ":" +:+ paramname +:+ "=" +:+ sp_MountPath p +:+ ",fmt=" +:+ format +:+
  ",retries=1".

Definition vault_createInitContainer source (options : VaultConfig) paths : Container :=
  {| c_Name := "vks-init"; c_Image := vault_InitContainerImage options; c_Command := [];
     c_Args := ["-v=10"; "-logtostderr"; "-one-shot"; "-vault=" +:+ vault_Address options;
                "-save-token=" +:+ defaultVaultTokenFileName] ++ map secret_arg paths;
     c_Ports := []; c_Resources := mkResources ∅ ∅; c_ImagePullPolicy := ""; c_Lifecycle := None;
     c_Env := [env "VAULT_AUTH_METHOD" "kubernetes"; env "VAULT_SIDEKICK_ROLE" (GetName source);
               env "VAULT_K8S_LOGIN_PATH" (vault_AuthPath options)];
     c_EnvFrom := []; c_VolumeMounts := createInitContainerMounts paths;
     c_LivenessProbe := None; c_ReadinessProbe := None; c_StartupProbe := None;
     c_SecurityContext := Some DefaultContainerSecurityContext; c_RestartPolicy := None |}.

(** The first path without a mount path, with its number. *)
Fixpoint unmounted paths (i : Z) : option Z :=
  match paths with
  | [] => None
  | p :: rest => if bool_decide (slen (sp_MountPath p) = 0%nat) then Some i else unmounted rest (i + 1)
  end.

(** The secrets to fetch: the user's and, unless one takes its place, the
    workload's own. *)
Definition all_paths source (options : VaultConfig) paths : list SecretPath :=
  if defaultPathExists paths (vault_KeyValuePath options) then paths
  else paths ++ [defaultSecretPath source (vault_KeyValuePath options)].

Definition vault_Create source ast (cfg : Options) : res error Ast :=
  if negb (IsVaultEnabled cfg) then Ok ast
  else
    match v_Vault (v_Platform (src_View source)) with
    | None => Err (Panic "nil pointer dereference")
    | Some naisVault =>
        if negb (nv_Enabled naisVault) then Ok ast
        else
          match unmounted (nv_Paths naisVault) 0 with
          | Some i => Err (Errorf ("vault config #" +:+ Itoa i +:+ ": mount path not specified"))
          | None =>
              let options := GetVaultOptions cfg in
              let paths := all_paths source options (nv_Paths naisVault) in
              _ ← validateSecretPaths paths;
              Ok (AppendVolumes [mkVolume "vault-volume" (VEmptyDir "Memory")]
                    (createInitContainerMounts paths)
                    (AppendInitContainers [vault_createInitContainer source options paths] ast))
          end
    end.

(** ** Lemmas *)

Lemma vault_appends (P : Operation → Prop) source ast cfg ast' :
  vault_Create source ast cfg = Ok ast' → appends P ast ast'.
Proof. unfold vault_Create. intros H. creator_cases; solve_appends. Qed.

Lemma validate_loop_ok paths m :
  validate_loop paths m = Ok tt ↔
  NoDup (map sp_MountPath paths) ∧ ∀ p, p ∈ paths → m !! sp_MountPath p = None.
Proof.
  revert m. induction paths as [|p paths IH]; intros m; simpl.
  { split; [|done]. intros _. split; [constructor|set_solver]. }
  destruct (m !! sp_MountPath p) as [old|] eqn:Hm.
  - split; [done|]. intros [_ H]. rewrite (H p) in Hm; [done|by left].
  - rewrite IH, NoDup_cons. split.
    + intros [Hnd H]. split_and!; [|done|].
      * intros (q & Hq & Hin)%list_elem_of_fmap. specialize (H q Hin).
        by rewrite <-Hq, lookup_insert_eq in H.
      * intros q [->|Hq]%elem_of_cons; [done|]. specialize (H q Hq).
        by apply lookup_insert_None in H as [? _].
    + intros [[Hni Hnd] H]. split; [done|]. intros q Hq. apply lookup_insert_None. split.
      * apply H. by right.
      * intros Heq. apply Hni. rewrite Heq. by apply list_elem_of_fmap_2.
Qed.

(** A workload with Vault gets every secret it asked for, once: the init
    container fetches and mounts all the user's paths, and the workload's own path
    unless the user placed something at the default mount or asked for the
    platform's key-value path; a volume is always mounted at the default mount
    path, where the token is saved; no two mounts share a mount path, and all are
    backed by the in-memory volume added to the pod. *)
Lemma vault_mounts source ast cfg ast' v :
  vault_Create source ast cfg = Ok ast' → IsVaultEnabled cfg = true →
  v_Vault (v_Platform (src_View source)) = Some v → nv_Enabled v = true →
  ∃ mounts c, ast_VolumeMounts ast' = ast_VolumeMounts ast ++ mounts ∧
    ast_InitContainers ast' = ast_InitContainers ast ++ [c] ∧ c_VolumeMounts c = mounts ∧
    NoDup (map vm_MountPath mounts) ∧
    (∀ p, p ∈ nv_Paths v → sp_MountPath p ≠ "" ∧ secret_arg p ∈ c_Args c ∧ sp_MountPath p ∈ map vm_MountPath mounts) ∧
    (∃ m, m ∈ mounts ∧ Clean (vm_MountPath m) = Clean DefaultVaultMountPath) ∧
    (∀ m, m ∈ mounts → vm_Name m = "vault-volume") ∧
    ast_Volumes ast' = ast_Volumes ast ++ [mkVolume "vault-volume" (VEmptyDir "Memory")].
Proof.
  intros H He Hv Hen. unfold vault_Create in H. rewrite He, Hv, Hen in H. cbn [negb] in H.
  destruct (unmounted _ _) eqn:Hu; [done|]. set (paths := all_paths _ _ _) in *.
  apply res_bind_ok_inv in H as ([] & Hval & [= <-]).
  apply validate_loop_ok in Hval as [Hnd _].
  assert (Hin : ∀ p, p ∈ nv_Paths v → p ∈ paths).
  { intros p Hp. unfold paths, all_paths. case_match; [done|]. apply elem_of_app. by left. }
  assert (Hmp : map vm_MountPath (createInitContainerMounts paths) =
    map sp_MountPath paths ++ (if existsb at_default_mount paths then [] else [DefaultVaultMountPath])).
  { unfold createInitContainerMounts. rewrite map_app, map_map. by case_match. }
  do 2 eexists. cbn [ast_VolumeMounts ast_InitContainers ast_Volumes AppendVolumes AppendInitContainers].
  split_and!; [done|done|done| | | | |done].
  - rewrite Hmp. destruct (existsb at_default_mount paths) eqn:Hex; [by rewrite app_nil_r|].
    apply NoDup_app. split_and!; [done| |apply NoDup_singleton].
    intros mp (p & -> & Hp)%list_elem_of_fmap Hd%list_elem_of_singleton.
    assert (existsb at_default_mount paths = true); [|congruence].
    apply existsb_exists. exists p. split; [by apply list_elem_of_In|].
    unfold at_default_mount. by rewrite Hd, bool_decide_eq_true_2.
  - intros p Hp. split_and!.
    + clear -Hu Hp. revert Hu. generalize 0%Z. induction (nv_Paths v) as [|q qs IH]; intros i.
      { by apply elem_of_nil in Hp. }
      simpl. case_bool_decide as Hq; [done|]. apply elem_of_cons in Hp as [->|Hp]; [|by apply IH].
      intros _ Hz. by rewrite Hz in Hq.
    + apply elem_of_app. right. apply list_elem_of_fmap_2. by apply Hin.
    + rewrite Hmp. apply elem_of_app. left. apply list_elem_of_fmap_2. by apply Hin.
  - unfold createInitContainerMounts. destruct (existsb at_default_mount paths) eqn:Hex.
    + apply existsb_exists in Hex as (p & Hp%list_elem_of_In & Hd). unfold at_default_mount in Hd.
      apply bool_decide_eq_true in Hd.
      exists (mkVolumeMount "vault-volume" false (sp_MountPath p) (PathJoin ["vault"; sp_MountPath p])).
      split; [|exact (eq_sym Hd)]. apply elem_of_app. left. apply list_elem_of_fmap. by exists p.
    + exists createDefaultMount. split; [|done]. apply elem_of_app. right. by left.
  - unfold createInitContainerMounts. intros m [(p & -> & _)%list_elem_of_fmap|Hm]%elem_of_app; [done|].
    case_match; [by apply elem_of_nil in Hm|]. by apply list_elem_of_singleton in Hm as ->.
Qed.
End vault.

Section witnesses.
Local Existing Instance sample_liberator.

Definition vault_app : Source :=
  mkSource app_gvk (src_Meta sample_app) KApplication
    (view_of "repo/app:1" [] [] no_auth
       (mkPlatformView (Some (mkNaisVault true [mkSecretPath "/secrets/db" "/kv/db" "env"])) false false None None)
       no_backing) emptyStatus.

Lemma vault_mounts_witness :
  ∃ ast mounts, vault_Create vault_app NewAst (newOptions full_config) = Ok ast ∧
    ast_VolumeMounts ast = mounts ∧ NoDup (map vm_MountPath mounts) ∧ length mounts = 2%nat.
Proof.
  destruct (vault_Create vault_app NewAst (newOptions full_config)) as [ast|e] eqn:H;
    [|exfalso; vm_compute in H; discriminate].
  destruct (vault_mounts vault_app NewAst (newOptions full_config) ast _ H eq_refl eq_refl eq_refl)
    as (mounts & c & Hm & _ & _ & Hnd & _).
  exists ast, mounts. split; [reflexivity|]. split; [exact Hm|]. split; [exact Hnd|].
  vm_compute in H. injection H as <-. cbn in Hm. rewrite <-Hm. reflexivity.
Defined.
End witnesses.
