(* ===== verification/Aiven.v ===== *)
(** * Aiven services: Kafka, OpenSearch, Valkey

    Models [pkg/resourcecreator/aiven]: the AivenApplication a workload requests
    its services with, and the references to the secrets it is given. *)

From S2P Require Import Prelude GoStrings Regex Kube Api Vendor Config Resource Creators Samples Pod.

Section aiven.
Context `{L : Liberator}.
Implicit Types (source : Source) (ast : Ast) (cfg : Options).

(** [week] is what [time.Now().ISOWeek()] returns while the resources are generated. *)
Definition generateAivenSecretName (week : Z * Z) (appName aivenService generation : string)
    : res error string :=
  SuffixedShortName ("aiven-" +:+ aivenService +:+ "-" +:+ appName)
    (Itoa week.1 +:+ "-" +:+ Itoa week.2 +:+ "-" +:+ generation) 63.

Definition makeSecretEnvVar (key secretName : string) : EnvVar :=
  mkEnvVar key "" (Some (SecretKeyRef secretName key false)).

Definition makeOptionalSecretEnvVar (key secretName : string) : EnvVar :=
  mkEnvVar key "" (Some (SecretKeyRef secretName key true)).

(** [[^a-z0-9]] *)
Definition not_alnum (a : ascii) : bool := negb (is_lower a || is_digit a).

Definition envVarSuffix (instanceName : string) : string := ToUpper (map_class not_alnum "_" instanceName).

(** ** Kafka *)

Definition kafka_path (file : string) : string := PathJoin [DefaultKafkaratorMountPath; file].

Definition kafka_env (secretName : string) : list EnvVar :=
  let s key := makeSecretEnvVar key secretName in
  [ s "KAFKA_CERTIFICATE"; s "KAFKA_PRIVATE_KEY"; s "KAFKA_BROKERS"; s "KAFKA_SCHEMA_REGISTRY";
    s "KAFKA_SCHEMA_REGISTRY_USER"; s "KAFKA_SCHEMA_REGISTRY_PASSWORD"; s "KAFKA_CA";
    makeOptionalSecretEnvVar "AIVEN_CA" secretName; s "KAFKA_CREDSTORE_PASSWORD";
    env "KAFKA_CERTIFICATE_PATH" (kafka_path "kafka.crt");
    env "KAFKA_PRIVATE_KEY_PATH" (kafka_path "kafka.key");
    env "KAFKA_CA_PATH" (kafka_path "ca.crt");
    env "KAFKA_KEYSTORE_PATH" (kafka_path "client.keystore.p12");
    env "KAFKA_TRUSTSTORE_PATH" (kafka_path "client.truststore.jks") ].

Definition addKafkaEnvVariables (secretName : string) ast : Ast := PrependEnv (kafka_env secretName) ast.

Definition createKafkaKeyToPaths (secretName : string) ast : Ast :=
  let paths :=
    [ mkKeyToPath "KAFKA_CERTIFICATE" "kafka.crt"; mkKeyToPath "KAFKA_PRIVATE_KEY" "kafka.key";
      mkKeyToPath "KAFKA_CA" "ca.crt"; mkKeyToPath "client.keystore.p12" "client.keystore.p12";
      mkKeyToPath "client.truststore.jks" "client.truststore.jks" ] in
  AppendVolumes [FromFilesSecretVolume "aiven-credentials" secretName paths]
    [FromFilesVolumeMount "aiven-credentials" DefaultKafkaratorMountPath "" true] ast.

Definition CreateStream source (kafka : NaisKafka) : Object :=
  mkObject (mkGVK "kafka.nais.io" "v1" "Stream") (CreateObjectMeta source) (BStream (nk_Pool kafka)).

(** The AST and the specification of the AivenApplication are changed together;
    the flag says whether the service is used. *)
Definition Kafka source (week : Z * Z) cfg (generation : string) ast (spec : AivenSpec)
    : res error (bool * Ast * AivenSpec) :=
  secretName ← generateAivenSecretName week (GetName source) "kafka" generation;
  match v_Kafka (v_Backing (src_View source)) with
  | Some kafka =>
      if negb (IsKafkaratorEnabled cfg) then Ok (false, ast, spec)
      else
        let ast := SetAstLabel "kafka" "enabled" (addKafkaEnvVariables secretName ast) in
        let spec := mkAivenSpec (Some (nk_Pool kafka, secretName)) (avn_OpenSearch spec) (avn_Valkey spec) in
        let ast :=
          if nk_Streams kafka then
            let stream := CreateStream source kafka in
            PrependEnv [env "KAFKA_STREAMS_APPLICATION_ID" (TopicPrefix (o_Meta stream))]
              (AppendOperation OperationCreateOrUpdate stream ast)
          else ast in
        Ok (true, createKafkaKeyToPaths secretName ast, spec)
  | None => Ok (false, ast, spec)
  end.

(** ** OpenSearch *)

Definition addOpenSearchEnvVariables (secretName : string) ast : Ast :=
  PrependEnv
    [ makeSecretEnvVar "OPEN_SEARCH_USERNAME" secretName; makeSecretEnvVar "OPEN_SEARCH_PASSWORD" secretName;
      makeSecretEnvVar "OPEN_SEARCH_URI" secretName; makeOptionalSecretEnvVar "OPEN_SEARCH_HOST" secretName;
      makeOptionalSecretEnvVar "OPEN_SEARCH_PORT" secretName ] ast.

Definition OpenSearch source (week : Z * Z) (generation : string) ast (spec : AivenSpec)
    : res error (bool * Ast * AivenSpec) :=
  match v_OpenSearch (v_Backing (src_View source)) with
  | None => Ok (false, ast, spec)
  | Some openSearch =>
      if bool_decide (an_Instance openSearch = "")
      then Err (Errorf "OpenSearch enabled, but no instance specified")
      else
        secretName ← generateAivenSecretName week (GetName source) "opensearch" generation;
        let ast := PrependEnv [makeOptionalSecretEnvVar "AIVEN_CA" secretName] ast in
        let ast := addOpenSearchEnvVariables secretName ast in
        let name := OpenSearchFullyQualifiedName (an_Instance openSearch) (GetNamespace source) in
        Ok (true, SetAstLabel "aiven" "enabled" ast,
            mkAivenSpec (avn_Kafka spec) (Some (name, an_Access openSearch, secretName)) (avn_Valkey spec))
  end.

(** ** Valkey *)

Definition addValkeyEnvVariables (secretName instanceName : string) ast : Ast :=
  let suffix := envVarSuffix instanceName in
  let s key := makeSecretEnvVar (key +:+ suffix) secretName in
  let o key := makeOptionalSecretEnvVar (key +:+ suffix) secretName in
  PrependEnv
    [ s "VALKEY_USERNAME_"; s "VALKEY_PASSWORD_"; s "VALKEY_URI_"; o "VALKEY_HOST_"; o "VALKEY_PORT_";
      o "VALKEY_REPLICA_URI_"; o "VALKEY_REPLICA_HOST_"; o "VALKEY_REPLICA_PORT_" ] ast.

Definition addRedisEnvVariables (secretName instanceName : string) ast : Ast :=
  let suffix := envVarSuffix instanceName in
  let s key := makeSecretEnvVar (key +:+ suffix) secretName in
  let o key := makeOptionalSecretEnvVar (key +:+ suffix) secretName in
  PrependEnv [ s "REDIS_USERNAME_"; s "REDIS_PASSWORD_"; s "REDIS_URI_"; o "REDIS_HOST_"; o "REDIS_PORT_" ] ast.

(** One instance of the loop of [Valkey]. *)
Definition add_valkey source (week : Z * Z) (generation : string) (acc : Ast * AivenSpec)
    (valkey : AivenInstance) : res error (Ast * AivenSpec) :=
  let '(ast, spec) := acc in
  if bool_decide (an_Instance valkey = "") then Err (Errorf "Valkey requires instance name")
  else
    secretName ← generateAivenSecretName week (GetName source) ("valkey-" +:+ an_Instance valkey) generation;
    let ast := addValkeyEnvVariables secretName (an_Instance valkey) ast in
    let ast := addRedisEnvVariables secretName (an_Instance valkey) ast in
    let ast := PrependEnv [makeOptionalSecretEnvVar "AIVEN_CA" secretName] ast in
    Ok (ast, mkAivenSpec (avn_Kafka spec) (avn_OpenSearch spec)
               (avn_Valkey spec ++ [(an_Instance valkey, an_Access valkey, secretName)])).

Definition Valkey source (week : Z * Z) cfg (generation : string) ast (spec : AivenSpec)
    : res error (bool * Ast * AivenSpec) :=
  match v_Valkey (v_Backing (src_View source)) with
  | [] => Ok (false, ast, spec)
  | valkeyes =>
      if bool_decide (slen (GetAivenProject cfg) = 0%nat)
      then Err (Errorf "aiven project not defined for this cluster; needed for Valkey")
      else
        '(ast, spec) ← res_foldl (add_valkey source week generation) (ast, spec) valkeyes;
        Ok (true, SetAstLabel "aiven" "enabled" ast, spec)
  end.

(** ** The AivenApplication *)

Definition aiven_meta source (generation : string) : ObjectMeta :=
  let m := CreateObjectMeta source in
  SetLabels (Some (<["aiven.nais.io/secret-generation" := generation]> (default ∅ (Labels m)))) m.

Definition aiven_Create source (week : Z * Z) ast cfg : res error Ast :=
  let generation := Itoa (GetAivenGeneration cfg) in
  '(kafkaEnabled, ast, spec) ← Kafka source week cfg generation ast (mkAivenSpec None None []);
  '(openSearchEnabled, ast, spec) ← OpenSearch source week generation ast spec;
  '(valkeyEnabled, ast, spec) ← Valkey source week cfg generation ast spec;
  Ok (if kafkaEnabled || openSearchEnabled || valkeyEnabled
      then AppendOperation OperationCreateOrUpdate
             (mkObject (mkGVK "aiven.nais.io" "v1" "AivenApplication") (aiven_meta source generation)
                (BAivenApplication spec)) ast
      else ast).
End aiven.

(** ** Lemmas *)

(** The secrets an AivenApplication is given. *)
Definition aiven_secrets (spec : AivenSpec) : list string :=
  match avn_Kafka spec with Some k => [k.2] | None => [] end ++
  match avn_OpenSearch spec with Some o => [o.2] | None => [] end ++
  map snd (avn_Valkey spec).

(** All references of an environment to secrets are to the given ones. *)
Definition refers_to (secrets : list string) (vars : list EnvVar) : Prop :=
  ∀ e s k o, e ∈ vars → ev_ValueFrom e = Some (SecretKeyRef s k o) → s ∈ secrets.

(** All volumes with the contents of a secret have that of one of the given ones. *)
Definition volumes_of (secrets : list string) (vols : list Volume) : Prop :=
  ∀ v s items mode, v ∈ vols → vol_Source v = VSecret s items mode → s ∈ secrets.

(** Everything a pod gets secrets through: what is added hands out the given secrets only. *)
Definition hands_out (secrets : list string) (ast ast' : Ast) : Prop :=
  (∃ new, ast_Env ast' = new ++ ast_Env ast ∧ refers_to secrets new) ∧
  (∃ vols, ast_Volumes ast' = ast_Volumes ast ++ vols ∧ volumes_of secrets vols) ∧
  ast_EnvFrom ast' = ast_EnvFrom ast ∧ ast_Containers ast' = ast_Containers ast ∧
  ast_InitContainers ast' = ast_InitContainers ast.

Section aiven_lemmas.
Context `{L : Liberator}.
Implicit Types (source : Source) (ast : Ast) (cfg : Options).

Lemma refers_to_app l v1 v2 : refers_to l v1 → refers_to l v2 → refers_to l (v1 ++ v2).
Proof. intros H1 H2 e s k o [?|?]%elem_of_app; eauto. Qed.

Lemma refers_to_mono l l' v : refers_to l v → l ⊆ l' → refers_to l' v.
Proof. intros H Hl e s k o He Hs. apply Hl. eauto. Qed.

Lemma volumes_of_nil l : volumes_of l [].
Proof. intros v s i m Hv. by apply elem_of_nil in Hv. Qed.

Lemma hands_out_env l new ast ast' :
  ast_Env ast' = new ++ ast_Env ast → refers_to l new → ast_Volumes ast' = ast_Volumes ast →
  ast_EnvFrom ast' = ast_EnvFrom ast → ast_Containers ast' = ast_Containers ast →
  ast_InitContainers ast' = ast_InitContainers ast → hands_out l ast ast'.
Proof.
  intros He Hr Hv ? ? ?. split_and!; [by exists new| |done..].
  exists []. split; [by rewrite app_nil_r|apply volumes_of_nil].
Qed.

Lemma hands_out_refl l ast : hands_out l ast ast.
Proof. apply (hands_out_env _ []); [done| |done..]. intros e s k o He. by apply elem_of_nil in He. Qed.

Lemma hands_out_trans l l' a1 a2 a3 : l ⊆ l' → hands_out l a1 a2 → hands_out l' a2 a3 → hands_out l' a1 a3.
Proof.
  intros Hl ((n1 & N1 & R1) & (v1 & V1 & M1) & E1 & C1 & I1) ((n2 & N2 & R2) & (v2 & V2 & M2) & E2 & C2 & I2).
  split_and!; [| |by rewrite E2|by rewrite C2|by rewrite I2].
  - exists (n2 ++ n1). split; [by rewrite N2, N1, app_assoc|]. apply refers_to_app; [done|]. by eapply refers_to_mono.
  - exists (v1 ++ v2). split; [by rewrite V2, V1, app_assoc|]. intros v s i m [?|?]%elem_of_app ?; [apply Hl|]; eauto.
Qed.

(** What a service adds: variables and volumes that refer to requested secrets, and
    requests, never taken back; an unused service changes nothing. *)
Definition requests (used : bool) ast ast' (spec spec' : AivenSpec) : Prop :=
  aiven_secrets spec ⊆ aiven_secrets spec' ∧ (used = false → ast' = ast) ∧
  hands_out (aiven_secrets spec') ast ast'.

Lemma requests_refl b ast spec : requests b ast ast spec spec.
Proof. split_and!; [done..|]. apply hands_out_refl. Qed.

Ltac solve_refers :=
  intros e s k o He Hs;
  repeat (apply elem_of_cons in He as [->|He]; [cbn in Hs; simplify_eq|]);
  try (by apply elem_of_nil in He).

Lemma kafka_env_refers secretName : refers_to [secretName] (kafka_env secretName).
Proof. unfold kafka_env, makeSecretEnvVar, makeOptionalSecretEnvVar. solve_refers; by left. Qed.

Lemma Kafka_requests source week cfg generation ast spec b ast' spec' :
  avn_Kafka spec = None → Kafka source week cfg generation ast spec = Ok (b, ast', spec') →
  requests b ast ast' spec spec' ∧ appends (owned source) ast ast'.
Proof.
  unfold Kafka. intros Hk H. apply res_bind_ok_inv in H as (secretName & _ & H).
  destruct (v_Kafka _) as [kafka|]; [|simplify_eq; split; [apply requests_refl|done]].
  destruct (negb _); simplify_eq; [split; [apply requests_refl|done]|].
  split; [|destruct (nk_Streams kafka); unfold createKafkaKeyToPaths, addKafkaEnvVariables, CreateStream; solve_appends].
  split_and!; [|done|].
  - unfold aiven_secrets. rewrite Hk. simpl. set_solver.
  - assert (Hin : [secretName] ⊆ aiven_secrets (mkAivenSpec (Some (nk_Pool kafka, secretName))
        (avn_OpenSearch spec) (avn_Valkey spec))) by (unfold aiven_secrets; simpl; set_solver).
    assert (Hvol : ∀ paths, volumes_of [secretName] [FromFilesSecretVolume "aiven-credentials" secretName paths]).
    { intros paths v s i m ->%list_elem_of_singleton [= <- _ _]. by left. }
    eapply (hands_out_trans [secretName] _ ast ast); [exact Hin|apply hands_out_refl|].
    destruct (nk_Streams kafka); (split_and!; [| |done..]).
    + exists (env "KAFKA_STREAMS_APPLICATION_ID" (TopicPrefix (CreateObjectMeta source)) :: kafka_env secretName).
      split; [done|]. apply (refers_to_app _ [_]); [solve_refers|].
      eapply refers_to_mono; [apply kafka_env_refers|done].
    + eexists. split; [done|]. intros v s i m Hv Hs. by eapply Hin, Hvol.
    + exists (kafka_env secretName). split; [done|]. eapply refers_to_mono; [apply kafka_env_refers|done].
    + eexists. split; [done|]. intros v s i m Hv Hs. by eapply Hin, Hvol.
Qed.

Lemma OpenSearch_requests source week generation ast spec b ast' spec' :
  avn_OpenSearch spec = None → OpenSearch source week generation ast spec = Ok (b, ast', spec') →
  requests b ast ast' spec spec' ∧ appends (owned source) ast ast'.
Proof.
  unfold OpenSearch. intros Ho H.
  destruct (v_OpenSearch _) as [os|].
  2: { simplify_eq. split; [apply requests_refl|done]. }
  case_bool_decide; [done|]. apply res_bind_ok_inv in H as (secretName & _ & H). simplify_eq.
  split; [|unfold addOpenSearchEnvVariables; solve_appends].
  split_and!; [|done|].
  - unfold aiven_secrets. rewrite Ho. simpl. set_solver.
  - eapply (hands_out_env _ [_; _; _; _; _; _]); [done| |done..]. unfold aiven_secrets. cbn [avn_Kafka avn_OpenSearch avn_Valkey].
    unfold makeSecretEnvVar, makeOptionalSecretEnvVar. solve_refers; set_solver.
Qed.

Lemma add_valkey_requests source week generation ast spec valkey ast' spec' :
  add_valkey source week generation (ast, spec) valkey = Ok (ast', spec') →
  requests true ast ast' spec spec' ∧ appends (owned source) ast ast'.
Proof.
  unfold add_valkey. case_bool_decide; [done|]. intros Hstep.
  apply res_bind_ok_inv in Hstep as (secretName & _ & Hstep). simplify_eq.
  split; [|unfold addValkeyEnvVariables, addRedisEnvVariables; solve_appends].
  unfold requests. assert (Hmore : aiven_secrets (mkAivenSpec (avn_Kafka spec) (avn_OpenSearch spec)
    (avn_Valkey spec ++ [(an_Instance valkey, an_Access valkey, secretName)])) = aiven_secrets spec ++ [secretName]).
  { unfold aiven_secrets. cbn [avn_Kafka avn_OpenSearch avn_Valkey]. by rewrite map_app, !app_assoc. }
  rewrite Hmore. split_and!; [set_solver|done|].
  eapply (hands_out_env _ [_; _; _; _; _; _; _; _; _; _; _; _; _; _]); [reflexivity| |done..].
  unfold makeSecretEnvVar, makeOptionalSecretEnvVar. solve_refers; set_solver.
Qed.

Lemma requests_trans b a1 a2 a3 s1 s2 s3 :
  requests true a1 a2 s1 s2 → requests b a2 a3 s2 s3 → requests true a1 a3 s1 s3.
Proof.
  intros (S1 & _ & H1) (S2 & _ & H2).
  split_and!; [by transitivity (aiven_secrets s2)|done|]. by eapply hands_out_trans.
Qed.

Lemma Valkey_requests source week cfg generation ast spec b ast' spec' :
  Valkey source week cfg generation ast spec = Ok (b, ast', spec') →
  requests b ast ast' spec spec' ∧ appends (owned source) ast ast'.
Proof.
  unfold Valkey. intros H. destruct (v_Valkey _) as [|v vs].
  { simplify_eq. split; [apply requests_refl|done]. }
  case_bool_decide; [done|].
  apply res_bind_ok_inv in H as ([a sp] & Hf & H). simplify_eq.
  assert (Hres : requests true ast a spec spec' ∧ appends (owned source) ast a).
  2: { destruct Hres as [(S & _ & E) A]. by split. }
  apply (res_foldl_inv (λ x : Ast * AivenSpec, requests true ast x.1 spec x.2 ∧
    appends (owned source) ast x.1)) in Hf; [exact Hf|split; [apply requests_refl|done]|].
  intros [a1 s1] valkey [a2 s2] _ [Hr Ha] Hstep. cbn [fst snd] in *.
  apply add_valkey_requests in Hstep as [Hr' Ha'].
  split; [by eapply requests_trans|]. by transitivity a1.
Qed.

Lemma Kafka_keeps_OpenSearch source week cfg generation ast spec b ast' spec' :
  Kafka source week cfg generation ast spec = Ok (b, ast', spec') →
  avn_OpenSearch spec' = avn_OpenSearch spec.
Proof.
  unfold Kafka. intros H. apply res_bind_ok_inv in H as (secretName & _ & H).
  destruct (v_Kafka _); [|by simplify_eq]. destruct (negb _); by simplify_eq.
Qed.

Lemma requests_combine b1 b2 a1 a2 a3 s1 s2 s3 :
  requests b1 a1 a2 s1 s2 → requests b2 a2 a3 s2 s3 → requests (b1 || b2) a1 a3 s1 s3.
Proof.
  intros (S1 & U1 & H1) (S2 & U2 & H2).
  split_and!; [by transitivity (aiven_secrets s2)| |].
  - intros [Hb1 Hb2]%orb_false_iff. rewrite U2, U1; done.
  - by eapply hands_out_trans.
Qed.

Lemma aiven_owned source generation spec :
  owned source (mkOperation (mkObject (mkGVK "aiven.nais.io" "v1" "AivenApplication") (aiven_meta source generation)
                               (BAivenApplication spec)) OperationCreateOrUpdate).
Proof. split; [apply owned_meta_labelled; [done|solve_owned_meta]|done]. Qed.

Lemma aiven_Create_appends source week ast cfg ast' :
  aiven_Create source week ast cfg = Ok ast' → appends (owned source) ast ast'.
Proof.
  unfold aiven_Create. intros H.
  apply res_bind_ok_inv in H as ([[b1 a1] s1] & H1 & H).
  pose proof (Kafka_keeps_OpenSearch _ _ _ _ _ _ _ _ _ H1) as Ho.
  apply Kafka_requests in H1 as [_ A1]; [|done].
  apply res_bind_ok_inv in H as ([[b2 a2] s2] & H2 & H).
  apply OpenSearch_requests in H2 as [_ A2]; [|done].
  apply res_bind_ok_inv in H as ([[b3 a3] s3] & H3 & H). apply Valkey_requests in H3 as [_ A3].
  simplify_eq. assert (A : appends (owned source) ast a3) by (transitivity a1; [done|by transitivity a2]).
  destruct (b1 || b2 || b3); [|done]. apply appends_op; [done|apply aiven_owned].
Qed.

(** C30. Every secret the Aiven services hand to a workload is requested: the
    creator either leaves the AST as it was, or its last operation is the
    AivenApplication of the workload, and every secret that the pod is given on top of
    what it had, by a variable or by a mounted volume, is one the AivenApplication
    asks Aivenator to make; no other way to hand out secrets (whole environments,
    containers) is used. The added variables come before the ones there were. *)
Theorem aiven_secrets_requested source week ast cfg ast' :
  aiven_Create source week ast cfg = Ok ast' →
  ast' = ast ∨
  ∃ spec o, hands_out (aiven_secrets spec) ast ast' ∧
    last (ast_Operations ast') = Some (mkOperation o OperationCreateOrUpdate) ∧
    o_Body o = BAivenApplication spec ∧ owned source (mkOperation o OperationCreateOrUpdate).
Proof.
  unfold aiven_Create. intros H.
  apply res_bind_ok_inv in H as ([[b1 a1] s1] & H1 & H).
  pose proof (Kafka_keeps_OpenSearch _ _ _ _ _ _ _ _ _ H1) as Ho.
  apply Kafka_requests in H1 as [R1 _]; [|done].
  apply res_bind_ok_inv in H as ([[b2 a2] s2] & H2 & H).
  apply OpenSearch_requests in H2 as [R2 _]; [|done].
  apply res_bind_ok_inv in H as ([[b3 a3] s3] & H3 & H). apply Valkey_requests in H3 as [R3 _].
  pose proof (requests_combine _ _ _ _ _ _ _ _ (requests_combine _ _ _ _ _ _ _ _ R1 R2) R3) as (_ & U & R).
  simplify_eq. destruct (b1 || b2 || b3); [right|left; by apply U].
  exists s3, (mkObject (mkGVK "aiven.nais.io" "v1" "AivenApplication")
    (aiven_meta source (Itoa (GetAivenGeneration cfg))) (BAivenApplication s3)).
  split_and!; [exact R|by apply last_snoc|done|apply aiven_owned].
Qed.
End aiven_lemmas.

(** ** Witnesses *)

(** A workload with Kafka streams, OpenSearch and two Valkey instances. *)
Definition aiven_app : Source :=
  mkSource app_gvk (sample_meta "myapp" "team-a" "uid-1" []) KApplication
    (view_of "repo/app:1" [] [] no_auth plain_platform
       (mkBackingView (Some (mkNaisKafka "pool" true)) (Some (mkAivenInstance "search" "read"))
          [mkAivenInstance "cache" "read"; mkAivenInstance "session-store" "write"] None None))
    emptyStatus.

Definition aiven_options : Options := newOptions full_config.

Definition aiven_ast : Ast :=
  match aiven_Create (L := sample_liberator) aiven_app (2024, 7)%Z NewAst aiven_options with
  | Ok a => a
  | _ => NewAst
  end.

(** The hypothesis holds and it is the second case: five secrets are used. *)
Lemma aiven_secrets_requested_witness :
  length (ast_Env aiven_ast) = 49%nat ∧
  (aiven_ast = NewAst ∨
   ∃ spec o, hands_out (aiven_secrets spec) NewAst aiven_ast ∧
     last (ast_Operations aiven_ast) = Some (mkOperation o OperationCreateOrUpdate) ∧
     o_Body o = BAivenApplication spec ∧
     owned (L := sample_liberator) aiven_app (mkOperation o OperationCreateOrUpdate)).
Proof.
  split; [vm_compute; reflexivity|].
  apply (aiven_secrets_requested (L := sample_liberator) aiven_app (2024, 7)%Z NewAst aiven_options).
  vm_compute. reflexivity.
Defined.
