(* ===== verification/Postgres.v ===== *)
(** * Postgres clusters: network policies and connection settings

    Models [pkg/resourcecreator/postgres] and its engines [cnpg] and [zalando]:
    the policies that open the pooler of a cluster to the workload, and the
    variables it connects with. *)

From S2P Require Import Prelude GoStrings Kube Api Vendor Config Resource Creators Samples Pod AccessPolicy.

Definition EngineZalando : string := "zalando".
Definition EngineCNPG : string := "cnpg".
Definition AllEngines : list string := [EngineCNPG; EngineZalando].

(** The variables of both engines: host, database, user, password and URLs. *)
Definition postgres_env (secret pgClusterName pgNamespace : string) : list EnvVar :=
  let host := pgClusterName +:+ "-pooler." +:+ pgNamespace in
  [ env "PGHOST" host; env "PGPORT" "5432"; env "PGDATABASE" "app";
    mkEnvVar "PGUSER" "" (Some (SecretKeyRef secret "username" false));
    mkEnvVar "PGPASSWORD" "" (Some (SecretKeyRef secret "password" false));
    env "PGURL" ("postgresql://$(PGUSER):$(PGPASSWORD)@" +:+ host +:+ ":5432/app");
    env "PGJDBCURL" ("jdbc:postgresql://" +:+ host +:+ ":5432/app?user=$(PGUSER)&password=$(PGPASSWORD)") ].

(** What the labels of a pooler are, by engine. *)
Definition cnpg_pooler (pgClusterName : string) : LabelSelector :=
  mkSelector {[ "cnpg.io/podRole" := "pooler"; "cnpg.io/cluster" := pgClusterName ]}.
Definition zalando_pooler (pgClusterName : string) : LabelSelector :=
  mkSelector {[ "application" := "db-connection-pooler"; "cluster-name" := pgClusterName ]}.

(** The policy on the pooler: only the pods of the application get in. *)
Definition pooler_policy (source : Source) (objectMeta : ObjectMeta) (pooler : LabelSelector) : Object :=
  mkObject (mkGVK "networking.k8s.io" "v1" "NetworkPolicy") objectMeta
    (BNetworkPolicy
      {| nps_PodSelector := pooler; nps_PolicyTypes := ["Ingress"];
         nps_Ingress :=
           [mkNetpolRule [mkPeer (Some (mkSelector {[ "app" := GetName source ]}))
              (Some (mkSelector {[ "kubernetes.io/metadata.name" := GetNamespace source ]})) None] []];
         nps_Egress := [] |}).

(** The policy on the application: it may connect to the pooler. *)
Definition source_policy (source : Source) (objectMeta : ObjectMeta) (pooler : LabelSelector)
    (pgNamespace : string) : Object :=
  mkObject (mkGVK "networking.k8s.io" "v1" "NetworkPolicy") objectMeta
    (BNetworkPolicy
      {| nps_PodSelector := mkSelector {[ "app" := GetName source ]}; nps_PolicyTypes := ["Egress"];
         nps_Ingress := [];
         nps_Egress :=
           [mkNetpolRule [mkPeer (Some pooler)
              (Some (mkSelector {[ "kubernetes.io/metadata.name" := pgNamespace ]})) None] []] |}).

Section postgres.
Context `{L : Liberator}.
Implicit Types (source : Source) (ast : Ast) (cfg : Options).

(** ** cnpg *)

(** The error of the name generator is a panic. *)
Definition cnpg_policy_name source (pgClusterName suffix : string) : res error string :=
  map_err (fun e => Panic ("Error when hashing, this should be impossible: " +:+ err_msg e))
    (SuffixedShortName (GetName source +:+ "-" +:+ pgClusterName) suffix 253).

Definition cnpg_createPoolerNetworkPolicy source (pgClusterName pgNamespace : string) ast : res error Ast :=
  name ← cnpg_policy_name source pgClusterName "ingress";
  let objectMeta := SetNamespace pgNamespace (SetName name (CreateObjectMeta source)) in
  Ok (AppendOperation OperationCreateOrUpdate
        (pooler_policy source objectMeta (cnpg_pooler pgClusterName)) ast).

Definition cnpg_createSourceNetworkPolicy source (pgClusterName pgNamespace : string) ast : res error Ast :=
  name ← cnpg_policy_name source pgClusterName "egress";
  let objectMeta := SetName name (CreateObjectMeta source) in
  Ok (AppendOperation OperationCreateOrUpdate
        (source_policy source objectMeta (cnpg_pooler pgClusterName) pgNamespace) ast).

Definition cnpg_createNetworkPolicies source (pgClusterName pgNamespace : string) ast : res error Ast :=
  ast ← cnpg_createPoolerNetworkPolicy source pgClusterName pgNamespace ast;
  cnpg_createSourceNetworkPolicy source pgClusterName pgNamespace ast.

Definition cnpg_Create source (pgClusterName : string) ast : res error Ast :=
  let pgNamespace := GetNamespace source in
  ast ← cnpg_createNetworkPolicies source pgClusterName pgNamespace ast;
  Ok (AppendEnv (postgres_env (pgClusterName +:+ "-app") pgClusterName pgNamespace) ast).

(** ** zalando *)

Definition zalando_createPoolerNetworkPolicy source (pgClusterName pgNamespace : string) ast : Ast :=
  let objectMeta := SetOwnerReferences None (CreateObjectMeta source) in
  let objectMeta := SetNamespace pgNamespace (SetName (pgClusterName +:+ "-pooler") objectMeta) in
  AppendOperation OperationCreateOrUpdate
    (pooler_policy source objectMeta (zalando_pooler pgClusterName)) ast.

Definition zalando_createSourceNetworkPolicy source (pgClusterName pgNamespace : string) ast : Ast :=
  let objectMeta := SetName ("pg-" +:+ GetName source) (CreateObjectMeta source) in
  AppendOperation OperationCreateOrUpdate
    (source_policy source objectMeta (zalando_pooler pgClusterName) pgNamespace) ast.

Definition zalando_createNetworkPolicies source (pgClusterName pgNamespace : string) ast : Ast :=
  zalando_createSourceNetworkPolicy source pgClusterName pgNamespace
    (zalando_createPoolerNetworkPolicy source pgClusterName pgNamespace ast).

Definition zalando_Create source (pgClusterName : string) ast : Ast :=
  let pgNamespace := "pg-" +:+ GetNamespace source in
  let ast := zalando_createNetworkPolicies source pgClusterName pgNamespace ast in
  AppendEnv (postgres_env ("app-owner-user." +:+ pgClusterName +:+ ".credentials.postgresql.acid.zalan.do")
               pgClusterName pgNamespace) ast.

(** ** The engine of the cluster *)

Definition postgres_Create source ast cfg : res error Ast :=
  match v_Postgres (v_Backing (src_View source)) with
  | None => Ok ast
  | Some clusterName =>
      let engine := GetPostgresClusterEngine cfg in
      if bool_decide (engine = EngineCNPG) then cnpg_Create source clusterName ast
      else if bool_decide (engine = EngineZalando) then Ok (zalando_Create source clusterName ast)
      else Err (Errorf ("unknown postgres engine: " +:+ engine))
  end.

(** The one policy that belongs to no workload: the pooler policy of a zalando
    cluster, in the namespace of the clusters. *)
Definition zalando_shared source (op : Operation) : Prop :=
  let m := o_Meta (op_Resource op) in
  Namespace m = "pg-" +:+ GetNamespace source ∧ OwnerReferences m = None ∧
  (∃ cluster, Name m = cluster +:+ "-pooler") ∧ op_Operation op = OperationCreateOrUpdate ∧
  kind_of (op_Resource op) = (mkGVK "networking.k8s.io" "v1" "NetworkPolicy", TNetworkPolicy) ∧ plain_meta m.

Lemma postgres_appends source ast cfg ast' :
  postgres_Create source ast cfg = Ok ast' →
  appends (λ op, owned source op ∨ zalando_shared source op) ast ast'.
Proof.
  unfold postgres_Create. intros H.
  destruct (v_Postgres _) as [cluster|]; [|by simplify_eq].
  case_bool_decide; [|case_bool_decide; [|done]].
  - unfold cnpg_Create, cnpg_createNetworkPolicies, cnpg_createPoolerNetworkPolicy, cnpg_createSourceNetworkPolicy in H.
    creator_cases. solve_appends; by left.
  - simplify_eq. unfold zalando_Create, zalando_createNetworkPolicies, zalando_createSourceNetworkPolicy,
      zalando_createPoolerNetworkPolicy. solve_appends; right. split_and!; by eauto.
Qed.

(** ** What the policies mean *)

Section meaning.
Context `{CidrLib}.

(** The pods of the pooler of a cluster, as the operator of the engine labels them, and the
    namespace they are in. *)
Definition is_pooler (engine cluster : string) (labels : gmap string string) : Prop :=
  if bool_decide (engine = EngineCNPG)
  then labels !! "cnpg.io/podRole" = Some "pooler" ∧ labels !! "cnpg.io/cluster" = Some cluster
  else labels !! "application" = Some "db-connection-pooler" ∧ labels !! "cluster-name" = Some cluster.

Definition pooler_namespace (engine namespace : string) : string :=
  if bool_decide (engine = EngineCNPG) then namespace else "pg-" +:+ namespace.

Lemma selects_two k1 v1 k2 v2 labels :
  k1 ≠ k2 → selects (mkSelector {[ k1 := v1; k2 := v2 ]}) labels ↔ labels !! k1 = Some v1 ∧ labels !! k2 = Some v2.
Proof.
  intros Hne. unfold selects. simpl. rewrite map_subseteq_spec.
  setoid_rewrite lookup_insert_Some. setoid_rewrite lookup_singleton_Some. naive_solver.
Qed.

Lemma cnpg_pooler_selects cluster labels :
  selects (cnpg_pooler cluster) labels ↔ is_pooler EngineCNPG cluster labels.
Proof. unfold cnpg_pooler, is_pooler. by rewrite selects_two. Qed.

Lemma zalando_pooler_selects cluster labels :
  selects (zalando_pooler cluster) labels ↔ is_pooler EngineZalando cluster labels.
Proof. unfold zalando_pooler, is_pooler. by rewrite selects_two. Qed.

Lemma pooler_policy_admits source own objectMeta pooler c :
  con_labelled c →
  ∀ spec, o_Body (pooler_policy source objectMeta pooler) = BNetworkPolicy spec →
  ingress_allowed own spec c ↔
  ∃ p, con_Pod c = Some p ∧ pod_ns p = GetNamespace source ∧ pod_labels p !! "app" = Some (GetName source).
Proof.
  intros Hc spec [= <-]. unfold ingress_allowed. cbn [nps_PolicyTypes nps_Ingress].
  pose proof (labelled_peer_admits own (labelSelector "app" (GetName source)) (GetNamespace source) c Hc) as Hl.
  setoid_rewrite selects_label in Hl. unfold labelSelector, namespace_label in Hl.
  rewrite some_admits_cons, some_admits_nil, rule_admits_single, Hl. split; [|by left].
  intros Hadm. by destruct (Hadm ltac:(by left)).
Qed.

Lemma source_policy_admits source own objectMeta pooler pgNamespace c :
  con_labelled c →
  ∀ spec, o_Body (source_policy source objectMeta pooler pgNamespace) = BNetworkPolicy spec →
  egress_allowed own spec c ↔
  ∃ p, con_Pod c = Some p ∧ pod_ns p = pgNamespace ∧ selects pooler (pod_labels p).
Proof.
  intros Hc spec [= <-]. unfold egress_allowed. cbn [nps_PolicyTypes nps_Egress].
  pose proof (labelled_peer_admits own pooler pgNamespace c Hc) as Hl. unfold labelSelector, namespace_label in Hl.
  rewrite some_admits_cons, some_admits_nil, rule_admits_single, Hl.
  split; [|by left]. intros Hadm. by destruct (Hadm ltac:(by left)).
Qed.
End meaning.

(** The two operations both engines append. *)
Definition postgres_ops source (pooler : LabelSelector) (pm sm : ObjectMeta) : list Operation :=
  [ mkOperation (pooler_policy source pm pooler) OperationCreateOrUpdate;
    mkOperation (source_policy source sm pooler (Namespace pm)) OperationCreateOrUpdate ].

Lemma postgres_Create_ops source ast cfg ast' cluster :
  v_Postgres (v_Backing (src_View source)) = Some cluster → postgres_Create source ast cfg = Ok ast' →
  ∃ pooler pm sm secret, ast_Operations ast' = ast_Operations ast ++ postgres_ops source pooler pm sm ∧
    ast_Env ast' = ast_Env ast ++ postgres_env secret cluster (Namespace pm) ∧
    Namespace sm = GetNamespace source ∧
    Namespace pm = pooler_namespace (GetPostgresClusterEngine cfg) (GetNamespace source) ∧
    ∀ labels, selects pooler labels ↔ is_pooler (GetPostgresClusterEngine cfg) cluster labels.
Proof.
  unfold postgres_Create. intros -> H. case_bool_decide as Hen; [|case_bool_decide as Hen'; [|done]].
  - rewrite Hen. unfold cnpg_Create, cnpg_createNetworkPolicies, cnpg_createPoolerNetworkPolicy, cnpg_createSourceNetworkPolicy in H.
    apply res_bind_ok_inv in H as (a & H & Hend). apply res_bind_ok_inv in H as (a1 & H1 & H2).
    apply res_bind_ok_inv in H1 as (name1 & _ & H1). apply res_bind_ok_inv in H2 as (name2 & _ & H2). simplify_eq.
    exists (cnpg_pooler cluster), (SetNamespace (GetNamespace source) (SetName name1 (CreateObjectMeta source))),
      (SetName name2 (CreateObjectMeta source)), (cluster +:+ "-app").
    split_and!; [|reflexivity|done|done|apply cnpg_pooler_selects]. simpl. by rewrite <-app_assoc.
  - simplify_eq. rewrite Hen'. exists (zalando_pooler cluster), (SetNamespace ("pg-" +:+ GetNamespace source)
        (SetName (cluster +:+ "-pooler") (SetOwnerReferences None (CreateObjectMeta source)))),
      (SetName ("pg-" +:+ GetName source) (CreateObjectMeta source)),
      ("app-owner-user." +:+ cluster +:+ ".credentials.postgresql.acid.zalan.do").
    split_and!; [|reflexivity|done|done|apply zalando_pooler_selects]. simpl. by rewrite <-app_assoc.
Qed.

(** C28. A workload that asks for a Postgres cluster can reach its pooler, and
    nobody else gets in through it: whatever the engine, two policies are added. The first
    is for exactly the pods of the cluster's pooler, in the namespace the engine keeps them
    in, and admits exactly the pods of the workload, on every port; the second is for the
    pods of the workload and lets them out to exactly those pods of the pooler. Neither
    restricts the other direction. The connection variables name a host in that namespace. *)
Theorem postgres_policies `{CidrLib} source ast cfg ast' cluster :
  v_Postgres (v_Backing (src_View source)) = Some cluster → postgres_Create source ast cfg = Ok ast' →
  let engine := GetPostgresClusterEngine cfg in
  let ns := pooler_namespace engine (GetNamespace source) in
  ∃ gvk pm pspec sm sspec secret,
    ast_Operations ast' = ast_Operations ast ++
      [ mkOperation (mkObject gvk pm (BNetworkPolicy pspec)) OperationCreateOrUpdate;
        mkOperation (mkObject gvk sm (BNetworkPolicy sspec)) OperationCreateOrUpdate ] ∧
    (∀ p, policy_covers (Namespace pm) pspec p ↔ pod_ns p = ns ∧ is_pooler engine cluster (pod_labels p)) ∧
    (∀ c, con_labelled c → ingress_allowed (Namespace pm) pspec c ↔
       ∃ p, con_Pod c = Some p ∧ pod_ns p = GetNamespace source ∧ pod_labels p !! "app" = Some (GetName source)) ∧
    (∀ p, policy_covers (Namespace sm) sspec p ↔
       pod_ns p = GetNamespace source ∧ pod_labels p !! "app" = Some (GetName source)) ∧
    (∀ c, con_labelled c → egress_allowed (Namespace sm) sspec c ↔
       ∃ p, con_Pod c = Some p ∧ pod_ns p = ns ∧ is_pooler engine cluster (pod_labels p)) ∧
    nps_PolicyTypes pspec = ["Ingress"] ∧ nps_PolicyTypes sspec = ["Egress"] ∧
    ast_Env ast' = ast_Env ast ++ postgres_env secret cluster ns.
Proof.
  intros Hc H0. cbn zeta. eapply postgres_Create_ops in H0 as (pooler & pm & sm & secret & Hops & Henv & Hsm & Hpm & Hsel); [|done].
  rewrite <-Hpm. do 6 eexists. split; [exact Hops|]. split_and!; [| | | |done|done|exact Henv].
  - intros p. unfold policy_covers. by rewrite <-Hsel.
  - intros c Hl. by apply (pooler_policy_admits source _ pm pooler).
  - intros p. unfold policy_covers. by rewrite <-Hsm, <-(selects_label "app").
  - intros c Hl. rewrite (source_policy_admits source _ sm pooler (Namespace pm)) by done. by setoid_rewrite Hsel.
Qed.

(** The pooler policy of a zalando cluster is shared but names one workload:
    two workloads of a namespace that use the same cluster write the same
    object, each with a rule for itself alone, so whichever is synchronized last
    locks the other out. *)
Lemma zalando_pooler_collides `{CidrLib} s1 s2 cluster ast1 ast2 :
  GetNamespace s1 = GetNamespace s2 → GetName s1 ≠ GetName s2 →
  ∃ o1 o2 spec2,
    mkOperation o1 OperationCreateOrUpdate ∈ ast_Operations (zalando_Create s1 cluster ast1) ∧
    mkOperation o2 OperationCreateOrUpdate ∈ ast_Operations (zalando_Create s2 cluster ast2) ∧
    TypeOf o1 = TypeOf o2 ∧ object_key o1 = object_key o2 ∧
    OwnerReferences (o_Meta o1) = None ∧ OwnerReferences (o_Meta o2) = None ∧
    o_Body o2 = BNetworkPolicy spec2 ∧
    ∀ c p, con_labelled c → con_Pod c = Some p → pod_labels p !! "app" = Some (GetName s1) →
         ¬ ingress_allowed ("pg-" +:+ GetNamespace s2) spec2 c.
Proof.
  intros Hns Hname.
  set (meta s := SetNamespace ("pg-" +:+ GetNamespace s)
         (SetName (cluster +:+ "-pooler") (SetOwnerReferences None (CreateObjectMeta s)))).
  exists (pooler_policy s1 (meta s1) (zalando_pooler cluster)),
    (pooler_policy s2 (meta s2) (zalando_pooler cluster)).
  eexists. split_and!; [| |reflexivity| |reflexivity|reflexivity|reflexivity|].
  1,2: simpl; rewrite !elem_of_app; left; right; by left.
  - unfold object_key, meta_key. simpl. by rewrite Hns.
  - intros c p Hc Hp Hl Hadm.
    apply (pooler_policy_admits s2 _ (meta s2) (zalando_pooler cluster)) in Hadm as (p' & Hp' & _ & Hl'); [|done|reflexivity].
    rewrite Hp in Hp'. naive_solver.
Qed.
End postgres.

(** ** Witnesses *)

Section witnesses.
Local Existing Instance sample_liberator.
Local Existing Instance sample_cidr.

Definition pg_app (name : string) : Source :=
  mkSource app_gvk (sample_meta name "team-a" ("uid-" +:+ name) []) KApplication
    (view_of "repo/app:1" [] [] no_auth plain_platform (mkBackingView None None [] None (Some "mydb"))) emptyStatus.

Definition cnpg_options : Options :=
  mkOptions sample_config "" 0 "" (mkSqlInstanceState false false) EngineCNPG.

Lemma postgres_policies_witness :
  ∃ ast' gvk pm pspec sm sspec, postgres_Create (pg_app "myapp") NewAst cnpg_options = Ok ast' ∧
    ast_Operations ast' =
      [ mkOperation (mkObject gvk pm (BNetworkPolicy pspec)) OperationCreateOrUpdate;
        mkOperation (mkObject gvk sm (BNetworkPolicy sspec)) OperationCreateOrUpdate ] ∧
    ingress_allowed (Namespace pm) pspec (connection_with (pod_of "team-a" "myapp")).
Proof.
  destruct (postgres_Create (pg_app "myapp") NewAst cnpg_options) as [ast'|] eqn:E; [|discriminate E].
  destruct (postgres_policies (pg_app "myapp") NewAst cnpg_options ast' "mydb" eq_refl E)
    as (gvk & pm & pspec & sm & sspec & secret & Hops & _ & Hin & _).
  exists ast', gvk, pm, pspec, sm, sspec. split; [reflexivity|]. split; [exact Hops|].
  apply Hin; [apply con_labelled_of|]. exists (pod_of "team-a" "myapp"). split_and!; reflexivity.
Defined.

Lemma zalando_pooler_collides_witness :
  ∃ o1 o2,
    mkOperation o1 OperationCreateOrUpdate ∈ ast_Operations (zalando_Create (pg_app "myapp") "mydb" NewAst) ∧
    mkOperation o2 OperationCreateOrUpdate ∈ ast_Operations (zalando_Create (pg_app "other") "mydb" NewAst) ∧
    object_key o1 = object_key o2.
Proof.
  destruct (zalando_pooler_collides (pg_app "myapp") (pg_app "other") "mydb" NewAst NewAst)
    as (o1 & o2 & _ & H1 & H2 & _ & Hk & _); [reflexivity|discriminate|].
  by exists o1, o2.
Defined.
End witnesses.
