(* ===== verification/Google.v ===== *)
(** * Google resources: IAM, storage buckets, BigQuery

    Models [pkg/resourcecreator/google]: its constants and helpers, and the
    packages [iam], [storagebucket] and [bigquery]. Annotations are set on a map
    shared by every copy of the metadata value; each creator below starts from
    metadata of its own, so a value is enough. *)

From S2P Require Import Prelude GoStrings Kube Api Vendor Config Util Resource Creators Samples Pod Identity.

Definition IAMAPIVersion : string := "iam.cnrm.cloud.google.com/v1beta1".
Definition IAMServiceAccountNamespace : string := "serviceaccounts".
Definition StorageAPIVersion : string := "storage.cnrm.cloud.google.com/v1beta1".
Definition Region : string := "europe-north1".
Definition DeletionPolicyAnnotation : string := "cnrm.cloud.google.com/deletion-policy".
Definition DeletionPolicyAbandon : string := "abandon".
Definition CascadingDeleteAnnotation : string := "cnrm.cloud.google.com/delete-contents-on-destroy".
Definition ProjectIdAnnotation : string := "cnrm.cloud.google.com/project-id".
Definition CloudSQLProxyTermTimeout : string := "30s".

Definition iam_gvk (kind : string) : GroupVersionKind := mkGVK "iam.cnrm.cloud.google.com" "v1beta1" kind.

(** [int] is 64 bits wide. *)
Definition int64 (n : Z) : Z := ((n + 2 ^ 63) mod 2 ^ 64 - 2 ^ 63)%Z.

Section google.
Context `{L : Liberator} `{AM : ApiMachinery} `{SL : StructLib}.
Implicit Types (source : Source) (ast : Ast) (cfg : Options).

Definition CloudSqlProxyContainer (port : Z) (image projectId instanceName : string) : res error Container :=
  let connectionName := projectId +:+ ":" +:+ Region +:+ ":" +:+ instanceName in
  resources ← ResourceLimits (mkNaisResources (Some ("50m", "32Mi")) (Some ("", "256Mi")));
  let c := DefaultContainerSecurityContext in
  Ok {| c_Name := "cloudsql-proxy"; c_Image := image;
        c_Command := ["/cloud-sql-proxy"; "--max-sigterm-delay"; CloudSQLProxyTermTimeout; "--port"; Itoa port;
                      "--quitquitquit"; connectionName];
        c_Args := []; c_Ports := [mkContainerPort "" port "TCP"];
        c_Resources := resources; c_ImagePullPolicy := "IfNotPresent"; c_Lifecycle := None;
        c_Env := []; c_EnvFrom := []; c_VolumeMounts := []; c_LivenessProbe := None;
        c_ReadinessProbe := None; c_StartupProbe := None;
        c_SecurityContext := Some
          {| sc_AllowPrivilegeEscalation := sc_AllowPrivilegeEscalation c; sc_Privileged := sc_Privileged c;
             sc_ReadOnlyRootFilesystem := sc_ReadOnlyRootFilesystem c;
             sc_RunAsNonRoot := sc_RunAsNonRoot c; sc_RunAsGroup := Some 2%Z; sc_RunAsUser := Some 2%Z;
             sc_CapabilitiesDrop := sc_CapabilitiesDrop c; sc_SeccompProfile := sc_SeccompProfile c |};
        c_RestartPolicy := Some "Always" |}.

(** ** iam *)

Definition google_member source (projectID : string) : string :=
  "serviceAccount:" +:+ GcpServiceAccountName (CreateAppNamespaceHash source) projectID.

(** The metadata of the shared objects: the hashed name in the namespace of the
    service accounts, without owner. *)
Definition shared_meta source : ObjectMeta :=
  SetOwnerReferences None
    (SetNamespace IAMServiceAccountNamespace
       (SetName (CreateAppNamespaceHash source) (CreateObjectMeta source))).

Definition CreateServiceAccount source (projectId : string) : Object :=
  let objectMeta := SetAnnotation "nais.io/team" IAMServiceAccountNamespace (shared_meta source) in
  let objectMeta := SetAnnotation "nais.io/team" (GetNamespace source) objectMeta in
  mkObject (iam_gvk "IAMServiceAccount") (SetAnnotation ProjectIdAnnotation projectId objectMeta)
    (BIAMServiceAccount (GetName source)).

Definition CreatePolicy source (sa : Object) (projectId : string) : Object :=
  let member := "serviceAccount:" +:+ projectId +:+ ".svc.id.goog[" +:+ GetNamespace source +:+ "/" +:+
                GetName source +:+ "]" in
  mkObject (iam_gvk "IAMPolicy") (SetAnnotation ProjectIdAnnotation projectId (shared_meta source))
    (BIAMPolicy (Name (o_Meta sa)) "roles/iam.workloadIdentityUser" [member]).

Definition formatExternalName (googleTeamProjectId resourceName : string) : string :=
  let projectPrefix := "projects/" +:+ googleTeamProjectId in
  if bool_decide (slen resourceName = 0%nat) then projectPrefix
  else if HasPrefix resourceName projectPrefix then resourceName
  else PathJoin [projectPrefix; resourceName].

Definition createName (appName : string) (policy : CloudIAMPermission) : res error string :=
  hash ← map_err (Wrapf "while calculating hash from policy: ") (HashPermission policy);
  ShortName (appName +:+ "-" +:+ ToLower (cip_Kind policy) +:+ "-" +:+ format_x hash) 63.

Definition policyMember source (policy : CloudIAMPermission) (googleProjectId googleTeamProjectId : string)
    : res error Object :=
  name ← createName (GetName source) policy;
  let objectMeta := SetName name (CreateObjectMeta source) in
  Ok (mkObject (iam_gvk "IAMPolicyMember") (SetAnnotation ProjectIdAnnotation googleTeamProjectId objectMeta)
        (BIAMPolicyMember (google_member source googleProjectId) (cip_Role policy)
           (mkIAMResourceRef (cip_APIVersion policy) (cip_Kind policy) None
              (Some (formatExternalName googleTeamProjectId (cip_Name policy)))))).

(** One permission of [CreatePolicyMember]. *)
Definition add_permission source cfg ast (p : CloudIAMPermission) : res error Ast :=
  member ← map_err (Wrapf "unable to create iampolicymember: ")
             (policyMember source p (GetGoogleProjectID cfg) (GetGoogleTeamProjectID cfg));
  Ok (AppendOperation OperationCreateIfNotExists member ast).

Definition CreatePolicyMember source ast cfg : res error Ast :=
  match v_GCP (v_Backing (src_View source)) with
  | None => Ok ast
  | Some gcp => res_foldl (add_permission source cfg) ast (gcp_Permissions gcp)
  end.

(** ** storagebucket *)

Definition objectUser : string := "roles/storage.objectUser".
Definition objectViewer : string := "roles/storage.objectViewer".
Definition bucketViewer : string := "roles/storage.bucketViewer".

Definition storage_gvk : GroupVersionKind := mkGVK "storage.cnrm.cloud.google.com" "v1beta1" "StorageBucket".

(** The retention in seconds. *)
Definition retention_period (days : Z) : Z := int64 (days * 86400).

Definition CreateBucket (objectMeta : ObjectMeta) (bucket : CloudStorageBucket) (projectId : string) : Object :=
  let objectMeta := SetAnnotation ProjectIdAnnotation projectId (SetName (csb_Name bucket) objectMeta) in
  let objectMeta :=
    if csb_CascadingDelete bucket then objectMeta
    else SetAnnotation DeletionPolicyAnnotation DeletionPolicyAbandon objectMeta in
  mkObject storage_gvk objectMeta
    (BStorageBucket "" (Some
       {| bks_Location := Region; bks_UniformBucketLevelAccess := true; bks_SoftDeleteSeconds := Some 0%Z;
          bks_RetentionPeriod := option_map retention_period (csb_RetentionPeriodDays bucket);
          bks_LifecycleRules :=
            match csb_LifecycleCondition bucket with Some c => [("Delete", c)] | None => [] end;
          bks_PublicAccessPrevention :=
            if csb_PublicAccessPrevention bucket then PublicAccessPreventionEnforced
            else PublicAccessPreventionInherited |})).

Definition bucket_iAMPolicyMember source (bucket : Object) cfg (role policyNameSuffix : string)
    : res error Object :=
  let name := Name (o_Meta bucket) in
  policyMemberName ← ShortName (name +:+ "-" +:+ policyNameSuffix) 63;
  let objectMeta := SetName policyMemberName (CreateObjectMeta source) in
  Ok (mkObject (iam_gvk "IAMPolicyMember")
        (SetAnnotation ProjectIdAnnotation (GetGoogleTeamProjectID cfg) objectMeta)
        (BIAMPolicyMember (google_member source (GetGoogleProjectID cfg)) role
           (mkIAMResourceRef (apiVersion (o_GVK bucket)) (gvk_Kind (o_GVK bucket)) (Some name) None))).

(** One of the three bindings of a bucket. *)
Definition add_binding source (bucket : Object) cfg ast (b : string * string) : res error Ast :=
  member ← bucket_iAMPolicyMember source bucket cfg b.1 b.2;
  Ok (AppendOperation OperationCreateIfNotExists member ast).

Definition bucket_bindings : list (string * string) :=
  [(objectUser, "object-user"); (objectViewer, "object-viewer"); (bucketViewer, "bucket-viewer")].

(** One bucket of [storagebucket_Create]. *)
Definition add_bucket source cfg ast (b : CloudStorageBucket) : res error Ast :=
  let bucket := CreateBucket (CreateObjectMeta source) b (GetGoogleTeamProjectID cfg) in
  res_foldl (add_binding source bucket cfg) (AppendOperation OperationCreateOrUpdate bucket ast) bucket_bindings.

Definition storagebucket_Create source ast cfg : res error Ast :=
  match v_GCP (v_Backing (src_View source)) with
  | None => Ok ast
  | Some gcp => res_foldl (add_bucket source cfg) ast (gcp_Buckets gcp)
  end.

(** ** bigquery *)

Definition bigquery_iAMPolicyMember source (dataset : Object)
    (googleProjectId teamProjectID serviceAccountName : string) : res error Object :=
  shortName ← ShortName (Name (o_Meta dataset) +:+ "-job-user") 63;
  let objectMeta := SetName shortName (CreateObjectMeta source) in
  Ok (mkObject (iam_gvk "IAMPolicyMember") (SetAnnotation ProjectIdAnnotation teamProjectID objectMeta)
        (BIAMPolicyMember ("serviceAccount:" +:+ GcpServiceAccountName serviceAccountName googleProjectId)
           "roles/bigquery.jobUser" (mkIAMResourceRef "" "Project" (Some "") None))).

Definition createDataset source (spec : CloudBigQueryDataset) (projectID serviceAccountName : string)
    : res error Object :=
  let datasetName := ToLower (cbq_Name spec) in
  let baseName := ReplaceAll1 (GetName source +:+ "-" +:+ datasetName) "_" "-" in
  shortName ← ShortName baseName 63;
  let objectMeta := SetName shortName (CreateObjectMeta source) in
  let objectMeta := SetAnnotation CascadingDeleteAnnotation (FormatBool (cbq_CascadingDelete spec)) objectMeta in
  Ok (mkObject (mkGVK "google.nais.io" "v1" "BigQueryDataset") objectMeta
        (BBigQueryDataset
           {| bqs_Name := datasetName; bqs_Location := Region; bqs_Description := cbq_Description spec;
              bqs_CascadingDelete := cbq_CascadingDelete spec;
              bqs_Access := [(BigQueryPermission_GoogleType (cbq_Permission spec),
                              GcpServiceAccountName serviceAccountName projectID)] |})).

(** One dataset of [CreateDataset]. *)
Definition add_dataset source cfg (serviceAccountName : string) ast (spec : CloudBigQueryDataset) : res error Ast :=
  dataset ← createDataset source spec (GetGoogleProjectID cfg) serviceAccountName;
  let ast := AppendOperation OperationCreateIfNotExists dataset ast in
  member ← bigquery_iAMPolicyMember source dataset (GetGoogleProjectID cfg) (GetGoogleTeamProjectID cfg) serviceAccountName;
  Ok (AppendOperation OperationCreateIfNotExists member ast).

Definition bigquery_CreateDataset source ast cfg (serviceAccountName : string) : res error Ast :=
  match v_GCP (v_Backing (src_View source)) with
  | None => Ok ast
  | Some gcp => res_foldl (add_dataset source cfg serviceAccountName) ast (gcp_BigQueryDatasets gcp)
  end.
End google.

(** The prefix test of [formatExternalName] has no separator, and a path is
    joined without regard to its dots: a permission can name a resource of a
    project whose id extends the team's, or of any other project. *)
Example external_name_longer_project :
  formatExternalName "team" "projects/team-prod/topics/t" = "projects/team-prod/topics/t".
Proof. reflexivity. Qed.

Example external_name_dot_dot : formatExternalName "team" "../other/topics/t" = "projects/other/topics/t".
Proof. reflexivity. Qed.

Example external_name_own : formatExternalName "team" "topics/t" = "projects/team/topics/t".
Proof. reflexivity. Qed.
