(* ===== verification/SqlFlags.v ===== *)
(** * Flags of a Cloud SQL instance

    Models [pkg/resourcecreator/google/sql/instance_flags.go]: the table of the
    known flags and the check of a flag's value. [CreateGoogleSqlInstance] logs
    what the check says and passes every flag on. *)

From Stdlib Require Import QArith.
From S2P Require Import Prelude GoStrings Kube Config Vendor.

(** What [strconv.ParseFloat] returns: a number, an infinity, or not a number.
    Parsing and printing are [strconv] and [fmt]. *)
Inductive float64 := FNum (q : Q) | FInf (negative : bool) | FNaN.

Class FloatLib := { ParseFloat : string → res error float64; format_f : float64 → string }.

(** [f < x] and [f > x] of Go: false when [f] is not a number. *)
Definition float_lt (f : float64) (x : Q) : bool :=
  match f with FNum q => negb (Qle_bool x q) | FInf negative => negative | FNaN => false end.
Definition float_gt (f : float64) (x : Q) : bool :=
  match f with FNum q => negb (Qle_bool q x) | FInf negative => negb negative | FNaN => false end.

Definition maxFloat32 : Q := inject_Z (2 ^ 128 - 2 ^ 104).
Definition maxInt32 : Z := 2 ^ 31 - 1.
Definition eightk : Z := 8192.

(** The validators the table is built from. *)
Inductive flagValidator :=
| VBool
| VNotEmpty
| VInt (min max : Z)
| VFloat (min max : Q)
| VEnum (allowedVals : list string)
| VUnit (unitSize : Z).

Section validators.
Context `{FloatLib}.

Definition toBool (str : string) : res error unit :=
  if bool_decide (str = "on") || bool_decide (str = "off") then Ok tt
  else Err (Errorf ("expected 'on|off' int, got '" +:+ str +:+ "'")).

Definition toInt (str : string) : res error Z :=
  match Atoi str with Some i => Ok i | None => Err (Errorf ("expected an int, got '" +:+ str +:+ "'")) end.

Definition toFloat (str : string) : res error float64 :=
  match ParseFloat str with
  | Ok f => Ok f
  | Err _ => Err (Errorf ("expected a float, got '" +:+ str +:+ "'"))
  end.

Definition notEmpty (str : string) : res error unit :=
  if bool_decide (str = "") then Err (Errorf "value cannot be empty") else Ok tt.

Definition intWithinRange (min max : Z) (n : string) : res error unit :=
  i ← toInt n;
  if (i <? min)%Z || (max <? i)%Z
  then Err (Errorf (Itoa i +:+ " is not between " +:+ Itoa min +:+ " and " +:+ Itoa max)) else Ok tt.

Definition floatWithinRange (min max : Q) (n : string) : res error unit :=
  f ← toFloat n;
  if float_lt f min || float_gt f max
  then Err (Errorf (format_f f +:+ " is not between " +:+ format_f (FNum min) +:+ " and " +:+ format_f (FNum max)))
  else Ok tt.

Definition inEnum (allowedVals : list string) (commaSeparatedSuppliedVals : string) : res error unit :=
  if bool_decide (Forall (λ v, v ∈ allowedVals) (Split1 commaSeparatedSuppliedVals ",")) then Ok tt
  else Err (Errorf (commaSeparatedSuppliedVals +:+ " is not in [" +:+ Join allowedVals " " +:+ "]")).

(** [%] of Go truncates towards zero. *)
Definition unit_of (unitSize : Z) (n : string) : res error unit :=
  i ← toInt n;
  if bool_decide (Z.rem i unitSize ≠ 0%Z)
  then Err (Errorf (Itoa i +:+ " is not a unit of " +:+ Itoa unitSize)) else Ok tt.

Definition run_validator (v : flagValidator) : string → res error unit :=
  match v with
  | VBool => toBool
  | VNotEmpty => notEmpty
  | VInt min max => intWithinRange min max
  | VFloat min max => floatWithinRange min max
  | VEnum allowedVals => inEnum allowedVals
  | VUnit unitSize => unit_of unitSize
  end.
End validators.

(** The table of the flags, in two parts: up to [pg_bigm], the first of the extensions,
    and from there on. *)
Definition validators_core : list (string * flagValidator) :=
  [("auto_explain.log_analyze", VBool);
   ("auto_explain.log_buffers", VBool);
   ("auto_explain.log_min_duration", VInt (-1) maxInt32);
   ("auto_explain.log_format", VEnum ["text"; "xml"; "json"; "yaml"]);
   ("auto_explain.log_level", VEnum ["debug5"; "debug4"; "debug3"; "debug2"; "debug1"; "debug"; "info"; "notice"; "warning"; "log"]);
   ("auto_explain.log_nested_statements", VBool);
   ("auto_explain.log_settings", VBool);
   ("auto_explain.log_timing", VBool);
   ("auto_explain.log_triggers", VBool);
   ("auto_explain.log_wal", VBool);
   ("auto_explain.log_verbose", VBool);
   ("auto_explain.sample_rate", VFloat 0 1);
   ("autovacuum", VBool);
   ("autovacuum_analyze_scale_factor", VFloat 0 100);
   ("autovacuum_analyze_threshold", VInt 0 maxInt32);
   ("autovacuum_freeze_max_age", VInt 0 2000000000);
   ("autovacuum_max_workers", VInt 1 262142);
   ("autovacuum_multixact_freeze_max_age", VInt 10000 2000000000);
   ("autovacuum_naptime", VInt 1 2147483);
   ("autovacuum_vacuum_cost_delay", VInt (-1) 100);
   ("autovacuum_vacuum_cost_limit", VInt (-1) 10000);
   ("autovacuum_vacuum_scale_factor", VFloat 0 100);
   ("autovacuum_vacuum_threshold", VInt 0 maxInt32);
   ("autovacuum_work_mem", VInt (-1) maxInt32);
   ("checkpoint_completion_target", VFloat 0 1);
   ("checkpoint_timeout", VInt 30 86400);
   ("checkpoint_warning", VInt 0 maxInt32);
   ("cloudsql.allow_passwordless_local_connections", VBool);
   ("cloudsql.enable_auto_explain", VBool);
   ("cloudsql.enable_pgaudit", VBool);
   ("cloudsql.enable_pg_bigm", VBool);
   ("cloudsql.enable_pg_cron", VBool);
   ("cloudsql.enable_pg_hint_plan", VBool);
   ("cloudsql.enable_pglogical", VBool);
   ("cloudsql.iam_authentication", VBool);
   ("cloudsql.logical_decoding", VBool);
   ("cloudsql.pg_shadow_select_role", VNotEmpty);
   ("commit_delay", VInt 0 100000);
   ("commit_siblings", VInt 0 1000);
   ("constraint_exclusion", VEnum ["partition"; "on"; "off"]);
   ("cpu_index_tuple_cost", VFloat 0 maxFloat32);
   ("cpu_operator_cost", VFloat 0 maxFloat32);
   ("cpu_tuple_cost", VFloat 0 maxFloat32);
   ("cron.database_name", VNotEmpty);
   ("cron.log_statement", VBool);
   ("cron.log_run", VBool);
   ("cron.max_running_jobs", VInt 0 maxInt32);
   ("cron.log_min_messages", VEnum ["debug5"; "debug4"; "debug3"; "debug2"; "debug1"; "debug"; "info"; "notice"; "warning"; "error"; "log"; "fatal"; "panic"]);
   ("cursor_tuple_fraction", VFloat 0 1);
   ("deadlock_timeout", VInt 1 maxInt32);
   ("effective_cache_size", VUnit eightk);
   ("default_statistics_target", VInt 1 10000);
   ("default_tablespace", VNotEmpty);
   ("default_transaction_deferrablze", VBool);
   ("default_transaction_isolation", VEnum ["serializable"; "repeatable read"; "read committed"; "read uncommitted"]);
   ("enable_bitmapscan", VBool);
   ("enable_hashagg", VBool);
   ("enable_hashjoin", VBool);
   ("enable_indexonlyscan", VBool);
   ("enable_indexscan", VBool);
   ("enable_material", VBool);
   ("enable_mergejoin", VBool);
   ("enable_nestloop", VBool);
   ("enable_seqscan", VBool);
   ("enable_sort", VBool);
   ("enable_tidscan", VBool);
   ("force_parallel_mode", VEnum ["off"; "on"; "regress"]);
   ("from_collapse_limit", VInt 1 maxInt32);
   ("geqo", VBool);
   ("geqo_effort", VInt 1 10);
   ("geqo_generations", VInt 0 maxInt32);
   ("geqo_pool_size", VInt 0 maxInt32);
   ("geqo_seed", VFloat 0 1);
   ("geqo_selection_bias", VFloat (3 # 2) 2);
   ("geqo_threshold", VInt 2 maxInt32);
   ("gin_fuzzy_search_limit", VInt 0 maxInt32);
   ("gin_pending_list_limit", VInt 64 maxInt32);
   ("hot_standby_feedback", VBool);
   ("huge_pages", VEnum ["try"; "off"]);
   ("idle_in_transaction_session_timeout", VInt 0 maxInt32);
   ("join_collapse_limit", VInt 1 maxInt32);
   ("lock_timeout", VInt 0 maxInt32);
   ("log_autovacuum_min_duration", VInt (-1) maxInt32);
   ("log_checkpoints", VBool);
   ("log_connections", VBool);
   ("log_disconnections", VBool);
   ("log_duration", VBool);
   ("log_error_verbosity", VEnum ["terse"; "default"; "verbose"]);
   ("log_executor_stats", VBool);
   ("log_hostname", VBool);
   ("log_lock_waits", VBool);
   ("log_min_duration_statement", VInt (-1) maxInt32);
   ("log_min_error_statement", VEnum ["debug5"; "debug4"; "debug3"; "debug2"; "debug1"; "info"; "notice"; "warning"; "error"; "log"; "fatal"; "panic"]);
   ("log_min_messages", VEnum ["debug5"; "debug4"; "debug3"; "debug2"; "debug1"; "info"; "notice"; "warning"; "error"; "log"; "fatal"; "panic"]);
   ("log_parser_stats", VBool);
   ("log_planner_stats", VBool);
   ("log_replication_commands", VBool);
   ("log_statement", VEnum ["none"; "ddl"; "mod"; "all"]);
   ("log_statement_stats", VBool);
   ("log_temp_files", VInt (-1) maxInt32);
   ("maintenance_work_mem", VInt 1024 maxInt32);
   ("max_connections", VInt 1 maxInt32);
   ("max_locks_per_transaction", VInt 10 maxInt32);
   ("max_logical_replication_workers", VInt 4 8192);
   ("max_parallel_maintenance_workers", VInt 0 maxInt32);
   ("max_parallel_workers", VInt 0 maxInt32);
   ("max_parallel_workers_per_gather", VInt 0 maxInt32);
   ("max_pred_locks_per_page", VInt 0 maxInt32);
   ("max_pred_locks_per_relation", VInt (-2147483648) maxInt32);
   ("max_pred_locks_per_transaction", VInt 0 1048576);
   ("max_prepared_transactions", VInt 0 maxInt32);
   ("max_replication_slots", VInt 10 maxInt32);
   ("max_standby_archive_delay", VInt (-1) maxInt32);
   ("max_standby_streaming_delay", VInt (-1) maxInt32);
   ("max_sync_workers_per_subscription", VInt 2 64);
   ("max_wal_senders", VInt 10 maxInt32);
   ("max_wal_size", VInt 2 maxInt32);
   ("max_worker_processes", VInt 8 maxInt32);
   ("min_parallel_relation_size", VUnit eightk);
   ("min_wal_size", VUnit 16777216);
   ("old_snapshot_threshold", VInt 0 86400);
   ("parallel_setup_cost", VFloat 0 maxFloat32);
   ("parallel_tuple_cost", VFloat 0 maxFloat32);
   ("password_encryption", VEnum ["md5"; "scram-sha-256"])].

Definition validators_extensions : list (string * flagValidator) :=
  [("pg_bigm.enable_recheck", VBool);
   ("pg_bigm.gin_key_limit", VInt 0 maxInt32);
   ("pg_bigm.pg_bigm.similarity_limit", VFloat 0 1);
   ("pg_hint_plan.enable_hint", VBool);
   ("pg_hint_plan.debug_print", VEnum ["off"; "on"; "detailed"; "verbose"; "0"; "1"; "2"; "3"; "no"; "yes"; "false"; "true"]);
   ("pg_hint_plan.parse_messages", VEnum ["debug5"; "debug4"; "debug3"; "debug2"; "debug1"; "debug"; "info"; "notice"; "warning"; "error"; "log"]);
   ("pg_hint_plan.message_level", VEnum ["debug5"; "debug4"; "debug3"; "debug2"; "debug1"; "debug"; "info"; "notice"; "warning"; "error"; "log"]);
   ("pg_hint_plan.enable_hint_table", VBool);
   ("pglogical.batch_inserts", VBool);
   ("pglogical.conflict_log_level", VNotEmpty);
   ("pglogical.conflict_resolution", VEnum ["error"; "apply_remote"; "keep_local"; "last_update_wins"; "first_update_wins"]);
   ("pglogical.extra_connection_options", VNotEmpty);
   ("pglogical.synchronous_commit", VBool);
   ("pglogical.pglogical.use_spi", VBool);
   ("pg_stat_statements.max", VInt 100 maxInt32);
   ("pg_stat_statements.save", VBool);
   ("pg_stat_statements.track", VEnum ["none"; "top"; "all"]);
   ("pg_stat_statements.track_utility", VBool);
   ("pgaudit.log", VEnum ["read"; "write"; "function"; "role"; "ddl"; "misc"; "misc_set"; "all"; "none"]);
   ("pgaudit.log_catalog", VBool);
   ("pgaudit.log_level", VEnum ["debug5"; "debug4"; "debug3"; "debug2"; "debug1"; "info"; "notice"; "warning"; "error"; "log"]);
   ("pgaudit.log_parameter", VBool);
   ("pgaudit.pgaudit.log_relation", VBool);
   ("pgaudit.log_statement_once", VBool);
   ("pgaudit.role", VNotEmpty);
   ("random_page_cost", VFloat 0 maxFloat32);
   ("session_replication_role", VEnum ["origin"; "replica"; "local"]);
   ("replacement_sort_tuples", VInt 0 maxInt32);
   ("shared_buffers", VUnit eightk);
   ("ssl_max_protocol_version", VEnum ["TLSv1"; "TLSv1.1"; "TLSv1.2"; "TLSv1.3"]);
   ("ssl_min_protocol_version", VEnum ["TLSv1"; "TLSv1.1"; "TLSv1.2"; "TLSv1.3"]);
   ("standard_conforming_strings", VBool);
   ("synchronize_seqscans", VBool);
   ("tcp_keepalives_count", VInt 0 maxInt32);
   ("tcp_keepalives_idle", VInt 0 maxInt32);
   ("tcp_keepalives_interval", VInt 0 maxInt32);
   ("temp_buffers", VUnit eightk);
   ("temp_file_limit", VInt 1048576 maxInt32);
   ("trace_notify", VBool);
   ("trace_recovery_messages", VEnum ["debug5"; "debug4"; "debug3"; "debug2"; "debug1"; "log"; "notice"; "warning"; "error"]);
   ("trace_sort", VBool);
   ("track_activities", VBool);
   ("track_activity_query_size", VInt 100 102400);
   ("track_commit_timestamp", VBool);
   ("track_counts", VBool);
   ("track_functions", VEnum ["none"; "pl"; "all"]);
   ("track_io_timing", VBool);
   ("vacuum_cost_delay", VInt 0 100);
   ("vacuum_cost_limit", VInt 1 10000);
   ("vacuum_freeze_min_age", VInt 0 1000000000);
   ("vacuum_freeze_table_age", VInt 0 2000000000);
   ("vacuum_multixact_freeze_min_age", VInt 0 1000000000);
   ("vacuum_multixact_freeze_table_age", VInt 0 2000000000);
   ("wal_buffers", VUnit eightk);
   ("wal_compression", VBool);
   ("wal_receiver_timeout", VInt 0 maxInt32);
   ("wal_sender_timeout", VInt 0 maxInt32);
   ("work_mem", VInt 64 maxInt32)].

Definition validators : list (string * flagValidator) := validators_core ++ validators_extensions.

Definition find_validator (key : string) : option flagValidator :=
  option_map snd (find (λ kv, bool_decide (kv.1 = key)) validators).

Definition ValidateFlag `{FloatLib} (key value : string) : res error unit :=
  match find_validator key with
  | None => Err (Errorf ("couldn't find validator for instance flag '" +:+ key +:+ "'"))
  | Some validatorFunc => run_validator validatorFunc value
  end.

(** ** Lemmas *)

(** What a validator stands for: a whole number between bounds that fit 32 bits,
    a multiple, a number between bounds or no number at all, a comma-separated
    list of known words. *)
Definition accepts `{FloatLib} (v : flagValidator) (value : string) : Prop :=
  match v with
  | VBool => value = "on" ∨ value = "off"
  | VNotEmpty => value ≠ ""
  | VInt min max => ∃ i, Atoi value = Some i ∧ (min ≤ i ≤ max)%Z
  | VFloat min max =>
      ParseFloat value = Ok FNaN ∨ ∃ q, ParseFloat value = Ok (FNum q) ∧ (min <= q)%Q ∧ (q <= max)%Q
  | VEnum allowedVals => Forall (λ word, word ∈ allowedVals) (Split1 value ",")
  | VUnit unitSize => ∃ k, Atoi value = Some (unitSize * k)%Z
  end.

(** The bounds of the table make sense. *)
Definition validator_wf (v : flagValidator) : bool :=
  match v with
  | VInt min max => (- 2 ^ 31 <=? min)%Z && (min <? max)%Z && (max <? 2 ^ 31)%Z
  | VFloat min max => Qle_bool min max
  | VEnum allowedVals => bool_decide (NoDup allowedVals ∧ allowedVals ≠ [])
  | VUnit unitSize => (0 <? unitSize)%Z
  | _ => true
  end.

Lemma validators_keys : NoDup (map fst validators).
Proof. apply (bool_decide_eq_true _). vm_compute. reflexivity. Qed.

Lemma validators_wf : forallb (λ kv, validator_wf kv.2) validators = true.
Proof. vm_compute. reflexivity. Qed.

Lemma find_key {A} (l : list (string * A)) key v :
  NoDup (map fst l) → option_map snd (find (λ kv, bool_decide (kv.1 = key)) l) = Some v ↔ (key, v) ∈ l.
Proof.
  induction l as [|[k w] l IH]; simpl; [set_solver|]. intros [Hk Hnd]%NoDup_cons.
  rewrite elem_of_cons. case_bool_decide; subst; simpl.
  - split; [intros; simplify_eq; by left|]. intros [?|Hin]; [by simplify_eq|].
    exfalso. apply Hk, list_elem_of_fmap. by exists (key, v).
  - rewrite IH by done. naive_solver.
Qed.

Lemma find_validator_spec key v : find_validator key = Some v ↔ (key, v) ∈ validators.
Proof. apply find_key, validators_keys. Qed.

Section flag_lemmas.
Context `{FloatLib}.

Lemma intWithinRange_ok min max n :
  is_ok (intWithinRange min max n) = true ↔ ∃ i, Atoi n = Some i ∧ (min ≤ i ≤ max)%Z.
Proof.
  unfold intWithinRange, toInt. destruct (Atoi n) as [i|]; simpl; [|naive_solver].
  destruct (Z.ltb_spec i min), (Z.ltb_spec max i); simpl; split; try done; try naive_solver lia.
Qed.

Lemma unit_of_ok unitSize n :
  (0 < unitSize)%Z → is_ok (unit_of unitSize n) = true ↔ ∃ k, Atoi n = Some (unitSize * k)%Z.
Proof.
  intros Hu. unfold unit_of, toInt. destruct (Atoi n) as [i|]; simpl; [|naive_solver].
  case_bool_decide as Hr; simpl; split; try done.
  - intros (k & [= ->]). destruct Hr. rewrite Z.mul_comm. apply Z.rem_mul. lia.
  - intros _. apply Z.rem_divide in Hr as [k ->]; [|lia]. exists k. by rewrite Z.mul_comm.
Qed.

Lemma floatWithinRange_ok min max n :
  is_ok (floatWithinRange min max n) = true ↔ accepts (VFloat min max) n.
Proof.
  unfold floatWithinRange, toFloat, accepts. destruct (ParseFloat n) as [f|]; simpl; [|naive_solver].
  destruct f as [q|[]|]; simpl.
  - destruct (Qle_bool min q) eqn:H1, (Qle_bool q max) eqn:H2; simpl;
      rewrite ?Qle_bool_iff in *; split; try done; try naive_solver.
    all: intros [?|(q' & ? & Hq1 & Hq2)]; simplify_eq;
      apply Qle_bool_iff in Hq1; apply Qle_bool_iff in Hq2; congruence.
  - naive_solver.
  - naive_solver.
  - naive_solver.
Qed.

Lemma run_validator_ok v value :
  validator_wf v = true → is_ok (run_validator v value) = true ↔ accepts v value.
Proof.
  intros Hwf. destruct v; cbn [run_validator accepts].
  - unfold toBool. repeat case_bool_decide; naive_solver.
  - unfold notEmpty. case_bool_decide; naive_solver.
  - apply intWithinRange_ok.
  - apply floatWithinRange_ok.
  - unfold inEnum. case_bool_decide; naive_solver.
  - apply unit_of_ok. by apply Z.ltb_lt.
Qed.

(** C34. A flag passes the check exactly when it is in the table and its value is
    one its validator stands for; no flag is listed twice, so the entry is the
    only one, and the bounds of every entry are consistent and fit 32 bits. The
    text NaN passes every check of a range of floating-point numbers. *)
Theorem ValidateFlag_spec key value :
  (is_ok (ValidateFlag key value) = true ↔ ∃ v, (key, v) ∈ validators ∧ accepts v value) ∧
  (∀ v v', (key, v) ∈ validators → (key, v') ∈ validators → v = v') ∧
  (∀ v, (key, v) ∈ validators → validator_wf v = true).
Proof.
  assert (Hwf : ∀ v, (key, v) ∈ validators → validator_wf v = true).
  { intros v Hv. pose proof validators_wf as Hall. rewrite forallb_forall in Hall.
    apply (Hall (key, v)). by apply list_elem_of_In. }
  split_and!; [|intros v v' Hv%find_validator_spec Hv'%find_validator_spec; congruence|done].
  unfold ValidateFlag. split.
  - destruct (find_validator key) as [v|] eqn:Hf; [|done]. apply find_validator_spec in Hf.
    intros Hok%run_validator_ok; eauto.
  - intros (v & Hv & Ha). pose proof Hv as ->%find_validator_spec. apply run_validator_ok; eauto.
Qed.
End flag_lemmas.
