(* ===== verification/GoogleSql.v ===== *)
(** * Cloud SQL: instance, database, users, and the way the pod reaches them

    Models [pkg/resourcecreator/google/sql]: instance.go, database.go, user.go and
    user_helpers.go. [ValidateFlag] of instance_flags.go is only called to log a
    line and is modelled in [SqlFlags]. mergo writes the defaults into the
    workload's own specification, which nothing reads afterwards. *)

From S2P Require Import Prelude GoStrings Kube Api Vendor Config Util Resource Creators Samples Pod Wonderwall Identity Google.

Definition AvailabilityTypeRegional : string := "REGIONAL".
Definition AvailabilityTypeZonal : string := "ZONAL".
Definition DefaultSqlInstanceAutoBackupHour : Z := 2.
Definition DefaultSqlInstanceCollation : string := "en_US.UTF8".
Definition DefaultSqlInstanceDiskSize : Z := 10.
Definition sqeletorVolumeName : string := "sqeletor-sql-ssl-cert".
Definition maxLengthName : Z := 63.

Definition sql_gvk (kind : string) : GroupVersionKind := mkGVK "sql.cnrm.cloud.google.com" "v1beta1" kind.

Definition googleSQLPostgresHost : string := "127.0.0.1".
Definition googleSQLPostgresPort : string := "5432".

(** ** user_helpers.go *)

Definition trimLeadingUnderscore (x : string) : string := TrimPrefix x "_".
Definition googleSQLDatabaseCase (x : string) : string := ReplaceAll1 (ToUpper x) "-" "_".
Definition replaceToLowerWithNoPrefix (x : string) : string :=
  ToLower (ReplaceAll1 (trimLeadingUnderscore x) "_" "-").

Definition setAnnotations (cascadingDelete : bool) (projectId : string) (objectMeta : ObjectMeta) : ObjectMeta :=
  let objectMeta := SetAnnotation ProjectIdAnnotation projectId objectMeta in
  if cascadingDelete then objectMeta
  else SetAnnotation DeletionPolicyAnnotation DeletionPolicyAbandon objectMeta.

(** The loop of [removeDuplicates]: the lower-cased name is looked up, the name
    as it is written is remembered. *)
Fixpoint dedup_loop (keys : gset string) (dbUsers : list string) : list string :=
  match dbUsers with
  | [] => []
  | user :: rest =>
      if bool_decide (ToLower user ∈ keys) then dedup_loop keys rest
      else user :: dedup_loop ({[ user ]} ∪ keys) rest
  end.

Definition removeDuplicates (dbUsers : list string) : list string := dedup_loop ∅ dbUsers.

Definition MergeAndFilterDatabaseSQLUsers (dbUsers : option (list string)) (instanceName : string) : list string :=
  match dbUsers with
  | None => [instanceName]
  | Some users => removeDuplicates (users ++ [instanceName])
  end.

(** ** user.go *)

(** The instance is the generated [SQLInstance]. *)
Record GoogleSqlUser := mkGoogleSqlUser {
  gu_Username : string; gu_AppName : string; gu_DB : CloudSqlDatabase; gu_Instance : Object }.

Definition instance_name (u : GoogleSqlUser) : string := Name (o_Meta (gu_Instance u)).

Definition usingPrivateIP (googleSqlInstance : Object) : bool :=
  match o_Body googleSqlInstance with BSQLInstance _ (Some _) _ => true | _ => false end.

Definition isDefault (u : GoogleSqlUser) : bool := bool_decide (instance_name u = gu_Username u).
Definition prefixIsSet (u : GoogleSqlUser) : bool := bool_decide (0 < slen (csd_EnvVarPrefix (gu_DB u)))%nat.

Definition sqlUserEnvPrefix (u : GoogleSqlUser) : string :=
  if prefixIsSet u then TrimSuffix (csd_EnvVarPrefix (gu_DB u)) "_"
  else "NAIS_DATABASE_" +:+ googleSQLDatabaseCase (trimLeadingUnderscore (gu_Username u)) +:+ "_" +:+
       googleSQLDatabaseCase (csd_Name (gu_DB u)).

Definition googleSqlUserPrefix (u : GoogleSqlUser) : string :=
  let prefix := sqlUserEnvPrefix u in
  if prefixIsSet u && negb (isDefault u)
  then prefix +:+ "_" +:+ googleSQLDatabaseCase (trimLeadingUnderscore (gu_Username u)) else prefix.

Definition CreateUserEnvVars (u : GoogleSqlUser) (password : string) : gmap string string :=
  let prefix := googleSqlUserPrefix u in
  let db := csd_Name (gu_DB u) in
  {[ prefix +:+ "_HOST" := googleSQLPostgresHost;
     prefix +:+ "_PORT" := googleSQLPostgresPort;
     prefix +:+ "_DATABASE" := db;
     prefix +:+ "_USERNAME" := gu_Username u;
     prefix +:+ "_PASSWORD" := password;
     prefix +:+ "_URL" := "postgres://" +:+ gu_Username u +:+ ":" +:+ password +:+ "@" +:+
       googleSQLPostgresHost +:+ ":" +:+ googleSQLPostgresPort +:+ "/" +:+ db;
     prefix +:+ "_JDBC_URL" := "jdbc:postgresql://" +:+ googleSQLPostgresHost +:+ ":" +:+
       googleSQLPostgresPort +:+ "/" +:+ db +:+ "?user=" +:+ gu_Username u +:+ "&password=" +:+ password ]}.

(** [if err != nil { panic(err) }] *)
Definition must {A} (r : res error A) : res error A := map_err (fun e => Panic (err_msg e)) r.

Section sql.
Context `{L : Liberator} `{AM : ApiMachinery} `{SL : StructLib}.
Implicit Types (source : Source) (ast : Ast) (cfg : Options).

Definition googleSQLSecretName (u : GoogleSqlUser) : res error string :=
  if bool_decide (instance_name u = gu_Username u) then Ok ("google-sql-" +:+ gu_AppName u)
  else must (ShortName ("google-sql-" +:+ gu_AppName u +:+ "-" +:+ csd_Name (gu_DB u) +:+ "-" +:+
                        replaceToLowerWithNoPrefix (gu_Username u)) 63).

Definition sqluser_name (u : GoogleSqlUser) (appName : string) : string :=
  if isDefault u then instance_name u
  else appName +:+ "-" +:+ csd_Name (gu_DB u) +:+ "-" +:+ replaceToLowerWithNoPrefix (gu_Username u).

Definition GoogleSqlUser_Create (u : GoogleSqlUser) (objectMeta : ObjectMeta) (cascadingDelete : bool)
    (appName projectId : string) : res error Object :=
  let objectMeta := setAnnotations cascadingDelete projectId (SetName (sqluser_name u appName) objectMeta) in
  secretName ← googleSQLSecretName u;
  Ok (mkObject (sql_gvk "SQLUser") objectMeta
        (BSQLUser (gu_Username u) (instance_name u) (googleSqlUserPrefix u +:+ "_PASSWORD", secretName))).

(** [Create] writes the annotations into the map that [objectMeta] shares with
    the metadata of the user, so the secrets carry them as well. *)
Definition createSqlUserDBResources (u : GoogleSqlUser) (objectMeta : ObjectMeta) (cascadingDelete : bool)
    (appName : string) cfg ast : res error Ast :=
  secretName ← googleSQLSecretName u;
  googleSqlUser ← GoogleSqlUser_Create u objectMeta cascadingDelete appName (GetGoogleTeamProjectID cfg);
  let secretMeta := setAnnotations cascadingDelete (GetGoogleTeamProjectID cfg) objectMeta in
  '(googleSqlUser, ast) ←
    (if ShouldCreateSqlInstanceInSharedVpc cfg && usingPrivateIP (gu_Instance u) then
       Ok (set_Meta (fun m => SetAnnotation "sqeletor.nais.io/database-name" (csd_Name (gu_DB u))
                       (SetAnnotation "sqeletor.nais.io/env-var-prefix" (googleSqlUserPrefix u) m)) googleSqlUser, ast)
     else
       password ← must GeneratePassword;
       let vars := CreateUserEnvVars u password in
       let ast := AppendOperation OperationCreateIfNotExists (OpaqueSecret secretMeta secretName vars) ast in
       Ok (googleSqlUser, AppendOperation AnnotateIfExists (OpaqueSecret secretMeta secretName ∅) ast));
  Ok (AppendOperation OperationCreateIfNotExists googleSqlUser
        (AppendOperation AnnotateIfExists googleSqlUser ast)).

(** One user of [CreateGoogleSQLUsers]. *)
Definition add_sql_user source cfg (db : CloudSqlDatabase) (cascadingDelete : bool) (instance : Object) ast
    (user : string) : res error Ast :=
  let u := mkGoogleSqlUser user (GetName source) db instance in
  ast ← createSqlUserDBResources u (CreateObjectMeta source) cascadingDelete (GetName source) cfg ast;
  secretName ← googleSQLSecretName u;
  Ok (AppendEnvFrom [EnvFromSecret secretName] ast).

Definition CreateGoogleSQLUsers source ast cfg (db : CloudSqlDatabase) (instance : CloudSqlInstance)
    (googleSqlInstance : Object) : res error Ast :=
  res_foldl (add_sql_user source cfg db (csi_CascadingDelete instance) googleSqlInstance) ast
    (MergeAndFilterDatabaseSQLUsers (csd_Users db) (Name (o_Meta googleSqlInstance))).

(** ** database.go *)

Definition CreateGoogleSQLDatabase (objectMeta : ObjectMeta) (instanceName dbName projectId : string)
    (cascadingDelete : bool) : res error Object :=
  name ← must (ShortName (Name objectMeta +:+ "-" +:+ dbName) 63);
  Ok (mkObject (sql_gvk "SQLDatabase") (setAnnotations cascadingDelete projectId (SetName name objectMeta))
        (BSQLDatabase dbName instanceName)).

(** ** instance.go *)

Definition availabilityType (highAvailability : bool) : string :=
  if highAvailability then AvailabilityTypeRegional else AvailabilityTypeZonal.

Definition default_instance (appName : string) : CloudSqlInstance :=
  {| csi_Type := ""; csi_Name := ""; csi_Tier := ""; csi_DiskType := CloudSqlInstanceDiskTypeSSD;
     csi_DiskSize := DefaultSqlInstanceDiskSize; csi_DiskAutoresize := false; csi_DiskAutoresizeLimit := 0;
     csi_HighAvailability := false; csi_CascadingDelete := false; csi_Collation := DefaultSqlInstanceCollation;
     csi_Databases := [mkCloudSqlDatabase appName "" None]; csi_AutoBackupHour := None; csi_Insights := None;
     csi_Maintenance := None; csi_PointInTimeRecovery := false; csi_RetainedBackups := None;
     csi_TransactionLogRetentionDays := None; csi_Flags := [] |}.

(** The name and the backup hour are set when they are missing. *)
Definition with_name_and_hour (appName : string) (i : CloudSqlInstance) : CloudSqlInstance :=
  {| csi_Type := csi_Type i; csi_Name := if bool_decide (csi_Name i = "") then appName else csi_Name i;
     csi_Tier := csi_Tier i; csi_DiskType := csi_DiskType i; csi_DiskSize := csi_DiskSize i;
     csi_DiskAutoresize := csi_DiskAutoresize i; csi_DiskAutoresizeLimit := csi_DiskAutoresizeLimit i;
     csi_HighAvailability := csi_HighAvailability i; csi_CascadingDelete := csi_CascadingDelete i;
     csi_Collation := csi_Collation i; csi_Databases := csi_Databases i;
     csi_AutoBackupHour := match csi_AutoBackupHour i with
                           | Some h => Some h | None => Some DefaultSqlInstanceAutoBackupHour end;
     csi_Insights := csi_Insights i; csi_Maintenance := csi_Maintenance i;
     csi_PointInTimeRecovery := csi_PointInTimeRecovery i; csi_RetainedBackups := csi_RetainedBackups i;
     csi_TransactionLogRetentionDays := csi_TransactionLogRetentionDays i; csi_Flags := csi_Flags i |}.

Definition NaisCloudSqlInstanceWithDefaults (instance : option CloudSqlInstance) (appName : string)
    : res error CloudSqlInstance :=
  match instance with
  | None => Err (Errorf "sql instance not defined")
  | Some instance =>
      instance ← map_err (Textf "unable to merge default sqlinstance values: ")
                   (MergeSqlInstance instance (default_instance appName));
      Ok (with_name_and_hour appName instance)
  end.

Definition backup_settings (instance : CloudSqlInstance) : option SqlBackupRetention :=
  match csi_RetainedBackups instance, csi_TransactionLogRetentionDays instance with
  | None, None => None
  | retained, days => Some (mkSqlBackupRetention (default 0%Z retained) (default 0%Z days))
  end.

Definition private_network cfg : option string :=
  if ShouldCreateSqlInstanceInSharedVpc cfg &&
     (SqlInstanceHasPrivateIpInSharedVpc cfg || negb (SqlInstanceExists cfg))
  then Some ("projects/" +:+ GetGoogleProjectID cfg +:+ "/global/networks/nais-vpc") else None.

(** The window needs a day and an hour; day 0 is no day. *)
Definition maintenance_window (instance : CloudSqlInstance) : option (Z * Z) :=
  match csi_Maintenance instance with
  | Some (day, Some hour) => if bool_decide (day ≠ 0%Z) then Some (day, hour) else None
  | _ => None
  end.

Definition insights_config (instance : CloudSqlInstance) : bool * Z * bool * bool :=
  let enabled := Insights_IsEnabled (csi_Insights instance) in
  match csi_Insights instance with
  | Some i => (enabled, si_QueryStringLength i, si_RecordApplicationTags i, si_RecordClientAddress i)
  | None => (enabled, 0%Z, false, false)
  end.

Definition CreateGoogleSqlInstance (objectMeta : ObjectMeta) (instance : CloudSqlInstance) cfg : res error Object :=
  let objectMeta := SetAnnotation ProjectIdAnnotation (GetGoogleTeamProjectID cfg)
                      (SetName (csi_Name instance) objectMeta) in
  if bool_decide (slen (csi_Tier instance) = 0%nat)
  then Err (Errorf ("DB instance tier missing. Previous default value was `db-f1-micro` (recommended only for " +:+
                    "development); closest recommended value for production use is `db-custom-1-3840`"))
  else
    let objectMeta := if csi_CascadingDelete instance then objectMeta
                      else SetAnnotation DeletionPolicyAnnotation DeletionPolicyAbandon objectMeta in
    match csi_AutoBackupHour instance with
    | None => Err (Panic "nil pointer dereference")
    | Some hour =>
        Ok (mkObject (sql_gvk "SQLInstance") objectMeta
              (BSQLInstance "" (private_network cfg) (Some
                 {| sqs_DatabaseVersion := csi_Type instance; sqs_Region := Region;
                    sqs_AvailabilityType := availabilityType (csi_HighAvailability instance);
                    sqs_BackupEnabled := true; sqs_BackupStartTime := format_02d hour +:+ ":00";
                    sqs_PointInTimeRecovery := csi_PointInTimeRecovery instance;
                    sqs_BackupRetention := backup_settings instance;
                    sqs_Edition := SQLInstanceEditionEnterprise; sqs_RequireSsl := true;
                    sqs_DiskAutoresize := csi_DiskAutoresize instance;
                    sqs_DiskAutoresizeLimit := csi_DiskAutoresizeLimit instance;
                    sqs_DiskSize := csi_DiskSize instance;
                    sqs_DiskType := CloudSqlInstanceDiskType_GoogleType (csi_DiskType instance);
                    sqs_Tier := csi_Tier instance;
                    sqs_DatabaseFlags := ("cloudsql.iam_authentication", "on") :: csi_Flags instance;
                    sqs_Insights := insights_config instance;
                    sqs_Maintenance := maintenance_window instance |})))
    end.

Definition CreateIAMPolicyMemberForInstance source (resourceName : string) cfg : Object :=
  let objectMeta := SetName resourceName (CreateObjectMeta source) in
  mkObject (iam_gvk "IAMPolicyMember") (SetAnnotation ProjectIdAnnotation (GetGoogleTeamProjectID cfg) objectMeta)
    (BIAMPolicyMember (google_member source (GetGoogleProjectID cfg)) "roles/cloudsql.client"
       (mkIAMResourceRef "" "Project" (Some "") None)).

Definition CreateSqlSSLCertResource ast (instanceName : string) source (googleTeamProjectId clusterName : string)
    : res error Ast :=
  shortName ← must (ShortName (GetName source +:+ "-" +:+ instanceName) maxLengthName);
  secretName ← must (ShortName ("sqeletor-" +:+ instanceName) maxLengthName);
  let commonName := RandShortName (GetName source +:+ "." +:+ clusterName) maxLengthName in
  let objectMeta := SetAnnotation ProjectIdAnnotation googleTeamProjectId (SetName shortName (CreateObjectMeta source)) in
  let sqlSSLCert := mkObject (sql_gvk "SQLSSLCert")
    (SetAnnotation "sqeletor.nais.io/secret-name" secretName objectMeta)
    (BSQLSSLCert "" commonName (instanceName, GetNamespace source)) in
  let ast := AppendVolumes [FromFilesSecretVolumeWithMode sqeletorVolumeName secretName [] (Some 416%Z)]
               [FromFilesVolumeMount sqeletorVolumeName DefaultSqeletorMountPath "" true] ast in
  Ok (AppendOperation OperationCreateIfNotExists sqlSSLCert ast).

(** How the pod reaches the instance: through its private address with a client
    certificate, or through the proxy container. *)
Definition sql_connection source ast cfg (instance : Object) : res error Ast :=
  if ShouldCreateSqlInstanceInSharedVpc cfg && usingPrivateIP instance
  then CreateSqlSSLCertResource ast (Name (o_Meta instance)) source (GetGoogleTeamProjectID cfg) (GetClusterName cfg)
  else
    container ← CloudSqlProxyContainer 5432 (GetGoogleCloudSQLProxyContainerImage cfg)
                  (GetGoogleTeamProjectID cfg) (Name (o_Meta instance));
    Ok (AppendInitContainers [container] ast).

(** The resources of the one instance, once its defaults are set. *)
Definition create_instance source ast cfg (naisSqlInstance : CloudSqlInstance) : res error Ast :=
  if bool_decide (1 < length (csi_Databases naisSqlInstance))%nat
  then Err (Errorf "only one sql database is supported even though the spec indicates otherwise")
  else
    googleSqlInstance ← CreateGoogleSqlInstance (CreateObjectMeta source) naisSqlInstance cfg;
    let instanceName := Name (o_Meta googleSqlInstance) in
    let ast := AppendOperation OperationCreateOrUpdate googleSqlInstance ast in
    let ast := AppendOperation OperationCreateIfNotExists
                 (CreateIAMPolicyMemberForInstance source instanceName cfg) ast in
    match CloudSqlInstance_Database naisSqlInstance with
    | None => Err (Panic "nil pointer dereference")
    | Some naisSqlDatabase =>
        googleSqlDatabase ← CreateGoogleSQLDatabase (CreateObjectMeta source) instanceName
          (csd_Name naisSqlDatabase) (GetGoogleTeamProjectID cfg) (csi_CascadingDelete naisSqlInstance);
        let ast := AppendOperation OperationCreateOrUpdate googleSqlDatabase ast in
        ast ← CreateGoogleSQLUsers source ast cfg naisSqlDatabase naisSqlInstance googleSqlInstance;
        sql_connection source ast cfg googleSqlInstance
    end.

Definition CreateInstance source ast cfg : res error Ast :=
  match v_GCP (v_Backing (src_View source)) with
  | None => Ok ast
  | Some manifestGCP =>
      match gcp_SqlInstances manifestGCP with
      | [] => Ok ast
      | [_] =>
          naisSqlInstance ← NaisCloudSqlInstanceWithDefaults (GCP_Instance manifestGCP) (GetName source);
          create_instance source ast cfg naisSqlInstance
      | _ => Err (Errorf "only one sql instance is supported even though the spec indicates otherwise")
      end
  end.
End sql.

(** ** The users of a database *)

Lemma dedup_loop_spec keys users :
  Forall (λ u, ToLower u = u) users →
  NoDup (dedup_loop keys users) ∧ ∀ u, u ∈ dedup_loop keys users ↔ u ∈ users ∧ u ∉ keys.
Proof.
  revert keys. induction users as [|x users IH]; intros keys Hl; simpl.
  - split; [constructor|]. set_solver.
  - apply Forall_cons in Hl as [Hx Hl]. rewrite Hx. case_bool_decide as Hin.
    + destruct (IH keys Hl) as [Hnd Hin']. split; [done|]. intros u. rewrite Hin'. set_solver.
    + destruct (IH ({[x]} ∪ keys) Hl) as [Hnd Hin']. split.
      * constructor; [|done]. rewrite Hin'. set_solver.
      * intros u. rewrite elem_of_cons, Hin'. destruct (decide (u = x)); set_solver.
Qed.

(** The users of a database are made unique as long as their names are
    written in lower case: then each requested user, and the default one of the
    instance, is created exactly once. A name with an upper-case letter is looked
    up in lower case but remembered as it is written, so it is never recognised:
    listing it twice creates the same user and the same secret twice. *)
Lemma removeDuplicates_spec users instanceName :
  let all := MergeAndFilterDatabaseSQLUsers (Some users) instanceName in
  (Forall (λ u, ToLower u = u) (instanceName :: users) →
   NoDup all ∧ ∀ u, u ∈ all ↔ u = instanceName ∨ u ∈ users) ∧
  (∀ u, ToLower u ≠ u → removeDuplicates [u; u] = [u; u]).
Proof.
  cbn zeta. split.
  - intros [Hi Hu]%Forall_cons. unfold MergeAndFilterDatabaseSQLUsers, removeDuplicates.
    destruct (dedup_loop_spec ∅ (users ++ [instanceName])) as [Hnd Hin].
    { apply Forall_app. by split; [|constructor]. }
    split; [done|]. intros u. rewrite Hin. set_solver.
  - intros u Hu. unfold removeDuplicates. simpl.
    rewrite bool_decide_eq_false_2 by set_solver. by rewrite bool_decide_eq_false_2 by set_solver.
Qed.

Lemma removeDuplicates_spec_witness :
  NoDup (MergeAndFilterDatabaseSQLUsers (Some ["reader"; "myapp"; "reader"]) "myapp").
Proof.
  refine (proj1 (proj1 (removeDuplicates_spec ["reader"; "myapp"; "reader"] "myapp") _)).
  repeat constructor.
Defined.

Example upper_case_user_twice :
  MergeAndFilterDatabaseSQLUsers (Some ["Reader"; "Reader"]) "myapp" = ["Reader"; "Reader"; "myapp"].
Proof. reflexivity. Qed.
