(* ===== verification/Gcp.v ===== *)
(** * The Google resources of a workload, together

    Models [pkg/resourcecreator/google/gcp/gcp.go], which composes the service
    account, buckets, datasets, SQL instance and permissions, and states what the
    composition promises: whom the resources belong to, that the credentials of
    every SQL user resolve, and that the pod reaches its instance one way. *)

From S2P Require Import Prelude GoStrings Kube Api Vendor Config Util Resource Creators Samples Pod Wonderwall Identity Google GoogleSql.

Section gcp.
Context `{L : Liberator} `{AM : ApiMachinery} `{SL : StructLib}.
Implicit Types (source : Source) (ast : Ast) (cfg : Options).

Definition gcp_Create source ast cfg : res error Ast :=
  match IsCNRMEnabled cfg, v_GCP (v_Backing (src_View source)) with
  | false, None => Ok ast
  | false, Some _ => Err (Errorf "GCP resources requested, but CNRM is not enabled (not running on GCP?)")
  | true, gcp =>
      let projectID := GetGoogleProjectID cfg in
      let googleServiceAccount := CreateServiceAccount source projectID in
      let googleServiceAccountBinding := CreatePolicy source googleServiceAccount projectID in
      let ast := AppendOperation OperationCreateIfNotExists googleServiceAccount ast in
      let ast := AppendOperation OperationCreateIfNotExists googleServiceAccountBinding ast in
      match gcp with
      | None => Ok ast
      | Some _ =>
          ast ← storagebucket_Create source ast cfg;
          ast ← bigquery_CreateDataset source ast cfg (Name (o_Meta googleServiceAccount));
          ast ← CreateInstance source ast cfg;
          CreatePolicyMember source ast cfg
      end
  end.

(** ** Whom the resources belong to *)

(** The two objects without owner: the synchronizer deletes them by label when
    the workload is deleted. *)
Definition google_kinds : list (GroupVersionKind * GoType) :=
  [(iam_gvk "IAMServiceAccount", TIAMServiceAccount); (iam_gvk "IAMPolicy", TIAMPolicy)].

Definition google_shared source (op : Operation) : Prop :=
  let m := o_Meta (op_Resource op) in
  Namespace m = IAMServiceAccountNamespace ∧ OwnerReferences m = None ∧
  Name m = CreateAppNamespaceHash source ∧ op_Operation op = OperationCreateIfNotExists ∧
  kind_of (op_Resource op) ∈ google_kinds ∧ plain_meta m ∧
  HasLabel m ("app", GetName source) ∧ HasLabel m ("team", GetNamespace source).

Lemma storagebucket_appends source ast cfg ast' :
  storagebucket_Create source ast cfg = Ok ast' → appends (owned source) ast ast'.
Proof.
  unfold storagebucket_Create. intros H. destruct (v_GCP _); [|creator_cases; solve_appends].
  eapply appends_foldl; [|exact H]. unfold add_bucket. intros b x b' _ Hb.
  transitivity (AppendOperation OperationCreateOrUpdate
    (CreateBucket (CreateObjectMeta source) x (GetGoogleTeamProjectID cfg)) b).
  { unfold CreateBucket. solve_appends. destruct (csb_CascadingDelete x); solve_owned. }
  eapply appends_foldl; [|exact Hb]. unfold add_binding, bucket_iAMPolicyMember.
  intros c y c' _ Hc. creator_cases. solve_appends.
Qed.

Lemma bigquery_appends source ast cfg name ast' :
  bigquery_CreateDataset source ast cfg name = Ok ast' → appends (owned source) ast ast'.
Proof.
  unfold bigquery_CreateDataset. intros H. destruct (v_GCP _); [|creator_cases; solve_appends].
  eapply appends_foldl; [|exact H]. unfold add_dataset, createDataset, bigquery_iAMPolicyMember.
  intros b x b' _ Hb. creator_cases. solve_appends.
Qed.

Lemma CreatePolicyMember_appends source ast cfg ast' :
  CreatePolicyMember source ast cfg = Ok ast' → appends (owned source) ast ast'.
Proof.
  unfold CreatePolicyMember. intros H. destruct (v_GCP _); [|creator_cases; solve_appends].
  eapply appends_foldl; [|exact H]. unfold add_permission, policyMember.
  intros b x b' _ Hb. creator_cases. solve_appends.
Qed.

Lemma createSqlUser_appends source u cd cfg ast ast' :
  createSqlUserDBResources u (CreateObjectMeta source) cd (GetName source) cfg ast = Ok ast' →
  appends (owned source) ast ast'.
Proof.
  unfold createSqlUserDBResources, GoogleSqlUser_Create. intros H.
  apply res_bind_ok_inv in H as (secretName & _ & H). apply res_bind_ok_inv in H as (user & Hu & H).
  apply res_bind_ok_inv in Hu as (secretName' & _ & Hu). simplify_eq.
  apply res_bind_ok_inv in H as ([user' ast1] & Hif & H). simplify_eq.
  destruct (_ && _).
  - simplify_eq. unfold set_Meta, setAnnotations. destruct cd; solve_appends.
  - apply res_bind_ok_inv in Hif as (password & _ & Hif). simplify_eq.
    unfold OpaqueSecret, setAnnotations. destruct cd; solve_appends.
Qed.

Lemma CreateGoogleSQLUsers_appends source ast cfg db instance gi ast' :
  CreateGoogleSQLUsers source ast cfg db instance gi = Ok ast' → appends (owned source) ast ast'.
Proof.
  unfold CreateGoogleSQLUsers. apply appends_foldl. intros b user b' _ Hb. unfold add_sql_user in Hb.
  apply res_bind_ok_inv in Hb as (a & Ha & Hb). apply createSqlUser_appends in Ha. creator_cases.
  eapply appends_same; [done|reflexivity].
Qed.

Lemma sql_connection_appends source ast cfg instance ast' :
  sql_connection source ast cfg instance = Ok ast' → appends (owned source) ast ast'.
Proof. unfold sql_connection, CreateSqlSSLCertResource. intros H. creator_cases; solve_appends. Qed.

Lemma CreateGoogleSqlInstance_meta source i cfg o :
  CreateGoogleSqlInstance (CreateObjectMeta source) i cfg = Ok o →
  owned source (mkOperation o OperationCreateOrUpdate).
Proof.
  unfold CreateGoogleSqlInstance. intros H. destruct (csi_CascadingDelete i); creator_cases; solve_owned.
Qed.

Lemma CreateInstance_appends source ast cfg ast' :
  CreateInstance source ast cfg = Ok ast' → appends (owned source) ast ast'.
Proof.
  unfold CreateInstance, create_instance. intros H.
  destruct (v_GCP _) as [g|]; [|creator_cases; solve_appends].
  destruct (gcp_SqlInstances g) as [|? []]; [creator_cases; solve_appends| |done].
  apply res_bind_ok_inv in H as (i & _ & H). destruct (bool_decide _); [done|].
  apply res_bind_ok_inv in H as (gi & Hgi & H).
  pose proof (CreateGoogleSqlInstance_meta _ _ _ _ Hgi) as Hown.
  destruct (CloudSqlInstance_Database i) as [db|]; [|done].
  apply res_bind_ok_inv in H as (gd & Hgd & H). apply res_bind_ok_inv in H as (a & Ha & H).
  apply CreateGoogleSQLUsers_appends in Ha. apply sql_connection_appends in H.
  etransitivity; [|exact H]. etransitivity; [|exact Ha].
  unfold CreateGoogleSQLDatabase, must, CreateIAMPolicyMemberForInstance in *. creator_cases.
  apply appends_op; [apply appends_op; [apply appends_op; [done|]|]|]; auto with creators.
  unfold setAnnotations. destruct (csi_CascadingDelete i); solve_owned.
Qed.

Lemma gcp_appends source ast cfg ast' :
  gcp_Create source ast cfg = Ok ast' →
  appends (λ op, owned source op ∨ google_shared source op) ast ast'.
Proof.
  assert (Hshared : appends (google_shared source) ast
    (AppendOperation OperationCreateIfNotExists
       (CreatePolicy source (CreateServiceAccount source (GetGoogleProjectID cfg)) (GetGoogleProjectID cfg))
       (AppendOperation OperationCreateIfNotExists (CreateServiceAccount source (GetGoogleProjectID cfg)) ast))).
  { apply appends_op; [apply appends_op; [done|]|]; (split_and!; [done..| |by split|apply app_label|apply team_label]); set_solver. }
  apply (appends_weaken _ (λ op, owned source op ∨ google_shared source op)) in Hshared; [|tauto].
  unfold gcp_Create. intros H. destruct (IsCNRMEnabled cfg).
  2: { destruct (v_GCP _); creator_cases. solve_appends. }
  destruct (v_GCP _); [|by creator_cases].
  apply res_bind_ok_inv in H as (a1 & H1 & H). apply res_bind_ok_inv in H as (a2 & H2 & H).
  apply res_bind_ok_inv in H as (a3 & H3 & H).
  apply storagebucket_appends in H1. apply bigquery_appends in H2. apply CreateInstance_appends in H3.
  apply CreatePolicyMember_appends in H.
  etransitivity; [exact Hshared|]. apply (appends_weaken (owned source)); [tauto|].
  etransitivity; [exact H1|]. etransitivity; [exact H2|]. by etransitivity.
Qed.

(** ** The credentials of the SQL users *)

(** [user] can log in: the SQLUser of the instance takes its password from a key
    of a secret that is created along with it, the secret lies beside the
    workload, and the pod reads its variables from it. *)
Definition has_credentials source (instance : Object) (a : Ast) (user : string) : Prop :=
  ∃ uobj secret data key password,
    mkOperation uobj OperationCreateIfNotExists ∈ ast_Operations a ∧
    mkOperation secret OperationCreateIfNotExists ∈ ast_Operations a ∧
    o_Body uobj = BSQLUser user (Name (o_Meta instance)) (key, Name (o_Meta secret)) ∧
    Namespace (o_Meta uobj) = GetNamespace source ∧ Namespace (o_Meta secret) = GetNamespace source ∧
    o_Body secret = BSecret data "Opaque" ∧ data !! key = Some password ∧
    EnvFromSecret (Name (o_Meta secret)) ∈ ast_EnvFrom a.

Lemma user_password u password :
  CreateUserEnvVars u password !! (googleSqlUserPrefix u +:+ "_PASSWORD") = Some password.
Proof.
  unfold CreateUserEnvVars. set (p := googleSqlUserPrefix u).
  repeat (rewrite lookup_insert_ne; [|intros Hp%sapp_inj_l; discriminate]).
  by rewrite lookup_insert_eq.
Qed.

Lemma add_sql_user_credentials source cfg db cd instance a user a' :
  ShouldCreateSqlInstanceInSharedVpc cfg && usingPrivateIP instance = false →
  add_sql_user source cfg db cd instance a user = Ok a' →
  has_credentials source instance a' user ∧
  ast_Operations a ⊆ ast_Operations a' ∧ ast_EnvFrom a ⊆ ast_EnvFrom a'.
Proof.
  intros Hpriv. unfold add_sql_user. set (u := mkGoogleSqlUser user (GetName source) db instance).
  intros H. apply res_bind_ok_inv in H as (b & Hb & H). apply res_bind_ok_inv in H as (n & Hn & H). simplify_eq.
  unfold createSqlUserDBResources, GoogleSqlUser_Create in Hb. rewrite Hn in Hb. cbn [mbind res_mbind res_bind] in Hb.
  replace (usingPrivateIP (gu_Instance u)) with (usingPrivateIP instance) in Hb by done. rewrite Hpriv in Hb.
  destruct (must GeneratePassword) as [password|] eqn:Hp; [|discriminate Hb]. cbn in Hb. injection Hb as <-.
  split_and!.
  - eexists _, _, (CreateUserEnvVars u password), _, password. cbn [ast_Operations AppendEnvFrom AppendOperation ast_EnvFrom].
    split_and!; [rewrite elem_of_app; right; by left|rewrite !elem_of_app; left; left; left; right; by left
      |reflexivity| | |reflexivity|apply user_password|].
    + unfold setAnnotations. by destruct cd.
    + unfold setAnnotations. by destruct cd.
    + rewrite elem_of_app. right. by left.
  - cbn [ast_Operations AppendEnvFrom AppendOperation]. set_solver.
  - cbn [ast_EnvFrom AppendEnvFrom AppendOperation]. set_solver.
Qed.

(** C27. Every SQL user the workload asks for can be used: where the instance has
    no private address in the shared network, each of them gets a SQLUser whose
    password is a key of a secret created with it, and the pod's environment
    includes that secret. *)
Theorem sql_user_credentials source ast cfg db instance gi ast' :
  CreateGoogleSQLUsers source ast cfg db instance gi = Ok ast' →
  ShouldCreateSqlInstanceInSharedVpc cfg && usingPrivateIP gi = false →
  Forall (has_credentials source gi ast') (MergeAndFilterDatabaseSQLUsers (csd_Users db) (Name (o_Meta gi))).
Proof.
  intros H Hpriv. unfold CreateGoogleSQLUsers in H.
  apply (res_foldl_ind (λ users a, Forall (has_credentials source gi a) users)) in H; [done|done|].
  intros users user a a' Hall Hstep.
  apply add_sql_user_credentials in Hstep as (Hnew & Hops & Henv); [|done].
  apply Forall_app. split; [|by constructor]. eapply Forall_impl; [exact Hall|].
  intros x (uobj & secret & data & key & password & H1 & H2 & H3 & H4 & H5 & H6 & H7 & H8).
  exists uobj, secret, data, key, password. split_and!; auto.
Qed.

(** ** How the pod reaches its instance *)

Definition same_pod (a a' : Ast) : Prop :=
  ast_InitContainers a' = ast_InitContainers a ∧ ast_Volumes a' = ast_Volumes a ∧
  ast_VolumeMounts a' = ast_VolumeMounts a.

Definition no_secret (op : Operation) : Prop := TypeOf (op_Resource op) ≠ TSecret.

Lemma CreateGoogleSQLUsers_pod source ast cfg db instance gi ast' :
  CreateGoogleSQLUsers source ast cfg db instance gi = Ok ast' →
  same_pod ast ast' ∧
  (ShouldCreateSqlInstanceInSharedVpc cfg && usingPrivateIP gi = true → appends no_secret ast ast').
Proof.
  unfold CreateGoogleSQLUsers. apply (res_foldl_inv (λ a, same_pod ast a ∧ (_ → appends no_secret ast a))); [done|].
  intros a user a' _ [Hpod Happ] H. unfold add_sql_user in H. set (u := mkGoogleSqlUser _ _ _ _) in H.
  apply res_bind_ok_inv in H as (b & Hb & H). apply res_bind_ok_inv in H as (n & _ & H). simplify_eq.
  unfold createSqlUserDBResources in Hb. apply res_bind_ok_inv in Hb as (n' & _ & Hb).
  apply res_bind_ok_inv in Hb as (uobj & Hu & Hb).
  assert (Huser : ∀ f t, no_secret (mkOperation (set_Meta f uobj) t)).
  { unfold GoogleSqlUser_Create in Hu. apply res_bind_ok_inv in Hu as (? & _ & Hu). by simplify_eq. }
  apply res_bind_ok_inv in Hb as ([uobj' a1] & Hif & Hb). simplify_eq.
  replace (usingPrivateIP (gu_Instance u)) with (usingPrivateIP gi) in Hif by done.
  destruct (ShouldCreateSqlInstanceInSharedVpc cfg && usingPrivateIP gi); simplify_eq.
  - split; [exact Hpod|]. intros _. repeat appends_step; auto.
  - apply res_bind_ok_inv in Hif as (password & _ & Hif). simplify_eq. by split.
Qed.

Definition private_address cfg : bool :=
  ShouldCreateSqlInstanceInSharedVpc cfg && (SqlInstanceHasPrivateIpInSharedVpc cfg || negb (SqlInstanceExists cfg)).

Lemma CreateGoogleSqlInstance_private m i cfg o :
  CreateGoogleSqlInstance m i cfg = Ok o →
  ShouldCreateSqlInstanceInSharedVpc cfg && usingPrivateIP o = private_address cfg ∧ no_secret (mkOperation o OperationCreateOrUpdate).
Proof.
  unfold CreateGoogleSqlInstance, private_address, private_network. intros H.
  destruct (bool_decide _); [done|]. destruct (csi_AutoBackupHour i); [|done]. simplify_eq.
  split; [|done]. unfold usingPrivateIP. cbn [o_Body].
  by destruct (ShouldCreateSqlInstanceInSharedVpc cfg), (SqlInstanceHasPrivateIpInSharedVpc cfg), (SqlInstanceExists cfg).
Qed.

(** C26. A pod reaches its SQL instance in exactly one way: when the instance has,
    or is about to get, a private address in the shared network, the pod gets a
    client certificate and no proxy, and no password secret is generated;
    otherwise it gets the proxy as a sidecar, on the port the generated
    credentials name, and no certificate. *)
Theorem sql_one_connection source ast cfg i ast' :
  create_instance source ast cfg i = Ok ast' →
  if private_address cfg then
    ast_InitContainers ast' = ast_InitContainers ast ∧ appends no_secret ast ast' ∧
    ∃ v m cert, ast_Volumes ast' = ast_Volumes ast ++ [v] ∧ ast_VolumeMounts ast' = ast_VolumeMounts ast ++ [m] ∧
      vm_Name m = vol_Name v ∧ TypeOf cert = TSQLSSLCert ∧
      last (ast_Operations ast') = Some (mkOperation cert OperationCreateIfNotExists)
  else
    ast_Volumes ast' = ast_Volumes ast ∧ ast_VolumeMounts ast' = ast_VolumeMounts ast ∧
    ∃ c, ast_InitContainers ast' = ast_InitContainers ast ++ [c] ∧ c_Name c = "cloudsql-proxy" ∧
      c_RestartPolicy c = Some "Always" ∧
      map (λ p, Itoa (cp_Port p)) (c_Ports c) = [googleSQLPostgresPort].
Proof.
  unfold create_instance. destruct (bool_decide _); [done|]. intros H.
  apply res_bind_ok_inv in H as (gi & Hgi & H).
  destruct (CreateGoogleSqlInstance_private _ _ _ _ Hgi) as [Hpriv Hns].
  destruct (CloudSqlInstance_Database i) as [db|]; [|done].
  apply res_bind_ok_inv in H as (gd & Hgd & H). apply res_bind_ok_inv in H as (a & Ha & H).
  assert (Hgdns : no_secret (mkOperation gd OperationCreateOrUpdate)).
  { unfold CreateGoogleSQLDatabase in Hgd. apply res_bind_ok_inv in Hgd as (? & _ & Hgd). by simplify_eq. }
  apply CreateGoogleSQLUsers_pod in Ha as [(Hi & Hv & Hm) Happ]. simpl in Hi, Hv, Hm.
  unfold sql_connection in H. rewrite Hpriv in H, Happ. destruct (private_address cfg).
  - unfold CreateSqlSSLCertResource in H. creator_cases. split; [done|]. split.
    + apply appends_op; [|done]. apply (appends_same _ _ a); [|done].
      eapply appends_trans; [|exact (Happ eq_refl)]. repeat appends_step; done.
    + do 3 eexists. simpl. rewrite Hv, Hm. split_and!; [done..| |by apply last_snoc]. done.
  - creator_cases. simpl. split; [done|]. split; [done|].
    unfold CloudSqlProxyContainer in *. creator_cases. eexists. rewrite Hi. split_and!; done.
Qed.
End gcp.

(** ** Witnesses *)

Section witnesses.
Local Existing Instances sample_liberator sample_machinery sample_structs.

(** A workload with a bucket, a dataset, a permission and an SQL instance with an
    extra user. *)
Definition sql_instance : CloudSqlInstance :=
  mkCloudSqlInstance "POSTGRES_17" "" "db-custom-1-3840" "" 0 false 0 false false ""
    [mkCloudSqlDatabase "mydb" "DB" (Some ["reader"])] None None None false None None [].

Definition gcp_app : Source :=
  mkSource app_gvk (sample_meta "myapp" "team-a" "uid-1" []) KApplication
    (view_of "repo/app:1" [] [] no_auth plain_platform
       (mkBackingView None None []
          (Some (mkNaisGCP [mkBucket "mybucket" false None None true] [mkBigQuery "Events" "" "READ" false]
             [mkIAMPermission "roles/pubsub.admin" "pubsub/v1" "Topic" "topics/t"] [sql_instance])) None)) emptyStatus.

(** The instance in the shared network, and the one behind a proxy. *)
Definition proxy_options : Options :=
  mkOptions full_config "team-project" 1 "team-a" (mkSqlInstanceState true false) "".
Definition private_options : Options :=
  mkOptions full_config "team-project" 1 "team-a" (mkSqlInstanceState false false) "".

Definition sql_defaults : CloudSqlInstance :=
  match NaisCloudSqlInstanceWithDefaults (Some sql_instance) "myapp" with Ok i => i | Err _ => sql_instance end.

Definition google_instance : Object :=
  match CreateGoogleSqlInstance (CreateObjectMeta gcp_app) sql_defaults proxy_options with
  | Ok o => o | Err _ => sample_ns end.

Lemma proxy_users_ok :
  is_ok (CreateGoogleSQLUsers gcp_app NewAst proxy_options (mkCloudSqlDatabase "mydb" "DB" (Some ["reader"]))
           sql_defaults google_instance) = true.
Proof. vm_compute. reflexivity. Qed.

Lemma sql_user_credentials_witness :
  ∃ ast', has_credentials gcp_app google_instance ast' "reader" ∧ has_credentials gcp_app google_instance ast' "myapp".
Proof.
  destruct (is_ok_elim _ proxy_users_ok) as [ast' H]. exists ast'.
  pose proof (sql_user_credentials _ _ _ _ _ _ _ H ltac:(vm_compute; reflexivity)) as Hall.
  rewrite Forall_forall in Hall. split; apply Hall; [by left|by right; left].
Defined.

Lemma connection_ok :
  is_ok (create_instance gcp_app NewAst private_options sql_defaults) = true.
Proof. vm_compute. reflexivity. Qed.

Lemma sql_one_connection_witness :
  ∃ ast', create_instance gcp_app NewAst private_options sql_defaults = Ok ast' ∧
    ast_InitContainers ast' = [] ∧ ∃ v, ast_Volumes ast' = [v].
Proof.
  destruct (is_ok_elim _ connection_ok) as [ast' H]. exists ast'. split; [exact H|].
  pose proof (sql_one_connection gcp_app NewAst private_options sql_defaults ast' H) as Hc.
  destruct Hc as (Hi & _ & v & m & cert & Hv & _). split; [exact Hi|]. by exists v.
Defined.

Example gcp_app_ok : is_ok (gcp_Create gcp_app NewAst proxy_options) = true.
Proof. vm_compute. reflexivity. Qed.
End witnesses.
