(* ===== verification/Ingress.v ===== *)
(** * Ingresses and redirects

    Models [pkg/resourcecreator/ingress] (ingress.go, path.go, annotations.go,
    redirect.go): one Ingress per ingress class of the workload's URLs, the
    translation of nginx paths and annotations for HAProxy, redirects between
    hosts, and the permission check for them. *)

From S2P Require Import Prelude GoStrings Regex Kube Api Vendor Util Cluster Config Resource Creators MemServer Samples.

(** ** path.go *)

Definition regexSuffix : string := "(/.*)?".

(** [[()\[\]{}|^$*+?\\]], the characters that make a path a pattern. *)
Definition regex_meta (a : ascii) : bool :=
  bool_decide (nat_of_ascii a ∈ [40; 41; 91; 93; 123; 125; 124; 94; 36; 42; 43; 63; 92]).

(** The same class with the full stop. *)
Definition regex_meta_dot (a : ascii) : bool := regex_meta a || Ascii.eqb a ".".

Definition regexPathDetect : re := Chr regex_meta.

Definition isRegexPath (path : string) : bool := search regexPathDetect path.

(** The text before the first character of a class: [path[:loc[0]]] when the
    class matches somewhere, the whole path otherwise. *)
Fixpoint before (P : ascii → bool) (s : string) : string :=
  match s with
  | EmptyString => EmptyString
  | String a s' => if P a then EmptyString else String a (before P s')
  end.

Definition stripRegexPath (path : string) : string :=
  let path := TrimRight1 (before regex_meta_dot path) "/" in
  if bool_decide (path = "") then "/" else path.

(** [\(\$\|\\?/\$\)$]: one of two suffixes of the path; the text before it. *)
Definition exact_pair_head (path : string) : option string :=
  if HasSuffix path "($|\/$)" then Some (TrimSuffix path "($|\/$)")
  else if HasSuffix path "($|/$)" then Some (TrimSuffix path "($|/$)")
  else None.

Definition exactPairLiteral (path : string) : option string :=
  head ← exact_pair_head path;
  let literal := TrimRight1 head "/" in
  if bool_decide (literal = "") || isRegexPath literal then None else Some literal.

(** [\$(\d+)] *)
Definition nginxCaptureGroupRegex : re := Seq (Chr (Ascii.eqb "$")) (Plus (Chr is_digit)).

Definition hasCaptureGroupAnnotation (annotations : gmap string string) : bool :=
  search nginxCaptureGroupRegex (map_get annotations "nginx.ingress.kubernetes.io/rewrite-target").

Definition ingressPath (path : string) (pathType : PathType) (backend : IngressBackend)
    : HTTPIngressPath := mkIngressPath path pathType backend.

Definition haproxyIngressPaths (path : string) (annotations : gmap string string)
    (backend : IngressBackend) : list HTTPIngressPath :=
  if negb (isRegexPath path) || hasCaptureGroupAnnotation annotations
  then [ingressPath path PathPrefix backend]
  else match exactPairLiteral path with
       | Some literal => [ingressPath literal PathExact backend;
                          ingressPath (literal +:+ "/") PathExact backend]
       | None => [ingressPath (stripRegexPath path) PathPrefix backend]
       end.

(** ** annotations.go *)

Definition haproxyBackendConfigAnnotation : string := "haproxy.org/backend-config-snippet".
Definition haproxy_prefix : string := "haproxy.org/".
Definition nginx_prefix : string := "nginx.ingress.kubernetes.io/".

Definition newline : string := String (ascii_of_nat 10) "".

(** The iterations of these loops touch one key each, so the result does not
    depend on the order of the range. *)
Definition copyHAProxyAnnotations (dst src : gmap string string) : gmap string string :=
  map_imap (fun k v =>
    if bool_decide (k = haproxyBackendConfigAnnotation) && bool_decide (map_get dst k ≠ "")
    then Some (v +:+ newline +:+ newline +:+ map_get dst k) else Some v)
    (filter (fun kv => HasPrefix kv.1 haproxy_prefix = true) src) ∪ dst.

Definition copyNginxAnnotations (dst src : gmap string string) : gmap string string :=
  filter (fun kv => HasPrefix kv.1 nginx_prefix = true) src ∪ dst.

(** The mapping from nginx short keys to HAProxy keys. *)
Definition haProxyAnnotations : list (string * string) :=
  [("keepalive-timeout", "timeout-http-keep-alive");
   ("proxy-connect-timeout", "timeout-connect");
   ("proxy-read-timeout", "timeout-server");
   ("proxy-send-timeout", "timeout-client");
   ("upstream-vhost", "set-host")].

(** One entry of the mapping applied to the nginx annotations. *)
Definition migrate_key (nginx : gmap string string) (haProxy : gmap string string)
    (entry : string * string) : gmap string string :=
  let '(nginxKey, haProxyKey) := entry in
  match nginx !! (nginx_prefix +:+ nginxKey) with
  | None => haProxy
  | Some value =>
      let value := if HasSuffix nginxKey "-timeout" && HasPrefix haProxyKey "timeout-"
                   then value +:+ "s" else value in
      <[haproxy_prefix +:+ haProxyKey := value]> haProxy
  end.

Definition migrateLimitRpm (annotations nginx : gmap string string) : gmap string string :=
  let limitRpm := map_get nginx "nginx.ingress.kubernetes.io/limit-rpm" in
  if bool_decide (limitRpm = "") then annotations
  else <["haproxy.org/rate-limit-status-code" := "429"]>
         (<["haproxy.org/rate-limit-requests" := limitRpm]>
            (<["haproxy.org/rate-limit-period" := "1m"]> annotations)).

(** [nginxCaptureGroupRegex.ReplaceAllString(s, "\$1")]: a dollar sign before
    digits becomes a backslash. *)
Fixpoint nginxToHAProxyCaptureGroups (s : string) : string :=
  match s with
  | EmptyString => EmptyString
  | String a s' =>
      match s' with
      | String b _ =>
          if Ascii.eqb a "$" && is_digit b then String "\" (nginxToHAProxyCaptureGroups s')
          else String a (nginxToHAProxyCaptureGroups s')
      | EmptyString => String a EmptyString
      end
  end.

(** The longest run of word characters and the rest. *)
Fixpoint span_word (s : string) : string * string :=
  match s with
  | EmptyString => (EmptyString, EmptyString)
  | String a s' => if is_word a then let '(w, r) := span_word s' in (String a w, r)
                   else (EmptyString, s)
  end.

(** [nginxArgVariableRegex.ReplaceAllString(s, "%[url_param($1)]")]. The fuel is
    the length of the text, which every step shortens. *)
Fixpoint replace_args (fuel : nat) (s : string) : string :=
  match fuel, s with
  | S f, String a s' =>
      let '(rest, isArg) := CutPrefix s "$arg_" in
      let '(w, r) := span_word rest in
      if isArg && bool_decide (w ≠ "") then "%[url_param(" +:+ w +:+ ")]" +:+ replace_args f r
      else String a (replace_args f s')
  | _, _ => EmptyString
  end.

(** [\$arg_(\w+)] *)
Definition nginxArgVariableRegex : re := Seq (Lit "$arg_") (Plus (Chr is_word)).

(** The snippet a migration adds, below the ones already there. *)
Definition add_snippet (annotation snippet : string) (annotations : gmap string string)
    : gmap string string :=
  let delimiter := "# Added by naiserator due to the `" +:+ annotation +:+ "` annotation:" in
  let snippet := "###" +:+ newline +:+ delimiter +:+ newline +:+ snippet +:+ newline +:+ "###" in
  let existing := map_get annotations haproxyBackendConfigAnnotation in
  <[haproxyBackendConfigAnnotation :=
      (if bool_decide (existing ≠ "") then existing +:+ newline +:+ newline +:+ snippet
       else snippet)]> annotations.

Definition migrateRewriteTargetAsSnippet (annotations : gmap string string) (rewriteTarget : string)
    : gmap string string :=
  let haproxyTarget := nginxToHAProxyCaptureGroups rewriteTarget in
  let haproxyTarget := replace_args (slen haproxyTarget) haproxyTarget in
  add_snippet "nginx.ingress.kubernetes.io/rewrite-target"
    ("http-request redirect location " +:+ haproxyTarget +:+ " code 302") annotations.

Definition migrateWhitelistSourceRange (annotations nginx : gmap string string) : gmap string string :=
  let whitelist := map_get nginx "nginx.ingress.kubernetes.io/whitelist-source-range" in
  if bool_decide (whitelist = "") then annotations
  else
    let ranges := filter (fun r => r ≠ "") (map TrimSpace (Split1 whitelist ",")) in
    match ranges with
    | [] => annotations
    | _ =>
        add_snippet "nginx.ingress.kubernetes.io/whitelist-source-range"
          ("acl allowed_src req.hdr_ip(X-Forwarded-For) " +:+ Join ranges " " +:+ newline +:+
           "http-request deny deny_status 403 if !allowed_src") annotations
    end.

Section ingress.
Context `{L : Liberator} `{U : UrlLib} `{R : MapRange}.
Implicit Types (source : Source) (cfg : Options).

(** migrateRewriteTarget translates an nginx rewrite-target annotation to
    equivalent HAProxy annotations. *)
Definition migrateRewriteTarget (annotations nginx : gmap string string) : gmap string string :=
  let rewriteTarget := map_get nginx "nginx.ingress.kubernetes.io/rewrite-target" in
  if bool_decide (rewriteTarget = "") then annotations
  else if negb (HasPrefix rewriteTarget "http://" || HasPrefix rewriteTarget "https://")
  then <["haproxy.org/path-rewrite" := nginxToHAProxyCaptureGroups rewriteTarget]> annotations
  else match url_Parse rewriteTarget with
       | Err _ => migrateRewriteTargetAsSnippet annotations rewriteTarget
       | Ok u =>
           let hostOnly := bool_decide (url_Path u = "") || bool_decide (url_Path u = "/") in
           if hostOnly && negb (search nginxCaptureGroupRegex rewriteTarget) &&
              negb (search nginxArgVariableRegex rewriteTarget)
           then <["haproxy.org/request-redirect-code" := "302"]>
                  (<["haproxy.org/request-redirect" := url_Host u]> annotations)
           else migrateRewriteTargetAsSnippet annotations rewriteTarget
       end.

Definition migrateNginxAnnotationsToHAProxyAnnotations (haProxy nginx : gmap string string)
    : gmap string string :=
  let nginxAnnotations := copyNginxAnnotations ∅ nginx in
  let haProxy := foldl (migrate_key nginxAnnotations) haProxy haProxyAnnotations in
  let haProxy := migrateLimitRpm haProxy nginxAnnotations in
  let haProxy := migrateRewriteTarget haProxy nginxAnnotations in
  migrateWhitelistSourceRange haProxy nginxAnnotations.

(** ** ingress.go *)

Record Ingress := mkIngress { ing_Meta : ObjectMeta; ing_Spec : IngressSpec }.

Definition set_ing_annotations (f : gmap string string → gmap string string) (i : Ingress) : Ingress :=
  mkIngress (SetAnnotations (Some (f (default ∅ (Annotations (ing_Meta i))))) (ing_Meta i)) (ing_Spec i).

Definition add_rule (r : IngressRule) (i : Ingress) : Ingress :=
  mkIngress (ing_Meta i) (mkIngressSpec (is_ClassName (ing_Spec i)) (is_Rules (ing_Spec i) ++ [r])).

Definition ingressServiceBackend (appName : string) : IngressBackend :=
  mkBackend appName (int32 DefaultServicePort).

Definition createIngressRule (appName : string) (u : URL) (isHAProxy : bool)
    (annotations : gmap string string) : IngressRule :=
  let backend := ingressServiceBackend appName in
  mkIngressRule (url_Host u)
    (if isHAProxy then haproxyIngressPaths (url_Path u) annotations backend
     else [ingressPath (url_Path u) PathImplementationSpecific backend]).

Definition parseIngress (ingress : string) : res error URL :=
  match url_Parse ingress with
  | Err e => Err (Textf ("failed to parse URL '" +:+ ingress +:+ "': ") e)
  | Ok parsedURL =>
      let path := if bool_decide (1 < slen (url_Path parsedURL))%nat
                  then TrimRight1 (url_Path parsedURL) "/" else "/" in
      let parsedURL := set_url_Path path parsedURL in
      match ValidateUrl parsedURL with
      | Err e => Err e
      | Ok _ => Ok parsedURL
      end
  end.

(** The Ingress before annotations of its controller; 63 is the length of a DNS label. *)
Definition createIngressBase source (ingressClass : string) : res error Ingress :=
  shortName ← ShortName (GetName source +:+ "-" +:+ ingressClass) 63;
  let objectMeta := SetName shortName (CreateObjectMeta source) in
  let annotations := default ∅ (Annotations objectMeta) in
  let annotations :=
    match v_Liveness (src_View source) with
    | Some liveness =>
        if bool_decide (nprobe_Path liveness ≠ "")
        then <["prometheus.io/path" := nprobe_Path liveness]>
               (<["prometheus.io/scrape" := "true"]> annotations)
        else annotations
    | None => annotations
    end in
  Ok (mkIngress (SetAnnotations (Some annotations) objectMeta) (mkIngressSpec ingressClass [])).

Definition source_annotations source : gmap string string := default ∅ (Annotations (src_Meta source)).

Definition createIngressBaseHAProxy source (ingressClass : string) : res error Ingress :=
  ingress ← createIngressBase source ingressClass;
  Ok (set_ing_annotations (fun a =>
        copyHAProxyAnnotations
          (migrateNginxAnnotationsToHAProxyAnnotations a (source_annotations source))
          (source_annotations source)) ingress).

Definition backendProtocol (portName : string) : string :=
  if bool_decide (portName = "grpc") then "GRPC" else "HTTP".

Definition createIngressBaseNginx source (ingressClass : string) : res error Ingress :=
  ingress ← createIngressBase source ingressClass;
  Ok (set_ing_annotations (fun a =>
        let a := copyNginxAnnotations a (source_annotations source) in
        let a := <["nginx.ingress.kubernetes.io/use-regex" := "true"]> a in
        <["nginx.ingress.kubernetes.io/backend-protocol" :=
            backendProtocol (ns_Protocol (v_Service (src_View source)))]> a) ingress).

Definition createIngress source (ingressClass : string) (isHAProxy : bool) : res error Ingress :=
  if isHAProxy then createIngressBaseHAProxy source ingressClass
  else createIngressBaseNginx source ingressClass.

Definition is_haproxy (ingressClass : string) : bool := HasSuffix ingressClass "haproxy".

(** A HAProxy class where HAProxy is not enabled. *)
Definition skipped_class cfg (ingressClass : string) : bool :=
  is_haproxy ingressClass && negb (IsHAProxyEnabled cfg).

(** The rule a URL gets in the Ingress of a class. *)
Definition class_rule source (parsedURL : URL) (ingressClass : string) : IngressRule :=
  let isHAProxy := is_haproxy ingressClass in
  let ruleURL := if negb isHAProxy && bool_decide (1 < slen (url_Path parsedURL))%nat
                 then set_url_Path (url_Path parsedURL +:+ regexSuffix) parsedURL else parsedURL in
  createIngressRule (GetName source) ruleURL isHAProxy (source_annotations source).

(** The inner loop of [createIngresses]: one class of one URL. *)
Definition add_class source cfg (parsedURL : URL) (ingresses : gmap string Ingress)
    (ingressClass : string) : res error (gmap string Ingress) :=
  if skipped_class cfg ingressClass then Ok ingresses
  else
    ingress ← match ingresses !! ingressClass with
              | Some ingress => Ok ingress
              | None => createIngress source ingressClass (is_haproxy ingressClass)
              end;
    Ok (<[ingressClass := add_rule (class_rule source parsedURL ingressClass) ingress]> ingresses).

Definition add_url source cfg (ingresses : gmap string Ingress) (ingress : string)
    : res error (gmap string Ingress) :=
  parsedURL ← parseIngress ingress;
  ingressClasses ← GetIngressClasses cfg (url_Host parsedURL);
  res_foldl (add_class source cfg parsedURL) ingresses ingressClasses.

Definition createIngresses source cfg : res error (gmap string Ingress) :=
  res_foldl (add_url source cfg) ∅ (v_Ingress (src_View source)).

(** ** redirect.go *)

Definition AllowedRedirectAnnotation : string := "nais.io/allow-redirect".

Definition hasRedirects source : bool := bool_decide (0 < length (v_Redirects (src_View source)))%nat.

Definition ingress_hosts (o : Object) : list string :=
  match o_Body o with BIngress spec => map ir_Host (is_Rules spec) | _ => [] end.

(** The first Ingress with a rule for the host. *)
Definition findMatch (ingresses : list Object) (redirectFromHost : string) : option Object :=
  snd <$> list_find (fun o => redirectFromHost ∈ ingress_hosts o) ingresses.

Definition allowedRedirectAnnotation (matchedIngress : Object) : prog (res error unit) :=
  let m := o_Meta matchedIngress in
  let appName := GetLabel m "app" in
  if bool_decide (slen appName = 0%nat)
  then Ret (Err (Errorf ("no 'app' label found in the ingress in namespace " +:+ Namespace m)))
  else
    app ←!{Textf ("failed to get app object in namespace " +:+ Namespace m +:+ ": ")}
      call (Get TApplication (mkKey (Namespace m) appName));
    if bool_decide (GetAnnotation (o_Meta app) AllowedRedirectAnnotation ≠ "true")
    then Ret (Err (Errorf ("cross-namespace redirect not allowed from app '" +:+ Name (o_Meta app) +:+
                           "' without annotation 'nais.io/allow-redirect: true' in namespace '" +:+
                           Namespace m +:+ "'")))
    else Ret (Ok tt).

(** One redirect of [RedirectAllowed]. *)
Definition redirect_allowed source (redirect : Redirect) : prog (res error unit) :=
  match url_Parse (rd_From redirect) with
  | Err e => Ret (Err (Textf "failed to parse redirect URL: " e))
  | Ok redirectFrom =>
      own ←!{Textf ("failed to list ingresses in namespace " +:+ GetNamespace source +:+ ": ")}
        call (ListObjs TIngress (mkListOptions [] [] (GetNamespace source)));
      match findMatch own (url_Host redirectFrom) with
      | Some _ => Ret (Ok tt)
      | None =>
          all ←!{Textf "failed to list ingresses: "} call (ListObjs TIngress noOptions);
          match findMatch all (url_Host redirectFrom) with
          | None => Ret (Err (Errorf ("no ingress found with host matching redirect from URL: " +:+
                                      url_String redirectFrom)))
          | Some matchedIngress =>
              if bool_decide (Namespace (o_Meta matchedIngress) ≠ GetNamespace source)
              then allowedRedirectAnnotation matchedIngress
              else Ret (Ok tt)
          end
      end
  end.

Definition RedirectAllowed source : prog (res error unit) :=
  if negb (hasRedirects source) then Ret (Ok tt)
  else prog_iter (redirect_allowed source) (v_Redirects (src_View source)).

Definition createRedirectIngressRule source (redirectUrl : string) (isHAProxy : bool)
    : res error IngressRule :=
  u ← url_Parse (TrimRight1 redirectUrl "/");
  let backend := mkBackend (GetName source) (int32 DefaultServicePort) in
  Ok (mkIngressRule (url_Host u)
        [if isHAProxy then mkIngressPath "/" PathPrefix backend
         else mkIngressPath "/(.*)?" PathImplementationSpecific backend]).

Definition addRedirectConfiguration source (ingressClass : string) (ingress : Ingress)
    (redirect : URL) (isHAProxy : bool) : res error Ingress :=
  name ← ShortName (GetName source +:+ "-" +:+ ingressClass +:+ "-redirect") 63;
  let ingress := mkIngress (SetName name (ing_Meta ingress)) (ing_Spec ingress) in
  Ok (set_ing_annotations (fun a =>
        if isHAProxy
        then <["haproxy.org/request-redirect-code" := "302"]>
               (<["haproxy.org/request-redirect" := url_Host redirect]> a)
        else <["nginx.ingress.kubernetes.io/rewrite-target" := url_String redirect +:+ "$1"]> a)
      ingress).

(** The innermost loop of [createRedirectIngresses]: a new Ingress for the class
    replaces the one an earlier redirect made. *)
Definition add_redirect_class source cfg (to from : URL) (redirectIngresses : gmap string Ingress)
    (ingressClass : string) : res error (gmap string Ingress) :=
  if skipped_class cfg ingressClass then Ok redirectIngresses
  else
    let isHAProxy := is_haproxy ingressClass in
    rule ← createRedirectIngressRule source (url_String from) isHAProxy;
    ingress ← createIngress source ingressClass isHAProxy;
    ingress ← addRedirectConfiguration source ingressClass ingress to isHAProxy;
    Ok (<[ingressClass := add_rule rule ingress]> redirectIngresses).

(** One rule of an Ingress of the workload, for one redirect. *)
Definition add_redirect_rule source cfg (redirect : Redirect) (to : URL)
    (redirectIngresses : gmap string Ingress) (ingressRule : IngressRule)
    : res error (gmap string Ingress) :=
  if bool_decide (ir_Host ingressRule ≠ url_Host to) then Ok redirectIngresses
  else
    from ← parseIngress (rd_From redirect);
    ingressClasses ← GetIngressClasses cfg (url_Host from);
    res_foldl (add_redirect_class source cfg to from) redirectIngresses ingressClasses.

Definition add_redirect source cfg (ing : Ingress) (redirectIngresses : gmap string Ingress)
    (redirect : Redirect) : res error (gmap string Ingress) :=
  to ← parseIngress (rd_To redirect);
  res_foldl (add_redirect_rule source cfg redirect to) redirectIngresses (is_Rules (ing_Spec ing)).

Definition createRedirectIngresses source cfg (ingresses : gmap string Ingress)
    : res error (gmap string Ingress) :=
  redirectIngresses ←
    res_foldl (fun acc ing => res_foldl (add_redirect source cfg ing) acc (v_Redirects (src_View source)))
      ∅ (map snd (map_range ingresses));
  if bool_decide (redirectIngresses = ∅)
  then Err (Errorf "no matching ingress found for redirect")
  else Ok redirectIngresses.

Definition createIngressList source cfg : res error (list Ingress) :=
  ingresses ← createIngresses source cfg;
  redirectIngresses ← (if hasRedirects source then createRedirectIngresses source cfg ingresses
                       else Ok ∅);
  Ok (map snd (map_range ingresses) ++ map snd (map_range redirectIngresses)).

Definition ingress_object (i : Ingress) : Object :=
  mkObject (mkGVK "networking.k8s.io" "v1" "Ingress") (ing_Meta i) (BIngress (ing_Spec i)).

Definition ingress_Create source (ast : Ast) cfg : res error Ast :=
  if bool_decide (length (v_Ingress (src_View source)) = 0%nat) then Ok ast
  else
    ingresses ← createIngressList source cfg;
    Ok (foldl (fun ast i => AppendOperation OperationCreateOrUpdate (ingress_object i) ast) ast ingresses).
End ingress.

(** ** Lemmas *)

Section path_lemmas.
Implicit Types s path : string.

Lemma isRegexPath_false path : isRegexPath path = false ↔ all_chars (fun a => negb (regex_meta a)) path = true.
Proof. unfold isRegexPath, regexPathDetect. rewrite search_chr. apply negb_false_iff. Qed.

Lemma before_prefix P s : ∃ t, s = before P s +:+ t.
Proof.
  induction s as [|a s [t IH]]; simpl; [by exists ""|].
  destruct (P a); [by exists (String a s)|]. exists t. simpl. by rewrite <-IH.
Qed.

Lemma before_chars P s : all_chars (fun a => negb (P a)) (before P s) = true.
Proof. induction s as [|a s IH]; simpl; [done|]. destruct (P a) eqn:E; simpl; [done|]. by rewrite E. Qed.

Lemma TrimRight1_prefix s c : HasPrefix s (TrimRight1 s c) = true.
Proof. destruct (TrimRight1_split s c) as [n Hn]. apply HasPrefix_spec. eexists. exact Hn. Qed.

(** What HAProxy is given instead of a pattern. *)
Lemma stripRegexPath_spec path :
  all_chars (fun a => negb (regex_meta_dot a)) (stripRegexPath path) = true ∧
  (stripRegexPath path = "/" ∨ HasPrefix path (stripRegexPath path) = true ∧
     HasSuffix (stripRegexPath path) "/" = false).
Proof.
  unfold stripRegexPath. case_bool_decide as He; [split; [by vm_compute|by left]|].
  split; [by apply all_chars_TrimRight1, before_chars|]. right. split; [|apply TrimRight1_no_suffix].
  destruct (before_prefix regex_meta_dot path) as [t Ht].
  pose proof (TrimRight1_prefix (before regex_meta_dot path) "/") as [u Hu]%HasPrefix_spec.
  apply HasPrefix_spec. exists (u +:+ t). by rewrite <-sapp_assoc, <-Hu.
Qed.

Lemma exactPairLiteral_literal path literal :
  exactPairLiteral path = Some literal → literal ≠ "" ∧ isRegexPath literal = false.
Proof.
  unfold exactPairLiteral. destruct (exact_pair_head path) as [h|]; simpl; [|done].
  destruct (bool_decide _) eqn:He; simpl; [done|]. destruct (isRegexPath _) eqn:Hr; [done|].
  intros; simplify_eq. by bool_case.
Qed.

Lemma isRegexPath_app s1 s2 : isRegexPath (s1 +:+ s2) = isRegexPath s1 || isRegexPath s2.
Proof.
  unfold isRegexPath, regexPathDetect. rewrite !search_chr, all_chars_app. by rewrite negb_andb.
Qed.

Lemma TrimSuffix_app s t : TrimSuffix (s +:+ t) t = s.
Proof.
  unfold TrimSuffix. rewrite (proj2 (HasSuffix_spec _ _)) by (by exists s). rewrite slen_app.
  replace (slen s + slen t - slen t)%nat with (slen s) by lia. apply substring_app_l.
Qed.

Lemma TrimRight1_id s c : HasSuffix s (String c "") = false → TrimRight1 s c = s.
Proof.
  intros Hs. destruct (TrimRight1_split s c) as [[|n] Hn].
  - simpl in Hn. by rewrite sapp_nil_r in Hn.
  - exfalso. apply not_true_iff_false in Hs. apply Hs, HasSuffix_spec.
    rewrite Hn. rewrite replicate_S_end.
    exists (TrimRight1 s c +:+ String.concat "" (replicate n (String c ""))).
    rewrite sapp_assoc. f_equal. clear Hn. induction n as [|n IH]; [done|].
    simpl. destruct (replicate n (String c "")) eqn:E; simpl in *; [done|]. by rewrite IH.
Qed.
End path_lemmas.

Section loop_lemmas.
Context `{L : Liberator} `{U : UrlLib} `{R : MapRange}.
Implicit Types (m : gmap string Ingress) (c : string).

Definition rules_of m c : list IngressRule :=
  match m !! c with Some i => is_Rules (ing_Spec i) | None => [] end.

(** Every Ingress of the map is of its class, is not of a skipped class and has
    a rule. *)
Definition classes_ok cfg m : Prop :=
  ∀ c i, m !! c = Some i →
    is_ClassName (ing_Spec i) = c ∧ skipped_class cfg c = false ∧ is_Rules (ing_Spec i) ≠ [].

Lemma createIngress_base source c h i :
  createIngress source c h = Ok i → is_ClassName (ing_Spec i) = c ∧ is_Rules (ing_Spec i) = [].
Proof.
  unfold createIngress, createIngressBaseHAProxy, createIngressBaseNginx, createIngressBase.
  destruct (ShortName _ _); simpl; [|by destruct h]. destruct h; intros; by simplify_eq/=.
Qed.

Lemma add_class_spec source cfg u m c m' :
  classes_ok cfg m → add_class source cfg u m c = Ok m' →
  classes_ok cfg m' ∧
  ∀ c', rules_of m' c' = rules_of m c' ++
    (if bool_decide (c = c') && negb (skipped_class cfg c) then [class_rule source u c] else []).
Proof.
  intros Hok. unfold add_class. destruct (skipped_class cfg c) eqn:Hskip.
  { intros; simplify_eq. split; [done|]. intros c'. by rewrite andb_false_r, app_nil_r. }
  intros Hm. assert (∃ i, is_ClassName (ing_Spec i) = c ∧ is_Rules (ing_Spec i) = rules_of m c ∧
    m' = <[c := add_rule (class_rule source u c) i]> m) as (i & Hc & Hr & ->).
  { unfold rules_of. destruct (m !! c) as [i|] eqn:Hl.
    - simpl in Hm. simplify_eq. exists i. by destruct (Hok c i Hl).
    - destruct (createIngress source c (is_haproxy c)) as [i|] eqn:Hi; simpl in Hm; simplify_eq.
      apply createIngress_base in Hi as [? ?]. by exists i. }
  split.
  - intros c' i' [[<- <-]|[Hne Hl]]%lookup_insert_Some; simpl.
    + split_and!; [done..|]. by destruct (is_Rules _).
    + by apply Hok.
  - intros c'. unfold rules_of at 1. case_bool_decide as Heq.
    + subst c'. by rewrite lookup_insert_eq, <-Hr.
    + by rewrite lookup_insert_ne, app_nil_r.
Qed.

(** The rules a URL contributes to the Ingress of a class. *)
Definition url_rules source cfg c (ingress : string) : list IngressRule :=
  match parseIngress ingress with
  | Err _ => []
  | Ok u =>
      match GetIngressClasses cfg (url_Host u) with
      | Err _ => []
      | Ok classes => map (fun _ => class_rule source u c) (filter (fun c' => c' = c) classes)
      end
  end.

Lemma add_url_spec source cfg m ingress m' :
  classes_ok cfg m → add_url source cfg m ingress = Ok m' →
  classes_ok cfg m' ∧
  ∀ c, rules_of m' c = rules_of m c ++
    (if skipped_class cfg c then [] else url_rules source cfg c ingress).
Proof.
  intros Hok. unfold add_url, url_rules.
  destruct (parseIngress ingress) as [u|]; [|done]. simpl.
  destruct (GetIngressClasses cfg (url_Host u)) as [classes|]; [|done]. simpl. intros Hf.
  apply (res_foldl_ind (fun done a => classes_ok cfg a ∧ ∀ c, rules_of a c = rules_of m c ++
    (if skipped_class cfg c then [] else map (fun _ => class_rule source u c)
       (filter (fun c' => c' = c) done)))) in Hf; [done| |].
  - split; [done|]. intros c. rewrite filter_nil. simpl. by case_match; rewrite app_nil_r.
  - intros ds x a a' [Ha Hr] Hx. apply add_class_spec in Hx as [Ha' Hr']; [|done].
    split; [done|]. intros c. rewrite Hr', Hr, <-app_assoc. f_equal.
    rewrite filter_app, map_app, filter_cons, filter_nil.
    case_bool_decide as Heq.
    + subst c. rewrite decide_True by done. by destruct (skipped_class cfg x).
    + rewrite decide_False by done. simpl. rewrite !app_nil_r. by case_match.
Qed.
End loop_lemmas.

(** ** The Ingresses belong to the workload *)

Section owner_lemmas.
Context `{L : Liberator} `{U : UrlLib} `{R : MapRange} `{!MapRangeLaws R}.
Implicit Types (source : Source) (cfg : Options).

Definition ing_owned source (i : Ingress) : Prop := owned source (mkOperation (ingress_object i) OperationCreateOrUpdate).

Definition all_owned source (m : gmap string Ingress) : Prop := map_Forall (λ _, ing_owned source) m.

Lemma createIngress_owned source c h i : createIngress source c h = Ok i → ing_owned source i.
Proof.
  unfold createIngress, createIngressBaseHAProxy, createIngressBaseNginx, createIngressBase.
  destruct (ShortName _ _); simpl; [|by destruct h]. destruct h; intros; simplify_eq/=; solve_owned.
Qed.

Lemma createIngresses_owned source cfg m : createIngresses source cfg = Ok m → all_owned source m.
Proof.
  unfold createIngresses. apply (res_foldl_inv (all_owned source)); [apply map_Forall_empty|].
  intros a url a' _ Ha Hurl. unfold add_url in Hurl.
  apply res_bind_ok_inv in Hurl as (u & _ & Hurl). apply res_bind_ok_inv in Hurl as (classes & _ & Hurl).
  revert Hurl. apply (res_foldl_inv (all_owned source)); [done|].
  intros b c b' _ Hb Hc. unfold add_class in Hc. destruct (skipped_class cfg c); [by simplify_eq|].
  apply res_bind_ok_inv in Hc as (i & Hi & Hc). simplify_eq. apply map_Forall_insert_2; [|done].
  destruct (b !! c) as [j|] eqn:Hj; simplify_eq; [exact (Hb c i Hj)|by apply createIngress_owned in Hi].
Qed.

Lemma createRedirectIngresses_owned source cfg ms m :
  createRedirectIngresses source cfg ms = Ok m → all_owned source m.
Proof.
  unfold createRedirectIngresses. intros H. apply res_bind_ok_inv in H as (acc & Hacc & H).
  case_bool_decide; [done|]. simplify_eq. revert Hacc.
  apply (res_foldl_inv (all_owned source)); [apply map_Forall_empty|]. intros a ing a' _ Ha.
  apply (res_foldl_inv (all_owned source)); [done|]. intros b rd b' _ Hb Hrd. unfold add_redirect in Hrd.
  apply res_bind_ok_inv in Hrd as (to & _ & Hrd). revert Hrd.
  apply (res_foldl_inv (all_owned source)); [done|]. intros d rule d' _ Hd Hrule. unfold add_redirect_rule in Hrule.
  case_bool_decide; [by simplify_eq|]. apply res_bind_ok_inv in Hrule as (from & _ & Hrule).
  apply res_bind_ok_inv in Hrule as (classes & _ & Hrule). revert Hrule.
  apply (res_foldl_inv (all_owned source)); [done|]. intros e c e' _ He Hc. unfold add_redirect_class in Hc.
  destruct (skipped_class cfg c); [by simplify_eq|].
  apply res_bind_ok_inv in Hc as (r & _ & Hc). apply res_bind_ok_inv in Hc as (i & Hi & Hc).
  apply res_bind_ok_inv in Hc as (j & Hj & Hc). simplify_eq. apply map_Forall_insert_2; [|done].
  apply createIngress_owned in Hi. unfold addRedirectConfiguration in Hj. creator_cases. exact Hi.
Qed.

Lemma map_range_owned source m i : all_owned source m → i ∈ map snd (map_range m) → ing_owned source i.
Proof.
  intros Hm ([c j] & -> & Hj)%list_elem_of_fmap. rewrite map_range_perm in Hj.
  apply elem_of_map_to_list in Hj. by apply (Hm c).
Qed.

Lemma ingress_appends source ast cfg ast' :
  ingress_Create source ast cfg = Ok ast' → appends (owned source) ast ast'.
Proof.
  unfold ingress_Create. intros H. destruct (bool_decide _); [by simplify_eq|].
  apply res_bind_ok_inv in H as (ings & His & H). simplify_eq. unfold createIngressList in His.
  apply res_bind_ok_inv in His as (m & Hm & His). apply res_bind_ok_inv in His as (m' & Hm' & His). simplify_eq.
  apply createIngresses_owned in Hm.
  assert (Hown' : all_owned source m').
  { destruct (hasRedirects source); [by eapply createRedirectIngresses_owned|]. simplify_eq. apply map_Forall_empty. }
  assert (Hall : Forall (ing_owned source) (map snd (map_range m) ++ map snd (map_range m'))).
  { apply Forall_forall. intros i [Hi|Hi]%elem_of_app; [by apply (map_range_owned source m)|by apply (map_range_owned source m')]. }
  revert ast. induction Hall as [|i ings Hi Hall IH]; intros ast; simpl; [done|].
  etransitivity; [|apply IH]. by apply appends_op.
Qed.
End owner_lemmas.

(** ** Properties *)

Section properties.
Context `{L : Liberator} `{U : UrlLib} `{R : MapRange}.

(** C18. createIngresses groups the workload's URLs by ingress class: the
    Ingress of a class carries exactly the rules of the URLs whose domain that
    class serves, in the order of the URLs; there is an Ingress for a class
    exactly when it has a rule, and none for a HAProxy class where HAProxy is
    disabled. *)
Theorem createIngresses_rules source cfg m :
  createIngresses source cfg = Ok m →
  (∀ c i, m !! c = Some i →
     is_ClassName (ing_Spec i) = c ∧ skipped_class cfg c = false ∧ is_Rules (ing_Spec i) ≠ []) ∧
  ∀ c, rules_of m c = (if skipped_class cfg c then []
                       else mjoin (map (url_rules source cfg c) (v_Ingress (src_View source)))).
Proof.
  unfold createIngresses. intros Hf.
  apply (res_foldl_ind (fun done a => classes_ok cfg a ∧ ∀ c, rules_of a c =
    (if skipped_class cfg c then [] else mjoin (map (url_rules source cfg c) done)))) in Hf.
  - done.
  - split; [by intros c i Hi|]. intros c. by case_match.
  - intros ds x a a' [Ha Hr] Hx. apply add_url_spec in Hx as [Ha' Hr']; [|done].
    split; [done|]. intros c. rewrite Hr', Hr. destruct (skipped_class cfg c); [done|].
    rewrite map_app, join_app. simpl. by rewrite app_nil_r.
Qed.

(** C32. What HAProxy gets for a path: a literal path is passed on as a prefix. A
    regular expression is passed on as it is exactly when the rewrite target needs its
    capture groups; otherwise only literal paths are generated, and a path of the form
    literal($|/$) becomes the two exact paths it stands for. *)
Theorem haproxy_paths_literal path annotations backend :
  let paths := haproxyIngressPaths path annotations backend in
  (isRegexPath path = false → paths = [ingressPath path PathPrefix backend]) ∧
  (hasCaptureGroupAnnotation annotations = true → paths = [ingressPath path PathPrefix backend]) ∧
  (hasCaptureGroupAnnotation annotations = false →
   Forall (fun p => isRegexPath (hp_Path p) = false) paths ∧
   ∀ literal, literal ≠ "" → isRegexPath literal = false → HasSuffix literal "/" = false →
     path = literal +:+ "($|/$)" →
     paths = [ingressPath literal PathExact backend; ingressPath (literal +:+ "/") PathExact backend]).
Proof.
  cbn zeta. unfold haproxyIngressPaths. split_and!; [by intros ->|intros ->; by rewrite orb_true_r|].
  intros Hcap. rewrite Hcap, orb_false_r. split.
  - destruct (isRegexPath path) eqn:Hre; simpl; [|by repeat constructor].
    destruct (exactPairLiteral path) as [l|] eqn:Hl.
    + apply exactPairLiteral_literal in Hl as [_ Hl].
      repeat constructor; simpl; [done|]. by rewrite isRegexPath_app, Hl.
    + repeat constructor. simpl. apply isRegexPath_false.
      destruct (stripRegexPath_spec path) as [Hs _]. revert Hs. apply all_chars_impl.
      intros a. unfold regex_meta_dot. by destruct (regex_meta a).
  - intros l Hne Hre Hsl ->. rewrite isRegexPath_app, Hre.
    assert (Hl : exactPairLiteral (l +:+ "($|/$)") = Some l).
    { unfold exactPairLiteral, exact_pair_head.
      destruct (HasSuffix (l +:+ "($|/$)") "($|\/$)") eqn:Hbad.
      - exfalso. apply HasSuffix_spec in Hbad as [t Ht].
        change "($|\/$)" with ("($|" +:+ "\/$)") in Ht. change "($|/$)" with ("($" +:+ "|/$)") in Ht.
        rewrite <-!sapp_assoc in Ht. assert (Hlen := f_equal slen Ht). rewrite !slen_app in Hlen.
        simpl in Hlen. apply sapp_inj_len in Ht as [_ Ht]; [done|].
        rewrite !slen_app. simpl. lia.
      - rewrite (proj2 (HasSuffix_spec _ _)) by (by exists l). simpl. rewrite TrimSuffix_app.
        rewrite TrimRight1_id by done. by rewrite Hre, bool_decide_eq_false_2. }
    by rewrite Hl.
Qed.

(** The user's HAProxy annotations win over the ones naiserator derives
    from nginx annotations; only the backend snippet is combined, with the
    user's text first. *)
Lemma user_haproxy_annotations_win source c i k v :
  createIngressBaseHAProxy source c = Ok i →
  source_annotations source !! k = Some v → HasPrefix k haproxy_prefix = true →
  ∃ r, Annotations (ing_Meta i) = Some r ∧
    (k ≠ haproxyBackendConfigAnnotation → r !! k = Some v) ∧
    (k = haproxyBackendConfigAnnotation → ∃ rest, r !! k = Some (v +:+ rest)).
Proof.
  unfold createIngressBaseHAProxy. intros Hi Hk Hp.
  destruct (createIngressBase source c) as [b|]; [|done]. simpl in Hi. simplify_eq. simpl.
  eexists. split; [done|]. unfold copyHAProxyAnnotations.
  set (dst := migrateNginxAnnotationsToHAProxyAnnotations _ _).
  assert (Hf : filter (fun kv : string * string => HasPrefix kv.1 haproxy_prefix = true)
    (source_annotations source) !! k = Some v) by (by apply map_lookup_filter_Some).
  split.
  - intros Hne. apply lookup_union_Some_l. rewrite map_lookup_imap, Hf. simpl.
    by rewrite bool_decide_eq_false_2.
  - intros ->. destruct (bool_decide (map_get dst haproxyBackendConfigAnnotation ≠ "")) eqn:E;
      [eexists|exists ""]; apply lookup_union_Some_l; rewrite map_lookup_imap, Hf; cbn [mbind option_bind].
    + rewrite (bool_decide_eq_true_2 (_ = _)) by reflexivity.
      rewrite E. done.
    + rewrite (bool_decide_eq_true_2 (_ = _)) by reflexivity.
      rewrite E. by rewrite sapp_nil_r.
Qed.
End properties.

Section redirect_properties.
Context `{L : Liberator} `{U : UrlLib} `{R : MapRange}.
Context {W : Type} `{ApiServerLaws W}.

Lemma RedirectAllowed_reads source : read_only (RedirectAllowed source).
Proof.
  unfold RedirectAllowed, redirect_allowed, allowedRedirectAnnotation. solve_ops.
Qed.

(** What makes a redirect from a host legal in a cluster. *)
Definition redirect_ok source (w : W) (r : Redirect) : Prop :=
  ∃ u k ing, url_Parse (rd_From r) = Ok u ∧ stored w TIngress k = Some ing ∧
    url_Host u ∈ ingress_hosts ing ∧
    (Namespace (o_Meta ing) = GetNamespace source ∨
     ∃ app, stored w TApplication (mkKey (Namespace (o_Meta ing)) (GetLabel (o_Meta ing) "app")) = Some app ∧
       GetAnnotation (o_Meta app) AllowedRedirectAnnotation = "true").

Lemma findMatch_Some l host ing : findMatch l host = Some ing → ing ∈ l ∧ host ∈ ingress_hosts ing.
Proof.
  unfold findMatch. destruct (list_find _ l) as [[i o]|] eqn:Hf; simpl; intros; simplify_eq.
  apply list_find_Some in Hf as (Hl & Hh & _). split; [by eapply list_elem_of_lookup_2|done].
Qed.

Lemma redirect_allowed_ok source r w w' :
  GetNamespace source ≠ "" →
  run (redirect_allowed source r) w = (Ok tt, w') → redirect_ok source w r.
Proof.
  intros Hns. unfold redirect_allowed. destruct (url_Parse (rd_From r)) as [u|] eqn:Hu; [|done].
  run_step. set (own := mkListOptions [] [] (GetNamespace source)).
  pose proof (server_list_stored TIngress own w) as Hst.
  pose proof (server_list_namespace TIngress own w) as Hn.
  pose proof (server_read _ (ListObjs TIngress own) w eq_refl) as Hr.
  call_case [[l|e] w1]; [|done].
  specialize (Hst l eq_refl). specialize (Hn l eq_refl Hns). rewrite Forall_forall in Hst, Hn.
  destruct (findMatch l (url_Host u)) as [ing|] eqn:Hf.
  { intros _. apply findMatch_Some in Hf as [Hin Hh]. do 2 eexists. exists ing.
    split_and!; [done|by apply Hst|done|]. left. by apply Hn. }
  run_step. pose proof (server_list_stored TIngress noOptions w1) as Hst1.
  pose proof (server_read _ (ListObjs TIngress noOptions) w1 eq_refl) as Hr1.
  call_case [[l1|e] w2]; [|done]. specialize (Hst1 l1 eq_refl). rewrite Forall_forall in Hst1.
  destruct (findMatch l1 (url_Host u)) as [ing|] eqn:Hf1; [|done].
  apply findMatch_Some in Hf1 as [Hin Hh]. pose proof (Hst1 ing Hin) as Hing. rewrite Hr in Hing.
  case_bool_decide as Hne.
  2: { intros _. do 2 eexists. exists ing. split_and!; [done..|]. left.
       by destruct (decide (Namespace (o_Meta ing) = GetNamespace source)). }
  unfold allowedRedirectAnnotation. case_bool_decide; [done|]. run_step.
  set (key := mkKey _ _). pose proof (server_get_ok TApplication key w2) as Hget.
  call_case [[app|e] w3]; [|done]. case_bool_decide as Hanno; [done|]. intros _.
  do 2 eexists. exists ing. split_and!; [done..|]. right. exists app. split.
  - specialize (Hget app eq_refl). by rewrite Hr1, Hr in Hget.
  - by destruct (decide (GetAnnotation (o_Meta app) AllowedRedirectAnnotation = "true")).
Qed.

Lemma redirect_ok_mono source (w w' : W) r :
  (∀ t k, stored w' t k = stored w t k) → redirect_ok source w' r → redirect_ok source w r.
Proof.
  intros Hw (u & k & ing & ? & Hi & ? & Ho). exists u, k, ing. rewrite Hw in Hi.
  split_and!; [done..|]. destruct Ho as [?|(app & Ha & ?)]; [by left|right].
  exists app. by rewrite Hw in Ha.
Qed.

Lemma RedirectAllowed_all source w w' :
  GetNamespace source ≠ "" →
  run (RedirectAllowed source) w = (Ok tt, w') →
  Forall (redirect_ok source w) (v_Redirects (src_View source)).
Proof.
  intros Hns. unfold RedirectAllowed, hasRedirects.
  destruct (negb _) eqn:Hn.
  { destruct (v_Redirects (src_View source)) as [|? ?]; [constructor|done]. }
  clear Hn. generalize (v_Redirects (src_View source)) as rs.
  assert (Hro : ∀ r (v : W) t k, stored (run (redirect_allowed source r) v).2 t k = stored v t k).
  { intros r v. apply read_only_run. unfold redirect_allowed, allowedRedirectAnnotation. solve_ops. }
  intros rs. revert w. induction rs as [|r rs IH]; intros w; [constructor|].
  cbn [prog_iter]. run_step.
  pose proof (redirect_allowed_ok source r w) as Hr. pose proof (Hro r w) as Hst.
  destruct (run (redirect_allowed source r) w) as [[[]|e] w1]; [|done]. intros Hrest.
  constructor; [by eapply Hr|]. eapply Forall_impl; [by apply (IH w1)|].
  intros x. by apply redirect_ok_mono.
Qed.

(** C12. A redirect cannot take over a foreign host: RedirectAllowed succeeds
    only when, for every redirect of the workload, an Ingress of the cluster
    serves the host redirected from, and that Ingress is in the workload's own
    namespace or belongs to an application that carries the annotation allowing
    it. *)
Theorem RedirectAllowed_safe source w w' :
  GetNamespace source ≠ "" →
  run (RedirectAllowed source) w = (Ok tt, w') →
  Forall (redirect_ok source w) (v_Redirects (src_View source)).
Proof. apply RedirectAllowed_all. Qed.
End redirect_properties.

Section redirect_limits.
Context `{L : Liberator} `{U : UrlLib} `{R : MapRange}.

Lemma add_redirect_class_single source cfg to from m c m' :
  (∀ c i, m !! c = Some i → length (is_Rules (ing_Spec i)) = 1%nat) →
  add_redirect_class source cfg to from m c = Ok m' →
  ∀ c i, m' !! c = Some i → length (is_Rules (ing_Spec i)) = 1%nat.
Proof.
  intros Hm. unfold add_redirect_class.
  destruct (skipped_class cfg c); [by intros [= <-]|].
  destruct (createRedirectIngressRule _ _ _) as [rule|]; [|done]. simpl.
  destruct (createIngress _ _ _) as [i|] eqn:Hi; [|done]. simpl.
  apply createIngress_base in Hi as [_ Hr].
  unfold addRedirectConfiguration. destruct (ShortName _ _); [|done]. simpl.
  intros [= <-] c' i' [[<- <-]|[_ Hl]]%lookup_insert_Some; [|by eapply Hm].
  simpl. by rewrite Hr.
Qed.

(** At most one redirect per ingress class survives: every redirect Ingress
    that is generated has exactly one rule, so when a workload redirects from
    two hosts of the same class only one of them is served. *)
Lemma one_redirect_per_class source cfg ingresses m :
  createRedirectIngresses source cfg ingresses = Ok m →
  m ≠ ∅ ∧ ∀ c i, m !! c = Some i → length (is_Rules (ing_Spec i)) = 1%nat.
Proof.
  unfold createRedirectIngresses. set (f := fun acc ing => _).
  destruct (res_foldl f ∅ _) as [acc|] eqn:Hf; [|done]. simpl. case_bool_decide; [done|].
  intros; simplify_eq. split; [done|].
  set (I := fun a : gmap string Ingress => ∀ c i, a !! c = Some i → length (is_Rules (ing_Spec i)) = 1%nat).
  change (I m). apply (res_foldl_inv I) in Hf; [done|by intros c i Hc|].
  intros a ing a' _ Ha Hx. subst f. simpl in Hx. apply (res_foldl_inv I) in Hx; [done..|].
  intros b rd b' _ Hb Hrd. unfold add_redirect in Hrd.
  destruct (parseIngress (rd_To rd)) as [to|]; [|done]. simpl in Hrd.
  apply (res_foldl_inv I) in Hrd; [done..|]. intros d rule d' _ Hd Hrule.
  unfold add_redirect_rule in Hrule. case_bool_decide; [by simplify_eq|].
  destruct (parseIngress (rd_From rd)) as [from|]; [|done]. simpl in Hrule.
  destruct (GetIngressClasses cfg _) as [cs|]; [|done]. simpl in Hrule.
  apply (res_foldl_inv I) in Hrule; [done..|]. intros e c e' _ He Hc.
  refine (add_redirect_class_single _ _ _ _ _ _ _ He Hc).
Qed.
End redirect_limits.

(** ** Witnesses *)

(** ** Witnesses *)

#[local] Existing Instances sample_liberator sample_url sample_range.

Definition redirecting_app : Source :=
  mkSource app_gvk
    (SetAnnotations (Some {[ "haproxy.org/timeout-server" := "5s" ]}) (src_Meta sample_app)) KApplication
    (view_of "repo/app:1" ["https://app.nais.io"; "https://app.dev.nais.io/path/"]
       [mkRedirect "https://old.dev.nais.io" "https://app.nais.io";
        mkRedirect "https://older.dev.nais.io" "https://app.nais.io"] no_auth plain_platform no_backing)
    emptyStatus.

Lemma redirecting_ingresses_ok : is_ok (createIngresses redirecting_app (newOptions sample_config)) = true.
Proof. vm_compute. reflexivity. Qed.

Lemma createIngresses_rules_witness :
  ∃ m, createIngresses redirecting_app (newOptions sample_config) = Ok m ∧
    rules_of m "dev-ingress" =
      [createIngressRule "myapp" (mkURL "https" "app.dev.nais.io" "/path(/.*)?" "") false
         {[ "haproxy.org/timeout-server" := "5s" ]}].
Proof.
  destruct (is_ok_elim _ redirecting_ingresses_ok) as [m Hm].
  exists m. split; [exact Hm|].
  rewrite (proj2 (createIngresses_rules redirecting_app (newOptions sample_config) m Hm) "dev-ingress").
  vm_compute. reflexivity.
Defined.

Lemma haproxy_paths_literal_witness :
  haproxyIngressPaths "/app($|/$)" ∅ (mkBackend "myapp" 80) =
    [ingressPath "/app" PathExact (mkBackend "myapp" 80);
     ingressPath "/app/" PathExact (mkBackend "myapp" 80)].
Proof.
  refine (proj2 (proj2 (proj2 (haproxy_paths_literal "/app($|/$)" ∅ (mkBackend "myapp" 80))) _) "/app" _ _ _ _);
    [reflexivity|discriminate|reflexivity|reflexivity|reflexivity].
Defined.

Lemma user_haproxy_annotations_win_witness :
  ∃ i r, createIngressBaseHAProxy redirecting_app "nais-ingress-haproxy" = Ok i ∧
    Annotations (ing_Meta i) = Some r ∧ r !! "haproxy.org/timeout-server" = Some "5s".
Proof.
  destruct (createIngressBaseHAProxy redirecting_app "nais-ingress-haproxy") as [i|e] eqn:Hi;
    [|exfalso; vm_compute in Hi; discriminate].
  destruct (user_haproxy_annotations_win redirecting_app "nais-ingress-haproxy" i
    "haproxy.org/timeout-server" "5s" Hi) as (r & Hr & Hk & _); [reflexivity|reflexivity|].
  exists i, r. split; [reflexivity|]. split; [exact Hr|]. apply Hk. discriminate.
Defined.

Definition serving_ingress (host : string) : Object :=
  mkObject (mkGVK "networking.k8s.io" "v1" "Ingress")
    (SetNamespace "team-a" (SetName "old" emptyMeta))
    (BIngress (mkIngressSpec "nais-ingress" [mkIngressRule host []])).

Definition redirect_cluster : Mem :=
  mem_of [serving_ingress "old.dev.nais.io"; set_Meta (SetName "older") (serving_ingress "older.dev.nais.io")].

Lemma RedirectAllowed_safe_witness :
  Forall (redirect_ok redirecting_app redirect_cluster) (v_Redirects (src_View redirecting_app)).
Proof.
  eapply RedirectAllowed_safe; [discriminate|vm_compute; reflexivity].
Defined.

(** The redirect Ingress of one class, through both creators. *)
Definition redirect_run : res error Ingress :=
  ms ← createIngresses redirecting_app (newOptions sample_config);
  m ← createRedirectIngresses redirecting_app (newOptions sample_config) ms;
  match m !! "dev-ingress" with Some i => Ok i | None => Err (Errorf "no redirect") end.

Lemma redirect_run_ok : is_ok redirect_run = true.
Proof. vm_compute. reflexivity. Qed.

Example one_redirect_survives :
  ∃ ms m i, createIngresses redirecting_app (newOptions sample_config) = Ok ms ∧
    createRedirectIngresses redirecting_app (newOptions sample_config) ms = Ok m ∧
    m !! "dev-ingress" = Some i ∧ length (is_Rules (ing_Spec i)) = 1%nat.
Proof.
  destruct (is_ok_elim _ redirect_run_ok) as [i H]. unfold redirect_run in H.
  apply res_bind_ok_inv in H as (ms & Hms & H). apply res_bind_ok_inv in H as (m & Hm & H).
  destruct (m !! "dev-ingress") as [j|] eqn:Hj; [|discriminate H].
  exists ms, m, j. split; [exact Hms|]. split; [exact Hm|]. split; [exact Hj|].
  exact (proj2 (one_redirect_per_class redirecting_app (newOptions sample_config) ms m Hm) "dev-ingress" j Hj).
Defined.
