(* ===== verification/Deployment.v ===== *)
(** * Deployments

    Models [pkg/resourcecreator/deployment]: the Deployment of an application,
    its update strategy and its metadata. *)

From S2P Require Import Prelude GoStrings Kube Api Vendor Config Resource Creators Samples Pod.

Section deployment.
Context `{L : Liberator}.

Definition deploymentStrategy (app : Source) : DeploymentStrategy :=
  let strategy := v_Strategy (src_View app) in
  if bool_decide (nst_Type strategy = DeploymentStrategyRecreate) then RecreateStrategy
  else
    let maxUnavailable := FromInt 0 in
    let maxSurge := FromString "25%" in
    match nst_RollingUpdate strategy with
    | None => RollingUpdateStrategy maxUnavailable maxSurge
    | Some (surge, unavailable) =>
        RollingUpdateStrategy (default maxUnavailable unavailable) (default maxSurge surge)
    end.

Definition deploymentSpec (app : Source) (ast : Ast) (cfg : Options)
    : res error (DeploymentSpec * Ast) :=
  podSpec ← CreateSpec ast cfg (GetName app) (default ∅ (Annotations (src_Meta app))) "Always"
              (v_TerminationGracePeriodSeconds (src_View app));
  let '(meta, ast) := CreateAppObjectMeta app ast cfg in
  Ok ({| ds_Replicas := Some (GetNumReplicas cfg);
         ds_Selector := mkSelector {[ "app" := GetName app ]};
         ds_Strategy := deploymentStrategy app;
         ds_ProgressDeadlineSeconds := Some 300%Z;
         ds_RevisionHistoryLimit := Some 3%Z;
         ds_Template := mkPodTemplate meta podSpec |}, ast).

(** The annotations a Deployment or CronJob gets on top of the common ones. *)
Definition with_change_cause (source : Source) (annotations : gmap string string)
    : gmap string string :=
  match default ∅ (Annotations (src_Meta source)) !! "kubernetes.io/change-cause" with
  | Some val => <["kubernetes.io/change-cause" := val]> annotations
  | None => annotations
  end.

Definition deployment_Create (app : Source) (ast : Ast) (cfg : Options) : res error Ast :=
  let objectMeta := CreateObjectMeta app in
  match deploymentSpec app ast cfg with
  | Err e => Err (Wrapf "create deployment: " e)
  | Ok (spec, ast) =>
      let annotations := with_change_cause app (default ∅ (Annotations objectMeta)) in
      let annotations := <["reloader.stakater.com/search" := "true"]> annotations in
      Ok (AppendOperation OperationCreateOrUpdate
            (mkObject (mkGVK "apps" "v1" "Deployment")
               (SetAnnotations (Some annotations) objectMeta)
               (BDeployment spec (mkDeploymentStatus 0 0 0 0))) ast)
  end.

Lemma deployment_appends app ast cfg ast' :
  deployment_Create app ast cfg = Ok ast' → appends (owned app) ast ast'.
Proof.
  unfold deployment_Create, deploymentSpec, CreateAppObjectMeta. intros H. creator_cases. solve_appends.
Qed.

(** ** Properties *)

(** The Deployment the generator emits is consistent: it is the only
    operation added, its replica count is the prepared one, and as long as no
    creator overrides the app label its selector selects exactly the app label
    its own pod template carries. By default no pod is taken down before its
    replacement is up. *)
Lemma deployment_consistent app ast cfg ast' :
  deployment_Create app ast cfg = Ok ast' → ast_Labels ast !! "app" = None →
  ∃ meta spec status, ast_Operations ast' = ast_Operations ast ++
      [mkOperation (mkObject (mkGVK "apps" "v1" "Deployment") meta (BDeployment spec status))
         OperationCreateOrUpdate] ∧
    meta_key meta = meta_key (src_Meta app) ∧
    ds_Replicas spec = Some (GetNumReplicas cfg) ∧
    (∃ labels, Labels (pt_Meta (ds_Template spec)) = Some labels ∧
       MatchLabels (ds_Selector spec) ⊆ labels) ∧
    (nst_Type (v_Strategy (src_View app)) ≠ DeploymentStrategyRecreate →
     nst_RollingUpdate (v_Strategy (src_View app)) = None →
     ds_Strategy spec = RollingUpdateStrategy (FromInt 0) (FromString "25%")).
Proof.
  unfold deployment_Create, deploymentSpec. intros Hc Happ.
  destruct (CreateSpec _ _ _ _ _ _) as [podSpec|e]; [|done]. simpl in Hc. simplify_eq.
  do 3 eexists. simpl. split_and!; [done|done|done| |].
  - eexists. split; [done|]. apply map_singleton_subseteq_l.
    rewrite lookup_maps_copy, Happ. destruct (CreateObjectMeta_labels app) as (m & Hm & Hl & _).
    simpl in Hm. by simplify_eq.
  - unfold deploymentStrategy. intros ? ->. by rewrite bool_decide_eq_false_2.
Qed.
End deployment.

Section witnesses.
Local Existing Instance sample_liberator.

Lemma deployment_consistent_witness :
  ∃ ast', deployment_Create sample_app (AppendContainers [named_container "myapp"] NewAst)
            (newOptions sample_config) = Ok ast' ∧
    length (ast_Operations ast') = 1%nat.
Proof.
  eexists. split; [reflexivity|].
  destruct (deployment_consistent sample_app (AppendContainers [named_container "myapp"] NewAst)
    (newOptions sample_config) _ eq_refl eq_refl) as (meta & spec & st & Hops & _).
  rewrite Hops. reflexivity.
Defined.
End witnesses.
