(* ===== verification/Scaling.v ===== *)
(** * Autoscaling and disruption budgets

    Models [pkg/resourcecreator/horizontalpodautoscaler] and
    [poddisruptionbudget], and relates them to the replica count of the
    Deployment ([pkg/generators/numreplicas.go]). *)

From S2P Require Import Prelude GoStrings Kube Api Vendor Config Resource Creators Samples.

Definition KafkaConsumerLagMetric : string := "kafka_consumergroup_group_lag".

Definition createKafkaMetricSpec (kafka : KafkaScaling) : MetricSpec :=
  ExternalMetric KafkaConsumerLagMetric
    {[ "topic" := ks_Topic kafka; "group" := ks_ConsumerGroup kafka ]} (ks_Threshold kafka).

Definition createCpuMetricSpec (percentage : Z) : MetricSpec := CpuMetric (int32 percentage).

Definition metricSpecs (replicas : Replicas) : list MetricSpec :=
  match rep_ScalingStrategy replicas with
  | Some s =>
      match sst_Cpu s with Some p => [createCpuMetricSpec p] | None => [] end ++
      match sst_Kafka s with Some k => [createKafkaMetricSpec k] | None => [] end
  | None => [createCpuMetricSpec (rep_CpuThresholdPercentage replicas)]
  end.

Section scaling.
Context `{L : Liberator}.

Definition hpa_spec (source : Source) : HPASpec :=
  let replicas := v_Replicas (src_View source) in
  {| hpa_Target := GetName source;
     hpa_Metrics := metricSpecs replicas;
     hpa_MinReplicas := Some (int32 (rep_Min replicas));
     hpa_MaxReplicas := int32 (rep_Max replicas);
     hpa_ScaleUpWindow :=
       match rep_ScalingStrategy replicas with
       | Some s => if (0 <? sst_ScaleUpWindow s)%Z then Some (int32 (sst_ScaleUpWindow s)) else None
       | None => None
       end |}.

Definition horizontalpodautoscaler_Create (source : Source) (ast : Ast) : Ast :=
  let replicas := v_Replicas (src_View source) in
  if (rep_Max replicas <=? 0)%Z then ast
  else if rep_DisableAutoScaling replicas || bool_decide (rep_Min replicas = rep_Max replicas) then ast
  else AppendOperation OperationCreateOrUpdate
         (mkObject (mkGVK "autoscaling" "v2" "HorizontalPodAutoscaler") (CreateObjectMeta source)
            (BHPA (hpa_spec source))) ast.

Definition poddisruptionbudget_Create (source : Source) (ast : Ast) : Ast :=
  let replicas := v_Replicas (src_View source) in
  if bool_decide (rep_Max replicas = 1%Z) || bool_decide (rep_Min replicas = 1%Z) then ast
  else AppendOperation OperationCreateOrUpdate
         (mkObject (mkGVK "policy" "v1" "PodDisruptionBudget") (CreateObjectMeta source)
            (BPDB (mkPDBSpec (Some (FromInt 1)) (mkSelector {[ "app" := GetName source ]}) "AlwaysAllow"))) ast.

Lemma hpa_appends source ast : appends (owned source) ast (horizontalpodautoscaler_Create source ast).
Proof. unfold horizontalpodautoscaler_Create. repeat case_match; solve_appends. Qed.

Lemma pdb_appends source ast : appends (owned source) ast (poddisruptionbudget_Create source ast).
Proof. unfold poddisruptionbudget_Create. repeat case_match; solve_appends. Qed.

(** C25. The autoscaler and the replica count agree: an autoscaler is emitted
    exactly when the workload has a positive maximum that differs from its
    minimum and autoscaling is not disabled, and otherwise nothing is; it then scales
    the Deployment of the workload's name between the two, and the replica count a
    rollout starts from keeps a running Deployment's count and is never below the
    autoscaler's minimum. With equal bounds the count is that bound. *)
Theorem autoscaler_consistent source ast existing :
  let r := v_Replicas (src_View source) in
  (0 ≤ rep_Min r < 2 ^ 31)%Z → (0 ≤ rep_Max r < 2 ^ 31)%Z →
  let n := numReplicas existing (rep_Min r) (rep_Max r) in
  (rep_Min r = rep_Max r → n = rep_Min r) ∧
  (rep_Min r = rep_Max r ∨ rep_DisableAutoScaling r = true ∨ (rep_Max r ≤ 0)%Z →
   horizontalpodautoscaler_Create source ast = ast) ∧
  (rep_Min r ≠ rep_Max r → rep_DisableAutoScaling r = false → (0 < rep_Max r)%Z →
   ∃ meta spec, ast_Operations (horizontalpodautoscaler_Create source ast) =
       ast_Operations ast ++
       [mkOperation (mkObject (mkGVK "autoscaling" "v2" "HorizontalPodAutoscaler") meta (BHPA spec))
          OperationCreateOrUpdate] ∧
     hpa_Target spec = GetName source ∧ hpa_MinReplicas spec = Some (rep_Min r) ∧
     hpa_MaxReplicas spec = rep_Max r ∧ (rep_Min r ≤ n)%Z ∧
     (∀ current, existing = Some (Some current) → (rep_Min r ≤ current)%Z → n = current)).
Proof.
  cbn zeta. intros Hmin Hmax. set (r := v_Replicas (src_View source)) in *.
  unfold horizontalpodautoscaler_Create, numReplicas. fold r. split_and!.
  - intros Heq. rewrite (bool_decide_eq_true_2 (rep_Min r = rep_Max r)) by done.
    rewrite int32_small by lia. repeat case_bool_decide; simpl; lia.
  - intros Hno. destruct (rep_Max r <=? 0)%Z eqn:E; [done|]. apply Z.leb_gt in E.
    destruct Hno as [Heq|[->|?]]; [by rewrite bool_decide_eq_true_2, orb_true_r|done|lia].
  - intros Hne Hdis Hpos. rewrite Hdis, (bool_decide_eq_false_2 (rep_Min r = rep_Max r)) by done.
    destruct (rep_Max r <=? 0)%Z eqn:E; [apply Z.leb_le in E; lia|]. cbn [orb].
    do 2 eexists. split; [reflexivity|]. unfold hpa_spec. fold r. cbn [hpa_Target hpa_MinReplicas hpa_MaxReplicas].
    rewrite !int32_small by lia. split_and!; try done.
    + repeat case_match; bool_case; simplify_eq; lia.
    + intros current -> Hc. rewrite (bool_decide_eq_false_2 (rep_Max r = 0%Z)), andb_false_r by lia. lia.
Qed.
End scaling.

Section witnesses.
Local Existing Instance sample_liberator.

Lemma autoscaler_consistent_witness :
  ∃ meta spec, ast_Operations (horizontalpodautoscaler_Create sample_app NewAst) =
    [mkOperation (mkObject (mkGVK "autoscaling" "v2" "HorizontalPodAutoscaler") meta (BHPA spec))
       OperationCreateOrUpdate] ∧ hpa_MinReplicas spec = Some 2%Z.
Proof.
  destruct (proj2 (proj2 (autoscaler_consistent sample_app NewAst (Some (Some 3%Z)) ltac:(simpl; lia) ltac:(simpl; lia))))
    as (meta & spec & Hops & _ & Hm & _); [discriminate|reflexivity|reflexivity|].
  exists meta, spec. split; [exact Hops|exact Hm].
Defined.
End witnesses.
