(* ===== verification/Batch.v ===== *)
(** * Naisjobs: cron jobs and jobs

    Models [pkg/resourcecreator/batch] (cronjob.go, job.go, job_helpers.go).
    Every Naisjob becomes a CronJob; one without a schedule is suspended and its
    runs are started from the CronJob by [CreateJobFromCronJob]. *)

From S2P Require Import Prelude GoStrings Kube Api Vendor Config Resource Creators Samples Pod Deployment.

Definition RestartPolicy (restartPolicy : string) : string :=
  if bool_decide (restartPolicy = "OnFailure") then "OnFailure" else "Never".

(** ** truncateString *)

(** The loop over the runes, with the count of runes written so far. *)
Fixpoint truncate_loop (fuel : nat) (str : string) (count max : Z) : string :=
  match fuel, str with
  | S f, String a s =>
      let '(char, rest) := next_rune a s in
      if (max <=? count + 1)%Z then char
      else char +:+ truncate_loop f rest (count + 1) max
  | _, _ => ""
  end.

Definition truncateString (str : string) (max : Z) : string :=
  if (Z.of_nat (slen str) <? max)%Z then str else truncate_loop (slen str) str 0 max.

Section batch.
Context `{L : Liberator} `{AM : ApiMachinery}.

Definition CreateJobSpec (naisjob : Source) (ast : Ast) (cfg : Options)
    : res error (JobSpec * Ast) :=
  let v := src_View naisjob in
  podSpec ← CreateSpec ast cfg (GetName naisjob) (default ∅ (Annotations (src_Meta naisjob)))
              (RestartPolicy (v_RestartPolicy v)) (v_TerminationGracePeriodSeconds v);
  let '(meta, ast) := CreateNaisjobObjectMeta naisjob ast cfg in
  Ok ({| js_ActiveDeadlineSeconds := v_ActiveDeadlineSeconds v;
         js_BackoffLimit := v_BackoffLimit v;
         js_Completions := v_Completions v;
         js_CompletionMode := v_CompletionMode v;
         js_Parallelism := v_Parallelism v;
         js_Template := mkPodTemplate meta podSpec;
         js_TTLSecondsAfterFinished := v_TTLSecondsAfterFinished v |}, ast).

Definition CreateCronJob (naisjob : Source) (ast : Ast) (cfg : Options) : res error Ast :=
  let v := src_View naisjob in
  let objectMeta := CreateObjectMeta naisjob in
  let annotations := with_change_cause naisjob (default ∅ (Annotations objectMeta)) in
  '(jobSpec, ast) ← CreateJobSpec naisjob ast cfg;
  let suspend := bool_decide (v_Schedule v = "") in
  let schedule := if suspend then "0 0 1 1 *" else v_Schedule v in
  Ok (AppendOperation OperationCreateOrUpdate
        (mkObject (mkGVK "batch" "v1" "CronJob") (SetAnnotations (Some annotations) objectMeta)
           (BCronJob {| cj_TimeZone := v_TimeZone v;
                        cj_Schedule := schedule;
                        cj_JobTemplateMeta := CreateObjectMeta naisjob;
                        cj_JobTemplate := jobSpec;
                        cj_Suspend := Some suspend;
                        cj_SuccessfulJobsHistoryLimit := Some (v_SuccessfulJobsHistoryLimit v);
                        cj_FailedJobsHistoryLimit := v_FailedJobsHistoryLimit v;
                        cj_ConcurrencyPolicy := v_ConcurrencyPolicy v |})) ast).

Lemma cronjob_appends naisjob ast cfg ast' :
  CreateCronJob naisjob ast cfg = Ok ast' → appends (owned naisjob) ast ast'.
Proof.
  unfold CreateCronJob, CreateJobSpec, CreateNaisjobObjectMeta. intros H. creator_cases. solve_appends.
Qed.

(** The name of the run of a CronJob at its current generation. *)
Definition job_name (cronJob : ObjectMeta) : string :=
  truncateString (Name cronJob) 48 +:+ "-" +:+ Itoa (Generation cronJob).

Definition CreateJobFromCronJob (gvk : GroupVersionKind) (cronJob : ObjectMeta) (spec : CronJobSpec)
    : Object :=
  mkObject (mkGVK "batch" "v1" "Job")
    {| Name := job_name cronJob; GenerateName := ""; Namespace := Namespace cronJob; SelfLink := "";
       UID := ""; ResourceVersion := ""; Generation := 0; DeletionTimestamp := None;
       Labels := Labels cronJob;
       Annotations := Some {[ "cronjob.kubernetes.io/instantiate" := "manual" ]};
       OwnerReferences := Some [mkOwnerReference (apiVersion gvk) (gvk_Kind gvk) (Name cronJob)
                                  (UID cronJob) (Some true) (Some true)];
       Finalizers := [] |}
    (BJob (cj_JobTemplate spec)).
End batch.

(** ** Lemmas *)

Definition is_ascii (a : ascii) : bool := bool_decide (nat_of_ascii a < 128)%nat.

Section truncate_lemmas.
Implicit Types s : string.

Lemma truncate_loop_ascii f s c max :
  all_chars is_ascii s = true → (slen s ≤ f)%nat → (c < max)%Z →
  truncate_loop f s c max = String.substring 0 (Nat.min (Z.to_nat (max - c)) (slen s)) s.
Proof.
  revert s c. induction f as [|f IH]; intros s c Hs Hf Hc.
  { destruct s; [|simpl in Hf; lia]. simpl. by rewrite Nat.min_0_r. }
  destruct s as [|a s]; [simpl; by rewrite Nat.min_0_r|].
  simpl in Hs. apply andb_true_iff in Hs as [Ha%bool_decide_eq_true Hs]. simpl in Hf.
  cbn [truncate_loop]. rewrite next_rune_ascii by done.
  assert (Hone : ∀ n, String.substring 0 (S n) (String a s) = String a (String.substring 0 n s))
    by done.
  destruct (Z.leb_spec max (c + 1)).
  - replace (Nat.min _ _) with 1%nat by (simpl; lia). rewrite Hone. by destruct s.
  - rewrite IH by (done || lia). cbn [String.append].
    replace (Nat.min (Z.to_nat (max - c)) (slen (String a s)))
      with (S (Nat.min (Z.to_nat (max - (c + 1))) (slen s))) by (simpl; lia).
    by rewrite Hone.
Qed.

Lemma truncateString_ascii s max :
  all_chars is_ascii s = true → (0 < max)%Z →
  truncateString s max = String.substring 0 (Nat.min (Z.to_nat max) (slen s)) s.
Proof.
  intros Hs Hm. unfold truncateString. destruct (Z.ltb_spec (Z.of_nat (slen s)) max).
  - by rewrite Nat.min_r, substring_full by lia.
  - rewrite truncate_loop_ascii by (done || lia). by rewrite Z.sub_0_r.
Qed.

Lemma substring_min n s : String.substring 0 (Nat.min n (slen s)) s = String.substring 0 n s.
Proof. revert n. induction s as [|a s IH]; intros [|n]; simpl; try done. by rewrite IH. Qed.

Definition no_dash s : Prop := all_chars (fun a => negb (Ascii.eqb a "-")) s = true.

Lemma decimal_no_dash s acc v : decimal_value s acc = Some v → no_dash s.
Proof.
  revert acc. induction s as [|a s IH]; intros acc; [done|]. cbn [decimal_value].
  destruct (digit_value a) as [d|] eqn:Hd; [|done]. intros Hv. unfold no_dash in *. simpl. rewrite (IH _ Hv), andb_true_r.
  destruct (Ascii.eqb_spec a "-") as [->|]; [discriminate Hd|done].
Qed.

Lemma Itoa_no_dash n : (0 ≤ n)%Z → no_dash (Itoa n).
Proof.
  intros Hn. unfold Itoa. destruct (Z.ltb_spec n 0); [lia|]. eapply decimal_no_dash, utoa_value. lia.
Qed.

(** The part after the last dash is determined. *)
Lemma last_dash_inj p1 p2 d1 d2 :
  p1 +:+ "-" +:+ d1 = p2 +:+ "-" +:+ d2 → no_dash d1 → no_dash d2 → p1 = p2 ∧ d1 = d2.
Proof.
  intros Heq H1 H2. assert (Hd : d1 = d2).
  { assert (Hs : Split1 (p1 +:+ String "-" d1) "-" = Split1 (p2 +:+ String "-" d2) "-") by (by f_equal).
    rewrite !Split1_app_sep, (Split1_no_sep d1), (Split1_no_sep d2) in Hs by done.
    by apply app_inj_tail in Hs as [_ ?]. }
  subst d2. split; [|done]. assert (Hl : slen p1 = slen p2).
  { assert (Hs : slen (p1 +:+ "-" +:+ d1) = slen (p2 +:+ "-" +:+ d1)) by (by f_equal). rewrite !slen_app in Hs. lia. }
  by apply sapp_inj_len in Heq as [? _].
Qed.
End truncate_lemmas.

(** ** Properties *)

(** C40. When two runs share a Job: the Job of an unscheduled Naisjob is named by
    the first 48 characters of the CronJob's name and its generation, so it fits a
    label, and two CronJobs start Jobs of the same name exactly when their names
    agree on those characters and their generations agree. One CronJob thus has
    one Job per generation, but two long-named ones of a namespace can clash. *)
Theorem job_name_clash m1 m2 :
  all_chars is_ascii (Name m1) = true → all_chars is_ascii (Name m2) = true →
  (0 ≤ Generation m1)%Z → (0 ≤ Generation m2)%Z →
  let prefix m := String.substring 0 48 (Name m) in
  job_name m1 = prefix m1 +:+ "-" +:+ Itoa (Generation m1) ∧ (slen (prefix m1) ≤ 48)%nat ∧
  (job_name m1 = job_name m2 ↔ prefix m1 = prefix m2 ∧ Generation m1 = Generation m2).
Proof.
  intros Ha1 Ha2 Hg1 Hg2 prefix.
  assert (Hname : ∀ m, all_chars is_ascii (Name m) = true → job_name m = prefix m +:+ "-" +:+ Itoa (Generation m)).
  { intros m Ha. unfold job_name. rewrite truncateString_ascii by (done || lia). by rewrite substring_min. }
  split_and!; [by apply Hname|unfold prefix; rewrite <-substring_min, slen_substring; lia|].
  rewrite !Hname by done. split; [|by intros [-> ->]].
  intros [Hp Hd]%last_dash_inj; [|by apply Itoa_no_dash..]. split; [done|]. by apply Itoa_inj.
Qed.

(** ** Witnesses *)

Definition long_name : string := "a-naisjob-whose-name-is-as-long-as-a-cronjob-may".

Lemma job_name_clash_witness :
  long_name +:+ "-x" ≠ long_name +:+ "-y" ∧
  job_name (sample_meta (long_name +:+ "-x") "team-a" "uid-1" []) =
  job_name (sample_meta (long_name +:+ "-y") "team-a" "uid-2" []).
Proof.
  split; [discriminate|].
  destruct (job_name_clash (sample_meta (long_name +:+ "-x") "team-a" "uid-1" [])
              (sample_meta (long_name +:+ "-y") "team-a" "uid-2" [])) as (_ & _ & Hiff);
    [reflexivity|reflexivity|simpl; lia|simpl; lia|].
  apply Hiff. split; reflexivity.
Defined.
