(* ===== verification/Mounts.v ===== *)
(** * Volumes and mounts: the type of a generated pod

    A mount names a volume of its pod. The creators add volumes and mounts to the
    [Ast] independently of each other; here each of them is shown to keep every
    mount typed, and the pod specification built from a typed [Ast] is typed. *)

From S2P Require Import Prelude GoStrings Kube Api Vendor Config Util Resource Creators Pod Observability AccessPolicy Wonderwall Identity Platform Vault Aiven Postgres Google GoogleSql Gcp Ingress Deployment Scaling Batch.

(** Each mount names one of the volumes. *)
Definition mounts_in (vs : list Volume) (ms : list VolumeMount) : Prop :=
  Forall (λ m, vm_Name m ∈ map vol_Name vs) ms.

Definition container_typed (vs : list Volume) (c : Container) : Prop := mounts_in vs (c_VolumeMounts c).

(** Every container of the pod, init containers too, mounts only its volumes. *)
Definition pod_typed (spec : PodSpec) : Prop :=
  Forall (container_typed (ps_Volumes spec)) (ps_InitContainers spec ++ ps_Containers spec).

(** The same of the pod the [Ast] stands for: also its mounts, which the app
    container is going to get. *)
Record ast_typed (a : Ast) : Prop := {
  typed_mounts : mounts_in (ast_Volumes a) (ast_VolumeMounts a);
  typed_containers : Forall (container_typed (ast_Volumes a)) (ast_Containers a);
  typed_init : Forall (container_typed (ast_Volumes a)) (ast_InitContainers a) }.

Lemma NewAst_typed : ast_typed NewAst.
Proof. split; constructor. Qed.

Section mounts_lemmas.
Implicit Types (vs : list Volume) (ms : list VolumeMount) (cs : list Container).

Lemma mounts_in_app vs ms ms' : mounts_in vs (ms ++ ms') ↔ mounts_in vs ms ∧ mounts_in vs ms'.
Proof. apply Forall_app. Qed.

Lemma mounts_in_l vs vs' ms : mounts_in vs ms → mounts_in (vs ++ vs') ms.
Proof. intros Hm. eapply Forall_impl; [exact Hm|]. intros m. rewrite map_app, elem_of_app. by left. Qed.

Lemma mounts_in_r vs vs' ms : mounts_in vs' ms → mounts_in (vs ++ vs') ms.
Proof. intros Hm. eapply Forall_impl; [exact Hm|]. intros m. rewrite map_app, elem_of_app. by right. Qed.

Lemma containers_typed_l vs vs' cs :
  Forall (container_typed vs) cs → Forall (container_typed (vs ++ vs')) cs.
Proof. intros Hc. eapply Forall_impl; [exact Hc|]. intros c. apply mounts_in_l. Qed.

Lemma no_mounts_typed vs c : c_VolumeMounts c = [] → Forall (container_typed vs) [c].
Proof. intros Hc. constructor; [|constructor]. unfold container_typed. rewrite Hc. constructor. Qed.
End mounts_lemmas.

(** ** What the steps of a creator do to a typed AST *)

Section steps.
Implicit Types a b c : Ast.

(** A creator that keeps the mounts typed. *)
Definition keeps_typed a b : Prop := ast_typed a → ast_typed b.

#[export] Instance keeps_typed_preorder : PreOrder keeps_typed.
Proof. split; [by intros a ?|]. intros a b c Hab Hbc Ha. by apply Hbc, Hab. Qed.

Lemma keeps_refl a : keeps_typed a a.
Proof. reflexivity. Qed.

(** The four fields a pod's mounts depend on. *)
Definition pod_fields a := (ast_Volumes a, ast_VolumeMounts a, ast_Containers a, ast_InitContainers a).

Lemma keeps_same a b c : keeps_typed a b → pod_fields c = pod_fields b → keeps_typed a c.
Proof.
  intros Hab [= Hv Hm Hc Hi] Ha. destruct (Hab Ha) as [T1 T2 T3]. split; by rewrite ?Hv, ?Hm, ?Hc, ?Hi.
Qed.

Lemma keeps_volumes a b vs ms : keeps_typed a b → mounts_in vs ms → keeps_typed a (AppendVolumes vs ms b).
Proof.
  intros Hab Hms Ha. destruct (Hab Ha) as [T1 T2 T3]. split; simpl.
  - apply mounts_in_app. split; [by apply mounts_in_l|by apply mounts_in_r].
  - by apply containers_typed_l.
  - by apply containers_typed_l.
Qed.

Lemma keeps_init a b cs :
  keeps_typed a b → Forall (container_typed (ast_Volumes b)) cs → keeps_typed a (AppendInitContainers cs b).
Proof. intros Hab Hcs Ha. destruct (Hab Ha) as [T1 T2 T3]. split; simpl; try done. by apply Forall_app. Qed.

(** A loop over the [Ast]. *)
Lemma keeps_foldl {B} (f : Ast → B → res error Ast) a xs a' :
  (∀ b x b', f b x = Ok b' → keeps_typed b b') → res_foldl f a xs = Ok a' → keeps_typed a a'.
Proof.
  intros Hf. apply (res_foldl_inv (keeps_typed a)); [done|].
  intros b x b' _ Hb Hx. etransitivity; [exact Hb|]. by eapply Hf.
Qed.
End steps.

Ltac keeps_step :=
  match goal with
  | |- keeps_typed ?a ?a => apply keeps_refl
  | |- keeps_typed _ (if ?b then _ else _) => destruct b eqn:?
  | |- keeps_typed _ (AppendVolumes _ _ _) => apply keeps_volumes; [|by repeat (constructor; simpl; [set_solver|])]
  | |- keeps_typed _ (AppendInitContainers _ _) => apply keeps_init; [|try (by apply no_mounts_typed)]
  | |- keeps_typed _ (AppendOperation _ _ ?b) => apply (keeps_same _ b); [|reflexivity]
  | |- keeps_typed _ (_ _ ?b) => apply (keeps_same _ b); [|reflexivity]
  end.

Ltac solve_keeps := repeat keeps_step; try done.

(** ** The creators *)

Section creators.
Context `{L : Liberator} `{U : UrlLib} `{AM : ApiMachinery} `{SL : StructLib} `{R : MapRange}.
Implicit Types (source : Source) (cfg : Options) (ast : Ast).

Lemma env_keeps source cfg ast : keeps_typed ast (CreateContainerEnvVars source cfg ast).
Proof. unfold CreateContainerEnvVars. solve_keeps. Qed.

Lemma service_keeps source cfg ast : keeps_typed ast (service_Create source ast cfg).
Proof. unfold service_Create. solve_keeps. Qed.

Lemma serviceaccount_keeps source cfg ast : keeps_typed ast (serviceaccount_Create source ast cfg).
Proof. unfold serviceaccount_Create, mountToken. solve_keeps. Qed.

Lemma hpa_keeps source ast : keeps_typed ast (horizontalpodautoscaler_Create source ast).
Proof. unfold horizontalpodautoscaler_Create. repeat case_match; solve_keeps. Qed.

Lemma pdb_keeps source ast : keeps_typed ast (poddisruptionbudget_Create source ast).
Proof. unfold poddisruptionbudget_Create. repeat case_match; solve_keeps. Qed.

Lemma networkpolicy_keeps source cfg ast : keeps_typed ast (networkpolicy_Create source ast cfg).
Proof. unfold networkpolicy_Create. case_match; solve_keeps. Qed.

Lemma fqdnpolicy_keeps source cfg ast : keeps_typed ast (fqdnpolicy_Create source ast cfg).
Proof. unfold fqdnpolicy_Create. repeat case_match; solve_keeps. Qed.

Lemma frontend_keeps source cfg ast ast' : frontend_Create source ast cfg = Ok ast' → keeps_typed ast ast'.
Proof. unfold frontend_Create. intros H. creator_cases; solve_keeps. Qed.

Lemma observability_keeps source cfg ast ast' :
  observability_Create source ast cfg = Ok ast' → keeps_typed ast ast'.
Proof. unfold observability_Create, otel_Create. intros H. creator_cases; solve_keeps. Qed.

Lemma ingress_keeps source cfg ast ast' : ingress_Create source ast cfg = Ok ast' → keeps_typed ast ast'.
Proof.
  unfold ingress_Create. intros H. creator_cases; [done|].
  match goal with |- keeps_typed _ (foldl _ _ ?l) => generalize l end. intros l. revert ast.
  induction l as [|i l IH]; intros ast; simpl; [done|]. etransitivity; [|apply IH]. solve_keeps.
Qed.

Lemma leaderelection_keeps source cfg ast ast' :
  leaderelection_Create source ast cfg = Ok ast' → keeps_typed ast ast'.
Proof. unfold leaderelection_Create, elector_container. intros H. creator_cases; solve_keeps. Qed.

Lemma sidecar_no_mounts source cfg w c : sidecarContainer source cfg w = Ok c → c_VolumeMounts c = [].
Proof. unfold sidecarContainer. intros H. by creator_cases. Qed.

Lemma wonderwall_keeps source cfg w ast ast' :
  wonderwall_Create source ast cfg w = Ok ast' → keeps_typed ast ast'.
Proof.
  unfold wonderwall_Create. intros H. creator_cases;
    match goal with H : sidecarContainer _ _ _ = Ok _ |- _ => apply sidecar_no_mounts in H end; solve_keeps.
Qed.

Lemma login_keeps source cfg ast ast' : login_Create source ast cfg = Ok ast' → keeps_typed ast ast'.
Proof.
  unfold login_Create. intros H. creator_cases; [|done]. by eapply wonderwall_keeps.
Qed.

Lemma azure_keeps source week cfg ast r ast' :
  azure_Create source week ast cfg = Ok (r, ast') → keeps_typed ast ast'.
Proof.
  unfold azure_Create, WithAdditionalEnvFromSecret, WithAdditionalSecret. intros H. creator_cases; solve_keeps.
  all: etransitivity; [|by eapply wonderwall_keeps]; solve_keeps.
Qed.

Lemma idporten_keeps source cfg ast r ast' :
  idporten_Create source ast cfg = Ok (r, ast') → keeps_typed ast ast'.
Proof.
  unfold idporten_Create, WithAdditionalEnvFromSecret, WithAdditionalSecret. intros H. creator_cases; solve_keeps.
  all: etransitivity; [|by eapply wonderwall_keeps]; solve_keeps.
Qed.

Lemma maskinporten_keeps source cfg ast r ast' :
  maskinporten_Create source ast cfg = Ok (r, ast') → keeps_typed ast ast'.
Proof.
  unfold maskinporten_Create, maskinporten_client, WithAdditionalEnvFromSecret, WithAdditionalSecret.
  intros H. creator_cases; solve_keeps.
Qed.

Lemma jwker_keeps source cfg ast r ast' : jwker_Create source ast cfg = Ok (r, ast') → keeps_typed ast ast'.
Proof.
  unfold jwker_Create, WithAdditionalEnvFromSecret, WithAdditionalSecret. intros H. creator_cases; solve_keeps.
Qed.

Lemma texas_keeps source cfg clients ast ast' :
  texas_Create source ast cfg clients = Ok ast' → keeps_typed ast ast'.
Proof. unfold texas_Create, texas_container. intros H. creator_cases; solve_keeps. Qed.

Lemma proxyopts_keeps source cfg ast ast' : proxyopts_Create source ast cfg = Ok ast' → keeps_typed ast ast'.
Proof. unfold proxyopts_Create. intros H. creator_cases; solve_keeps. Qed.

Lemma certificateauthority_keeps source cfg ast : keeps_typed ast (certificateauthority_Create source ast cfg).
Proof. unfold certificateauthority_Create. case_match; solve_keeps. Qed.

Lemma vault_keeps source cfg ast ast' : vault_Create source ast cfg = Ok ast' → keeps_typed ast ast'.
Proof.
  unfold vault_Create. intros H. creator_cases; [done|done|].
  intros [T1 T2 T3]. set (ms := createInitContainerMounts _).
  assert (Hms : mounts_in [mkVolume "vault-volume" (VEmptyDir "Memory")] ms).
  { subst ms. unfold createInitContainerMounts. apply Forall_app. split.
    - apply Forall_map, Forall_forall. intros p _. by left.
    - case_match; [constructor|]. constructor; [by left|constructor]. }
  split; simpl.
  - apply mounts_in_app. split; [by apply mounts_in_l|by apply mounts_in_r].
  - by apply containers_typed_l.
  - apply Forall_app. split; [by apply containers_typed_l|].
    constructor; [|constructor]. by apply mounts_in_r.
Qed.

Lemma Kafka_keeps source week cfg g ast spec b ast' spec' :
  Kafka source week cfg g ast spec = Ok (b, ast', spec') → keeps_typed ast ast'.
Proof. unfold Kafka, createKafkaKeyToPaths. intros H. creator_cases; solve_keeps. Qed.

Lemma OpenSearch_keeps source week g ast spec b ast' spec' :
  OpenSearch source week g ast spec = Ok (b, ast', spec') → keeps_typed ast ast'.
Proof. unfold OpenSearch. intros H. creator_cases; solve_keeps. Qed.

Lemma Valkey_keeps source week cfg g ast spec b ast' spec' :
  Valkey source week cfg g ast spec = Ok (b, ast', spec') → keeps_typed ast ast'.
Proof.
  unfold Valkey. destruct (v_Valkey _) as [|v vs]; [intros H; creator_cases; done|].
  destruct (bool_decide _); [done|]. intros H. apply res_bind_ok_inv in H as ([a s] & Hf & H). simplify_eq.
  assert (Ha : keeps_typed ast (a, spec').1).
  { revert Hf. apply (res_foldl_inv (λ acc : Ast * AivenSpec, keeps_typed ast acc.1)); [done|].
    intros [c sc] x [c' sc'] _ Hc Hx. unfold add_valkey in Hx. creator_cases.
    etransitivity; [exact Hc|]. simpl. solve_keeps. }
  etransitivity; [exact Ha|]. simpl. solve_keeps.
Qed.

Lemma aiven_keeps source week cfg ast ast' : aiven_Create source week ast cfg = Ok ast' → keeps_typed ast ast'.
Proof.
  unfold aiven_Create. intros H.
  apply res_bind_ok_inv in H as ([[b1 a1] s1] & H1 & H). apply res_bind_ok_inv in H as ([[b2 a2] s2] & H2 & H).
  apply res_bind_ok_inv in H as ([[b3 a3] s3] & H3 & H). simplify_eq.
  apply Kafka_keeps in H1. apply OpenSearch_keeps in H2. apply Valkey_keeps in H3.
  transitivity a3; [by etransitivity; [|etransitivity]|]. case_match; solve_keeps.
Qed.

(** ** Google and Postgres *)

Lemma storagebucket_keeps source cfg ast ast' :
  storagebucket_Create source ast cfg = Ok ast' → keeps_typed ast ast'.
Proof.
  unfold storagebucket_Create. intros H. destruct (v_GCP _); [|by creator_cases].
  eapply keeps_foldl; [|exact H]. unfold add_bucket. intros b x b' Hb. etransitivity.
  2: { eapply keeps_foldl; [|exact Hb]. unfold add_binding. intros c y c' Hc. creator_cases. solve_keeps. }
  solve_keeps.
Qed.

Lemma bigquery_keeps source cfg name ast ast' :
  bigquery_CreateDataset source ast cfg name = Ok ast' → keeps_typed ast ast'.
Proof.
  unfold bigquery_CreateDataset. intros H. destruct (v_GCP _); [|by creator_cases].
  eapply keeps_foldl; [|exact H]. unfold add_dataset. intros b x b' Hb. creator_cases. solve_keeps.
Qed.

Lemma CreatePolicyMember_keeps source cfg ast ast' :
  CreatePolicyMember source ast cfg = Ok ast' → keeps_typed ast ast'.
Proof.
  unfold CreatePolicyMember. intros H. destruct (v_GCP _); [|by creator_cases].
  eapply keeps_foldl; [|exact H]. unfold add_permission. intros b x b' Hb. creator_cases. solve_keeps.
Qed.

Lemma CreateGoogleSQLUsers_keeps source cfg db instance gi ast ast' :
  CreateGoogleSQLUsers source ast cfg db instance gi = Ok ast' → keeps_typed ast ast'.
Proof.
  unfold CreateGoogleSQLUsers. apply keeps_foldl. intros b user b' Hb.
  unfold add_sql_user, createSqlUserDBResources in Hb. apply res_bind_ok_inv in Hb as (a & Ha & Hb).
  apply res_bind_ok_inv in Ha as (? & _ & Ha). apply res_bind_ok_inv in Ha as (? & _ & Ha).
  apply res_bind_ok_inv in Ha as ([u a1] & Hif & Ha). simplify_eq.
  transitivity a1; [|creator_cases; solve_keeps]. destruct (_ && _); creator_cases; solve_keeps.
Qed.

Lemma sql_connection_keeps source cfg gi ast ast' : sql_connection source ast cfg gi = Ok ast' → keeps_typed ast ast'.
Proof.
  unfold sql_connection, CreateSqlSSLCertResource, CloudSqlProxyContainer. intros H. creator_cases; solve_keeps.
Qed.

Lemma CreateInstance_keeps source cfg ast ast' : CreateInstance source ast cfg = Ok ast' → keeps_typed ast ast'.
Proof.
  unfold CreateInstance, create_instance. intros H. destruct (v_GCP _) as [g|]; [|by creator_cases].
  destruct (gcp_SqlInstances g) as [|? []]; [by creator_cases| |done].
  apply res_bind_ok_inv in H as (i & _ & H). destruct (bool_decide _); [done|].
  apply res_bind_ok_inv in H as (gi & _ & H). destruct (CloudSqlInstance_Database i) as [db|]; [|done].
  apply res_bind_ok_inv in H as (gd & _ & H). apply res_bind_ok_inv in H as (a & Ha & H).
  apply CreateGoogleSQLUsers_keeps in Ha. apply sql_connection_keeps in H.
  etransitivity; [|exact H]. etransitivity; [|exact Ha]. solve_keeps.
Qed.

Lemma gcp_keeps source cfg ast ast' : gcp_Create source ast cfg = Ok ast' → keeps_typed ast ast'.
Proof.
  unfold gcp_Create. intros H. destruct (IsCNRMEnabled cfg).
  2: { destruct (v_GCP _); creator_cases; solve_keeps. }
  destruct (v_GCP _); [|creator_cases; solve_keeps].
  apply res_bind_ok_inv in H as (a1 & H1 & H). apply res_bind_ok_inv in H as (a2 & H2 & H).
  apply res_bind_ok_inv in H as (a3 & H3 & H). apply storagebucket_keeps in H1. apply bigquery_keeps in H2.
  apply CreateInstance_keeps in H3. apply CreatePolicyMember_keeps in H.
  etransitivity; [|exact H]. etransitivity; [|exact H3]. etransitivity; [|exact H2]. etransitivity; [|exact H1].
  solve_keeps.
Qed.

Lemma postgres_keeps source cfg ast ast' : postgres_Create source ast cfg = Ok ast' → keeps_typed ast ast'.
Proof.
  unfold postgres_Create. intros H. destruct (v_Postgres _); [|by simplify_eq].
  unfold cnpg_Create, cnpg_createNetworkPolicies, cnpg_createPoolerNetworkPolicy, cnpg_createSourceNetworkPolicy,
    zalando_Create, zalando_createNetworkPolicies, zalando_createSourceNetworkPolicy,
    zalando_createPoolerNetworkPolicy in H.
  case_bool_decide; [|case_bool_decide; [|done]]; creator_cases; solve_keeps.
Qed.

(** ** Containers and the pod *)

Lemma files_loop_keeps files c s p e ast : keeps_typed ast (files_loop files c s p e ast).
Proof.
  revert c s p e ast. induction files as [|f files IH]; intros c s p e ast; [done|].
  simpl. repeat case_match; (etransitivity; [|apply IH]); solve_keeps.
Qed.

Lemma envFrom_keeps es ast : keeps_typed ast (envFrom es ast).
Proof.
  revert ast. induction es as [|e es IH]; intros ast; simpl; [done|].
  etransitivity; [|apply IH]. solve_keeps.
Qed.

(** The app container mounts what the [Ast] mounts. *)
Lemma app_container_keeps ast b c :
  keeps_typed ast b → c_VolumeMounts c = ast_VolumeMounts b → keeps_typed ast (AppendContainers [c] b).
Proof.
  intros Hab Hc Ha. destruct (Hab Ha) as [T1 T2 T3]. split; simpl; try done.
  apply Forall_app. split; [done|]. constructor; [|constructor]. unfold container_typed. by rewrite Hc.
Qed.

Lemma CreateAppContainer_keeps source cfg ast ast' :
  CreateAppContainer source cfg ast = Ok ast' → keeps_typed ast ast'.
Proof.
  unfold CreateAppContainer, filesFrom. intros H. creator_cases. apply app_container_keeps; [|done].
  etransitivity; [apply files_loop_keeps|apply envFrom_keeps].
Qed.

Lemma CreateNaisjobContainer_keeps source cfg ast ast' :
  CreateNaisjobContainer source cfg ast = Ok ast' → keeps_typed ast ast'.
Proof.
  unfold CreateNaisjobContainer, filesFrom. intros H. creator_cases. apply app_container_keeps; [|done].
  etransitivity; [apply files_loop_keeps|apply envFrom_keeps].
Qed.

(** Reordering invents no container but the empty one. *)
Lemma reorder_loop_elem appName cs i delta r r' :
  reorder_loop appName cs i delta r = Ok r' → ∀ c, c ∈ r' → c ∈ cs ∨ c ∈ r.
Proof.
  revert i delta r. induction cs as [|x cs IH]; intros i delta r; simpl; [intros [= ->]; by right|].
  assert (Hins : ∀ j c, c ∈ <[j := x]> r → c = x ∨ c ∈ r).
  { intros j c Hc. apply list_elem_of_lookup in Hc as [k Hk]. apply list_lookup_insert_Some in Hk as [(_ & -> & _)|(_ & Hk)];
      [by left|right; by eapply list_elem_of_lookup_2]. }
  intros H c Hc. repeat case_match; try done; apply (IH _ _ _ H) in Hc as [Hc|Hc];
    try (left; by right); apply Hins in Hc as [->|Hc]; first [left; by left|by right].
Qed.

Lemma reorderContainers_typed vs appName cs cs' :
  reorderContainers appName cs = Ok cs' → Forall (container_typed vs) cs → Forall (container_typed vs) cs'.
Proof.
  intros Hr Hcs. apply Forall_forall. intros c Hc. destruct (reorder_loop_elem _ _ _ _ _ _ Hr c Hc) as [Hin|Hin].
  - rewrite Forall_forall in Hcs. by apply Hcs.
  - apply list_elem_of_lookup in Hin as [k Hk]. apply lookup_replicate in Hk as [-> _]. constructor.
Qed.

(** The pod of a typed [Ast] is typed: its first container gets one more mount,
    of the volume that is added last. *)
Lemma CreateSpec_typed ast cfg appName annotations restart grace spec :
  CreateSpec ast cfg appName annotations restart grace = Ok spec → ast_typed ast → pod_typed spec.
Proof.
  unfold CreateSpec, pod_typed. intros H [T1 T2 T3]. destruct (ast_Containers ast) as [|c cs] eqn:Hcs.
  { simplify_eq. constructor. }
  apply res_bind_ok_inv in H as (r & Hr & H). apply (reorderContainers_typed (ast_Volumes ast)) in Hr; [|done].
  destruct r as [|c0 r]; [done|]. simplify_eq. cbn [ps_InitContainers ps_Containers ps_Volumes].
  apply (containers_typed_l _ [mkVolume "writable-tmp" (VEmptyDir "")]) in Hr, T3. inversion_clear Hr as [|?? H0 Hr'].
  apply Forall_app. split; [done|]. constructor; [|done].
  unfold container_typed. cbn [c_VolumeMounts with_tmp_mount]. apply mounts_in_app. split; [done|].
  apply mounts_in_r. constructor; [by left|constructor].
Qed.

(** The pod an object runs. *)
Definition pod_spec_of (o : Object) : option PodSpec :=
  match o_Body o with
  | BDeployment spec _ => Some (pt_Spec (ds_Template spec))
  | BCronJob spec => Some (pt_Spec (js_Template (cj_JobTemplate spec)))
  | _ => None
  end.

(** An [Ast] whose operations include a typed pod. *)
Definition has_typed_pod ast : Prop :=
  ∃ op spec, op ∈ ast_Operations ast ∧ pod_spec_of (op_Resource op) = Some spec ∧ pod_typed spec.

Lemma deployment_typed app cfg ast ast' :
  deployment_Create app ast cfg = Ok ast' → ast_typed ast → has_typed_pod ast'.
Proof.
  unfold deployment_Create, deploymentSpec, CreateAppObjectMeta. intros H Ha.
  destruct (CreateSpec ast cfg _ _ _ _) as [spec|] eqn:Hs; [|done]. apply CreateSpec_typed in Hs; [|done].
  injection H as <-. do 2 eexists. split; [apply elem_of_app; right; by left|]. by split.
Qed.

Lemma cronjob_typed naisjob cfg ast ast' :
  CreateCronJob naisjob ast cfg = Ok ast' → ast_typed ast → has_typed_pod ast'.
Proof.
  unfold CreateCronJob, CreateJobSpec, CreateNaisjobObjectMeta. intros H Ha.
  destruct (CreateSpec ast cfg _ _ _ _) as [spec|] eqn:Hs; [|done]. apply CreateSpec_typed in Hs; [|done].
  injection H as <-. do 2 eexists. split; [apply elem_of_app; right; by left|]. by split.
Qed.
End creators.
