(* ===== verification/Updater.v ===== *)
(** * The updater package: what is done to one resource in the cluster

    Models [updater/updater.go]: the five operations a commit performs
    ([CreateOrUpdate], [CreateOrRecreate], [CreateIfNotExists],
    [DeleteIfExists], [AnnotateIfExists]), the metadata and immutable fields an
    update carries over from the existing object, the ownership test that guards
    it, and the search for resources owned by a workload ([FindAll]). *)

From S2P Require Import Prelude GoStrings Kube Api Vendor Cluster MemServer Samples.

(** ** Metadata carried over *)

Definition CopyMeta (dst src : Object) : res error Object :=
  let m := o_Meta src in
  Ok (set_Meta (SetIdentity (ResourceVersion m) (UID m) (SelfLink m)) dst).

Definition CopyAnnotation (dst src : ObjectMeta) (key : string) : ObjectMeta :=
  let anno := default ∅ (Annotations dst) in
  let v := GetAnnotation src key in
  let anno := if bool_decide (0 < slen v)%nat then <[key := v]> anno else anno in
  SetAnnotations (Some anno) dst.

Definition CopyCNRM (dst src : ObjectMeta) : ObjectMeta :=
  CopyAnnotation dst src "cnrm.cloud.google.com/state-into-spec".

Definition CopyAnnotations (dst src : ObjectMeta) : ObjectMeta :=
  let anno := default ∅ (Annotations dst) in
  SetAnnotations (Some (maps_copy anno (default ∅ (Annotations src)))) dst.

Definition types_differ (src dst : Object) : error :=
  Errorf ("source and destination types differ (" +:+ type_name (TypeOf src) +:+ " != " +:+
          type_name (TypeOf dst) +:+ ")").

(** The [CopyCNRM] and [ResourceID] copy the CNRM cases share. *)
Definition with_cnrm (dst src : Object) (b : Body) : Object :=
  set_Body b (set_Meta (fun m => CopyCNRM m (o_Meta src)) dst).

Definition CopyImmutable (dst src : Object) : res error Object :=
  match o_Body src with
  | BService s =>
      match o_Body dst with
      | BService d =>
          Ok (set_Body (BService (mkServiceSpec (ss_ClusterIP s) (ss_Type d) (ss_Selector d)
                                    (ss_Ports d))) dst)
      | _ => Err (types_differ src dst)
      end
  | BSQLInstance rid _ _ =>
      match o_Body dst with
      | BSQLInstance _ pn settings => Ok (with_cnrm dst src (BSQLInstance rid pn settings))
      | _ => Err (types_differ src dst)
      end
  | BSQLDatabase rid _ =>
      match o_Body dst with
      | BSQLDatabase _ i => Ok (with_cnrm dst src (BSQLDatabase rid i))
      | _ => Err (types_differ src dst)
      end
  | BSQLUser rid _ _ =>
      match o_Body dst with
      | BSQLUser _ i pw => Ok (with_cnrm dst src (BSQLUser rid i pw))
      | _ => Err (types_differ src dst)
      end
  | BSQLSSLCert rid _ _ =>
      match o_Body dst with
      | BSQLSSLCert _ cn i => Ok (with_cnrm dst src (BSQLSSLCert rid cn i))
      | _ => Err (types_differ src dst)
      end
  | BStorageBucket rid _ =>
      match o_Body dst with
      | BStorageBucket _ b => Ok (with_cnrm dst src (BStorageBucket rid b))
      | _ => Err (types_differ src dst)
      end
  | BStorageBucketAccessControl =>
      match o_Body dst with
      | BStorageBucketAccessControl => Ok (with_cnrm dst src BStorageBucketAccessControl)
      | _ => Err (types_differ src dst)
      end
  | _ => Ok dst
  end.

(** ** Ownership *)

Definition ownerReferenceSimilar (a b : OwnerReference) : bool :=
  bool_decide (or_Name a = or_Name b) && bool_decide (or_Kind a = or_Kind b).

Definition AssertValidOwnerReference (dst src : Object) (isPgNamespace : bool) : res error unit :=
  let existingReferences := ownerRefs (o_Meta src) in
  let newReferences := OwnerReferences (o_Meta dst) in
  if bool_decide (newReferences = None) && isPgNamespace then Ok tt
  else if existsb (fun dstRef =>
            existsb (fun srcRef => ownerReferenceSimilar srcRef dstRef) existingReferences)
          (default [] newReferences)
  then Ok tt
  else Err (Errorf "refusing to overwrite manually edited resource; please add the correct ownerReference in order to continue").

Definition KeepOwnerReference (dst src : Object) : res error Object :=
  match ownerRefs (o_Meta src) with
  | [] => Ok dst
  | refs => Ok (set_Meta (SetOwnerReferences (Some refs)) dst)
  end.

Definition withOwnerReference (source : Source) (resources : list Object) : list Object :=
  filter (fun r => Exists (fun ref => or_UID ref = UID (src_Meta source)) (ownerRefs (o_Meta r)))
    resources.

Section updater.
Context `{AM : ApiMachinery}.

(** ** The operations *)

Definition AnnotateIfExists (annotationSource : Object) : prog (res error unit) :=
  match scheme_New (o_GVK annotationSource) with
  | Err e => Ret (Err (Wrapf "internal error: " e))
  | Ok t =>
      r ← call (Get t (object_key annotationSource));
      match r with
      | Err e =>
          if IsNotFound e then Ret (Ok tt)
          else Ret (Err (Wrapf "get for AnnotateIfExists: " e))
      | Ok existing =>
          let modified := set_Meta (fun m => CopyAnnotations m (o_Meta annotationSource)) existing in
          r ← call (Patch modified existing);
          match r with
          | Err e =>
              if IsNotFound e then Ret (Ok tt)
              else Ret (Err (Wrapf "patch for AnnotateIfExists: " e))
          | Ok _ => Ret (Ok tt)
          end
      end
  end.

(** The checks and copies of [CreateOrUpdate] between its reads and its
    [Update]: the object that is written over [existing]. *)
Definition prepare_update (resource existing : Object) (isPgNamespace : bool) : res error Object :=
  resource ← CopyMeta resource existing;
  resource ← CopyImmutable resource existing;
  _ ← AssertValidOwnerReference resource existing isPgNamespace;
  KeepOwnerReference resource existing.

Definition is_pg_namespace (namespace : Object) : bool :=
  bool_decide (GetLabel (o_Meta namespace) "nais.io/type" = "postgres").

Definition CreateOrUpdate (resource : Object) : prog (res error unit) :=
  match scheme_New (o_GVK resource) with
  | Err e => Ret (Err (Wrapf "internal error: " e))
  | Ok t =>
      let ns := Namespace (o_Meta resource) in
      namespace ←!{Wrapf ("get namespace " +:+ ns +:+ ": ")} call (Get TNamespace (mkKey "" ns));
      let isPgNamespace := is_pg_namespace namespace in
      r ← call (Get t (object_key resource));
      match r with
      | Err e =>
          if IsNotFound e then _ ←! call (Create resource); Ret (Ok tt)
          else Ret (Err e)
      | Ok existing =>
          match prepare_update resource existing isPgNamespace with
          | Err e => Ret (Err e)
          | Ok resource' => _ ←! call (Update resource'); Ret (Ok tt)
          end
      end
  end.

(** [time.Minute + time.Duration(5)], in nanoseconds. *)
Definition recreate_timeout : Z := 60 * 1000000000 + 5.

(** The polling loop of [CreateOrRecreate]; [None] when the fuel runs out. *)
Fixpoint wait_deleted (fuel : nat) (t : GoType) (resource : Object) (timedOut : Z)
    : prog (option (res error unit)) :=
  match fuel with
  | O => Ret None
  | S fuel' =>
      r ← call (Get t (object_key resource));
      match r with
      | Err e =>
          if IsNotFound e then Ret (Some (Ok tt))
          else Ret (Some (Err (Textf "internal error: " e)))
      | Ok _ =>
          now ← call Now;
          if (timedOut <? now)%Z
          then Ret (Some (Err (Errorf
                 ("timed out waiting for deletion of &TypeMeta{Kind:" +:+
                  gvk_Kind (o_GVK resource) +:+ ",APIVersion:" +:+ apiVersion (o_GVK resource)
                  +:+ ",}/" +:+ Name (o_Meta resource)))))
          else _ ← call (Sleep 1000000000); wait_deleted fuel' t resource timedOut
      end
  end.

(** Sixty-two polls a second apart outlast the timeout. *)
Definition recreate_fuel : nat := 62.

(** What follows the deletion: wait until the object is gone, create it. *)
Definition recreate_after_delete (resource : Object) : prog (res error unit) :=
  match scheme_New (o_GVK resource) with
  | Err e => Ret (Err (Wrapf "internal error: " e))
  | Ok t =>
      now ← call Now;
      w ← wait_deleted recreate_fuel t resource (now + recreate_timeout);
      match w with
      | None => Ret (Err (Errorf "out of fuel"))
      | Some (Err e) => Ret (Err e)
      | Some (Ok _) => _ ←! call (Create resource); Ret (Ok tt)
      end
  end.

Definition CreateOrRecreate (resource : Object) : prog (res error unit) :=
  r ← call (Delete resource (Some "Background"));
  match r with
  | Err e => if IsNotFound e then recreate_after_delete resource else Ret (Err e)
  | Ok _ => recreate_after_delete resource
  end.

Definition CreateIfNotExists (resource : Object) : prog (res error unit) :=
  r ← call (Create resource);
  match r with
  | Err e => if IsAlreadyExists e then Ret (Ok tt) else Ret (Err e)
  | Ok _ => Ret (Ok tt)
  end.

Definition DeleteIfExists (resource : Object) : prog (res error unit) :=
  r ← call (Delete resource None);
  match r with
  | Err e => if IsNotFound e then Ret (Ok tt) else Ret (Err e)
  | Ok _ => Ret (Ok tt)
  end.

(** ** Discovery *)

Fixpoint list_all (types : list GoType) (opts : ListOptions) (resources : list Object)
    : prog (res error (list Object)) :=
  match types with
  | [] => Ret (Ok resources)
  | t :: ts =>
      items ←!{Wrapf ("list " +:+ type_name t +:+ "List: ")} call (ListObjs t opts);
      list_all ts opts (resources ++ items)
  end.

Definition FindAll (types : list GoType) (source : Source) : prog (res error (list Object)) :=
  match NewRequirement "app" (GetName source) with
  | Err e => Ret (Err e)
  | Ok labelreq =>
      resources ←! list_all types (mkListOptions [labelreq] [] "") [];
      Ret (Ok (withOwnerReference source resources))
  end.
End updater.

(** ** Lemmas *)

(** The field of a body the API does not let an update change. *)
Definition immutable_field (b : Body) : option string :=
  match b with
  | BService s => Some (ss_ClusterIP s)
  | BSQLInstance r _ _ | BSQLDatabase r _ | BSQLUser r _ _ | BSQLSSLCert r _ _ | BStorageBucket r _ => Some r
  | _ => None
  end.

(** A body without its immutable field: the part an update takes from the new object. *)
Definition mutable_part (b : Body) : Body :=
  match b with
  | BService s => BService (mkServiceSpec "" (ss_Type s) (ss_Selector s) (ss_Ports s))
  | BSQLInstance _ n s => BSQLInstance "" n s
  | BSQLDatabase _ i => BSQLDatabase "" i
  | BSQLUser _ i p => BSQLUser "" i p
  | BSQLSSLCert _ c i => BSQLSSLCert "" c i
  | BStorageBucket _ b => BStorageBucket "" b
  | b => b
  end.

(** Whether two objects name a common owner. *)
Definition shares_owner (dst src : ObjectMeta) : Prop :=
  ∃ d s, d ∈ ownerRefs dst ∧ s ∈ ownerRefs src ∧ or_Name s = or_Name d ∧ or_Kind s = or_Kind d.

Section update_lemmas.
Implicit Types resource existing : Object.

Lemma ownerReferenceSimilar_spec a b :
  ownerReferenceSimilar a b = true ↔ or_Name a = or_Name b ∧ or_Kind a = or_Kind b.
Proof. unfold ownerReferenceSimilar. by rewrite andb_true_iff, !bool_decide_eq_true. Qed.

Lemma existsb_elem {A} (f : A → bool) l : existsb f l = true ↔ ∃ x, x ∈ l ∧ f x = true.
Proof. rewrite existsb_exists. by setoid_rewrite list_elem_of_In. Qed.

Lemma AssertValidOwnerReference_ok resource existing pg :
  AssertValidOwnerReference resource existing pg = Ok tt ↔
  (OwnerReferences (o_Meta resource) = None ∧ pg = true) ∨
  shares_owner (o_Meta resource) (o_Meta existing).
Proof.
  unfold AssertValidOwnerReference, shares_owner.
  set (refs := existsb _ _).
  assert (Hrefs : refs = true ↔ shares_owner (o_Meta resource) (o_Meta existing)).
  { unfold refs, shares_owner. rewrite existsb_elem.
    setoid_rewrite existsb_elem. setoid_rewrite ownerReferenceSimilar_spec.
    unfold ownerRefs. naive_solver. }
  unfold shares_owner in Hrefs. rewrite <-Hrefs.
  case_bool_decide; destruct pg, refs; simpl; naive_solver.
Qed.

Lemma AssertValidOwnerReference_cases resource existing pg :
  AssertValidOwnerReference resource existing pg = Ok tt ∨
  ∃ e, AssertValidOwnerReference resource existing pg = Err e.
Proof. unfold AssertValidOwnerReference. case_all; eauto. Qed.

Lemma CopyImmutable_ok dst src o :
  CopyImmutable dst src = Ok o →
  TypeOf o = TypeOf dst ∧ o_GVK o = o_GVK dst ∧
  mutable_part (o_Body o) = mutable_part (o_Body dst) ∧
  (is_Some (immutable_field (o_Body src)) →
   immutable_field (o_Body o) = immutable_field (o_Body src)) ∧
  (o_Meta o = o_Meta dst ∨ o_Meta o = CopyCNRM (o_Meta dst) (o_Meta src)).
Proof.
  destruct dst as [g m b], src as [g' m' b']. unfold CopyImmutable, TypeOf; simpl.
  destruct b'; simpl; try (intros ?; simplify_eq/=; split_and!; auto; by intros []).
  all: destruct b; simpl; intros ?; simplify_eq/=; split_and!; auto; by intros [].
Qed.

(** The type of an object determines its constructor, so copying between two
    objects of one type never fails. *)
Lemma CopyImmutable_same_type dst src :
  TypeOf dst = TypeOf src → ∃ o, CopyImmutable dst src = Ok o.
Proof.
  destruct dst as [g m b], src as [g' m' b']. unfold CopyImmutable, TypeOf; simpl.
  destruct b'; eauto; destruct b; simpl; try done; eauto;
    try (by destruct k); try (by destruct k0).
Qed.

(** Metadata fields an update takes from the new object. *)
Lemma CopyCNRM_fields m m' :
  Name (CopyCNRM m m') = Name m ∧ Namespace (CopyCNRM m m') = Namespace m ∧
  Labels (CopyCNRM m m') = Labels m ∧ UID (CopyCNRM m m') = UID m ∧
  ResourceVersion (CopyCNRM m m') = ResourceVersion m ∧
  OwnerReferences (CopyCNRM m m') = OwnerReferences m ∧ Finalizers (CopyCNRM m m') = Finalizers m.
Proof. done. Qed.

Lemma prepare_update_inv resource existing pg o :
  prepare_update resource existing pg = Ok o →
  ∃ r, CopyImmutable (set_Meta (SetIdentity (ResourceVersion (o_Meta existing))
           (UID (o_Meta existing)) (SelfLink (o_Meta existing))) resource) existing = Ok r ∧
       AssertValidOwnerReference r existing pg = Ok tt ∧
       KeepOwnerReference r existing = Ok o.
Proof.
  unfold prepare_update, CopyMeta, mbind, res_mbind. cbn [res_bind]. intros H.
  apply res_bind_ok_inv in H as (r & Hr & H).
  apply res_bind_ok_inv in H as ([] & Ha & H). eauto.
Qed.

Lemma prepare_update_refused resource existing pg :
  OwnerReferences (o_Meta resource) ≠ None ∨ pg = false →
  ¬ shares_owner (o_Meta resource) (o_Meta existing) →
  is_ok (prepare_update resource existing pg) = false.
Proof.
  intros Hnone Hown. destruct (prepare_update _ _ _) as [o|] eqn:H; [|done]. exfalso.
  apply prepare_update_inv in H as (r & Hr & Ha & _).
  apply CopyImmutable_ok in Hr as (_ & _ & _ & _ & Hm).
  assert (OwnerReferences (o_Meta r) = OwnerReferences (o_Meta resource)) as Ho.
  { by destruct Hm as [-> | ->]. }
  apply AssertValidOwnerReference_ok in Ha. revert Ha.
  unfold shares_owner, ownerRefs in *. rewrite Ho. naive_solver.
Qed.
End update_lemmas.

Section wait_lemmas.
Context `{AM : ApiMachinery} {W : Type} `{ApiServerLaws W}.
Local Open Scope Z_scope.

(** With [n + 1] polls left and the clock less than [n] seconds short of the
    deadline, the loop ends before its fuel does. *)
Lemma wait_deleted_ends n t r d w :
  d < clock w + Z.of_nat n * 1000000000 →
  (run (wait_deleted (S n) t r d) w).1 ≠ None.
Proof.
  revert w. induction n as [|n IH]; intros w Hd.
  all: cbn [wait_deleted]; unfold mbind, prog_mbind; rewrite run_bind, run_call.
  all: pose proof (server_clock_mono _ (Get t (object_key r)) w) as Hmono;
    destruct (handle _ (Get t (object_key r)) w) as [[o|e] w1]; simpl in Hmono;
    [|by case_match].
  all: rewrite run_bind, run_call;
    pose proof (server_now w1) as Hnow; pose proof (server_clock_mono _ Now w1);
    destruct (handle _ Now w1) as [now w2]; cbn [fst snd] in *;
    destruct (d <? now) eqn:Hlt; [done|]; apply Z.ltb_ge in Hlt.
  { lia. }
  rewrite run_bind, run_call.
  pose proof (server_sleep 1000000000 w2) as Hsleep.
  destruct (handle _ (Sleep 1000000000) w2) as [[] w3]; simpl in *.
  apply IH. lia.
Qed.
End wait_lemmas.

Section operation_lemmas.
Context `{AM : ApiMachinery} {W : Type} `{ApiServerLaws W}.

(** The two reads of [CreateOrUpdate] leave the cluster as it is. *)
Lemma get_state t k w : ∀ t' k', stored (handle _ (Get t k) w).2 t' k' = stored w t' k'.
Proof. by apply server_read. Qed.

Lemma list_all_reads types opts acc : read_only (list_all types opts acc).
Proof.
  revert acc. induction types as [|t ts IH]; intros acc; simpl; solve_ops.
  apply IH.
Qed.

Lemma FindAll_reads types source : read_only (FindAll types source).
Proof. unfold FindAll. case_match; solve_ops. apply list_all_reads. Qed.

(** Every operation writes in the namespace of its object only. *)
Lemma prepare_update_namespace resource existing pg o :
  prepare_update resource existing pg = Ok o → Namespace (o_Meta o) = Namespace (o_Meta resource).
Proof.
  intros (r & Hr & _ & Hk)%prepare_update_inv. apply CopyImmutable_ok in Hr as (_ & _ & _ & _ & Hm).
  unfold KeepOwnerReference in Hk. case_match; simplify_eq/=; by destruct Hm as [-> | ->].
Qed.

Lemma CreateOrUpdate_writes resource :
  all_ops (fun X e => writes_in (Namespace (o_Meta resource)) e = true) (CreateOrUpdate resource).
Proof.
  unfold CreateOrUpdate. solve_ops; simpl; try (by apply bool_decide_eq_true).
  apply bool_decide_eq_true. by eapply prepare_update_namespace.
Qed.

Lemma wait_deleted_reads fuel t resource d : read_only (wait_deleted fuel t resource d).
Proof. induction fuel as [|fuel IH]; cbn [wait_deleted]; solve_ops. Qed.

Lemma read_writes_in ns {A} (p : prog A) : read_only p → all_ops (fun X e => writes_in ns e = true) p.
Proof. apply all_ops_impl. by intros X []. Qed.

Lemma CreateOrRecreate_writes resource :
  all_ops (fun X e => writes_in (Namespace (o_Meta resource)) e = true) (CreateOrRecreate resource).
Proof.
  unfold CreateOrRecreate, recreate_after_delete.
  solve_ops; simpl; try (by apply bool_decide_eq_true); apply read_writes_in, wait_deleted_reads.
Qed.

Lemma CreateIfNotExists_writes resource :
  all_ops (fun X e => writes_in (Namespace (o_Meta resource)) e = true) (CreateIfNotExists resource).
Proof. unfold CreateIfNotExists. solve_ops; simpl; by apply bool_decide_eq_true. Qed.

Lemma DeleteIfExists_writes resource :
  all_ops (fun X e => writes_in (Namespace (o_Meta resource)) e = true) (DeleteIfExists resource).
Proof. unfold DeleteIfExists. solve_ops; simpl; by apply bool_decide_eq_true. Qed.

(** The patched object is the one that was read, under the key of the source. *)
Lemma AnnotateIfExists_leaves resource t k :
  key_Namespace k ≠ Namespace (o_Meta resource) → leaves t k (AnnotateIfExists resource).
Proof.
  intros Hk w. unfold AnnotateIfExists. destruct (scheme_New _) as [ty|e]; [|done]. run_step.
  pose proof (server_read _ (Get ty (object_key resource)) w eq_refl t k) as Hr.
  pose proof (server_get_ok ty (object_key resource) w) as Hg.
  call_case [[existing|e] w1]; [|by case_match]. specialize (Hg _ eq_refl).
  apply server_stored_type in Hg as [_ Hkey]. run_step.
  set (m := set_Meta _ existing). pose proof (server_patch_other m existing w1 t k) as Hp.
  assert (object_key m = object_key resource) as Hm by (rewrite <-Hkey; reflexivity).
  rewrite <-Hr, <-Hp by (rewrite Hm; intros [= _ ->]; by apply Hk).
  call_case [[?|e] w2]; [done|]. by case_match.
Qed.

(** Listing without a namespace finds exactly the stored objects with the labels. *)
Lemma list_all_spec types labels acc (w : W) l :
  (run (list_all types (mkListOptions labels [] "") acc) w).1 = Ok l →
  ∀ o, o ∈ l ↔ o ∈ acc ∨ TypeOf o ∈ types ∧
    stored w (TypeOf o) (object_key o) = Some o ∧ Forall (HasLabel (o_Meta o)) labels.
Proof.
  revert acc w. induction types as [|t ts IH]; intros acc w; simpl; [set_solver|].
  set (opts := mkListOptions labels [] "").
  run_step. pose proof (server_read _ (ListObjs t opts) w eq_refl) as Hr.
  pose proof (server_list_stored t opts w) as Hs. pose proof (server_list_type t opts w) as Ht.
  pose proof (server_list_labels t opts w) as Hl. pose proof (server_list_complete t opts w) as Hc.
  call_case [[items|e] w1]; [|done]. specialize (Hs _ eq_refl). specialize (Ht _ eq_refl).
  specialize (Hl _ eq_refl). rewrite Forall_forall in Hs, Ht, Hl.
  intros Hrun o. rewrite (IH (acc ++ items) w1 Hrun), elem_of_app, elem_of_cons, Hr. split.
  - intros [[?|Ho]|?]; [by left| |naive_solver]. right. rewrite (Ht o Ho). split_and!; auto.
  - intros [?|([<-|?] & Ho & Hlab)]; [by do 2 left| |by right]. left; right. eapply Hc; eauto.
Qed.

Lemma withOwnerReference_spec source l o :
  o ∈ withOwnerReference source l ↔
  o ∈ l ∧ ∃ r, r ∈ ownerRefs (o_Meta o) ∧ or_UID r = UID (src_Meta source).
Proof.
  unfold withOwnerReference. rewrite list_elem_of_filter, Exists_exists. naive_solver.
Qed.

Lemma FindAll_spec types source (w : W) objs :
  (run (FindAll types source) w).1 = Ok objs →
  ∃ req, NewRequirement "app" (GetName source) = Ok req ∧
  ∀ o, o ∈ objs ↔ (TypeOf o ∈ types ∧ stored w (TypeOf o) (object_key o) = Some o ∧
    HasLabel (o_Meta o) req) ∧ ∃ r, r ∈ ownerRefs (o_Meta o) ∧ or_UID r = UID (src_Meta source).
Proof.
  unfold FindAll. destruct (NewRequirement _ _) as [req|]; [|done]. run_step.
  pose proof (list_all_spec types [req] [] w) as Hl.
  destruct (run _ w) as [[l|] ?]; simpl; intros; simplify_eq. exists req. split; [done|].
  intros o. rewrite withOwnerReference_spec, (Hl l eq_refl), Forall_singleton. set_solver.
Qed.
End operation_lemmas.

(** ** Properties *)

Section properties.
Context `{AM : ApiMachinery} {W : Type} `{ApiServerLaws W}.

(** C7. CreateOrUpdate never overwrites a resource it does not own: when the
    cluster holds an object of the same type and name that shares no owner with
    the new one, the operation fails and the cluster is left exactly as it was,
    whatever the server answers. There is one exception, the code's own: an object
    without any list of owner references, in a namespace labelled as a Postgres
    namespace, overwrites whatever is there. *)
Theorem CreateOrUpdate_respects_owner resource existing (w : W) :
  scheme_New (o_GVK resource) = Ok (TypeOf resource) →
  stored w (TypeOf resource) (object_key resource) = Some existing →
  OwnerReferences (o_Meta resource) ≠ None ∨
    (∀ ns, stored w TNamespace (mkKey "" (Namespace (o_Meta resource))) = Some ns → is_pg_namespace ns = false) →
  ¬ shares_owner (o_Meta resource) (o_Meta existing) →
  is_ok (run (CreateOrUpdate resource) w).1 = false ∧
  ∀ t k, stored (run (CreateOrUpdate resource) w).2 t k = stored w t k.
Proof.
  intros Hs Hst Hrefs Hown. unfold CreateOrUpdate. rewrite Hs, run_try_map, run_call.
  pose proof (get_state TNamespace (mkKey "" (Namespace (o_Meta resource))) w) as H1.
  pose proof (server_get_ok TNamespace (mkKey "" (Namespace (o_Meta resource))) w) as Hns.
  destruct (handle _ _ w) as [[ns|e] w1]; cbn [fst snd] in *; [|done].
  assert (OwnerReferences (o_Meta resource) ≠ None ∨ is_pg_namespace ns = false) as Hrefs'
    by (destruct Hrefs as [?|Hpg]; [by left|right; by apply Hpg, Hns]).
  unfold mbind, prog_mbind. rewrite run_bind, run_call.
  pose proof (get_state (TypeOf resource) (object_key resource) w1) as H2.
  pose proof (server_get_ok (TypeOf resource) (object_key resource) w1) as Hok.
  pose proof (server_get_notfound (TypeOf resource) (object_key resource) w1) as Hnf.
  destruct (handle _ _ w1) as [[o|e] w2]; cbn [fst snd] in *.
  - specialize (Hok _ eq_refl). rewrite H1, Hst in Hok. simplify_eq.
    pose proof (prepare_update_refused resource o (is_pg_namespace ns) Hrefs' Hown).
    destruct (prepare_update _ _ _); [done|]. simpl. split; [done|].
    intros. by rewrite H2, H1.
  - destruct (IsNotFound e) eqn:He.
    + specialize (Hnf _ eq_refl He). congruence.
    + simpl. split; [done|]. intros. by rewrite H2, H1.
Qed.

(** C19. What an update writes: the object sent to the server has the existing
    object's resource version, UID and immutable field (cluster IP or resource
    ID), keeps all its owner references, and takes its name, labels and the rest
    of its specification from the new object. *)
Theorem prepare_update_spec resource existing pg o :
  prepare_update resource existing pg = Ok o →
  ResourceVersion (o_Meta o) = ResourceVersion (o_Meta existing) ∧
  UID (o_Meta o) = UID (o_Meta existing) ∧
  TypeOf o = TypeOf resource ∧ object_key o = object_key resource ∧
  Labels (o_Meta o) = Labels (o_Meta resource) ∧
  mutable_part (o_Body o) = mutable_part (o_Body resource) ∧
  (is_Some (immutable_field (o_Body existing)) →
   immutable_field (o_Body o) = immutable_field (o_Body existing)) ∧
  (ownerRefs (o_Meta existing) ≠ [] → ownerRefs (o_Meta o) = ownerRefs (o_Meta existing)).
Proof.
  intros Hp. apply prepare_update_inv in Hp as (r & Hr & _ & Hk).
  apply CopyImmutable_ok in Hr as (Ht & _ & Hmut & Himm & Hm).
  unfold KeepOwnerReference in Hk. simpl in *.
  destruct (ownerRefs (o_Meta existing)) as [|ref refs] eqn:Hrefs;
    simplify_eq; unfold object_key, meta_key; simpl;
    split_and!; try done; try (by destruct Hm as [-> | ->]).
Qed.

(** C23. CreateOrRecreate's wait for the old object to disappear ends: with the
    fuel the model gives it, the polling loop returns a result (gone, server
    error, or timed out) on every server whose clock advances while it sleeps. *)
Theorem wait_deleted_terminates t resource now (w : W) :
  (now ≤ clock w)%Z →
  (run (wait_deleted recreate_fuel t resource (now + recreate_timeout)) w).1 ≠ None.
Proof. intros. apply wait_deleted_ends. unfold recreate_timeout. lia. Qed.

(** CreateIfNotExists never touches an object that is there already. *)
Lemma CreateIfNotExists_keeps resource existing (w : W) :
  GenerateName (o_Meta resource) = "" →
  stored w (TypeOf resource) (object_key resource) = Some existing →
  ∀ t k, stored (run (CreateIfNotExists resource) w).2 t k = stored w t k.
Proof.
  intros Hg Hst t k. unfold CreateIfNotExists, mbind, prog_mbind. rewrite run_bind, run_call.
  pose proof (server_create_ok resource w) as Hok.
  pose proof (server_create_err resource w) as Herr.
  destruct (handle _ _ w) as [[o|e] w1]; cbn [fst snd] in *.
  - destruct (Hok _ eq_refl Hg) as [? _]. congruence.
  - rewrite <-(Herr _ eq_refl). by case_match.
Qed.

(** FindAll changes nothing and returns only resources that carry an owner
    reference with the workload's own UID. *)
Lemma FindAll_owned types source (w : W) objs :
  (run (FindAll types source) w).1 = Ok objs →
  (∀ o, o ∈ objs → ∃ r, r ∈ ownerRefs (o_Meta o) ∧ or_UID r = UID (src_Meta source)) ∧
  (∀ t k, stored (run (FindAll types source) w).2 t k = stored w t k).
Proof.
  intros Hrun. split; [|by apply read_only_run, FindAll_reads].
  apply FindAll_spec in Hrun as (req & _ & Hspec). by intros o [_ ?]%Hspec.
Qed.
End properties.

(** ** Witnesses *)

Section witnesses.
Local Existing Instance sample_machinery.

Definition owner (name uid : string) : OwnerReference :=
  mkOwnerReference "nais.io/v1alpha1" "Application" name uid None None.

Definition foreign_cluster : Mem :=
  mem_of [sample_ns; sample_service (Some [owner "other" "uid-9"]) "10.0.0.1"].

(** Another workload's Service, and one without an owner in a namespace that is not of Postgres. *)
Lemma CreateOrUpdate_respects_owner_witness :
  is_ok (run (CreateOrUpdate (sample_service (Some [owner "myapp" "uid-1"]) "")) foreign_cluster).1
    = false ∧
  is_ok (run (CreateOrUpdate (sample_service None "")) foreign_cluster).1 = false.
Proof.
  split; eapply (CreateOrUpdate_respects_owner _
            (sample_service (Some [owner "other" "uid-9"]) "10.0.0.1")).
  - reflexivity.
  - vm_compute. reflexivity.
  - left. discriminate.
  - intros (d & s & Hd & Hs & Hn & _).
    apply list_elem_of_singleton in Hd, Hs. subst. discriminate.
  - reflexivity.
  - vm_compute. reflexivity.
  - right. vm_compute. by intros ns [= <-].
  - by intros (d & s & Hd%elem_of_nil & _).
Defined.

Lemma prepare_update_spec_witness :
  ∃ o, prepare_update (sample_service (Some [owner "myapp" "uid-2"]) "")
         (sample_service (Some [owner "myapp" "uid-1"; owner "b" "uid-3"]) "10.0.0.1") false = Ok o ∧
       immutable_field (o_Body o) = Some "10.0.0.1".
Proof.
  eexists. split; [vm_compute; reflexivity|].
  refine (proj1 (proj2 (proj2 (proj2 (proj2 (proj2 (proj2
    (prepare_update_spec (sample_service (Some [owner "myapp" "uid-2"]) "")
       (sample_service (Some [owner "myapp" "uid-1"; owner "b" "uid-3"]) "10.0.0.1") false _ _)))))))
    _); [vm_compute; reflexivity|].
  eexists; reflexivity.
Defined.

Lemma wait_deleted_terminates_witness :
  (run (wait_deleted recreate_fuel TService (sample_service None "10.0.0.1") (0 + recreate_timeout))
     foreign_cluster).1 ≠ None.
Proof. apply wait_deleted_terminates. vm_compute. discriminate. Defined.

Lemma CreateIfNotExists_keeps_witness :
  stored (run (CreateIfNotExists (sample_service None "")) foreign_cluster).2 TService
    (mkKey "team-a" "myapp") = Some (sample_service (Some [owner "other" "uid-9"]) "10.0.0.1").
Proof.
  rewrite (CreateIfNotExists_keeps (sample_service None "")
             (sample_service (Some [owner "other" "uid-9"]) "10.0.0.1") foreign_cluster);
    vm_compute; reflexivity.
Defined.

Lemma FindAll_owned_witness :
  (run (FindAll [TService] sample_app) foreign_cluster).1 = Ok [] ∧
  ∀ t k, stored (run (FindAll [TService] sample_app) foreign_cluster).2 t k = stored foreign_cluster t k.
Proof.
  split; [vm_compute; reflexivity|].
  eapply (FindAll_owned [TService] sample_app foreign_cluster). vm_compute. reflexivity.
Defined.

(** A timed-out recreation: the old object is kept by a finalizer. *)
Example CreateOrRecreate_times_out :
  is_ok (run (CreateOrRecreate (sample_service None "10.0.0.1"))
    (mem_of [set_Meta (SetFinalizers ["f"]) (sample_service None "10.0.0.1")])).1 = false.
Proof. vm_compute. reflexivity. Qed.

(** A recreation that succeeds. *)
Example CreateOrRecreate_succeeds :
  is_ok (run (CreateOrRecreate (sample_service None "10.0.0.1"))
    (mem_of [sample_service None "10.0.0.2"])).1 = true.
Proof. vm_compute. reflexivity. Qed.
End witnesses.
