(* ===== verification/Readonly.v ===== *)
(** * The readonly package: a client with its write calls dropped

    Models [pkg/readonly/client.go]: [NewClient] answers the write calls of the
    wrapped client without performing them, passes the read calls on, and hands
    out the wrapped client's own [Status()] and [SubResource()] writers. *)

From S2P Require Import Prelude GoStrings Kube Api Cluster MemServer Samples.

(** What [Client.Create], [Update], [Patch] and [Delete] return: a nil error,
    with the argument object untouched. *)
Definition ignored {X} (e : op X) : option X :=
  match e in op X return option X with
  | Create o => Some (Ok o)
  | Update o => Some (Ok o)
  | Delete _ _ => Some (Ok tt)
  | Patch m _ => Some (Ok m)
  | Get _ _ | ListObjs _ _ | UpdateStatus _ | Now | Sleep _ | NewUUID => None
  end.

(** The program that runs [p] against [NewClient(c)], as a program for [c]. *)
Fixpoint readonly {A} (p : prog A) : prog A :=
  match p with
  | Ret a => Ret a
  | Vis e k =>
      match ignored e with
      | Some x => readonly (k x)
      | None => Vis e (fun x => readonly (k x))
      end
  end.

(** ** Lemmas *)

Lemma ignored_write {X} (e : op X) :
  ignored e = None → is_write e = true → is_status_write e = true.
Proof. by destruct e. Qed.

Lemma readonly_status_only {A} (p : prog A) :
  all_ops (fun X e => is_write e = true → is_status_write e = true) (readonly p).
Proof.
  induction p as [a|X e k IH]; simpl; [constructor|].
  destruct (ignored e) eqn:He; [apply IH|].
  constructor; [intros; by eapply ignored_write|done].
Qed.

Lemma readonly_preserves (P : ∀ X, op X → Prop) {A} (p : prog A) :
  all_ops P p → all_ops P (readonly p).
Proof.
  intros Hp. induction Hp as [a|X e k He Hk IH]; simpl; [constructor|].
  destruct (ignored e); [apply IH|]. by constructor.
Qed.

Lemma readonly_read_only {A} (p : prog A) :
  all_ops (fun X e => is_status_write e = false) p → read_only (readonly p).
Proof.
  intros Hp. induction Hp as [a|X e k He Hk IH]; simpl; [constructor|].
  destruct (ignored e) eqn:Hi; [apply IH|].
  constructor; [|done]. by destruct e.
Qed.

Lemma readonly_statuses {A} (p : prog A) :
  all_ops (fun X e => status_of_workload e) p →
  all_ops (fun X e => status_only e) (readonly p).
Proof.
  intros Hp. induction Hp as [a|X e k He Hk IH]; simpl; [constructor|].
  destruct (ignored e) eqn:Hi; [apply IH|]. constructor; [|done]. by destruct e.
Qed.

(** ** Properties *)

Section properties.
Context {W : Type} `{ApiServerLaws W}.

(** The read-only client drops writes: a program that does not use the
    status writer leaves every stored object unchanged when it runs against
    [NewClient(c)], and a program that only reads behaves exactly as it does
    against [c] itself. *)
Lemma readonly_no_writes {A} (p : prog A) (w : W) :
  (all_ops (fun X e => is_status_write e = false) p →
   ∀ t k, stored (run (readonly p) w).2 t k = stored w t k) ∧
  (read_only p → run (readonly p) w = run p w).
Proof.
  split.
  - intros Hp. by apply read_only_run, readonly_read_only.
  - intros Hp. revert w. induction Hp as [a|X e k He _ IH]; intros w; simpl; [done|].
    assert (ignored e = None) as -> by (by destruct e). simpl.
    destruct (handle X e w). apply IH.
Qed.
End properties.

(** The status writer is not dropped: [NewClient(c).Status()] is [c.Status()],
    so there is a program and a cluster where running it against the read-only
    client changes the status of a stored workload. *)
Lemma readonly_status_leak :
  ∃ (p : prog (res error Object)) (w : Mem) t k,
    stored (run (readonly p) w).2 t k ≠ stored w t k.
Proof.
  exists (call (UpdateStatus (source_object (set_src_Status (SetSynchronizationHash "x") sample_app)))),
    (mem_of [source_object sample_app]), TApplication, (mkKey "team-a" "myapp").
  vm_compute. discriminate.
Qed.

Lemma readonly_no_writes_witness :
  stored (run (readonly (call (Create sample_ns))) (mem_of [])).2 TNamespace (mkKey "" "team-a") = None.
Proof.
  rewrite (proj1 (readonly_no_writes (call (Create sample_ns)) (mem_of []))).
  - reflexivity.
  - solve_ops.
Defined.
