(* ===== verification/Synchronizer.v ===== *)
(** * The synchronizer: reconciliation of one workload

    Models [pkg/synchronizer] (synchronizer.go, rollout.go, correlationid.go,
    externalimage.go): [Reconcile] with its deferred status update, the
    deletion path with the finalizer, [Prepare] (hash and image comparison, run
    against the read-only client), the commits of [ClusterOperations] and their
    execution. Metrics and log lines are left out; the goroutine
    [MonitorRollout] starts is the [out_monitor] of the outcome and is modelled
    in [Monitoring]. *)

From S2P Require Import Prelude GoStrings Kube Api Vendor Cluster Config Readonly Resource Updater Google.

Definition NaiseratorFinalizer : string := "naiserator.nais.io/finalizer".
Definition prepareRetryInterval : Z := 30 * 60 * 1000000000.

(** The [Generator] interface. [Prepare] is given a client, so it is a program. *)
Class Generator := {
  gen_Options : Type;
  gen_Prepare : Source → prog (res error gen_Options);
  gen_Generate : Source → gen_Options → res error (list Operation);
}.

Section synchronizer.
Context `{L : Liberator} `{AM : ApiMachinery} `{F : FinalizerLib} `{G : Generator}.

Record Rollout := mkRollout {
  ro_Source : Source;
  ro_ResourceOperations : list Operation;
  ro_Options : gen_Options;
  ro_CorrelationID : string;
  ro_SynchronizationHash : string }.

(** A cluster operation with the kind it is about. *)
Record commit := mkCommit { commit_GVK : GroupVersionKind; commit_fn : prog (res error unit) }.

(** What [NewSynchronizer] is given; the caches are arguments of the operations. *)
Record Synchronizer := mkSynchronizer { sync_config : Config; sync_listers : list GoType }.

Definition NewSynchronizer (config : Config) (listers : list GoType) : Synchronizer :=
  mkSynchronizer config listers.

Implicit Types n : Synchronizer.

(** ** Events *)

Definition event_body (o : Object) : option EventBody :=
  match o_Body o with BEvent e => Some e | _ => None end.

(** The update of an event that was reported before. *)
Definition repeat_event (event reported : Object) (e r : EventBody) : Object :=
  set_Body (BEvent {| evt_Reason := evt_Reason e; evt_Message := evt_Message e;
                      evt_Type := evt_Type e; evt_Count := int32 (evt_Count e + 1);
                      evt_LastTimestamp := evt_LastTimestamp r;
                      evt_InvolvedName := evt_InvolvedName e;
                      evt_InvolvedUID := evt_InvolvedUID e |})
    (set_Meta (SetAnnotations (Annotations (o_Meta reported))) event).

(** The loop over the listed events. *)
Fixpoint update_same_message (reported : Object) (r : EventBody) (items : list Object)
    : prog (res error Object) :=
  match items with
  | [] => call (Create reported)
  | event :: items' =>
      match event_body event with
      | Some e =>
          if bool_decide (evt_Message e = evt_Message r)
          then call (Update (repeat_event event reported e r))
          else update_same_message reported r items'
      | None => update_same_message reported r items'
      end
  end.

Definition reportEvent (reportedEvent : Object) : prog (res error Object) :=
  match event_body reportedEvent with
  | None => Ret (Err (Errorf "not an event"))
  | Some r =>
      match ParseSelector ("involvedObject.name=" +:+ evt_InvolvedName r +:+
                           ",involvedObject.uid=" +:+ evt_InvolvedUID r) with
      | Err e => Ret (Err (Textf "internal error: unable to parse query: " e))
      | Ok selector =>
          l ← call (ListObjs TEvent (mkListOptions [] selector ""));
          match l with
          | Err e =>
              if IsNotFound e then update_same_message reportedEvent r []
              else Ret (Err (Textf ("get events for app '" +:+ evt_InvolvedName r +:+ "': ") e))
          | Ok items => update_same_message reportedEvent r items
          end
      end
  end.

(** [reportError]: log, report an event, and only log a failure to do so. *)
Definition reportError (eventSource : string) (err : error) (source : Source) : prog unit :=
  now ← call Now;
  _ ← reportEvent (CreateEvent source eventSource (err_msg err) "Warning" now);
  Ret tt.

(** ** Reading and updating the workload *)

Definition workload_type (k : WorkloadKind) : GoType :=
  match k with KApplication => TApplication | KNaisjob => TNaisjob end.

Definition source_key (s : Source) : ObjectKey := meta_key (src_Meta s).

(** [n.Get(ctx, key, app)] for a workload. *)
Definition get_source (k : WorkloadKind) (key : ObjectKey) : prog (res error Source) :=
  r ← call (Get (workload_type k) key);
  match r with
  | Err e => Ret (Err e)
  | Ok o => match object_source o with
            | Some s => Ret (Ok s)
            | None => Ret (Err (Errorf "cannot decode the object"))
            end
  end.

(** [n.Update(ctx, app)]: the client decodes the persisted object into [app]. *)
Definition update_source (s : Source) : prog (res error Source) :=
  r ← call (Update (source_object s));
  match r with
  | Err e => Ret (Err e)
  | Ok o => Ret (Ok (default s (object_source o)))
  end.

Definition update_status (s : Source) : prog (res error unit) :=
  _ ←! call (UpdateStatus (source_object s)); Ret (Ok tt).

Definition UpdateResource (source : Source) (updateFunc : Source → prog (res error unit))
    : prog (res error unit) :=
  existing ←!{Textf ("get newest version of " +:+ type_name (workload_type (src_Kind source))
                      +:+ ": ")} get_source (src_Kind source) (source_key source);
  updateFunc existing.

(** The function the deferred update passes to [UpdateResource]. *)
Definition persist_status (app existing : Source) : prog (res error unit) :=
  let labels := Labels (src_Meta existing) in
  let needsLabelUpdate :=
    bool_decide (labels = None) ||
    bool_decide (omap_get labels "team" ≠ GetNamespace existing) in
  existing ←! (if needsLabelUpdate then
                 update_source
                   (set_src_Meta (SetLabels (Some (<["team" := GetNamespace existing]>
                                                     (default ∅ labels)))) existing)
               else Ret (Ok existing));
  update_status (set_src_Status (fun _ => src_Status app) existing).

Definition deferred_update (app : Source) : prog unit :=
  r ← UpdateResource app (persist_status app);
  match r with
  | Err e => reportError events_FailedStatusUpdate e app
  | Ok _ => Ret tt
  end.

(** ** Deletion *)

Definition appIsDeleted (app : Source) : bool :=
  bool_decide (DeletionTimestamp (src_Meta app) ≠ None).

Definition delete_listed (t : GoType) (opts : ListOptions) : prog (res error unit) :=
  items ←! call (ListObjs t opts);
  prog_iter (fun item => call (Delete item None)) items.

Definition deleteCNRMResources n (app : Source) : prog (res error unit) :=
  if negb (CNRM (cfg_Features (sync_config n))) then Ret (Ok tt)
  else match NewRequirement "app" (GetName app) with
       | Err e => Ret (Err e)
       | Ok appLabelreq =>
           match NewRequirement "team" (GetNamespace app) with
           | Err e => Ret (Err e)
           | Ok teamLabelreq =>
               let listOpts := mkListOptions [appLabelreq; teamLabelreq] []
                                 IAMServiceAccountNamespace in
               _ ←! delete_listed TIAMServiceAccount listOpts;
               delete_listed TIAMPolicy listOpts
           end
       end.

Definition deleteImageResource (src : Source) : prog (res error unit) :=
  r ← call (Get TImage (source_key src));
  match r with
  | Err e => if IsNotFound e then Ret (Ok tt) else Ret (Err e)
  | Ok image =>
      r ← call (Delete image None);
      match r with
      | Err e => if IsNotFound e then Ret (Ok tt) else Ret (Err e)
      | Ok _ => Ret (Ok tt)
      end
  end.

(** Returns the workload too, whose finalizer list it may have changed. *)
Definition cleanUpAfterAppDeletion n (app : Source) : prog (Source * res error unit) :=
  if ContainsFinalizer (src_Meta app) NaiseratorFinalizer then
    r ← deleteCNRMResources n app;
    match r with
    | Err e => Ret (app, Err e)
    | Ok _ =>
        r ← deleteImageResource app;
        match r with
        | Err e => Ret (app, Err e)
        | Ok _ =>
            let app := set_src_Meta (fun m => RemoveFinalizer m NaiseratorFinalizer) app in
            r ← update_source app;
            match r with
            | Err e => Ret (app, Err e)
            | Ok app => Ret (app, Ok tt)
            end
        end
    end
  else Ret (app, Ok tt).

(** ** The wanted image *)

Definition ErrImageNotFound : string := "external image resource not found".

Definition getExternalImage (source : Source) : prog (res error string) :=
  r ← call (Get TImage (source_key source));
  match r with
  | Err e =>
      if negb (IsNotFound e) then Ret (Err (Textf "query existing image: " e))
      else Ret (Err (mkError (key_String (source_key source) +:+ ": " +:+ ErrImageNotFound)
                       ReasonUnknown (Some ErrImageNotFound)))
  | Ok o => match o_Body o with
            | BImage i => Ret (Ok i)
            | _ => Ret (Err (Errorf "cannot decode the object"))
            end
  end.

Definition imageHasChanged (wantedImage : string) (source : Source) : bool :=
  if bool_decide (slen (GetEffectiveImage source) = 0%nat) &&
     bool_decide (0 < slen (GetImage source))%nat
  then false
  else bool_decide (wantedImage ≠ GetEffectiveImage source).

Definition getWantedImage (source : Source) : prog (res error string) :=
  if bool_decide (slen (GetImage source) = 0%nat) then getExternalImage source
  else Ret (Ok (GetImage source)).

Definition updateEffectiveImage (source : Source) (wantedImage : string) : Source :=
  set_src_Status (SetEffectiveImage wantedImage) source.

Definition ensureCorrelationID (source : Source) : prog (res error Source) :=
  let anno := default ∅ (Annotations (src_Meta source)) in
  if bool_decide (slen (map_get anno DeploymentCorrelationIDAnnotation) ≠ 0%nat)
  then Ret (Ok source)
  else
    id ←!{Textf "generate deployment correlation ID: "} call NewUUID;
    Ret (Ok (set_src_Meta (SetAnnotations (Some (<[DeploymentCorrelationIDAnnotation := id]> anno)))
               source)).

(** ** Prepare *)

(** The outcome of [Prepare]: the source as it was changed in place, and the
    rollout ([None] when nothing changed since the last synchronization). *)
Definition Prepare n (source : Source) : prog (Source * res error (option Rollout)) :=
  match ApplyDefaults source with
  | Err e => Ret (source, Err (Textf "BUG: merge default values into application: " e))
  | Ok source =>
      match Hash source (AivenGeneration (sync_config n)) with
      | Err e => Ret (source, Err (Textf "BUG: create application hash: " e))
      | Ok hash =>
          wanted ← readonly (getWantedImage source);
          match wanted with
          | Err e => Ret (source, Err (Wrapf "get wanted image: " e))
          | Ok wantedImage =>
              if negb (imageHasChanged wantedImage source) &&
                 bool_decide (st_SynchronizationHash (src_Status source) = hash)
              then Ret (source, Ok None)
              else
                let source := updateEffectiveImage source wantedImage in
                r ← ensureCorrelationID source;
                match r with
                | Err e => Ret (source, Err e)
                | Ok source =>
                    opts ← readonly (gen_Prepare source);
                    match opts with
                    | Err e => Ret (source, Err (Wrapf "preparing rollout configuration: " e))
                    | Ok opts => Ret (source, Ok (Some (mkRollout source [] opts
                                                          (CorrelationID source) hash)))
                    end
                end
          end
      end
  end.
(** ** Cluster operations *)

(** Return true if a cluster resource also is applied with the rollout. *)
Definition intersects (ops : list Operation) (existing : Object) : bool :=
  existsb (fun rop =>
    bool_decide (TypeOf (op_Resource rop) = TypeOf existing) &&
    bool_decide (Name (o_Meta (op_Resource rop)) = Name (o_Meta existing))) ops.

Definition Unreferenced n (rollout : Rollout) : prog (res error (list Object)) :=
  resources ←!{Textf "discovering unreferenced resources: "}
    FindAll (sync_listers n) (ro_Source rollout);
  Ret (Ok (filter (fun existing => intersects (ro_ResourceOperations rollout) existing = false)
             resources)).

(** The loop of [isListable] over the listers, without the cache. *)
Definition lister_matches (objGvk : GroupVersionKind) (lister : GoType) : bool :=
  match GVKForObject lister with
  | Err _ => false
  | Ok listGvk =>
      bool_decide (gvk_Group listGvk = gvk_Group objGvk) &&
      bool_decide (gvk_Version listGvk = gvk_Version objGvk) &&
      bool_decide (TrimSuffix (gvk_Kind listGvk) "List" = gvk_Kind objGvk)
  end.

(** [isListable] and the cache it fills. *)
Definition isListable n (cache : gmap GroupVersionKind bool) (objGvk : GroupVersionKind)
    : bool * gmap GroupVersionKind bool :=
  match cache !! objGvk with
  | Some listable => (listable, cache)
  | None =>
      let listable := existsb (lister_matches objGvk) (sync_listers n) in
      (listable, <[objGvk := listable]> cache)
  end.

(** [checkListable]: a warning is logged, only the cache changes. *)
Definition checkListable n cache kind : gmap GroupVersionKind bool := (isListable n cache kind).2.

Definition no_such_operation (t : OperationType) : commit :=
  mkCommit (mkGVK "" "" "")
    (Ret (Err (Errorf ("BUG: no such operation " +:+ operation_string t)))).

(** The commit of one resource operation; an unknown operation is an error. *)
Definition operation_commit (rop : Operation) : res commit commit :=
  let c := mkCommit (o_GVK (op_Resource rop)) in
  match op_Operation rop with
  | OperationCreateOrUpdate => Ok (c (CreateOrUpdate (op_Resource rop)))
  | OperationCreateOrRecreate => Ok (c (CreateOrRecreate (op_Resource rop)))
  | OperationCreateIfNotExists => Ok (c (CreateIfNotExists (op_Resource rop)))
  | OperationDeleteIfExists => Ok (c (DeleteIfExists (op_Resource rop)))
  | Resource.AnnotateIfExists => Ok (c (Updater.AnnotateIfExists (op_Resource rop)))
  | OperationUnknown _ => Err (no_such_operation (op_Operation rop))
  end.

(** The first loop of [ClusterOperations]: the commits, or the single failing
    commit an unknown operation turns the rollout into; and the cache. *)
Fixpoint operation_commits n (cache : gmap GroupVersionKind bool) (rops : list Operation)
    (funcs : list commit) : res commit (list commit) * gmap GroupVersionKind bool :=
  match rops with
  | [] => (Ok funcs, cache)
  | rop :: rops' =>
      let cache := checkListable n cache (o_GVK (op_Resource rop)) in
      match operation_commit rop with
      | Err c => (Err c, cache)
      | Ok c => operation_commits n cache rops' (funcs ++ [c])
      end
  end.

Definition delete_commit (rsrc : Object) : commit :=
  mkCommit (o_GVK rsrc) (DeleteIfExists rsrc).

Definition ClusterOperations n cache (rollout : Rollout)
    : prog (list commit * gmap GroupVersionKind bool) :=
  match operation_commits n cache (ro_ResourceOperations rollout) [] with
  | (Err c, cache) => Ret ([c], cache)
  | (Ok funcs, cache) =>
      unreferenced ← Unreferenced n rollout;
      let deletes :=
        match unreferenced with
        | Err e => [mkCommit (mkGVK "" "" "")
                      (Ret (Err (Textf "unable to clean up obsolete resources: " e)))]
        | Ok rsrcs => map delete_commit rsrcs
        end in
      Ret (deletes ++ funcs, cache)
  end.

(** The error a failed commit is reported as, and whether to retry. *)
Definition commit_failure (c : commit) (err : error) : bool * error :=
  let reason := reason_string (ReasonForError err) in
  let reason := if bool_decide (ReasonForError err = ReasonUnknown)
                then "validation error" else reason in
  (IsConflict err,
   Errorf ("persisting " +:+ gvk_Kind (commit_GVK c) +:+ " to Kubernetes: " +:+ reason +:+
           ": " +:+ err_msg err)).

Fixpoint rolloutWithRetryAndMetrics (commits : list commit) : prog (bool * option error) :=
  match commits with
  | [] => Ret (false, None)
  | c :: cs =>
      r ← commit_fn c;
      match r with
      | Err err => let '(retry, e) := commit_failure c err in Ret (retry, Some e)
      | Ok _ => rolloutWithRetryAndMetrics cs
      end
  end.

Definition Sync n cache (rollout : Rollout)
    : prog (bool * option error * gmap GroupVersionKind bool) :=
  '(commits, cache) ← ClusterOperations n cache rollout;
  r ← rolloutWithRetryAndMetrics commits;
  Ret (r, cache).

(** ** Reconcile *)

(** What a reconciliation returns to the controller ([ctrl.Result] as its
    [RequeueAfter], the error), the listable cache, and the workload whose
    rollout it started to monitor. *)
Record Outcome := mkOutcome {
  out_RequeueAfter : Z;
  out_err : option error;
  out_cache : gmap GroupVersionKind bool;
  out_monitor : option Source }.

Definition done_with (cache : gmap GroupVersionKind bool) : Outcome := mkOutcome 0 None cache None.
Definition failed_with (cache : gmap GroupVersionKind bool) (e : error) : Outcome :=
  mkOutcome 0 (Some e) cache None.

(** [app.GetStatus().Conditions = nil; app.GetStatus().ClearProblems()] *)
Definition clear_status (app : Source) : Source :=
  set_src_Status (fun s => ClearProblems (SetConditions [] s)) app.

Definition set_state (st : string) (e : error) (app : Source) : Source :=
  set_src_Status (SetSynchronizationStateWithCondition st (err_msg e)) app.
Definition set_error (e : error) (app : Source) : Source :=
  set_src_Status (SetError (err_msg e)) app.

Definition syncMsg : string := "Deployment has been processed; waiting for completion...".

(** What follows a [Sync]: the status it leads to, the events, the monitor.
    The boolean is the [changed] flag of the deferred update. *)
Definition after_sync (cache : gmap GroupVersionKind bool) (app : Source) (hash : string)
    (retry : bool) (err : option error) : prog (Source * bool * Outcome) :=
  match err with
  | Some e =>
      if retry then
        let app := set_state events_Retrying e app in
        _ ← reportError (st_SynchronizationState (src_Status app)) e app;
        Ret (app, true, failed_with cache e)
      else
        let app := set_src_Status (SetSynchronizationHash hash)
                     (set_error e (set_state events_FailedSynchronization e app)) in
        _ ← reportError (st_SynchronizationState (src_Status app)) e app;
        Ret (app, true, done_with cache)
  | None =>
      t ← call Now;
      let app := set_src_Status (fun s => SetSynchronizationTime t (SetSynchronizationHash hash
                   (SetSynchronizationStateWithCondition events_Synchronized syncMsg s))) app in
      _ ← reportEvent (CreateEvent app (st_SynchronizationState (src_Status app)) syncMsg "Normal" t);
      Ret (app, true, mkOutcome 0 None cache (Some app))
  end.

(** [Reconcile] from [Prepare] on. *)
Definition synchronize n cache (app : Source) : prog (Source * bool * Outcome) :=
  '(app, prepared) ← Prepare n app;
  match prepared with
  | Err e =>
      let app := set_error e (set_state events_FailedPrepare e app) in
      _ ← reportError (st_SynchronizationState (src_Status app)) e app;
      Ret (app, true, mkOutcome prepareRetryInterval None cache None)
  | Ok None =>
      Ret (app, false,
           mkOutcome 0 None cache
             (if bool_decide (st_SynchronizationState (src_Status app) = events_Synchronized)
              then Some app else None))
  | Ok (Some rollout) =>
      match gen_Generate (ro_Source rollout) (ro_Options rollout) with
      | Err e =>
          let app := set_error e (set_state events_FailedGenerate e app) in
          _ ← reportError (st_SynchronizationState (src_Status app)) e app;
          Ret (app, true, failed_with cache e)
      | Ok ops =>
          let rollout := mkRollout (ro_Source rollout) ops (ro_Options rollout)
                           (ro_CorrelationID rollout) (ro_SynchronizationHash rollout) in
          let app := set_src_Status (SetCorrelationID (ro_CorrelationID rollout)) app in
          '(retry, err, cache) ← Sync n cache rollout;
          after_sync cache app (ro_SynchronizationHash rollout) retry err
      end
  end.

(** The body of [Reconcile] between the read of the workload and the deferred
    update. *)
Definition reconcile_body n cache (app : Source) : prog (Source * bool * Outcome) :=
  if appIsDeleted app then
    '(app, r) ← cleanUpAfterAppDeletion n app;
    match r with
    | Err e => Ret (app, true, failed_with cache e)
    | Ok _ => Ret (app, false, done_with cache)
    end
  else if ContainsFinalizer (src_Meta app) NaiseratorFinalizer then synchronize n cache app
  else
    let app := set_src_Meta (fun m => AddFinalizer m NaiseratorFinalizer) app in
    r ← update_source app;
    match r with
    | Err e => Ret (app, true, failed_with cache e)
    | Ok app => Ret (app, false, done_with cache)
    end.

Definition Reconcile n cache (k : WorkloadKind) (req : ObjectKey) : prog Outcome :=
  r ← get_source k req;
  match r with
  | Err e => Ret (mkOutcome 0 (if IsNotFound e then None else Some e) cache None)
  | Ok app =>
      '(app, changed, out) ← reconcile_body n cache (clear_status app);
      _ ← (if (changed : bool) then deferred_update app else Ret tt);
      Ret out
  end.
End synchronizer.
