(* ===== verification/SynchronizerProps.v ===== *)
(** * Correctness of the synchronizer

    Theorems on [Synchronizer]: what each phase of a reconciliation may change
    in the cluster, which resources a rollout deletes, when a rollout is
    skipped or retried, and that the finalizer guards the cleanup. *)

From S2P Require Import Prelude GoStrings Kube Api Vendor Cluster MemServer Samples Config Readonly Resource Updater Synchronizer Google.

(** Generators use the client they are given for reads and plain writes only. *)
Class GeneratorNoStatus (G : Generator) : Prop :=
  gen_no_status : ∀ s, all_ops (fun X e => is_status_write e = false) (gen_Prepare s).

(** The hash and the defaults of a workload do not depend on its status. *)
Class LiberatorHashLaws (L : Liberator) : Prop := {
  Hash_status f s g : Hash (set_src_Status f s) g = Hash s g;
  ApplyDefaults_status f s : ApplyDefaults (set_src_Status f s) = set_src_Status f <$> ApplyDefaults s;
}.

(** ** Lemmas *)

Section lemmas.
Context `{L : Liberator} `{AM : ApiMachinery} `{F : FinalizerLib} `{G : Generator}.
Context {W : Type} `{ApiServerLaws W}.

Lemma getWantedImage_reads s :
  all_ops (fun X e => is_status_write e = false) (getWantedImage s).
Proof. unfold getWantedImage, getExternalImage. solve_ops. Qed.

Lemma Prepare_reads `{!GeneratorNoStatus G} n s : read_only (Prepare n s).
Proof.
  unfold Prepare, ensureCorrelationID. solve_ops;
    try (apply readonly_read_only; apply getWantedImage_reads);
    try (apply readonly_read_only; apply gen_no_status).
Qed.

Lemma Unreferenced_reads n r : read_only (Unreferenced n r).
Proof. unfold Unreferenced. solve_ops. apply FindAll_reads. Qed.

Lemma ClusterOperations_reads n cache r : read_only (ClusterOperations n cache r).
Proof. unfold ClusterOperations. solve_ops. apply FindAll_reads. Qed.

Lemma get_source_reads k key : read_only (get_source k key).
Proof. unfold get_source. solve_ops. Qed.

Lemma no_status_of_workload {X} (e : op X) : is_status_write e = false → status_of_workload e.
Proof. by destruct e. Qed.

Lemma read_status_of_workload {A} (p : prog A) : read_only p → all_ops (fun X e => status_of_workload e) p.
Proof. apply all_ops_impl. by destruct e. Qed.

(** The commits of a loop over known operations. *)
Lemma operation_commits_ok n cache rops funcs cs cache' :
  operation_commits n cache rops funcs = (Ok cs, cache') →
  ∃ new, cs = funcs ++ new ∧ Forall2 (fun rop c => operation_commit rop = Ok c) rops new.
Proof.
  revert cache funcs. induction rops as [|rop rops IH]; intros cache funcs; simpl; intros Hc.
  - simplify_eq. exists []. by rewrite app_nil_r.
  - destruct (operation_commit rop) as [c|c] eqn:Hop; [|done].
    apply IH in Hc as (new & -> & Hall). exists (c :: new).
    rewrite <-app_assoc. split; [done|]. by constructor.
Qed.

Lemma operation_commits_err n cache rops funcs c cache' :
  operation_commits n cache rops funcs = (Err c, cache') →
  ∃ rop, rop ∈ rops ∧ c = no_such_operation (op_Operation rop).
Proof.
  revert cache funcs. induction rops as [|rop rops IH]; intros cache funcs; simpl; intros Hc; [done|].
  destruct (operation_commit rop) as [c'|c'] eqn:Hop.
  - apply IH in Hc as (rop' & ? & ?). exists rop'. split; [by right|done].
  - simplify_eq. exists rop. split; [by left|].
    unfold operation_commit in Hop. destruct (op_Operation rop) eqn:Ho; try done. by simplify_eq.
Qed.

Lemma intersects_false ops o :
  intersects ops o = false ↔
  ∀ rop, rop ∈ ops → TypeOf (op_Resource rop) = TypeOf o →
    Name (o_Meta (op_Resource rop)) ≠ Name (o_Meta o).
Proof.
  unfold intersects. rewrite <-not_true_iff_false, existsb_elem.
  setoid_rewrite andb_true_iff. setoid_rewrite bool_decide_eq_true. naive_solver.
Qed.

(** Deleting listed objects of a type leaves objects of the other types alone. *)
Lemma delete_items_other t l w ty k :
  Forall (fun o => TypeOf o = t) l → ty ≠ t →
  stored (run (prog_iter (fun item => call (Delete item None)) l) w).2 ty k = stored w ty k.
Proof.
  intros Hall Hne. revert w. induction Hall as [|o l Ho _ IH]; intros w; [done|].
  cbn [prog_iter]. run_step.
  assert (Hw := proj2 (server_write_other o w ty k ltac:(congruence)) None).
  call_case [[[]|e] w1]; [|done]. by rewrite IH.
Qed.

Lemma delete_listed_other t opts w ty k :
  ty ≠ t → stored (run (delete_listed t opts) w).2 ty k = stored w ty k.
Proof.
  intros Hne. unfold delete_listed. run_step.
  pose proof (server_read _ (ListObjs t opts) w eq_refl ty k) as Hr.
  pose proof (server_list_type t opts w) as Ht.
  call_case [[l|e] w1]; [|done].
  rewrite delete_items_other with (t := t); eauto.
Qed.

Lemma deleteCNRM_other n app w ty k :
  ty ≠ TIAMServiceAccount → ty ≠ TIAMPolicy →
  stored (run (deleteCNRMResources n app) w).2 ty k = stored w ty k.
Proof.
  intros. unfold deleteCNRMResources. repeat case_match; try done. run_step.
  pose proof (delete_listed_other TIAMServiceAccount
    (mkListOptions [a; a0] [] IAMServiceAccountNamespace) w ty k) as H1'.
  destruct (run (delete_listed TIAMServiceAccount _) w) as [[[]|e] w1]; cbn [fst snd] in *; [|auto].
  rewrite delete_listed_other; auto.
Qed.

Lemma deleteImage_other app w ty k :
  ty ≠ TImage → stored (run (deleteImageResource app) w).2 ty k = stored w ty k.
Proof.
  intros Hne. unfold deleteImageResource. run_step.
  pose proof (server_read _ (Get TImage (source_key app)) w eq_refl ty k) as Hr.
  pose proof (server_get_ok TImage (source_key app) w) as Hok.
  call_case [[o|e] w1]; [|by case_match]. run_step.
  specialize (Hok _ eq_refl). apply server_stored_type in Hok as [Ho _].
  assert (Hw := proj2 (server_write_other o w1 ty k ltac:(congruence)) None).
  call_case [[[]|e] w2]; [|case_match]; simpl; congruence.
Qed.
End lemmas.

(** ** Status lemmas *)

Section status_lemmas.
Context `{L : Liberator} `{AM : ApiMachinery} `{F : FinalizerLib} `{G : Generator}.
Context `{!LiberatorStatusLaws L} `{!LiberatorHashLaws L}.
Context {W : Type} `{ApiServerLaws W}.

(** A workload whose hash and effective image are the recorded ones is skipped. *)
Lemma Prepare_skip n s s' h i (w : W) :
  ApplyDefaults s = Ok s' → Hash s' (AivenGeneration (sync_config n)) = Ok h →
  (run (readonly (getWantedImage s')) w).1 = Ok i →
  imageHasChanged i s' = false → st_SynchronizationHash (src_Status s') = h →
  (run (Prepare n s) w).1 = (s', Ok None).
Proof.
  intros Hd Hh Hi Himg Hst. unfold Prepare. rewrite Hd, Hh. run_step.
  destruct (run (readonly _) w) as [r w1]; simpl in *. subst r.
  rewrite Himg, bool_decide_eq_true_2 by done. done.
Qed.

Lemma imageHasChanged_same i s : GetEffectiveImage s = i → imageHasChanged i s = false.
Proof. intros <-. unfold imageHasChanged. case_match; [done|]. apply bool_decide_eq_false_2. tauto. Qed.

(** Replacing the status of a workload before applying the defaults. *)
Lemma ApplyDefaults_with_status s s' f :
  ApplyDefaults s = Ok s' → ApplyDefaults (set_src_Status f s) = Ok (set_src_Status f s').
Proof. intros Hs. by rewrite ApplyDefaults_status, Hs. Qed.

Lemma getWantedImage_status f s : getWantedImage (set_src_Status f s) = getWantedImage s.
Proof. done. Qed.

(** The workload a later reconciliation reads back: the one it read first, with
    the persisted status; conditions and problems are cleared again. *)
Definition read_back (app : Source) (st : Status) : Source :=
  clear_status (set_src_Status (fun _ => st) app).

Lemma read_back_skip n app app' st h i (w : W) :
  ApplyDefaults app = Ok app' → Hash app' (AivenGeneration (sync_config n)) = Ok h →
  (run (readonly (getWantedImage app')) w).1 = Ok i →
  st_EffectiveImage st = i → st_SynchronizationHash st = h →
  (run (Prepare n (read_back app st)) w).1.2 = Ok None.
Proof.
  intros Hd Hh Hi Himg Hst.
  pose proof (ApplyDefaults_with_status (set_src_Status (fun _ => st) app)
    (set_src_Status (fun _ => st) app') (fun s => ClearProblems (SetConditions [] s))
    (ApplyDefaults_with_status app app' (fun _ => st) Hd)) as Hd'.
  unfold read_back, clear_status.
  rewrite (Prepare_skip n _ _ h i w Hd'); [done|by rewrite !Hash_status|done| |].
  - apply imageHasChanged_same. unfold GetEffectiveImage. simpl. by rewrite ClearProblems_image.
  - simpl. by rewrite ClearProblems_hash.
Qed.

(** What a successful [Prepare] leaves in the source and the rollout. *)
Lemma Prepare_rollout n app app' h i w app1 ro w1 :
  ApplyDefaults app = Ok app' → Hash app' (AivenGeneration (sync_config n)) = Ok h →
  (run (readonly (getWantedImage app')) w).1 = Ok i →
  run (Prepare n app) w = ((app1, Ok (Some ro)), w1) →
  ro_SynchronizationHash ro = h ∧ ro_Source ro = app1 ∧
  src_Status app1 = SetEffectiveImage i (src_Status app').
Proof.
  intros Hd Hh Hi. unfold Prepare. rewrite Hd, Hh. run_step.
  destruct (run (readonly (getWantedImage app')) w) as [r w2]; simpl in *. subst r.
  case_match; [intros; simplify_eq|].
  unfold ensureCorrelationID. run_step.
  assert (Hgen : ∀ s w3, run (opts ← readonly (gen_Prepare s);
      match opts with
      | Ok o => Ret (s, Ok (Some (mkRollout s [] o (CorrelationID s) h)))
      | Err e => Ret (s, Err (Wrapf "preparing rollout configuration: " e))
      end) w3 = (app1, Ok (Some ro), w1) →
      ro_SynchronizationHash ro = h ∧ ro_Source ro = app1 ∧ s = app1).
  { intros s w3. run_step. destruct (run (readonly (gen_Prepare s)) w3) as [[o|e] w4]; simpl;
      intros; by simplify_eq. }
  destruct (bool_decide (slen (map_get _ _) ≠ 0%nat)); cbn [run].
  - intros Hg. apply Hgen in Hg as (? & ? & <-). done.
  - run_step. call_case [[id|e] w3]; cbn [run]; [|intros; simplify_eq].
    intros Hg. apply Hgen in Hg as (? & ? & <-). done.
Qed.

(** When [Prepare] finds nothing to do. *)
Lemma Prepare_none n app app' h i w app1 w1 :
  ApplyDefaults app = Ok app' → Hash app' (AivenGeneration (sync_config n)) = Ok h →
  (run (readonly (getWantedImage app')) w).1 = Ok i →
  run (Prepare n app) w = ((app1, Ok None), w1) →
  app1 = app' ∧ imageHasChanged i app' = false ∧ st_SynchronizationHash (src_Status app') = h.
Proof.
  intros Hd Hh Hi. unfold Prepare. rewrite Hd, Hh. run_step.
  destruct (run (readonly (getWantedImage app')) w) as [r w2]; simpl in *. subst r.
  destruct (negb (imageHasChanged i app') && bool_decide _) eqn:Hc.
  { apply andb_true_iff in Hc as [Hc1 Hc2]. apply negb_true_iff in Hc1. apply bool_decide_eq_true in Hc2.
    intros [= <- <-]. by split_and!. }
  unfold ensureCorrelationID. run_step.
  destruct (bool_decide (slen (map_get _ _) ≠ 0%nat)); cbn [run].
  - run_step. destruct (run (readonly _) w2) as [[o|] w4]; simpl; intros; by simplify_eq.
  - run_step. call_case [[id|] w3]; cbn [run]; [|intros; by simplify_eq].
    run_step. destruct (run (readonly _) w3) as [[o|] w4]; simpl; intros; by simplify_eq.
Qed.

(** Defaults keep the status. *)
Lemma ApplyDefaults_keeps s s' : ApplyDefaults s = Ok s' → src_Status s' = src_Status s.
Proof.
  intros Hs. assert (Heq : set_src_Status (fun _ => src_Status s) s = s) by (by destruct s).
  pose proof (ApplyDefaults_with_status s s' (fun _ => src_Status s) Hs) as Hs'.
  rewrite Heq, Hs in Hs'. injection Hs' as ->. done.
Qed.

(** What a failing [Prepare] leaves in the source once it has read the image. *)
Lemma Prepare_failed n app app' h i w app1 e w1 :
  ApplyDefaults app = Ok app' → Hash app' (AivenGeneration (sync_config n)) = Ok h →
  (run (readonly (getWantedImage app')) w).1 = Ok i →
  run (Prepare n app) w = ((app1, Err e), w1) →
  src_Status app1 = SetEffectiveImage i (src_Status app').
Proof.
  intros Hd Hh Hi. unfold Prepare. rewrite Hd, Hh. run_step.
  destruct (run (readonly (getWantedImage app')) w) as [r w2]; simpl in *. subst r.
  case_match; [intros; simplify_eq|].
  unfold ensureCorrelationID. run_step.
  destruct (bool_decide (slen (map_get _ _) ≠ 0%nat)); cbn [run].
  - run_step. destruct (run (readonly _) w2) as [[o|] w4]; simpl; intros; by simplify_eq.
  - run_step. call_case [[id|] w3]; cbn [run]; [|intros; by simplify_eq].
    run_step. destruct (run (readonly _) w3) as [[o|] w4]; simpl; intros; by simplify_eq.
Qed.

(** The workload and outcome of a failed synchronization. *)
Lemma after_sync_failed cache app h retry e (w : W) :
  ∃ app', (run (after_sync cache app h retry (Some e)) w).1 =
      (app', true, if retry then failed_with cache e else done_with cache) ∧
    st_EffectiveImage (src_Status app') = st_EffectiveImage (src_Status app) ∧
    st_SynchronizationHash (src_Status app') =
      (if retry then st_SynchronizationHash (src_Status app) else h) ∧
    st_SynchronizationState (src_Status app') =
      (if retry then events_Retrying else events_FailedSynchronization).
Proof.
  unfold after_sync. destruct retry; run_step;
    destruct (run (reportError _ _ _) w) as [[] w1]; simpl; eexists; (split; [done|]);
    simpl; unfold set_error, set_state; simpl;
    rewrite ?SetState_hash, ?SetError_image, ?SetState_image, ?SetState_state, ?SetError_state,
      ?SetState_state; done.
Qed.

Lemma after_sync_settled cache app h err (w : W) :
  ∃ app' out, (run (after_sync cache app h false err) w).1 = (app', true, out) ∧
    out_err out = None ∧ out_RequeueAfter out = 0%Z ∧
    out_monitor out = (match err with None => Some app' | Some _ => None end) ∧
    st_EffectiveImage (src_Status app') = st_EffectiveImage (src_Status app) ∧
    st_SynchronizationHash (src_Status app') = h.
Proof.
  destruct err as [e|].
  - destruct (after_sync_failed cache app h false e w) as (app' & Hrun & Himg & Hh & _).
    by exists app', (done_with cache).
  - unfold after_sync. run_step. call_case [t w1]. run_step.
    destruct (run (reportEvent _) w1) as [r w2]. simpl. do 2 eexists. split; [reflexivity|].
    simpl. by rewrite SetState_image.
Qed.

(** A synchronization that asks for nothing more did nothing, or recorded the hash
    and the image. *)
Lemma synchronize_settles n cache app app' h i (w w1 : W) app2 changed out :
  ApplyDefaults app = Ok app' → Hash app' (AivenGeneration (sync_config n)) = Ok h →
  (run (readonly (getWantedImage app')) w).1 = Ok i →
  run (synchronize n cache app) w = ((app2, changed, out), w1) →
  out_err out = None → out_RequeueAfter out = 0%Z →
  (changed = false ∧ imageHasChanged i app' = false ∧ st_SynchronizationHash (src_Status app') = h) ∨
  (changed = true ∧ st_EffectiveImage (src_Status app2) = i ∧ st_SynchronizationHash (src_Status app2) = h).
Proof.
  intros Hd Hh Hi. unfold synchronize. run_step.
  destruct (run (Prepare n app) w) as [[app1 [[ro|]|e]] w2] eqn:Hp.
  - destruct (Prepare_rollout _ _ _ _ _ _ _ _ _ Hd Hh Hi Hp) as (Hro & _ & Hst).
    destruct (gen_Generate _ _) as [ops|e].
    + run_step. destruct (run (Sync _ _ _) w2) as [[[retry err] cache'] w3]. cbn [ro_SynchronizationHash ro_CorrelationID].
      intros Hrun He Hreq. right.
      destruct (after_sync_settled cache' (set_src_Status (SetCorrelationID (ro_CorrelationID ro)) app1)
        (ro_SynchronizationHash ro) err w3) as (app3 & out3 & Hafter & _ & _ & _ & Himg & Hhash).
      destruct err as [e|]; [destruct retry|].
      * destruct (after_sync_failed cache' (set_src_Status (SetCorrelationID (ro_CorrelationID ro)) app1)
          (ro_SynchronizationHash ro) true e w3) as (app4 & Hafter' & _). rewrite Hrun in Hafter'. by simplify_eq/=.
      * rewrite Hrun in Hafter. simplify_eq/=. rewrite Himg. simpl. by rewrite Hst.
      * change (after_sync cache' ?a ?b retry None) with (after_sync cache' a b false None) in Hrun.
        rewrite Hrun in Hafter. simplify_eq/=. rewrite Himg. simpl. by rewrite Hst.
    + run_step. destruct (run (reportError _ _ _) w2) as [[] w3]. cbn [run]. intros; by simplify_eq/=.
  - destruct (Prepare_none _ _ _ _ _ _ _ _ Hd Hh Hi Hp) as (-> & Himg & Hst). cbn [run].
    intros; simplify_eq/=. by left.
  - run_step. destruct (run (reportError _ _ _) w2) as [[] w3]. cbn [run]. intros; by simplify_eq/=.
Qed.
End status_lemmas.

(** ** What a rollout leaves alone *)

Section confinement.
Context `{L : Liberator} `{AM : ApiMachinery} `{F : FinalizerLib} `{G : Generator}.
Context {W : Type} `{ApiServerLaws W}.

Lemma rollout_leaves t k commits :
  (∀ c, c ∈ commits → leaves t k (commit_fn c)) → leaves t k (rolloutWithRetryAndMetrics commits).
Proof.
  induction commits as [|c cs IH]; intros Hc; simpl; [by intros w|].
  apply leaves_bind; [apply Hc; by left|]. intros [[]|e]; [|by intros w].
  apply IH. intros c' ?. apply Hc. by right.
Qed.

Lemma operation_commit_leaves t k rop c :
  operation_commit rop = Ok c → key_Namespace k ≠ Namespace (o_Meta (op_Resource rop)) →
  leaves t k (commit_fn c).
Proof.
  unfold operation_commit. intros Hc Hk.
  destruct (op_Operation rop); simplify_eq; simpl; try (by apply AnnotateIfExists_leaves);
    eapply all_ops_leaves; try exact Hk.
  - apply CreateOrUpdate_writes.
  - apply CreateOrRecreate_writes.
  - apply CreateIfNotExists_writes.
  - apply DeleteIfExists_writes.
Qed.

Lemma delete_commit_leaves t k o : (t, k) ≠ (TypeOf o, object_key o) → leaves t k (commit_fn (delete_commit o)).
Proof.
  intros Hne w. simpl. unfold DeleteIfExists. run_step.
  destruct (server_write_other o w t k Hne) as [_ Hd]. rewrite <-(Hd None).
  call_case [[?|e] w1]; [done|]. by case_match.
Qed.

(** An object that no operation of the rollout can reach, because it is in another
    namespace than all of theirs, and that the workload does not own. *)
Definition out_of_reach (ro : Rollout) (w : W) (t : GoType) (k : ObjectKey) : Prop :=
  (∀ op, op ∈ ro_ResourceOperations ro → Namespace (o_Meta (op_Resource op)) ≠ key_Namespace k) ∧
  ∀ o, stored w t k = Some o → ∀ r, r ∈ ownerRefs (o_Meta o) → or_UID r ≠ UID (src_Meta (ro_Source ro)).

Lemma Sync_leaves n cache ro (w : W) t k :
  out_of_reach ro w t k → stored (run (Sync n cache ro) w).2 t k = stored w t k.
Proof.
  intros [Hns Hown]. unfold Sync. run_step.
  assert (Hcommits : ∀ cs cache' w', run (ClusterOperations n cache ro) w = ((cs, cache'), w') →
    ∀ c, c ∈ cs → leaves t k (commit_fn c)).
  2: { pose proof (read_only_run (ClusterOperations n cache ro) w (ClusterOperations_reads n cache ro) t k) as Hr.
       destruct (run (ClusterOperations n cache ro) w) as [[cs cache'] w'] eqn:E. run_step.
       pose proof (rollout_leaves t k cs (Hcommits _ _ _ eq_refl) w') as Hl.
       destruct (run (rolloutWithRetryAndMetrics cs) w') as [r w'']. simpl in *. congruence. }
  intros cs cache' w'. unfold ClusterOperations.
  destruct (operation_commits _ _ _ _) as [[funcs|c] cache1] eqn:Hops; simpl.
  2: { intros [= <- <- <-] c' ->%list_elem_of_singleton.
       apply operation_commits_err in Hops as (rop & _ & ->). by intros v. }
  apply operation_commits_ok in Hops as (new & -> & Hall). simpl. unfold Unreferenced. run_step.
  pose proof (FindAll_spec (sync_listers n) (ro_Source ro) w) as Hfound.
  intros Hrun c Hc.
  assert (Hnew : ∀ c, c ∈ new → leaves t k (commit_fn c)).
  { intros c' Hc'. apply list_elem_of_lookup_1 in Hc' as [i Hi].
    destruct (Forall2_lookup_r _ _ _ _ _ Hall Hi) as (rop & Hrop & Hok).
    eapply operation_commit_leaves; [exact Hok|]. apply not_eq_sym, Hns. by eapply list_elem_of_lookup_2. }
  destruct (run (FindAll _ _) w) as [[objs|e] w1]; simpl in *; simplify_eq.
  - apply elem_of_app in Hc as [Hc|Hc]; [|by apply Hnew].
    apply list_elem_of_fmap in Hc as (o & -> & [_ Hin]%list_elem_of_filter).
    apply delete_commit_leaves. intros [= -> ->]. destruct (Hfound objs eq_refl) as (req & _ & Hspec).
    apply Hspec in Hin as ((_ & Hst & _) & r & Hr & Hu).
    by eapply (Hown o Hst r).
  - apply elem_of_cons in Hc as [->|Hc]; [by intros v|by apply Hnew].
Qed.
End confinement.

(** ** Which statuses are written *)

Section statuses.
Context `{L : Liberator} `{AM : ApiMachinery} `{F : FinalizerLib} `{G : Generator}.

#[local] Create HintDb statuses.

Abbreviation statuses := (all_ops (fun X e => status_of_workload e)).

Lemma status_of_source s : status_of_workload (UpdateStatus (source_object s)).
Proof. exists s. apply object_source_object. Qed.

Lemma writes_statuses ns {A} (p : prog A) : all_ops (fun X e => writes_in ns e = true) p → statuses p.
Proof. apply all_ops_impl. by destruct e. Qed.

Lemma operation_commit_statuses rop c : operation_commit rop = Ok c → statuses (commit_fn c).
Proof.
  unfold operation_commit. intros Hc. destruct (op_Operation rop); simplify_eq; simpl.
  - eapply writes_statuses, CreateOrUpdate_writes.
  - eapply writes_statuses, CreateOrRecreate_writes.
  - eapply writes_statuses, CreateIfNotExists_writes.
  - eapply writes_statuses, DeleteIfExists_writes.
  - unfold Updater.AnnotateIfExists. solve_ops.
Qed.

Lemma ClusterOperations_commits n cache ro :
  all_rets (fun r => Forall (fun c => statuses (commit_fn c)) r.1) (ClusterOperations n cache ro).
Proof.
  unfold ClusterOperations. destruct (operation_commits _ _ _ _) as [[funcs|c] cache1] eqn:Hops.
  - apply all_rets_bind. intros r. constructor. apply operation_commits_ok in Hops as (new & -> & Hall).
    apply Forall_app. split.
    + destruct r as [rs|e]; [|repeat constructor]. apply Forall_fmap, Forall_forall. intros o _.
      eapply writes_statuses, DeleteIfExists_writes.
    + apply Forall_forall. intros c Hc. apply list_elem_of_lookup_1 in Hc as [i Hi].
      destruct (Forall2_lookup_r _ _ _ _ _ Hall Hi) as (rop & _ & Hok). by eapply operation_commit_statuses.
  - constructor. apply operation_commits_err in Hops as (rop & _ & ->). repeat constructor.
Qed.

Lemma rollout_statuses cs : Forall (fun c => statuses (commit_fn c)) cs → statuses (rolloutWithRetryAndMetrics cs).
Proof. induction 1; simpl; [constructor|]. solve_ops. Qed.

Lemma Sync_statuses n cache ro : statuses (Sync n cache ro).
Proof.
  unfold Sync. eapply all_ops_bind_rets; [|apply ClusterOperations_commits|].
  - apply read_status_of_workload, ClusterOperations_reads.
  - intros [cs cache'] Hcs. apply all_ops_mbind; [by apply rollout_statuses|solve_ops].
Qed.

(** The lemmas above, tried before a call is unfolded. *)
Ltac solve_statuses :=
  repeat first [ solve [auto with statuses nocore] | ops_step ].

#[local] Hint Resolve status_of_source Sync_statuses : statuses.

Lemma reportEvent_statuses ev : statuses (reportEvent ev).
Proof.
  assert (∀ e r l, statuses (update_same_message e r l)) by (induction l; simpl; solve_ops).
  unfold reportEvent. solve_ops.
Qed.
#[local] Hint Resolve reportEvent_statuses : statuses.

Lemma reportError_statuses src e s : statuses (reportError src e s).
Proof. unfold reportError. solve_statuses. Qed.
#[local] Hint Resolve reportError_statuses : statuses.

Lemma deferred_update_statuses app : statuses (deferred_update app).
Proof.
  unfold deferred_update, UpdateResource, persist_status, update_status, update_source, get_source.
  solve_statuses.
Qed.

Lemma synchronize_statuses `{!GeneratorNoStatus G} n cache app : statuses (synchronize n cache app).
Proof.
  unfold synchronize, after_sync. apply all_ops_mbind; [apply read_status_of_workload, Prepare_reads|].
  solve_statuses.
Qed.
#[local] Hint Resolve deferred_update_statuses synchronize_statuses : statuses.

Lemma Reconcile_statuses `{!GeneratorNoStatus G} n cache k key : statuses (Reconcile n cache k key).
Proof.
  unfold Reconcile, reconcile_body, cleanUpAfterAppDeletion, deleteCNRMResources, delete_listed,
    deleteImageResource, update_source, get_source.
  solve_statuses.
Qed.
End statuses.

(** ** The commits of a rollout *)

Section commits.
Context `{L : Liberator} `{AM : ApiMachinery} `{F : FinalizerLib} `{G : Generator}.
Context {W : Type} `{ApiServerLaws W}.

(** The leftovers of a rollout: what the workload owns, of a type that is looked
    for and with the workload's label, and no operation mentions any more. *)
Definition unwanted n (ro : Rollout) (w : W) (o : Object) : Prop :=
  TypeOf o ∈ sync_listers n ∧ stored w (TypeOf o) (object_key o) = Some o ∧
  HasLabel (o_Meta o) ("app", GetName (ro_Source ro)) ∧
  (∃ r, r ∈ ownerRefs (o_Meta o) ∧ or_UID r = UID (src_Meta (ro_Source ro))) ∧
  ∀ rop, rop ∈ ro_ResourceOperations ro → TypeOf (op_Resource rop) = TypeOf o →
    Name (o_Meta (op_Resource rop)) ≠ Name (o_Meta o).

Lemma ClusterOperations_spec `{!ApiMachineryLaws AM} n cache ro (w : W) commits cache' w' :
  run (ClusterOperations n cache ro) w = ((commits, cache'), w') →
  (∀ t k, stored w' t k = stored w t k) ∧
  ((∃ rop, rop ∈ ro_ResourceOperations ro ∧ commits = [no_such_operation (op_Operation rop)]) ∨
   ∃ deletes funcs,
     commits = deletes ++ funcs ∧
     Forall2 (fun rop c => operation_commit rop = Ok c) (ro_ResourceOperations ro) funcs ∧
     ((∃ e, deletes = [mkCommit (mkGVK "" "" "")
                         (Ret (Err (Textf "unable to clean up obsolete resources: " e)))]) ∨
      ∃ os, deletes = map delete_commit os ∧ ∀ o, o ∈ os ↔ unwanted n ro w o)).
Proof.
  intros Hrun. split.
  { pose proof (read_only_run (ClusterOperations n cache ro) w (ClusterOperations_reads n cache ro)).
    by rewrite Hrun in *. }
  revert Hrun. unfold ClusterOperations.
  destruct (operation_commits _ _ _ _) as [[funcs|c] cache1] eqn:Hops; simpl.
  2: { intros; simplify_eq. left. apply operation_commits_err in Hops as (rop & ? & ->). eauto. }
  apply operation_commits_ok in Hops as (new & -> & Hall). simpl. unfold Unreferenced. run_step.
  pose proof (FindAll_spec (sync_listers n) (ro_Source ro) w) as Hfound.
  destruct (run (FindAll _ _) w) as [[objs|e] w1]; simpl in *; intros; simplify_eq; right.
  - destruct (Hfound objs eq_refl) as (req & Hreq & Hspec). apply NewRequirement_ok in Hreq as ->.
    eexists _, new. split_and!; [done..|right]. eexists. split; [done|]. intros o.
    rewrite list_elem_of_filter, Hspec, intersects_false. unfold unwanted. naive_solver.
  - eexists [_], new. split_and!; [done..|left; by eexists].
Qed.
End commits.

(** ** Executing commits: the specification *)

Section execution.
Context {W : Type} `{ApiServer W}.

(** A rollout executes its commits in order up to the first that fails: the
    failed commit and its error, or [None] when all succeeded. *)
Inductive commits_exec : list commit → W → option (commit * error) → W → Prop :=
| exec_nil w : commits_exec [] w None w
| exec_fail c cs w e w' : run (commit_fn c) w = (Err e, w') → commits_exec (c :: cs) w (Some (c, e)) w'
| exec_step c cs w w1 r w' :
    run (commit_fn c) w = (Ok tt, w1) → commits_exec cs w1 r w' → commits_exec (c :: cs) w r w'.

(** A rollout without an error executed all its commits. *)
Lemma rollout_success cs w b w' :
  run (rolloutWithRetryAndMetrics cs) w = ((b, None), w') → commits_exec cs w None w'.
Proof.
  revert w. induction cs as [|c cs IH]; intros w; simpl; [intros [= _ <-]; constructor|].
  run_step. destruct (run (commit_fn c) w) as [[[]|e] w1] eqn:Hc; [|by destruct (commit_failure c e)].
  intros Hrun. by eapply exec_step, IH.
Qed.
End execution.

(** ** Properties *)

Section properties.
Context `{L : Liberator} `{AM : ApiMachinery} `{F : FinalizerLib} `{G : Generator}.
Context {W : Type} `{ApiServerLaws W}.

(** Prepare is read-only, as its comment says: with a generator that does
    not use the status writer, it leaves every object of the cluster unchanged,
    whether it succeeds or fails. *)
Lemma Prepare_is_read_only `{!GeneratorNoStatus G} n source (w : W) :
  ∀ t k, stored (run (Prepare n source) w).2 t k = stored w t k.
Proof. by apply read_only_run, Prepare_reads. Qed.

(** C3. A rollout deletes exactly what the workload owns and no longer wants.
    Building the commits changes nothing in the cluster. When every operation is
    known the commits are, in this order, one deletion for each leftover in the
    cluster, no more and no less, and then one commit per operation of the
    rollout, in its order; a failed listing is reported by one commit in the place of
    the deletions, and an unknown operation yields a single failing commit. *)
Theorem ClusterOperations_deletes_exactly `{!ApiMachineryLaws AM} n cache ro (w : W) commits cache' w' :
  run (ClusterOperations n cache ro) w = ((commits, cache'), w') →
  (∀ t k, stored w' t k = stored w t k) ∧
  ((∃ rop, rop ∈ ro_ResourceOperations ro ∧ commits = [no_such_operation (op_Operation rop)]) ∨
   ∃ deletes funcs,
     commits = deletes ++ funcs ∧
     Forall2 (fun rop c => operation_commit rop = Ok c) (ro_ResourceOperations ro) funcs ∧
     ((∃ e, deletes = [mkCommit (mkGVK "" "" "")
                         (Ret (Err (Textf "unable to clean up obsolete resources: " e)))]) ∨
      ∃ os, deletes = map delete_commit os ∧ ∀ o, o ∈ os ↔ unwanted n ro w o)).
Proof. apply ClusterOperations_spec. Qed.

(** C2. Executing a rollout refines its specification: on every cluster the
    commits run in order, execution stops at the first commit that fails, and
    the rollout is to be retried exactly when that failure is a conflict. *)
Theorem rollout_refines commits (w : W) :
  ∃ r, commits_exec commits w r (run (rolloutWithRetryAndMetrics commits) w).2 ∧
    match r with
    | None => (run (rolloutWithRetryAndMetrics commits) w).1 = (false, None)
    | Some (c, e) => ∃ msg, (run (rolloutWithRetryAndMetrics commits) w).1 = (IsConflict e, Some msg)
    end.
Proof.
  revert w. induction commits as [|c cs IH]; intros w; simpl.
  - exists None. split; [constructor|done].
  - run_step. destruct (run (commit_fn c) w) as [[[]|e] w1] eqn:Hc; simpl.
    + destruct (IH w1) as (r & Hr & Hm). exists r. split; [by econstructor|done].
    + exists (Some (c, e)). split; [by constructor|]. eauto.
Qed.

(** A workload whose hash and image are the recorded ones. *)
Lemma skips_unchanged `{!LiberatorStatusLaws L} n cache kind key app app' h i (w : W) :
  (run (get_source kind key) w).1 = Ok app →
  appIsDeleted app = false → ContainsFinalizer (src_Meta app) NaiseratorFinalizer = true →
  ApplyDefaults (clear_status app) = Ok app' →
  Hash app' (AivenGeneration (sync_config n)) = Ok h →
  (run (readonly (getWantedImage app')) (run (get_source kind key) w).2).1 = Ok i →
  imageHasChanged i app' = false → st_SynchronizationHash (src_Status app') = h →
  (∀ t k, stored (run (Reconcile n cache kind key) w).2 t k = stored w t k) ∧
  out_err (run (Reconcile n cache kind key) w).1 = None ∧
  out_RequeueAfter (run (Reconcile n cache kind key) w).1 = 0%Z.
Proof.
  intros Hget Hdel Hfin Hd Hh Hi Himg Hst. unfold Reconcile. run_step.
  pose proof (read_only_run (get_source kind key) w (get_source_reads kind key)) as Hro.
  destruct (run (get_source kind key) w) as [r w1]; simpl in *. subst r.
  unfold reconcile_body.
  change (appIsDeleted (clear_status app)) with (appIsDeleted app).
  change (src_Meta (clear_status app)) with (src_Meta app).
  rewrite Hdel, Hfin. unfold synchronize. run_step.
  pose proof (Prepare_skip n (clear_status app) app' h i w1 Hd Hh Hi Himg Hst) as Hskip.
  assert (Hst2 : ∀ t k, stored (run (Prepare n (clear_status app)) w1).2 t k = stored w1 t k).
  { unfold Prepare. rewrite Hd, Hh. run_step.
    pose proof (read_only_run (readonly (getWantedImage app')) w1
      (readonly_read_only _ (getWantedImage_reads app'))) as Hr.
    destruct (run (readonly _) w1) as [r w2]; simpl in *. subst r.
    by rewrite Himg, bool_decide_eq_true_2. }
  destruct (run (Prepare n _) w1) as [[app2 r2] w2]; simpl in *. simplify_eq. simpl.
  split_and!; [|done..]. intros. by rewrite Hst2, Hro.
Qed.

(** C21. A workload that did not change is left alone: when the read workload
    is not being deleted, has the finalizer, and its hash and wanted image are
    the recorded ones, then reconciling it changes no object of the cluster,
    reports no error and asks for no requeue. *)
Theorem Reconcile_skips_unchanged `{!LiberatorStatusLaws L} n cache kind key app app' h i (w : W) :
  (run (get_source kind key) w).1 = Ok app →
  appIsDeleted app = false → ContainsFinalizer (src_Meta app) NaiseratorFinalizer = true →
  ApplyDefaults (clear_status app) = Ok app' →
  Hash app' (AivenGeneration (sync_config n)) = Ok h →
  (run (readonly (getWantedImage app')) (run (get_source kind key) w).2).1 = Ok i →
  imageHasChanged i app' = false → st_SynchronizationHash (src_Status app') = h →
  (∀ t k, stored (run (Reconcile n cache kind key) w).2 t k = stored w t k) ∧
  out_err (run (Reconcile n cache kind key) w).1 = None ∧
  out_RequeueAfter (run (Reconcile n cache kind key) w).1 = 0%Z.
Proof. intros. by eapply skips_unchanged. Qed.
End properties.

Section status_properties.
Context `{L : Liberator} `{AM : ApiMachinery} `{F : FinalizerLib} `{G : Generator}.
Context `{!LiberatorStatusLaws L} `{!LiberatorHashLaws L}.
Context {W : Type} `{ApiServerLaws W}.

(** C4. Reconciliation settles: when a reconciliation of a workload (one that is not
    being deleted and has the finalizer) asks for nothing more, because it succeeded,
    failed permanently or had nothing to do, and the status it leads to is the one
    stored, then reconciling the same manifest and image again, in whatever state the
    cluster is then, changes no object and reports no error. *)
Theorem Reconcile_settles n cache cache' kind key app app' h i app2 changed out (w w1 w2 : W) :
  ApplyDefaults (clear_status app) = Ok app' → Hash app' (AivenGeneration (sync_config n)) = Ok h →
  appIsDeleted app = false → ContainsFinalizer (src_Meta app) NaiseratorFinalizer = true →
  (run (readonly (getWantedImage app')) w).1 = Ok i →
  run (reconcile_body n cache (clear_status app)) w = ((app2, changed, out), w1) →
  out_err out = None → out_RequeueAfter out = 0%Z →
  let next := set_src_Status (fun st => if (changed : bool) then src_Status app2 else st) app in
  (run (get_source kind key) w2).1 = Ok next →
  (run (readonly (getWantedImage app')) (run (get_source kind key) w2).2).1 = Ok i →
  (∀ t k, stored (run (Reconcile n cache' kind key) w2).2 t k = stored w2 t k) ∧
  out_err (run (Reconcile n cache' kind key) w2).1 = None.
Proof.
  intros Hd Hh Hdel Hfin Hi Hrun He Hreq next Hget Hi2.
  assert (Hsync : run (synchronize n cache (clear_status app)) w = ((app2, changed, out), w1)).
  { revert Hrun. unfold reconcile_body. change (appIsDeleted (clear_status app)) with (appIsDeleted app).
    change (src_Meta (clear_status app)) with (src_Meta app). by rewrite Hdel, Hfin. }
  pose proof (ApplyDefaults_keeps _ _ Hd) as Hkeep. set (st2 := src_Status (clear_status next)).
  assert (Hd2 : ApplyDefaults (clear_status next) = Ok (set_src_Status (fun _ => st2) app')).
  { change (clear_status next) with (set_src_Status (fun _ => st2) (clear_status app)).
    by apply ApplyDefaults_with_status. }
  eassert (Hq : imageHasChanged i (set_src_Status (fun _ => st2) app') = false ∧ st_SynchronizationHash st2 = h).
  { destruct (synchronize_settles _ _ _ _ _ _ _ _ _ _ _ Hd Hh Hi Hsync He Hreq)
      as [(-> & Himg & Hst)|(-> & Himg & Hst)].
    - assert (st2 = src_Status app') as -> by (by rewrite Hkeep).
      assert (set_src_Status (fun _ => src_Status app') app' = app') as -> by (by destruct app'). done.
    - unfold st2, next. simpl. rewrite ClearProblems_hash. split; [|done].
      apply imageHasChanged_same. unfold GetEffectiveImage. simpl. by rewrite ClearProblems_image. }
  destruct Hq as [Himg Hst].
  destruct (skips_unchanged n cache' kind key next _ h i w2 Hget Hdel Hfin Hd2 ltac:(by rewrite Hash_status) Hi2 Himg Hst)
    as (H1 & H2 & _). by split.
Qed.

(** A settled rollout is not repeated: when the rollout that [Prepare] built
    succeeds, or fails with anything but a conflict, [Reconcile] records its hash,
    returns no error and asks for no requeue (and monitors the workload if the rollout
    succeeded); once that status is stored the next [Prepare] of the same manifest
    and image skips it. *)
Lemma settled_rollout_not_repeated n cache app app' h i app1 ro err (w w1 w2 w3 : W) :
  ApplyDefaults app = Ok app' → Hash app' (AivenGeneration (sync_config n)) = Ok h →
  (run (readonly (getWantedImage app')) w).1 = Ok i →
  (run (readonly (getWantedImage app')) w3).1 = Ok i →
  run (Prepare n app) w = ((app1, Ok (Some ro)), w1) →
  ∃ app2 out, (run (after_sync cache (set_src_Status (SetCorrelationID (ro_CorrelationID ro)) app1)
                      (ro_SynchronizationHash ro) false err) w2).1 = (app2, true, out) ∧
    out_err out = None ∧ out_RequeueAfter out = 0%Z ∧
    out_monitor out = (match err with None => Some app2 | Some _ => None end) ∧
    (run (Prepare n (read_back app (src_Status app2))) w3).1.2 = Ok None.
Proof.
  intros Hd Hh Hi Hi3 Hp.
  apply (Prepare_rollout n app app' h i w) in Hp as (Hro & _ & Hst); [|done..].
  destruct (after_sync_settled cache (set_src_Status (SetCorrelationID (ro_CorrelationID ro)) app1)
    (ro_SynchronizationHash ro) err w2) as (app2 & out & Hrun & ? & ? & ? & Himg & Hhash).
  exists app2, out. split_and!; [done..|].
  apply (read_back_skip n app app' _ h i w3); [done..| |congruence].
  rewrite Himg. simpl. by rewrite Hst.
Qed.

(** C38. An externally specified image can be lost: when only the image changed
    since the last synchronization (the recorded hash is still the workload's)
    and the rollout fails with a conflict, [Reconcile] returns the error so that
    it is called again, but the status it stored already names the new image as
    the effective one, so the next [Prepare] skips the workload: the rollout of
    the new image is not retried. *)
Theorem conflict_loses_image n cache app app' h i app1 ro e (w w1 w2 w3 : W) :
  ApplyDefaults app = Ok app' → Hash app' (AivenGeneration (sync_config n)) = Ok h →
  st_SynchronizationHash (src_Status app') = h →
  (run (readonly (getWantedImage app')) w).1 = Ok i →
  (run (readonly (getWantedImage app')) w3).1 = Ok i →
  imageHasChanged i app' = true →
  run (Prepare n app) w = ((app1, Ok (Some ro)), w1) →
  ∃ app2, (run (after_sync cache (set_src_Status (SetCorrelationID (ro_CorrelationID ro)) app1)
                  (ro_SynchronizationHash ro) true (Some e)) w2).1 = (app2, true, failed_with cache e) ∧
    (run (Prepare n (read_back app (src_Status app2))) w3).1.2 = Ok None.
Proof.
  intros Hd Hh Hold Hi Hi3 _ Hp.
  apply (Prepare_rollout n app app' h i w) in Hp as (_ & _ & Hst); [|done..].
  destruct (after_sync_failed cache (set_src_Status (SetCorrelationID (ro_CorrelationID ro)) app1)
    (ro_SynchronizationHash ro) true e w2) as (app2 & Hrun & Himg & Hhash & _).
  exists app2. split; [done|].
  apply (read_back_skip n app app' _ h i w3); [done..| |].
  - rewrite Himg. simpl. by rewrite Hst.
  - rewrite Hhash. simpl. by rewrite Hst.
Qed.

(** The same happens when preparing fails: the thirty-minute requeue of a
    failed [Prepare] finds the new image recorded as effective and skips it. *)
Lemma failed_prepare_loses_image n app app' h i app1 e (w w1 w3 : W) :
  ApplyDefaults app = Ok app' → Hash app' (AivenGeneration (sync_config n)) = Ok h →
  st_SynchronizationHash (src_Status app') = h →
  (run (readonly (getWantedImage app')) w).1 = Ok i →
  (run (readonly (getWantedImage app')) w3).1 = Ok i →
  run (Prepare n app) w = ((app1, Err e), w1) →
  (run (Prepare n (read_back app
     (src_Status (set_error e (set_state events_FailedPrepare e app1))))) w3).1.2 = Ok None.
Proof.
  intros Hd Hh Hold Hi Hi3 Hp.
  apply (Prepare_failed n app app' h i w) in Hp as Hst; [|done..].
  apply (read_back_skip n app app' _ h i w3); [done..| |]; simpl.
  - by rewrite SetError_image, SetState_image, Hst.
  - by rewrite SetError_hash, SetState_hash, Hst.
Qed.
End status_properties.

(** ** Witnesses *)

Section witnesses.
Local Existing Instances sample_machinery sample_liberator list_finalizers sample_liberator_laws.

(** A generator that looks up the namespace and applies one Service. *)
Local Instance sample_generator : Generator := {|
  gen_Options := string;
  gen_Prepare s := o ←! call (Get TNamespace (mkKey "" (GetNamespace s))); Ret (Ok (Name (o_Meta o)));
  gen_Generate s _ :=
    Ok [mkOperation (sample_service (Some [GetOwnerReference s]) "") OperationCreateOrUpdate];
|}.

Local Instance sample_generator_no_status : GeneratorNoStatus sample_generator.
Proof. intros s. simpl. solve_ops. Defined.

Local Instance sample_hash_laws : LiberatorHashLaws sample_liberator.
Proof. split; intros; simpl in *; by simplify_eq. Defined.

Definition sample_sync : Synchronizer := mkSynchronizer sample_config [TDeployment; TService].

(** A workload without an image of its own. *)
Definition imageless_view : AppView :=
  view_of "" ["https://app.nais.io"] [] no_auth plain_platform no_backing.

(** It was synchronized with image [repo/app:1]; the Image resource now says 2. *)
Definition stale_app : Source :=
  mkSource app_gvk (src_Meta sample_app) KApplication imageless_view
    (SetEffectiveImage "repo/app:1" (SetSynchronizationHash ":8080:1" emptyStatus)).

Definition new_image : Object :=
  mkObject (mkGVK "nais.io" "v1" "Image") (src_Meta sample_app) (BImage "repo/app:2").

Definition image_cluster : Mem := mem_of [sample_ns; source_object stale_app; new_image].
Definition empty_cluster : Mem := mem_of [source_object stale_app; new_image].

Definition sample_conflict : error := mkError "conflict" ReasonConflict None.

Lemma Prepare_is_read_only_witness :
  stored (run (Prepare sample_sync stale_app) image_cluster).2 TImage (mkKey "team-a" "myapp") =
  Some new_image.
Proof. rewrite (Prepare_is_read_only sample_sync stale_app image_cluster). reflexivity. Defined.

(** A rollout that no longer wants a Deployment it owns. *)
Definition sample_deployment : Object :=
  mkObject (mkGVK "apps" "v1" "Deployment")
    (SetOwnerReferences (Some [GetOwnerReference sample_app])
       (SetLabels (Some {[ "app" := "myapp"; "team" := "team-a" ]})
          (SetNamespace "team-a" (SetName "myapp" emptyMeta))))
    (BDeployment (mkDeploymentSpec None (mkSelector ∅) RecreateStrategy None None
                    (mkPodTemplate emptyMeta emptyPodSpec)) (mkDeploymentStatus 0 0 0 0)).

Definition sample_rollout : Rollout :=
  mkRollout sample_app [mkOperation (sample_service None "") OperationCreateOrUpdate]
    "team-a" "" "".

Definition unwanted_cluster : Mem := mem_of [sample_ns; sample_deployment; sample_service None ""].

Lemma ClusterOperations_deletes_exactly_witness :
  ∃ r w', run (ClusterOperations sample_sync ∅ sample_rollout) unwanted_cluster = (r, w') ∧
    map commit_GVK r.1 = [o_GVK sample_deployment; o_GVK (sample_service None "")] ∧
    ∀ t k, stored w' t k = stored unwanted_cluster t k.
Proof.
  destruct (run (ClusterOperations sample_sync ∅ sample_rollout) unwanted_cluster)
    as [[commits cache] w'] eqn:Hrun.
  exists (commits, cache), w'. split; [done|]. split.
  - assert (Hc : map commit_GVK (run (ClusterOperations sample_sync ∅ sample_rollout)
      unwanted_cluster).1.1 = [o_GVK sample_deployment; o_GVK (sample_service None "")])
      by (vm_compute; reflexivity).
    by rewrite Hrun in Hc.
  - exact (proj1 (ClusterOperations_deletes_exactly _ _ _ _ _ _ _ Hrun)).
Defined.

(** Reconciling the workload right after its image was synchronized. *)
Definition settled_app : Source :=
  set_src_Status (SetEffectiveImage "repo/app:2") stale_app.
Definition settled_cluster : Mem := mem_of [sample_ns; source_object settled_app; new_image].

Lemma Reconcile_skips_unchanged_witness :
  out_err (run (Reconcile sample_sync ∅ KApplication (mkKey "team-a" "myapp")) settled_cluster).1
    = None.
Proof.
  refine (proj1 (proj2 (Reconcile_skips_unchanged sample_sync ∅ KApplication (mkKey "team-a" "myapp")
    settled_app (clear_status settled_app) ":8080:1" "repo/app:2" settled_cluster _ _ _ _ _ _ _ _)));
    vm_compute; reflexivity.
Defined.

(** Synchronizing the workload whose image was replaced: the new image is recorded,
    and reconciling what is stored then does nothing. *)
Definition settling_run := run (reconcile_body sample_sync ∅ (clear_status stale_app)) image_cluster.

Lemma settling_run_ok :
  (settling_run.1.1.2, out_err settling_run.1.2, out_RequeueAfter settling_run.1.2,
   st_EffectiveImage (src_Status settling_run.1.1.1)) = (true, None, 0%Z, "repo/app:2").
Proof. vm_compute. reflexivity. Qed.

Lemma Reconcile_settles_witness :
  ∃ st, st_EffectiveImage st = "repo/app:2" ∧
    out_err (run (Reconcile sample_sync ∅ KApplication (mkKey "team-a" "myapp"))
      (mem_of [sample_ns; source_object (set_src_Status (fun _ => st) stale_app); new_image])).1 = None.
Proof.
  pose proof settling_run_ok as Hok. destruct settling_run as [[[app2 changed] out] w1] eqn:Hrun.
  simpl in Hok. injection Hok as -> He Hreq Himg. exists (src_Status app2). split; [exact Himg|].
  refine (proj2 (Reconcile_settles sample_sync ∅ ∅ KApplication (mkKey "team-a" "myapp") stale_app
    (clear_status stale_app) ":8080:1" "repo/app:2" app2 true out image_cluster w1
    (mem_of [sample_ns; source_object (set_src_Status (fun _ => src_Status app2) stale_app); new_image])
    _ _ _ _ _ Hrun He Hreq _ _)); vm_compute; reflexivity.
Defined.

(** Preparing the workload with the new image succeeds. *)
Lemma stale_prepared :
  ∃ app1 ro w1, run (Prepare sample_sync stale_app) image_cluster = ((app1, Ok (Some ro)), w1).
Proof. do 3 eexists. vm_compute. reflexivity. Qed.

Lemma settled_rollout_not_repeated_witness :
  ∃ st, (run (Prepare sample_sync (read_back stale_app st)) image_cluster).1.2 = Ok None.
Proof.
  destruct stale_prepared as (app1 & ro & w1 & Hp).
  destruct (settled_rollout_not_repeated sample_sync ∅ stale_app stale_app ":8080:1" "repo/app:2"
    app1 ro None image_cluster w1 w1 image_cluster) as (app2 & out & _ & _ & _ & _ & H);
    [vm_compute; reflexivity..|exact Hp|].
  eexists. exact H.
Defined.

Lemma conflict_loses_image_witness :
  ∃ st, (run (Prepare sample_sync (read_back stale_app st)) image_cluster).1.2 = Ok None.
Proof.
  destruct stale_prepared as (app1 & ro & w1 & Hp).
  destruct (conflict_loses_image sample_sync ∅ stale_app stale_app ":8080:1" "repo/app:2"
    app1 ro sample_conflict image_cluster w1 w1 image_cluster) as (app2 & _ & H);
    [vm_compute; reflexivity..|exact Hp|].
  eexists. exact H.
Defined.

(** The namespace is missing, so preparing fails. *)
Lemma failed_prepare_loses_image_witness :
  ∃ st, (run (Prepare sample_sync (read_back stale_app st)) image_cluster).1.2 = Ok None.
Proof.
  destruct (run (Prepare sample_sync stale_app) empty_cluster) as [[app1 r] w1] eqn:Hp.
  destruct r as [o|e].
  { exfalso. assert (Hr : is_ok (run (Prepare sample_sync stale_app) empty_cluster).1.2 = false)
      by (vm_compute; reflexivity). by rewrite Hp in Hr. }
  eexists.
  refine (failed_prepare_loses_image sample_sync stale_app stale_app ":8080:1" "repo/app:2" app1 e
    empty_cluster w1 image_cluster _ _ _ _ _ Hp); vm_compute; reflexivity.
Defined.
End witnesses.
