(* ===== verification/Rollout.v ===== *)
(** * What a successful rollout achieves

    The operations of [Updater] leave every object but their own alone and, when
    they succeed, see to it that their own is there and comes from what they sent.
    Put together along the commits of [Synchronizer.Sync]: after a rollout without an
    error everything the workload wants is there, as it wants it, and every leftover
    is gone. The events and statuses [Reconcile] writes afterwards change nothing of
    that. *)

From S2P Require Import Prelude GoStrings Kube Api Vendor Cluster MemServer Samples Config Readonly Resource Updater Synchronizer SynchronizerProps.

Section rollout.
Context `{AM : ApiMachinery} {W : Type} `{ApiServerLaws W}.
Implicit Types (r : Object) (t : GoType) (k : ObjectKey) (w : W).

(** An object as generators make them: named, not being deleted, and of a kind the
    scheme knows. *)
Definition plain (r : Object) : Prop :=
  GenerateName (o_Meta r) = "" ∧ DeletionTimestamp (o_Meta r) = None ∧
  scheme_New (o_GVK r) = Ok (TypeOf r).

(** Whatever is stored is not being deleted. *)
Definition calm w t k : Prop := ∀ x, stored w t k = Some x → DeletionTimestamp (o_Meta x) = None.

(** Whatever is stored waits for its finalizers. *)
Definition going w t k : Prop := ∀ x, stored w t k = Some x → Finalizers (o_Meta x) ≠ [].

(** What an update sends for [r]: everything of [r] but the immutable field, the
    owners and the one annotation an update takes over from the stored object. *)
Definition carries r (sent : Object) : Prop :=
  TypeOf sent = TypeOf r ∧ object_key sent = object_key r ∧ Labels (o_Meta sent) = Labels (o_Meta r) ∧
  (∀ a, a ≠ "cnrm.cloud.google.com/state-into-spec" →
     default ∅ (Annotations (o_Meta sent)) !! a = default ∅ (Annotations (o_Meta r)) !! a) ∧
  mutable_part (o_Body sent) = mutable_part (o_Body r).

(** [r]'s object is there, nobody deletes it, and it satisfies [P]. *)
Definition there w r (P : Object → Prop) : Prop :=
  ∃ x, stored w (TypeOf r) (object_key r) = Some x ∧ DeletionTimestamp (o_Meta x) = None ∧ P x.

Lemma there_alive w r P : there w r P → alive w (TypeOf r) (object_key r).
Proof. intros (x & Hx & Hd & _). by exists x. Qed.

Lemma alive_calm w t k : alive w t k → calm w t k.
Proof. intros (o & Ho & Hd) x Hx. congruence. Qed.

Lemma calm_alive w t k x : calm w t k → stored w t k = Some x → alive w t k.
Proof. intros Hc Hx. exists x. auto. Qed.

Lemma alive_stored w w' t k : stored w' t k = stored w t k → alive w t k → alive w' t k.
Proof. intros He (o & Ho & Hd). exists o. by rewrite He. Qed.

Lemma calm_stored w w' t k : stored w' t k = stored w t k → calm w t k → calm w' t k.
Proof. intros He Hc x. rewrite He. apply Hc. Qed.

(** ** Other objects *)

(** A write to the object at [t] and [k]. *)
Definition writes_at t k {X} (e : op X) : Prop :=
  match e with
  | Create o => GenerateName (o_Meta o) = "" ∧ TypeOf o = t ∧ object_key o = k
  | Update o | Delete o _ | Patch o _ => TypeOf o = t ∧ object_key o = k
  | UpdateStatus _ => False
  | _ => True
  end.

Lemma writes_at_leaves t k t' k' {A} (p : prog A) :
  all_ops (fun X e => writes_at t k e) p → (t', k') ≠ (t, k) → leaves t' k' p.
Proof.
  intros Hp Hne w. revert w. induction Hp as [|X e c He _ IH]; intros w; simpl; [done|].
  assert (Hs : stored (handle X e w).2 t' k' = stored w t' k').
  { destruct e as [| |o|o|o d|m o|o| | |]; simpl in He; try (by apply server_read); try done.
    - destruct He as (? & <- & <-). by apply server_create_key.
    - destruct He as (<- & <-). by apply server_write_other.
    - destruct He as (<- & <-). by apply server_write_other.
    - destruct He as (<- & <-). by apply server_patch_other. }
  destruct (handle X e w) as [x w']. by rewrite IH.
Qed.

Lemma read_writes_at t k {A} (p : prog A) : read_only p → all_ops (fun X e => writes_at t k e) p.
Proof. apply all_ops_impl. by intros X []. Qed.

Lemma CopyAnnotation_other m m' key a :
  a ≠ key → default ∅ (Annotations (CopyAnnotation m m' key)) !! a = default ∅ (Annotations m) !! a.
Proof. intros Ha. unfold CopyAnnotation. simpl. case_bool_decide; [by apply lookup_insert_ne|done]. Qed.

(** The prepared update is of the same object, and is not being deleted either. *)
Lemma prepare_update_same r existing pg o :
  prepare_update r existing pg = Ok o →
  carries r o ∧ DeletionTimestamp (o_Meta o) = DeletionTimestamp (o_Meta r).
Proof.
  intros (x & Hx & _ & Hk)%prepare_update_inv. apply CopyImmutable_ok in Hx as (Ht & _ & Hb & _ & Hm).
  assert (∃ refs, o = set_Meta (SetOwnerReferences refs) x) as [refs ->].
  { unfold KeepOwnerReference in Hk. case_match; simplify_eq; [|by eexists].
    exists (OwnerReferences (o_Meta o)). by destruct o as [? [] ?]. }
  unfold carries, TypeOf, object_key, meta_key in *. simpl in *.
  destruct Hm as [-> | ->]; split_and!; try done. intros a Ha. exact (CopyAnnotation_other _ _ _ _ Ha).
Qed.

Lemma CreateOrUpdate_writes_at r :
  plain r → all_ops (fun X e => writes_at (TypeOf r) (object_key r) e) (CreateOrUpdate r).
Proof.
  intros (Hg & _ & Hs). unfold CreateOrUpdate. rewrite Hs. solve_ops; simpl; try done.
  match goal with Hp : prepare_update _ _ _ = Ok _ |- _ =>
    destruct (prepare_update_same _ _ _ _ Hp) as [(? & ? & _) _] end. done.
Qed.

Lemma CreateOrRecreate_writes_at r :
  plain r → all_ops (fun X e => writes_at (TypeOf r) (object_key r) e) (CreateOrRecreate r).
Proof.
  intros (Hg & _ & Hs). unfold CreateOrRecreate, recreate_after_delete. rewrite Hs.
  solve_ops; simpl; try done; apply read_writes_at, wait_deleted_reads.
Qed.

Lemma CreateIfNotExists_writes_at r :
  plain r → all_ops (fun X e => writes_at (TypeOf r) (object_key r) e) (CreateIfNotExists r).
Proof. intros (Hg & _ & _). unfold CreateIfNotExists. solve_ops; simpl; done. Qed.

Lemma DeleteIfExists_writes_at r : all_ops (fun X e => writes_at (TypeOf r) (object_key r) e) (DeleteIfExists r).
Proof. unfold DeleteIfExists. solve_ops; simpl; done. Qed.

Lemma writes_at_commit op c :
  operation_commit op = Ok c → plain (op_Resource op) → op_Operation op ≠ Resource.AnnotateIfExists →
  all_ops (fun X e => writes_at (TypeOf (op_Resource op)) (object_key (op_Resource op)) e) (commit_fn c).
Proof.
  unfold operation_commit. intros Hc Hp Hne. destruct (op_Operation op); simplify_eq; simpl.
  - by apply CreateOrUpdate_writes_at.
  - by apply CreateOrRecreate_writes_at.
  - by apply CreateIfNotExists_writes_at.
  - apply DeleteIfExists_writes_at.
Qed.

(** ** The object of the operation *)

(** A creation that succeeds. *)
Lemma create_there r w y w' :
  plain r → handle _ (Create r) w = (Ok y, w') → there w' r (persisted r).
Proof.
  intros (Hg & Hd & _) Hc. pose proof (server_create_ok r w y) as Hok.
  pose proof (server_create_alive r w y) as Hal. rewrite Hc in Hok, Hal.
  destruct (Hok eq_refl Hg) as (_ & Hst & Hp). destruct (Hal eq_refl Hg Hd) as (z & Hz & Hdz).
  simpl in *. simplify_eq. eexists. by split_and!.
Qed.

(** An update of an object that nobody deletes. *)
Lemma update_there r sent w y w' :
  carries r sent → DeletionTimestamp (o_Meta sent) = None → alive w (TypeOf r) (object_key r) →
  handle _ (Update sent) w = (Ok y, w') → there w' r (λ x, ∃ sent, carries r sent ∧ persisted sent x).
Proof.
  intros Hs Hd Hal Hu. pose proof Hs as (Ht & Hk & _). rewrite <-Ht, <-Hk in Hal.
  pose proof (server_update_persisted sent w y) as Hp. pose proof (server_update_alive sent w Hd Hal) as Hal'.
  rewrite Hu in Hp, Hal'. destruct (Hp eq_refl Hal) as [Hst Hper]. destruct Hal' as (z & Hz & Hdz).
  unfold there. rewrite <-Ht, <-Hk. simpl in *. simplify_eq. eexists. split_and!; [done..|]. by exists sent.
Qed.

Lemma carries_self r : carries r r.
Proof. by split_and!. Qed.

Lemma CreateOrUpdate_achieves r w w' :
  plain r → calm w (TypeOf r) (object_key r) → run (CreateOrUpdate r) w = (Ok tt, w') →
  there w' r (λ x, ∃ sent, carries r sent ∧ persisted sent x).
Proof.
  intros Hplain Hcalm. pose proof Hplain as (Hg & Hd & Hs). unfold CreateOrUpdate. rewrite Hs. run_step.
  pose proof (server_read _ (Get TNamespace (mkKey "" (Namespace (o_Meta r)))) w eq_refl) as Hr.
  call_case [[ns|e] w1]; [|done]. run_step.
  pose proof (server_read _ (Get (TypeOf r) (object_key r)) w1 eq_refl) as Hr1.
  pose proof (server_get_ok (TypeOf r) (object_key r) w1) as Hget.
  call_case [[x|e] w2].
  - specialize (Hget x eq_refl). destruct (prepare_update r x (is_pg_namespace ns)) as [r'|e] eqn:Hp; [|done].
    destruct (prepare_update_same _ _ _ _ Hp) as [Hcar Hdel]. run_step.
    assert (Hal : alive w2 (TypeOf r) (object_key r)).
    { exists x. rewrite Hr1, Hget. split; [done|]. apply Hcalm. by rewrite <-Hr. }
    destruct (handle _ (Update r') w2) as [[y|e] w3] eqn:Hu; [|done]. intros [= <-].
    eapply update_there; [done| |done|exact Hu]. by rewrite Hdel.
  - destruct (IsNotFound e); [|done]. run_step.
    destruct (handle _ (Create r) w2) as [[y|e'] w3] eqn:Hc; [|done]. intros [= <-].
    destruct (create_there r w2 y w3 Hplain Hc) as (z & ? & ? & ?). exists z. split_and!; [done..|].
    exists r. split; [apply carries_self|done].
Qed.

Lemma CreateIfNotExists_achieves r w w' :
  plain r → calm w (TypeOf r) (object_key r) → run (CreateIfNotExists r) w = (Ok tt, w') →
  there w' r (λ x, stored w (TypeOf r) (object_key r) = Some x ∨ persisted r x).
Proof.
  intros Hplain Hcalm. pose proof Hplain as (Hg & Hd & _). unfold CreateIfNotExists. run_step.
  pose proof (server_create_exists r w) as He. pose proof (server_create_err r w) as Hsame.
  destruct (handle _ (Create r) w) as [[y|e] w1] eqn:Hc.
  - intros [= <-]. destruct (create_there r w y w1 Hplain Hc) as (z & ? & ? & ?). exists z. by split_and!; [..|right].
  - destruct (IsAlreadyExists e) eqn:Hex; [|done]. intros [= <-].
    destruct (He e eq_refl Hg Hex) as [x Hx]. exists x. split_and!; [|by apply Hcalm|by left].
    by rewrite (Hsame e eq_refl).
Qed.

Lemma CreateOrRecreate_achieves r w w' :
  plain r → run (CreateOrRecreate r) w = (Ok tt, w') → there w' r (persisted r).
Proof.
  intros Hplain. pose proof Hplain as (Hg & Hd & Hs).
  assert (Hafter : ∀ v, run (recreate_after_delete r) v = (Ok tt, w') → there w' r (persisted r)).
  { intros v. unfold recreate_after_delete. rewrite Hs. run_step. call_case [now v1]. run_step.
    destruct (run (wait_deleted _ _ _ _) v1) as [[[[]|e]|] v2]; [|done|done]. run_step.
    destruct (handle _ (Create r) v2) as [[y|e'] v3] eqn:Hc; [|done]. intros [= <-]. by eapply create_there. }
  unfold CreateOrRecreate. run_step. call_case [[[]|e] w1]; [apply Hafter|].
  destruct (IsNotFound e); [apply Hafter|done].
Qed.

(** The annotations of an object that is there; nothing else is touched. *)
Lemma AnnotateIfExists_keeps r w w' res :
  plain r → run (AnnotateIfExists r) w = (res, w') →
  (∀ t k, (t, k) ≠ (TypeOf r, object_key r) → stored w' t k = stored w t k) ∧
  (calm w (TypeOf r) (object_key r) → calm w' (TypeOf r) (object_key r)) ∧
  (alive w (TypeOf r) (object_key r) → alive w' (TypeOf r) (object_key r)).
Proof.
  intros (_ & _ & Hs) Hrun. revert Hrun. unfold AnnotateIfExists. rewrite Hs. run_step.
  pose proof (server_read _ (Get (TypeOf r) (object_key r)) w eq_refl) as Hr.
  pose proof (server_get_ok (TypeOf r) (object_key r) w) as Hget.
  call_case [[x|e] w1].
  2: { intros Hrun. assert (w' = w1) as -> by (by destruct (IsNotFound e); simpl in Hrun; simplify_eq).
       split_and!; [done| |]; [apply calm_stored|apply alive_stored]; apply Hr. }
  specialize (Hget x eq_refl). pose proof (server_stored_type _ _ _ _ Hget) as [Ht Hk]. run_step.
  set (m := set_Meta _ x). intros Hrun.
  assert (w' = (handle _ (Patch m x) w1).2) as ->.
  { destruct (handle _ (Patch m x) w1) as [[y|e] w2]; simpl in *; [by simplify_eq|].
    destruct (IsNotFound e); simpl in Hrun; by simplify_eq. }
  assert (TypeOf m = TypeOf r) as Htm by done. assert (object_key m = object_key r) as Hkm by (by rewrite <-Hk).
  assert (Hal : calm w (TypeOf r) (object_key r) → alive (handle _ (Patch m x) w1).2 (TypeOf r) (object_key r)).
  { intros Hc. rewrite <-Htm, <-Hkm. apply server_patch_alive; [exact (Hc x Hget)|].
    rewrite Htm, Hkm. exists x. rewrite Hr. split; [done|by apply Hc]. }
  split_and!.
  - intros t k Hne. rewrite server_patch_other by (by rewrite Htm, Hkm). apply Hr.
  - intros Hc. by apply alive_calm, Hal.
  - intros Ha. by apply Hal, alive_calm.
Qed.
End rollout.

(** ** Along a rollout *)

Section sync.
Context `{L : Liberator} `{AM : ApiMachinery} `{!ApiMachineryLaws AM} `{F : FinalizerLib} `{G : Generator}.
Context {W : Type} `{ApiServerLaws W}.
Implicit Types (op : Operation) (w : W).

(** Where an operation works, and whether it is to bring its object about. *)
Definition op_at (op : Operation) : GoType * ObjectKey := (TypeOf (op_Resource op), object_key (op_Resource op)).

Definition creates (op : Operation) : Prop :=
  op_Operation op ∈ [OperationCreateOrUpdate; OperationCreateOrRecreate; OperationCreateIfNotExists].

Lemma commit_other op c t k :
  operation_commit op = Ok c → plain (op_Resource op) → (t, k) ≠ op_at op → leaves t k (commit_fn c).
Proof.
  intros Hc Hp Hne. destruct (op_Operation op) eqn:Hop;
    try (eapply writes_at_leaves; [by eapply writes_at_commit; rewrite ?Hop|done]).
  unfold operation_commit in Hc. rewrite Hop in Hc. simplify_eq. intros w. simpl.
  destruct (run (Updater.AnnotateIfExists _) w) as [r w'] eqn:E. by apply (AnnotateIfExists_keeps _ _ _ _ Hp E).
Qed.

Lemma commit_achieves op c w w' t k :
  operation_commit op = Ok c → plain (op_Resource op) → op_Operation op ≠ OperationDeleteIfExists →
  op_at op = (t, k) → calm w t k → run (commit_fn c) w = (Ok tt, w') →
  calm w' t k ∧ (creates op ∨ alive w t k → alive w' t k).
Proof.
  unfold operation_commit, creates. intros Hc Hp Hdel [= <- <-] Hcalm Hrun.
  destruct (op_Operation op); simplify_eq; simpl in Hrun.
  - apply CreateOrUpdate_achieves, there_alive in Hrun; [|done..]. split; [by apply alive_calm|done].
  - apply CreateOrRecreate_achieves, there_alive in Hrun; [|done..]. split; [by apply alive_calm|done].
  - apply CreateIfNotExists_achieves, there_alive in Hrun; [|done..]. split; [by apply alive_calm|done].
  - destruct (AnnotateIfExists_keeps _ _ _ _ Hp Hrun) as (_ & Hc & Ha). split; [by apply Hc|].
    intros [Hin|?]; [set_solver|by apply Ha].
Qed.

(** The commits of the operations bring about what they create. *)
Lemma commits_achieve ops funcs w w' t k :
  Forall2 (fun op c => operation_commit op = Ok c) ops funcs →
  Forall (fun op => plain (op_Resource op)) ops →
  (∀ op, op ∈ ops → op_Operation op = OperationDeleteIfExists → op_at op ≠ (t, k)) →
  commits_exec funcs w None w' → calm w t k →
  (∃ op, op ∈ ops ∧ op_at op = (t, k) ∧ creates op) ∨ alive w t k → alive w' t k.
Proof.
  intros Hall. revert w. induction Hall as [|op c ops funcs Hc _ IH]; intros w Hp Hdel Hexec Hcalm Hcr.
  { inversion Hexec; subst. destruct Hcr as [(? & ?%elem_of_nil & _)|]; done. }
  apply Forall_cons in Hp as [Hp Hps]. inversion Hexec as [| |? ? ? w1 ? ? Hrun Hrest]; subst.
  assert (Hdels : ∀ op', op' ∈ ops → op_Operation op' = OperationDeleteIfExists → op_at op' ≠ (t, k))
    by (intros; apply Hdel; [by right|done]).
  destruct (decide (op_at op = (t, k))) as [Hat|Hat].
  - destruct (commit_achieves op c w w1 t k Hc Hp) as [Hcalm1 Hal1]; try done.
    { intros Hd. apply (Hdel op); [by left|done..]. }
    apply (IH w1); try done. destruct Hcr as [(op' & [->|Hin]%elem_of_cons & Hat' & Hcr)|Hal]; auto. left. eauto.
  - assert (Hst : stored w1 t k = stored w t k).
    { pose proof (commit_other op c t k Hc Hp (not_eq_sym Hat) w) as Hl. by rewrite Hrun in Hl. }
    apply (IH w1); [done..|by apply (calm_stored w)|].
    destruct Hcr as [(op' & [->|Hin]%elem_of_cons & Hat' & Hcr)|Hal]; [done|left; eauto|right].
    by apply (alive_stored w).
Qed.

(** They leave everything else alone. *)
Lemma commits_other ops funcs w w' t k :
  Forall2 (fun op c => operation_commit op = Ok c) ops funcs →
  Forall (fun op => plain (op_Resource op)) ops → (∀ op, op ∈ ops → op_at op ≠ (t, k)) →
  commits_exec funcs w None w' → stored w' t k = stored w t k.
Proof.
  intros Hall. revert w. induction Hall as [|op c ops funcs Hc _ IH]; intros w Hp Hne Hexec.
  { by inversion Hexec. }
  apply Forall_cons in Hp as [Hp Hps]. inversion Hexec as [| |? ? ? w1 ? ? Hrun Hrest]; subst.
  rewrite (IH w1); [|done| |done]; [|intros; apply Hne; by right].
  pose proof (commit_other op c t k Hc Hp (not_eq_sym (Hne op ltac:(by left))) w) as Hl. by rewrite Hrun in Hl.
Qed.

(** What an operation that creates its object has brought about between [w] and [w']:
    the object is there, nobody deletes it, and it comes from what the operation is to
    write; [CreateIfNotExists] is content with what was there. *)
Definition delivered op (w w' : W) : Prop :=
  let r := op_Resource op in
  there w' r (λ x,
    match op_Operation op with
    | OperationCreateOrUpdate => ∃ sent, carries r sent ∧ persisted sent x
    | OperationCreateOrRecreate => persisted r x
    | OperationCreateIfNotExists => stored w (TypeOf r) (object_key r) = Some x ∨ persisted r x
    | _ => False
    end).

Lemma delivered_stored op w v w' v' :
  stored w (op_at op).1 (op_at op).2 = stored v (op_at op).1 (op_at op).2 →
  stored w' (op_at op).1 (op_at op).2 = stored v' (op_at op).1 (op_at op).2 →
  delivered op v v' → delivered op w w'.
Proof. unfold op_at, delivered, there. simpl. intros -> ->. done. Qed.

Lemma commit_delivers op c w w' :
  operation_commit op = Ok c → plain (op_Resource op) → creates op →
  calm w (op_at op).1 (op_at op).2 → run (commit_fn c) w = (Ok tt, w') → delivered op w w'.
Proof.
  unfold operation_commit, creates, delivered. intros Hc Hp Hcr Hcalm Hrun.
  destruct (op_Operation op); simplify_eq; simpl in Hrun; try set_solver.
  - by apply CreateOrUpdate_achieves in Hrun.
  - by apply CreateOrRecreate_achieves in Hrun.
  - by apply CreateIfNotExists_achieves in Hrun.
Qed.

(** The only operation on its object delivers it. *)
Lemma commits_deliver pre op post funcs w w' :
  Forall2 (fun op c => operation_commit op = Ok c) (pre ++ op :: post) funcs →
  Forall (fun op => plain (op_Resource op)) (pre ++ op :: post) → creates op →
  (∀ op', op' ∈ pre ++ post → op_at op' ≠ op_at op) →
  commits_exec funcs w None w' → calm w (op_at op).1 (op_at op).2 → delivered op w w'.
Proof.
  revert funcs w. induction pre as [|op' pre IH]; intros funcs w Hall Hp Hcr Hne Hexec Hcalm;
    simpl in *; apply Forall_cons in Hp as [Hp Hps];
    apply Forall2_cons_inv_l in Hall as (c & cs & Hc & Hall & ->);
    inversion Hexec as [| |? ? ? w1 ? ? Hrun Hrest]; subst.
  - apply (delivered_stored op w w w' w1); [done| |by eapply commit_delivers].
    apply (commits_other post cs); [done..| |done]. intros op' Hop'. destruct (op_at op) eqn:E. by apply Hne.
  - assert (Hst : stored w1 (op_at op).1 (op_at op).2 = stored w (op_at op).1 (op_at op).2).
    { pose proof (commit_other op' c (op_at op).1 (op_at op).2 Hc Hp) as Hl. specialize (Hl ltac:(
        rewrite <-surjective_pairing; apply not_eq_sym, Hne; by left) w). by rewrite Hrun in Hl. }
    apply (delivered_stored op w w1 w' w'); [done..|]. apply (IH cs); try done.
    + intros op'' Hin. apply Hne. by right.
    + by apply (calm_stored w).
Qed.

Lemma delete_commit_going o w w' :
  run (commit_fn (delete_commit o)) w = (Ok tt, w') → going w' (TypeOf o) (object_key o).
Proof.
  simpl. unfold DeleteIfExists. run_step. pose proof (server_delete_gone o None w) as Hg.
  pose proof (server_delete_notfound o None w) as Hn.
  call_case [[[]|e] w1]; [intros [= <-]; exact (Hg eq_refl)|].
  destruct (IsNotFound e) eqn:He; [|done]. intros [= <-] x. by rewrite (Hn e eq_refl He).
Qed.

(** Deletions remove what they are about and nothing else. *)
Lemma deletes_going os cs w w' :
  commits_exec (map delete_commit os ++ cs) w None w' →
  ∃ w1, commits_exec cs w1 None w' ∧
    (∀ o, o ∈ os → going w1 (TypeOf o) (object_key o)) ∧
    (∀ t k, (∀ o, o ∈ os → (t, k) ≠ (TypeOf o, object_key o)) → stored w1 t k = stored w t k).
Proof.
  revert w. induction os as [|o os IH]; intros w; simpl.
  { intros Hexec. exists w. split_and!; [done|by intros o ?%elem_of_nil|done]. }
  intros Hexec. inversion Hexec as [| |? ? ? w1 ? ? Hrun Hrest]; subst.
  destruct (IH w1 Hrest) as (w2 & Hexec2 & Hgo & Hkeep). exists w2.
  assert (Hst : ∀ t k, (t, k) ≠ (TypeOf o, object_key o) → stored w1 t k = stored w t k).
  { intros t k Hne. pose proof (delete_commit_leaves t k o Hne w) as Hl. by rewrite Hrun in Hl. }
  split_and!; [done| |].
  - intros o' [->|Hin]%elem_of_cons; [|by apply Hgo]. intros x.
    destruct (decide (Exists (fun o' => (TypeOf o', object_key o') = (TypeOf o, object_key o)) os)) as [Hex|Hex].
    + apply Exists_exists in Hex as (o' & Hin & Heq). apply pair_eq in Heq as [<- <-]. by apply Hgo.
    + rewrite Hkeep; [by apply (delete_commit_going o w w1)|]. intros o' Hin Heq.
      apply Hex, Exists_exists. by exists o'.
  - intros t k Hne. rewrite Hkeep by (intros; apply Hne; by right). apply Hst, Hne. by left.
Qed.

(** A successful rollout achieves the desired state: when a rollout of operations
    on known kinds ends without an error, then every object it was to create or update
    is in the cluster and not being deleted, unless an operation of its own
    deletes it, and as its operation wants it, unless another operation is on the same
    object; and every leftover of the workload is gone or only waits for its finalizers. *)
Lemma Sync_achieves n cache cache' ro w w' b :
  Forall (fun op => plain (op_Resource op)) (ro_ResourceOperations ro) →
  (∀ op, op ∈ ro_ResourceOperations ro → calm w (op_at op).1 (op_at op).2) →
  run (Sync n cache ro) w = ((b, None, cache'), w') →
  (∀ op, op ∈ ro_ResourceOperations ro → creates op →
     (∀ op', op' ∈ ro_ResourceOperations ro → op_Operation op' = OperationDeleteIfExists → op_at op' ≠ op_at op) →
     alive w' (op_at op).1 (op_at op).2) ∧
  (∀ pre op post, ro_ResourceOperations ro = pre ++ op :: post → creates op →
     (∀ op', op' ∈ pre ++ post → op_at op' ≠ op_at op) → delivered op w w') ∧
  (∀ o, unwanted n ro w o → going w' (TypeOf o) (object_key o)).
Proof.
  intros Hplain Hcalm. unfold Sync. run_step.
  destruct (run (ClusterOperations n cache ro) w) as [[commits cache1] w0] eqn:Hops.
  apply ClusterOperations_spec in Hops as [Hsame Hcases]. run_step.
  destruct (run (rolloutWithRetryAndMetrics commits) w0) as [[b' err] w1] eqn:Hroll. intros [= -> -> <- <-].
  apply rollout_success in Hroll.
  destruct Hcases as [(rop & _ & ->)|(deletes & funcs & -> & Hall & [(e & ->)|(os & -> & Hos)])].
  { inversion Hroll; subst. simpl in *. congruence. }
  { inversion Hroll; subst. simpl in *. congruence. }
  apply deletes_going in Hroll as (w2 & Hexec & Hgo & Hkeep).
  assert (Hdis : ∀ op o, op ∈ ro_ResourceOperations ro → o ∈ os → op_at op ≠ (TypeOf o, object_key o)).
  { intros op o Hop (_ & _ & _ & _ & Hnot)%Hos Heq. injection Heq as Ht _ Hk. by apply (Hnot op Hop Ht). }
  assert (Hkept : ∀ op, op ∈ ro_ResourceOperations ro →
      stored w (op_at op).1 (op_at op).2 = stored w2 (op_at op).1 (op_at op).2).
  { intros op Hop. rewrite Hkeep; [by rewrite Hsame|]. intros o Ho.
    rewrite <-surjective_pairing. by apply Hdis. }
  split_and!.
  - intros op Hop Hcr Hdel. apply (commits_achieve (ro_ResourceOperations ro) funcs w2); [done|done| |done| |].
    + intros op' Hop' Hd Heq. apply (Hdel op' Hop' Hd). by rewrite Heq; destruct (op_at op).
    + apply (calm_stored w); [by rewrite Hkept|by apply Hcalm].
    + left. exists op. by destruct (op_at op).
  - intros pre op post Heq Hcr Hne. assert (Hop : op ∈ ro_ResourceOperations ro) by (rewrite Heq; set_solver).
    apply (delivered_stored op w w2 w1 w1); [by apply Hkept|done|]. rewrite Heq in Hall, Hplain.
    apply (commits_deliver pre op post funcs); [done..|].
    apply (calm_stored w); [by rewrite Hkept|by apply Hcalm].
  - intros o Ho x.
    rewrite (commits_other _ _ w2 _ _ _ Hall Hplain (fun op Hop => Hdis op o Hop (proj2 (Hos o) Ho)) Hexec).
    apply Hgo. by apply Hos.
Qed.
End sync.

(** ** Around the rollout *)

(** What [Reconcile] writes besides the resources: events and the workload. *)
Definition reported : list GoType := [TEvent; TApplication; TNaisjob].

Definition aside {X} (e : op X) : Prop :=
  match e with
  | Create o | Update o => TypeOf o ∈ reported
  | UpdateStatus o => is_Some (object_source o)
  | Delete _ _ | Patch _ _ => False
  | _ => True
  end.

Section aside.
Context `{L : Liberator} `{AM : ApiMachinery} {W : Type} `{ApiServerLaws W}.
Implicit Types (t : GoType) (k : ObjectKey) (w : W).

Lemma source_reported s : TypeOf (source_object s) ∈ reported.
Proof. unfold TypeOf, source_object. simpl. destruct (src_Kind s); set_solver. Qed.

Lemma aside_run {A} (p : prog A) w t k :
  all_ops (fun X e => aside e) p → t ∉ reported →
  stored (run p w).2 t k = stored w t k.
Proof.
  intros Hp Ht. revert w. induction Hp as [|X e c He _ IH]; intros w; simpl; [done|].
  assert (Hs : stored (handle X e w).2 t k = stored w t k).
  { destruct e as [| |o|o|o d|m o|o| | |]; simpl in He; try (by apply server_read); try done.
    - apply server_create_other. left. by intros ->.
    - apply (server_write_other o w t k). by intros [= -> _].
    - destruct He as [s Hs]. rewrite <-(source_object_source _ _ Hs). apply server_status_other.
      intros [= -> _]. apply Ht. apply source_reported. }
  destruct (handle X e w) as [x w']. by rewrite IH.
Qed.

Abbreviation asides := (all_ops (fun X e => aside e)).

Lemma source_aside s : aside (Update (source_object s)).
Proof. apply source_reported. Qed.

Lemma status_aside s : aside (UpdateStatus (source_object s)).
Proof. exists s. apply object_source_object. Qed.

Lemma update_same_message_asides e r l : TypeOf e = TEvent → asides (update_same_message e r l).
Proof.
  intros He. induction l as [|o l IH]; simpl; [apply all_ops_call; simpl; rewrite He; by left|].
  repeat case_match; try done. apply all_ops_call. simpl. by left.
Qed.

Lemma reportEvent_asides e : asides (reportEvent e).
Proof.
  unfold reportEvent. destruct (event_body e) as [r|] eqn:Hr; [|constructor].
  assert (TypeOf e = TEvent) by (unfold event_body, TypeOf in *; by destruct (o_Body e)).
  destruct (ParseSelector _) as [sel|err]; [|constructor]. apply all_ops_mbind; [by apply all_ops_call|].
  intros [items|err]; [by apply update_same_message_asides|].
  case_match; [by apply update_same_message_asides|constructor].
Qed.

Lemma reportError_asides src e s : asides (reportError src e s).
Proof.
  unfold reportError. apply all_ops_mbind; [by apply all_ops_call|]. intros now.
  apply all_ops_mbind; [apply reportEvent_asides|constructor].
Qed.

Lemma after_sync_asides cache app h retry err : asides (after_sync cache app h retry err).
Proof.
  unfold after_sync. repeat case_match;
    repeat first [apply all_ops_ret | apply all_ops_mbind | apply reportError_asides | apply reportEvent_asides
                 | by apply all_ops_call | intros ?].
Qed.

Lemma update_source_asides s : asides (update_source s).
Proof. unfold update_source. apply all_ops_mbind; [apply all_ops_call, source_aside|]. intros []; constructor. Qed.

Lemma deferred_update_asides app : asides (deferred_update app).
Proof.
  unfold deferred_update, UpdateResource. apply all_ops_mbind; [|intros []; [constructor|apply reportError_asides]].
  apply all_ops_try_map; [unfold get_source; solve_ops|]. intros existing. unfold persist_status.
  apply all_ops_try; [case_match; [apply update_source_asides|constructor]|]. intros s. unfold update_status.
  apply all_ops_try; [apply all_ops_call, status_aside|constructor].
Qed.
End aside.

(** ** A whole reconciliation *)

(** The workload a rollout is of: [s] up to its annotations and its status. *)
Definition same_workload (s s' : Source) : Prop :=
  src_Kind s' = src_Kind s ∧ src_View s' = src_View s ∧ GetName s' = GetName s ∧
  GetNamespace s' = GetNamespace s ∧ UID (src_Meta s') = UID (src_Meta s).

(** The manifest is the one that was rolled out last, and its rollout is not known to
    have completed: the recorded hash is its own, the recorded state is Synchronized. *)
Definition up_to_date `{L : Liberator} (config : Config) (s : Source) : Prop :=
  Hash s (AivenGeneration config) = Ok (st_SynchronizationHash (src_Status s)) ∧
  st_SynchronizationState (src_Status s) = events_Synchronized.

Section reconcile.
Context `{L : Liberator} `{AM : ApiMachinery} `{!ApiMachineryLaws AM} `{F : FinalizerLib} `{G : Generator}.
Context {W : Type} `{ApiServerLaws W}.
Implicit Types (w : W).

Lemma Prepare_source `{!GeneratorNoStatus G} n app app1 ro w w1 :
  run (Prepare n app) w = ((app1, Ok (Some ro)), w1) →
  ∃ app' w0, ApplyDefaults app = Ok app' ∧ same_workload app' (ro_Source ro) ∧
    (∀ t k, stored w0 t k = stored w t k) ∧
    (run (readonly (gen_Prepare (ro_Source ro))) w0).1 = Ok (ro_Options ro).
Proof.
  unfold Prepare. destruct (ApplyDefaults app) as [app'|e]; [|done].
  destruct (Hash _ _) as [h|e]; [|done]. run_step.
  pose proof (read_only_run _ w (readonly_read_only _ (getWantedImage_reads app'))) as Hr.
  destruct (run (readonly (getWantedImage app')) w) as [[i|e] w2]; [|done]. case_match; [done|].
  set (s0 := updateEffectiveImage app' i). run_step.
  assert (Hgen : ∀ s w3, same_workload app' s → (∀ t k, stored w3 t k = stored w t k) →
      run (opts ← readonly (gen_Prepare s);
      match opts with
      | Ok o => Ret (s, Ok (Some (mkRollout s [] o (CorrelationID s) h)))
      | Err e => Ret (s, Err (Wrapf "preparing rollout configuration: " e))
      end) w3 = (app1, Ok (Some ro), w1) →
      ∃ w0, same_workload app' (ro_Source ro) ∧
        (∀ t k, stored w0 t k = stored w t k) ∧
        (run (readonly (gen_Prepare (ro_Source ro))) w0).1 = Ok (ro_Options ro)).
  { intros s w3 Hs Hw3. run_step. destruct (run (readonly (gen_Prepare s)) w3) as [[o|e] w4] eqn:Ho; simpl;
      intros; simplify_eq. exists w3. simpl. by rewrite Ho. }
  intros Hrun. exists app'. cut (∃ w0, same_workload app' (ro_Source ro) ∧
        (∀ t k, stored w0 t k = stored w t k) ∧
        (run (readonly (gen_Prepare (ro_Source ro))) w0).1 = Ok (ro_Options ro)).
  { intros (w0 & ? & ? & ?). by exists w0. }
  revert Hrun. unfold ensureCorrelationID.
  destruct (bool_decide (slen (map_get _ _) ≠ 0%nat)); cbn [run]; [by apply Hgen|].
  run_step. pose proof (server_read _ NewUUID w2 eq_refl) as Hu. call_case [[id|e] w3]; cbn [run]; [|done].
  apply Hgen; [done|]. intros. by rewrite Hu, Hr.
Qed.

Lemma Prepare_up_to_date n app app1 w w1 :
  run (Prepare n app) w = ((app1, Ok None), w1) →
  ApplyDefaults app = Ok app1 ∧
  Hash app1 (AivenGeneration (sync_config n)) = Ok (st_SynchronizationHash (src_Status app1)).
Proof.
  unfold Prepare. destruct (ApplyDefaults app) as [app'|e]; [|done].
  destruct (Hash app' _) as [h|e] eqn:Hh; [|done]. run_step.
  destruct (run (readonly (getWantedImage app')) w) as [[i|e] w2]; [|done]. case_match eqn:Hc.
  - cbn [run]. intros [= <- _]. apply andb_true_iff in Hc as [_ Hc%bool_decide_eq_true]. split; [done|]. by rewrite Hh, Hc.
  - run_step. destruct (run (ensureCorrelationID _) w2) as [[s|e] w3]; [|done]. run_step.
    by destruct (run (readonly (gen_Prepare s)) w3) as [[o|e] w4].
Qed.

Lemma get_source_ok kind key w app :
  (run (get_source kind key) w).1 = Ok app → stored w (workload_type kind) key = Some (source_object app).
Proof.
  unfold get_source. run_step. pose proof (server_get_ok (workload_type kind) key w) as Hg.
  call_case [[o|e] w1]; [|done]. destruct (object_source o) as [s|] eqn:Hs; [|done]. simpl. intros [= <-].
  rewrite (Hg o eq_refl). by rewrite (source_object_source _ _ Hs).
Qed.

(** What the deletion path and the finalizer lead to is not monitored. *)
Lemma reconcile_body_synchronizes n cache app a r w w' :
  run (reconcile_body n cache app) w = (r, w') → out_monitor r.2 = Some a →
  run (synchronize n cache app) w = (r, w').
Proof.
  unfold reconcile_body. destruct (appIsDeleted app).
  - run_step. destruct (run (cleanUpAfterAppDeletion n app) w) as [[app' [[]|e]] w1]; simpl; intros; by simplify_eq.
  - destruct (ContainsFinalizer _ _); [done|]. run_step.
    destruct (run (update_source _) w) as [[app'|e] w1]; simpl; intros; by simplify_eq.
Qed.

Lemma synchronize_monitors `{!GeneratorNoStatus G} n cache app app2 changed out a w w' :
  run (synchronize n cache app) w = ((app2, changed, out), w') → out_monitor out = Some a →
  (changed = false ∧ (∃ app', ApplyDefaults app = Ok app' ∧ up_to_date (sync_config n) app') ∧
   ∀ t k, stored w' t k = stored w t k) ∨
  changed = true ∧ ∃ app' ro ro_cache cache' b w0 w1 w2,
    ApplyDefaults app = Ok app' ∧ same_workload app' (ro_Source ro) ∧
    (run (readonly (gen_Prepare (ro_Source ro))) w0).1 = Ok (ro_Options ro) ∧
    gen_Generate (ro_Source ro) (ro_Options ro) = Ok (ro_ResourceOperations ro) ∧
    (∀ t k, stored w0 t k = stored w t k) ∧ (∀ t k, stored w1 t k = stored w t k) ∧
    run (Sync n ro_cache ro) w1 = ((b, None, cache'), w2) ∧
    (∀ t k, t ∉ reported → stored w' t k = stored w2 t k).
Proof.
  unfold synchronize. run_step. pose proof (read_only_run _ w (Prepare_reads n app)) as Hr.
  destruct (run (Prepare n app) w) as [[app1 [[ro|]|e]] w1] eqn:Hp; simpl in Hr.
  - apply Prepare_source in Hp as (app' & w0 & Hd & Hs & Hw0 & Hprep).
    destruct (gen_Generate _ _) as [ops|e] eqn:Hg.
    2: { run_step. destruct (run (reportError _ _ _) w1) as [[] w2]. cbn [run]. intros; by simplify_eq/=. }
    run_step. set (ro' := mkRollout (ro_Source ro) ops _ _ _).
    destruct (run (Sync n cache ro') w1) as [[[b err] cache'] w2] eqn:Hsync. intros Hafter Hmon. right.
    assert (err = None ∧ changed = true) as [-> ->].
    { revert Hafter. unfold after_sync. destruct err as [e|]; [destruct b|]; run_step.
      - destruct (run (reportError _ _ _) w2) as [[] w3]. cbn [run]. intros; by simplify_eq/=.
      - destruct (run (reportError _ _ _) w2) as [[] w3]. cbn [run]. intros; by simplify_eq/=.
      - call_case [t w3]. run_step. destruct (run (reportEvent _) w3) as [r w4]. cbn [run]. by intros; simplify_eq/=. }
    split; [done|]. exists app', ro', cache, cache', b, w0, w1, w2. split_and!; try done.
    intros t k Ht. pose proof (aside_run _ w2 t k (after_sync_asides cache' (set_src_Status
      (SetCorrelationID (ro_CorrelationID ro')) app1) (ro_SynchronizationHash ro') b None) Ht) as Ha.
    by rewrite Hafter in Ha.
  - cbn [run]. intros; simplify_eq/=. left. split_and!; [done| |done]. apply Prepare_up_to_date in Hp as [Hd Hh].
    exists app2. split; [done|]. split; [done|]. by case_bool_decide.
  - run_step. destruct (run (reportError _ _ _) w1) as [[] w2]. cbn [run]. intros; by simplify_eq/=.
Qed.

(** [Reconcile] starts to monitor a workload in two cases only: nothing had to be
    done, because the manifest was rolled out before, or a rollout of its manifest succeeded; what is written after the
    rollout are events, the workload and its status. *)
Lemma Reconcile_rollout `{!GeneratorNoStatus G} n cache kind key out a w w' :
  run (Reconcile n cache kind key) w = (out, w') → out_monitor out = Some a →
  (∃ app app', stored w (workload_type kind) key = Some (source_object app) ∧
     ApplyDefaults (clear_status app) = Ok app' ∧ up_to_date (sync_config n) app' ∧
     ∀ t k, stored w' t k = stored w t k) ∨
  ∃ app app' ro ro_cache cache' b w0 w1 w2,
    stored w (workload_type kind) key = Some (source_object app) ∧
    ApplyDefaults (clear_status app) = Ok app' ∧ same_workload app' (ro_Source ro) ∧
    (run (readonly (gen_Prepare (ro_Source ro))) w0).1 = Ok (ro_Options ro) ∧
    gen_Generate (ro_Source ro) (ro_Options ro) = Ok (ro_ResourceOperations ro) ∧
    (∀ t k, stored w0 t k = stored w t k) ∧ (∀ t k, stored w1 t k = stored w t k) ∧
    run (Sync n ro_cache ro) w1 = ((b, None, cache'), w2) ∧
    (∀ t k, t ∉ reported → stored w' t k = stored w2 t k).
Proof.
  unfold Reconcile. run_step.
  pose proof (read_only_run _ w (get_source_reads kind key)) as Hr.
  pose proof (get_source_ok kind key w) as Hget.
  destruct (run (get_source kind key) w) as [[app|e] w1]; simpl in *; [|intros; by simplify_eq].
  pose proof (Hget app eq_refl) as Hst. run_step.
  destruct (run (reconcile_body n cache (clear_status app)) w1) as [[[app2 changed] out'] w2] eqn:Hbody. run_step.
  intros Hdef Hmon. assert (out' = out) as -> by (by destruct (run _ w2); simplify_eq/=).
  assert (Hw' : w' = (run (if changed then deferred_update app2 else Ret tt) w2).2)
    by (by destruct (run _ w2); simplify_eq/=).
  apply (reconcile_body_synchronizes _ _ _ a) in Hbody; [|done].
  eapply synchronize_monitors in Hbody as [(-> & (app' & Hd & Hup) & Hsame)|(-> & app' & ro & c & c' & b & w0 & w3 & w4 & Hro)]; [| |done].
  { left. exists app, app'. split_and!; [done..|]. intros. by rewrite Hw'; simpl; rewrite Hsame, Hr. }
  right.
  destruct Hro as (Hd & Hs & Hp & Hg & Hw0 & Hw3 & Hsync & Haside).
  exists app, app', ro, c, c', b, w0, w3, w4. split_and!; try done.
  - intros. by rewrite Hw0, Hr.
  - intros. by rewrite Hw3, Hr.
  - intros t k Ht. rewrite Hw', <-(Haside t k Ht). by apply (aside_run _ _ _ _ (deferred_update_asides app2)).
Qed.
End reconcile.

(** ** Witnesses *)

Section witnesses.
#[local] Existing Instances sample_machinery sample_liberator list_finalizers.

#[local] Instance service_generator : Generator := {|
  gen_Options := unit;
  gen_Prepare s := Ret (Ok tt);
  gen_Generate s _ := Ok [] |}.

(** The workload wants a Service; its Deployment is a leftover. *)
Definition service_rollout : Rollout :=
  mkRollout sample_app [mkOperation (sample_service (Some [GetOwnerReference sample_app]) "") OperationCreateOrUpdate]
    tt "" "".

Definition leftover_cluster : Mem := mem_of [sample_ns; sample_deployment].

Lemma service_sync_ok : (run (Sync sample_sync ∅ service_rollout) leftover_cluster).1.1 = (false, None).
Proof. vm_compute. reflexivity. Qed.

Lemma leftover_deployment : unwanted sample_sync service_rollout leftover_cluster sample_deployment.
Proof.
  unfold unwanted. split_and!; [by left|reflexivity|reflexivity| |].
  - exists (GetOwnerReference sample_app). split; [by left|reflexivity].
  - intros rop ->%list_elem_of_singleton. discriminate.
Qed.

Example service_rollout_achieves :
  ∃ w', alive w' TService (mkKey "team-a" "myapp") ∧ going w' TDeployment (mkKey "team-a" "myapp").
Proof.
  pose proof service_sync_ok as Hok.
  destruct (run (Sync sample_sync ∅ service_rollout) leftover_cluster) as [[[b err] cache'] w'] eqn:Hrun.
  simpl in Hok. injection Hok as -> ->. exists w'.
  destruct (Sync_achieves sample_sync ∅ cache' service_rollout leftover_cluster w' false) as (Hal & _ & Hgo).
  - apply Forall_singleton. split_and!; reflexivity.
  - intros op ->%list_elem_of_singleton x. vm_compute. discriminate.
  - exact Hrun.
  - split.
    + refine (Hal (mkOperation (sample_service (Some [GetOwnerReference sample_app]) "") OperationCreateOrUpdate) _ _ _).
      * by left.
      * apply (bool_decide_unpack _). vm_compute. exact I.
      * intros op' ->%list_elem_of_singleton. discriminate.
    + exact (Hgo sample_deployment leftover_deployment).
Qed.
End witnesses.
