(* ===== verification/Cleanup.v ===== *)
(** * What the deletion of a workload leaves behind

    The workload itself is kept by a finalizer until [cleanUpAfterAppDeletion] of the
    synchronizer has deleted what has no owner: its Google identities, found by their
    labels, and its Image. *)

From S2P Require Import Prelude GoStrings Kube Api Vendor Cluster MemServer Samples Config Readonly Resource Creators Updater Synchronizer SynchronizerProps Google Gcp Rollout.

(** ** Lemmas *)

Section lemmas.
Context `{L : Liberator} `{AM : ApiMachinery} `{!ApiMachineryLaws AM} `{F : FinalizerLib}.
Context {W : Type} `{ApiServerLaws W}.
Implicit Types (w : W) (o : Object) (t : GoType) (k : ObjectKey).

Abbreviation deletes items := (prog_iter (fun item => call (Delete item None)) items).

Lemma deletes_keep items w t k :
  (∀ o, o ∈ items → (t, k) ≠ (TypeOf o, object_key o)) →
  stored (run (deletes items) w).2 t k = stored w t k.
Proof.
  revert w. induction items as [|o items IH]; intros w Hne; [done|]. cbn [prog_iter]. run_step.
  assert (Hw := proj2 (server_write_other o w t k (Hne o ltac:(by left))) None).
  call_case [[[]|e] w1]; [|done]. rewrite IH; [done|]. intros. apply Hne. by right.
Qed.

(** When all deletions succeed everything is gone, or waits for its finalizers. *)
Lemma deletes_gone items w w' o :
  run (deletes items) w = (Ok tt, w') → o ∈ items → going w' (TypeOf o) (object_key o).
Proof.
  revert w o. induction items as [|x items IH_any]; intros w o; [by intros _ ?%elem_of_nil|].
  cbn [prog_iter]. run_step.
  pose proof (server_delete_gone x None w) as Hg. call_case [[[]|e] w1]; [|done]. intros Hrun Hin.
  destruct (decide (Exists (λ y, (TypeOf y, object_key y) = (TypeOf o, object_key o)) items)) as [Hex|Hex].
  - apply Exists_exists in Hex as (y & Hy & Heq). apply pair_eq in Heq as [Ht Hk].
    rewrite <-Ht, <-Hk. by apply IH_any with (w := w1).
  - apply elem_of_cons in Hin as [->|Hin]; [|destruct Hex; apply Exists_exists; by exists o].
    pose proof (deletes_keep items w1 (TypeOf x) (object_key x)) as Hk. rewrite Hrun in Hk. cbn [snd] in Hk.
    intros y. rewrite Hk; [by apply Hg|]. intros y' Hy' Heq. apply Hex, Exists_exists. by exists y'.
Qed.

Lemma delete_listed_gone t lo w w' k o :
  run (delete_listed t lo) w = (Ok tt, w') → lo_Fields lo = [] →
  key_Namespace k = lo_Namespace lo → Forall (HasLabel (o_Meta o)) (lo_Labels lo) →
  stored w t k = Some o → going w' t k.
Proof.
  unfold delete_listed. run_step. intros Hrun Hf Hns Hlab Ho. revert Hrun.
  pose proof (λ l Hl, server_list_complete t lo w l k o Hl Hf (or_intror Hns) Ho Hlab) as Hin.
  pose proof (server_stored_type w t k o Ho) as [Ht Hk].
  call_case [[l|e] w1]; [|done]. intros Hrun. rewrite <-Ht, <-Hk. by apply (deletes_gone l w1), Hin.
Qed.

(** The Google identities of a workload are found by the labels they were made with. *)
Lemma deleteCNRM_gone n app w w' t k o :
  run (deleteCNRMResources n app) w = (Ok tt, w') → CNRM (cfg_Features (sync_config n)) = true →
  t ∈ [TIAMServiceAccount; TIAMPolicy] → key_Namespace k = IAMServiceAccountNamespace →
  HasLabel (o_Meta o) ("app", GetName app) → HasLabel (o_Meta o) ("team", GetNamespace app) →
  stored w t k = Some o → going w' t k.
Proof.
  unfold deleteCNRMResources. intros Hrun Hcnrm Ht Hns Happ Hteam Ho. rewrite Hcnrm in Hrun. cbn [negb] in Hrun.
  destruct (NewRequirement "app" _) as [ra|] eqn:Ha; [|done]. destruct (NewRequirement "team" _) as [rt|] eqn:Hr; [|done].
  apply NewRequirement_ok in Ha as ->, Hr as ->. revert Hrun. run_step.
  set (lo := mkListOptions _ _ _).
  assert (Hlab : Forall (HasLabel (o_Meta o)) (lo_Labels lo)) by (by repeat constructor).
  pose proof (delete_listed_other TIAMServiceAccount lo w) as Hother.
  pose proof (λ w1 Hrun, delete_listed_gone TIAMServiceAccount lo w w1 k o Hrun eq_refl Hns Hlab) as Hgone.
  destruct (run (delete_listed TIAMServiceAccount lo) w) as [[[]|e] w1]; [|done]. intros Hrun.
  apply elem_of_cons in Ht as [->|Ht%list_elem_of_singleton].
  - pose proof (delete_listed_other TIAMPolicy lo w1 TIAMServiceAccount k) as Hpol. rewrite Hrun in Hpol. cbn [snd] in Hpol.
    intros x. rewrite Hpol by done. by apply (Hgone w1).
  - subst t. apply (delete_listed_gone TIAMPolicy lo w1 w' k o Hrun eq_refl Hns Hlab). by rewrite <-Ho, <-(Hother TIAMPolicy k).
Qed.

Lemma deleteImage_gone app w w' :
  run (deleteImageResource app) w = (Ok tt, w') → going w' TImage (source_key app).
Proof.
  unfold deleteImageResource. run_step.
  pose proof (server_get_notfound TImage (source_key app) w) as Hnf.
  pose proof (server_read _ (Get TImage (source_key app)) w eq_refl TImage (source_key app)) as Hr.
  pose proof (server_get_ok TImage (source_key app) w) as Hget.
  call_case [[o|e] w1].
  - pose proof (server_stored_type _ _ _ _ (Hget o eq_refl)) as [Ht Hk]. run_step.
    pose proof (server_delete_gone o None w1) as Hg. pose proof (server_delete_notfound o None w1) as Hn.
    rewrite Ht, Hk in Hg, Hn. call_case [[[]|e] w2]; [intros [= <-] x; by apply Hg|]. destruct (IsNotFound e) eqn:He; [|done].
    intros [= <-] x. by rewrite (Hn e eq_refl He).
  - destruct (IsNotFound e) eqn:He; [|done]. intros [= <-] x. by rewrite Hr, (Hnf e eq_refl He).
Qed.

Lemma update_source_keeps s w t k : t ∉ reported → stored (run (update_source s) w).2 t k = stored w t k.
Proof.
  intros Ht. unfold update_source. run_step.
  assert (Hne : (t, k) ≠ (TypeOf (source_object s), object_key (source_object s))).
  { intros [= -> _]. apply Ht. unfold reported, TypeOf, source_object. simpl. destruct (src_Kind s); set_solver. }
  pose proof (proj1 (server_write_other (source_object s) w t k Hne)) as Hu.
  by call_case [[o|e] w1].
Qed.
End lemmas.

(** ** Properties *)

Section properties.
Context `{L : Liberator} `{AM : ApiMachinery} `{!ApiMachineryLaws AM} `{F : FinalizerLib}.
Context {W : Type} `{ApiServerLaws W}.

(** C11. The finalizer guards the cleanup: if the cleanup of a deleted workload changes
    the stored workload in any way (in particular, takes its finalizer off), then, where
    the cluster has Google identities, all those with the labels of the workload are gone
    or only wait for their own finalizers, and so is its Image. *)
Theorem finalizer_guards_cleanup n app (w : W) :
  let w' := (run (cleanUpAfterAppDeletion n app) w).2 in
  stored w' (workload_type (src_Kind app)) (source_key app) ≠
    stored w (workload_type (src_Kind app)) (source_key app) →
  ContainsFinalizer (src_Meta app) NaiseratorFinalizer = true ∧
  (CNRM (cfg_Features (sync_config n)) = true → ∀ t k o,
     t ∈ [TIAMServiceAccount; TIAMPolicy] → stored w t k = Some o →
     key_Namespace k = IAMServiceAccountNamespace →
     HasLabel (o_Meta o) ("app", GetName app) → HasLabel (o_Meta o) ("team", GetNamespace app) →
     going w' t k) ∧
  going w' TImage (source_key app).
Proof.
  set (ty := workload_type (src_Kind app)). assert (Hty : ty ∉ [TIAMServiceAccount; TIAMPolicy; TImage]).
  { unfold ty. destruct (src_Kind app); set_solver. }
  cbv zeta. unfold cleanUpAfterAppDeletion. destruct (ContainsFinalizer _ _); [|done]. run_step.
  pose proof (deleteCNRM_other n app w ty (source_key app) ltac:(set_solver) ltac:(set_solver)) as Hc.
  destruct (run (deleteCNRMResources n app) w) as [[[]|e] w1] eqn:Hcnrm; cbn [fst snd] in *; [|done].
  run_step. pose proof (deleteImage_other app w1 ty (source_key app) ltac:(set_solver)) as Hi.
  pose proof (λ t k Ht, deleteImage_other app w1 t k Ht) as Hkeep.
  destruct (run (deleteImageResource app) w1) as [[[]|e] w2] eqn:Himg; cbn [fst snd] in *; [|simpl; congruence].
  run_step. set (app' := set_src_Meta _ app). intros _. split; [done|].
  assert (Hup : ∀ t k, t ∉ reported →
    stored (run (r ← update_source app'; match r with Err e => Ret (app', Err e) | Ok app => Ret (app, Ok tt) end) w2).2 t k =
    stored w2 t k).
  { intros t k Ht. rewrite <-(update_source_keeps app' w2 t k Ht). run_step.
    by destruct (run (update_source app') w2) as [[s|e] w3]. }
  rewrite run_mbind in Hup. split.
  - intros Hcn t k o Ht Ho Hns Ha Hteam x. rewrite Hup by (unfold reported; set_solver). rewrite Hkeep by set_solver.
    by eapply (deleteCNRM_gone n app w w1).
  - intros x. rewrite Hup by (unfold reported; set_solver). by apply (deleteImage_gone app w1).
Qed.
End properties.

(** The identities a generated workload asks for carry the labels they are found by. *)
Lemma shared_identities_found source op :
  google_shared source op →
  let o := op_Resource op in
  TypeOf o ∈ [TIAMServiceAccount; TIAMPolicy] ∧ key_Namespace (object_key o) = IAMServiceAccountNamespace ∧
  HasLabel (o_Meta o) ("app", GetName source) ∧ HasLabel (o_Meta o) ("team", GetNamespace source).
Proof.
  intros (Hns & _ & _ & _ & Hk & _ & Ha & Ht). split_and!; [|done..].
  apply elem_of_cons in Hk as [Hk|Hk%list_elem_of_singleton]; apply pair_eq in Hk as [_ ->]; set_solver.
Qed.

(** ** Witness *)

Section witnesses.
#[local] Existing Instances sample_machinery sample_liberator list_finalizers.

(** The identity of the workload, and one of another team. *)
Definition sample_identity (name team : string) : Object :=
  mkObject (mkGVK "iam.cnrm.cloud.google.com" "v1beta1" "IAMServiceAccount")
    (SetLabels (Some {[ "app" := "myapp"; "team" := team ]})
       (SetNamespace IAMServiceAccountNamespace (SetName name emptyMeta)))
    (BIAMServiceAccount "myapp").

Definition identity_cluster : Mem :=
  mem_of [source_object stale_app; new_image; sample_identity "myapp-a" "team-a"; sample_identity "myapp-b" "team-b"].

(** What is left: the workload, its Image, which has a finalizer of its own, and the other
    identity. *)
Example cleaned_cluster :
  let w' := (run (cleanUpAfterAppDeletion sample_sync stale_app) identity_cluster).2 in
  map (λ o, Name (o_Meta o)) (mem_objs w') = ["myapp"; "myapp"; "myapp-b"].
Proof. vm_compute. reflexivity. Qed.

Lemma finalizer_guards_cleanup_witness :
  going (run (cleanUpAfterAppDeletion sample_sync stale_app) identity_cluster).2
    TIAMServiceAccount (mkKey "serviceaccounts" "myapp-a").
Proof.
  refine (proj1 (proj2 (finalizer_guards_cleanup sample_sync stale_app identity_cluster _)) _
    TIAMServiceAccount (mkKey "serviceaccounts" "myapp-a") (sample_identity "myapp-a" "team-a") _ _ _ _ _).
  - vm_compute. discriminate.
  - reflexivity.
  - by left.
  - vm_compute. reflexivity.
  - reflexivity.
  - vm_compute. reflexivity.
  - vm_compute. reflexivity.
Defined.
End witnesses.
