(* ===== verification/Generators.v ===== *)
(** * The generators: from a workload to its resources

    Models [pkg/generators] (application.go, naisjob.go, sqlinstance.go,
    postgres.go): [Prepare], which reads the cluster, and [Generate], which runs
    the creators one after the other on a fresh AST. *)

From S2P Require Import Prelude GoStrings Kube Api Vendor Cluster MemServer Config Util Resource Creators Samples Pod Observability AccessPolicy Wonderwall Identity Platform Vault Aiven Postgres Google GoogleSql Gcp Ingress Deployment Scaling Batch Mounts Synchronizer SynchronizerProps.

(** The configuration of a generator with the settings [Prepare] finds out. *)
Definition set_NumReplicas (n : Z) (o : Options) : Options :=
  mkOptions (opt_Config o) (opt_GoogleTeamProjectID o) n (opt_Team o) (opt_SqlInstance o) (opt_PostgresClusterEngine o).
Definition set_GoogleTeamProjectID (p : string) (o : Options) : Options :=
  mkOptions (opt_Config o) p (opt_NumReplicas o) (opt_Team o) (opt_SqlInstance o) (opt_PostgresClusterEngine o).
Definition set_Team (t : string) (o : Options) : Options :=
  mkOptions (opt_Config o) (opt_GoogleTeamProjectID o) (opt_NumReplicas o) t (opt_SqlInstance o) (opt_PostgresClusterEngine o).
Definition set_SqlInstance (s : SqlInstanceState) (o : Options) : Options :=
  mkOptions (opt_Config o) (opt_GoogleTeamProjectID o) (opt_NumReplicas o) (opt_Team o) s (opt_PostgresClusterEngine o).
Definition set_PostgresClusterEngine (e : string) (o : Options) : Options :=
  mkOptions (opt_Config o) (opt_GoogleTeamProjectID o) (opt_NumReplicas o) (opt_Team o) (opt_SqlInstance o) e.

Section generators.
Context `{L : Liberator} `{U : UrlLib} `{AM : ApiMachinery} `{SL : StructLib} `{R : MapRange}.
Implicit Types (source : Source) (cfg o : Options) (ast : Ast).

(** ** sqlinstance.go *)

Definition hasPrivateIpInSharedVpc (sqlinstance : Object) o : bool :=
  match o_Body sqlinstance with
  | BSQLInstance _ (Some external) _ => Contains external (GetGoogleProjectID o)
  | _ => false
  end.

Definition sql_instance_name source (i : CloudSqlInstance) : string :=
  if bool_decide (0 < slen (csi_Name i))%nat then csi_Name i else GetName source.

Definition prepareSqlInstance source o : prog (res error Options) :=
  match v_GCP (v_Backing (src_View source)) with
  | Some gcp =>
      if negb (IsGCPEnabled o) then Ret (Ok o)
      else match gcp_SqlInstances gcp with
      | [i] =>
          if negb (SQLInstanceInSharedVpc (cfg_Features (opt_Config o))) then Ret (Ok o)
          else
            r ← call (Get TSQLInstance (mkKey (GetNamespace source) (sql_instance_name source i)));
            Ret match r with
                | Err e => if negb (IsNotFound e) then Err (Textf "query existing sqlinstance: " e)
                           else Ok (set_SqlInstance
                                      (mkSqlInstanceState false (sql_hasPrivateIpInSharedVpc (opt_SqlInstance o))) o)
                | Ok sqlinstance =>
                    Ok (set_SqlInstance (mkSqlInstanceState true (hasPrivateIpInSharedVpc sqlinstance o)) o)
                end
      | _ => Ret (Ok o)
      end
  | None => Ret (Ok o)
  end.

(** ** postgres.go *)

(** The engine pgrator reports in the status of the cluster. *)
Definition postgres_engine (pg : Object) : string :=
  match o_Body pg with BPostgres (Some engine) => engine | _ => "" end.

Definition preparePostgres source o : prog (res error Options) :=
  match v_Postgres (v_Backing (src_View source)) with
  | None => Ret (Ok o)
  | Some clusterName =>
      r ← call (Get TPostgres (mkKey (GetNamespace source) clusterName));
      Ret match r with
          | Err e => Err (Wrapf "failed to get postgres cluster: " e)
          | Ok pg =>
              let engine := postgres_engine pg in
              if bool_decide (engine = "")
              then Err (Errorf ("waiting for pgrator to set engine in status on " +:+ Namespace (o_Meta pg) +:+ "/" +:+
                                Name (o_Meta pg) +:+ "; will retry"))
              else if bool_decide (engine ∉ AllEngines) then Err (Errorf ("unknown postgres engine: " +:+ engine))
              else Ok (set_PostgresClusterEngine engine o)
          end
  end.

(** ** Prepare *)

(** An object that may be missing: [Get] with a NotFound error tolerated. *)
Definition get_optional (pre : string) (t : GoType) (k : ObjectKey) : prog (res error (option Object)) :=
  r ← call (Get t k);
  Ret match r with
      | Ok obj => Ok (Some obj)
      | Err e => if negb (IsNotFound e) then Err (Textf pre e) else Ok None
      end.

(** The replicas of the deployment that was read; a missing one is empty. *)
Definition deployment_replicas (d : option Object) : option (option Z) :=
  match d with
  | Some obj => match o_Body obj with BDeployment spec _ => Some (ds_Replicas spec) | _ => Some None end
  | None => Some None
  end.

Definition project_annotation (namespace : option Object) : string :=
  match namespace with
  | Some ns => omap_get (Annotations (o_Meta ns)) ProjectIdAnnotation
  | None => ""
  end.

(** The error of the lookup of the other kind is not looked at: any failure
    counts as "no such object". *)
Definition name_taken (t : GoType) (k : ObjectKey) : prog bool :=
  r ← call (Get t k); Ret (is_ok r).

Definition Application_Prepare (config : Config) source : prog (res error Options) :=
  if bool_decide (src_Kind source ≠ KApplication)
  then Ret (Err (Errorf "BUG: this generator accepts only nais_io_v1alpha1.Application objects"))
  else
    let o := newOptions config in
    let key := mkKey (GetNamespace source) (GetName source) in
    deploy ←! get_optional "query existing deployment: " TDeployment key;
    job_exists ← name_taken TNaisjob key;
    if job_exists : bool
    then Ret (Err (Errorf ("cannot create an Application with name '" +:+ GetName source +:+
                           "' because a Naisjob with that name exists")))
    else
      let replicas := v_Replicas (src_View source) in
      let o := set_NumReplicas (numReplicas (deployment_replicas deploy) (rep_Min replicas) (rep_Max replicas)) o in
      namespace ←! get_optional "query existing namespace: " TNamespace (mkKey "" (GetNamespace source));
      _ ←! RedirectAllowed source;
      let o := set_GoogleTeamProjectID (project_annotation namespace) o in
      o ←! prepareSqlInstance source o;
      o ←! preparePostgres source o;
      Ret (Ok (set_Team (GetNamespace source) o)).

Definition Naisjob_Prepare (config : Config) source : prog (res error Options) :=
  if bool_decide (src_Kind source ≠ KNaisjob)
  then Ret (Err (Errorf "BUG: this generator accepts only nais_io_v1.Naisjob objects"))
  else
    let o := set_NumReplicas 1 (newOptions config) in
    namespace ←! get_optional "query existing namespace: " TNamespace (mkKey "" (GetNamespace source));
    app_exists ← name_taken TApplication (mkKey (GetNamespace source) (GetName source));
    if app_exists : bool
    then Ret (Err (Errorf ("cannot create a Naisjob with name '" +:+ GetName source +:+
                           "' because an Application with that name exists")))
    else
      let o := set_GoogleTeamProjectID (project_annotation namespace) o in
      o ←! prepareSqlInstance source o;
      o ←! preparePostgres source o;
      Ret (Ok (set_Team (GetNamespace source) o)).

(** ** Generate *)

(** [week] is the ISO week in which the resources are generated. *)
Definition Application_ast (week : Z * Z) source cfg : res error Ast :=
  if bool_decide (src_Kind source ≠ KApplication)
  then Err (Errorf "BUG: CreateApplication only accepts nais_io_v1alpha1.Application objects; fix your code")
  else
    let ast := CreateContainerEnvVars source cfg NewAst in
    let ast := service_Create source ast cfg in
    let ast := serviceaccount_Create source ast cfg in
    let ast := horizontalpodautoscaler_Create source ast in
    let ast := networkpolicy_Create source ast cfg in
    let ast := fqdnpolicy_Create source ast cfg in
    ast ← frontend_Create source ast cfg;
    ast ← observability_Create source ast cfg;
    ast ← ingress_Create source ast cfg;
    ast ← leaderelection_Create source ast cfg;
    '(azureadapplication, ast) ← azure_Create source week ast cfg;
    '(idportenclient, ast) ← idporten_Create source ast cfg;
    ast ← login_Create source ast cfg;
    ast ← gcp_Create source ast cfg;
    ast ← (if PostgresOperatorEnabled cfg then postgres_Create source ast cfg else Ok ast);
    ast ← proxyopts_Create source ast cfg;
    '(maskinportenclient, ast) ← maskinporten_Create source ast cfg;
    let ast := certificateauthority_Create source ast cfg in
    let ast := poddisruptionbudget_Create source ast in
    '(tokenxclient, ast) ← jwker_Create source ast cfg;
    ast ← aiven_Create source week ast cfg;
    ast ← vault_Create source ast cfg;
    ast ← texas_Create source ast cfg
            (mkClients azureadapplication idportenclient maskinportenclient tokenxclient);
    ast ← CreateAppContainer source cfg ast;
    ast ← deployment_Create source ast cfg;
    Ok (podmonitor_Create source ast cfg).

Definition Application_Generate (week : Z * Z) source cfg : res error (list Operation) :=
  ast ← Application_ast week source cfg; Ok (ast_Operations ast).

Definition Naisjob_ast (week : Z * Z) source cfg : res error Ast :=
  if bool_decide (src_Kind source ≠ KNaisjob)
  then Err (Errorf "BUG: generator only accepts nais_io_v1.Naisjob objects, fix your caller")
  else
    let ast := CreateContainerEnvVars source cfg NewAst in
    let ast := serviceaccount_Create source ast cfg in
    let ast := networkpolicy_Create source ast cfg in
    let ast := fqdnpolicy_Create source ast cfg in
    ast ← observability_Create source ast cfg;
    '(azureadapplication, ast) ← azure_Create source week ast cfg;
    ast ← gcp_Create source ast cfg;
    ast ← (if PostgresOperatorEnabled cfg then postgres_Create source ast cfg else Ok ast);
    ast ← proxyopts_Create source ast cfg;
    let ast := certificateauthority_Create source ast cfg in
    '(maskinportenclient, ast) ← maskinporten_Create source ast cfg;
    ast ← aiven_Create source week ast cfg;
    ast ← vault_Create source ast cfg;
    ast ← texas_Create source ast cfg (mkClients azureadapplication None maskinportenclient None);
    ast ← CreateNaisjobContainer source cfg ast;
    CreateCronJob source ast cfg.

Definition Naisjob_Generate (week : Z * Z) source cfg : res error (list Operation) :=
  ast ← Naisjob_ast week source cfg; Ok (ast_Operations ast).

(** ** The generators, to the synchronizer *)

#[export] Instance Application_Generator (config : Config) (week : Z * Z) : Generator := {|
  gen_Options := Options;
  gen_Prepare := Application_Prepare config;
  gen_Generate := Application_Generate week |}.

#[export] Instance Naisjob_Generator (config : Config) (week : Z * Z) : Generator := {|
  gen_Options := Options;
  gen_Prepare := Naisjob_Prepare config;
  gen_Generate := Naisjob_Generate week |}.
End generators.

(** ** What the generators produce *)

Section generated.
Context `{L : Liberator} `{U : UrlLib} `{AM : ApiMachinery} `{SL : StructLib} `{R : MapRange} `{!MapRangeLaws R}.
Implicit Types (source : Source) (cfg o : Options) (ast : Ast).

(** An operation of a workload: on an object in its namespace that it owns (of one
    of the two kinds that need configuring only where it was configured), on one of its
    two Google identities, or on the shared pooler policy. *)
Definition generated source cfg (op : Operation) : Prop :=
  owned source op ∨ owned_if (IsFQDNPolicyEnabled cfg) fqdn_kind source op ∨
  owned_if (IsPrometheusOperatorEnabled cfg) monitor_kind source op ∨
  google_shared source op ∨ zalando_shared source op.

Lemma generated_owned source cfg a a' : appends (owned source) a a' → appends (generated source cfg) a a'.
Proof. apply appends_weaken. by left. Qed.

Lemma generated_fqdn source cfg a : appends (generated source cfg) a (fqdnpolicy_Create source a cfg).
Proof. eapply appends_weaken, fqdnpolicy_appends. unfold generated. tauto. Qed.

Lemma generated_monitor source cfg a : appends (generated source cfg) a (podmonitor_Create source a cfg).
Proof. eapply appends_weaken, podmonitor_appends. unfold generated. tauto. Qed.

Lemma generated_gcp source cfg a a' :
  appends (λ op, owned source op ∨ google_shared source op) a a' → appends (generated source cfg) a a'.
Proof. apply appends_weaken. unfold generated. tauto. Qed.

Lemma generated_postgres source (b : bool) a cfg a' :
  (if b then postgres_Create source a cfg else Ok a) = Ok a' → appends (generated source cfg) a a'.
Proof.
  destruct b; [|by intros [= <-]]. intros H%postgres_appends. revert H. apply appends_weaken.
  unfold generated. tauto.
Qed.

Lemma CreateContainerEnvVars_appends source cfg ast : appends (owned source) ast (CreateContainerEnvVars source cfg ast).
Proof. unfold CreateContainerEnvVars. solve_appends. Qed.

Lemma files_loop_operations files c s p e ast :
  ast_Operations (files_loop files c s p e ast) = ast_Operations ast.
Proof.
  revert c s p e ast. induction files as [|f files IH]; intros c s p e ast; [done|].
  simpl. repeat case_match; by rewrite IH.
Qed.

Lemma files_env_operations v ast :
  ast_Operations (envFrom (v_EnvFrom v) (filesFrom (v_FilesFrom v) ast)) = ast_Operations ast.
Proof.
  transitivity (ast_Operations (filesFrom (v_FilesFrom v) ast)); [|apply files_loop_operations].
  generalize (filesFrom (v_FilesFrom v) ast). unfold envFrom. induction (v_EnvFrom v) as [|e es IH]; intros a; [done|].
  simpl. rewrite IH. by repeat case_match.
Qed.

Lemma CreateAppContainer_appends source cfg ast ast' :
  CreateAppContainer source cfg ast = Ok ast' → appends (owned source) ast ast'.
Proof.
  unfold CreateAppContainer. intros H. creator_cases.
  eapply appends_same; [reflexivity|]. apply files_env_operations.
Qed.

Lemma CreateNaisjobContainer_appends source cfg ast ast' :
  CreateNaisjobContainer source cfg ast = Ok ast' → appends (owned source) ast ast'.
Proof.
  unfold CreateNaisjobContainer. intros H. creator_cases.
  eapply appends_same; [reflexivity|]. apply files_env_operations.
Qed.

Lemma Application_ast_appends week source cfg ast :
  Application_ast week source cfg = Ok ast → appends (generated source cfg) NewAst ast.
Proof.
  unfold Application_ast. case_bool_decide as Hk; [done|]. cbn zeta. intros H.
  set (a0 := fqdnpolicy_Create source _ cfg) in H.
  assert (A0 : appends (generated source cfg) NewAst a0).
  { subst a0. etransitivity; [|apply generated_fqdn]. apply generated_owned. etransitivity; [|apply networkpolicy_appends].
    etransitivity; [|apply hpa_appends]. etransitivity; [|apply serviceaccount_appends].
    etransitivity; [|apply service_appends]. apply CreateContainerEnvVars_appends. }
  clearbody a0. apply res_bind_ok_inv in H as (a1 & A1 & H). apply frontend_appends in A1.
  apply res_bind_ok_inv in H as (a2 & A2 & H). apply observability_appends in A2.
  apply res_bind_ok_inv in H as (a3 & A3 & H). apply ingress_appends in A3.
  apply res_bind_ok_inv in H as (a4 & A4 & H). apply leaderelection_appends in A4.
  apply res_bind_ok_inv in H as ([az a5] & HA & H). apply azure_Create_adds in HA as [A5 _].
  apply res_bind_ok_inv in H as ([idp a6] & HA & H). apply idporten_Create_adds in HA as [[A6 _] _].
  apply res_bind_ok_inv in H as (a7 & HA & H). apply login_Create_adds in HA as [A7 _].
  apply res_bind_ok_inv in H as (a8 & A8 & H). apply gcp_appends in A8. apply (generated_gcp _ cfg) in A8.
  apply res_bind_ok_inv in H as (a9 & A9 & H). apply generated_postgres in A9.
  apply res_bind_ok_inv in H as (a10 & A10 & H). apply (proxyopts_appends (owned source)) in A10.
  apply res_bind_ok_inv in H as ([mp a11] & A11 & H). apply maskinporten_appends in A11.
  apply res_bind_ok_inv in H as ([tx a12] & A12 & H). apply jwker_appends in A12.
  apply res_bind_ok_inv in H as (a13 & A13 & H). apply aiven_Create_appends in A13.
  apply res_bind_ok_inv in H as (a14 & A14 & H). apply (vault_appends (owned source)) in A14.
  apply res_bind_ok_inv in H as (a15 & A15 & H). apply texas_appends in A15.
  apply res_bind_ok_inv in H as (a16 & A16 & H). apply CreateAppContainer_appends in A16.
  apply res_bind_ok_inv in H as (a17 & A17 & H). apply deployment_appends in A17. simplify_eq.
  transitivity a0; [done|].
  transitivity a7; [apply generated_owned; by repeat (etransitivity; [|eassumption])|].
  transitivity a9; [by etransitivity|]. transitivity a17; [|apply generated_monitor]. apply generated_owned.
  transitivity a11; [by etransitivity|]. etransitivity; [apply (certificateauthority_appends _ source _ cfg)|].
  etransitivity; [apply pdb_appends|].
  by repeat (etransitivity; [|eassumption]).
Qed.

Lemma Naisjob_ast_appends week source cfg ast :
  Naisjob_ast week source cfg = Ok ast → appends (generated source cfg) NewAst ast.
Proof.
  unfold Naisjob_ast. case_bool_decide as Hk; [done|]. cbn zeta. intros H.
  set (a0 := fqdnpolicy_Create source _ cfg) in H.
  assert (A0 : appends (generated source cfg) NewAst a0).
  { subst a0. etransitivity; [|apply generated_fqdn]. apply generated_owned. etransitivity; [|apply networkpolicy_appends].
    etransitivity; [|apply serviceaccount_appends]. apply CreateContainerEnvVars_appends. }
  clearbody a0. apply res_bind_ok_inv in H as (a1 & A1 & H). apply observability_appends in A1.
  apply res_bind_ok_inv in H as ([az a2] & HA & H). apply azure_Create_adds in HA as [A2 _].
  apply res_bind_ok_inv in H as (a3 & A3 & H). apply gcp_appends in A3. apply (generated_gcp _ cfg) in A3.
  apply res_bind_ok_inv in H as (a4 & A4 & H). apply generated_postgres in A4.
  apply res_bind_ok_inv in H as (a5 & A5 & H). apply (proxyopts_appends (owned source)) in A5.
  apply res_bind_ok_inv in H as ([mp a6] & A6 & H). apply maskinporten_appends in A6.
  apply res_bind_ok_inv in H as (a7 & A7 & H). apply aiven_Create_appends in A7.
  apply res_bind_ok_inv in H as (a8 & A8 & H). apply (vault_appends (owned source)) in A8.
  apply res_bind_ok_inv in H as (a9 & A9 & H). apply texas_appends in A9.
  apply res_bind_ok_inv in H as (a10 & A10 & A11). apply CreateNaisjobContainer_appends in A10. apply cronjob_appends in A11.
  transitivity a0; [done|].
  transitivity a2; [apply generated_owned; by repeat (etransitivity; [|eassumption])|].
  transitivity a4; [by etransitivity|]. apply generated_owned.
  transitivity a5; [done|]. etransitivity; [apply (certificateauthority_appends _ source _ cfg)|].
  by repeat (etransitivity; [|eassumption]).
Qed.

Lemma Generate_generated week source cfg ops :
  Application_Generate week source cfg = Ok ops ∨ Naisjob_Generate week source cfg = Ok ops →
  Forall (generated source cfg) ops.
Proof.
  intros [Hg|Hg]; apply res_bind_ok_inv in Hg as (ast & Hast & [= <-]).
  - destruct (Application_ast_appends _ _ _ _ Hast) as (new & -> & Hf). exact Hf.
  - destruct (Naisjob_ast_appends _ _ _ _ Hast) as (new & -> & Hf). exact Hf.
Qed.

(** The namespaces a generated operation may be in. *)
Definition reachable_namespaces source : list string :=
  [GetNamespace source; IAMServiceAccountNamespace; "pg-" +:+ GetNamespace source].

Lemma generated_namespace source cfg op :
  generated source cfg op → Namespace (o_Meta (op_Resource op)) ∈ reachable_namespaces source.
Proof.
  unfold reachable_namespaces. intros [[(-> & _) _]|[[(-> & _) _]|[[(-> & _) _]|[(-> & _)|(-> & _)]]]]; set_solver.
Qed.

(** Generated operations apply plain objects. *)
Lemma generated_plain_meta source cfg op :
  generated source cfg op → plain_meta (o_Meta (op_Resource op)) ∧ op_Operation op ∈ applied.
Proof.
  intros [[(_ & _ & _ & Hp) Hk]|[[(_ & _ & _ & Hp) (_ & _ & Ha)]|[[(_ & _ & _ & Hp) (_ & _ & Ha)]|
    [(_ & _ & _ & Ha & _ & Hp & _)|(_ & _ & _ & Ha & _ & Hp)]]]].
  - by apply bool_decide_eq_true in Hk as [_ Ha].
  - done.
  - done.
  - split; [done|]. rewrite Ha. by do 2 right; left.
  - split; [done|]. rewrite Ha. by left.
Qed.

(** Their object is the workload's own, or nobody's. *)
Lemma generated_owner source cfg op :
  generated source cfg op →
  (owned_meta source (o_Meta (op_Resource op)) ∧ TypeOf (op_Resource op) ∈ owned_types) ∨
  OwnerReferences (o_Meta (op_Resource op)) = None.
Proof.
  intros [[Hm Hk]|[(Hm & Hk & _)|[(Hm & Hk & _)|[(_ & ? & _)|(_ & ? & _)]]]]; [left|left|left|by right..]; (split; [done|]).
  - apply bool_decide_eq_true in Hk as [Hk _]. unfold owned_types. do 2 right.
    change (TypeOf (op_Resource op)) with (kind_of (op_Resource op)).2. apply list_elem_of_fmap. eauto.
  - injection Hk as _ ->. by left.
  - injection Hk as _ ->. by right; left.
Qed.

(** Kinds the generators use, where the configuration registers the optional ones. *)
Definition registered_kinds (config : Config) : list (GroupVersionKind * GoType) :=
  owned_kinds ++ google_kinds ++
  (if FQDNPolicyEnabled config then [fqdn_kind] else []) ++
  (if PrometheusOperator (cfg_Features config) then [monitor_kind] else []).

Lemma generated_kind source cfg op :
  generated source cfg op → kind_of (op_Resource op) ∈ registered_kinds (opt_Config cfg).
Proof.
  unfold registered_kinds. rewrite !elem_of_app.
  intros [[_ Hk]|[(_ & -> & Hf & _)|[(_ & -> & Hf & _)|[(_ & _ & _ & _ & Hk & _)|(_ & _ & _ & _ & -> & _)]]]].
  - apply bool_decide_eq_true in Hk as [Hk _]. by left.
  - unfold IsFQDNPolicyEnabled in Hf. rewrite Hf. do 2 right. left. by left.
  - unfold IsPrometheusOperatorEnabled in Hf. rewrite Hf. do 3 right. by left.
  - by right; left.
  - left. unfold owned_kinds. set_solver.
Qed.
End generated.

(** ** The pod *)

Section pods.
Context `{L : Liberator} `{U : UrlLib} `{AM : ApiMachinery} `{SL : StructLib} `{R : MapRange}.
Implicit Types (source : Source) (cfg o : Options) (ast : Ast).

Lemma postgres_if_keeps source cfg (b : bool) ast ast' :
  (if b then postgres_Create source ast cfg else Ok ast) = Ok ast' → keeps_typed ast ast'.
Proof. destruct b; [apply postgres_keeps|by intros [= <-]]. Qed.

Lemma Application_pod week source cfg ast : Application_ast week source cfg = Ok ast → has_typed_pod ast.
Proof.
  unfold Application_ast. case_bool_decide as Hk; [done|]. cbn zeta. intros H.
  set (a0 := fqdnpolicy_Create source _ cfg) in H.
  assert (A0 : ast_typed a0).
  { subst a0. apply fqdnpolicy_keeps, networkpolicy_keeps, hpa_keeps, serviceaccount_keeps, service_keeps,
      env_keeps, NewAst_typed. }
  clearbody a0. apply res_bind_ok_inv in H as (a1 & A1%frontend_keeps & H).
  apply res_bind_ok_inv in H as (a2 & A2%observability_keeps & H).
  apply res_bind_ok_inv in H as (a3 & A3%ingress_keeps & H).
  apply res_bind_ok_inv in H as (a4 & A4%leaderelection_keeps & H).
  apply res_bind_ok_inv in H as ([az a5] & A5%azure_keeps & H).
  apply res_bind_ok_inv in H as ([idp a6] & A6%idporten_keeps & H).
  apply res_bind_ok_inv in H as (a7 & A7%login_keeps & H).
  apply res_bind_ok_inv in H as (a8 & A8%gcp_keeps & H).
  apply res_bind_ok_inv in H as (a9 & A9%postgres_if_keeps & H).
  apply res_bind_ok_inv in H as (a10 & A10%proxyopts_keeps & H).
  apply res_bind_ok_inv in H as ([mp a11] & A11%maskinporten_keeps & H).
  apply res_bind_ok_inv in H as ([tx a12] & A12%jwker_keeps & H).
  apply res_bind_ok_inv in H as (a13 & A13%aiven_keeps & H).
  apply res_bind_ok_inv in H as (a14 & A14%vault_keeps & H).
  apply res_bind_ok_inv in H as (a15 & A15%texas_keeps & H).
  apply res_bind_ok_inv in H as (a16 & A16%CreateAppContainer_keeps & H).
  apply res_bind_ok_inv in H as (a17 & A17%deployment_typed & H).
  2: { apply A16, A15, A14, A13, A12, pdb_keeps, certificateauthority_keeps, A11, A10, A9, A8, A7, A6, A5, A4, A3, A2, A1, A0. }
  destruct A17 as (op & spec & Hop & Hs). simplify_eq. exists op, spec. split; [|done].
  unfold podmonitor_Create. case_match; [done|]. apply elem_of_app. by left.
Qed.

Lemma Naisjob_pod week source cfg ast : Naisjob_ast week source cfg = Ok ast → has_typed_pod ast.
Proof.
  unfold Naisjob_ast. case_bool_decide as Hk; [done|]. cbn zeta. intros H.
  set (a0 := fqdnpolicy_Create source _ cfg) in H.
  assert (A0 : ast_typed a0).
  { subst a0. apply fqdnpolicy_keeps, networkpolicy_keeps, serviceaccount_keeps, env_keeps, NewAst_typed. }
  clearbody a0. apply res_bind_ok_inv in H as (a1 & A1%observability_keeps & H).
  apply res_bind_ok_inv in H as ([az a2] & A2%azure_keeps & H).
  apply res_bind_ok_inv in H as (a3 & A3%gcp_keeps & H).
  apply res_bind_ok_inv in H as (a4 & A4%postgres_if_keeps & H).
  apply res_bind_ok_inv in H as (a5 & A5%proxyopts_keeps & H).
  apply res_bind_ok_inv in H as ([mp a6] & A6%maskinporten_keeps & H).
  apply res_bind_ok_inv in H as (a7 & A7%aiven_keeps & H).
  apply res_bind_ok_inv in H as (a8 & A8%vault_keeps & H).
  apply res_bind_ok_inv in H as (a9 & A9%texas_keeps & H).
  apply res_bind_ok_inv in H as (a10 & A10%CreateNaisjobContainer_keeps & H).
  eapply cronjob_typed; [exact H|].
  apply A10, A9, A8, A7, A6, certificateauthority_keeps, A5, A4, A3, A2, A1, A0.
Qed.
End pods.

(** ** What [Prepare] reads *)

Section prepare_lemmas.
Context `{L : Liberator} `{U : UrlLib} `{AM : ApiMachinery} `{SL : StructLib} `{R : MapRange}.

Lemma prepareSqlInstance_reads source o : read_only (prepareSqlInstance source o).
Proof. unfold prepareSqlInstance. solve_ops. Qed.

Lemma preparePostgres_reads source o : read_only (preparePostgres source o).
Proof. unfold preparePostgres. solve_ops. Qed.

Lemma get_optional_reads pre t k : read_only (get_optional pre t k).
Proof. unfold get_optional. solve_ops. Qed.

Lemma name_taken_reads t k : read_only (name_taken t k).
Proof. unfold name_taken. solve_ops. Qed.

Hint Resolve prepareSqlInstance_reads preparePostgres_reads get_optional_reads name_taken_reads
  RedirectAllowed_reads : nais.

Lemma Application_Prepare_reads config source : read_only (Application_Prepare config source).
Proof.
  unfold Application_Prepare. case_bool_decide; [constructor|]. cbn zeta.
  unfold read_only. apply all_ops_try; [apply get_optional_reads|intros deploy].
  apply all_ops_mbind; [apply name_taken_reads|intros []; [constructor|]].
  apply all_ops_try; [apply get_optional_reads|intros ns]. apply all_ops_try; [apply RedirectAllowed_reads|intros _].
  apply all_ops_try; [apply prepareSqlInstance_reads|intros o1].
  apply all_ops_try; [apply preparePostgres_reads|constructor].
Qed.

Lemma Naisjob_Prepare_reads config source : read_only (Naisjob_Prepare config source).
Proof.
  unfold Naisjob_Prepare. case_bool_decide; [constructor|]. cbn zeta.
  unfold read_only. apply all_ops_try; [apply get_optional_reads|intros ns].
  apply all_ops_mbind; [apply name_taken_reads|intros []; [constructor|]].
  apply all_ops_try; [apply prepareSqlInstance_reads|intros o1].
  apply all_ops_try; [apply preparePostgres_reads|constructor].
Qed.

Lemma read_only_no_status {A} (p : prog A) : read_only p → all_ops (fun X e => is_status_write e = false) p.
Proof. apply all_ops_impl. by intros X []. Qed.

(** Both generators keep what the synchronizer relies on. *)
#[export] Instance Application_Generator_no_status config week : GeneratorNoStatus (Application_Generator config week).
Proof. intros s. apply read_only_no_status, Application_Prepare_reads. Qed.

#[export] Instance Naisjob_Generator_no_status config week : GeneratorNoStatus (Naisjob_Generator config week).
Proof. intros s. apply read_only_no_status, Naisjob_Prepare_reads. Qed.

Context {W : Type} `{ApiServerLaws W}.

(** The run of a read-only program: its answer, and a cluster with the same
    objects. *)
Lemma read_only_step {A} (p : prog A) (w : W) r w' :
  read_only p → run p w = (r, w') → ∀ t k, stored w' t k = stored w t k.
Proof. intros Hp Hr t k. pose proof (read_only_run p w Hp t k) as Hs. by rewrite Hr in Hs. Qed.

(** A step of a program that succeeded. *)
Lemma read_try_inv {E A B} (p : prog (res E A)) (f : A → prog (res E B)) (w w' : W) b :
  read_only p → run (prog_try p f) w = (Ok b, w') →
  ∃ a w1, run p w = (Ok a, w1) ∧ (∀ t k, stored w1 t k = stored w t k) ∧ run (f a) w1 = (Ok b, w').
Proof.
  intros Hp. run_step. destruct (run p w) as [[a|e] w1] eqn:E1; [|done].
  intros Hf. exists a, w1. split_and!; [done| |done]. by eapply read_only_step.
Qed.

Lemma get_optional_ok pre t k (w w' : W) r :
  run (get_optional pre t k) w = (Ok r, w') → r = stored w t k.
Proof.
  unfold get_optional. run_step. pose proof (server_get_ok t k w) as Hg. pose proof (server_get_notfound t k w) as Hn.
  call_case [[o|e] w1]; simpl.
  - intros [= <- _]. by rewrite (Hg o eq_refl).
  - destruct (IsNotFound e) eqn:He; [|done]. intros [= <- _]. by rewrite (Hn e eq_refl He).
Qed.

(** What [Prepare] finds out about the Postgres cluster ([own] when there is none). *)
Definition prepared_engine source (w : W) (own engine : string) : Prop :=
  match v_Postgres (v_Backing (src_View source)) with
  | None => engine = own
  | Some cluster => engine ∈ AllEngines ∧
      ∃ pg, stored w TPostgres (mkKey (GetNamespace source) cluster) = Some pg ∧ postgres_engine pg = engine
  end.

Lemma preparePostgres_ok source o (w w' : W) o' :
  run (preparePostgres source o) w = (Ok o', w') →
  ∃ engine, o' = set_PostgresClusterEngine engine o ∧
    prepared_engine source w (opt_PostgresClusterEngine o) engine.
Proof.
  unfold preparePostgres, prepared_engine.
  destruct (v_Postgres _) as [cluster|].
  2: { intros [= -> _]. eexists. split; [|reflexivity]. by destruct o'. }
  run_step. pose proof (server_get_ok TPostgres (mkKey (GetNamespace source) cluster) w) as Hg.
  call_case [[pg|e] w1]; [|done]. specialize (Hg _ eq_refl). cbn zeta.
  case_bool_decide; [done|]. destruct (bool_decide (_ ∉ AllEngines)) eqn:E; [done|].
  apply bool_decide_eq_false in E. intros [= <- _]. eexists. split; [reflexivity|]. split; [|by exists pg].
  by destruct (decide (postgres_engine pg ∈ AllEngines)).
Qed.

(** The SQL instance [Prepare] looks up: only with CNRM, a shared VPC and exactly
    one instance in the manifest. *)
Definition sql_lookup source o : option ObjectKey :=
  match v_GCP (v_Backing (src_View source)) with
  | Some gcp =>
      match gcp_SqlInstances gcp with
      | [i] => if IsGCPEnabled o && SQLInstanceInSharedVpc (cfg_Features (opt_Config o))
               then Some (mkKey (GetNamespace source) (sql_instance_name source i)) else None
      | _ => None
      end
  | None => None
  end.

(** What it finds out about the instance. *)
Definition prepared_sql source o (w : W) : SqlInstanceState :=
  match sql_lookup source o with
  | None => opt_SqlInstance o
  | Some key =>
      match stored w TSQLInstance key with
      | Some sql => mkSqlInstanceState true (hasPrivateIpInSharedVpc sql o)
      | None => mkSqlInstanceState false (sql_hasPrivateIpInSharedVpc (opt_SqlInstance o))
      end
  end.

Lemma prepareSqlInstance_ok source o (w w' : W) o' :
  run (prepareSqlInstance source o) w = (Ok o', w') → o' = set_SqlInstance (prepared_sql source o w) o.
Proof.
  assert (Hsame : o = set_SqlInstance (opt_SqlInstance o) o) by (by destruct o).
  unfold prepareSqlInstance, prepared_sql, sql_lookup.
  destruct (v_GCP _) as [gcp|]; [|by intros [= -> _]].
  destruct (IsGCPEnabled o); cbn [negb andb]; [|by destruct (gcp_SqlInstances gcp) as [|? []]; intros [= -> _]].
  destruct (gcp_SqlInstances gcp) as [|i []]; [by intros [= -> _]| |by intros [= -> _]].
  destruct (SQLInstanceInSharedVpc _); cbn [negb]; [|by intros [= -> _]].
  set (key := mkKey _ _). run_step.
  pose proof (server_get_ok TSQLInstance key w) as Hg. pose proof (server_get_notfound TSQLInstance key w) as Hn.
  call_case [[sql|e] w1]; cbn [run].
  - intros [= <- _]. by rewrite (Hg sql eq_refl).
  - destruct (IsNotFound e) eqn:He; cbn [negb]; [|done]. intros [= <- _]. by rewrite (Hn e eq_refl He).
Qed.

Lemma name_taken_free t k (w : W) :
  (run (name_taken t k) w).1 = false →
  ∃ e, (handle _ (Get t k) w).1 = Err e ∧ (IsNotFound e = true → stored w t k = None).
Proof.
  unfold name_taken. run_step. pose proof (server_get_notfound t k w) as Hn.
  call_case [[o|e] w1]; [done|]. intros _. exists e. split; [done|]. by apply Hn.
Qed.
End prepare_lemmas.


(** ** Properties *)

Section properties.
Context `{L : Liberator} `{U : UrlLib} `{AM : ApiMachinery} `{SL : StructLib} `{R : MapRange} `{!MapRangeLaws R}.
Context {W : Type} `{ApiServerLaws W}.

(** C9. Everything a generator produces belongs to the workload: each operation
    of a generated application or job applies (never deletes) an object of a known
    kind in the workload's namespace whose only owner is the workload and whose app label
    is its name, where the two kinds that have to be registered appear only if the
    configuration registers them; or it creates (never overwrites) one of the workload's
    two Google identities; or it is on the policy of a shared database pooler. *)
Theorem generated_belongs week source cfg ops op :
  Application_Generate week source cfg = Ok ops ∨ Naisjob_Generate week source cfg = Ok ops →
  op ∈ ops →
  owned source op ∨ owned_if (IsFQDNPolicyEnabled cfg) fqdn_kind source op ∨
  owned_if (IsPrometheusOperatorEnabled cfg) monitor_kind source op ∨
  google_shared source op ∨ zalando_shared source op.
Proof.
  intros Hall%Generate_generated Hop. rewrite Forall_forall in Hall. by apply Hall.
Qed.

(** C10. Generated pods are well typed: whenever a generator succeeds, one of its
    operations applies the workload's pod (a Deployment's or a CronJob's), and every
    volume mount of every container of that pod, sidecars and init containers
    included, names a volume the pod declares, although volumes, mounts and
    containers are added by two dozen creators independently. *)
Theorem generated_pod_typed week source cfg ops :
  Application_Generate week source cfg = Ok ops ∨ Naisjob_Generate week source cfg = Ok ops →
  ∃ op spec, op ∈ ops ∧ pod_spec_of (op_Resource op) = Some spec ∧
    ∀ c m, c ∈ ps_InitContainers spec ++ ps_Containers spec → m ∈ c_VolumeMounts c →
      ∃ v, v ∈ ps_Volumes spec ∧ vol_Name v = vm_Name m.
Proof.
  intros Hg. assert (Hpod : ∃ ast, ast_Operations ast = ops ∧ has_typed_pod ast).
  { destruct Hg as [Hg|Hg]; apply res_bind_ok_inv in Hg as (ast & Hast & [= <-]); exists ast.
    - by apply Application_pod in Hast.
    - by apply Naisjob_pod in Hast. }
  destruct Hpod as (ast & <- & op & spec & Hop & Hs & Ht). exists op, spec. split_and!; [done..|].
  intros c m Hc Hm. unfold pod_typed, container_typed, mounts_in in Ht. rewrite Forall_forall in Ht.
  specialize (Ht c Hc). rewrite Forall_forall in Ht. apply Ht, list_elem_of_fmap in Hm as (v & ? & ?). by exists v.
Qed.

(** C5. A rollout stays at home: synchronizing what a generator produced changes
    no object outside the workload's namespace, the namespace of the Google
    identities and the workload's database namespace, unless the object carries
    the workload's own UID as owner. It holds on every cluster and whether or not
    the synchronization succeeds. *)
Theorem rollout_confined `{G : Generator} n cache (ro : Rollout) week cfg (w : W) t k :
  let source := ro_Source ro in
  Application_Generate week source cfg = Ok (ro_ResourceOperations ro) ∨
  Naisjob_Generate week source cfg = Ok (ro_ResourceOperations ro) →
  key_Namespace k ∉ reachable_namespaces source →
  (∀ o, stored w t k = Some o → ∀ r, r ∈ ownerRefs (o_Meta o) → or_UID r ≠ UID (src_Meta source)) →
  stored (run (Sync n cache ro) w).2 t k = stored w t k.
Proof.
  intros source Hall%Generate_generated Hk Hown. apply Sync_leaves. split; [|exact Hown].
  intros op Hop Hns. apply Hk. rewrite <-Hns. apply (generated_namespace source cfg).
  rewrite Forall_forall in Hall. by apply Hall.
Qed.

(** C16. Preparing an application changes nothing in the cluster, and when it
    succeeds the options are what the cluster says: the replicas follow the
    running deployment, the project is the namespace's annotation, the SQL
    instance is looked up only where the features ask for it, a Postgres cluster of
    the manifest exists and reports a known engine, and the team is the namespace.
    Every redirect is allowed, and the lookup of a job of the same name failed
    (whatever the failure: only a NotFound means there is none). *)
Theorem Application_Prepare_options config source (w w' : W) r :
  run (Application_Prepare config source) w = (r, w') →
  let key := mkKey (GetNamespace source) (GetName source) in
  let replicas := v_Replicas (src_View source) in
  (∀ t k, stored w' t k = stored w t k) ∧
  ∀ o, r = Ok o → GetNamespace source ≠ "" →
    src_Kind source = KApplication ∧ opt_Config o = config ∧ opt_Team o = GetNamespace source ∧
    opt_NumReplicas o =
      numReplicas (deployment_replicas (stored w TDeployment key)) (rep_Min replicas) (rep_Max replicas) ∧
    opt_GoogleTeamProjectID o = project_annotation (stored w TNamespace (mkKey "" (GetNamespace source))) ∧
    opt_SqlInstance o = prepared_sql source (newOptions config) w ∧
    prepared_engine source w "" (opt_PostgresClusterEngine o) ∧
    Forall (redirect_ok source w) (v_Redirects (src_View source)) ∧
    ∃ w1 e, (∀ t k, stored w1 t k = stored w t k) ∧ (handle _ (Get TNaisjob key) w1).1 = Err e ∧
      (IsNotFound e = true → stored w TNaisjob key = None).
Proof.
  intros Hrun key replicas. split; [by eapply read_only_step; [apply Application_Prepare_reads|]|].
  intros o -> Hns. revert Hrun. unfold Application_Prepare. fold key replicas.
  case_bool_decide as Hkind; [done|]. assert (src_Kind source = KApplication) as -> by (by destruct (src_Kind source)).
  cbn zeta. intros Hrun.
  apply read_try_inv in Hrun as (deploy & w1 & E1 & R1 & Hrun); [|apply get_optional_reads].
  apply get_optional_ok in E1 as ->. revert Hrun. rewrite run_mbind.
  pose proof (name_taken_free TNaisjob key w1) as Hfree.
  pose proof (read_only_step (name_taken TNaisjob key) w1) as R2.
  destruct (run (name_taken TNaisjob key) w1) as [[] w2]; [done|]. intros Hrun.
  specialize (R2 _ _ (name_taken_reads _ _) eq_refl). destruct (Hfree eq_refl) as (e & He & Hnf).
  apply read_try_inv in Hrun as (ns & w3 & E3 & R3 & Hrun); [|apply get_optional_reads].
  apply get_optional_ok in E3 as ->.
  apply read_try_inv in Hrun as ([] & w4 & E4 & R4 & Hrun); [|apply RedirectAllowed_reads].
  apply (RedirectAllowed_all source _ _ Hns) in E4.
  apply read_try_inv in Hrun as (o5 & w5 & E5 & R5 & Hrun); [|apply prepareSqlInstance_reads].
  apply prepareSqlInstance_ok in E5.
  apply read_try_inv in Hrun as (o6 & w6 & E6 & _ & Hrun); [|apply preparePostgres_reads].
  apply preparePostgres_ok in E6 as (engine & -> & Hengine). injection Hrun as <- _. subst o5.
  assert (Hst : ∀ t k, stored w4 t k = stored w t k) by (intros; by rewrite R4, R3, R2, R1).
  split_and!; try done; cbn [opt_GoogleTeamProjectID set_Team set_PostgresClusterEngine set_SqlInstance
    set_GoogleTeamProjectID opt_SqlInstance opt_PostgresClusterEngine].
  - by rewrite R2, R1.
  - unfold prepared_sql. change (sql_lookup source (set_GoogleTeamProjectID _ _)) with (sql_lookup source (newOptions config)).
    destruct (sql_lookup source (newOptions config)) as [key'|]; [|done]. by rewrite Hst.
  - revert Hengine. unfold prepared_engine. destruct (v_Postgres _) as [cluster|]; [|done]. by rewrite R5, Hst.
  - eapply Forall_impl; [exact E4|]. intros x. apply redirect_ok_mono. intros. by rewrite R3, R2, R1.
  - exists w1, e. split_and!; [done..|]. intros Hn. rewrite <-R1. by apply Hnf.
Qed.
End properties.

(** ** Witnesses *)

Section witnesses.
#[local] Existing Instances sample_liberator sample_url sample_machinery sample_structs sample_range sample_range_laws.

(** An application with a login, Google resources and a Postgres cluster. *)
Definition platform_app : Source :=
  mkSource app_gvk (sample_meta "myapp" "team-a" "uid-1" []) KApplication
    (view_of "repo/app:1" ["https://app.nais.io"] [] (v_Auth (src_View azure_app)) plain_platform
       (mkBackingView None None [] (v_GCP (v_Backing (src_View gcp_app))) (Some "mydb"))) emptyStatus.

Definition platform_options : Options :=
  mkOptions full_config "team-project" 2 "team-a" (mkSqlInstanceState true false) EngineCNPG.

Definition platform_ops : list Operation :=
  match Application_Generate (2024, 7)%Z platform_app platform_options with Ok ops => ops | Err _ => [] end.

Lemma platform_ops_ok : Application_Generate (2024, 7)%Z platform_app platform_options = Ok platform_ops.
Proof.
  assert (H : is_ok (Application_Generate (2024, 7)%Z platform_app platform_options) = true)
    by (vm_compute; reflexivity).
  unfold platform_ops. by destruct (Application_Generate _ _ _).
Qed.

Example platform_ops_count : length platform_ops = 33%nat.
Proof. vm_compute. reflexivity. Qed.

Lemma first_op_ok : ∃ op, op ∈ platform_ops ∧ o_GVK (op_Resource op) = mkGVK "" "v1" "Service".
Proof.
  assert (H : o_GVK <$> (op_Resource <$> platform_ops !! 0%nat) = Some (mkGVK "" "v1" "Service"))
    by (vm_compute; reflexivity).
  destruct (platform_ops !! 0%nat) as [op|] eqn:E; [|done]. exists op. split; [by eapply list_elem_of_lookup_2|].
  by injection H.
Qed.

Lemma generated_belongs_witness :
  ∃ op, o_GVK (op_Resource op) = mkGVK "" "v1" "Service" ∧
    (owned platform_app op ∨ owned_if (IsFQDNPolicyEnabled platform_options) fqdn_kind platform_app op ∨
     owned_if (IsPrometheusOperatorEnabled platform_options) monitor_kind platform_app op ∨
     google_shared platform_app op ∨ zalando_shared platform_app op).
Proof.
  destruct first_op_ok as (op & Hop & Hg). exists op. split; [exact Hg|].
  exact (generated_belongs (2024, 7)%Z platform_app platform_options platform_ops op (or_introl platform_ops_ok) Hop).
Defined.

Lemma generated_pod_typed_witness :
  ∃ op spec, op ∈ platform_ops ∧ pod_spec_of (op_Resource op) = Some spec.
Proof.
  destruct (generated_pod_typed (2024, 7)%Z platform_app platform_options platform_ops (or_introl platform_ops_ok))
    as (op & spec & Hop & Hs & _). exists op, spec. split; [exact Hop|exact Hs].
Defined.

#[local] Existing Instances list_finalizers.
#[local] Instance platform_generator : Generator := Application_Generator full_config (2024, 7)%Z.

Definition platform_sync : Synchronizer := mkSynchronizer full_config [TDeployment; TService].

(** A Service of the same name in another team's namespace. *)
Definition foreign_service : Object :=
  mkObject (mkGVK "" "v1" "Service") (SetNamespace "team-b" (SetName "myapp" emptyMeta))
    (BService (mkServiceSpec "10.0.0.7" "ClusterIP" ∅ [])).

Definition platform_rollout : Rollout :=
  mkRollout (G := platform_generator) platform_app platform_ops platform_options "id" "hash".

Lemma rollout_confined_witness :
  stored (run (Sync platform_sync ∅ platform_rollout) (mem_of [sample_ns; foreign_service])).2
    TService (mkKey "team-b" "myapp") = Some foreign_service.
Proof.
  refine (eq_trans (rollout_confined platform_sync ∅ platform_rollout (2024, 7)%Z platform_options
    (mem_of [sample_ns; foreign_service]) TService (mkKey "team-b" "myapp") (or_introl platform_ops_ok) _ _) _).
  - apply (bool_decide_unpack _). vm_compute. exact I.
  - intros o Ho r Hr. assert (ownerRefs (o_Meta o) = []) as Hn by (injection Ho as <-; reflexivity).
    rewrite Hn in Hr. by apply elem_of_nil in Hr.
  - reflexivity.
Defined.

(** The cluster before the rollout: three replicas run, the database is ready. *)
Definition running_deployment : Object :=
  mkObject (mkGVK "apps" "v1" "Deployment") (SetNamespace "team-a" (SetName "myapp" emptyMeta))
    (BDeployment (mkDeploymentSpec (Some 3%Z) (mkSelector ∅) RecreateStrategy None None
                    (mkPodTemplate emptyMeta emptyPodSpec)) (mkDeploymentStatus 0 0 0 0)).

Definition postgres_cluster : Object :=
  mkObject (mkGVK "data.nais.io" "v1" "Postgres") (SetNamespace "team-a" (SetName "mydb" emptyMeta))
    (BPostgres (Some EngineCNPG)).

Definition running_cluster : Mem := mem_of [sample_ns; running_deployment; postgres_cluster].

Lemma platform_prepare_ok : is_ok (run (Application_Prepare full_config platform_app) running_cluster).1 = true.
Proof. vm_compute. reflexivity. Qed.

Lemma Application_Prepare_options_witness :
  ∃ o, (run (Application_Prepare full_config platform_app) running_cluster).1 = Ok o ∧
    opt_NumReplicas o = 3%Z ∧ opt_PostgresClusterEngine o = EngineCNPG.
Proof.
  destruct (run (Application_Prepare full_config platform_app) running_cluster) as [r w'] eqn:E.
  pose proof platform_prepare_ok as Hok. rewrite E in Hok. apply is_ok_elim in Hok as [o Ho]. simpl in Ho.
  destruct (Application_Prepare_options full_config platform_app running_cluster w' r E) as [_ H].
  destruct (H o Ho ltac:(discriminate)) as (_ & _ & _ & Hn & _ & _ & Hp & _).
  exists o. split; [exact Ho|]. split; [rewrite Hn; reflexivity|].
  destruct Hp as (_ & pg & Hpg & He). rewrite <-He.
  assert (pg = postgres_cluster) as -> by (injection Hpg as <-; reflexivity). reflexivity.
Defined.
End witnesses.
