(* ===== verification/Controllers.v ===== *)
(** * The controllers: what is reconciled, and when

    Models [pkg/controllers] (application.go, naisjob.go, externalimage.go,
    postgres_watch.go, options.go): the reconcilers that hand a request to their
    synchronizer, the watches that turn an event on another resource into
    requests, and the options of a controller. The builder and its predicates
    belong to controller-runtime; a watch is described by the resource it is on,
    whether its updates are filtered, and the function that maps its events. *)

From S2P Require Import Prelude GoStrings Kube Api Vendor Cluster MemServer Config Util Resource Samples Ingress Synchronizer SynchronizerProps Generators.

(** ** Options *)

(** The fields of [controller.Options] the source sets. *)
Record ControllerOptions := mkControllerOptions { MaxConcurrent : Z }.

Definition Option : Type := ControllerOptions → ControllerOptions.

Definition asControllerOptions (opts : list Option) : ControllerOptions :=
  foldl (fun o opt => opt o) (mkControllerOptions 0) opts.

Definition WithMaxConcurrentReconciles (n : Z) : Option := fun _ => mkControllerOptions n.

(** ** Watches *)

Definition mapImageToApplicationOrNaisjob (object : Object) : list ObjectKey :=
  [mkKey (Namespace (o_Meta object)) (Name (o_Meta object))].

(** [app.Spec.Postgres != nil && app.Spec.Postgres.ClusterName == obj.GetName()] *)
Definition names_cluster (obj workload : Object) : bool :=
  match object_source workload with
  | Some s =>
      match v_Postgres (v_Backing (src_View s)) with
      | Some clusterName => bool_decide (clusterName = Name (o_Meta obj))
      | None => false
      end
  | None => false
  end.

(** The body the two map functions share: list, filter, collect the keys. *)
Definition requeue (t : GoType) (obj : Object) : prog (list ObjectKey) :=
  r ← call (ListObjs t (mkListOptions [] [] (Namespace (o_Meta obj))));
  Ret match r with
      | Err _ => []
      | Ok items => map object_key (filter (fun o => names_cluster obj o = true) items)
      end.

Definition mapPostgresToApplications (obj : Object) : prog (list ObjectKey) := requeue TApplication obj.
Definition mapPostgresToNaisjobs (obj : Object) : prog (list ObjectKey) := requeue TNaisjob obj.

(** A [Watches] call: the resource, whether an update must change the annotations
    to be delivered, and the requests an event leads to. *)
Record Watch := mkWatch {
  watch_Type : GoType;
  watch_AnnotationsOnly : bool;
  watch_Map : Object → prog (list ObjectKey) }.

Definition image_watch : Watch :=
  mkWatch TImage false (fun image => Ret (mapImageToApplicationOrNaisjob image)).

Definition Application_watches (cfg : Config) : list Watch :=
  image_watch :: (if PostgresOperator (cfg_Features cfg)
                  then [mkWatch TPostgres true mapPostgresToApplications] else []).

Definition Naisjob_watches (cfg : Config) : list Watch :=
  image_watch :: (if PostgresOperator (cfg_Features cfg)
                  then [mkWatch TPostgres true mapPostgresToNaisjobs] else []).

(** ** Reconcilers *)

Section reconcilers.
Context `{L : Liberator} `{U : UrlLib} `{AM : ApiMachinery} `{SL : StructLib} `{R : MapRange} `{F : FinalizerLib}.

Definition ApplicationReconciler_Reconcile (n : Synchronizer) (week : Z * Z) (cache : gmap GroupVersionKind bool)
    (req : ObjectKey) : prog Outcome :=
  Reconcile (G := Application_Generator (sync_config n) week) n cache KApplication req.

Definition NaisjobReconciler_Reconcile (n : Synchronizer) (week : Z * Z) (cache : gmap GroupVersionKind bool)
    (req : ObjectKey) : prog Outcome :=
  Reconcile (G := Naisjob_Generator (sync_config n) week) n cache KNaisjob req.
End reconcilers.

(** ** Properties *)

Section properties.
Context `{L : Liberator} `{AM : ApiMachinery} `{SL : StructLib}.
Context {W : Type} `{ApiServerLaws W}.

(** A program that, with some answers, gets the object [k] of type [t]. *)
Fixpoint looks_up {A} (t : GoType) (k : ObjectKey) (p : prog A) : Prop :=
  match p with
  | Ret _ => False
  | Vis e c => match e with Get t' k' => t' = t ∧ k' = k | _ => False end ∨ ∃ x, looks_up t k (c x)
  end.

Lemma preparePostgres_looks_up s o k :
  looks_up TPostgres k (preparePostgres s o) ↔
  ∃ c, v_Postgres (v_Backing (src_View s)) = Some c ∧ k = mkKey (GetNamespace s) c.
Proof. unfold preparePostgres, mbind, prog_mbind. destruct (v_Postgres _) as [c|]; simpl; naive_solver. Qed.

Lemma names_cluster_spec obj workload o :
  Namespace (o_Meta workload) = Namespace (o_Meta obj) →
  names_cluster obj workload = true ↔
  ∃ s, object_source workload = Some s ∧ looks_up TPostgres (object_key obj) (preparePostgres s o).
Proof.
  intros Hns. setoid_rewrite preparePostgres_looks_up.
  unfold names_cluster, object_source, object_key, meta_key, GetNamespace.
  destruct (o_Body workload); try naive_solver. simpl. split.
  - destruct (v_Postgres _) as [c|] eqn:Hc; [|done]. rewrite bool_decide_eq_true. intros ->.
    eexists. split; [reflexivity|]. simpl. exists (Name (o_Meta obj)). by rewrite Hns.
  - intros (s & [= <-] & c & Hp & Heq). revert Hp Heq. simpl. intros -> [= _ ->].
    by apply bool_decide_eq_true.
Qed.

(** C29. The Postgres watch and [PreparePostgres] agree: when the workloads can be
    listed, an event on a Postgres cluster that reaches the map function requeues exactly
    the workloads of the watched kind whose preparation gets that very cluster; nothing
    else is requeued and the cluster is left as it is. When they cannot, the event is
    dropped. (Which events reach the map function is the predicate's choice: an update
    has to change an annotation, so one of the status alone requeues nothing.) *)
Theorem postgres_watch_exact kind obj o (w w' : W) reqs :
  Namespace (o_Meta obj) ≠ "" →
  run (requeue (workload_type kind) obj) w = (reqs, w') →
  (∀ t k, stored w' t k = stored w t k) ∧
  let listed := (handle _ (ListObjs (workload_type kind) (mkListOptions [] [] (Namespace (o_Meta obj)))) w).1 in
  (is_ok listed = false → reqs = []) ∧
  (is_ok listed = true → ∀ key, key ∈ reqs ↔
     ∃ s, stored w (workload_type kind) key = Some (source_object s) ∧
       looks_up TPostgres (object_key obj) (preparePostgres s o)).
Proof.
  intros Hne Hrun. set (lo := mkListOptions [] [] (Namespace (o_Meta obj))).
  revert Hrun. unfold requeue. fold lo. run_step.
  pose proof (server_read _ (ListObjs (workload_type kind) lo) w eq_refl) as Hr.
  pose proof (server_list_stored (workload_type kind) lo w) as Hst.
  pose proof (server_list_type (workload_type kind) lo w) as Hty.
  pose proof (server_list_namespace (workload_type kind) lo w) as Hn.
  pose proof (server_list_complete (workload_type kind) lo w) as Hc.
  call_case [[items|e] w1]; intros [= <- <-]; (split; [exact Hr|split; [done|]]); [|done].
  specialize (Hst _ eq_refl). specialize (Hty _ eq_refl). specialize (Hn _ eq_refl Hne).
  rewrite Forall_forall in Hst, Hty, Hn. intros _ key. rewrite list_elem_of_fmap.
  setoid_rewrite list_elem_of_filter. split.
  - intros (x & -> & Hnames & Hin). apply (names_cluster_spec _ _ o) in Hnames as (s & Hs & Hp); [|by apply Hn].
    exists s. split; [|done]. rewrite (source_object_source _ _ Hs). by apply Hst.
  - intros (s & Hs & Hp). assert (Hkey : key_Namespace key = Namespace (o_Meta obj)).
    { apply server_stored_type in Hs as [_ <-]. apply preparePostgres_looks_up in Hp as (c & _ & Hp).
      injection Hp as Hp _. done. }
    pose proof (server_stored_type _ _ _ _ Hs) as [_ Hk]. exists (source_object s).
    split_and!; [done| |apply (Hc items key); auto].
    apply (names_cluster_spec _ _ o); [apply Hn, (Hc items key); auto|]. exists s. split; [apply object_source_object|done].
Qed.
End properties.

(** ** Witnesses *)

Section witnesses.
#[local] Existing Instances sample_liberator.

Lemma postgres_watch_exact_witness :
  (run (requeue TApplication postgres_cluster) (mem_of [source_object platform_app; source_object sample_app])).1 =
  [mkKey "team-a" "myapp"] ∧
  (stored (mem_of [source_object platform_app]) TApplication (mkKey "team-a" "myapp") = Some (source_object platform_app) →
   mkKey "team-a" "myapp" ∈
     (run (requeue TApplication postgres_cluster) (mem_of [source_object platform_app])).1).
Proof.
  split; [reflexivity|]. intros Hst.
  destruct (run (requeue TApplication postgres_cluster) (mem_of [source_object platform_app])) as [reqs w'] eqn:E.
  destruct (postgres_watch_exact KApplication postgres_cluster (newOptions full_config) (mem_of [source_object platform_app]) w' reqs)
    as (_ & _ & Hiff); [discriminate|exact E|].
  apply Hiff; [reflexivity|]. exists platform_app. split; [exact Hst|]. left. split; reflexivity.
Defined.
End witnesses.
