(* ===== verification/Main.v ===== *)
(** * The main programs

    Models [cmd/naiserator/main.go] and [cmd/naiserator_webhook/main.go]: what [run]
    refuses to start with, the options of the controller manager, the resource types it
    has the synchronizers clean up, the client it gives them, their options, and the exit
    code. The calls it makes on the Kubernetes libraries can only fail; their errors are
    parameters. *)

From S2P Require Import Prelude GoStrings Kube Api Vendor Cluster MemServer Config Flags Scheme Util Resource Creators Samples Readonly Updater Synchronizer SynchronizerProps Google Gcp Postgres Generators Controllers.

(** What [ctrl.NewManager] is given: the client's rate limit (QPS is converted to a
    float32, exactly up to 2^24), the period of full synchronizations, the addresses of the
    metrics, health-probe and webhook servers. *)
Record ManagerOptions := mkManagerOptions {
  mgr_QPS : Z; mgr_Burst : Z; mgr_SyncPeriod : option Z; mgr_BindAddress : string;
  mgr_HealthProbeBindAddress : string; mgr_WebhookServer : option (string * Z) }.

(** Errors of the libraries, in the order of the calls. *)
Class Libraries := {
  scheme_All : option error;
  fqdn_AddToScheme : option error;
  pov1_AddToScheme : option error;
  ctrl_GetConfig : option error;
  ctrl_NewManager : ManagerOptions → option error;
  AddReadyzCheck : option error;
  scheme_Webhooks : option error;
  client_New : option error;
  SetupWithManager : list Watch → ControllerOptions → option error;
  mgr_Start : ManagerOptions → option error;
  (* [multierror.Error] of the problems in a list *)
  multierror_Error : list error → error;
}.

(** [if err := o; err != nil { return err }; k] *)
Definition unless {A} (o : option error) (k : res error A) : res error A :=
  match o with Some e => Err e | None => k end.

(** The types of the resources the synchronizers clean up. *)
Definition listers (cfg : Config) : list GoType :=
  GenericListers ++
  (if GCP (cfg_Features cfg)
   then GCPListers ++ (if bool_decide (0 < slen (AivenProject cfg))%nat then AivenListers else [])
   else []).

(** The client the synchronizers are given, as a transformer of what they run on it. *)
Definition main_client (cfg : Config) {A} (p : prog A) : prog A :=
  if DryRun cfg then readonly p else p.

(** What the manager is started with. *)
Record Program := mkProgram {
  prog_config : Config;
  prog_application : Synchronizer;
  prog_naisjob : Synchronizer;
  prog_options : ControllerOptions;
  prog_manager : ManagerOptions }.

Definition no_gateway : error :=
  Errorf "no gateway mappings defined. Will not be able to set the right gateway on the ingress".

Definition vault_check `{Libraries} (cfg : Config) : option error :=
  if Vault (cfg_Features cfg) then
    match Vault_Validate (cfg_Vault cfg) with
    | [] => None
    | problems => Some (multierror_Error problems)
    end
  else None.

Definition main_manager (cfg : Config) : ManagerOptions :=
  mkManagerOptions (RatelimitQPS cfg) (RatelimitBurst cfg) (Some (FullSyncInterval cfg)) (Bind cfg)
    (HealthProbeBindAddress cfg) None.

(** [run] up to the start of the manager. *)
Definition main_run `{Viper} `{Libraries} : res error Program :=
  cfg ← New;
  unless (vault_check cfg) (
  unless scheme_All (
  unless (if FQDNPolicyEnabled cfg then fqdn_AddToScheme else None) (
  unless (if PrometheusOperator (cfg_Features cfg) then pov1_AddToScheme else None) (
  unless ctrl_GetConfig (
  let manager := main_manager cfg in
  unless (ctrl_NewManager manager) (
  unless AddReadyzCheck (
  unless (if Webhook (cfg_Features cfg) then scheme_Webhooks else None) (
  if bool_decide (DomainIngressClassMapping cfg = []) then Err no_gateway else
  unless client_New (
  let application := NewSynchronizer cfg (listers cfg) in
  let opts := asControllerOptions [WithMaxConcurrentReconciles (MaxConcurrentReconciles cfg)] in
  unless (SetupWithManager (Application_watches cfg) opts) (
  let naisjob := NewSynchronizer cfg (listers cfg) in
  unless (SetupWithManager (Naisjob_watches cfg) opts) (
  Ok (mkProgram cfg application naisjob opts manager)))))))))))).

(** The exit code: [run] returns what the manager returns when it stops. *)
Definition main_main `{Viper} `{Libraries} : Z :=
  match main_run with
  | Err _ => 1
  | Ok p => match mgr_Start (prog_manager p) with Some _ => 1 | None => 0 end
  end.

(** ** The webhook program *)

Definition webhook_manager (cfg : Config) : ManagerOptions :=
  mkManagerOptions (RatelimitQPS cfg) (RatelimitBurst cfg) None (Bind cfg) "" (Some ("0.0.0.0", 8443%Z)).

(** [run] of the webhook program, up to the start of the manager. *)
Definition webhook_run `{Viper} `{Libraries} : res error ManagerOptions :=
  cfg ← New;
  unless scheme_All (
  unless ctrl_GetConfig (
  let manager := webhook_manager cfg in
  unless (ctrl_NewManager manager) (
  unless scheme_Webhooks (
  Ok manager)))).

Definition webhook_main `{Viper} `{Libraries} : Z :=
  match webhook_run with
  | Err _ => 1
  | Ok manager => match mgr_Start manager with Some _ => 1 | None => 0 end
  end.

(** ** Lemmas *)

Lemma unless_ok {A} (o : option error) (k : res error A) a : unless o k = Ok a ↔ o = None ∧ k = Ok a.
Proof. destruct o; naive_solver. Qed.

(** The Vault section is accepted exactly when all four of its settings are there. *)
Lemma vault_check_None `{Libraries} cfg :
  vault_check cfg = None ↔ (Vault (cfg_Features cfg) = true →
    let v := cfg_Vault cfg in
    vault_Address v ≠ "" ∧ vault_InitContainerImage v ≠ "" ∧ vault_AuthPath v ≠ "" ∧ vault_KeyValuePath v ≠ "").
Proof.
  unfold vault_check, Vault_Validate. destruct (Vault _); [|naive_solver].
  assert (Hlen : ∀ s, slen s = 0%nat ↔ s = "") by (intros []; simpl; naive_solver).
  repeat case_bool_decide; rewrite Hlen in *; simpl; naive_solver.
Qed.

Lemma main_run_ok `{Viper} `{Libraries} p :
  main_run = Ok p → ∃ cfg,
    New = Ok cfg ∧ vault_check cfg = None ∧ DomainIngressClassMapping cfg ≠ [] ∧
    p = mkProgram cfg (mkSynchronizer cfg (listers cfg)) (mkSynchronizer cfg (listers cfg))
          (mkControllerOptions (MaxConcurrentReconciles cfg)) (main_manager cfg).
Proof.
  unfold main_run. intros Hrun. apply res_bind_ok_inv in Hrun as (cfg & Hcfg & Hrun).
  exists cfg. do 8 (apply unless_ok in Hrun as [? Hrun]). case_bool_decide; [done|].
  do 3 (apply unless_ok in Hrun as [? Hrun]). by injection Hrun as <-.
Qed.

(** The webhook program starts whenever its libraries do: unlike the main program it
    does not look at the configuration it has read. *)
Lemma webhook_run_ok `{Viper} `{Libraries} m :
  webhook_run = Ok m ↔ ∃ cfg,
    New = Ok cfg ∧ m = webhook_manager cfg ∧ scheme_All = None ∧ ctrl_GetConfig = None ∧
    ctrl_NewManager m = None ∧ scheme_Webhooks = None.
Proof.
  unfold webhook_run. split.
  - intros Hrun. apply res_bind_ok_inv in Hrun as (cfg & Hcfg & Hrun). exists cfg.
    do 4 (apply unless_ok in Hrun as [? Hrun]). by injection Hrun as <-.
  - intros (cfg & -> & -> & H1 & H2 & H3 & H4). simpl. unfold unless. by rewrite H1, H2, H3, H4.
Qed.

(** Both programs succeed exactly when they can start and the manager stops without an
    error. *)
Lemma exit_codes `{Viper} `{Libraries} :
  (main_main = 0%Z ↔ ∃ p, main_run = Ok p ∧ mgr_Start (prog_manager p) = None) ∧
  (webhook_main = 0%Z ↔ ∃ m, webhook_run = Ok m ∧ mgr_Start m = None).
Proof.
  unfold main_main, webhook_main. split.
  - destruct main_run as [p|e]; [|split; [done|]; by intros (? & ? & _)].
    destruct (mgr_Start (prog_manager p)) eqn:Hs; split; try done.
    + intros (p' & [= <-] & ?). congruence.
    + intros _. by exists p.
  - destruct webhook_run as [m|e]; [|split; [done|]; by intros (? & ? & _)].
    destruct (mgr_Start m) eqn:Hs; split; try done.
    + intros (m' & [= <-] & ?). congruence.
    + intros _. by exists m.
Qed.

Section cleanup.
Context `{L : Liberator} `{!LiberatorOwnerLaws L}.

Lemma owner_of source r : r ∈ [GetOwnerReference source] → or_UID r = UID (src_Meta source).
Proof. rewrite list_elem_of_singleton. intros ->. apply GetOwnerReference_UID. Qed.

(** In Google's cloud, of the types the generators give a workload, those that are
    cleaned up are all but the unlisted ones. *)
Lemma listers_of_owned cfg t :
  GCP (cfg_Features cfg) = true → t ∈ owned_types → t ∈ listers cfg ↔ t ∉ unlisted.
Proof.
  intros Hgcp Ht. pose proof (proj1 (Forall_forall _ _) listers_cover t Ht) as Hc.
  unfold listers. rewrite Hgcp, app_assoc, elem_of_app, Hc. split; [|by left].
  intros [?|Ha]; [done|]. exfalso. case_bool_decide; [|by apply elem_of_nil in Ha].
  unfold owned_types, AivenListers in *. set_unfold in Ht. set_unfold in Ha. naive_solver.
Qed.
End cleanup.

(** ** Properties *)

Section properties.
Context `{L : Liberator} `{U : UrlLib} `{AM : ApiMachinery} `{SL : StructLib} `{R : MapRange} `{F : FinalizerLib}.
Context `{V : Viper} `{KL : Libraries} {W : Type} `{ApiServerLaws W}.

(** C6. What is created is cleaned up: let the program run in Google's cloud and
    let a workload's generator have emitted an operation whose object is still stored
    under the labels and owners it was given. When a later rollout of the same
    workload mentions that object no more, then it is among the leftovers the rollout
    deletes exactly when it has an owner and is neither a ConfigMap nor a PodMonitor. *)
Theorem leftovers_collected `{!LiberatorOwnerLaws L} `{!MapRangeLaws R} `{G : Generator} week p source cfg ops op ro (w : W) o :
  main_run = Ok p → GCP (cfg_Features (prog_config p)) = true →
  Application_Generate week source cfg = Ok ops ∨ Naisjob_Generate week source cfg = Ok ops →
  op ∈ ops →
  stored w (TypeOf (op_Resource op)) (object_key (op_Resource op)) = Some o →
  Labels (o_Meta o) = Labels (o_Meta (op_Resource op)) →
  OwnerReferences (o_Meta o) = OwnerReferences (o_Meta (op_Resource op)) →
  GetName (ro_Source ro) = GetName source → UID (src_Meta (ro_Source ro)) = UID (src_Meta source) →
  (∀ rop, rop ∈ ro_ResourceOperations ro → TypeOf (op_Resource rop) = TypeOf o →
     Name (o_Meta (op_Resource rop)) ≠ Name (o_Meta o)) →
  unwanted (prog_application p) ro w o ↔
  OwnerReferences (o_Meta o) ≠ None ∧ TypeOf o ∉ [TConfigMap; TPodMonitor].
Proof.
  intros (c & _ & _ & _ & ->)%main_run_ok Hgcp Hgen Hop Hst Hlab Hown Hname Huid Hnot.
  pose proof (proj1 (Forall_forall _ _) (Generate_generated _ _ _ _ Hgen) op Hop) as Hg.
  pose proof (server_stored_type _ _ _ _ Hst) as [Ht Hk]. rewrite <-Ht, <-Hk in Hst.
  destruct (generated_owner _ _ _ Hg) as [[(_ & Ho & Hl & _) Hty]|Hshared].
  - rewrite <-Ht in Hty. pose proof (listers_of_owned c _ Hgcp Hty) as Hlist.
    unfold unwanted. cbn [sync_listers prog_application]. rewrite Hlist, Hname. split; [|intros [_ ?]].
    + intros (? & _). split; [congruence|done].
    + split_and!; [done|done| | |done].
      * unfold HasLabel in *. by rewrite Hlab.
      * exists (GetOwnerReference source). unfold ownerRefs. rewrite Hown, Ho, GetOwnerReference_UID. set_solver.
  - assert (OwnerReferences (o_Meta o) = None) as Hn by (by rewrite Hown).
    unfold unwanted, ownerRefs. rewrite Hn. split; [|naive_solver].
    intros (_ & _ & _ & (r & Hr & _) & _). by apply elem_of_nil in Hr.
Qed.

(** C13. A dry run changes statuses only: when the program is configured to run dry,
    whatever either controller does on behalf of a workload leaves every object of
    the cluster as it was, up to the statuses of workloads. *)
Theorem dry_run_changes_statuses_only cfg n week cache req (w : W) t k :
  DryRun cfg = true →
  erase_status <$> stored (run (main_client cfg (ApplicationReconciler_Reconcile n week cache req)) w).2 t k =
    erase_status <$> stored w t k ∧
  erase_status <$> stored (run (main_client cfg (NaisjobReconciler_Reconcile n week cache req)) w).2 t k =
    erase_status <$> stored w t k.
Proof.
  intros Hdry. unfold main_client. rewrite Hdry.
  split; apply status_only_run, readonly_statuses; apply Reconcile_statuses; apply _.
Qed.
End properties.

(** ** Witnesses *)

Section witnesses.
#[local] Existing Instances sample_liberator sample_machinery sample_url sample_structs sample_range sample_range_laws.
#[local] Existing Instance list_finalizers.

#[local] Instance sample_viper : Viper := {| ReadInConfig := None; BindPFlags := None; Unmarshal := Ok full_config;
  AllKeys := []; viper_Get k := "" |}.
#[local] Instance sample_libraries : Libraries := {|
  scheme_All := None; fqdn_AddToScheme := None; pov1_AddToScheme := None; ctrl_GetConfig := None;
  ctrl_NewManager _ := None; mgr_Start _ := None; AddReadyzCheck := None; scheme_Webhooks := None; client_New := None;
  SetupWithManager _ _ := None;
  multierror_Error problems := Errorf (Join (map err_msg problems) "; ") |}.

Definition full_program : Program :=
  let sync := mkSynchronizer full_config (listers full_config) in
  mkProgram full_config sync sync (mkControllerOptions 1) (main_manager full_config).

Example full_program_runs : main_run = Ok full_program.
Proof. reflexivity. Qed.

(** Without gateway mappings, or with Vault half configured, nothing is started. *)
Example no_mapping_refused :
  let V : Viper := {| ReadInConfig := Some (ConfigFileNotFoundError no_gateway); BindPFlags := None;
                      Unmarshal := Ok (mkConfig 0 "" "" "" "" "" "" false false sample_features "" [] "" "" "" [] []
                        0 "" "" "" "" 1 "" (cfg_Observability sample_config) (cfg_Proxy sample_config) 0 0
                        (cfg_Synchronizer sample_config) "" (cfg_Vault sample_config) "");
                      AllKeys := []; viper_Get k := "" |} in
  main_run = Err no_gateway.
Proof. reflexivity. Qed.

#[local] Instance main_generator : Generator := Application_Generator full_config (2024, 7)%Z.

(** The next rollout of the application generates nothing any more. *)
Definition empty_rollout : Rollout := mkRollout (G := main_generator) platform_app [] platform_options "" "".

Lemma stored_alone o : stored (mem_of [o]) (TypeOf o) (object_key o) = Some o.
Proof. unfold stored, mem_server, mem_stored, mem_of. simpl. by rewrite decide_True. Qed.

Lemma first_op_facts :
  ∃ op, op ∈ platform_ops ∧ TypeOf (op_Resource op) = TService ∧ is_Some (OwnerReferences (o_Meta (op_Resource op))).
Proof.
  assert (H : (λ op, (TypeOf (op_Resource op), bool_decide (OwnerReferences (o_Meta (op_Resource op)) = None)))
    <$> platform_ops !! 0%nat = Some (TService, false)) by (vm_compute; reflexivity).
  destruct (platform_ops !! 0%nat) as [op|] eqn:E; [|done]. injection H as Ht Ho.
  exists op. split_and!; [by eapply list_elem_of_lookup_2|done|]. bool_case. by apply not_eq_None_Some.
Qed.

Lemma leftovers_collected_witness :
  ∃ o, TypeOf o = TService ∧ unwanted (prog_application full_program) empty_rollout (mem_of [o]) o.
Proof.
  destruct first_op_facts as (op & Hop & Ht & Ho). exists (op_Resource op). split; [exact Ht|].
  apply (leftovers_collected (2024, 7)%Z full_program platform_app platform_options platform_ops op empty_rollout
    (mem_of [op_Resource op]) (op_Resource op) full_program_runs eq_refl (or_introl platform_ops_ok) Hop).
  - apply stored_alone.
  - reflexivity.
  - reflexivity.
  - reflexivity.
  - reflexivity.
  - intros rop Hrop. by apply elem_of_nil in Hrop.
  - split; [by apply not_eq_None_Some|]. rewrite Ht. apply (bool_decide_unpack _). vm_compute. exact I.
Defined.

(** The same configuration, run dry. *)
Definition dry_config : Config :=
  mkConfig 0 "" "" "" "" "" "" true false sample_features "" [mkGateway ".nais.io" "nais"] "" "" "" [] []
    0 "" "" "" "" 1 "" (cfg_Observability sample_config) (cfg_Proxy sample_config) 0 0
    (cfg_Synchronizer sample_config) "" (cfg_Vault sample_config) "".

Lemma dry_run_changes_statuses_only_witness :
  erase_status <$> stored (run (main_client dry_config (ApplicationReconciler_Reconcile
    (mkSynchronizer dry_config []) (2024, 7)%Z ∅ (mkKey "team-a" "myapp")))
    (mem_of [sample_ns; source_object platform_app])).2 TApplication (mkKey "team-a" "myapp") =
  Some (erase_status (source_object platform_app)).
Proof.
  rewrite (proj1 (dry_run_changes_statuses_only dry_config (mkSynchronizer dry_config []) (2024, 7)%Z ∅
    (mkKey "team-a" "myapp") (mem_of [sample_ns; source_object platform_app]) TApplication
    (mkKey "team-a" "myapp") eq_refl)).
  reflexivity.
Defined.
End witnesses.
