(* ===== verification/Delivery.v ===== *)
(** * From a manifest to the cluster

    The end-to-end statement: the program of [Main], its controllers, the preparation
    and generation of [Generators] and the rollout of [Rollout] put together. When a
    reconciliation ends in the monitoring of a workload, the cluster has what the
    workload's manifest asks for and nothing it no longer asks for. *)

From S2P Require Import Prelude GoStrings Kube Api Vendor Cluster MemServer Config Flags Scheme Util Resource Creators Samples Readonly Updater Synchronizer SynchronizerProps Google Gcp Postgres Ingress Rollout Generators Controllers Main.

(** The scheme knows what [run] of the main program registers: the kinds of
    [liberator_scheme.All] and, where they are configured, the two others. *)
Class SchemeLaws (AM : ApiMachinery) (config : Config) : Prop :=
  scheme_knows : ∀ g t, (g, t) ∈ registered_kinds config → scheme_New g = Ok t.

(** Defaults are defaults of the specification. *)
Class LiberatorDefaultsLaws (L : Liberator) : Prop :=
  ApplyDefaults_meta : ∀ s s', ApplyDefaults s = Ok s' → src_Meta s' = src_Meta s.

Section delivery.
Context `{L : Liberator} `{U : UrlLib} `{AM : ApiMachinery} `{SL : StructLib} `{R : MapRange} `{F : FinalizerLib}.
Context `{KL : Libraries}.

(** The controller of a kind of workload, and the generator it works with. *)
Definition reconciler (p : Program) (kind : WorkloadKind) (week : Z * Z) (cache : gmap GroupVersionKind bool)
    (req : ObjectKey) : prog Outcome :=
  match kind with
  | KApplication => ApplicationReconciler_Reconcile (prog_application p) week cache req
  | KNaisjob => NaisjobReconciler_Reconcile (prog_naisjob p) week cache req
  end.

Definition generator_Prepare (kind : WorkloadKind) (config : Config) (source : Source) : prog (res error Options) :=
  match kind with
  | KApplication => Application_Prepare config source
  | KNaisjob => Naisjob_Prepare config source
  end.

Definition Generate (kind : WorkloadKind) (week : Z * Z) (source : Source) (o : Options) : res error (list Operation) :=
  match kind with
  | KApplication => Application_Generate week source o
  | KNaisjob => Naisjob_Generate week source o
  end.
End delivery.

(** ** Lemmas *)

(** No resource of a workload is a workload or an event, and none is looked for among
    the leftovers. *)
Lemma registered_unreported config o : kind_of o ∈ registered_kinds config → TypeOf o ∉ reported.
Proof.
  assert (H : Forall (λ k, k.2 ∉ reported) (registered_kinds config)).
  { unfold registered_kinds. repeat apply Forall_app_2; repeat case_match;
      apply (bool_decide_unpack _); vm_compute; exact I. }
  rewrite Forall_forall in H. exact (H (kind_of o)).
Qed.

Lemma listers_unreported cfg t : t ∈ listers cfg → t ∉ reported.
Proof.
  assert (H : Forall (λ t, t ∉ reported) (listers cfg)).
  { unfold listers. repeat apply Forall_app_2; repeat case_match;
      apply (bool_decide_unpack _); vm_compute; exact I. }
  rewrite Forall_forall in H. exact (H t).
Qed.

Section lemmas.
Context `{L : Liberator} `{U : UrlLib} `{AM : ApiMachinery} `{SL : StructLib} `{R : MapRange} `{!MapRangeLaws R}.
Context {W : Type} `{ApiServerLaws W}.

Lemma generated_plain config `{!SchemeLaws AM config} source cfg op :
  opt_Config cfg = config → generated source cfg op → plain (op_Resource op).
Proof.
  intros <- Hg. destruct (generated_plain_meta _ _ _ Hg) as [[? ?] _]. split_and!; [done..|].
  apply scheme_knows. by apply (generated_kind source).
Qed.

Lemma Generate_plain config `{!SchemeLaws AM config} kind week source cfg ops :
  opt_Config cfg = config → Generate kind week source cfg = Ok ops →
  Forall (λ op, plain (op_Resource op)) ops ∧
  ∀ op, op ∈ ops → Namespace (o_Meta (op_Resource op)) ∈ reachable_namespaces source ∧
    TypeOf (op_Resource op) ∉ reported ∧ op_Operation op ∈ applied.
Proof.
  intros Hc Hg. assert (Hall : Forall (generated source cfg) ops).
  { apply (Generate_generated week). by destruct kind; [left|right]. }
  rewrite Forall_forall in Hall. split.
  - apply Forall_forall. intros op Hop. by eapply generated_plain, Hall.
  - intros op Hop. specialize (Hall op Hop). split_and!.
    + by eapply generated_namespace.
    + by eapply registered_unreported, generated_kind.
    + by apply (generated_plain_meta source cfg).
Qed.

Lemma applied_creates op :
  op_Operation op ∈ applied → op_Operation op ≠ Resource.AnnotateIfExists → creates op.
Proof. unfold creates, applied. destruct (op_Operation op); set_solver. Qed.

(** The workload that is rolled out is the one that was asked for. *)
Lemma workload_named `{!LiberatorDefaultsLaws L} kind req app app' source (w : W) :
  stored w (workload_type kind) req = Some (source_object app) → ApplyDefaults (clear_status app) = Ok app' →
  same_workload app' source →
  GetName source = key_Name req ∧ GetNamespace source = key_Namespace req ∧ UID (src_Meta source) = UID (src_Meta app).
Proof.
  intros Hst Hd%ApplyDefaults_meta (_ & _ & Hn & Hns & Hu). apply server_stored_type in Hst as [_ <-].
  rewrite Hn, Hns, Hu. unfold GetName, GetNamespace. by rewrite Hd.
Qed.

(** Whatever the cluster, the options have the configuration they were made from. *)
Lemma backing_Prepare_config source o (w w' : W) o' :
  run (o ←! prepareSqlInstance source o; o ←! preparePostgres source o;
       Ret (Ok (set_Team (GetNamespace source) o))) w = (Ok o', w') → opt_Config o' = opt_Config o.
Proof.
  intros Hrun. apply read_try_inv in Hrun as (o1 & w1 & H1 & _ & Hrun); [|apply prepareSqlInstance_reads].
  apply prepareSqlInstance_ok in H1 as ->.
  apply read_try_inv in Hrun as (o2 & w2 & H2 & _ & Hrun); [|apply preparePostgres_reads].
  apply preparePostgres_ok in H2 as (engine & -> & _). by injection Hrun as <- _.
Qed.

Lemma Application_Prepare_config config source (w w' : W) o :
  run (Application_Prepare config source) w = (Ok o, w') → opt_Config o = config.
Proof.
  unfold Application_Prepare. case_bool_decide; [done|]. cbn zeta. intros Hrun.
  apply read_try_inv in Hrun as (deploy & w1 & _ & _ & Hrun); [|apply get_optional_reads].
  revert Hrun. rewrite run_mbind. destruct (run (name_taken _ _) w1) as [[] w2]; [done|]. intros Hrun.
  apply read_try_inv in Hrun as (ns & w3 & _ & _ & Hrun); [|apply get_optional_reads].
  apply read_try_inv in Hrun as ([] & w4 & _ & _ & Hrun); [|apply RedirectAllowed_reads].
  by apply backing_Prepare_config in Hrun.
Qed.

Lemma Naisjob_Prepare_config config source (w w' : W) o :
  run (Naisjob_Prepare config source) w = (Ok o, w') → opt_Config o = config.
Proof.
  unfold Naisjob_Prepare. case_bool_decide; [done|]. cbn zeta. intros Hrun.
  apply read_try_inv in Hrun as (ns & w1 & _ & _ & Hrun); [|apply get_optional_reads].
  revert Hrun. rewrite run_mbind. destruct (run (name_taken _ _) w1) as [[] w2]; [done|].
  apply backing_Prepare_config.
Qed.

(** What the reconciler of a kind does, in terms of the synchronizer. *)
Definition rolled_out config (kind : WorkloadKind) (week : Z * Z) (req : ObjectKey) (w w' : W) : Prop :=
  ∃ app app' source opts ops,
    stored w (workload_type kind) req = Some (source_object app) ∧
    ApplyDefaults (clear_status app) = Ok app' ∧ same_workload app' source ∧ opt_Config opts = config ∧
    (∃ w0, (∀ t k, stored w0 t k = stored w t k) ∧ (run (generator_Prepare kind config source) w0).1 = Ok opts) ∧
    Generate kind week source opts = Ok ops ∧
    ∃ (G : Generator) n ro cache cache' b w1 w2,
      sync_listers n = listers config ∧ ro_Source (G := G) ro = source ∧ ro_ResourceOperations ro = ops ∧
      (∀ t k, stored w1 t k = stored w t k) ∧ run (Sync n cache ro) w1 = ((b, None, cache'), w2) ∧
      (∀ t k, t ∉ reported → stored w' t k = stored w2 t k).

Lemma reconciler_rolled_out `{F : FinalizerLib} `{V : Viper} `{KL : Libraries} `{!ApiMachineryLaws AM}
    p kind week cache req out a (w w' : W) :
  main_run = Ok p → run (reconciler p kind week cache req) w = (out, w') → out_monitor out = Some a →
  (∃ app app', stored w (workload_type kind) req = Some (source_object app) ∧
     ApplyDefaults (clear_status app) = Ok app' ∧ up_to_date (prog_config p) app' ∧
     ∀ t k, stored w' t k = stored w t k) ∨ rolled_out (prog_config p) kind week req w w'.
Proof.
  intros (cfg & _ & _ & _ & ->)%main_run_ok Hrun Hmon. unfold reconciler in Hrun.
  assert (Hread : ∀ {A} (q : prog A) (w0 : W), read_only q → run (readonly q) w0 = run q w0)
    by (intros; by apply readonly_no_writes).
  destruct kind; (eapply Reconcile_rollout in Hrun as [?|Hro]; [by left| |done]);
    destruct Hro as (app & app' & ro & c & c' & b & w0 & w1 & w2 & Hst & Hd & Hs & Hp & Hg & Hw0 & Hw1 & Hsync & Ha);
    right; exists app, app', (ro_Source ro), (ro_Options ro), (ro_ResourceOperations ro);
    cbn [gen_Prepare gen_Options Application_Generator Naisjob_Generator] in *;
    (rewrite Hread in Hp by first [apply Application_Prepare_reads | apply Naisjob_Prepare_reads]).
  - assert (Hprep : ∃ w0, (∀ t k, stored w0 t k = stored w t k) ∧
      (run (generator_Prepare KApplication cfg (ro_Source ro)) w0).1 = Ok (ro_Options ro)) by (by exists w0).
    destruct (run _ w0) as [r w0'] eqn:Hrun; simpl in Hp; subst r. apply Application_Prepare_config in Hrun.
    split_and!; try done. eexists _, (mkSynchronizer cfg (listers cfg)), ro, c, c', b, w1, w2. by split_and!.
  - assert (Hprep : ∃ w0, (∀ t k, stored w0 t k = stored w t k) ∧
      (run (generator_Prepare KNaisjob cfg (ro_Source ro)) w0).1 = Ok (ro_Options ro)) by (by exists w0).
    destruct (run _ w0) as [r w0'] eqn:Hrun; simpl in Hp; subst r. apply Naisjob_Prepare_config in Hrun.
    split_and!; try done. eexists _, (mkSynchronizer cfg (listers cfg)), ro, c, c', b, w1, w2. by split_and!.
Qed.
End lemmas.

(** ** Properties *)

Section properties.
Context `{L : Liberator} `{U : UrlLib} `{AM : ApiMachinery} `{SL : StructLib} `{R : MapRange} `{F : FinalizerLib}.
Context `{V : Viper} `{KL : Libraries} {W : Type} `{ApiServerLaws W}.

End properties.

(** ** Witnesses *)

Section witnesses.
#[local] Existing Instances sample_liberator sample_machinery sample_url sample_structs sample_range sample_range_laws.
#[local] Existing Instances list_finalizers sample_viper sample_libraries.

#[local] Instance sample_scheme_laws : SchemeLaws sample_machinery full_config.
Proof.
  intros g t Hin.
  assert (H : Forall (λ k, kind_type (gvk_Kind k.1) = k.2) (registered_kinds full_config))
    by (apply (bool_decide_unpack _); vm_compute; exact I).
  rewrite Forall_forall in H. specialize (H _ Hin). simpl in *. by rewrite H.
Defined.

#[local] Instance sample_defaults_laws : LiberatorDefaultsLaws sample_liberator.
Proof. by intros s s' [= <-]. Defined.

(** The application of [Generators], stored and under the synchronizer's finalizer. *)
Definition managed_app : Source := set_src_Meta (SetFinalizers [NaiseratorFinalizer]) platform_app.

(** A Service of the application that its manifest does not lead to. *)
Definition old_service : Object :=
  mkObject (mkGVK "" "v1" "Service") (SetName "myapp-old" (CreateObjectMeta managed_app))
    (BService (mkServiceSpec "10.0.0.7" "ClusterIP" ∅ [])).

Definition managed_cluster : Mem := mem_of [sample_ns; source_object managed_app; postgres_cluster; old_service].

Definition managed_run : Outcome * Mem :=
  run (main_client full_config (reconciler full_program KApplication (2024, 7)%Z ∅ (mkKey "team-a" "myapp")))
    managed_cluster.

(** All 33 operations of the application took effect, and the old Service is gone. *)
Example managed_run_effect :
  (bool_decide (is_Some (out_monitor managed_run.1)),
   bool_decide (is_Some (stored managed_run.2 TDeployment (mkKey "team-a" "myapp"))),
   bool_decide (is_Some (stored managed_run.2 TService (mkKey "team-a" "myapp-old")))) = (true, true, false).
Proof. vm_compute. reflexivity. Qed.

Lemma managed_run_facts :
  is_Some (out_monitor managed_run.1) ∧
  stored managed_run.2 TDeployment (mkKey "team-a" "myapp") ≠
  stored managed_cluster TDeployment (mkKey "team-a" "myapp").
Proof.
  assert (stored managed_cluster TDeployment (mkKey "team-a" "myapp") = None) as -> by (vm_compute; reflexivity).
  pose proof managed_run_effect as H. apply pair_eq in H as [H _]. apply pair_eq in H as [H1 H2].
  apply bool_decide_eq_true in H1, H2. split; [exact H1|]. by apply not_eq_None_Some.
Qed.

Lemma managed_calm t k x : stored managed_cluster t k = Some x → DeletionTimestamp (o_Meta x) = None.
Proof.
  assert (Hall : Forall (λ o, DeletionTimestamp (o_Meta o) = None) (mem_objs managed_cluster))
    by (repeat constructor; reflexivity).
  simpl. unfold mem_stored. destruct (list_find _ _) as [[i o]|] eqn:Hf; [|done]. intros [= <-].
  apply list_find_Some in Hf as (Hi & _). rewrite Forall_forall in Hall.
  apply Hall. by eapply list_elem_of_lookup_2.
Qed.

End witnesses.
