(* ===== verification/SharedListers.v ===== *)
(** * Concurrent discovery on shared list objects

    [run] of [cmd/naiserator/main.go] makes one slice of list objects and hands it
    to both synchronizers; [FindAll] of [updater/updater.go] reads every list from
    the server into the object of its type and then appends the items of that object
    to its result, without a lock. Here any number of calls of [FindAll], of one
    controller or of both, run over the shared objects as a step relation, one step
    per access; the log records what the server answered to whom. A call whose listing fails
    returns the error and takes no more steps. *)

From stdpp Require Import functions.
From S2P Require Import Prelude GoStrings Kube Api Vendor Cluster MemServer Samples Updater.

(** A call of [FindAll] between two accesses: the types it still has to list, whether
    it has just listed the first of them, and the resources it has collected. *)
Record Call := mkCall {
  call_Source : Source;
  call_Labels : list (string * string);
  call_Todo : list GoType;
  call_Listed : bool;
  call_Found : list Object }.

Definition set_Listed (c : Call) : Call :=
  mkCall (call_Source c) (call_Labels c) (call_Todo c) true (call_Found c).

Definition append_items (items : list Object) (c : Call) : Call :=
  mkCall (call_Source c) (call_Labels c) (tail (call_Todo c)) false (call_Found c ++ items).

(** What the call returns when it has nothing left to list. *)
Definition call_result (c : Call) : list Object := withOwnerReference (call_Source c) (call_Found c).

Section shared.
Context `{AM : ApiMachinery} {W : Type} `{ApiServer W}.

(** The cluster, the shared list objects, the calls, and the answers so far. *)
Record Shared := mkShared {
  sh_World : W;
  sh_Lists : GoType → list Object;
  sh_Calls : gmap nat Call;
  sh_Log : list (nat * GoType * list Object) }.

Definition shared_start (w : W) : Shared := mkShared w (fun _ => []) ∅ [].

(** No other call is between listing [t] and reading the list object of [t]. *)
Definition exclusive (s : Shared) (i : nat) (t : GoType) : Prop :=
  ∀ j c, sh_Calls s !! j = Some c → j ≠ i → call_Listed c = true → head (call_Todo c) ≠ Some t.

(** Steps of the program ([guarded = false]), and of one that locks the list objects
    between the two accesses ([guarded = true]). *)
Inductive shared_step (types : list GoType) (guarded : bool) : Shared → Shared → Prop :=
| step_start s i source labelreq :
    sh_Calls s !! i = None → NewRequirement "app" (GetName source) = Ok labelreq →
    shared_step types guarded s
      (mkShared (sh_World s) (sh_Lists s)
         (<[i := mkCall source [labelreq] types false []]> (sh_Calls s)) (sh_Log s))
| step_list s i c t ts items w' :
    sh_Calls s !! i = Some c → call_Todo c = t :: ts → call_Listed c = false →
    (guarded = true → exclusive s i t) →
    handle _ (ListObjs t (mkListOptions (call_Labels c) [] "")) (sh_World s) = (Ok items, w') →
    shared_step types guarded s
      (mkShared w' (<[t := items]> (sh_Lists s)) (<[i := set_Listed c]> (sh_Calls s))
         (sh_Log s ++ [(i, t, items)]))
| step_append s i c t ts :
    sh_Calls s !! i = Some c → call_Todo c = t :: ts → call_Listed c = true →
    shared_step types guarded s
      (mkShared (sh_World s) (sh_Lists s) (<[i := append_items (sh_Lists s t) c]> (sh_Calls s))
         (sh_Log s))
| step_cluster s X (e : op X) :
    shared_step types guarded s
      (mkShared (handle _ e (sh_World s)).2 (sh_Lists s) (sh_Calls s) (sh_Log s)).

Inductive shared_reachable (types : list GoType) (guarded : bool) : Shared → Prop :=
| reachable_start w : shared_reachable types guarded (shared_start w)
| reachable_step s s' :
    shared_reachable types guarded s → shared_step types guarded s s' → shared_reachable types guarded s'.

(** What the server answered to one call, in order. *)
Definition answers (i : nat) (log : list (nat * GoType * list Object)) : list Object :=
  concat (map snd (filter (fun e => e.1.1 = i) log)).

Lemma answers_snoc i log j t items :
  answers i (log ++ [(j, t, items)]) = answers i log ++ (if decide (j = i) then items else []).
Proof.
  unfold answers. rewrite filter_app, map_app, concat_app. f_equal. rewrite filter_cons, filter_nil. simpl.
  destruct (decide (j = i)); simpl; [by rewrite app_nil_r|done].
Qed.
End shared.

#[global] Arguments Shared : clear implicits.

(** ** Lemmas *)

Section invariants.
Context `{AM : ApiMachinery} {W : Type} `{ApiServerLaws W}.
Implicit Types s : Shared W.

(** The object is in an answer of the server. *)
Definition answered s (o : Object) : Prop := ∃ e, e ∈ sh_Log s ∧ o ∈ e.2.

(** Nothing is made up: the lists and the calls hold answers, of the types asked for. *)
Record sound (types : list GoType) s : Prop := mkSound {
  sound_log : ∀ e o, e ∈ sh_Log s → o ∈ e.2 → TypeOf o ∈ types;
  sound_todo : ∀ i c t, sh_Calls s !! i = Some c → t ∈ call_Todo c → t ∈ types;
  sound_lists : ∀ t o, o ∈ sh_Lists s t → answered s o;
  sound_found : ∀ i c o, sh_Calls s !! i = Some c → o ∈ call_Found c → answered s o }.

Lemma sound_step types guarded s s' : shared_step types guarded s s' → sound types s → sound types s'.
Proof.
  intros Hstep [Hlog Htodo Hlists Hfound]. destruct Hstep as [s i src labelreq Hi _|s i c t ts items w' Hi Ht Hl _ Hh
    |s i c t ts Hi Ht Hl|s X e].
  - split; [done| |done|]; simpl.
    + intros j c t [[<- <-]|[_ Hj]]%lookup_insert_Some; [done|by eapply Htodo].
    + intros j c o [[<- <-]|[_ Hj]]%lookup_insert_Some; [by cbn; intros ?%elem_of_nil|by eapply Hfound].
  - pose proof (server_list_type t (mkListOptions (call_Labels c) [] "") (sh_World s) items) as Hty.
    rewrite Hh in Hty. specialize (Hty eq_refl). rewrite Forall_forall in Hty.
    assert (Hmono : ∀ o, answered s o → answered (mkShared w' (<[t := items]> (sh_Lists s))
      (<[i := set_Listed c]> (sh_Calls s)) (sh_Log s ++ [(i, t, items)])) o).
    { intros o (e & He & Ho). exists e. split; [apply elem_of_app; by left|done]. }
    split; simpl.
    + intros e o [He | ->%list_elem_of_singleton]%elem_of_app Ho; [by eapply Hlog|].
      rewrite (Hty o Ho). eapply Htodo; [exact Hi|]. rewrite Ht. by left.
    + intros j c' t' [[<- <-]|[_ Hj]]%lookup_insert_Some; [by apply (Htodo i c)|by eapply Htodo].
    + intros t' o Ho. destruct (decide (t = t')) as [<-|Hne].
      * rewrite fn_lookup_insert in Ho. exists (i, t, items). split; [apply elem_of_app; right; by left|done].
      * rewrite fn_lookup_insert_ne in Ho by done. by eapply Hmono, Hlists.
    + intros j c' o [[<- <-]|[_ Hj]]%lookup_insert_Some Ho; [by apply Hmono, (Hfound i c)|by eapply Hmono, Hfound].
  - split; [done| |done|]; simpl.
    + intros j c' t' [[<- <-]|[_ Hj]]%lookup_insert_Some; [|by eapply Htodo].
      simpl. rewrite Ht. intros Ht'. eapply Htodo; [exact Hi|]. rewrite Ht. by right.
    + intros j c' o [[<- <-]|[_ Hj]]%lookup_insert_Some; [|by eapply Hfound].
      simpl. intros [Ho|Ho]%elem_of_app; [by eapply Hfound|by eapply Hlists].
  - by split.
Qed.

Lemma sound_reachable types guarded s : shared_reachable types guarded s → sound types s.
Proof.
  induction 1 as [w|s s' _ IH Hstep]; [|by eapply sound_step].
  split; simpl; [by intros e o ?%elem_of_nil|done|by intros t o ?%elem_of_nil|done].
Qed.

(** What a call has just listed and not appended yet. *)
Definition pending s (c : Call) : list Object :=
  if call_Listed c then match call_Todo c with t :: _ => sh_Lists s t | [] => [] end else [].

(** Nothing is lost: a call holds its own answers. *)
Record complete s : Prop := mkComplete {
  complete_fresh : ∀ i, sh_Calls s !! i = None → answers i (sh_Log s) = [];
  complete_call : ∀ i c, sh_Calls s !! i = Some c → answers i (sh_Log s) = call_Found c ++ pending s c }.

Lemma complete_step types s s' : shared_step types true s s' → complete s → complete s'.
Proof.
  intros Hstep [Hfresh Hcall]. destruct Hstep as [s i src labelreq Hi _|s i c t ts items w' Hi Ht Hl Hex Hh
    |s i c t ts Hi Ht Hl|s X e]; [| | |by split].
  - split; simpl; intros j.
    + intros [? _]%lookup_insert_None. by apply Hfresh.
    + intros c [[<- <-]|[_ Hj]]%lookup_insert_Some; [by apply Hfresh|by apply Hcall].
  - split; simpl; intros j; rewrite answers_snoc.
    + intros [? ?]%lookup_insert_None. rewrite decide_False by done. rewrite app_nil_r. by apply Hfresh.
    + intros c' [[<- <-]|[Hne Hj]]%lookup_insert_Some.
      * rewrite decide_True by done. rewrite (Hcall i c Hi). unfold pending. simpl.
        rewrite Hl, Ht, app_nil_r, fn_lookup_insert. done.
      * rewrite decide_False by done. rewrite app_nil_r, (Hcall j c' Hj). f_equal. unfold pending. simpl.
        destruct (call_Listed c') eqn:Hl'; [|done]. destruct (call_Todo c') as [|t' ts'] eqn:Ht'; [done|].
        rewrite fn_lookup_insert_ne; [done|]. intros <-.
        by apply (Hex eq_refl j c' Hj (not_eq_sym Hne) Hl'); rewrite Ht'.
  - split; simpl; intros j.
    + intros [? _]%lookup_insert_None. by apply Hfresh.
    + intros c' [[<- <-]|[_ Hj]]%lookup_insert_Some; [|by apply Hcall].
      rewrite (Hcall i c Hi). unfold pending. simpl. by rewrite Hl, Ht, app_nil_r.
Qed.

Lemma complete_reachable types s : shared_reachable types true s → complete s.
Proof.
  induction 1 as [w|s s' _ IH Hstep]; [by split|by eapply complete_step].
Qed.
End invariants.

(** ** Properties *)

Section properties.
Context `{AM : ApiMachinery} {W : Type} `{ApiServerLaws W}.

(** C15. Discovery on shared list objects is safe, and exact under a lock: in every
    interleaving of any number of discoveries, whatever else happens to the cluster, a
    discovery returns only resources that are owned by its workload, of the listed types, and
    were answered by the server; and if nobody else lists a type between a discovery's
    listing of it and its use, then a finished discovery returns exactly the owned
    resources the server answered to it, in order. *)
Theorem shared_discovery types guarded (s : Shared W) i c :
  shared_reachable types guarded s → sh_Calls s !! i = Some c →
  (∀ o, o ∈ call_result c →
     (∃ r, r ∈ ownerRefs (o_Meta o) ∧ or_UID r = UID (src_Meta (call_Source c))) ∧
     TypeOf o ∈ types ∧ answered s o) ∧
  (guarded = true → call_Todo c = [] →
     call_result c = withOwnerReference (call_Source c) (answers i (sh_Log s))).
Proof.
  intros Hr Hi. split.
  - apply sound_reachable in Hr as [Hlog _ _ Hfound].
    intros o [Hin Hown]%withOwnerReference_spec. split; [done|].
    destruct (Hfound i c o Hi Hin) as (e & He & Ho). split; [by eapply Hlog|by exists e].
  - intros -> Htodo. apply complete_reachable in Hr as [_ Hcall]. rewrite (Hcall i c Hi). unfold pending.
    rewrite Htodo. by destruct (call_Listed c); rewrite app_nil_r.
Qed.
End properties.

(** ** Witnesses *)

#[local] Existing Instance sample_machinery.

Definition leftover : Object :=
  mkObject (mkGVK "" "v1" "Service")
    (SetLabels (Some {[ "app" := "myapp" ]}) (o_Meta (sample_service (Some [mkOwnerReference "nais.io/v1alpha1" "Application" "myapp" "uid-1" None None]) "")))
    (BService (mkServiceSpec "" "ClusterIP" ∅ [])).

Definition other_app : Source :=
  mkSource app_gvk (sample_meta "other" "team-a" "uid-2" []) KApplication sample_view emptyStatus.

(** The first discovery is about to list. *)
Definition shared_s1 : Shared Mem :=
  mkShared (mem_of [leftover]) (fun _ => []) {[ 0%nat := mkCall sample_app [("app", "myapp")] [TService] false [] ]} [].

Lemma shared_s1_reachable guarded : shared_reachable [TService] guarded shared_s1.
Proof.
  eapply reachable_step; [apply (reachable_start _ _ (mem_of [leftover]))|].
  exact (step_start _ _ (shared_start (mem_of [leftover])) 0 sample_app ("app", "myapp") eq_refl eq_refl).
Qed.

(** It has listed. *)
Definition shared_s2 : Shared Mem :=
  mkShared (mem_of [leftover]) (<[TService := [leftover]]> (fun _ => []))
    {[ 0%nat := mkCall sample_app [("app", "myapp")] [TService] true [] ]} [(0%nat, TService, [leftover])].

Lemma shared_s2_reachable guarded : shared_reachable [TService] guarded shared_s2.
Proof.
  eapply reachable_step; [apply shared_s1_reachable|].
  refine (step_list _ _ shared_s1 0 (mkCall sample_app [("app", "myapp")] [TService] false []) TService []
    [leftover] (mem_of [leftover]) eq_refl eq_refl eq_refl _ _).
  - intros _ j c Hj Hne. cbn [sh_Calls shared_s1] in Hj. apply lookup_singleton_Some in Hj as [<- _]. done.
  - vm_compute. reflexivity.
Qed.

(** It has collected what it listed. *)
Definition shared_s3 : Shared Mem :=
  mkShared (mem_of [leftover]) (<[TService := [leftover]]> (fun _ => []))
    {[ 0%nat := mkCall sample_app [("app", "myapp")] [] false [leftover] ]} [(0%nat, TService, [leftover])].

Lemma shared_s3_reachable guarded : shared_reachable [TService] guarded shared_s3.
Proof.
  eapply reachable_step; [apply shared_s2_reachable|].
  exact (step_append _ _ shared_s2 0 (mkCall sample_app [("app", "myapp")] [TService] true []) TService []
    eq_refl eq_refl eq_refl).
Qed.

Lemma shared_discovery_witness :
  call_result (mkCall sample_app [("app", "myapp")] [] false [leftover]) =
    withOwnerReference sample_app (answers 0 [(0%nat, TService, [leftover])]).
Proof.
  exact (proj2 (shared_discovery [TService] true shared_s3 0 _ (shared_s3_reachable true) eq_refl)
    eq_refl eq_refl).
Defined.

(** C39. Without a lock a discovery can lose a leftover: there is an execution in
    which the server answers a discovery with a resource its workload owns, the
    discovery finishes, and its result does not have the resource, because another
    discovery read its own, empty answer into the same list object in between. *)
Theorem shared_discovery_loses :
  ∃ (s : Shared Mem) c o,
    shared_reachable [TService] false s ∧ sh_Calls s !! 0%nat = Some c ∧ call_Todo c = [] ∧
    o ∈ withOwnerReference (call_Source c) (answers 0 (sh_Log s)) ∧ o ∉ call_result c.
Proof.
  set (c0 := mkCall sample_app [("app", "myapp")] [TService] true []).
  set (c1 := mkCall other_app [("app", "other")] [TService] false []).
  pose proof (reachable_step _ _ _ _ (shared_s2_reachable false)
    (step_start _ _ shared_s2 1 other_app ("app", "other") eq_refl eq_refl)) as R1.
  match type of R1 with shared_reachable _ _ ?s => set (s4 := s) in R1 end.
  assert (Hlist : handle _ (ListObjs TService (mkListOptions [("app", "other")] [] "")) (mem_of [leftover]) =
    (Ok [], mem_of [leftover])) by (vm_compute; reflexivity).
  pose proof (reachable_step _ _ _ _ R1 (step_list _ _ s4 1 c1 TService [] [] _ eq_refl eq_refl eq_refl
    (fun H => match Bool.diff_false_true H with end) Hlist)) as R2.
  match type of R2 with shared_reachable _ _ ?s => set (s5 := s) in R2 end.
  pose proof (reachable_step _ _ _ _ R2 (step_append _ _ s5 0 c0 TService [] eq_refl eq_refl eq_refl)) as R3.
  eexists _, _, leftover. split; [exact R3|]. split; [reflexivity|]. split; [reflexivity|]. split.
  - assert (E : withOwnerReference sample_app [leftover] = [leftover]) by (vm_compute; reflexivity).
    change (leftover ∈ withOwnerReference sample_app [leftover]). rewrite E. by left.
  - cbn. rewrite fn_lookup_insert. by intros ?%elem_of_nil.
Qed.
