(* ===== verification/Deepcomp.v ===== *)
(** * The comparison behind the golden files

    Models [pkg/test/deepcomp] (deepcomp.go, diffset.go): the comparison of decoded
    documents with which the tests of the resource creators state their expectations.
    A [reflect.Value] is its type and its contents; the address of a slice, map or
    pointer is kept, because equal addresses cut the comparison short. What [fmt]
    prints, [regexp] compiles and [reflect.DeepEqual] says of basic values are
    parameters. The order of [MapKeys] is the order of the entries. *)

From S2P Require Import Prelude GoStrings Regex Kube.

Definition dquote : string := String "034" "".

(** ** Values *)

Inductive Value (B : Type) :=
| Invalid
| Basic (b : B)
| Array (ty : string) (elems : list (Value B))
| Slice (ty : string) (ptr : Z) (elems : list (Value B))
| Interface (ty : string) (elem : Value B)
| Pointer (ty : string) (ptr : Z) (elem : Value B)
| Map (ty : string) (ptr : Z) (entries : list (string * Value B)).

Arguments Invalid {B}.
Arguments Basic {B} b.
Arguments Array {B} ty elems.
Arguments Slice {B} ty ptr elems.
Arguments Interface {B} ty elem.
Arguments Pointer {B} ty ptr elem.
Arguments Map {B} ty ptr entries.

(** Basic values: their types and kinds, [reflect.DeepEqual], [%+v] of a value, and
    [regexp.Compile] with the [MatchString] of what it returns. *)
Class Reflect (B : Type) := {
  basic_type : B → string;
  basic_kind : B → string;
  DeepEqual : B → B → bool;
  Sprint : Value B → string;
  regexp_Compile : string → res error (string → bool);
}.

(** ** diffset.go *)

Inductive MatchType := MatchRegex | MatchExact | MatchSubset | MatchAbsent | MatchUnknown (s : string).

Inductive ErrorType :=
| ErrMissingField | ErrExtraField | ErrTypeDiffers | ErrValueDiffers | ErrInvalidTypes | ErrInvalidRegex.

#[export] Instance ErrorType_eq_dec : EqDecision ErrorType.
Proof. solve_decision. Defined.

Record Diff (B : Type) := mkDiff {
  diff_Path : string; diff_Message : string; diff_Type : ErrorType; diff_A : Value B; diff_B : Value B }.

Arguments mkDiff {B}.
Arguments diff_Path {B}.
Arguments diff_Message {B}.
Arguments diff_Type {B}.
Arguments diff_A {B}.
Arguments diff_B {B}.

Abbreviation Diffset B := (list (Diff B)).

Definition Filter {B} (diffs : Diffset B) (errorType : ErrorType) : Diffset B :=
  filter (fun diff => diff_Type diff ≠ errorType) diffs.

(** ** deepcomp.go *)

Section deepcomp.
Context {B : Type} `{!Reflect B}.
Implicit Types (a b : Value B) (path : string).

Definition Kind_String a : string :=
  match a with
  | Invalid => "invalid"
  | Basic v => basic_kind v
  | Array _ _ => "array"
  | Slice _ _ _ => "slice"
  | Interface _ _ => "interface"
  | Pointer _ _ _ => "ptr"
  | Map _ _ _ => "map"
  end.

Definition expected_but_got a b : string :=
  "expected " +:+ Kind_String a +:+ " '" +:+ Sprint a +:+ "' but got " +:+ Kind_String b +:+ " '" +:+
  Sprint b +:+ "'".

Definition quoted (s : string) : string := dquote +:+ s +:+ dquote.

Definition index_path path (i : Z) : string := path +:+ "[" +:+ Itoa i +:+ "]".

(** Compare two values by optimistic matching. *)
Definition simplecmp (x y : B) path : Diffset B :=
  if DeepEqual x y then []
  else [mkDiff path (expected_but_got (Basic x) (Basic y)) ErrValueDiffers (Basic x) (Basic y)].

(** Compare two values by regular expression matching. *)
Definition regexcmp (x y : B) path : Diffset B :=
  let as_ := Sprint (Basic x) in
  let bs := Sprint (Basic y) in
  match regexp_Compile as_ with
  | Err e => [mkDiff path (err_msg e) ErrInvalidRegex (Basic x) (Basic y)]
  | Ok MatchString =>
      if MatchString bs then []
      else [mkDiff path ("regular expression " +:+ quoted as_ +:+ " doesn't match value " +:+ quoted bs)
              ErrValueDiffers (Basic x) (Basic y)]
  end.

Definition expected_len {A} (a b : list A) : string :=
  "expected " +:+ Itoa (Z.of_nat (length a)) +:+ " but got " +:+ Itoa (Z.of_nat (length b)).

(** ** Slices, arrays and maps

    The loops of [subsliceequal], [subslicesubset] and the map and array cases, with the
    comparison of the elements as an argument. *)

Section elements.
Variable equal : Value B → Value B → string → res error (Diffset B).

(** [for i := 0; i < a.Len(); i++] of [subsliceequal], from element [i] on; [report] makes
    the difference in length. *)
Fixpoint subsliceequal_from (report : ErrorType → Diff B) path (i : Z) (la lb : list (Value B)) : res error (Diffset B) :=
  match la, lb with
  | [], [] => Ok []
  | [], _ :: _ => Ok [report ErrExtraField]
  | _ :: _, [] => Ok [report ErrMissingField]
  | x :: la', y :: lb' =>
      d ← equal x y (index_path path i);
      ds ← subsliceequal_from report path (i + 1) la' lb';
      Ok (d ++ ds)
  end.

(** Check that two slices are exactly equal. *)
Definition subsliceequal a b path (la lb : list (Value B)) : res error (Diffset B) :=
  subsliceequal_from (fun t => mkDiff path (expected_len la lb) t a b) path 0 la lb.

(** The loop of [subslicesubset]: what is left of both slices, and the last comparison. *)
Fixpoint subset_scan path (la : list (Value B)) :
    list (Value B) → Z → Diffset B → res error (list (Value B) * list (Value B) * Diffset B) :=
  match la with
  | [] => fun lb _ diffs => Ok ([], lb, diffs)
  | x :: la' =>
      fix scan lb ai diffs :=
        match lb with
        | [] => Ok (x :: la', [], diffs)
        | y :: lb' =>
            d ← equal x y (index_path path ai);
            if bool_decide (Filter d ErrExtraField = [])
            then subset_scan path la' lb' (ai + 1) d
            else scan lb' ai d
        end
  end.

(** Check that members of slice a is a subset of slice b. *)
Definition subslicesubset a b path (la lb : list (Value B)) : res error (Diffset B) :=
  match la with
  | [] => Ok []
  | _ =>
      '(ra, rb, diffs) ← subset_scan path la lb 0 [];
      match ra, rb with
      | [], [] => Ok diffs
      | x :: _, _ =>
          match x with
          | Interface _ Invalid | Pointer _ _ Invalid => Err (Panic "reflect: call of reflect.Value.Interface on zero Value")
          | Interface _ elem | Pointer _ _ elem =>
              Ok [mkDiff path ("expected " +:+ Kind_String elem +:+ " '" +:+ Sprint elem +:+
                               "' but reached end of input without finding it") ErrMissingField a b]
          | _ => Err (Panic "reflect: call of reflect.Value.Elem on value that is no interface or pointer")
          end
      | [], _ :: _ => Ok []
      end
  end.

Definition subslice (matchType : MatchType) a b path (la lb : list (Value B)) : res error (Diffset B) :=
  match matchType with
  | MatchSubset | MatchRegex => subslicesubset a b path la lb
  | _ => subsliceequal a b path la lb
  end.

(** [for i := 0; i < a.Len(); i++] of the array case: [b.Index] panics out of range. *)
Fixpoint array_equal path (i : Z) (la lb : list (Value B)) : res error (Diffset B) :=
  match la, lb with
  | [], _ => Ok []
  | _ :: _, [] => Err (Panic "reflect: array index out of range")
  | x :: la', y :: lb' =>
      d ← equal x y (index_path path i);
      ds ← array_equal path (i + 1) la' lb';
      Ok (d ++ ds)
  end.

Fixpoint MapIndex (m : list (string * Value B)) (k : string) : option (Value B) :=
  match m with
  | [] => None
  | (k', v) :: m' => if bool_decide (k' = k) then Some v else MapIndex m' k
  end.

(** The loop over the keys of [a]. *)
Fixpoint map_equal a b path (ma mb : list (string * Value B)) : res error (Diffset B) :=
  match ma with
  | [] => Ok []
  | (k, val1) :: ma' =>
      let at_k := path +:+ "." +:+ k in
      d ← match MapIndex mb k with
          | None => Ok [mkDiff at_k "missing map value" ErrMissingField a b]
          | Some val2 => equal val1 val2 at_k
          end;
      ds ← map_equal a b path ma' mb;
      Ok (d ++ ds)
  end.
End elements.

(** "too many values": the keys of [b] that [a] does not have. *)
Definition extra_keys a b path (ma mb : list (string * Value B)) : Diffset B :=
  if bool_decide (length ma = length mb) then []
  else map (fun p => mkDiff (path +:+ "." +:+ p.1) "unexpected map key" ErrExtraField a b)
         (filter (fun p => ¬ is_Some (MapIndex ma p.1)) mb).

(** ** The comparison *)

Definition type_String a : string :=
  match a with
  | Invalid => ""
  | Basic v => basic_type v
  | Array ty _ | Slice ty _ _ | Interface ty _ | Pointer ty _ _ | Map ty _ _ => ty
  end.

Definition nil_elem a : bool := match a with Invalid => true | _ => false end.

Definition simple_expect (t : ErrorType) a b path : Diff B := mkDiff path (expected_but_got a b) t a b.

(** Recursive comparison of two arbitrary values. The message of the simple expectation
    is made first, which panics on an invalid value before [IsValid] is asked. *)
Fixpoint deepValueEqual (matchType : MatchType) a b path {struct a} : res error (Diffset B) :=
  match a, b with
  | Invalid, _ | _, Invalid => Err (Panic "reflect: call of reflect.Value.Interface on zero Value")
  | _, _ =>
      if bool_decide (type_String a ≠ type_String b) then Ok [simple_expect ErrTypeDiffers a b path]
      else match a, b with
           | Array _ la, Array _ lb => array_equal (deepValueEqual matchType) path 0 la lb
           | Slice _ pa la, Slice _ pb lb =>
               if negb (Bool.eqb (pa =? 0)%Z (pb =? 0)%Z) then Ok [simple_expect ErrValueDiffers a b path]
               else if (pa =? pb)%Z then Ok []
               else subslice (deepValueEqual matchType) matchType a b path la lb
           | Interface _ ea, Interface _ eb =>
               if negb (Bool.eqb (nil_elem ea) (nil_elem eb)) then Ok [simple_expect ErrValueDiffers a b path]
               else deepValueEqual matchType ea eb path
           | Pointer _ pa ea, Pointer _ pb eb =>
               if (pa =? pb)%Z then Ok [] else deepValueEqual matchType ea eb path
           | Map _ pa ma, Map _ pb mb =>
               if negb (Bool.eqb (pa =? 0)%Z (pb =? 0)%Z) then Ok [simple_expect ErrValueDiffers a b path]
               else if (pa =? pb)%Z then Ok []
               else ds ← map_equal (deepValueEqual matchType) a b path ma mb;
                    Ok (ds ++ extra_keys a b path ma mb)
           | Basic x, Basic y =>
               Ok match matchType with MatchRegex => regexcmp x y path | _ => simplecmp x y path end
           | _, _ => Ok [simple_expect ErrTypeDiffers a b path]
           end
  end.

(** Match expected data against actual data; a nil interface is an absent value. *)
Definition Exact (expected actual : option (Value B)) (matchType : MatchType) : res error (Diffset B) :=
  match expected, actual with
  | Some a, Some b => deepValueEqual matchType a b ""
  | _, _ => Ok []
  end.

(** Like Exact, but filters out any extra fields not included in the expected data. *)
Definition Subset expected actual matchType : res error (Diffset B) :=
  diffs ← Exact expected actual matchType; Ok (Filter diffs ErrExtraField).

Definition Absent expected actual matchType : res error (Diffset B) :=
  diffs ← Exact expected actual matchType; Ok (Filter (Filter diffs ErrMissingField) ErrExtraField).

Definition Compare (matchType : MatchType) (expected actual : option (Value B)) : res error (Diffset B) :=
  match matchType with
  | MatchExact => Exact expected actual matchType
  | MatchRegex | MatchSubset => Subset expected actual matchType
  | MatchAbsent => Absent expected actual matchType
  | MatchUnknown s => Err (Panic ("unhandled type " +:+ s))
  end.
End deepcomp.

(** ** What the comparison decides *)

Inductive json (B : Type) :=
| JNull
| JBasic (b : B)
| JArr (l : list (json B))
| JObj (m : list (string * json B)).

Arguments JNull {B}.
Arguments JBasic {B} b.
Arguments JArr {B} l.
Arguments JObj {B} m.

Section documents.
Context {B : Type} `{!Reflect B}.

(** A decoded document, as [Compare] is given it: a pointer to an [any]. One address
    stands for all the addresses of a document. *)
Fixpoint value_of (p : Z) (j : json B) : Value B :=
  match j with
  | JNull => Invalid
  | JBasic b => Basic b
  | JArr l => Slice "[]interface {}" p (map (fun j => Interface "interface {}" (value_of p j)) l)
  | JObj m => Map "map[string]interface {}" p
                (map (fun kj => (kj.1, Interface "interface {}" (value_of p kj.2))) m)
  end.

Definition interface_of p j : Value B := Interface "interface {}" (value_of p j).
Definition pointer_of p j : Value B := Pointer "*interface {}" p (interface_of p j).

(** Nothing in the document is null. *)
Fixpoint null_free (j : json B) : Prop :=
  match j with
  | JNull => False
  | JBasic _ => True
  | JArr l => fold_right (fun j => and (null_free j)) True l
  | JObj m => fold_right (fun kj => and (null_free kj.2)) True m
  end.

(** Objects have one value per key. *)
Fixpoint well_formed (j : json B) : Prop :=
  match j with
  | JNull | JBasic _ => True
  | JArr l => fold_right (fun j => and (well_formed j)) True l
  | JObj m => NoDup (map fst m) ∧ fold_right (fun kj => and (well_formed kj.2)) True m
  end.
End documents.

(** The comparisons that look for a part of the actual document. *)
Definition in_part (matchType : MatchType) : bool :=
  match matchType with MatchSubset | MatchRegex => true | _ => false end.

Section reference.
Context {B : Type} `{!Reflect B}.
Variable matchType : MatchType.

Definition basic_matches (x y : B) : Prop :=
  match matchType with
  | MatchRegex => ∃ m, regexp_Compile (Sprint (Basic x)) = Ok m ∧ m (Sprint (Basic y)) = true
  | _ => DeepEqual x y = true
  end.

(** The reference: basic values of the same type that are equal (or match as regular
    expressions), lists element by element (or as a subsequence), objects key by key (where
    the actual one may have more keys if a part is asked for). *)
Inductive matches : json B → json B → Prop :=
| matches_basic x y : basic_type x = basic_type y → basic_matches x y → matches (JBasic x) (JBasic y)
| matches_all la lb : in_part matchType = false → Forall2 matches la lb → matches (JArr la) (JArr lb)
| matches_part la sub lb :
    in_part matchType = true → Forall2 matches la sub → sub `sublist_of` lb → matches (JArr la) (JArr lb)
| matches_obj ma mb :
    (∀ k x, (k, x) ∈ ma → ∃ y, (k, y) ∈ mb ∧ matches x y) →
    (in_part matchType = false → ∀ k, k ∈ map fst mb → k ∈ map fst ma) →
    matches (JObj ma) (JObj mb).
End reference.

(** The types of lists and objects are not types of basic values. *)
Class ReflectLaws (B : Type) `{!Reflect B} : Prop :=
  basic_type_plain : ∀ b : B, basic_type b ≠ "[]interface {}" ∧ basic_type b ≠ "map[string]interface {}".

(** ** Lemmas *)

Section comparison.
Context {B : Type} `{!Reflect B} `{!ReflectLaws B}.
Implicit Types (e a : json B) (ds : Diffset B).

Lemma json_nested_ind (P : json B → Prop) :
  P JNull → (∀ b, P (JBasic b)) → (∀ l, Forall P l → P (JArr l)) →
  (∀ m, Forall (λ kj, P kj.2) m → P (JObj m)) → ∀ j, P j.
Proof.
  intros H1 H2 H3 H4. fix IH 1. intros [|b|l|m]; [done|done| |].
  - apply H3. induction l; constructor; auto.
  - apply H4. induction m as [|[k j] m IHm]; constructor; [apply IH|done].
Qed.

Lemma fold_and_Forall {A} (P : A → Prop) (l : list A) : fold_right (λ x, and (P x)) True l ↔ Forall P l.
Proof. induction l as [|x l IH]; simpl; [by split|]. by rewrite Forall_cons, IH. Qed.

Lemma Filter_app ds ds' t : Filter (ds ++ ds') t = Filter ds t ++ Filter ds' t.
Proof. apply filter_app. Qed.

(** What is left of the differences after [Compare] dropped the extra fields. *)
Definition kept (mt : MatchType) ds : Diffset B := if in_part mt then Filter ds ErrExtraField else ds.

Lemma kept_nil mt : kept mt [] = [].
Proof. unfold kept. by destruct (in_part mt). Qed.

Lemma NoDup_fst_eq {A} (m : list (string * A)) k x y : NoDup (map fst m) → (k, x) ∈ m → (k, y) ∈ m → x = y.
Proof.
  induction m as [|[k' z] m IH]; simpl; [by intros _ ?%elem_of_nil|].
  intros [Hk Hm]%NoDup_cons Hx Hy. rewrite elem_of_cons in Hx, Hy.
  assert (Hnot : ∀ v, (k', v) ∉ m) by (intros v Hv; apply Hk; by apply (list_elem_of_fmap_2 fst _ (k', v))).
  destruct Hx as [Hx|Hx], Hy as [Hy|Hy]; simplify_eq; try done; try (by edestruct Hnot); by apply IH.
Qed.

Lemma kept_app mt ds ds' : kept mt (ds ++ ds') = [] ↔ kept mt ds = [] ∧ kept mt ds' = [].
Proof. unfold kept. destruct (in_part mt); rewrite ?Filter_app; apply app_nil. Qed.

Lemma kept_one mt d : diff_Type d ≠ ErrExtraField → kept mt [d] = [] ↔ False.
Proof.
  intros Hd. unfold kept, Filter. destruct (in_part mt); [|done]. by rewrite filter_cons_True.
Qed.

Lemma MapIndex_decoded p (m : list (string * json B)) k v :
  NoDup (map fst m) →
  MapIndex (map (λ kj, (kj.1, interface_of p kj.2)) m) k = Some v ↔ ∃ j, (k, j) ∈ m ∧ v = interface_of p j.
Proof.
  induction m as [|[k' j'] m IH]; simpl.
  { intros _. split; [done|]. by intros (j & ?%elem_of_nil & _). }
  intros [Hk Hm]%NoDup_cons. setoid_rewrite elem_of_cons. case_bool_decide as Heq; subst.
  - split; [intros [= <-]; eauto|]. intros (j & [[= ->]|Hin] & ->); [done|].
    destruct Hk. by apply (list_elem_of_fmap_2 fst _ (k, j)).
  - rewrite IH by done. naive_solver.
Qed.

Lemma MapIndex_is_Some p (m : list (string * json B)) k :
  is_Some (MapIndex (map (λ kj, (kj.1, interface_of p kj.2)) m) k) ↔ k ∈ map fst m.
Proof.
  induction m as [|[k' j'] m IH]; simpl; [by rewrite elem_of_nil, <-not_eq_None_Some|].
  rewrite elem_of_cons. case_bool_decide as Heq; subst; [split; eauto|].
  rewrite IH. naive_solver.
Qed.

(** *** Lists *)

Section lists.
Variables (mt : MatchType) (p q : Z).
Variable equal : Value B → Value B → string → res error (Diffset B).

(** The comparison decides about an expected element. *)
Definition decides (e : json B) : Prop :=
  ∀ a path, well_formed a → ∃ ds, equal (interface_of p e) (interface_of q a) path = Ok ds ∧
    (kept mt ds = [] ↔ matches mt e a).

Lemma subsliceequal_decides report path i la lb :
  in_part mt = false → Forall decides la → Forall well_formed lb →
  ∃ ds, subsliceequal_from equal report path i (map (interface_of p) la) (map (interface_of q) lb) = Ok ds ∧
    (kept mt ds = [] ↔ Forall2 (matches mt) la lb).
Proof.
  intros Hmt Hla. revert i lb. induction Hla as [|e la He _ IH]; intros i [|a lb] Hlb; simpl.
  - exists []. split; [done|]. split; [by constructor|]. unfold kept. by rewrite Hmt.
  - exists [report ErrExtraField]. split; [done|]. unfold kept. rewrite Hmt. split; [done|]. by inversion 1.
  - exists [report ErrMissingField]. split; [done|]. unfold kept. rewrite Hmt. split; [done|]. by inversion 1.
  - apply Forall_cons in Hlb as [Ha Hlb].
    destruct (He a (index_path path i) Ha) as (d & -> & Hd). simpl.
    destruct (IH (i + 1)%Z lb Hlb) as (ds & -> & Hds). simpl. exists (d ++ ds). split; [done|].
    rewrite kept_app, Hd, Hds, Forall2_cons. done.
Qed.

(** The expected elements occur in the actual list in their order. *)
Definition embeds (la lb : list (json B)) : Prop := ∃ sub, Forall2 (matches mt) la sub ∧ sub `sublist_of` lb.

Lemma embeds_nil lb : embeds [] lb.
Proof. exists []. split; [constructor|apply sublist_nil_l]. Qed.

Lemma embeds_cons_nil e la : ¬ embeds (e :: la) [].
Proof. intros (sub & Hf & Hs). apply sublist_nil_r in Hs as ->. by inversion Hf. Qed.

(** Taking the first match is never wrong. *)
Lemma embeds_greedy e a la lb : matches mt e a → embeds (e :: la) (a :: lb) ↔ embeds la lb.
Proof.
  intros Hm. split.
  - intros (sub & Hf & Hs). apply Forall2_cons_inv_l in Hf as (x & sub' & Hx & Hf & ->).
    exists sub'. split; [done|]. apply sublist_cons_r in Hs as [Hs|(l & [= <- <-] & Hs)]; [|done].
    etransitivity; [|exact Hs]. by apply sublist_cons.
  - intros (sub & Hf & Hs). exists (a :: sub). split; [by constructor|]. by apply sublist_skip.
Qed.

Lemma embeds_skip e a la lb : ¬ matches mt e a → embeds (e :: la) (a :: lb) ↔ embeds (e :: la) lb.
Proof.
  intros Hm. split.
  - intros (sub & Hf & Hs). pose proof Hf as Hf'. apply Forall2_cons_inv_l in Hf as (x & sub' & Hx & _ & ->).
    exists (x :: sub'). split; [done|]. apply sublist_cons_r in Hs as [Hs|(l & [= <- <-] & Hs)]; [done|].
    by destruct Hm.
  - intros (sub & Hf & Hs). exists sub. split; [done|]. by apply sublist_cons.
Qed.

(** The scan leaves nothing of the expected list exactly when it occurs. *)
Lemma subset_scan_decides path la lb i d :
  in_part mt = true → Forall decides la → Forall well_formed lb → Filter d ErrExtraField = [] ∨ la ≠ [] →
  ∃ ra rb d', subset_scan equal path (map (interface_of p) la) (map (interface_of q) lb) i d =
      Ok (map (interface_of p) ra, map (interface_of q) rb, d') ∧
    (ra = [] ↔ embeds la lb) ∧ (ra = [] → Filter d' ErrExtraField = []) ∧ ∃ pre, la = pre ++ ra.
Proof.
  intros Hmt Hla. revert lb i d. induction Hla as [|e la He Hla IH]; intros lb i d Hlb Hd.
  { exists [], lb, d. simpl. split_and!; [done| |naive_solver|by exists []]. split; [|done]. intros _. apply embeds_nil. }
  clear Hd. revert i d. induction Hlb as [|a lb Ha Hlb IHb]; intros i d.
  { exists (e :: la), [], d. simpl. split_and!; [done| |done|by exists []]. split; [done|].
    by intros ?%embeds_cons_nil. }
  simpl. destruct (He a (index_path path i) Ha) as (d1 & -> & Hd1). simpl.
  unfold kept in Hd1. rewrite Hmt in Hd1. case_bool_decide as Hm.
  - destruct (IH lb (i + 1)%Z d1 Hlb (or_introl Hm)) as (ra & rb & d' & -> & Hra & Hf & pre & ->).
    exists ra, rb, d'. split_and!; [done| |done|by exists (e :: pre)].
    rewrite Hra, embeds_greedy; [done|]. by apply Hd1.
  - destruct (IHb i d1) as (ra & rb & d' & Hscan & Hra & Hf & Hpre). exists ra, rb, d'.
    split_and!; [exact Hscan| |done|done]. rewrite Hra, embeds_skip; [done|]. by rewrite <-Hd1.
Qed.
Lemma subslicesubset_decides (A A' : Value B) path la lb :
  in_part mt = true → Forall decides la → Forall null_free la → Forall well_formed lb →
  ∃ ds, subslicesubset equal A A' path (map (interface_of p) la) (map (interface_of q) lb) = Ok ds ∧
    (kept mt ds = [] ↔ embeds la lb).
Proof.
  intros Hmt Hla Hnull Hlb. destruct la as [|e la].
  { exists []. split; [done|]. split; [|by rewrite kept_nil]. intros _. apply embeds_nil. }
  destruct (subset_scan_decides path (e :: la) lb 0 [] Hmt Hla Hlb (or_introl eq_refl))
    as (ra & rb & d' & Hscan & Hra & Hf & pre & Hpre).
  unfold subslicesubset. change (map (interface_of p) (e :: la)) with (interface_of p e :: map (interface_of p) la) in *.
  rewrite Hscan. simpl. destruct ra as [|r ra]; simpl.
  - exists (if rb then d' else []). split; [by destruct rb|]. split; [by intros _; apply Hra|]. intros _.
    unfold kept. rewrite Hmt. destruct rb; [by apply Hf|done].
  - assert (Hr : null_free r).
    { rewrite Hpre in Hnull. apply Forall_app in Hnull as [_ Hnull]. by apply Forall_cons in Hnull as [? _]. }
    assert (Hno : ¬ embeds (e :: la) lb) by (by intros ?%Hra).
    destruct r; simpl in *; [done|..]; eexists; (split; [done|]);
      (rewrite kept_one by done); naive_solver.
Qed.

(** *** Objects *)

Lemma map_equal_decides (A A' : Value B) path (ma mb : list (string * json B)) :
  Forall (λ kj, decides kj.2) ma → NoDup (map fst mb) → Forall (λ kj, well_formed kj.2) mb →
  ∃ ds, map_equal equal A A' path (map (λ kj, (kj.1, interface_of p kj.2)) ma)
          (map (λ kj, (kj.1, interface_of q kj.2)) mb) = Ok ds ∧
    (kept mt ds = [] ↔ ∀ k x, (k, x) ∈ ma → ∃ y, (k, y) ∈ mb ∧ matches mt x y).
Proof.
  intros Hma Hnd Hmb. induction Hma as [|[k x] ma Hx _ IH]; cbn [map_equal map fst snd].
  { exists []. split; [done|]. rewrite kept_nil. split; [|done]. by intros _ k x ?%elem_of_nil. }
  destruct IH as (ds & -> & Hds).
  set (at_k := path +:+ "." +:+ k). rewrite Forall_forall in Hmb. simpl in Hx.
  assert (Hone : ∃ d, match MapIndex (map (λ kj, (kj.1, interface_of q kj.2)) mb) k with
      | None => Ok [mkDiff at_k "missing map value" ErrMissingField A A']
      | Some val2 => equal (interface_of p x) val2 at_k
      end = Ok d ∧ (kept mt d = [] ↔ ∃ y, (k, y) ∈ mb ∧ matches mt x y)).
  { destruct (MapIndex _ k) as [v|] eqn:Hv.
    - apply MapIndex_decoded in Hv as (y & Hy & ->); [|done].
      destruct (Hx y at_k (Hmb (k, y) Hy)) as (d & -> & Hd). exists d. split; [done|]. rewrite Hd.
      split; [eauto|]. intros (y' & Hy' & Hm). by rewrite (NoDup_fst_eq mb k y y' Hnd Hy Hy').
    - eexists. split; [done|]. rewrite kept_one by done. split; [done|]. intros (y & Hy & _).
      assert (is_Some (MapIndex (map (λ kj, (kj.1, interface_of q kj.2)) mb) k)) as [? ?]; [|congruence].
      apply MapIndex_is_Some. by apply (list_elem_of_fmap_2 fst _ (k, y)). }
  destruct Hone as (d & -> & Hd). exists (d ++ ds). split; [done|].
  rewrite kept_app, Hd, Hds. setoid_rewrite elem_of_cons. naive_solver.
Qed.

End lists.

(** Extra keys are reported exactly when there are some, and they are not kept when a
    part is compared. *)
Lemma extra_keys_decides mt p q (A A' : Value B) path (ma mb : list (string * json B)) :
  NoDup (map fst ma) → NoDup (map fst mb) → (∀ k, k ∈ map fst ma → k ∈ map fst mb) →
  (kept mt (extra_keys A A' path (map (λ kj, (kj.1, interface_of p kj.2)) ma)
              (map (λ kj, (kj.1, interface_of q kj.2)) mb)) = [] ↔
   (in_part mt = false → ∀ k, k ∈ map fst mb → k ∈ map fst ma)).
Proof.
  intros Hna Hnb Hsub. unfold kept, extra_keys. rewrite !length_map. case_bool_decide as Hlen.
  { destruct (in_part mt); simpl; [done|]. split; [|done]. intros _ _.
    assert (Hp : map fst ma ≡ₚ map fst mb).
    { apply submseteq_length_Permutation; [by apply NoDup_submseteq|]. rewrite !length_map. lia. }
    intros k. by rewrite Hp. }
  destruct (in_part mt).
  - split; [done|]. intros _. apply filter_none. intros d (x & -> & _)%list_elem_of_fmap. simpl. tauto.
  - split.
    + intros Hnil _ k Hk. apply MapIndex_is_Some with (p := p).
      destruct (decide (is_Some (MapIndex (map (λ kj, (kj.1, interface_of p kj.2)) ma) k))) as [?|Hno]; [done|].
      apply list_elem_of_fmap in Hk as ([k' y] & -> & Hy). exfalso.
      apply map_eq_nil in Hnil. apply (elem_of_nil (k', interface_of q y)). rewrite <-Hnil.
      apply list_elem_of_filter. split; [exact Hno|].
      by apply (list_elem_of_fmap_2 (λ kj, (kj.1, interface_of q kj.2)) mb (k', y)).
    + intros Hall. rewrite filter_none; [done|]. intros x (y & -> & Hy)%list_elem_of_fmap. simpl.
      rewrite MapIndex_is_Some. intros Hno. apply Hno, Hall; [done|]. by apply list_elem_of_fmap_2.
Qed.

(** *** Documents *)

Lemma interface_equal mt p q e a path :
  null_free e →
  deepValueEqual mt (interface_of p e) (interface_of q a) path =
  match a with
  | JNull => Ok [simple_expect ErrValueDiffers (interface_of p e) (interface_of q a) path]
  | _ => deepValueEqual mt (value_of p e) (value_of q a) path
  end.
Proof. by destruct e, a. Qed.

Lemma null_not_matched mt e : ¬ matches mt e JNull.
Proof. intros Hm. inversion Hm. Qed.

Lemma basic_decides mt x y path :
  mt ∈ [MatchExact; MatchSubset; MatchRegex] →
  kept mt (match mt with MatchRegex => regexcmp x y path | _ => simplecmp x y path end) = [] ↔ basic_matches mt x y.
Proof.
  intros Hmt. unfold basic_matches, regexcmp, simplecmp. set_unfold in Hmt. destruct_or! Hmt; subst.
  - by destruct (DeepEqual x y).
  - destruct (DeepEqual x y); [by rewrite kept_nil|]. by rewrite kept_one.
  - destruct (regexp_Compile _) as [m|err]; [|rewrite kept_one by done; split; [done|]; by intros (? & ? & _)].
    destruct (m _) eqn:Hm; [rewrite kept_nil; split; [by exists m|done]|].
    rewrite kept_one by done. split; [done|]. intros (m' & [= <-] & ?). congruence.
Qed.

Lemma types_differ mt v w path (P : Prop) :
  v ≠ Invalid → w ≠ Invalid → type_String v ≠ type_String w → ¬ P →
  ∃ ds, deepValueEqual mt v w path = Ok ds ∧ (kept mt ds = [] ↔ P).
Proof.
  intros Hv Hw Ht HP. exists [simple_expect ErrTypeDiffers v w path]. split; [|rewrite kept_one by done; tauto].
  destruct v; [done|..]; (destruct w; [done|..]); simpl; by rewrite bool_decide_eq_true_2.
Qed.

Section addresses.
Variables (mt : MatchType) (p q : Z).
Hypothesis (Hpq : p ≠ q) (Hp : p ≠ 0%Z) (Hq : q ≠ 0%Z).

Lemma no_shortcut : negb (Bool.eqb (p =? 0)%Z (q =? 0)%Z) = false ∧ (p =? q)%Z = false.
Proof. by rewrite (proj2 (Z.eqb_neq p 0) Hp), (proj2 (Z.eqb_neq q 0) Hq), (proj2 (Z.eqb_neq p q) Hpq). Qed.

Lemma slices_equal la lb path :
  deepValueEqual mt (value_of p (JArr la)) (value_of q (JArr lb)) path =
  subslice (deepValueEqual mt) mt (value_of p (JArr la)) (value_of q (JArr lb)) path
    (map (interface_of p) la) (map (interface_of q) lb).
Proof.
  destruct no_shortcut as [Hz Heq]. cbn [value_of deepValueEqual].
  rewrite bool_decide_eq_false_2 by tauto. by rewrite Hz, Heq.
Qed.

Lemma maps_equal ma mb path :
  let io r := map (λ kj, (kj.1, interface_of r kj.2)) in
  let a := value_of p (JObj ma) in let b := value_of q (JObj mb) in
  deepValueEqual mt a b path =
  (ds ← map_equal (deepValueEqual mt) a b path (io p ma) (io q mb); Ok (ds ++ extra_keys a b path (io p ma) (io q mb))).
Proof.
  destruct no_shortcut as [Hz Heq]. cbn [value_of deepValueEqual].
  rewrite bool_decide_eq_false_2 by tauto. by rewrite Hz, Heq.
Qed.
End addresses.

Lemma embeds_matches mt la lb :
  in_part mt = true → embeds mt la lb ↔ matches mt (JArr la) (JArr lb).
Proof.
  intros Hmt. split; [intros (sub & Hf & Hs); by eapply matches_part|].
  inversion 1; subst; [congruence|by eexists].
Qed.

Lemma deepValueEqual_decides mt p q e :
  mt ∈ [MatchExact; MatchSubset; MatchRegex] → p ≠ q → p ≠ 0%Z → q ≠ 0%Z →
  null_free e → well_formed e → decides mt p q (deepValueEqual mt) e.
Proof.
  intros Hmt Hpq Hp Hq.
  induction e as [|x|la IH|ma IH] using json_nested_ind; intros Hnull Hwf a path Ha; [done|..];
    (rewrite interface_equal by done); (destruct a as [|y|lb|mb];
      [by eexists; split; [done|]; rewrite kept_one by done; pose proof (null_not_matched mt); naive_solver|..]).
  - simpl. case_bool_decide as Hty.
    + eexists. split; [done|]. rewrite kept_one by done. split; [done|]. by inversion 1.
    + eexists. split; [done|]. rewrite basic_decides by done. split; [|by inversion 1].
      intros Hm. by constructor.
  - apply types_differ; [done..|apply (basic_type_plain x)|]. intros Hm; inversion Hm.
  - apply types_differ; [done..|apply (basic_type_plain x)|]. intros Hm; inversion Hm.
  - apply types_differ; [done..|apply not_eq_sym, (basic_type_plain y)|]. intros Hm; inversion Hm.
  - simpl in Hnull, Hwf, Ha. rewrite fold_and_Forall in Hnull, Hwf, Ha.
    assert (Hla : Forall (decides mt p q (deepValueEqual mt)) la).
    { rewrite Forall_forall in *. intros e He. apply IH; auto. }
    rewrite slices_equal by done. unfold subslice. set_unfold in Hmt. destruct_or! Hmt; subst mt.
    + edestruct (subsliceequal_decides MatchExact p q) as (ds & Hrun & Hds); [reflexivity|exact Hla|exact Ha|].
      exists ds. split; [exact Hrun|]. rewrite Hds. split; [by constructor|by inversion 1].
    + edestruct (subslicesubset_decides MatchSubset p q) as (ds & Hrun & Hds); [reflexivity|exact Hla|exact Hnull|exact Ha|].
      exists ds. split; [exact Hrun|]. rewrite Hds. apply embeds_matches. reflexivity.
    + edestruct (subslicesubset_decides MatchRegex p q) as (ds & Hrun & Hds); [reflexivity|exact Hla|exact Hnull|exact Ha|].
      exists ds. split; [exact Hrun|]. rewrite Hds. apply embeds_matches. reflexivity.
  - apply types_differ; [done..|]. intros Hm; inversion Hm.
  - apply types_differ; [done..|apply not_eq_sym, (basic_type_plain y)|]. intros Hm; inversion Hm.
  - apply types_differ; [done..|]. intros Hm; inversion Hm.
  - simpl in Hnull, Hwf, Ha. rewrite !fold_and_Forall in *. destruct Hwf as [Hnda Hwf], Ha as [Hndb Ha].
    rewrite maps_equal by done.
    edestruct (map_equal_decides mt p q (deepValueEqual mt)) as (ds & Hrun & Hds);
      [|exact Hndb|exact Ha|rewrite Hrun; clear Hrun].
    { rewrite Forall_forall in *. intros e He. apply IH; auto. }
    assert (Hkeys : (∀ k x, (k, x) ∈ ma → ∃ y, (k, y) ∈ mb ∧ matches mt x y) →
      ∀ k, k ∈ map fst ma → k ∈ map fst mb).
    { intros Hsub k ([k' x] & -> & Hin)%list_elem_of_fmap. destruct (Hsub k' x Hin) as (y & Hy & _).
      by apply (list_elem_of_fmap_2 fst _ (k', y)). }
    eexists. split; [done|]. rewrite kept_app, Hds. split.
    + intros [Hsub Hextra]. rewrite (extra_keys_decides mt p q _ _ _ ma mb Hnda Hndb (Hkeys Hsub)) in Hextra.
      by constructor.
    + inversion 1 as [| | |? ? Hsub Hextra]; subst. split; [done|].
      by rewrite (extra_keys_decides mt p q _ _ _ ma mb Hnda Hndb (Hkeys Hsub)).
Qed.
End comparison.

(** ** Properties *)

Section properties.
Context {B : Type} `{!Reflect B} `{!ReflectLaws B}.

(** C35. The golden files mean what they say: for an expected document without nulls,
    [Compare] returns, and it reports no difference exactly when the actual document
    matches: everything equal if an exact match is asked for; otherwise expected values
    equal (or matching as regular expressions), expected lists subsequences and expected
    objects parts of the actual ones. In particular the greedy scan of a list misses no
    occurrence. *)
Theorem Compare_spec mt p q (e a : json B) :
  mt ∈ [MatchExact; MatchSubset; MatchRegex] → p ≠ q → p ≠ 0%Z → q ≠ 0%Z →
  null_free e → well_formed e → well_formed a →
  ∃ ds, Compare mt (Some (pointer_of p e)) (Some (pointer_of q a)) = Ok ds ∧ (ds = [] ↔ matches mt e a).
Proof.
  intros Hmt Hpq Hp Hq Hnull Hwf Ha.
  destruct (deepValueEqual_decides mt p q e Hmt Hpq Hp Hq Hnull Hwf a "" Ha) as (ds & Hrun & Hds).
  exists (kept mt ds). split; [|done]. revert Hds. unfold kept.
  assert (Hptr : deepValueEqual mt (pointer_of p e) (pointer_of q a) "" = Ok ds).
  { rewrite <-Hrun. unfold pointer_of. cbn [deepValueEqual type_String].
    rewrite bool_decide_eq_false_2 by tauto. by rewrite (proj2 (Z.eqb_neq p q) Hpq). }
  unfold Compare, Subset, Exact. rewrite Hptr. set_unfold in Hmt. by destruct_or! Hmt; subst.
Qed.
End properties.

(** ** Witnesses and test vectors *)

Section witnesses.

(** Strings and whole numbers, with literal patterns. *)
Inductive sample_basic := SString (s : string) | SFloat (n : Z).

#[local] Instance sample_basic_eq_dec : EqDecision sample_basic.
Proof. solve_decision. Defined.

Fixpoint sample_Sprint (v : Value sample_basic) : string :=
  match v with
  | Invalid => "<nil>"
  | Basic (SString s) => s
  | Basic (SFloat n) => Itoa n
  | Array _ l | Slice _ _ l => "[" +:+ Join (map sample_Sprint l) " " +:+ "]"
  | Interface _ v => sample_Sprint v
  | Pointer _ _ _ => "0xc000000000"
  | Map _ _ m => "map[" +:+ Join (map (fun kv => kv.1 +:+ ":" +:+ sample_Sprint kv.2) m) " " +:+ "]"
  end.

#[local] Instance sample_reflect : Reflect sample_basic := {|
  basic_type b := match b with SString _ => "string" | SFloat _ => "float64" end;
  basic_kind b := match b with SString _ => "string" | SFloat _ => "float64" end;
  DeepEqual x y := bool_decide (x = y);
  Sprint := sample_Sprint;
  regexp_Compile s := Ok (Regex.search (Regex.Lit s)) |}.

#[local] Instance sample_reflect_laws : ReflectLaws sample_basic.
Proof. by intros []. Defined.

Definition str (s : string) : json sample_basic := JBasic (SString s).
Definition num (n : Z) : json sample_basic := JBasic (SFloat n).

(** The path, type and message of every difference. *)
Definition compare mt (e a : json sample_basic) : res error (list (string * ErrorType * string)) :=
  ds ← Compare mt (Some (pointer_of 1 e)) (Some (pointer_of 2 a));
  Ok (map (fun d => (diff_Path d, diff_Type d, diff_Message d)) ds).

(** Vectors of deepcomp_test.go. *)
Example compare_type_differs :
  compare MatchExact (str "123") (num 123) =
  Ok [("", ErrTypeDiffers, "expected string '123' but got float64 '123'")].
Proof. vm_compute. reflexivity. Qed.

Example compare_missing :
  compare MatchExact (JObj [("foo", str "bar"); ("bar", str "baz")]) (JObj [("foo", str "bar")]) =
  Ok [(".bar", ErrMissingField, "missing map value")].
Proof. vm_compute. reflexivity. Qed.

Example compare_too_many :
  compare MatchExact (JArr [num 1; num 2; num 3]) (JArr [num 1; num 2; num 3; num 4]) =
  Ok [("", ErrExtraField, "expected 3 but got 4")].
Proof. vm_compute. reflexivity. Qed.

Example compare_nested :
  compare MatchExact
    (JObj [("foo", JArr [num 0; JObj [("bro", JArr [str "baz"])]; num 2])])
    (JObj [("foo", JArr [num 0; JObj [("bro", JArr [str "foo"])]; num 2])]) =
  Ok [(".foo[1].bro[0]", ErrValueDiffers, "expected string 'baz' but got string 'foo'")].
Proof. vm_compute. reflexivity. Qed.

Example compare_subset_failure :
  compare MatchSubset (JObj [("foo", str "bar"); ("baz", JArr [num 1; num 2])])
    (JObj [("foo", str "bar"); ("bar", str "baz"); ("more", str "test"); ("baz", JArr [num 1; num 3])]) =
  Ok [(".baz", ErrMissingField, "expected float64 '2' but reached end of input without finding it")].
Proof. vm_compute. reflexivity. Qed.

(** Comparing null with null panics, whatever the kind of comparison. *)
Example compare_null : Forall (fun mt => is_ok (compare mt JNull JNull) = false) [MatchExact; MatchSubset; MatchRegex; MatchAbsent].
Proof. by repeat constructor. Qed.

(** A field that must be absent may be there, if it has the very value. *)
Example compare_absent_equal :
  compare MatchAbsent (JObj [("scrape", str "true")]) (JObj [("scrape", str "true")]) = Ok [].
Proof. vm_compute. reflexivity. Qed.

Lemma Compare_spec_witness :
  matches MatchSubset (JArr [num 1; JObj [("foo", str "bar")]])
    (JArr [num 0; num 1; num 2; JObj [("bar", str "baz"); ("foo", str "bar")]]).
Proof.
  destruct (Compare_spec MatchSubset 1 2 (JArr [num 1; JObj [("foo", str "bar")]])
    (JArr [num 0; num 1; num 2; JObj [("bar", str "baz"); ("foo", str "bar")]])) as (ds & Hrun & Hds).
  - by right; left.
  - done.
  - done.
  - done.
  - done.
  - simpl. split_and!; try done; apply (bool_decide_unpack _); vm_compute; exact I.
  - simpl. split_and!; try done; apply (bool_decide_unpack _); vm_compute; exact I.
  - apply Hds. vm_compute in Hrun. congruence.
Defined.
End witnesses.
