(* ===== verification/Goldenfile.v ===== *)
(** * The golden-file tests

    Models [pkg/test/goldenfile]: which of the generated resources a subtest is about,
    which differences it excuses, and when it fails. Reading and decoding the files and
    encoding the resources are parameters; a panic ends the test. *)

From S2P Require Import Prelude GoStrings Kube Api Config Resource Deepcomp.

Definition defaultExclude : list string := [".apiVersion"; ".kind"; ".metadata.name"].

Record meta := mkMeta { meta_Operation : string; meta_ApiVersion : string; meta_Kind : string; meta_Name : string }.

Section goldenfile.
Context {B : Type} `{!Reflect B}.

Record Match := mkMatch {
  match_Type : MatchType; match_Name : string; match_Exclude : list string; match_Resource : Value B }.

Record SubTest := mkSubTest {
  test_ApiVersion : string; test_Kind : string; test_Name : string; test_Operation : string;
  test_Match : list Match }.

Record TestCase := mkTestCase {
  tc_Config : Config; tc_Options : Options; tc_Error : option string; tc_Tests : list SubTest }.

(** The JSON forms of an operation and of a resource, decoded again. *)
Class Encoding := {
  resourcemeta : Operation → meta;
  rawResource : Object → Value B;
}.

(** A criterion that is not given matches everything. *)
Definition yamlSubtestMatchesResource (resource : meta) (test : SubTest) : bool :=
  if bool_decide (0 < slen (test_Name test))%nat && bool_decide (test_Name test ≠ meta_Name resource) then false
  else if bool_decide (0 < slen (test_Kind test))%nat && bool_decide (test_Kind test ≠ meta_Kind resource) then false
  else if bool_decide (0 < slen (test_ApiVersion test))%nat && bool_decide (test_ApiVersion test ≠ meta_ApiVersion resource) then false
  else if bool_decide (0 < slen (test_Operation test))%nat && bool_decide (test_Operation test ≠ meta_Operation resource) then false
  else true.

Definition golden_filter (diffset : Diffset B) (deny : Diff B → bool) : Diffset B :=
  filter (fun diff => deny diff = false) diffset.

(** The exclusion list of a match. *)
Definition excluded (m : Match) (diff : Diff B) : bool :=
  bool_decide (diff_Path diff ∈ match_Exclude m ++ defaultExclude).

(** The failure cases of a resource. *)
Definition match_diffs `{!Encoding} (rsce : Operation) (diffs : Diffset B) (m : Match) : res error (Diffset B) :=
  ds ← Compare (match_Type m) (Some (Pointer "*interface {}" 1 (match_Resource m))) (Some (rawResource (op_Resource rsce)));
  Ok (diffs ++ golden_filter ds (excluded m)).

(** The loop over the resources: whether one matched, and whether the test still passes. *)
Definition run_resource `{!Encoding} (test : SubTest) (acc : bool * bool) (rsce : Operation) : res error (bool * bool) :=
  let '(matched, passed) := acc in
  if negb (yamlSubtestMatchesResource (resourcemeta rsce) test) then Ok (matched, passed)
  else
    diffs ← res_foldl (match_diffs rsce) [] (test_Match test);
    Ok (true, passed && bool_decide (length diffs = 0%nat)).

(** Whether the subtest passes. *)
Definition yamlRunner `{!Encoding} (resources : list Operation) (test : SubTest) : res error bool :=
  '(matched, passed) ← res_foldl (run_resource test) (false, true) resources;
  Ok (matched && passed).

(** [assert.EqualError] *)
Definition EqualError {A} (r : res error A) (msg : string) : bool :=
  match r with Err e => bool_decide (err_msg e = msg) | Ok _ => false end.

Definition yamlSubTest `{!Encoding} (data : res error TestCase)
    (createOperations : Options → Config → res error (list Operation)) : res error bool :=
  match data with
  | Err _ => Ok false
  | Ok test =>
      let resources := createOperations (tc_Options test) (tc_Config test) in
      match tc_Error test with
      | Some msg => Ok (EqualError resources msg)
      | None =>
          match resources with
          | Err _ => Ok false
          | Ok resources =>
              res_foldl (fun passed subtest => ok ← yamlRunner resources subtest; Ok (passed && ok)) true (tc_Tests test)
          end
      end
  end.

(** ** Lemmas *)

Section lemmas.
Context `{!Encoding}.

(** What a resource must be like: every difference of every match is excused. *)
Definition satisfies (rsce : Operation) (test : SubTest) : Prop :=
  ∀ m, m ∈ test_Match test → ∃ ds,
    Compare (match_Type m) (Some (Pointer "*interface {}" 1 (match_Resource m)))
      (Some (rawResource (op_Resource rsce))) = Ok ds ∧
    ∀ d, d ∈ ds → diff_Path d ∈ match_Exclude m ++ defaultExclude.

Lemma golden_filter_nil ds m :
  golden_filter ds (excluded m) = [] ↔ ∀ d, d ∈ ds → diff_Path d ∈ match_Exclude m ++ defaultExclude.
Proof.
  unfold golden_filter, excluded. split.
  - intros Hnil d Hd. destruct (decide (diff_Path d ∈ match_Exclude m ++ defaultExclude)) as [?|Hno]; [done|].
    exfalso. apply (elem_of_nil d). rewrite <-Hnil. apply list_elem_of_filter.
    split; [by apply bool_decide_eq_false_2|done].
  - intros Hall. apply filter_none. intros d Hd. rewrite bool_decide_eq_false. intros Hno. by apply Hno, Hall.
Qed.

Lemma match_diffs_satisfied rsce ms acc ds :
  res_foldl (match_diffs rsce) acc ms = Ok ds →
  (ds = [] ↔ acc = [] ∧ ∀ m, m ∈ ms → ∃ ds',
    Compare (match_Type m) (Some (Pointer "*interface {}" 1 (match_Resource m)))
      (Some (rawResource (op_Resource rsce))) = Ok ds' ∧
    ∀ d, d ∈ ds' → diff_Path d ∈ match_Exclude m ++ defaultExclude).
Proof.
  revert acc. induction ms as [|m ms IH]; simpl; intros acc Hrun.
  - injection Hrun as <-. split; [|tauto]. intros ->. split; [done|]. by intros m ?%elem_of_nil.
  - apply res_bind_ok_inv in Hrun as (acc' & Hm & Hrun). apply res_bind_ok_inv in Hm as (d & Hd & [= <-]).
    rewrite (IH _ Hrun), app_nil, golden_filter_nil. split.
    + intros [[-> Hm] Hms]. split; [done|]. intros m' [->|Hin]%elem_of_cons; [by exists d|by apply Hms].
    + intros [-> Hall]. split; [|intros; apply Hall; by right]. split; [done|].
      destruct (Hall m ltac:(by left)) as (d' & Hd' & Hexc). rewrite Hd in Hd'. by injection Hd' as <-.
Qed.

(** A subtest that passes has a resource it is about, and all of those satisfy it. *)
Lemma yamlRunner_passes resources test :
  yamlRunner resources test = Ok true →
  (∃ rsce, rsce ∈ resources ∧ yamlSubtestMatchesResource (resourcemeta rsce) test = true) ∧
  ∀ rsce, rsce ∈ resources → yamlSubtestMatchesResource (resourcemeta rsce) test = true → satisfies rsce test.
Proof.
  unfold yamlRunner. intros Hrun. apply res_bind_ok_inv in Hrun as ([matched passed] & Hloop & [= Hres]).
  apply andb_true_iff in Hres as [-> ->].
  assert (Hinv : ∀ rs acc, res_foldl (run_resource test) acc rs = Ok (true, true) →
    acc.2 = true ∧ (acc.1 = true ∨ ∃ r, r ∈ rs ∧ yamlSubtestMatchesResource (resourcemeta r) test = true) ∧
    ∀ r, r ∈ rs → yamlSubtestMatchesResource (resourcemeta r) test = true → satisfies r test).
  2: { destruct (Hinv _ _ Hloop) as (_ & [?|?] & ?); done. }
  clear. induction rs as [|r rs IH]; intros [matched passed]; simpl.
  { intros [= -> ->]. split_and!; [done|by left|]. by intros r ?%elem_of_nil. }
  intros Hrun. apply res_bind_ok_inv in Hrun as (acc' & Hr & Hrun). apply IH in Hrun as (Hp & Hm & Hall).
  destruct (yamlSubtestMatchesResource (resourcemeta r) test) eqn:Hmatch; cbn [negb] in Hr.
  - apply res_bind_ok_inv in Hr as (diffs & Hdiffs & [= <-]). simpl in *.
    apply andb_true_iff in Hp as [-> Hlen]. apply bool_decide_eq_true, length_zero_iff_nil in Hlen.
    apply match_diffs_satisfied in Hdiffs. apply Hdiffs in Hlen as [_ Hsat].
    split_and!; [done|right; exists r; split; [by left|done]|].
    intros r' [->|Hin]%elem_of_cons; [by intros _|by apply Hall].
  - injection Hr as <-. simpl in *. split_and!; [done| |].
    + destruct Hm as [?|(r' & ? & ?)]; [by left|right]. exists r'. split; [by right|done].
    + intros r' [->|Hin]%elem_of_cons; [congruence|by apply Hall].
Qed.
End lemmas.
End goldenfile.
