(* ===== verification/Monitoring.v ===== *)
(** * Monitoring rollouts

    Models [pkg/synchronizer/monitoring.go]. The checks a monitoring goroutine
    makes are client programs; the goroutines themselves, the map of running
    monitors and the lock that guards it are a step relation whose steps are the
    critical sections of the code. *)

From S2P Require Import Prelude GoStrings Kube Api Vendor Cluster MemServer Config Samples Resource Batch Updater Synchronizer SynchronizerProps Rollout.

(** ** The checks *)

Definition RolloutMessageCompleted : string := "Rollout has completed".
Definition RolloutMessageCronJobCompleted : string := "No support for monitoring CronJobs".

Record completionState := mkCompletion { eventReported : bool; applicationUpdated : bool }.

Definition saveK8sEvent (s : completionState) : bool := negb (eventReported s).
Definition setSynchronizationState (s : completionState) : bool :=
  negb (applicationUpdated s) && eventReported s.

(** The nil replica count of a Deployment that was never defaulted is
    dereferenced: [None] is the panic. *)
Definition applicationDeploymentComplete (meta : ObjectMeta) (spec : DeploymentSpec)
    (status : DeploymentStatus) : option bool :=
  replicas ← ds_Replicas spec;
  Some (bool_decide (dst_UpdatedReplicas status = replicas) &&
        bool_decide (dst_Replicas status = replicas) &&
        bool_decide (dst_AvailableReplicas status = replicas) &&
        bool_decide (Generation meta ≤ dst_ObservedGeneration status)%Z).

Section checks.
Context `{L : Liberator} `{AM : ApiMachinery}.

Definition setSyncStatus (synchronizationState : string) (app : Source) : Source :=
  set_src_Status (SetSynchronizationStateWithCondition synchronizationState "Successfully deployed.") app.

Definition completeRolloutRoutine (app : Source) (completion : completionState)
    (rolloutStatus rolloutMessage : string) : prog (res error unit) :=
  reported ←
    (if saveK8sEvent completion then
       t ← call Now;
       r ← reportEvent (CreateEvent app rolloutStatus rolloutMessage "Normal" t);
       match r with
       | Ok _ => Ret (Ok (mkCompletion true (applicationUpdated completion)))
       | Err e => Ret (Err (Textf "unable to report rollout complete event: " e))
       end
     else Ret (Ok completion));
  match reported with
  | Err e => Ret (Err e)
  | Ok completion =>
      if setSynchronizationState completion then
        r ← UpdateResource app (fun existing => update_status (setSyncStatus rolloutStatus existing));
        match r with
        | Ok _ => Ret (Ok tt)
        | Err e => Ret (Err (Textf "store application sync status: " e))
        end
      else Ret (Ok tt)
  end.

(** Whether to keep monitoring; [None] is a panic. *)
Definition monitorNaisjob (app : Source) (completion : completionState) : prog (option bool) :=
  r ← call (Get TCronJob (source_key app));
  match r with
  | Ok (mkObject gvk meta (BCronJob spec)) =>
      created ←
        (if bool_decide (cj_Suspend spec = Some true) then
           r ← call (Create (CreateJobFromCronJob gvk meta spec));
           match r with
           | Ok _ => Ret true
           | Err e => Ret (IsAlreadyExists e)
           end
         else Ret true);
      if (created : bool) then
        r ← completeRolloutRoutine app completion events_RolloutComplete
              RolloutMessageCronJobCompleted;
        Ret (Some (negb (is_ok r)))
      else Ret (Some true)
  | _ => Ret (Some true)
  end.

Definition monitorApplication (app : Source) (completion : completionState) : prog (option bool) :=
  r ← call (Get TDeployment (source_key app));
  match r with
  | Ok (mkObject _ meta (BDeployment spec status)) =>
      match applicationDeploymentComplete meta spec status with
      | None => Ret None
      | Some false => Ret (Some true)
      | Some true =>
          r ← completeRolloutRoutine app completion events_RolloutComplete RolloutMessageCompleted;
          Ret (Some (negb (is_ok r)))
      end
  | _ => Ret (Some true)
  end.

Definition monitor_check (app : Source) : prog (option bool) :=
  let completion := mkCompletion false false in
  if bool_decide (gvk_Kind (src_GVK app) = "Naisjob") then monitorNaisjob app completion
  else monitorApplication app completion.

(** The loop of [monitorRolloutRoutine], in which the timer fires [checks] times
    before the context is cancelled. The completion state is passed to the
    checks by value, so every check starts from the zero state. Returns whether
    the rollout was completed. *)
Fixpoint monitorRolloutRoutine (c : Config) (checks : nat) (app : Source) : prog (option bool) :=
  match checks with
  | O => Ret (Some false)
  | S n =>
      _ ← call (Sleep (RolloutCheckInterval (cfg_Synchronizer c)));
      r ← monitor_check app;
      match r with
      | None => Ret None
      | Some false => Ret (Some true)
      | Some true => monitorRolloutRoutine c n app
      end
  end.
End checks.

(** ** The running monitors *)

(** [github.com/google/uuid]: identifiers, and the number [UUID.ID] takes from one. *)
Class UuidLib := {
  Uuid : Type;
  #[export] Uuid_eq_dec :: EqDecision Uuid;
  uuid_ID : Uuid → Z;
}.

Section monitors.
Context `{UuidLib}.

(** Where a monitoring goroutine is: in its loop, past it but not yet in
    [cancelMonitor], or finished. *)
Inductive phase := Monitoring | Leaving | Finished.

#[export] Instance phase_eq_dec : EqDecision phase.
Proof. solve_decision. Defined.

Record routine := mkRoutine {
  r_key : ObjectKey; r_id : Uuid; r_cancelled : bool; r_phase : phase }.

(** The map [rolloutMonitor], the goroutines started so far, and the keys of the
    [MonitorRollout] calls that are between their two critical sections. *)
Record monitors := mkMonitors {
  m_map : gmap ObjectKey Uuid; m_routines : list routine; m_starting : list ObjectKey }.

Definition initial : monitors := mkMonitors ∅ [] [].

Definition cancel_id (id : Uuid) (r : routine) : routine :=
  if bool_decide (r_id r = id) then mkRoutine (r_key r) (r_id r) true (r_phase r) else r.

(** The goroutine leaves its loop and cancels its own context. *)
Definition leave (id : Uuid) (r : routine) : routine :=
  if bool_decide (r_id r = id) then mkRoutine (r_key r) (r_id r) true Leaving else r.

Definition finish (id : Uuid) (r : routine) : routine :=
  if bool_decide (r_id r = id) then mkRoutine (r_key r) (r_id r) (r_cancelled r) Finished else r.

Definition map_routines (f : routine → routine) (s : monitors) : monitors :=
  mkMonitors (m_map s) (map f (m_routines s)) (m_starting s).

(** [cancelMonitor]: [expected] guards against cancelling a newer monitor. *)
Definition cancelMonitor (k : ObjectKey) (expected : option Uuid) (s : monitors) : monitors :=
  match m_map s !! k with
  | None => s
  | Some id =>
      let skip := match expected with
                  | Some e => bool_decide (uuid_ID id ≠ uuid_ID e)
                  | None => false
                  end in
      if skip then s
      else mkMonitors (delete k (m_map s)) (map (cancel_id id) (m_routines s)) (m_starting s)
  end.

(** The second critical section of [MonitorRollout], and the goroutine. *)
Definition startMonitor (k : ObjectKey) (id : Uuid) (s : monitors) : monitors :=
  mkMonitors (<[k := id]> (m_map s)) (m_routines s ++ [mkRoutine k id false Monitoring])
    (filter (fun k' => k' ≠ k) (m_starting s)).

(** Steps. [MonitorRollout] is called from [Reconcile], which controller-runtime
    never runs twice at the same time for one workload; [uuid.New] may return any
    identifier. A goroutine leaves its loop when its check says so or when it was
    cancelled, and then cancels its own context and removes itself. *)
Inductive step : monitors → monitors → Prop :=
| step_begin k s :
    k ∉ m_starting s →
    step s (let s' := cancelMonitor k None s in
            mkMonitors (m_map s') (m_routines s') (k :: m_starting s'))
| step_start k id s :
    k ∈ m_starting s → step s (startMonitor k id s)
| step_leave r s :
    r ∈ m_routines s → r_phase r = Monitoring → step s (map_routines (leave (r_id r)) s)
| step_exit r s :
    r ∈ m_routines s → r_phase r = Leaving →
    step s (map_routines (finish (r_id r)) (cancelMonitor (r_key r) (Some (r_id r)) s)).

Definition reachable : monitors → Prop := rtc step initial.

(** ** The invariant *)

(** The entries of the map are exactly the monitors that were not cancelled by
    somebody else and have not removed themselves yet. *)
Definition routine_IDs (s : monitors) : list Z := map (fun r => uuid_ID (r_id r)) (m_routines s).

Record monitor_inv (s : monitors) : Prop := {
  inv_ids : NoDup (routine_IDs s);
  inv_entry : ∀ k id, m_map s !! k = Some id →
    ∃ r, r ∈ m_routines s ∧ r_key r = k ∧ r_id r = id ∧ r_phase r ≠ Finished ∧
      (r_phase r = Monitoring → r_cancelled r = false);
  inv_active : ∀ r, r ∈ m_routines s → r_phase r = Monitoring → r_cancelled r = false →
    m_map s !! r_key r = Some (r_id r);
  inv_starting : ∀ k, k ∈ m_starting s → m_map s !! k = None;
}.

Lemma same_id l r r' :
  NoDup (map (fun r => uuid_ID (r_id r)) l) → r ∈ l → r' ∈ l → uuid_ID (r_id r) = uuid_ID (r_id r') → r = r'.
Proof.
  intros Hnd Hr Hr' Heq. apply list_elem_of_lookup in Hr as [i Hi], Hr' as [j Hj].
  assert (i = j) as ->.
  { eapply (NoDup_lookup _ i j (uuid_ID (r_id r)) Hnd); rewrite list_lookup_fmap.
    - by rewrite Hi.
    - rewrite Hj. simpl. by rewrite Heq. }
  congruence.
Qed.

(** The updates of routines leave keys and identifiers alone. *)
Lemma routine_ids f (l : list routine) :
  (∀ r, r_id (f r) = r_id r) → map (fun r => uuid_ID (r_id r)) (map f l) = map (fun r => uuid_ID (r_id r)) l.
Proof. intros Hf. induction l as [|r l IH]; simpl; [done|]. by rewrite Hf, IH. Qed.

Lemma cancel_id_id id r : r_id (cancel_id id r) = r_id r.
Proof. unfold cancel_id. by case_match. Qed.
Lemma leave_id id r : r_id (leave id r) = r_id r.
Proof. unfold leave. by case_match. Qed.
Lemma finish_id id r : r_id (finish id r) = r_id r.
Proof. unfold finish. by case_match. Qed.

Lemma cancelMonitor_inv k e s :
  monitor_inv s → monitor_inv (cancelMonitor k e s).
Proof.
  intros Hinv. unfold cancelMonitor. destruct (m_map s !! k) as [id|] eqn:Hk; [|done].
  destruct (match e with Some _ => _ | None => _ end); [done|].
  destruct (inv_entry s Hinv k id Hk) as (r0 & Hr0 & Hkey0 & Hid0 & _).
  assert (Hother : ∀ r, r ∈ m_routines s → r_id r = id → r = r0).
  { intros r Hr Hid. eapply same_id; [apply Hinv|done..|congruence]. }
  split; simpl.
  - unfold routine_IDs. simpl. rewrite routine_ids by apply cancel_id_id. apply Hinv.
  - intros k' id' [Hne Hk']%lookup_delete_Some.
    destruct (inv_entry s Hinv k' id' Hk') as (r & Hr & Hkey & Hid & Hp & Hc).
    exists r. split_and!; try done. apply list_elem_of_fmap. exists r. split; [|done].
    unfold cancel_id. rewrite bool_decide_eq_false_2; [done|].
    intros Heq. apply Hother in Heq; [|done]. congruence.
  - intros r' (r & -> & Hr)%list_elem_of_fmap. unfold cancel_id. case_bool_decide; [done|].
    intros Hp Hc. pose proof (inv_active s Hinv r Hr Hp Hc) as Hm.
    rewrite lookup_delete_ne; [done|]. intros Heq. congruence.
  - intros k' Hk'%(inv_starting s Hinv). apply lookup_delete_None. by right.
Qed.

Lemma cancelMonitor_removes k s : m_map (cancelMonitor k None s) !! k = None.
Proof.
  unfold cancelMonitor. destruct (m_map s !! k) eqn:Hk; [|done]. simpl. apply lookup_delete_eq.
Qed.

Lemma start_inv k id s :
  monitor_inv s → k ∈ m_starting s → (∀ r, r ∈ m_routines s → uuid_ID (r_id r) ≠ uuid_ID id) →
  monitor_inv (startMonitor k id s).
Proof.
  intros Hinv Hk Hfresh. pose proof (inv_starting s Hinv k Hk) as Hnone. split; simpl.
  - unfold routine_IDs. simpl. rewrite map_app. apply NoDup_app. split_and!; [apply Hinv| |apply NoDup_singleton].
    intros x (r & -> & Hr)%list_elem_of_fmap Hx. apply list_elem_of_singleton in Hx.
    by apply (Hfresh r Hr).
  - intros k' id' [[<- <-]|[Hne Hk']]%lookup_insert_Some.
    + exists (mkRoutine k id false Monitoring). set_solver.
    + destruct (inv_entry s Hinv k' id' Hk') as (r & ? & ?). exists r. set_solver.
  - intros r [Hr|Hr%list_elem_of_singleton]%elem_of_app Hp Hc.
    + pose proof (inv_active s Hinv r Hr Hp Hc). rewrite lookup_insert_ne; [done|]. congruence.
    + subst r. simpl. apply lookup_insert_eq.
  - intros k' [Hne Hk']%list_elem_of_filter. rewrite lookup_insert_ne by done.
    by apply (inv_starting s Hinv).
Qed.

Lemma leave_inv r s :
  monitor_inv s → r ∈ m_routines s → monitor_inv (map_routines (leave (r_id r)) s).
Proof.
  intros Hinv Hr. split; simpl.
  - unfold routine_IDs. simpl. rewrite routine_ids by apply leave_id. apply Hinv.
  - intros k id Hk. destruct (inv_entry s Hinv k id Hk) as (q & Hq & Hkey & Hid & Hp & Hc).
    exists (leave (r_id r) q). split; [apply list_elem_of_fmap; eauto|].
    unfold leave. by case_bool_decide.
  - intros q' (q & -> & Hq)%list_elem_of_fmap. unfold leave. case_bool_decide; [done|].
    by apply (inv_active s Hinv).
  - apply Hinv.
Qed.

Lemma exit_inv r s :
  monitor_inv s → r ∈ m_routines s → r_phase r = Leaving →
  monitor_inv (map_routines (finish (r_id r)) (cancelMonitor (r_key r) (Some (r_id r)) s)).
Proof.
  intros Hinv Hr Hphase. pose proof (cancelMonitor_inv (r_key r) (Some (r_id r)) s Hinv) as Hinv'.
  (* No entry names the leaving goroutine any more. *)
  assert (Hgone : ∀ k, m_map (cancelMonitor (r_key r) (Some (r_id r)) s) !! k ≠ Some (r_id r)).
  { intros k Hk. assert (Hm : m_map s !! k = Some (r_id r)).
    { revert Hk. unfold cancelMonitor. case_match; [|done]. case_match; [done|]. simpl.
      by intros [_ ?]%lookup_delete_Some. }
    destruct (inv_entry s Hinv k _ Hm) as (q & Hq & <- & Hid & _).
    assert (q = r) as -> by (eapply same_id; [apply Hinv|done..|congruence]).
    revert Hk. unfold cancelMonitor. rewrite Hm, bool_decide_eq_false_2 by (intros Hn; by apply Hn).
    simpl. by rewrite lookup_delete_eq. }
  revert Hinv' Hgone. generalize (cancelMonitor (r_key r) (Some (r_id r)) s) as t.
  intros t Hinv' Hgone. split; simpl.
  - unfold routine_IDs. simpl. rewrite routine_ids by apply finish_id. apply Hinv'.
  - intros k id Hk. destruct (inv_entry t Hinv' k id Hk) as (q & Hq & Hkey & Hid & Hp & Hc).
    exists q. split_and!; try done. apply list_elem_of_fmap. exists q. split; [|done].
    unfold finish. rewrite bool_decide_eq_false_2; [done|]. intros Heq. apply (Hgone k). congruence.
  - intros q' (q & -> & Hq)%list_elem_of_fmap. unfold finish. case_bool_decide; [done|].
    by apply (inv_active t Hinv').
  - apply Hinv'.
Qed.

Lemma cancelMonitor_IDs k e s : routine_IDs (cancelMonitor k e s) = routine_IDs s.
Proof.
  unfold cancelMonitor, routine_IDs. case_match; [|done]. case_match; [done|].
  apply routine_ids, cancel_id_id.
Qed.

(** Goroutines are only ever added. *)
Lemma step_IDs s s' : step s s' → routine_IDs s `prefix_of` routine_IDs s'.
Proof.
  intros [k t Hk|k id t Hk|r t Hr Hp|r t Hr Hp].
  - rewrite <-(cancelMonitor_IDs k None t). unfold routine_IDs. simpl. done.
  - unfold routine_IDs. simpl. rewrite map_app. by eexists.
  - unfold routine_IDs. simpl. by rewrite routine_ids by apply leave_id.
  - rewrite <-(cancelMonitor_IDs (r_key r) (Some (r_id r)) t). unfold routine_IDs.
    simpl. by rewrite routine_ids by apply finish_id.
Qed.

Lemma step_inv s s' : monitor_inv s → NoDup (routine_IDs s') → step s s' → monitor_inv s'.
Proof.
  intros Hinv Hnd Hstep. destruct Hstep as [k s Hk|k id s Hk|r s Hr Hp|r s Hr Hp].
  - destruct (cancelMonitor_inv k None s Hinv) as [H1 H2 H3 H4]. split; simpl; try done.
    intros k' [->|Hk']%elem_of_cons; [apply cancelMonitor_removes|by apply H4].
  - apply start_inv; [done..|]. intros r Hr Heq. unfold routine_IDs in Hnd. simpl in Hnd.
    rewrite map_app in Hnd. apply NoDup_app in Hnd as (_ & Hnd & _). apply (Hnd (uuid_ID (r_id r))).
    + apply list_elem_of_fmap. by exists r.
    + rewrite Heq. by left.
  - by apply leave_inv.
  - by apply exit_inv.
Qed.

Lemma reachable_inv s : reachable s → NoDup (routine_IDs s) → monitor_inv s.
Proof.
  unfold reachable. intros Hr. revert s Hr.
  apply (rtc_ind_r (λ s, NoDup (routine_IDs s) → monitor_inv s)); [|intros s s' Hr Hstep IH]; intros Hnd.
  - split; simpl; try done; constructor || set_solver.
  - apply (step_inv s s'); [|done..]. apply IH. destruct (step_IDs s s' Hstep) as [l Hl].
    rewrite Hl in Hnd. by apply NoDup_app in Hnd as (? & _).
Qed.

(** ** Properties *)

(** C14. However the reconciliations and the goroutines interleave, and as long as the
    identifiers drawn so far differ in the 32 bits that are compared: at most one
    goroutine monitors a workload at any time without having been cancelled (a cancelled
    one may still be finishing its check); a goroutine that was superseded does not
    remove its successor when it exits; and when every goroutine has finished, the map
    is empty (no monitor leaks). *)
Theorem one_monitor_per_workload s :
  reachable s → NoDup (routine_IDs s) →
  (∀ r1 r2, r1 ∈ m_routines s → r2 ∈ m_routines s → r_key r1 = r_key r2 →
     r_phase r1 = Monitoring → r_phase r2 = Monitoring →
     r_cancelled r1 = false → r_cancelled r2 = false → r1 = r2) ∧
  (∀ r id, r ∈ m_routines s → m_map s !! r_key r = Some id → id ≠ r_id r →
     cancelMonitor (r_key r) (Some (r_id r)) s = s) ∧
  ((∀ r, r ∈ m_routines s → r_phase r = Finished) → m_map s = ∅).
Proof.
  intros Hs Hnd. pose proof (reachable_inv s Hs Hnd) as Hinv. split_and!.
  - intros r1 r2 H1 H2 Hk P1 P2 C1 C2.
    pose proof (inv_active s Hinv r1 H1 P1 C1) as M1.
    pose proof (inv_active s Hinv r2 H2 P2 C2) as M2.
    eapply same_id; [apply Hinv|done..|congruence].
  - intros r id Hr Hm Hne. unfold cancelMonitor. rewrite Hm, bool_decide_eq_true_2; [done|].
    destruct (inv_entry s Hinv _ _ Hm) as (q & Hq & _ & Hid & _). intros Heq. apply Hne.
    assert (q = r) by (eapply same_id; [apply Hinv|done..|congruence]). congruence.
  - intros Hall. apply map_empty. intros k. destruct (m_map s !! k) as [id|] eqn:Hk; [|done].
    destruct (inv_entry s Hinv k id Hk) as (r & Hr & _ & _ & Hp & _). by apply Hall in Hr.
Qed.
End monitors.

Section properties.
Context `{L : Liberator} `{!LiberatorStatusLaws L} `{AM : ApiMachinery}.
Context {W : Type} `{ApiServerLaws W}.

Lemma completeRolloutRoutine_ok app rolloutStatus msg (w : W) w' :
  run (completeRolloutRoutine app (mkCompletion false false) rolloutStatus msg) w = (Ok tt, w') →
  ∃ s, stored w' (workload_type (src_Kind app)) (source_key app) = Some (source_object s) ∧
    st_SynchronizationState (src_Status s) = rolloutStatus.
Proof.
  unfold completeRolloutRoutine. cbn [saveK8sEvent eventReported negb]. run_step.
  call_case [t w1]. run_step.
  destruct (run (reportEvent _) w1) as [[ev|e] w2]; cbn [run]; [|done].
  cbn [setSynchronizationState applicationUpdated eventReported negb andb].
  unfold UpdateResource. run_step.
  pose proof (get_source_ok (src_Kind app) (source_key app) w2) as Hget.
  destruct (run (get_source _ _) w2) as [[existing|e] w3]; cbn [run]; [|done].
  specialize (Hget existing eq_refl). apply server_stored_type in Hget as [Ht Hk].
  unfold update_status. run_step.
  pose proof (server_status_ok (setSyncStatus rolloutStatus existing) w3) as Hok.
  call_case [[o|e] w4]; cbn [run]; intros; simplify_eq.
  destruct (Hok o eq_refl) as (s & Hs & Hst). exists s. split.
  - rewrite <-Ht, <-Hk. exact Hs.
  - rewrite Hst. apply SetState_state.
Qed.

(** C22. A check of an application ends its monitoring only when the rollout is
    complete: the application's Deployment, as read from the cluster, has all its desired
    replicas updated and available and no others, and observed its last generation; and
    by then the application itself is stored with the state RolloutComplete (so that a
    restart does not monitor it again). (Otherwise the loop goes on until it is
    cancelled; a Naisjob is complete at its first successful check.) *)
Theorem monitorApplication_complete app (w : W) w' :
  run (monitorApplication app (mkCompletion false false)) w = (Some false, w') →
  (∃ gvk meta spec status replicas,
     stored w TDeployment (source_key app) = Some (mkObject gvk meta (BDeployment spec status)) ∧
     ds_Replicas spec = Some replicas ∧
     dst_UpdatedReplicas status = replicas ∧ dst_Replicas status = replicas ∧
     dst_AvailableReplicas status = replicas ∧ (Generation meta ≤ dst_ObservedGeneration status)%Z) ∧
  ∃ s, stored w' (workload_type (src_Kind app)) (source_key app) = Some (source_object s) ∧
    st_SynchronizationState (src_Status s) = events_RolloutComplete.
Proof.
  unfold monitorApplication. run_step.
  pose proof (server_get_ok TDeployment (source_key app) w) as Hget.
  call_case [[[gvk meta body]|e] w1]; cbn [run]; [|done].
  destruct body; cbn [run]; try done.
  destruct (applicationDeploymentComplete meta spec status) as [[]|] eqn:Hc; cbn [run]; [|done..].
  run_step.
  destruct (run (completeRolloutRoutine _ _ _ _) w1) as [[[]|e] w2] eqn:Hr; cbn; intros; simplify_eq.
  split; [|by eapply completeRolloutRoutine_ok].
  unfold applicationDeploymentComplete in Hc.
  destruct (ds_Replicas spec) as [n|] eqn:Hn; simpl in Hc; [|done]. simplify_eq. bool_case.
  do 5 eexists. split; [by apply Hget|]. split_and!; done.
Qed.
End properties.

(** ** Witnesses *)

Section witnesses.
Local Existing Instances sample_machinery sample_liberator list_finalizers sample_liberator_laws.

Local Instance nat_uuid : UuidLib := {| Uuid := nat; uuid_ID := Z.of_nat |}.

Definition nth_uuid (n : nat) : Uuid := n.

(** Two reconciliations of one workload: the second cancels the monitor the
    first started. *)
Definition superseded : monitors :=
  let k := mkKey "team-a" "myapp" in
  mkMonitors {[ k := (nth_uuid 2) ]}
    [mkRoutine k (nth_uuid 1) true Monitoring; mkRoutine k (nth_uuid 2) false Monitoring] [].

Lemma superseded_reachable : reachable superseded.
Proof.
  set (k := mkKey "team-a" "myapp").
  eapply rtc_l; [apply (step_begin k); apply not_elem_of_nil|].
  eapply rtc_l; [apply (step_start k (nth_uuid 1)); by left|].
  eapply rtc_l; [apply (step_begin k); vm_compute; inversion 1|].
  eapply rtc_l; [apply (step_start k (nth_uuid 2)); by left|].
  vm_compute. apply rtc_refl.
Qed.

Lemma one_monitor_per_workload_witness :
  cancelMonitor (mkKey "team-a" "myapp") (Some (nth_uuid 1)) superseded = superseded.
Proof.
  refine (proj1 (proj2 (one_monitor_per_workload superseded superseded_reachable _))
           (mkRoutine (mkKey "team-a" "myapp") (nth_uuid 1) true Monitoring) (nth_uuid 2) _ _ _);
    [apply (bool_decide_unpack _); vm_compute; exact I|by left|reflexivity|discriminate].
Defined.

Definition rolled_out : Object :=
  mkObject (mkGVK "apps" "v1" "Deployment") (SetNamespace "team-a" (SetName "myapp" emptyMeta))
    (BDeployment (mkDeploymentSpec (Some 2%Z) (mkSelector ∅) RecreateStrategy None None
                    (mkPodTemplate emptyMeta emptyPodSpec)) (mkDeploymentStatus 2 2 2 0)).

Lemma monitorApplication_complete_witness :
  ∃ s, stored (run (monitorApplication sample_app (mkCompletion false false))
      (mem_of [source_object sample_app; rolled_out])).2 TApplication (mkKey "team-a" "myapp") =
      Some (source_object s) ∧
    st_SynchronizationState (src_Status s) = "RolloutComplete".
Proof.
  destruct (run (monitorApplication sample_app (mkCompletion false false))
      (mem_of [source_object sample_app; rolled_out])) as [r w'] eqn:Hrun.
  assert (Hr : (run (monitorApplication sample_app (mkCompletion false false))
      (mem_of [source_object sample_app; rolled_out])).1 = Some false) by (vm_compute; reflexivity).
  rewrite Hrun in Hr. simpl in Hr. subst r.
  exact (proj2 (monitorApplication_complete _ _ _ Hrun)).
Defined.

(** The completion state does not survive a check. When storing the status
    fails, the next check reports the completion event a second time: the stored
    event counts two although the rollout completed once. *)
Definition event_counts (w : Mem) : list Z :=
  omap (fun o => match o_Body o with BEvent e => Some (evt_Count e) | _ => None end) (mem_objs w).

Example completion_event_repeated :
  let w := mkMem [source_object sample_app; rolled_out] 0 1
             [None; None; None; None; None; None; Some (mkError "down" (ReasonOther "Timeout") None)] in
  (run (monitorRolloutRoutine sample_config 2 sample_app) w).1 = Some true ∧
  event_counts (run (monitorRolloutRoutine sample_config 2 sample_app) w).2 = [2%Z].
Proof. vm_compute. done. Qed.
End witnesses.

(** ** Identifiers that collide *)

Section collision.

(** Two different identifiers with the same first 32 bits. *)
#[local] Instance same_prefix_uuid : UuidLib := {| Uuid := bool; uuid_ID _ := 7%Z |}.

Definition bool_uuid (b : bool) : Uuid := b.

(** Two reconciliations of one workload, as in [superseded]. *)
Definition collided : monitors :=
  let k := mkKey "team-a" "myapp" in
  mkMonitors {[ k := bool_uuid true ]}
    [mkRoutine k (bool_uuid false) true Monitoring; mkRoutine k (bool_uuid true) false Monitoring] [].

(** The hypothesis of C14 is needed: here the superseded goroutine removes its successor
    from the map and cancels it when it exits. *)
Example collision_cancels_successor :
  reachable collided ∧
  let s := cancelMonitor (mkKey "team-a" "myapp") (Some (bool_uuid false)) collided in
  m_map s = ∅ ∧ map r_cancelled (m_routines s) = [true; true].
Proof.
  split.
  - set (k := mkKey "team-a" "myapp").
    eapply rtc_l; [apply (step_begin k); apply not_elem_of_nil|].
    eapply rtc_l; [apply (step_start k (bool_uuid false)); by left|].
    eapply rtc_l; [apply (step_begin k); vm_compute; inversion 1|].
    eapply rtc_l; [apply (step_start k (bool_uuid true)); by left|].
    vm_compute. apply rtc_refl.
  - split; [|vm_compute; reflexivity]. apply (bool_decide_unpack _). vm_compute. exact I.
Qed.
End collision.
